(* ===== verification/_CoqProject ===== *)
-Q . S2P
Prelude.v
JsVal.v
Json.v
Stores.v
View.v
Library.v
FormFields.v
Charts.v
World.v
Wp.v
Navigation.v
RoomInit.v
ChatSocket.v
RoomEvents.v
RoundTimer.v
ProblemCount.v
RoomChoice.v
RoomForms.v
Leaderboard.v
Statistics.v
Toolbar.v
Session.v
Settings.v
Panel.v
Observers.v
FormViews.v
RoomViews.v
PanelViews.v
RateLimit.v
Gateway.v
GatewaySpec.v
Server.v
Logging.v
Worker.v
WorkerConn.v
ContentScript.v
Screen.v
Extension.v
EndToEnd.v
WebApp.v
WebViews.v
WebPages.v
BuildScript.v
