(* ===== verification/Prelude.v ===== *)
(** * BSG: a verification development

    BSG (Binary Search Gang) turns LeetCode into a game: the members of a room get
    a round of problems, solve them against the clock on LeetCode's own pages, chat,
    and are ranked.  The repository holds a browser extension (a Next.js panel, a service worker,
    a content script), a gateway in Node, Go services behind it, and an older web application.
    This library models the extension, the gateway, and what keeps a state in the web application.

    ** The parts, and how they interact

    - The _panel_ (src/bsg-frontend/apps/extension) is a React application in a frame over
      the LeetCode page.  Its hooks call the gateway over HTTP and keep a WebSocket to rtc-service; they share
      zustand stores and [chrome.storage].
    - The _worker_ (src/bsg-frontend/extension/background.js) gets messages from the panel and from the
      content script, keeps the touched problems of the round and the submissions without a verdict, sends accepted
      submissions to the gateway, and has a connection to rtc-service of its own.
    - The _content script_ (extension/contentScript.js, with injected.js in the page's own world)
      places the panel, reports the problems the user works on, and intercepts the submissions.
    - The _gateway_ (src/server/src) knows the session, limits the rates, and passes requests on to
      central-service with the user's identity; it scores submissions and publishes them to GitHub.

    ** The files

    Foundations:
    - [Prelude]: automation, and the functions of JavaScript strings and lists with their laws.
    - [JsVal]: JavaScript values, exceptions, and the monad [M] of handlers: state, result or thrown value.
    - [Json]: [JSON.stringify] and [JSON.parse], with the interface [JsonCodec] that the clients use.
    - [Stores]: stores/*.ts and packages/models/*.ts, one function per action.
    - [World]: what the panel's handlers share: stores, storage, tab, clock, the answers to come, the log of effects.
    - [Wp]: a weakest-precondition calculus for handlers; [same_stores], an equivalence with its [Proper] instances.

    The panel (hooks/, customComponents/ and pages/ below apps/extension):
    - [Navigation]: utils/navigation.ts and the door for automatic moves of the tab in useRoomEvents.ts.
    - [RoomInit]: useRoomInit.ts: create, join and restore a room.
    - [ChatSocket]: useChatSocket.ts: connection, join protocol, frames, composer, groups.
    - [RoomEvents]: useRoomEvents.ts: start, move, end and leave of a round.
    - [RoundTimer]: useRoundTimer.ts.
    - [ProblemCount]: useProblemCountStore.ts and the counting effect of useRoomChoice.ts.
    - [RoomChoice]: useRoomChoice.ts and the tabs of the create form.
    - [RoomForms]: useJoinRoom.ts, useProblemPicker.ts and their views.
    - [Leaderboard]: useLeaderboard.ts with its overlapping requests, LeaderboardDisplay.tsx.
    - [Statistics]: useStatistics.ts, StatisticsDisplay.tsx.
    - [Toolbar]: Toolbar.tsx, ProblemProgress.tsx, useTouchedProblems.ts.
    - [Session]: config.ts, useLogin.ts, useSessionInit.ts, useGitHubConnection.ts.
    - [Settings]: useSettingsStore.ts, SettingsDisplay.tsx, NotificationToggle.tsx.
    - [Panel]: _app.tsx, the bars, room-page.tsx, the views of the participants and the chat, as far as they keep a state.
    - [Observers]: useIsOverflowed.ts, useIsScrolled.ts and the other observers and listeners that follow an element.

    What the panel renders (the same folders):
    - [View]: React elements as data; what can be read ([texts]) and operated ([controls]) on them; the interface [WidgetLaws] of what
      the elements of the component library may report; small components that the pages share.
    - [FormViews]: the pages before a room: start, login, popup, the join form, the create form with its tabs and sections.
    - [RoomViews]: the room page with its five tabs: participants, chat, leaderboard, statistics, settings.
    - [PanelViews]: the bars, the footer, the toolbar, the progress bar, and _app.tsx around the page.

    The component library (packages/components/ui):
    - [Library], Module [Lib]: each component as the elements it renders, and [expand], which puts them in the place of their names.
    - [FormFields]: the errors of field.tsx, and form.tsx; [Charts]: chart.tsx.

    The gateway (src/server/src):
    - [RateLimit]: middleware/rate-limit.js and logging.js, over the classes [RedisClient] and [RedisLaws].
    - [Gateway]: index.js, routes/*.js, config/*.js, over the classes [Express] and [ExpressLaws].
    - [GatewaySpec]: its theorems.
    - [Server]: the start, the middlewares in front (cors.js, the session cookie), what passport registers, and a browser's page that calls.
    - [Logging]: the logger of middleware/logging.js and the middleware that wraps the methods of a response.

    The worker and the content script (src/bsg-frontend/extension):
    - [Worker], Module [BG]: background.js and offscreen.js; [WorkerConn]: theorems about its connection.
    - [ContentScript], Module [CS]: contentScript.js and injected.js.

    Composition:
    - [Extension]: content script, worker and panel together.
    - [Screen]: the panel as it is rendered in the frame that the content script moves.
    - [EndToEnd]: the requests of panel and worker as the gateway gets them.

    The web application (src/bsg-frontend/apps/web, packages/components/customComponents):
    - [WebApp], Module [Web]: the dashboard, the lists and their pages, the room form, the forms of sign-in and sign-up.
    - [WebViews]: the same as they are rendered, with the live statistics and the navigation bar.
    - [WebPages]: the pages that have no state, and where the links of the site lead.

    The build:
    - [BuildScript]: scripts/extract-inline.ts over the files of the exported panel.

    ** How code becomes a definition

    A function of the source is a definition of the same name.  A handler is a computation of [M S]: an
    [await] of a request takes the next answer of the list in the state, a failed
    one throws, [try]/[catch]/[finally] are [try_catch] and [finally].  A hook whose effects, timers or requests
    overlap is a machine: a state, an inductive type of what can happen to it, and a step function;
    the theorems are about every sequence of events ([fold_left] of the step).  A store is a record.
    Data of the server or of the storage is a [Val]; reading a field of
    [undefined] throws as it does in the language.  A component is a function from props and state to a [View]
    whose handlers are the events of the machine of its hook; it throws where the render does, and its theorems are about
    what a user can read and reach on it.

    ** The theorems

    - Rounds: a start that is replayed to a reloaded panel does not move the tab off a problem of the round
      ([replayed_start_stays]); a round is not both running and ended ([round_exclusive]); leaving
      ([leave_outcome]).
    - Rooms: the outcomes of creating, joining and restoring a room, for every answer of the server ([createRoom_outcome],
      [joinRoom_outcome], [checkActiveRoom_sound]), and of the router behind it; the requests and pauses of the
      retries ([checkActiveRoom_backoff]).
    - Chat: the invariant of the connection over all events ([chat_run_invariant]), what the close of a replaced
      connection does to the new one ([stale_close_strands]), the join race ([join_open_race]), sending ([submit_acknowledged]), grouping against a reference ([groupedMessages_unique]),
      the unread mark ([chat_seen]).
    - Forms: the invariant of the filters ([form_invariant]) for whatever is operated on the screen ([screen_keeps_form]), what leaves
      the form ([primary_submits]) and after how many clicks ([five_clicks_create]),
      the count that belongs to the filters on show ([count_shown], [key_same_selection]).
    - Data of the tabs: only the latest request of the board counts ([leaderboard_latest]), the solve times
      ([solve_stats_spec]).
    - The screen: the whole board ([board_on_screen]) and the whole chat ([chat_on_screen]) can be read, one tab at a time
      ([one_display]), and the tab that is clicked is the one that is shown, also in the folded panel ([tab_opens]).
    - The library: a page keeps its texts and its controls when the components take the place of their names
      ([library_shows_pages]); the errors of a field ([errors_shown_once]) and its wiring ([field_wired]); charts ([chart_drawn], [tooltip_texts]);
      observers and listeners follow the element on the screen ([bars_follow_element], [textarea_height], [first_content]).
    - Session: [session_restored_once], [login_polls], [logout_outcome].
    - Worker: the queue of touched problems refines a set per round ([touched_refines], [touched_kept]);
      what is submitted was reported by the page and accepted ([submission_authentic], [submission_scored]);
      the connection is in the room the storage names ([worker_joined]).
    - Content script: bounds and restoration of the panel's width ([panel_bounds], [panel_size_restored]), and
      the reports ([touches_reported]).
    - Gateway: nothing for strangers ([strangers_refused]); proxies that are faithful ([panel_calls_forwarded]);
      the course of a submission ([submission_outcome]); rate limits ([burst_respected], [sliding_exact]); sign-out and
      tokens ([logout_ends_session], [account_kept_or_revoked]); the log, which changes no answer ([requests_traced]); which pages can use it
      ([who_may_call]), and that the providers are sent back to it ([callbacks_routed]).
    - Composition: from the editor to the worker's request ([solution_scored]) and on to the services
      ([solution_delivered]); from the editor to the progress bar ([worked_on_is_yellow]); a new room
      ([creation_delivered]).
    - Web application: the dashboard shows what it should of what it knows ([dashboard_filtered], [dashboard_on_screen]), the
      room form is well-formed ([room_form_typed]) for whatever is operated in its dialog ([room_dialog_typed]); the links that no page answers ([links_answered])
      and the pages that can be reached ([site_reachable]).
    - Build: the pages of the extension run their scripts in order, from files, and none inline; what the pages lose to each other is in its statement ([extracted_scripts]).

    Lemmas without hypotheses that state in a concrete run document surprises of the code (for instance
    [overlapping_submission_lost], [stale_close_leaks], [reloaded_maximized_stuck], [unfold_maximized_stuck], [token_dangles],
    [aborted_sets_error], [shown_anew_creates_twice], [room_id_escapes]).

    ** Bounds and fuel

    The reader of [Json] has as fuel the length of its text, which [parse_stringify_data] shows to be enough for every
    text the writer produces.  Every other recursion is structural; the retries of [checkActiveRoom_at] count down from
    the number the code has, and no theorem has a bound on the number of events.  Numbers of JavaScript are
    integers where the code uses whole numbers, and exact rationals for the widths of the panel.

    ** Not modelled

    Styling that does not depend on a condition; the drawing of recharts, whose data is modelled; an object rendered as a child, which
    React refuses: views read it as a value, and the theorem about the one page that renders values of a service as they
    are ([dashboard_on_screen]) has the condition that they are texts.  The text of the privacy policy, and the Firebase context, which renders nothing.
    Configuration that is read at build time.  The packages: the primitives of Radix and Base UI, react-hook-form and recharts,
    Express, the package cors, Redis, which are elements, classes with laws or arguments.  A browser, as far as [Server] needs one, follows the Fetch standard.
    The Go services, whose answers are arbitrary in every theorem.  The OAuth exchange of passport and the reading of a session and of a body
    come with a request of the gateway. *)

From stdpp Require Export base list gmap strings sorting.
From Stdlib Require Export ZArith Lia.
From Stdlib Require Import Ascii DecimalString DecimalZ.

Declare Scope js_scope.
Delimit Scope js_scope with js.

(** ** Automation *)

(** [js_cases] splits every [match] or [decide] left in the goal or the
    hypotheses and closes the branches that are contradictory. *)
Ltac js_cases :=
  repeat (case_match || case_decide; simplify_eq/=; try done).

(** [js_bool] turns the boolean tests of the source into propositions. *)
Ltac js_bool :=
  repeat match goal with
  | H : (_ && _) = true |- _ => apply andb_prop in H; destruct H
  | H : (_ || _) = false |- _ => apply orb_false_elim in H; destruct H
  | H : negb _ = true |- _ => apply negb_true_iff in H
  | H : negb _ = false |- _ => apply negb_false_iff in H
  | H : (_ <? _)%Z = true |- _ => apply Z.ltb_lt in H
  | H : (_ <? _)%Z = false |- _ => apply Z.ltb_ge in H
  | H : (_ <=? _)%Z = true |- _ => apply Z.leb_le in H
  | H : (_ <=? _)%Z = false |- _ => apply Z.leb_gt in H
  | H : (_ =? _)%Z = true |- _ => apply Z.eqb_eq in H
  | H : (_ =? _)%Z = false |- _ => apply Z.eqb_neq in H
  | H : String.eqb _ _ = true |- _ => apply String.eqb_eq in H
  | H : String.eqb _ _ = false |- _ => apply String.eqb_neq in H
  | H : bool_decide _ = true |- _ => apply bool_decide_eq_true in H
  | H : bool_decide _ = false |- _ => apply bool_decide_eq_false in H
  end.

Create HintDb js.
Create Rewrite HintDb jsr.

(** ** Strings

    A JavaScript string is modelled by stdpp's [string], one [ascii] per code
    unit; the functions below are the [String.prototype] methods the panel
    calls. *)

Fixpoint str_app_list (l : list string) (sep : string) : string :=
  match l with
  | [] => ""
  | [s] => s
  | s :: l => s +:+ sep +:+ str_app_list l sep
  end.

(** [l.join(sep)] *)
Definition join (sep : string) (l : list string) : string := str_app_list l sep.

(** [s.startsWith(p)] *)
Fixpoint starts_with (p s : string) : bool :=
  match p, s with
  | EmptyString, _ => true
  | String a p, String b s => Ascii.eqb a b && starts_with p s
  | String _ _, EmptyString => false
  end.

(** [s.includes(sub)] *)
Fixpoint str_includes (sub s : string) : bool :=
  starts_with sub s ||
  match s with
  | EmptyString => false
  | String _ s => str_includes sub s
  end.

(** [s.slice(0, n)], also [s.substring(0, n)] for [n] not negative *)
Fixpoint str_take (n : nat) (s : string) : string :=
  match n, s with
  | S n, String a s => String a (str_take n s)
  | _, _ => ""
  end.

(** [s.slice(n)] *)
Fixpoint str_drop (n : nat) (s : string) : string :=
  match n, s with
  | 0, _ => s
  | S n, String _ s => str_drop n s
  | S _, EmptyString => ""
  end.

Fixpoint str_forall (P : ascii -> bool) (s : string) : bool :=
  match s with
  | EmptyString => true
  | String a s => P a && str_forall P s
  end.

(** [for (const c of s) acc = f(acc, c)] *)
Fixpoint str_fold {A} (f : A -> ascii -> A) (acc : A) (s : string) : A :=
  match s with
  | EmptyString => acc
  | String a s => str_fold f (f acc a) s
  end.

(** Longest prefix whose code units satisfy [P], and the rest. *)
Fixpoint str_span (P : ascii -> bool) (s : string) : string * string :=
  match s with
  | EmptyString => ("", "")
  | String a s' =>
      if P a then let '(p, r) := str_span P s' in (String a p, r) else ("", s)
  end.

(** The white space [String.prototype.trim] removes (tab to carriage return,
    space, no-break space). *)
Definition is_ws (a : ascii) : bool :=
  let n := Ascii.nat_of_ascii a in
  ((9 <=? n) && (n <=? 13)) || (n =? 32) || (n =? 160).

Fixpoint trim_start (s : string) : string :=
  match s with
  | String a s' => if is_ws a then trim_start s' else s
  | EmptyString => ""
  end.

(** Drops the trailing white space. *)
Fixpoint trim_end (s : string) : string :=
  match s with
  | EmptyString => ""
  | String a s' =>
      match trim_end s' with
      | EmptyString => if is_ws a then "" else String a ""
      | t => String a t
      end
  end.

(** [s.trim()] *)
Definition trim (s : string) : string := trim_end (trim_start s).

(** [s.split(c)] for a separator of one code unit: never empty. *)
Fixpoint split_on (c : ascii) (s : string) : list string :=
  match s with
  | EmptyString => [""]
  | String a s' =>
      if Ascii.eqb a c then "" :: split_on c s'
      else match split_on c s' with
           | w :: ws => String a w :: ws
           | [] => [String a ""]
           end
  end.

Definition upper_ascii (a : ascii) : ascii :=
  let n := Ascii.nat_of_ascii a in
  if (97 <=? n) && (n <=? 122) then Ascii.ascii_of_nat (n - 32) else a.

Definition lower_ascii (a : ascii) : ascii :=
  let n := Ascii.nat_of_ascii a in
  if (65 <=? n) && (n <=? 90) then Ascii.ascii_of_nat (n + 32) else a.

Fixpoint str_map (f : ascii -> ascii) (s : string) : string :=
  match s with
  | EmptyString => ""
  | String a s => String (f a) (str_map f s)
  end.

(** [toUpperCase] and [toLowerCase] on the unaccented letters. *)
Definition to_upper : string -> string := str_map upper_ascii.
Definition to_lower : string -> string := str_map lower_ascii.

(** [String(n)] and [`${n}`] for an integral number. *)
Definition z_str (z : Z) : string := NilZero.string_of_int (Z.to_int z).

(** The inverse of [z_str]. *)
Definition z_of_str (s : string) : option Z := Z.of_int <$> NilZero.int_of_string s.

#[global] Arguments String.eqb : simpl never.
#[global] Arguments Z.eqb : simpl never.
#[global] Arguments Z.ltb : simpl never.
#[global] Arguments Z.leb : simpl never.
#[global] Arguments Z.add : simpl never.
#[global] Arguments Z.mul : simpl never.
#[global] Arguments starts_with : simpl nomatch.

(** [l.includes(s)] *)
Definition includes (l : list string) (s : string) : bool := existsb (String.eqb s) l.

Lemma includes_spec (l : list string) (s : string) : includes l s = true <-> s ∈ l.
Proof.
  unfold includes. rewrite existsb_exists, list_elem_of_In. split.
  - intros (x & Hx & Heq). by apply String.eqb_eq in Heq as ->.
  - intros H. exists s. by rewrite String.eqb_refl.
Qed.

(** ** Lemmas on strings *)

Lemma str_app_length (s t : string) :
  String.length (s +:+ t) = String.length s + String.length t.
Proof. induction s as [|a s IH]; [done|]. unfold String.app in *; cbn. by rewrite IH. Qed.

Lemma str_app_nil_l (s : string) : "" +:+ s = s.
Proof. done. Qed.

Lemma str_app_nil_r (s : string) : s +:+ "" = s.
Proof. induction s as [|a s IH]; [done|]. unfold String.app in *; cbn. by rewrite IH. Qed.

Lemma str_app_assoc (s t u : string) : (s +:+ t) +:+ u = s +:+ t +:+ u.
Proof. induction s as [|a s IH]; [done|]. unfold String.app in *; cbn. by rewrite IH. Qed.

Lemma str_app_cons (a : ascii) (s t : string) : String a s +:+ t = String a (s +:+ t).
Proof. done. Qed.

Lemma str_take_length (n : nat) (s : string) :
  String.length (str_take n s) = n `min` String.length s.
Proof. revert s; induction n as [|n IH]; intros [|a s]; cbn; auto. Qed.

Lemma str_take_all (n : nat) (s : string) : String.length s <= n -> str_take n s = s.
Proof.
  revert s; induction n as [|n IH]; intros [|a s]; cbn; intros; try done; try lia.
  f_equal; apply IH; lia.
Qed.

Lemma str_take_drop (n : nat) (s : string) : str_take n s +:+ str_drop n s = s.
Proof.
  revert s; induction n as [|n IH]; intros [|a s]; try done.
  cbn [str_take str_drop]. rewrite str_app_cons. by rewrite IH.
Qed.

Lemma str_drop_app (s t : string) : str_drop (String.length s) (s +:+ t) = t.
Proof. by induction s. Qed.

Lemma starts_with_spec (p s : string) : starts_with p s = true <-> exists r, s = p +:+ r.
Proof.
  revert s; induction p as [|a p IH]; intros s; [split; eauto|].
  destruct s as [|b s]; cbn [starts_with].
  - split; [done|]. intros [r ?]; done.
  - rewrite andb_true_iff, IH, Ascii.eqb_eq. split.
    + intros [-> [r ->]]; by exists r.
    + intros [r Hr]. rewrite str_app_cons in Hr. simplify_eq. eauto.
Qed.

Lemma starts_with_app (p r : string) : starts_with p (p +:+ r) = true.
Proof. apply starts_with_spec; eauto. Qed.

Lemma str_includes_spec (sub s : string) :
  str_includes sub s = true <-> exists p r, s = p +:+ sub +:+ r.
Proof.
  revert sub; induction s as [|a s IH]; intros sub; cbn [str_includes].
  - rewrite orb_false_r, starts_with_spec. split.
    + intros [r Hr]. by exists "", r.
    + intros (p & r & Hr). destruct p; [eauto|done].
  - rewrite orb_true_iff, starts_with_spec, IH. split.
    + intros [[r Hr]|(p & r & ->)]; [by exists "", r|by exists (String a p), r].
    + intros (p & r & Hr). destruct p as [|b p]; [left; eauto|].
      right. rewrite str_app_cons in Hr. simplify_eq. eauto.
Qed.

Lemma str_includes_app (p sub r : string) : str_includes sub (p +:+ sub +:+ r) = true.
Proof. apply str_includes_spec; eauto. Qed.

Lemma str_forall_app (P : ascii -> bool) (s t : string) :
  str_forall P (s +:+ t) = str_forall P s && str_forall P t.
Proof.
  induction s as [|a s IH]; [done|]. rewrite str_app_cons; cbn.
  by rewrite IH, andb_assoc.
Qed.

Lemma str_span_app (P : ascii -> bool) (s : string) :
  let '(p, r) := str_span P s in s = p +:+ r /\ str_forall P p = true.
Proof.
  induction s as [|a s IH]; [done|]. cbn. destruct (P a) eqn:Ha; [|done].
  destruct (str_span P s) as [p r]; destruct IH as [-> Hp].
  rewrite str_app_cons; cbn. by rewrite Ha.
Qed.

(** The span of [s +:+ r] is [s] when [r] starts outside [P]. *)
Lemma str_span_stop (P : ascii -> bool) (s r : string) :
  str_forall P s = true ->
  match r with String a _ => P a = false | EmptyString => True end ->
  str_span P (s +:+ r) = (s, r).
Proof.
  intros Hs Hr. induction s as [|a s IH].
  - rewrite str_app_nil_l. destruct r as [|b r]; cbn; [done|]. by rewrite Hr.
  - rewrite str_app_cons. cbn in *. destruct (P a); [|done]. by rewrite IH.
Qed.

Lemma split_on_ne (c : ascii) (s : string) : split_on c s <> [].
Proof. destruct s as [|a s]; cbn; [done|]. destruct (Ascii.eqb a c); [done|]. by destruct (split_on c s). Qed.

Lemma split_on_no_sep (c : ascii) (s : string) :
  str_forall (fun a => negb (Ascii.eqb a c)) s = true -> split_on c s = [s].
Proof.
  induction s as [|a s IH]; [done|]; cbn. rewrite andb_true_iff, negb_true_iff.
  intros [-> Hs]. by rewrite IH.
Qed.

Lemma split_on_app (c : ascii) (s t : string) :
  str_forall (fun a => negb (Ascii.eqb a c)) s = true ->
  split_on c (s +:+ String c t) = s :: split_on c t.
Proof.
  induction s as [|a s IH].
  - intros _. rewrite str_app_nil_l. cbn. by rewrite Ascii.eqb_refl.
  - rewrite str_app_cons; cbn. rewrite andb_true_iff, negb_true_iff.
    intros [-> Hs]. by rewrite IH.
Qed.

Lemma join_one sep s : join sep [s] = s.
Proof. done. Qed.

Lemma join_cons2 sep s t l : join sep (s :: t :: l) = s +:+ sep +:+ join sep (t :: l).
Proof. done. Qed.

(** [l.join(c).split(c)] is [l], for words without the separator. *)
Lemma split_join (c : ascii) (l : list string) :
  l <> [] ->
  Forall (fun s => str_forall (fun a => negb (Ascii.eqb a c)) s = true) l ->
  split_on c (join (String c "") l) = l.
Proof.
  intros Hne Hl. induction Hl as [|s l Hs Hl IH]; [done|].
  destruct l as [|t l]; [by apply split_on_no_sep|].
  rewrite join_cons2, str_app_cons, str_app_nil_l, split_on_app by done. f_equal. by apply IH.
Qed.

(** A word without [c] after the last [c] is determined by the whole. *)
Lemma last_sep_inj (c : ascii) (a b s t : string) :
  str_forall (fun x => negb (Ascii.eqb x c)) s = true ->
  str_forall (fun x => negb (Ascii.eqb x c)) t = true ->
  a +:+ String c s = b +:+ String c t -> a = b /\ s = t.
Proof.
  intros Hs Ht. revert b; induction a as [|x a IH]; intros [|y b]; rewrite ?str_app_cons, ?str_app_nil_l;
    intros Heq; simplify_eq; try done.
  - exfalso. rewrite str_forall_app in Hs. apply andb_prop in Hs as [_ Hs]. cbn in Hs.
    by rewrite Ascii.eqb_refl in Hs.
  - exfalso. rewrite str_forall_app in Ht. apply andb_prop in Ht as [_ Ht]. cbn in Ht.
    by rewrite Ascii.eqb_refl in Ht.
  - destruct (IH b) as [-> ->]; done.
Qed.

Lemma z_of_str_z_str (z : Z) : z_of_str (z_str z) = Some z.
Proof.
  assert (Hn : forall d, Z.of_int d = 0%Z -> Z.to_int z = d -> z = 0%Z).
  { intros d Hd H. pose proof (DecimalZ.of_to z). congruence. }
  destruct (decide (z = 0%Z)) as [->|Hz]; [done|].
  unfold z_of_str, z_str. rewrite NilZero.isi.
  - cbn. by rewrite DecimalZ.of_to.
  - intros H. apply Hz. by apply (Hn (Decimal.Pos Decimal.Nil)).
  - intros H. apply Hz. by apply (Hn (Decimal.Neg Decimal.Nil)).
Qed.

#[export] Instance z_str_inj : Inj (=) (=) z_str.
Proof. intros x y H. apply (f_equal z_of_str) in H. rewrite !z_of_str_z_str in H. congruence. Qed.

Lemma sum_cons (n : nat) (l : list nat) : list_sum (n :: l) = n + list_sum l.
Proof. done. Qed.

#[export] Hint Rewrite str_app_length str_app_nil_r str_app_assoc z_of_str_z_str : jsr.
