(* ===== verification/JsVal.v ===== *)
(** * JavaScript values, exceptions and handlers

    The TypeScript of the panel handles server and storage data at type [any].
    [Val] is that data: the values [JSON.parse], [Response.json] and
    [chrome.storage] return, plus [undefined].  Reading a property of
    [undefined] or [null] throws, as in the language; a thrown value is itself
    a [Val].  [M S] is the type of a handler over the state [S]: a computation
    that changes the state and returns or throws. *)

From S2P Require Export Prelude.

(** Numbers are the integral ones: the ids, counts, durations, scores and
    millisecond timestamps the panel computes with. *)
#[local] Set Warnings "-register-all".
Inductive Val :=
| VUndef
| VNull
| VBool (b : bool)
| VNum (z : Z)
| VStr (s : string)
| VArr (l : list Val)
| VObj (fs : list (string * Val)).

(** Structural induction through arrays and objects. *)
Section Val_ind'.
Context (P : Val -> Prop).
Context (HU : P VUndef) (HN : P VNull) (HB : forall b, P (VBool b)) (HZ : forall z, P (VNum z))
  (HS : forall s, P (VStr s)) (HA : forall l, Forall P l -> P (VArr l))
  (HO : forall fs, Forall (fun kv => P kv.2) fs -> P (VObj fs)).

Fixpoint Val_ind' (v : Val) : P v :=
  match v with
  | VUndef => HU
  | VNull => HN
  | VBool b => HB b
  | VNum z => HZ z
  | VStr s => HS s
  | VArr l =>
      HA l ((fix go (l : list Val) : Forall P l :=
               match l with
               | [] => Forall_nil_2 P
               | x :: l => Forall_cons_2 P x l (Val_ind' x) (go l)
               end) l)
  | VObj fs =>
      HO fs ((fix go (fs : list (string * Val)) : Forall (fun kv => P kv.2) fs :=
                match fs with
                | [] => Forall_nil_2 _
                | (k, v) :: fs => Forall_cons_2 (fun kv => P kv.2) (k, v) fs (Val_ind' v) (go fs)
                end) fs)
  end.
End Val_ind'.

(** ** Results: a value or a thrown value *)

Inductive Res (A : Type) :=
| Ok (a : A)
| Throw (e : Val).
Arguments Ok {_} _.
Arguments Throw {_} _.

#[export] Instance res_ret : MRet Res := fun _ a => Ok a.
#[export] Instance res_bind : MBind Res := fun _ _ f r =>
match r with Ok a => f a | Throw e => Throw e end.

Definition is_ok {A} (r : Res A) : bool := match r with Ok _ => true | Throw _ => false end.

(** [new Error(msg)] *)
Definition js_error (msg : string) : Val := VObj [("name", VStr "Error"); ("message", VStr msg)].
(** The [TypeError] of a property read on [undefined] or [null]. *)
Definition type_error : Val :=
VObj [("name", VStr "TypeError"); ("message", VStr "Cannot read properties of undefined")].
Definition syntax_error : Val :=
VObj [("name", VStr "SyntaxError"); ("message", VStr "Unexpected token in JSON")].
Definition abort_error : Val :=
VObj [("name", VStr "AbortError"); ("message", VStr "The operation was aborted.")].
(** What [fetch] rejects with when the request cannot be made. *)
Definition network_error : Val :=
VObj [("name", VStr "TypeError"); ("message", VStr "Failed to fetch")].

(** ** Operators on values *)

Fixpoint field (k : string) (fs : list (string * Val)) : Val :=
match fs with
| [] => VUndef
| (k', v) :: fs => if String.eqb k k' then v else field k fs
end.

Definition has_field (k : string) (fs : list (string * Val)) : bool :=
existsb (fun kv => String.eqb k kv.1) fs.

(** [fs[k] = v]: the last write wins, at the position of the first one. *)
Fixpoint set_field (k : string) (v : Val) (fs : list (string * Val)) : list (string * Val) :=
match fs with
| [] => [(k, v)]
| (k', v') :: fs => if String.eqb k k' then (k, v) :: fs else (k', v') :: set_field k v fs
end.

(** Property read on a value that has properties; own data properties and the
  [length] of arrays and strings. *)
Definition prop (v : Val) (k : string) : Val :=
match v with
| VObj fs => field k fs
| VArr l => if String.eqb k "length" then VNum (Z.of_nat (length l)) else VUndef
| VStr s => if String.eqb k "length" then VNum (Z.of_nat (String.length s)) else VUndef
| _ => VUndef
end.

Definition is_nullish (v : Val) : bool := match v with VUndef | VNull => true | _ => false end.

(** [v.k] *)
Definition get (v : Val) (k : string) : Res Val :=
if is_nullish v then Throw type_error else Ok (prop v k).

(** [v?.k] *)
Definition get_opt (v : Val) (k : string) : Val := prop v k.

(** [v[i]] on an array, [undefined] out of range. *)
Definition index (l : list Val) (i : nat) : Val := default VUndef (l !! i).

(** [v[v.length - 1]] on an array *)
Definition last_elem (l : list Val) : Val := default VUndef (last l).

Definition truthy (v : Val) : bool :=
match v with
| VUndef | VNull => false
| VBool b => b
| VNum z => negb (z =? 0)%Z
| VStr s => negb (String.eqb s "")
| VArr _ | VObj _ => true
end.

(** [v || w] *)
Definition js_or (v w : Val) : Val := if truthy v then v else w.
(** [v && w] *)
Definition js_and (v w : Val) : Val := if truthy v then w else v.
(** [v ?? w] *)
Definition js_coalesce (v w : Val) : Val := if is_nullish v then w else v.

(** [v === s], [v === true] *)
Definition is_str (v : Val) (s : string) : bool := match v with VStr t => String.eqb t s | _ => false end.
Definition is_true (v : Val) : bool := match v with VBool b => b | _ => false end.

(** [String(v)] and [`${v}`] *)
Fixpoint to_str (v : Val) : string :=
match v with
| VUndef => "undefined"
| VNull => "null"
| VBool true => "true"
| VBool false => "false"
| VNum z => z_str z
| VStr s => s
| VArr l => join "," (map (fun x => if is_nullish x then "" else to_str x) l)
| VObj _ => "[object Object]"
end.

(** A nullable string of a store: [string | null]. *)
Definition of_opt (o : option string) : Val := match o with Some s => VStr s | None => VNull end.

(** What a store field of type [string | null] holds after it was assigned a
  field of a response: the string; nothing for [null] and [undefined]; the
  ids of the service are strings, any other value is kept by its text. *)
Definition wire_str (v : Val) : option string :=
match v with VStr s => Some s | VNull | VUndef => None | _ => Some (to_str v) end.

(** The same for fields of type [number | null] and [string[]]. *)
Definition wire_num (v : Val) : option Z := match v with VNum z => Some z | _ => None end.
Definition wire_strs (v : Val) : list string := match v with VArr l => map to_str l | _ => [] end.

(** [v === o] for a nullable string [o] *)
Definition eq_opt (v : Val) (o : option string) : bool :=
match v, o with
| VStr s, Some t => String.eqb s t
| VNull, None => true
| _, _ => false
end.

(** [v === w] for values read from different responses: primitives by value;
    two objects are never the same one. *)
Definition strict_eq (v w : Val) : bool :=
  match v, w with
  | VUndef, VUndef | VNull, VNull => true
  | VBool a, VBool b => Bool.eqb a b
  | VNum a, VNum b => (a =? b)%Z
  | VStr a, VStr b => String.eqb a b
  | _, _ => false
  end.

(** A nullable string used as a condition: [null] and [''] are falsy. *)
Definition opt_truthy (o : option string) : bool :=
match o with Some s => negb (String.eqb s "") | None => false end.

(** [o || d] for a nullable string *)
Definition opt_or (o : option string) (d : string) : string :=
match o with Some s => if String.eqb s "" then d else s | None => d end.

(** Data that is not an instance of an array is iterated as no element. *)
Definition arr_of (v : Val) : option (list Val) := match v with VArr l => Some l | _ => None end.

(** ** Numbers that may be [NaN] *)

Inductive num := NaN | Fin (z : Z).

Definition num_op (f : Z -> Z -> Z) (a b : num) : num :=
match a, b with Fin x, Fin y => Fin (f x y) | _, _ => NaN end.
Abbreviation nadd := (num_op Z.add).
Abbreviation nsub := (num_op Z.sub).
Abbreviation nmul := (num_op Z.mul).

(** [a > b]: false when an operand is [NaN] *)
Definition ngt (a b : num) : bool := match a, b with Fin x, Fin y => (y <? x)%Z | _, _ => false end.

(** The parts of the platform whose results the standard leaves to the
  implementation or that the model does not spell out: the instant a date
  string denotes and the number a string denotes in a loose comparison. *)
Class JsEnv := {
date_parse : string -> num;
str_to_num : string -> num;
}.

(** An environment to run examples in: decimal integers are numbers, no string
    is a date. *)
Definition demo_env : JsEnv :=
  {| date_parse := fun _ => NaN;
     str_to_num := fun s => match z_of_str s with Some z => Fin z | None => NaN end |}.

(** The operand of an arithmetic operator *)
Definition to_num `{JsEnv} (v : Val) : num :=
match v with
| VUndef => NaN
| VNull => Fin 0
| VBool b => Fin (Z.b2z b)
| VNum z => Fin z
| VStr s => str_to_num s
| VArr _ | VObj _ => str_to_num (to_str v)
end.

(** [new Date(v).getTime()] *)
Definition date_of `{JsEnv} (v : Val) : num :=
match v with
| VUndef => NaN
| VNull => Fin 0
| VBool b => Fin (Z.b2z b)
| VNum z => Fin z
| VStr s => date_parse s
| VArr _ | VObj _ => date_parse (to_str v)
end.

(** What [chrome.storage] keeps of a number: [NaN] is serialised as [null]. *)
Definition val_of_num (n : num) : Val := match n with Fin z => VNum z | NaN => VNull end.

(** [v == s] for a string [s] *)
Definition loose_eq `{JsEnv} (v : Val) (s : string) : bool :=
match v with
| VUndef | VNull => false
| VStr t => String.eqb t s
| VNum z => match str_to_num s with Fin n => (n =? z)%Z | NaN => false end
| VBool b => match str_to_num s with Fin n => (n =? Z.b2z b)%Z | NaN => false end
| VArr _ | VObj _ => String.eqb (to_str v) s
end.

(** ** Handlers *)

(** A handler over the state [S]: it changes the state, then returns or
  throws.  What was written before a throw stays written. *)
Definition M (S A : Type) : Type := S -> Res A * S.

#[export] Instance m_ret S : MRet (M S) := fun _ a s => (Ok a, s).
#[export] Instance m_bind S : MBind (M S) := fun _ _ f m s =>
match m s with
| (Ok a, s') => f a s'
| (Throw e, s') => (Throw e, s')
end.

Section handlers.
Context {S : Type}.

Definition act {A} (f : S -> Res A * S) : M S A := f.
Definition throw {A} (e : Val) : M S A := fun s => (Throw e, s).
Definition read {A} (f : S -> A) : M S A := fun s => (Ok (f s), s).
Definition modify (f : S -> S) : M S unit := fun s => (Ok tt, f s).
Definition lift {A} (r : Res A) : M S A := fun s => (r, s).

(** [if (b) { m }] *)
Definition when (b : bool) (m : M S unit) : M S unit := if b then m else mret tt.

(** [try { m } catch (e) { h(e) }] *)
Definition try_catch {A} (m : M S A) (h : Val -> M S A) : M S A := fun s =>
match m s with
| (Ok a, s') => (Ok a, s')
| (Throw e, s') => h e s'
end.

(** [try { m } finally { k }] for a [k] that does not throw *)
Definition finally {A} (m : M S A) (k : S -> S) : M S A := fun s =>
let '(r, s') := m s in (r, k s').

(** [for (const x of l) f(x)] *)
Fixpoint for_each {A} (f : A -> M S unit) (l : list A) : M S unit :=
match l with
| [] => mret tt
| x :: l => f x ;; for_each f l
end.
End handlers.

(** Runs a handler of a part [T] of the state. *)
Definition zoom {S T A} (prj : S -> T) (upd : T -> S -> S) (m : M T A) : M S A := fun s =>
let '(r, t) := m (prj s) in (r, upd t s).

(** [l.map(f)] for an [f] that may throw *)
Fixpoint res_map {A B} (f : A -> Res B) (l : list A) : Res (list B) :=
match l with
| [] => Ok []
| x :: l => y ← f x; ys ← res_map f l; Ok (y :: ys)
end.

(** ** Lemmas *)

Lemma field_set_eq k v fs : field k (set_field k v fs) = v.
Proof.
induction fs as [|[k' v'] fs IH]; cbn; [by rewrite String.eqb_refl|].
destruct (String.eqb k k') eqn:E; cbn; [by rewrite String.eqb_refl|by rewrite E].
Qed.

Lemma field_set_ne k k' v fs : k <> k' -> field k (set_field k' v fs) = field k fs.
Proof.
intros Hne. induction fs as [|[k2 v2] fs IH]; cbn.
- by rewrite (proj2 (String.eqb_neq k k') Hne).
- destruct (String.eqb k' k2) eqn:E; cbn.
  + apply String.eqb_eq in E as <-. by rewrite (proj2 (String.eqb_neq k k') Hne).
  + by rewrite IH.
Qed.

Lemma set_field_fresh k v fs : has_field k fs = false -> set_field k v fs = fs ++ [(k, v)].
Proof.
induction fs as [|[k' v'] fs IH]; cbn; [done|]. rewrite orb_false_iff.
intros [-> Hfs]. by rewrite IH.
Qed.

Lemma is_str_spec v s : is_str v s = true <-> v = VStr s.
Proof.
destruct v; cbn; try (split; intros; by simplify_eq).
rewrite String.eqb_eq. split; congruence.
Qed.

Lemma eq_opt_some v s : eq_opt v (Some s) = true <-> v = VStr s.
Proof.
destruct v; cbn; try (split; intros; by simplify_eq).
rewrite String.eqb_eq. split; congruence.
Qed.

Lemma opt_truthy_spec o : opt_truthy o = true <-> exists s, o = Some s /\ s <> "".
Proof.
destruct o as [s|]; cbn; [|split; [done|by intros (?&?&?)]].
rewrite negb_true_iff, String.eqb_neq. naive_solver.
Qed.

Lemma try_catch_ok {S A} (m : M S A) h s :
(forall e s', m s = (Throw e, s') -> is_ok (h e s').1 = true) ->
is_ok (try_catch m h s).1 = true.
Proof. unfold try_catch. destruct (m s) as [[a|e] s'] eqn:E; cbn; eauto. Qed.

Lemma bind_ok {S A B} (m : M S A) (f : A -> M S B) s a s' :
m s = (Ok a, s') -> (m ≫= f) s = f a s'.
Proof. intros H. unfold mbind, m_bind. by rewrite H. Qed.

Lemma res_map_length {A B} (f : A -> Res B) l l' :
res_map f l = Ok l' -> length l' = length l.
Proof.
revert l'; induction l as [|x l IH]; intros l'; cbn; [by intros [= <-]|].
unfold mbind, res_bind. destruct (f x); [|done]. destruct (res_map f l); [|done].
intros [= <-]. cbn. f_equal. by apply IH.
Qed.
