(* ===== verification/Json.v ===== *)
(** * JSON text

    [JSON.stringify] and [JSON.parse], used by the socket messages, the request
    bodies and the stored events.  [stringify] follows the standard's
    serialisation (undefined fields dropped, undefined elements printed as
    [null], control code units escaped); [parse] reads the JSON grammar with
    integral numbers and code units below 256, the last of two equal keys
    winning.  [JsonCodec] is the interface the clients are proved against:
    a reader and a writer of which reading inverts writing on [json_data];
    [json_codec] is the instance given by the two functions of this file. *)

From S2P Require Export JsVal.
From Stdlib Require Import Ascii DecimalString.

(** Data without [undefined] and without repeated keys. *)
Fixpoint json_data (v : Val) : bool :=
  match v with
  | VUndef => false
  | VArr l => forallb json_data l
  | VObj fs =>
      forallb (fun kv => json_data kv.2) fs && bool_decide (NoDup fs.*1)
  | _ => true
  end.

Class JsonCodec := {
  json_parse : string -> Res Val;
  json_stringify : Val -> string;
  json_parse_stringify : forall v, json_data v = true -> json_parse (json_stringify v) = Ok v;
}.

(** ** Writing *)

Definition qt : ascii := "034"%char.
Definition bs : ascii := "092"%char.

Definition hex_digit (n : nat) : ascii :=
  if n <? 10 then ascii_of_nat (48 + n) else ascii_of_nat (87 + n).

Definition esc_char (a : ascii) : string :=
  let n := nat_of_ascii a in
  if (n =? 34) || (n =? 92) then String bs (String a "")
  else if n =? 8 then String bs "b"
  else if n =? 9 then String bs "t"
  else if n =? 10 then String bs "n"
  else if n =? 12 then String bs "f"
  else if n =? 13 then String bs "r"
  else if n <? 32 then
    String bs ("u00" +:+ String (hex_digit (n / 16)) (String (hex_digit (n mod 16)) ""))
  else String a "".

Fixpoint escape (s : string) : string :=
  match s with
  | EmptyString => ""
  | String a s => esc_char a +:+ escape s
  end.

Definition quote (s : string) : string := String qt (escape s +:+ String qt "").

Fixpoint stringify (v : Val) : string :=
  match v with
  | VUndef => ""
  | VNull => "null"
  | VBool true => "true"
  | VBool false => "false"
  | VNum z => z_str z
  | VStr s => quote s
  | VArr l =>
      "[" +:+ join "," (map (fun x => match x with VUndef => "null" | _ => stringify x end) l) +:+ "]"
  | VObj fs =>
      "{" +:+ join "," (omap (fun kv => match kv.2 with
                                       | VUndef => None
                                       | _ => Some (quote kv.1 +:+ ":" +:+ stringify kv.2)
                                       end) fs) +:+ "}"
  end.

(** ** Reading *)

Definition json_ws (a : ascii) : bool :=
  let n := nat_of_ascii a in (n =? 32) || (n =? 9) || (n =? 10) || (n =? 13).

Definition skip_ws (s : string) : string := (str_span json_ws s).2.

Definition num_char (a : ascii) : bool :=
  let n := nat_of_ascii a in ((48 <=? n) && (n <=? 57)) || (n =? 45).

(** A number token: the decimal writing of an integer, or minus zero. *)
Definition parse_num (s : string) : option (Val * string) :=
  let '(t, r) := str_span num_char s in
  if String.eqb t "-0" then Some (VNum 0, r)
  else z ← z_of_str t; if String.eqb (z_str z) t then Some (VNum z, r) else None.

Definition hex_val (a : ascii) : option nat :=
  let n := nat_of_ascii a in
  if (48 <=? n) && (n <=? 57) then Some (n - 48)
  else if (97 <=? n) && (n <=? 102) then Some (n - 87)
  else if (65 <=? n) && (n <=? 70) then Some (n - 55)
  else None.

Definition unescape (c : ascii) : option ascii :=
  let n := nat_of_ascii c in
  if (n =? 34) || (n =? 92) || (n =? 47) then Some c
  else if n =? 98 then Some (ascii_of_nat 8)
  else if n =? 116 then Some (ascii_of_nat 9)
  else if n =? 110 then Some (ascii_of_nat 10)
  else if n =? 102 then Some (ascii_of_nat 12)
  else if n =? 114 then Some (ascii_of_nat 13)
  else None.

Definition str_cons (a : ascii) (p : string * string) : string * string := (String a p.1, p.2).

(** Reads up to the closing quote, which has been opened. *)
Fixpoint parse_str (s : string) : option (string * string) :=
  match s with
  | EmptyString => None
  | String a s' =>
      let n := nat_of_ascii a in
      if n =? 34 then Some ("", s')
      else if n =? 92 then
        match s' with
        | String c s'' =>
            if nat_of_ascii c =? 117 then
              match s'' with
              | String h1 (String h2 (String h3 (String h4 r))) =>
                  match hex_val h1, hex_val h2, hex_val h3, hex_val h4 with
                  | Some 0, Some 0, Some x, Some y =>
                      str_cons (ascii_of_nat (16 * x + y)) <$> parse_str r
                  | _, _, _, _ => None
                  end
              | _ => None
              end
            else match unescape c with
                 | Some d => str_cons d <$> parse_str s''
                 | None => None
                 end
        | EmptyString => None
        end
      else if n <? 32 then None
      else str_cons a <$> parse_str s'
  end.

Definition expect (c : ascii) (s : string) : option string :=
  match skip_ws s with
  | String a r => if Ascii.eqb a c then Some r else None
  | EmptyString => None
  end.

Definition parse_lit (t : string) (v : Val) (s : string) : option (Val * string) :=
  if starts_with t s then Some (v, str_drop (String.length t) s) else None.

(** [n] bounds the nesting and the number of elements still to read. *)
Fixpoint parse_value (n : nat) (s : string) : option (Val * string) :=
  match n with
  | 0 => None
  | S n =>
      match skip_ws s with
      | EmptyString => None
      | String a r =>
          if num_char a then parse_num (String a r)
          else if Ascii.eqb a qt then '(t, r) ← parse_str r; Some (VStr t, r)
          else if Ascii.eqb a "[" then
            match expect "]" r with
            | Some r' => Some (VArr [], r')
            | None => parse_elems n [] r
            end
          else if Ascii.eqb a "{" then
            match expect "}" r with
            | Some r' => Some (VObj [], r')
            | None => parse_members n [] r
            end
          else if Ascii.eqb a "n" then parse_lit "null" VNull (String a r)
          else if Ascii.eqb a "t" then parse_lit "true" (VBool true) (String a r)
          else if Ascii.eqb a "f" then parse_lit "false" (VBool false) (String a r)
          else None
      end
  end
with parse_elems (n : nat) (acc : list Val) (s : string) : option (Val * string) :=
  match n with
  | 0 => None
  | S n =>
      '(v, r) ← parse_value n s;
      match expect "," r with
      | Some r' => parse_elems n (acc ++ [v]) r'
      | None => r' ← expect "]" r; Some (VArr (acc ++ [v]), r')
      end
  end
with parse_members (n : nat) (acc : list (string * Val)) (s : string) : option (Val * string) :=
  match n with
  | 0 => None
  | S n =>
      r ← expect qt s;
      '(k, r) ← parse_str r;
      r ← expect ":" r;
      '(v, r) ← parse_value n r;
      match expect "," r with
      | Some r' => parse_members n (set_field k v acc) r'
      | None => r' ← expect "}" r; Some (VObj (set_field k v acc), r')
      end
  end.

(** [JSON.parse(s)]; the bound is enough for any text of the length of [s]. *)
Definition parse (s : string) : Res Val :=
  match parse_value (2 * String.length s + 1) s with
  | Some (v, r) => if String.eqb (skip_ws r) "" then Ok v else Throw syntax_error
  | None => Throw syntax_error
  end.

(** ** Strings round-trip *)

Lemma parse_str_esc a t : parse_str (esc_char a +:+ t) = str_cons a <$> parse_str t.
Proof. destruct a as [[] [] [] [] [] [] [] []]; reflexivity. Qed.

Lemma parse_str_escape s r : parse_str (escape s +:+ String qt r) = Some (s, r).
Proof.
  induction s as [|a s IH]; [done|]. cbn [escape].
  by rewrite str_app_assoc, parse_str_esc, IH.
Qed.

Lemma quote_app s r : quote s +:+ r = String qt (escape s +:+ String qt r).
Proof. unfold quote. by rewrite str_app_cons, str_app_assoc, str_app_cons, str_app_nil_l. Qed.

(** ** Numbers round-trip *)

Lemma num_char_uint d : str_forall num_char (NilEmpty.string_of_uint d) = true.
Proof. induction d; cbn; auto. Qed.

Lemma num_char_uint0 d : str_forall num_char (NilZero.string_of_uint d) = true.
Proof. destruct d; [done|exact (num_char_uint _)..]. Qed.

Lemma z_str_num_char z : str_forall num_char (z_str z) = true.
Proof.
  unfold z_str. destruct (Z.to_int z) as [d|d]; cbn [NilZero.string_of_int];
    [|cbn [str_forall]]; apply num_char_uint0.
Qed.

Lemma z_str_no c z : num_char c = false -> str_forall (fun x => negb (Ascii.eqb x c)) (z_str z) = true.
Proof.
  intros Hc. pose proof (z_str_num_char z) as Hz. revert Hz. generalize (z_str z) as s.
  induction s as [|x s IH]; [done|]. cbn. intros [Hx Hs]%andb_prop. rewrite (IH Hs), andb_true_r.
  apply negb_true_iff. apply Ascii.eqb_neq. intros ->. congruence.
Qed.

Lemma z_str_cons z : exists a t, z_str z = String a t /\ num_char a = true.
Proof.
  pose proof (z_str_num_char z) as H. destruct (z_str z) as [|a t] eqn:E.
  - pose proof (z_of_str_z_str z) as Hz. rewrite E in Hz. done.
  - cbn in H. apply andb_prop in H as [Ha _]. eauto.
Qed.

Lemma z_str_not_neg0 z : z_str z <> "-0".
Proof.
  intros H. pose proof (z_of_str_z_str z) as Hz. rewrite H in Hz.
  cbn in Hz. simplify_eq.
Qed.

(** What may follow a value: not a code unit of a number. *)
Definition no_num (r : string) : Prop :=
  match r with String a _ => num_char a = false | EmptyString => True end.

Lemma parse_num_z_str z r : no_num r -> parse_num (z_str z +:+ r) = Some (VNum z, r).
Proof.
  intros Hr. unfold parse_num. rewrite (str_span_stop _ _ _ (z_str_num_char z) Hr).
  rewrite (proj2 (String.eqb_neq _ _) (z_str_not_neg0 z)).
  rewrite z_of_str_z_str. cbn. by rewrite String.eqb_refl.
Qed.

(** ** White space *)

Definition no_ws (s : string) : Prop :=
  match s with String a _ => json_ws a = false | EmptyString => True end.

Lemma skip_ws_id s : no_ws s -> skip_ws s = s.
Proof.
  intros Hs. unfold skip_ws.
  pose proof (str_span_stop json_ws "" s eq_refl Hs) as H.
  rewrite str_app_nil_l in H. by rewrite H.
Qed.

Lemma num_char_not_ws a : num_char a = true -> json_ws a = false.
Proof. destruct a as [[] [] [] [] [] [] [] []]; cbn; done. Qed.

Lemma expect_hit c s : json_ws c = false -> expect c (String c s) = Some s.
Proof. intros Hc. unfold expect. rewrite skip_ws_id by done. by rewrite Ascii.eqb_refl. Qed.

Lemma expect_miss c a s : json_ws a = false -> a <> c -> expect c (String a s) = None.
Proof.
  intros Ha Hne. unfold expect. rewrite skip_ws_id by done.
  by rewrite (proj2 (Ascii.eqb_neq a c) Hne).
Qed.

(** The first code unit of a written value; [value_head] lists what the reader
    relies on. *)
Definition value_head (a : ascii) : Prop :=
  json_ws a = false /\ a <> "]"%char /\ a <> "}"%char /\ a <> ","%char /\ a <> ":"%char.

Lemma num_char_head a : num_char a = true -> value_head a.
Proof. destruct a as [[] [] [] [] [] [] [] []]; cbn; try done; intros _; repeat split; done. Qed.

Lemma stringify_head v : json_data v = true -> exists a t, stringify v = String a t /\ value_head a.
Proof.
  intros Hv. destruct v as [| |[]|z|s|l|fs]; try done; cbn [stringify].
  - by exists "n"%char, "ull".
  - by exists "t"%char, "rue".
  - by exists "f"%char, "alse".
  - destruct (z_str_cons z) as (a & t & -> & Ha). eauto using num_char_head.
  - unfold quote. exists qt; eexists; by split.
  - eexists _, _. split; [rewrite str_app_cons; reflexivity|done].
  - eexists _, _. split; [rewrite str_app_cons; reflexivity|done].
Qed.

(** ** Fuel: what the reader needs for a value, bounded by the text *)

Fixpoint need (v : Val) : nat :=
  match v with
  | VArr l => 1 + list_sum (map (fun x => 1 + need x) l)
  | VObj fs => 1 + list_sum (map (fun kv => 1 + need kv.2) fs)
  | _ => 1
  end.

Lemma join_length sep l :
  list_sum (map String.length l) + (length l - 1) * String.length sep = String.length (join sep l).
Proof.
  induction l as [|s [|t l] IH]; [done|cbn; lia|].
  rewrite join_cons2, !str_app_length, <- IH. cbn. lia.
Qed.

Lemma data_fields fs :
  forallb (fun kv => json_data kv.2) fs = true ->
  omap (fun kv : string * Val => match kv.2 with
                  | VUndef => None
                  | _ => Some (quote kv.1 +:+ ":" +:+ stringify kv.2)
                  end) fs
  = map (fun kv => quote kv.1 +:+ ":" +:+ stringify kv.2) fs.
Proof.
  induction fs as [|[k v] fs IH]; [done|]. cbn. rewrite andb_true_iff. intros [Hv Hfs].
  rewrite IH by done. by destruct v.
Qed.

Lemma data_elems l :
  forallb json_data l = true ->
  map (fun x => match x with VUndef => "null" | _ => stringify x end) l = map stringify l.
Proof.
  induction l as [|v l IH]; [done|]. cbn. rewrite andb_true_iff. intros [Hv Hl].
  rewrite IH by done. by destruct v.
Qed.

Lemma need_length v :
  json_data v = true -> need v + 1 <= 2 * String.length (stringify v).
Proof.
  induction v as [| |b|z|s|l IH|fs IH] using Val_ind'; intros Hv; try done.
  - cbn. lia.
  - destruct b; cbn; lia.
  - cbn [need stringify]. destruct (z_str_cons z) as (a & t & -> & _). cbn. lia.
  - cbn [need stringify]. unfold quote. cbn. rewrite str_app_length. cbn. lia.
  - cbn [need stringify]. cbn in Hv. rewrite data_elems by done.
    rewrite !str_app_length, <- join_length, !length_map. cbn [String.length].
    cut (list_sum (map (fun x => 1 + need x) l)
         <= 2 * (list_sum (map String.length (map stringify l)))); [lia|].
    induction IH as [|v l Hx IH IH2]; cbn [map]; rewrite ?sum_cons; [cbn; lia|]. cbn in Hv.
    apply andb_prop in Hv as [Hv Hl]. specialize (Hx Hv). specialize (IH2 Hl). lia.
  - cbn [need stringify]. cbn in Hv. apply andb_prop in Hv as [Hv _].
    rewrite data_fields by done.
    rewrite !str_app_length, <- join_length, !length_map. cbn [String.length].
    cut (list_sum (map (fun kv => 1 + need kv.2) fs)
         <= 2 * (list_sum (map String.length
               (map (fun kv => quote kv.1 +:+ ":" +:+ stringify kv.2) fs)))); [lia|].
    induction IH as [|[k v] fs Hx IH IH2]; cbn [map fst snd]; rewrite ?sum_cons; [cbn; lia|].
    cbn in Hv, Hx.
    apply andb_prop in Hv as [Hv Hl]. specialize (Hx Hv). specialize (IH2 Hl).
    rewrite !str_app_length. lia.
Qed.

(** ** Values round-trip *)

(** The reader inverts the writer on [v], whatever follows. *)
Definition reads (v : Val) : Prop :=
  forall n r, need v <= n -> no_num r -> parse_value n (stringify v +:+ r) = Some (v, r).

Lemma value_no_ws v r : json_data v = true -> no_ws (stringify v +:+ r).
Proof.
  intros Hv. destruct (stringify_head v Hv) as (a & t & -> & Ha & _).
  by rewrite str_app_cons.
Qed.

Lemma parse_elems_ok l : forall n acc v r,
  Forall (fun v => json_data v = true /\ reads v) (v :: l) ->
  list_sum (map (fun x => 1 + need x) (v :: l)) <= n ->
  parse_elems n acc (join "," (map stringify (v :: l)) +:+ String "]" r)
  = Some (VArr (acc ++ v :: l), r).
Proof.
  induction l as [|w l IH]; intros [|n] acc v r Hl Hn; cbn [map fst snd] in Hn; rewrite ?sum_cons in Hn; try (cbn in Hn; lia);
    apply Forall_cons in Hl as [[Hv Hr] Hl]; cbn [map parse_elems].
  - rewrite join_one, Hr by first [lia|exact eq_refl|done]. cbn [mbind option_bind].
    rewrite expect_miss by done. by rewrite expect_hit.
  - rewrite join_cons2, !str_app_assoc, Hr by first [lia|exact eq_refl|done]. cbn [mbind option_bind].
    rewrite str_app_cons, str_app_nil_l, expect_hit by done.
    cbn [map] in IH. rewrite IH by first [done|cbn [map]; rewrite ?sum_cons; lia].
    by rewrite <- app_assoc.
Qed.

Lemma parse_members_ok fs : forall n acc kv r,
  Forall (fun kv => json_data kv.2 = true /\ reads kv.2) (kv :: fs) ->
  list_sum (map (fun kv => 1 + need kv.2) (kv :: fs)) <= n ->
  NoDup ((acc ++ kv :: fs).*1) ->
  parse_members n acc
    (join "," (map (fun kv => quote kv.1 +:+ ":" +:+ stringify kv.2) (kv :: fs)) +:+ String "}" r)
  = Some (VObj (acc ++ kv :: fs), r).
Proof.
  induction fs as [|kv2 fs IH]; intros [|n] acc [k v] r Hl Hn Hd; cbn [map fst snd] in Hn; rewrite ?sum_cons in Hn; try (cbn in Hn; lia);
    apply Forall_cons in Hl as [[Hv Hr] Hl]; cbn in Hv, Hr;
    cbn [map parse_members fst snd].
  all: assert (Hk : set_field k v acc = acc ++ [(k, v)]) by
    (apply set_field_fresh; apply not_true_iff_false; intros Hin;
     apply existsb_exists in Hin as ([k' v'] & Hin & Heq); cbn in Heq;
     apply String.eqb_eq in Heq as <-; rewrite fmap_app, NoDup_app in Hd;
     destruct Hd as (_ & Hd & _); eapply (Hd k);
     [apply list_elem_of_fmap; exists (k, v'); by rewrite list_elem_of_In|cbn; set_solver]).
  - rewrite join_one, str_app_assoc, quote_app, expect_hit by done. cbn [mbind option_bind].
    rewrite parse_str_escape. cbn [mbind option_bind].
    rewrite str_app_assoc, str_app_cons, str_app_nil_l, expect_hit by done. cbn [mbind option_bind].
    rewrite Hr by first [lia|exact eq_refl|done]. cbn [mbind option_bind].
    rewrite expect_miss by done. rewrite expect_hit by done. cbn. by rewrite Hk.
  - rewrite join_cons2, !str_app_assoc, quote_app, expect_hit by done. cbn [mbind option_bind].
    rewrite parse_str_escape. cbn [mbind option_bind].
    rewrite str_app_cons, str_app_nil_l, expect_hit by done. cbn [mbind option_bind].
    rewrite Hr by first [lia|exact eq_refl|done]. cbn [mbind option_bind].
    rewrite str_app_cons, str_app_nil_l, expect_hit by done. rewrite Hk.
    cbn [map fst snd] in IH. rewrite IH.
    + by rewrite <- app_assoc.
    + done.
    + cbn [map fst snd]; rewrite ?sum_cons; lia.
    + by rewrite <- app_assoc.
Qed.

Lemma reads_data v : json_data v = true -> reads v.
Proof.
  induction v as [| |b|z|s|l IH|fs IH] using Val_ind'; intros Hv [|n] r Hn Hr;
    try (cbn in Hn; lia); try done.
  - cbn [parse_value]. rewrite skip_ws_id by (by destruct b). by destruct b.
  - cbn [parse_value stringify]. rewrite skip_ws_id by (apply (value_no_ws (VNum z) r); done).
    destruct (z_str_cons z) as (a & t & Ht & Ha). rewrite Ht, str_app_cons, Ha.
    rewrite <- str_app_cons, <- Ht. by apply parse_num_z_str.
  - cbn [parse_value stringify]. rewrite quote_app, skip_ws_id by done.
    cbn [num_char]. rewrite parse_str_escape. done.
  - cbn [parse_value stringify need] in *. cbn in Hv. rewrite data_elems by done.
    rewrite str_app_assoc, str_app_cons, str_app_nil_l, skip_ws_id by done.
    cbn -[join expect parse_elems].
    rewrite str_app_assoc, (str_app_cons "]"), str_app_nil_l.
    destruct l as [|v l]; [cbn [map]; change (join "," []) with ""; rewrite str_app_nil_l; by rewrite expect_hit|].
    assert (Hl : Forall (fun v => json_data v = true /\ reads v) (v :: l)).
    { apply Forall_forall. intros x Hx. rewrite Forall_forall in IH.
      assert (json_data x = true).
      { rewrite forallb_forall in Hv. apply Hv. by apply list_elem_of_In. }
      split; [done|by apply IH]. }
    assert (Hm : expect "]" (join "," (map stringify (v :: l)) +:+ String "]" r) = None).
    { apply Forall_cons in Hl as [[Hd _] _]. destruct (stringify_head v Hd) as (a & t & E & Ha & Hb & _).
      cbn [map]. unfold join. destruct (map stringify l); cbn [str_app_list];
        rewrite E; rewrite ?str_app_assoc, str_app_cons; by apply expect_miss. }
    rewrite Hm. apply parse_elems_ok; [done|lia].
  - cbn [parse_value stringify need] in *. cbn in Hv. apply andb_prop in Hv as [Hv Hd].
    apply bool_decide_eq_true in Hd. rewrite data_fields by done.
    rewrite str_app_assoc, str_app_cons, str_app_nil_l, skip_ws_id by done.
    cbn -[join expect parse_members].
    rewrite str_app_assoc, (str_app_cons "}"), str_app_nil_l.
    destruct fs as [|kv fs]; [cbn [map]; change (join "," []) with ""; rewrite str_app_nil_l; by rewrite expect_hit|].
    assert (Hm : expect "}" (join "," (map (fun kv => quote kv.1 +:+ ":" +:+ stringify kv.2) (kv :: fs))
                            +:+ String "}" r) = None).
    { cbn [map]. unfold join. destruct (map _ fs); cbn [str_app_list];
        rewrite ?str_app_assoc, quote_app; by apply expect_miss. }
    rewrite Hm. apply (parse_members_ok fs n []); [|lia|done].
    apply Forall_forall. intros x Hx. rewrite Forall_forall in IH.
    assert (json_data x.2 = true).
    { rewrite forallb_forall in Hv. apply Hv. by apply list_elem_of_In. }
    split; [done|by apply IH].
Qed.

(** Reading a written value gives it back. *)
Lemma parse_stringify_data v : json_data v = true -> parse (stringify v) = Ok v.
Proof.
  intros Hv. unfold parse.
  rewrite <- (str_app_nil_r (stringify v)) at 2.
  rewrite (reads_data v Hv); [done| |done].
  pose proof (need_length v Hv). lia.
Qed.

#[export] Instance json_codec : JsonCodec :=
  {| json_parse := parse; json_stringify := stringify;
     json_parse_stringify := parse_stringify_data |}.
