(* ===== verification/Stores.v ===== *)
(** * The zustand stores and the shared models

    [apps/extension/stores/*.ts] and [packages/models/*.ts].  A store is a
    record; every action of a store is the function from the old record to the
    new one that its [set] call denotes.  The two actions of the settings store
    that also write [chrome.storage.local] are in [Settings.v]; only their
    in-memory part is here. *)

From S2P Require Export JsVal.

(** ** Models (packages/models) *)

Inductive TabName := roomInfo | chat | leaderboard | statistics | settings.
#[export] Instance TabName_eq_dec : EqDecision TabName.
Proof. solve_decision. Defined.

(** [Exclude<TabName, 'settings'>] *)
Inductive MainTab := mRoomInfo | mChat | mLeaderboard | mStatistics.
#[export] Instance MainTab_eq_dec : EqDecision MainTab.
Proof. solve_decision. Defined.

Definition tab_of (t : MainTab) : TabName :=
  match t with
  | mRoomInfo => roomInfo | mChat => chat | mLeaderboard => leaderboard | mStatistics => statistics
  end.

(** The narrowing of [activeTab] once ['settings'] has been ruled out. *)
Definition main_of (t : TabName) : option MainTab :=
  match t with
  | roomInfo => Some mRoomInfo | chat => Some mChat | leaderboard => Some mLeaderboard
  | statistics => Some mStatistics | settings => None
  end.

Record User := mkUser { id : string; name : string; email : string; photo : string }.

Inductive GameEventType := round_start | next_problem | round_end | join_round.
#[export] Instance GameEventType_eq_dec : EqDecision GameEventType.
Proof. solve_decision. Defined.

Definition event_name (t : GameEventType) : string :=
  match t with
  | round_start => "round-start" | next_problem => "next-problem"
  | round_end => "round-end" | join_round => "join-round"
  end.

Record GameEvent := mkGameEvent { type : GameEventType; data : Val; timestamp : Z }.

Record Participant := mkParticipant {
  p_id : string;
  p_username : string;
  p_avatarUrl : option string;
  p_defaultColor : string;
  p_currentProblemIndex : option Z;
  p_score : Z;
}.

Inductive Difficulty := Easy | Medium | Hard.
#[export] Instance Difficulty_eq_dec : EqDecision Difficulty.
Proof. solve_decision. Defined.

Definition difficulty_name (d : Difficulty) : string :=
  match d with Easy => "Easy" | Medium => "Medium" | Hard => "Hard" end.

(** ** useUserStore *)

Record UserState := mkUserState {
  isLoggedIn : bool;
  userId : option string;
  username : option string;
  u_email : option string;
  iconUrl : option string;
}.

Definition userStoreInit : UserState := mkUserState false None None None None.

Definition setIsLoggedIn (b : bool) (s : UserState) : UserState :=
  mkUserState b (userId s) (username s) (u_email s) (iconUrl s).
Definition setUserId (v : option string) (s : UserState) : UserState :=
  mkUserState (isLoggedIn s) v (username s) (u_email s) (iconUrl s).
Definition setUsername (v : option string) (s : UserState) : UserState :=
  mkUserState (isLoggedIn s) (userId s) v (u_email s) (iconUrl s).
Definition setEmail (v : option string) (s : UserState) : UserState :=
  mkUserState (isLoggedIn s) (userId s) (username s) v (iconUrl s).
Definition setIconUrl (v : option string) (s : UserState) : UserState :=
  mkUserState (isLoggedIn s) (userId s) (username s) (u_email s) v.

(** The arguments come from a response body: a field it lacks is stored as no
    value. *)
Definition loginUser (uid uname email icon : option string) (s : UserState) : UserState :=
  mkUserState true uid uname email icon.

Definition resetUser (s : UserState) : UserState := userStoreInit.

(** ** useRoomStore *)

Record RoomState := mkRoomState {
  isInRoom : bool;
  roomId : option string;
  isConnected : bool;
  isAdmin : bool;
  adminId : option string;
  roomCode : option string;
  participants : list User;
  activeTab : TabName;
  previousTab : MainTab;
  isRoundStarted : bool;
  hasRoundEnded : bool;
  roundEndTime : option num;
  roundDuration : option Z;
  lastGameEvent : option GameEvent;
  roomNotice : option string;
  problems : list string;
  lastParticipantJoinTime : option Z;
  unreadCount : Z;
}.

Definition roomStoreInit : RoomState := {|
  isInRoom := false; roomId := None; isConnected := false; isAdmin := false;
  adminId := None; roomCode := None; participants := []; activeTab := chat;
  previousTab := mChat; isRoundStarted := false; hasRoundEnded := false;
  roundEndTime := None; roundDuration := None; lastGameEvent := None;
  roomNotice := None; problems := []; lastParticipantJoinTime := None;
  unreadCount := 0;
|}.

(** [{ ...state, field: value }], one per field. *)
Section room_setters.
Context (s : RoomState).
Let mk a b c d e f g h i j k l m n o p q r : RoomState :=
  mkRoomState a b c d e f g h i j k l m n o p q r.
Definition setIsInRoom v := mk v (roomId s) (isConnected s) (isAdmin s) (adminId s) (roomCode s) (participants s) (activeTab s) (previousTab s) (isRoundStarted s) (hasRoundEnded s) (roundEndTime s) (roundDuration s) (lastGameEvent s) (roomNotice s) (problems s) (lastParticipantJoinTime s) (unreadCount s).
Definition setRoomId v := mk (isInRoom s) v (isConnected s) (isAdmin s) (adminId s) (roomCode s) (participants s) (activeTab s) (previousTab s) (isRoundStarted s) (hasRoundEnded s) (roundEndTime s) (roundDuration s) (lastGameEvent s) (roomNotice s) (problems s) (lastParticipantJoinTime s) (unreadCount s).
Definition setIsConnected v := mk (isInRoom s) (roomId s) v (isAdmin s) (adminId s) (roomCode s) (participants s) (activeTab s) (previousTab s) (isRoundStarted s) (hasRoundEnded s) (roundEndTime s) (roundDuration s) (lastGameEvent s) (roomNotice s) (problems s) (lastParticipantJoinTime s) (unreadCount s).
Definition setIsAdmin v := mk (isInRoom s) (roomId s) (isConnected s) v (adminId s) (roomCode s) (participants s) (activeTab s) (previousTab s) (isRoundStarted s) (hasRoundEnded s) (roundEndTime s) (roundDuration s) (lastGameEvent s) (roomNotice s) (problems s) (lastParticipantJoinTime s) (unreadCount s).
Definition setAdminId v := mk (isInRoom s) (roomId s) (isConnected s) (isAdmin s) v (roomCode s) (participants s) (activeTab s) (previousTab s) (isRoundStarted s) (hasRoundEnded s) (roundEndTime s) (roundDuration s) (lastGameEvent s) (roomNotice s) (problems s) (lastParticipantJoinTime s) (unreadCount s).
Definition setRoomCode v := mk (isInRoom s) (roomId s) (isConnected s) (isAdmin s) (adminId s) v (participants s) (activeTab s) (previousTab s) (isRoundStarted s) (hasRoundEnded s) (roundEndTime s) (roundDuration s) (lastGameEvent s) (roomNotice s) (problems s) (lastParticipantJoinTime s) (unreadCount s).
Definition setParticipants v := mk (isInRoom s) (roomId s) (isConnected s) (isAdmin s) (adminId s) (roomCode s) v (activeTab s) (previousTab s) (isRoundStarted s) (hasRoundEnded s) (roundEndTime s) (roundDuration s) (lastGameEvent s) (roomNotice s) (problems s) (lastParticipantJoinTime s) (unreadCount s).
Definition setIsRoundStarted v := mk (isInRoom s) (roomId s) (isConnected s) (isAdmin s) (adminId s) (roomCode s) (participants s) (activeTab s) (previousTab s) v (hasRoundEnded s) (roundEndTime s) (roundDuration s) (lastGameEvent s) (roomNotice s) (problems s) (lastParticipantJoinTime s) (unreadCount s).
Definition setHasRoundEnded v := mk (isInRoom s) (roomId s) (isConnected s) (isAdmin s) (adminId s) (roomCode s) (participants s) (activeTab s) (previousTab s) (isRoundStarted s) v (roundEndTime s) (roundDuration s) (lastGameEvent s) (roomNotice s) (problems s) (lastParticipantJoinTime s) (unreadCount s).
Definition setRoundEndTime v := mk (isInRoom s) (roomId s) (isConnected s) (isAdmin s) (adminId s) (roomCode s) (participants s) (activeTab s) (previousTab s) (isRoundStarted s) (hasRoundEnded s) v (roundDuration s) (lastGameEvent s) (roomNotice s) (problems s) (lastParticipantJoinTime s) (unreadCount s).
Definition setRoundDuration v := mk (isInRoom s) (roomId s) (isConnected s) (isAdmin s) (adminId s) (roomCode s) (participants s) (activeTab s) (previousTab s) (isRoundStarted s) (hasRoundEnded s) (roundEndTime s) v (lastGameEvent s) (roomNotice s) (problems s) (lastParticipantJoinTime s) (unreadCount s).
Definition setLastGameEvent v := mk (isInRoom s) (roomId s) (isConnected s) (isAdmin s) (adminId s) (roomCode s) (participants s) (activeTab s) (previousTab s) (isRoundStarted s) (hasRoundEnded s) (roundEndTime s) (roundDuration s) v (roomNotice s) (problems s) (lastParticipantJoinTime s) (unreadCount s).
Definition setRoomNotice v := mk (isInRoom s) (roomId s) (isConnected s) (isAdmin s) (adminId s) (roomCode s) (participants s) (activeTab s) (previousTab s) (isRoundStarted s) (hasRoundEnded s) (roundEndTime s) (roundDuration s) (lastGameEvent s) v (problems s) (lastParticipantJoinTime s) (unreadCount s).
Definition setProblems v := mk (isInRoom s) (roomId s) (isConnected s) (isAdmin s) (adminId s) (roomCode s) (participants s) (activeTab s) (previousTab s) (isRoundStarted s) (hasRoundEnded s) (roundEndTime s) (roundDuration s) (lastGameEvent s) (roomNotice s) v (lastParticipantJoinTime s) (unreadCount s).
Definition setLastParticipantJoinTime v := mk (isInRoom s) (roomId s) (isConnected s) (isAdmin s) (adminId s) (roomCode s) (participants s) (activeTab s) (previousTab s) (isRoundStarted s) (hasRoundEnded s) (roundEndTime s) (roundDuration s) (lastGameEvent s) (roomNotice s) (problems s) v (unreadCount s).
Definition setUnreadCount v := mk (isInRoom s) (roomId s) (isConnected s) (isAdmin s) (adminId s) (roomCode s) (participants s) (activeTab s) (previousTab s) (isRoundStarted s) (hasRoundEnded s) (roundEndTime s) (roundDuration s) (lastGameEvent s) (roomNotice s) (problems s) (lastParticipantJoinTime s) v.

(** The tab that was open when Settings is entered is remembered, so that the
    settings button can return to it. *)
Definition setActiveTab (t : TabName) : RoomState :=
  mk (isInRoom s) (roomId s) (isConnected s) (isAdmin s) (adminId s) (roomCode s) (participants s) t
     (match t with
      | settings => match main_of (activeTab s) with None => previousTab s | Some m => m end
      | _ => previousTab s
      end)
     (isRoundStarted s) (hasRoundEnded s) (roundEndTime s) (roundDuration s) (lastGameEvent s) (roomNotice s) (problems s) (lastParticipantJoinTime s) (unreadCount s).

Definition incrementUnread : RoomState := setUnreadCount (unreadCount s + 1)%Z.
Definition clearUnread : RoomState := setUnreadCount 0%Z.

Definition initRoom (rid code admin : option string) (isadm : bool) : RoomState :=
  mk true rid (isConnected s) isadm admin code (participants s) (activeTab s) (previousTab s)
     false false None (roundDuration s) (lastGameEvent s) (roomNotice s) (problems s) (lastParticipantJoinTime s) 0%Z.

Definition resetRoom : RoomState := roomStoreInit.
End room_setters.

(** ** usePanelStore *)

Record PanelState := mkPanelState { isPanelHovered : bool; isFolded : bool }.
Definition panelStoreInit : PanelState := mkPanelState false false.
Definition setIsPanelHovered (b : bool) (s : PanelState) : PanelState := mkPanelState b (isFolded s).
Definition setIsFolded (b : bool) (s : PanelState) : PanelState := mkPanelState (isPanelHovered s) b.

(** ** useSettingsStore, the in-memory part *)

Inductive ThemePreference := auto | dark | light.
#[export] Instance ThemePreference_eq_dec : EqDecision ThemePreference.
Proof. solve_decision. Defined.

Definition theme_name (t : ThemePreference) : string :=
  match t with auto => "auto" | dark => "dark" | light => "light" end.

Record SettingsState := mkSettingsState {
  chatNotificationsEnabled : bool;
  themePreference : ThemePreference;
}.
Definition settingsStoreInit : SettingsState := mkSettingsState true auto.

(** ** useProblemCountStore *)

Record ProblemCountFilters := mkFilters {
  f_difficulties : string;
  f_tags : list string;
  f_companies : list string;
  f_blind75 : bool;
  f_neetcode150 : bool;
  f_recentlyAsked : bool;
  f_excludePaid : bool;
}.

(** [[...l].sort()]: by code units *)
Definition sort_strings (l : list string) : list string := merge_sort String.le l.

Definition flag (b : bool) : string := if b then "1" else "0".

Definition buildProblemCountKey (f : ProblemCountFilters) : string :=
  let sortedTags := join "," (sort_strings (f_tags f)) in
  let sortedCompanies := join "," (sort_strings (f_companies f)) in
  join "|" [f_difficulties f; sortedTags; sortedCompanies;
            flag (f_blind75 f); flag (f_neetcode150 f); flag (f_recentlyAsked f); flag (f_excludePaid f)].

Definition getCount (key : string) (counts : gmap string Z) : option Z := counts !! key.
Definition setCount (key : string) (count : Z) (counts : gmap string Z) : gmap string Z := <[key := count]> counts.
