(* ===== verification/View.v ===== *)
(** * What a component renders

    React elements as data: a text, or an element with its attributes, its event
    handlers and its children.  A component of the source is a function from its
    props and state to a [View E], where [E] is the type of what its handlers do.

    An element is kept with its texts, its handlers, the attributes that say what
    it does, and the classes that depend on a condition or that hide it; static styling is left out, and an
    icon is an empty [svg].  Elements of the component library keep the name they have in the source.

    A child is any value; that React refuses an object as one is not modelled.

    Two readings of a view: [texts], what can be read, and [controls], what can be
    operated.  Then the small components the pages share. *)

From S2P Require Export Stores.

Inductive Attr (E : Type) :=
| Class (c : string)                     (* a class that depends on a condition, or hides *)
| At (name : string) (v : Val)
| On (name : string) (handler : Val -> E).
Arguments Class {_} _.
Arguments At {_} _ _.
Arguments On {_} _ _.

(** A tree with lists of children: the schemes that Rocq derives are of no use. *)
#[local] Set Warnings "-register-all".
Inductive View (E : Type) :=
| Text (v : Val)
| El (tag : string) (attrs : list (Attr E)) (children : list (View E)).
Arguments Text {_} _.
Arguments El {_} _ _ _.

Section View_ind'.
Context {E : Type} (P : View E -> Prop).
Context (HT : forall v, P (Text v)) (HE : forall tag attrs cs, Forall P cs -> P (El tag attrs cs)).

Fixpoint View_ind' (v : View E) : P v :=
  match v with
  | Text t => HT t
  | El tag attrs cs =>
      HE tag attrs cs ((fix go (cs : list (View E)) : Forall P cs :=
                          match cs with
                          | [] => Forall_nil_2 P
                          | c :: cs => Forall_cons_2 P c cs (View_ind' c) (go cs)
                          end) cs)
  end.
End View_ind'.

(** ** Writing views *)

Section writing.
Context {E : Type}.
Implicit Types (cs : list (View E)).

Definition txt (s : string) : View E := Text (VStr s).
Definition num_txt (z : Z) : View E := Text (VNum z).
Definition div cs : View E := El "div" [] cs.
Definition span cs : View E := El "span" [] cs.
Definition p_ cs : View E := El "p" [] cs.
Definition svg : View E := El "svg" [] [].
Definition onClick (e : E) : Attr E := On "onClick" (fun _ => e).
Definition Button (attrs : list (Attr E)) cs : View E := El "button" attrs cs.

(** [cond && <x/>] *)
Definition only (b : bool) cs : list (View E) := if b then cs else [].
(** The class [cond ? '' : 'hidden'] *)
Definition hidden_unless (b : bool) : Attr E := Class (if b then "" else "hidden").
End writing.

(** [<C {...}/>] inside a component whose handlers do something else *)
Definition map_attr {E F} (f : E -> F) (a : Attr E) : Attr F :=
  match a with Class c => Class c | At k v => At k v | On k h => On k (fun v => f (h v)) end.
Fixpoint map_view {E F} (f : E -> F) (v : View E) : View F :=
  match v with
  | Text t => Text t
  | El tag attrs cs => El tag (map (map_attr f) attrs) (map (map_view f) cs)
  end.

(** ** Reading views *)

(** The classes of the panel's stylesheet that take an element off the screen. *)
Definition HIDING : list string := ["hidden"; "!hidden"; "invisible"; "h-0"].
Definition hides {E} (a : Attr E) : bool :=
  match a with Class c => includes HIDING c | _ => false end.
(** A tooltip is shown on hovering only; a style sheet is no text. *)
Definition off_screen {E} (tag : string) (attrs : list (Attr E)) : bool :=
  String.eqb tag "TooltipContent" || String.eqb tag "style" || existsb hides attrs.

(** The texts on the screen, in the order of the document. *)
Fixpoint texts {E} (v : View E) : list Val :=
  match v with
  | Text t => [t]
  | El tag attrs cs => if off_screen tag attrs then [] else flat_map texts cs
  end.

(** All texts of a subtree. *)
Fixpoint raw_texts {E} (v : View E) : list Val :=
  match v with Text t => [t] | El _ _ cs => flat_map raw_texts cs end.

(** The text of the tooltip among the children of a [Tooltip]. *)
Definition tip_of {E} (cs : list (View E)) : list Val :=
  flat_map (fun c => match c with
                     | El tag _ ds => if String.eqb tag "TooltipContent" then flat_map raw_texts ds else []
                     | Text _ => []
                     end) cs.

Definition attr {E} (name : string) (attrs : list (Attr E)) : Val :=
  match List.find (fun a => match a with At k _ => String.eqb name k | _ => false end) attrs with
  | Some (At _ v) => v
  | _ => VUndef
  end.
Definition handler_of {E} (name : string) (attrs : list (Attr E)) : option (Val -> E) :=
  match List.find (fun a => match a with On k _ => String.eqb name k | _ => false end) attrs with
  | Some (On _ h) => Some h
  | _ => None
  end.
Definition handles {E} (attrs : list (Attr E)) : bool :=
  existsb (fun a => match a with On _ _ => true | _ => false end) attrs.

(** An element with a handler: the tooltip around it, and its own texts. *)
Record Control (E : Type) := mkControl {
  c_tag : string;
  c_attrs : list (Attr E);
  c_tip : list Val;
  c_texts : list Val;
}.
Arguments mkControl {_} _ _ _ _.
Arguments c_tag {_} _.
Arguments c_attrs {_} _.
Arguments c_tip {_} _.
Arguments c_texts {_} _.

Fixpoint controls_in {E} (tip : list Val) (v : View E) : list (Control E) :=
  match v with
  | Text _ => []
  | El tag attrs cs =>
      if off_screen tag attrs then [] else
      (if handles attrs then [mkControl tag attrs tip (flat_map texts cs)] else []) ++
      flat_map (controls_in (if String.eqb tag "Tooltip" then tip_of cs else tip)) cs
  end.
Definition controls {E} (v : View E) : list (Control E) := controls_in [] v.

(** A disabled element is not operated. *)
Definition operable {E} (c : Control E) : bool := negb (truthy (attr "disabled" (c_attrs c))).

(** The texts [l], one after the other. *)
Fixpoint spells (l : list string) (vs : list Val) : bool :=
  match l, vs with
  | [], [] => true
  | s :: l, VStr s' :: vs => String.eqb s s' && spells l vs
  | _, _ => false
  end.

(** The name under which a user finds a control: its tooltip, its text, its label. *)
Definition named {E} (l : list string) (c : Control E) : bool :=
  spells l (c_tip c) || spells l (c_texts c) || spells l [attr "aria-label" (c_attrs c)].

(** Handlers run when the control is operated. *)
Definition operate {E} (c : Control E) (name : string) (v : Val) : option E :=
  if operable c then (fun h => h v) <$> handler_of name (c_attrs c) else None.

(** A click on the first control of that name. *)
Definition click {E} (l : list string) (v : View E) : option E :=
  c ← List.find (named l) (controls v); operate c "onClick" VUndef.

(** ** The widgets of the component library *)

(** Which value a widget reports to its handler, given its attributes.  They are
    code of a package; the one behaviour that is relied on is that a slider
    reports a list with one value, between its bounds and on its steps. *)
Class Widgets := { emits : forall E, string -> list (Attr E) -> Val -> Prop }.
Arguments emits {_ E} _ _ _.

Definition on_slider {E} (attrs : list (Attr E)) (v : Val) : Prop :=
  exists z lo hi st, attr "min" attrs = VNum lo /\ attr "max" attrs = VNum hi /\ attr "step" attrs = VNum st /\
    v = VArr [VNum z] /\ (lo <= z <= hi /\ (z - lo) mod st = 0)%Z.

Class WidgetLaws `{Widgets} := {
  slider_emits E (attrs : list (Attr E)) (v : Val) : emits "Slider" attrs v -> on_slider attrs v;
}.

(** What a user can make a view do: operate a control that is on the screen and not disabled. *)
Inductive offers `{Widgets} {E} (v : View E) : E -> Prop :=
| operated c name h x :
    c ∈ controls v -> operable c = true -> On name h ∈ c_attrs c -> emits (c_tag c) (c_attrs c) x ->
    offers v (h x).

(** ** Components that the pages share *)

Section shared.
Context {E : Type}.

Definition TooltipWrapper (text : string) (shortcuts : list string) (children : View E) : View E :=
  El "TooltipProvider" [] [El "Tooltip" [] [
    El "TooltipTrigger" [] [children];
    El "TooltipContent" [] (txt text ::
      only (0 <? length shortcuts) [div (map (fun key => div [txt key]) shortcuts)])]].

Definition MaximizeIcon (maximized : bool) : View E :=
  El "svg" [] (map (fun _ => El "path" [At "transform" (VStr (if maximized then "rotate(180deg)" else "rotate(0deg)"))] [])
                 [0; 1; 2; 3]).

Definition NotificationToggle (enabled disabled : bool) (ariaLabel : string) (onChange : bool -> E) : View E :=
  Button [At "role" (VStr "switch"); At "aria-checked" (VBool enabled); At "aria-label" (VStr ariaLabel);
          At "disabled" (VBool disabled); onClick (onChange (negb enabled));
          Class (if enabled then "bg-primary" else "bg-transparent")]
    [El "span" [Class (if enabled then "justify-start" else "justify-end")] [txt (if enabled then "ON" else "OFF")];
     El "span" [Class (if enabled then "left-[calc(100%-1.75rem-0.25rem)]" else "left-1")] []].

Definition Toast (message : Val) (onDismiss : E) : list (View E) :=
  only (truthy message)
    [div [El "div" [At "role" (VStr "status"); At "aria-live" (VStr "polite")]
       [span [Text message];
        Button [onClick onDismiss; At "aria-label" (VStr "Dismiss notification")] [txt "x"]]]].

Definition FormErrorMessage (message : option string) (onDismiss : E) : list (View E) :=
  match message with
  | None | Some EmptyString => []
  | Some m => [div [div [span [txt m]; Button [onClick onDismiss; At "aria-label" (VStr "Dismiss error")] [txt "x"]]]]
  end.

(** [v[0]] as a number *)
Definition first_num (v : Val) : Z := match v with VArr (VNum z :: _) => z | _ => 0 end.

Definition IncDecButtons (decrementOnClick incrementOnClick : E) (disabled : bool) : View E :=
  div [Button [At "disabled" (VBool disabled); onClick decrementOnClick] [El "FontAwesomeIcon" [At "icon" (VStr "faChevronDown")] []];
       Button [At "disabled" (VBool disabled); onClick incrementOnClick] [El "FontAwesomeIcon" [At "icon" (VStr "faChevronUp")] []]].

(** A [Combobox] with chips for its value and an item per entry; which items it shows while one types is the library's. *)
Definition strings_of (v : Val) : list string :=
  match v with VArr l => omap (fun x => match x with VStr s => Some s | _ => None end) l | _ => [] end.
Definition Chips (items : list (Val * list (View E))) (value : list string) (empty placeholder : string)
    (extra : list (Attr E)) (onValueChange : list string -> E) : View E :=
  El "Combobox" (extra ++ [At "items" (VArr (map fst items)); At "value" (VArr (map VStr value));
                           On "onValueChange" (fun v => onValueChange (strings_of v))])
    [El "ComboboxChips" [] [El "ComboboxValue" []
       (map (fun v => El "ComboboxChip" [] [txt v]) value ++ [El "ComboboxChipsInput" [At "placeholder" (VStr placeholder)] []])];
     El "ComboboxContent" [] [El "ComboboxEmpty" [] [txt empty];
       El "ComboboxList" [] (map (fun i => El "ComboboxItem" [At "value" i.1] i.2) items)]].
End shared.

(** ** Lemmas *)

Section reading.
Context {E : Type}.
Implicit Types (v : View E) (cs : list (View E)) (c : Control E).

Lemma hidden_texts tag (attrs : list (Attr E)) cs : off_screen tag attrs = true -> texts (El tag attrs cs) = [].
Proof. cbn. by intros ->. Qed.

Lemma hidden_controls tip tag (attrs : list (Attr E)) cs : off_screen tag attrs = true -> controls_in tip (El tag attrs cs) = [].
Proof. cbn. by intros ->. Qed.

(** What holds of every handler of a view, with the element it is on. *)
Definition attr_ok (Q : string -> list (Attr E) -> (Val -> E) -> Prop) (tag : string) (attrs : list (Attr E)) (a : Attr E) : Prop :=
  match a with On _ h => Q tag attrs h | _ => True end.

Inductive all_handlers (Q : string -> list (Attr E) -> (Val -> E) -> Prop) : View E -> Prop :=
| ah_text t : all_handlers Q (Text t)
| ah_el tag attrs cs : Forall (attr_ok Q tag attrs) attrs -> Forall (all_handlers Q) cs -> all_handlers Q (El tag attrs cs).

Lemma controls_handlers Q v : all_handlers Q v -> forall tip c, c ∈ controls_in tip v ->
  Forall (attr_ok Q (c_tag c) (c_attrs c)) (c_attrs c).
Proof.
  induction v as [t|tag attrs cs IH] using View_ind'; intros Hv tip c; [by intros ?%not_elem_of_nil|].
  inversion Hv as [|? ? ? Ha Hcs]; subst. cbn [controls_in]. destruct (off_screen tag attrs); [by intros ?%not_elem_of_nil|].
  rewrite elem_of_app, !list_elem_of_In, in_flat_map. intros [Hc|(v & Hv' & Hc)].
  - destruct (handles attrs); [|done]. destruct Hc as [<-|[]]. done.
  - rewrite Forall_forall in IH, Hcs. apply list_elem_of_In in Hv'. eapply (IH v Hv' (Hcs v Hv')).
    apply list_elem_of_In; exact Hc.
Qed.

Lemma offers_handler `{Widgets} Q v e : all_handlers Q v -> offers v e ->
  exists tag attrs h x, Q tag attrs h /\ emits tag attrs x /\ e = h x.
Proof.
  intros Hq Ho. destruct Ho as [c name h x Hc _ Hon He].
  pose proof (controls_handlers Q v Hq [] c Hc) as Hf. rewrite Forall_forall in Hf.
  exists (c_tag c), (c_attrs c), h, x. split; [|done]. exact (Hf _ Hon).
Qed.

(** The first control of a name. *)
Lemma find_control l (pre post : list (Control E)) c :
  Forall (fun c => named l c = false) pre -> named l c = true ->
  List.find (named l) (pre ++ c :: post) = Some c.
Proof.
  intros Hp Hc. induction Hp as [|c' pre Hc' Hp IH]; cbn; [by rewrite Hc|]. by rewrite Hc'.
Qed.
End reading.

Definition map_control {E F} (f : E -> F) (c : Control E) : Control F :=
  mkControl (c_tag c) (map (map_attr f) (c_attrs c)) (c_tip c) (c_texts c).

Section mapping.
Context {E F : Type} (f : E -> F).
Implicit Types (v : View E) (attrs : list (Attr E)).

Lemma map_off_screen tag attrs : off_screen tag (map (map_attr f) attrs) = off_screen tag attrs.
Proof. unfold off_screen. f_equal. induction attrs as [|[] attrs IH]; cbn; by rewrite ?IH. Qed.

Lemma map_handles attrs : handles (map (map_attr f) attrs) = handles attrs.
Proof. unfold handles. induction attrs as [|[] attrs IH]; cbn; by rewrite ?IH. Qed.

Lemma flat_map_map {A B C} (g : A -> B) (h : B -> list C) (k : A -> list C) (l : list A) :
  Forall (fun x => h (g x) = k x) l -> flat_map h (map g l) = flat_map k l.
Proof. induction 1 as [|x l Hx Hl IH]; [done|]. cbn. by rewrite Hx, IH. Qed.

Lemma map_view_texts v : texts (map_view f v) = texts v.
Proof.
  induction v as [t|tag attrs cs IH] using View_ind'; [done|]. cbn [map_view texts].
  rewrite map_off_screen. destruct (off_screen tag attrs); [done|]. by apply flat_map_map.
Qed.

Lemma map_view_raw v : raw_texts (map_view f v) = raw_texts v.
Proof.
  induction v as [t|tag attrs cs IH] using View_ind'; [done|]. cbn [map_view raw_texts]. by apply flat_map_map.
Qed.

Lemma map_view_tip (cs : list (View E)) : tip_of (map (map_view f) cs) = tip_of cs.
Proof.
  unfold tip_of. apply flat_map_map, Forall_true. intros [t|tag attrs ds]; [done|]. cbn.
  destruct (String.eqb tag "TooltipContent"); [|done]. apply flat_map_map, Forall_true. intros v. apply map_view_raw.
Qed.

Lemma map_flat_map {A B C} (g : B -> C) (h : A -> list B) (l : list A) : map g (flat_map h l) = flat_map (fun x => map g (h x)) l.
Proof. induction l as [|x l IH]; [done|]. cbn. by rewrite map_app, IH. Qed.

(** A component inside another: the same controls, whose handlers go on to do something else. *)
Lemma map_view_controls v : forall tip, controls_in tip (map_view f v) = map (map_control f) (controls_in tip v).
Proof.
  induction v as [t|tag attrs cs IH] using View_ind'; intros tip; [done|]. cbn [map_view controls_in].
  rewrite map_off_screen, map_handles, map_view_tip. destruct (off_screen tag attrs); [done|].
  rewrite map_app, map_flat_map. f_equal.
  - destruct (handles attrs); [|done]. cbn. unfold map_control; cbn. repeat f_equal.
    apply flat_map_map, Forall_true. intros v. apply map_view_texts.
  - apply flat_map_map. eapply Forall_impl; [exact IH|]. intros v Hv. apply Hv.
Qed.

Lemma map_attr_of name attrs : attr name (map (map_attr f) attrs) = attr name attrs.
Proof.
  unfold attr. induction attrs as [|a attrs IH]; [done|].
  destruct a as [c|k v|k h]; cbn; [done| |done]. by destruct (String.eqb name k).
Qed.

Lemma map_handler_of name attrs : handler_of name (map (map_attr f) attrs) =
  fmap (M := option) (fun (h : Val -> E) (x : Val) => f (h x)) (handler_of name attrs).
Proof.
  unfold handler_of. induction attrs as [|a attrs IH]; [done|].
  destruct a as [c|k v|k h]; cbn; [done|done|]. by destruct (String.eqb name k).
Qed.

Lemma map_named l (c : Control E) : named l (map_control f c) = named l c.
Proof. unfold named, map_control; cbn [c_tip c_texts c_attrs]. by rewrite map_attr_of. Qed.

Lemma map_operate (c : Control E) name x : operate (map_control f c) name x = f <$> operate c name x.
Proof.
  unfold operate, operable, map_control; cbn [c_attrs]. rewrite map_attr_of, map_handler_of.
  destruct (negb _); [|done]. by destruct (handler_of name (c_attrs c)).
Qed.

(** A click inside the component. *)
Lemma map_click l v : click l (map_view f v) = f <$> click l v.
Proof.
  unfold click, controls. rewrite map_view_controls. induction (controls_in [] v) as [|c cs IH]; [done|]. cbn.
  rewrite map_named. destruct (named l c); [|done]. cbn. apply map_operate.
Qed.
End mapping.

Lemma flat_map_nil {A B} (f : A -> list B) (l : list A) : Forall (fun x => f x = []) l -> flat_map f l = [].
Proof. induction 1 as [|x l Hx Hl IH]; [done|]. cbn. by rewrite Hx, IH. Qed.

(** Down a concrete tree, up to the components that have a lemma of their own. *)
(** Names and classes are compared by computation. *)
Ltac eqb_simpl :=
  match goal with
  | |- context [String.eqb ?a ?b] =>
      let r := eval vm_compute in (String.eqb a b) in
      match r with true => change (String.eqb a b) with true | false => change (String.eqb a b) with false end
  end.
Ltac view_simpl := repeat (progress (cbn; unfold off_screen, includes; repeat eqb_simpl)).

#[global] Arguments Chips : simpl never.

Lemma chips_controls {E} tip items value empty placeholder (f : list string -> E) :
  Forall (fun i => Forall (fun v => forall tip, controls_in tip v = []) i.2) items ->
  exists attrs, attr "aria-label" attrs = VUndef /\ controls_in tip (Chips items value empty placeholder [] f) =
    [mkControl "Combobox" attrs tip (map VStr value ++ VStr empty :: flat_map (fun i => flat_map texts i.2) items)].
Proof.
  intros Hi. unfold Chips.
  assert (Hc : forall tip, flat_map (controls_in tip) (map (fun i => El "ComboboxItem" [At "value" i.1] i.2) items) = [] /\
    flat_map texts (map (fun i => El "ComboboxItem" [At "value" i.1] i.2 : View E) items) =
    flat_map (fun i => flat_map texts i.2) items).
  { intros tip'. induction Hi as [|i items Hi1 Hi IH]; [done|]. view_simpl. destruct IH as [-> ->]. split; [|done].
    rewrite app_nil_r. apply flat_map_nil. eapply Forall_impl; [exact Hi1|]. intros v Hv. apply Hv. }
  assert (Hv : forall tip, flat_map (controls_in tip) (map (fun v => El "ComboboxChip" [] [txt v] : View E) value) = [] /\
    flat_map texts (map (fun v => El "ComboboxChip" [] [txt v] : View E) value) = map VStr value).
  { intros tip'. induction value as [|v value IH]; [done|]. view_simpl. by destruct IH as [-> ->]. }
  eexists. split; [|view_simpl; rewrite !flat_map_app; view_simpl; destruct (Hc tip) as [-> ->], (Hv tip) as [-> ->];
    view_simpl; by rewrite !app_nil_r]. done.
Qed.

(** A view none of whose controls has the name [l]. *)
Definition unnamed {E} (l : string) (v : View E) : Prop :=
  Forall (fun c => named [l] c = false) (controls_in [] v).

Lemma unnamed_el {E} (l tag : string) (attrs : list (Attr E)) (cs : list (View E)) : tag <> "Tooltip" ->
  handles attrs = false \/ spells [l] (flat_map texts cs) = false /\ spells [l] [attr "aria-label" attrs] = false ->
  Forall (unnamed l) cs -> unnamed l (El tag attrs cs).
Proof.
  intros Ht Ha Hcs. unfold unnamed. cbn [controls_in]. destruct (off_screen tag attrs); [constructor|].
  rewrite (proj2 (String.eqb_neq tag "Tooltip") Ht). apply Forall_app_2.
  - destruct Ha as [->|[H1 H2]]; [constructor|]. destruct (handles attrs); [|constructor].
    constructor; [|constructor]. unfold named. cbn [c_tip c_texts c_attrs]. by rewrite H1, H2.
  - clear Ha. induction Hcs as [|v cs Hv Hcs IH]; [constructor|]. apply Forall_app_2; [exact Hv|exact IH].
Qed.

Lemma unnamed_find {E} l (vs : list (View E)) rest : Forall (unnamed l) vs ->
  List.find (named [l]) (flat_map (controls_in []) vs ++ rest) = List.find (named [l]) rest.
Proof.
  induction 1 as [|v vs Hv Hvs IH]; [done|]. cbn. rewrite <- app_assoc. unfold unnamed in Hv.
  induction Hv as [|c cs Hc Hcs IHc]; [done|]. cbn. by rewrite Hc.
Qed.

Lemma find_app_l {A} (f : A -> bool) (l l' : list A) x : List.find f l = Some x -> List.find f (l ++ l') = Some x.
Proof. induction l as [|y l IH]; [done|]. cbn. by destruct (f y). Qed.

Ltac all_handlers_step :=
  lazymatch goal with
  | |- all_handlers _ (Text _) => apply ah_text
  | |- all_handlers _ (El _ _ _) => apply ah_el
  | |- Forall _ [] => apply Forall_nil_2
  | |- Forall _ (_ :: _) => apply Forall_cons_2
  | |- Forall _ (_ ++ _) => apply Forall_app_2
  | |- True => exact I
  end.
Ltac all_handlers_tac :=
  repeat first [ all_handlers_step
               | progress unfold div, span, p_, txt, num_txt, svg, Button, onClick, hidden_unless
               | progress cbn [attr_ok app] ].

(** ** Instances *)

(** Widgets of which only the slider is particular. *)
#[export] Instance demo_widgets : Widgets := {
  emits E tag attrs v := String.eqb tag "Slider" = true -> on_slider attrs v;
}.
#[export] Instance demo_widget_laws : WidgetLaws.
Proof. split. intros E attrs v Hv. by apply Hv. Qed.
