(* ===== verification/Library.v ===== *)
(** * The component library

    [packages/components/ui]: each element of the library as the primitive elements of Radix, Base UI or HTML it renders.
    A component is a function from its props (attributes and handlers) and its children.  The pages of [RoomViews.v], [PanelViews.v]
    and [WebPages.v] keep the library's elements by their names; [expand] puts the components in their place, and what is shown here is that
    a page keeps its texts and its controls by that.

    Static classes are left out, as in [View.v]; [className] goes where the source puts it.  What a primitive of Base UI is rendered as
    (its [render]) stands among its children.  The primitives, and icons, are of packages. *)

From S2P Require Export View.

(** ** Props *)

Section props.
Context {E : Type}.
Implicit Types (attrs own props : list (Attr E)).

Definition key_of (a : Attr E) : option string := match a with Class _ => None | At k _ | On k _ => Some k end.
Definition has_key (k : string) attrs : bool := existsb (fun a => bool_decide (key_of a = Some k)) attrs.

(** [{a, b, ...rest}] of the props: no handler is taken out by its name. *)
Definition rest (names : list string) attrs : list (Attr E) :=
  List.filter (fun a => match a with At k _ => negb (includes names k) | _ => true end) attrs.
(** [a = d] there *)
Definition default_to (d : Val) (name : string) attrs : Val := match attr name attrs with VUndef => d | v => v end.
(** [<X own {...props}/>]: what is spread later stands; classes are put together by [cn]. *)
Definition with_props own props : list (Attr E) :=
  List.filter (fun a => match key_of a with Some k => negb (has_key k props) | None => true end) own ++ props.

Definition slot (name : string) : Attr E := At "data-slot" (VStr name).
(** The classes of the props only *)
Definition classes attrs : list (Attr E) := List.filter (fun a => match a with Class _ => true | _ => false end) attrs.
End props.

Module Lib.
Section components.
(** What is heard when the library's own handler of an addon runs, with the target of the click, and whether the list of the combobox
    that is open has no item *)
Context {E : Type} (addonClick : Val -> E) (data_empty : bool).
Abbreviation Component := (list (Attr E) -> list (View E) -> View E).
Implicit Types (props : list (Attr E)) (children : list (View E)).

(** A component that only renders a primitive, with attributes of its own before the props. *)
Definition wrapper (primitive : string) (own : list (Attr E)) : Component := fun props children => El primitive (with_props own props) children.

(** ** label, separator, input, textarea, checkbox, slider *)

Definition Label : Component := wrapper "LabelPrimitive.Root" [].

Definition Separator : Component := fun props children =>
  let orientation := default_to (VStr "horizontal") "orientation" props in
  El "SeparatorPrimitive.Root" (with_props [At "decorative" (default_to (VBool true) "decorative" props); At "orientation" orientation;
      Class (if is_str orientation "horizontal" then "h-[1px] w-full" else "h-full w-[1px]")] (rest ["orientation"; "decorative"] props)) children.

Definition Input : Component := fun props children =>
  El "input" (with_props [At "type" (attr "type" props)] (rest ["type"] props)) children.

Definition Textarea : Component := wrapper "textarea" [slot "textarea"].

Definition Checkbox : Component := fun props _ =>
  El "CheckboxPrimitive.Root" (with_props [slot "checkbox"] props) [El "CheckboxPrimitive.Indicator" [slot "checkbox-indicator"] [svg]].

Definition Slider : Component := fun props _ =>
  El "SliderPrimitive.Root" props [El "SliderPrimitive.Track" [] [El "SliderPrimitive.Range" [] []]; El "SliderPrimitive.Thumb" [] []].

(** ** button *)

Definition button_variants : list (string * string) :=
  [("default", "bg-primary text-primary-foreground hover:bg-primary/90");
   ("destructive", "bg-destructive text-destructive-foreground hover:bg-destructive/90");
   ("outline", "border border-input bg-background hover:bg-accent hover:text-accent-foreground");
   ("secondary", "bg-secondary text-secondary-foreground hover:bg-secondary/80");
   ("ghost", "hover:bg-accent hover:text-accent-foreground");
   ("link", "text-primary underline-offset-4 hover:underline")].
Definition button_sizes : list (string * string) :=
  [("default", "h-10 px-4 py-2"); ("sm", "h-9 rounded-md px-3"); ("lg", "h-11 rounded-md px-8"); ("icon", "h-10 w-10"); ("icon-xs", "h-6 w-6")].
Definition style_class (table : list (string * string)) (v : Val) : list (Attr E) :=
  match List.find (fun kv => is_str v kv.1) table with Some (_, c) => [Class c] | None => [] end.
Definition buttonVariants (variant size : Val) : list (Attr E) := style_class button_variants variant ++ style_class button_sizes size.

(** [render]: the element to render the props onto.  Then the children are left out, as with [asChild] the button itself. *)
Definition ButtonAs (render : option (View E)) : Component := fun props children =>
  let asChild := truthy (attr "asChild" props) in
  El (if asChild || bool_decide (is_Some render) then "Slot" else "button")
    (with_props (buttonVariants (default_to (VStr "default") "variant" props) (default_to (VStr "default") "size" props))
       (rest ["variant"; "size"; "asChild"] props))
    (match render with Some v => [v] | None => children end).
Definition Button : Component := ButtonAs None.

(** ** avatar *)

Definition Avatar : Component := wrapper "AvatarPrimitive.Root" [slot "avatar"].
Definition AvatarImage : Component := wrapper "AvatarPrimitive.Image" [slot "avatar-image"].
Definition colors : list (string * string) :=
  [("default", "bg-neutral-400"); ("red", "bg-red-400"); ("orange", "bg-orange-400"); ("yellow", "bg-yellow-400");
   ("green", "bg-green-400"); ("blue", "bg-blue-400"); ("purple", "bg-purple-400")].
Definition color_class (color : Val) : string :=
  match List.find (fun kv => is_str color kv.1) colors with Some (_, c) => c | None => "bg-neutral-400" end.
Definition AvatarFallback : Component := fun props children =>
  El "AvatarPrimitive.Fallback" (with_props [slot "avatar-fallback"; Class (color_class (default_to (VStr "default") "color" props))]
    (rest ["color"] props)) children.

(** ** accordion *)

Definition Accordion : Component := wrapper "AccordionPrimitive.Root" [slot "accordion"].
Definition AccordionItem : Component := wrapper "AccordionPrimitive.Item" [slot "accordion-item"].
Definition AccordionTrigger : Component := fun props children =>
  El "AccordionPrimitive.Header" [] [El "AccordionPrimitive.Trigger" (with_props [slot "accordion-trigger"] props) (children ++ [svg])].
(** [className] goes to the element inside. *)
Definition AccordionContent : Component := fun props children =>
  El "AccordionPrimitive.Content" (with_props [slot "accordion-content"] (List.filter (fun a => bool_decide (is_Some (key_of a))) props))
    [El "div" (classes props) children].

(** ** dialog *)

Definition Dialog : Component := wrapper "DialogPrimitive.Root" [].
Definition DialogTrigger : Component := wrapper "DialogPrimitive.Trigger" [].
Definition DialogPortal : Component := wrapper "DialogPrimitive.Portal" [].
Definition DialogClose : Component := wrapper "DialogPrimitive.Close" [].
Definition DialogOverlay : Component := wrapper "DialogPrimitive.Overlay" [].
Definition DialogContent : Component := fun props children =>
  DialogPortal [] [DialogOverlay [] [];
    El "DialogPrimitive.Content" props
      (children ++ [El "DialogPrimitive.Close" [] [svg; El "span" [Class "sr-only"] [txt "Close"]]])].
Definition DialogHeader : Component := wrapper "div" [].
Definition DialogFooter : Component := wrapper "div" [].
Definition DialogTitle : Component := wrapper "DialogPrimitive.Title" [].
Definition DialogDescription : Component := wrapper "DialogPrimitive.Description" [].

(** ** table *)

Definition Table : Component := fun props children => El "div" [] [El "table" props children].
Definition TableHeader : Component := wrapper "thead" [].
Definition TableBody : Component := wrapper "tbody" [].
Definition TableFooter : Component := wrapper "tfoot" [].
Definition TableRow : Component := wrapper "tr" [].
Definition TableHead : Component := wrapper "th" [].
Definition TableCell : Component := wrapper "td" [].
Definition TableCaption : Component := wrapper "caption" [].

(** ** tabs, scroll area, resizable panels, hover card *)

Definition Tabs : Component := wrapper "TabsPrimitive.Root" [].
Definition TabsList : Component := wrapper "TabsPrimitive.List" [].
Definition TabsTrigger : Component := wrapper "TabsPrimitive.Trigger" [].
Definition TabsContent : Component := wrapper "TabsPrimitive.Content" [].

Definition ScrollBar : Component := fun props _ =>
  let orientation := default_to (VStr "vertical") "orientation" props in
  El "ScrollAreaPrimitive.ScrollAreaScrollbar"
    (with_props (At "orientation" orientation ::
             (if is_str orientation "vertical" then [Class "h-full w-2.5 border-l border-l-transparent p-[1px]"] else []) ++
             (if is_str orientation "horizontal" then [Class "h-2.5 flex-col border-t border-t-transparent p-[1px]"] else []))
       (rest ["orientation"] props))
    [El "ScrollAreaPrimitive.ScrollAreaThumb" [] []].
Definition ScrollArea : Component := fun props children =>
  El "ScrollAreaPrimitive.Root" props
    [El "ScrollAreaPrimitive.Viewport" [] children; ScrollBar [At "orientation" (VStr "vertical")] [];
     ScrollBar [At "orientation" (VStr "horizontal")] []; El "ScrollAreaPrimitive.Corner" [] []].

Definition ResizablePanelGroup : Component := wrapper "ResizablePrimitive.PanelGroup" [].
Definition ResizablePanel : Component := wrapper "ResizablePrimitive.Panel" [].
Definition ResizableHandle : Component := fun props _ =>
  El "ResizablePrimitive.PanelResizeHandle" (rest ["withHandle"] props) (only (truthy (attr "withHandle" props)) [div [svg]]).

Definition HoverCard : Component := wrapper "HoverCardPrimitive.Root" [slot "hover-card"].
Definition HoverCardTrigger : Component := wrapper "HoverCardPrimitive.Trigger" [slot "hover-card-trigger"].
Definition HoverCardContent : Component := fun props children =>
  El "HoverCardPrimitive.Portal" [slot "hover-card-portal"]
    [El "HoverCardPrimitive.Content" (with_props [slot "hover-card-content"; At "align" (default_to (VStr "center") "align" props);
        At "sideOffset" (default_to (VNum 4) "sideOffset" props)] (rest ["align"; "sideOffset"] props)) children].

(** ** navigation menu *)

Definition NavigationMenuViewport : Component := fun props children =>
  El "div" [] [El "NavigationMenuPrimitive.Viewport" props children].
Definition NavigationMenu : Component := fun props children =>
  El "NavigationMenuPrimitive.Root" props (children ++ [NavigationMenuViewport [] []]).
Definition NavigationMenuList : Component := wrapper "NavigationMenuPrimitive.List" [].
Definition NavigationMenuItem : Component := wrapper "NavigationMenuPrimitive.Item" [].
Definition NavigationMenuTrigger : Component := fun props children =>
  El "NavigationMenuPrimitive.Trigger" props (children ++ [txt " "; El "svg" [At "aria-hidden" (VStr "true")] []]).
Definition NavigationMenuContent : Component := wrapper "NavigationMenuPrimitive.Content" [].
Definition NavigationMenuLink : Component := wrapper "NavigationMenuPrimitive.Link" [].
Definition NavigationMenuIndicator : Component := fun props _ => El "NavigationMenuPrimitive.Indicator" props [div []].

(** ** dropdown menu *)

Definition DropdownMenu : Component := wrapper "DropdownMenuPrimitive.Root" [slot "dropdown-menu"].
Definition DropdownMenuPortal : Component := wrapper "DropdownMenuPrimitive.Portal" [slot "dropdown-menu-portal"].
Definition DropdownMenuTrigger : Component := wrapper "DropdownMenuPrimitive.Trigger" [slot "dropdown-menu-trigger"].
Definition DropdownMenuContent : Component := fun props children =>
  El "DropdownMenuPrimitive.Portal" []
    [El "DropdownMenuPrimitive.Content" (with_props [slot "dropdown-menu-content"; At "sideOffset" (default_to (VNum 4) "sideOffset" props);
        At "align" (default_to (VStr "start") "align" props)] (rest ["align"; "sideOffset"] props)) children].
Definition DropdownMenuGroup : Component := wrapper "DropdownMenuPrimitive.Group" [slot "dropdown-menu-group"].
Definition DropdownMenuItem : Component := fun props children =>
  El "DropdownMenuPrimitive.Item" (with_props [slot "dropdown-menu-item"; At "data-inset" (attr "inset" props);
      At "data-variant" (default_to (VStr "default") "variant" props)] (rest ["inset"; "variant"] props)) children.
(** The mark of a checked item, in front of what the item shows *)
Definition indicator (name : string) : View E :=
  El "span" [slot name] [El "DropdownMenuPrimitive.ItemIndicator" [] [svg]].
Definition DropdownMenuCheckboxItem : Component := fun props children =>
  El "DropdownMenuPrimitive.CheckboxItem" (with_props [slot "dropdown-menu-checkbox-item"; At "checked" (attr "checked" props)]
    (rest ["checked"] props)) (indicator "dropdown-menu-checkbox-item-indicator" :: children).
Definition DropdownMenuRadioGroup : Component := wrapper "DropdownMenuPrimitive.RadioGroup" [slot "dropdown-menu-radio-group"].
Definition DropdownMenuRadioItem : Component := fun props children =>
  El "DropdownMenuPrimitive.RadioItem" (with_props [slot "dropdown-menu-radio-item"] props)
    (indicator "dropdown-menu-radio-item-indicator" :: children).
Definition DropdownMenuLabel : Component := fun props children =>
  El "DropdownMenuPrimitive.Label" (with_props [slot "dropdown-menu-label"; At "data-inset" (attr "inset" props)] (rest ["inset"] props)) children.
Definition DropdownMenuSeparator : Component := wrapper "DropdownMenuPrimitive.Separator" [slot "dropdown-menu-separator"].
Definition DropdownMenuShortcut : Component := wrapper "span" [slot "dropdown-menu-shortcut"].
Definition DropdownMenuSub : Component := wrapper "DropdownMenuPrimitive.Sub" [slot "dropdown-menu-sub"].
Definition DropdownMenuSubTrigger : Component := fun props children =>
  El "DropdownMenuPrimitive.SubTrigger" (with_props [slot "dropdown-menu-sub-trigger"; At "data-inset" (attr "inset" props)] (rest ["inset"] props))
    (children ++ [svg]).
Definition DropdownMenuSubContent : Component := wrapper "DropdownMenuPrimitive.SubContent" [slot "dropdown-menu-sub-content"].

(** ** input group *)

Definition InputGroup : Component := wrapper "div" [slot "input-group"; At "role" (VStr "group")].
(** A click on the addon goes to the input beside it, unless it was on a button of the addon: which input takes the focus. *)
Definition addon_click {X} (on_button : bool) (input : option X) : option X := if on_button then None else input.
Definition InputGroupAddon : Component := fun props children =>
  let align := default_to (VStr "inline-start") "align" props in
  El "div" (with_props [At "role" (VStr "group"); slot "input-group-addon"; At "data-align" align; On "onClick" addonClick]
              (rest ["align"] props)) children.
Definition InputGroupButtonAs (render : option (View E)) : Component := fun props children =>
  ButtonAs render
    (with_props [At "type" (default_to (VStr "button") "type" props); At "data-size" (default_to (VStr "xs") "size" props);
             At "variant" (default_to (VStr "ghost") "variant" props)] (rest ["type"; "variant"; "size"] props)) children.
Definition InputGroupButton : Component := InputGroupButtonAs None.
Definition InputGroupText : Component := wrapper "span" [].
Definition InputGroupInput : Component := fun props children => Input (with_props [slot "input-group-control"] props) children.
Definition InputGroupTextarea : Component := fun props children => Textarea (with_props [slot "input-group-control"] props) children.

(** ** combobox *)

Definition Combobox : Component := wrapper "ComboboxPrimitive.Root" [].
Definition ComboboxValue : Component := wrapper "ComboboxPrimitive.Value" [slot "combobox-value"].
Definition ComboboxTrigger : Component := fun props children =>
  El "ComboboxPrimitive.Trigger" (with_props [slot "combobox-trigger"] props) (children ++ [svg]).
Definition ComboboxClear : Component := fun props _ =>
  El "ComboboxPrimitive.Clear" (with_props [slot "combobox-clear"] props)
    [InputGroupButton [At "variant" (VStr "ghost"); At "size" (VStr "icon-xs")] [svg]].
(** [disabled] is given to the elements inside, not to the input of the package. *)
Definition ComboboxInput : Component := fun props children =>
  let disabled := default_to (VBool false) "disabled" props in
  InputGroup (classes props)
    (El "ComboboxPrimitive.Input" (List.filter (fun a => bool_decide (is_Some (key_of a))) (rest ["disabled"; "showTrigger"; "showClear"] props))
       [InputGroupInput [At "disabled" disabled] []] ::
     InputGroupAddon [At "align" (VStr "inline-end")]
       (only (truthy (default_to (VBool true) "showTrigger" props))
          [InputGroupButtonAs (Some (ComboboxTrigger [] []))
             [At "size" (VStr "icon-xs"); At "variant" (VStr "ghost"); slot "input-group-button"; At "disabled" disabled] []] ++
        only (truthy (attr "showClear" props)) [ComboboxClear [At "disabled" disabled] []]) ::
     children).
Definition ComboboxContent : Component := fun props children =>
  let anchor := attr "anchor" props in
  El "ComboboxPrimitive.Portal" []
    [El "ComboboxPrimitive.Positioner"
       [At "side" (default_to (VStr "bottom") "side" props); At "sideOffset" (default_to (VNum 6) "sideOffset" props);
        At "align" (default_to (VStr "start") "align" props); At "alignOffset" (default_to (VNum 0) "alignOffset" props); At "anchor" anchor]
       [El "ComboboxPrimitive.Popup" (with_props [slot "combobox-content"; At "data-chips" (VBool (truthy anchor))]
          (rest ["side"; "sideOffset"; "align"; "alignOffset"; "anchor"] props)) children]].
Definition ComboboxList : Component := wrapper "ComboboxPrimitive.List" [slot "combobox-list"].
Definition ComboboxItem : Component := fun props children =>
  El "ComboboxPrimitive.Item" (with_props [slot "combobox-item"] props) (children ++ [El "ComboboxPrimitive.ItemIndicator" [] [span [svg]]]).
Definition ComboboxGroup : Component := wrapper "ComboboxPrimitive.Group" [slot "combobox-group"].
Definition ComboboxLabel : Component := wrapper "ComboboxPrimitive.GroupLabel" [slot "combobox-label"].
Definition ComboboxCollection : Component := wrapper "ComboboxPrimitive.Collection" [slot "combobox-collection"].
(** [hidden … group-data-empty/combobox-content:flex] *)
Definition ComboboxEmpty : Component :=
  wrapper "ComboboxPrimitive.Empty" [slot "combobox-empty"; Class (if data_empty then "flex" else "hidden")].
Definition ComboboxSeparator : Component := wrapper "ComboboxPrimitive.Separator" [slot "combobox-separator"].
Definition ComboboxChips : Component := wrapper "ComboboxPrimitive.Chips" [slot "combobox-chips"].
Definition ComboboxChip : Component := fun props children =>
  El "ComboboxPrimitive.Chip" (with_props [slot "combobox-chip"] (rest ["showRemove"] props))
    (children ++ only (truthy (default_to (VBool true) "showRemove" props))
       [El "ComboboxPrimitive.ChipRemove" [slot "combobox-chip-remove"]
          [Button [At "variant" (VStr "ghost"); At "size" (VStr "icon-xs")] [svg]]]).
Definition ComboboxChipsInput : Component := wrapper "ComboboxPrimitive.Input" [slot "combobox-chip-input"].

(** ** field *)

Definition FieldSet : Component := wrapper "fieldset" [slot "field-set"].
Definition FieldLegend : Component := fun props children =>
  El "legend" (with_props [slot "field-legend"; At "data-variant" (default_to (VStr "legend") "variant" props)] (rest ["variant"] props)) children.
Definition FieldGroup : Component := wrapper "div" [slot "field-group"].
Definition Field : Component := fun props children =>
  El "div" (with_props [At "role" (VStr "group"); slot "field"; At "data-orientation" (default_to (VStr "vertical") "orientation" props)]
    (rest ["orientation"] props)) children.
Definition FieldContent : Component := wrapper "div" [slot "field-content"].
Definition FieldLabel : Component := fun props children => Label (with_props [slot "field-label"] props) children.
Definition FieldTitle : Component := wrapper "div" [slot "field-label"].
Definition FieldDescription : Component := wrapper "p" [slot "field-description"].
Definition FieldSeparator : Component := fun props children =>
  let content := negb (bool_decide (children = [])) in
  El "div" (with_props [slot "field-separator"; At "data-content" (VBool content)] props)
    (Separator [] [] :: only content [El "span" [slot "field-separator-content"] children]).

(** ** tooltip *)

Definition TooltipProvider : Component := fun props children =>
  El "TooltipPrimitive.Provider" (with_props [slot "tooltip-provider"; At "delayDuration" (default_to (VNum 0) "delayDuration" props)]
    (rest ["delayDuration"] props)) children.
Definition Tooltip : Component := wrapper "TooltipPrimitive.Root" [slot "tooltip"].
Definition TooltipTrigger : Component := wrapper "TooltipPrimitive.Trigger" [slot "tooltip-trigger"].
Definition TooltipContent : Component := fun props children =>
  El "TooltipPrimitive.Portal" []
    [El "TooltipPrimitive.Content" (with_props [slot "tooltip-content"; At "sideOffset" (default_to (VNum 0) "sideOffset" props)]
       (rest ["sideOffset"] props)) children].
Definition TooltipContentArrow : Component := fun props children => TooltipContent props (children ++ [El "TooltipPrimitive.Arrow" [] []]).
End components.
End Lib.

(** ** kebabMenu.tsx: a menu that no page shows, and whose items do nothing *)

Definition KebabMenu {E} : View E :=
  let item attrs cs := El "DropdownMenuItem" attrs cs in
  El "DropdownMenu" [] [
    El "DropdownMenuTrigger" [At "asChild" (VBool true)] [El "Button" [] [txt "Open"]];
    El "DropdownMenuContent" [At "align" (VStr "end")] [
      El "DropdownMenuGroup" [] [El "DropdownMenuLabel" [] [txt "Live Statistics"]; item [] [txt "Problem Statistics"]; item [] [txt "Leaderboard"]];
      El "DropdownMenuSeparator" [] [];
      El "DropdownMenuGroup" [] [El "DropdownMenuLabel" [] [txt "Participants"]; item [] []];
      El "DropdownMenuSeparator" [] [];
      El "DropdownMenuGroup" [] [item [At "variant" (VStr "destructive")] [txt "Exit Group"]]]].

(** ** The components in the place of their names *)

Section expand.
Context {E : Type} (addonClick : Val -> E) (data_empty : bool).
Import Lib.

(** The tooltips are read by [View.v] itself; [ComboboxInput] no page has. *)
Definition components : list (string * (list (Attr E) -> list (View E) -> View E)) :=
  [("Label", Label); ("Separator", Separator); ("Input", Input); ("Textarea", Textarea); ("Button", Button);
   ("Avatar", Avatar); ("AvatarImage", AvatarImage); ("AvatarFallback", AvatarFallback);
   ("Accordion", Accordion); ("AccordionItem", AccordionItem); ("AccordionTrigger", AccordionTrigger); ("AccordionContent", AccordionContent);
   ("Dialog", Dialog); ("DialogTrigger", DialogTrigger); ("DialogPortal", DialogPortal); ("DialogClose", DialogClose);
   ("DialogContent", DialogContent); ("DialogHeader", DialogHeader); ("DialogFooter", DialogFooter);
   ("DialogTitle", DialogTitle); ("DialogDescription", DialogDescription);
   ("Table", Table); ("TableHeader", TableHeader); ("TableBody", TableBody); ("TableFooter", TableFooter);
   ("TableRow", TableRow); ("TableHead", TableHead); ("TableCell", TableCell); ("TableCaption", TableCaption);
   ("Tabs", Tabs); ("TabsList", TabsList); ("TabsTrigger", TabsTrigger); ("TabsContent", TabsContent);
   ("ScrollArea", ScrollArea); ("ResizablePanelGroup", ResizablePanelGroup); ("ResizablePanel", ResizablePanel);
   ("HoverCard", HoverCard); ("HoverCardTrigger", HoverCardTrigger); ("HoverCardContent", HoverCardContent);
   ("NavigationMenu", NavigationMenu); ("NavigationMenuList", NavigationMenuList); ("NavigationMenuItem", NavigationMenuItem);
   ("NavigationMenuViewport", NavigationMenuViewport); ("NavigationMenuTrigger", NavigationMenuTrigger); ("NavigationMenuContent", NavigationMenuContent); ("NavigationMenuLink", NavigationMenuLink);
   ("DropdownMenu", DropdownMenu); ("DropdownMenuPortal", DropdownMenuPortal); ("DropdownMenuTrigger", DropdownMenuTrigger);
   ("DropdownMenuContent", DropdownMenuContent); ("DropdownMenuGroup", DropdownMenuGroup); ("DropdownMenuItem", DropdownMenuItem);
   ("DropdownMenuCheckboxItem", DropdownMenuCheckboxItem); ("DropdownMenuRadioGroup", DropdownMenuRadioGroup);
   ("DropdownMenuRadioItem", DropdownMenuRadioItem); ("DropdownMenuLabel", DropdownMenuLabel);
   ("DropdownMenuSeparator", DropdownMenuSeparator); ("DropdownMenuShortcut", DropdownMenuShortcut); ("DropdownMenuSub", DropdownMenuSub);
   ("DropdownMenuSubTrigger", DropdownMenuSubTrigger); ("DropdownMenuSubContent", DropdownMenuSubContent);
   ("InputGroup", InputGroup); ("InputGroupAddon", InputGroupAddon addonClick); ("InputGroupButton", InputGroupButton);
   ("InputGroupText", InputGroupText); ("InputGroupInput", InputGroupInput); ("InputGroupTextarea", InputGroupTextarea);
   ("Combobox", Combobox); ("ComboboxValue", ComboboxValue); ("ComboboxTrigger", ComboboxTrigger); ("ComboboxContent", ComboboxContent);
   ("ComboboxList", ComboboxList); ("ComboboxItem", ComboboxItem); ("ComboboxGroup", ComboboxGroup); ("ComboboxLabel", ComboboxLabel);
   ("ComboboxCollection", ComboboxCollection); ("ComboboxEmpty", ComboboxEmpty data_empty); ("ComboboxSeparator", ComboboxSeparator);
   ("ComboboxChips", ComboboxChips); ("ComboboxChip", ComboboxChip); ("ComboboxChipsInput", ComboboxChipsInput);
   ("FieldSet", FieldSet); ("FieldLegend", FieldLegend); ("FieldGroup", FieldGroup); ("Field", Field); ("FieldContent", FieldContent);
   ("FieldLabel", FieldLabel); ("FieldTitle", FieldTitle); ("FieldDescription", FieldDescription); ("FieldSeparator", FieldSeparator)].

(** These render no children of the page. *)
Definition leaves : list (string * (list (Attr E) -> list (View E) -> View E)) :=
  [("Checkbox", Checkbox); ("Slider", Slider); ("DialogOverlay", DialogOverlay); ("ScrollBar", ScrollBar); ("ResizableHandle", ResizableHandle);
   ("NavigationMenuIndicator", NavigationMenuIndicator); ("ComboboxClear", ComboboxClear)].

Definition component (table : list (string * (list (Attr E) -> list (View E) -> View E))) (tag : string) :=
  snd <$> List.find (fun kv => String.eqb tag kv.1) table.

Fixpoint expand (v : View E) : View E :=
  match v with
  | Text t => Text t
  | El tag attrs cs =>
      if String.eqb tag "TooltipContent" then v else
      match component components tag with
      | Some c => c attrs (map expand cs)
      | None => match cs, component leaves tag with
                | [], Some c => c attrs []
                | _, _ => El tag attrs (map expand cs)
                end
      end
  end.

(** ** What a page keeps *)

(** The page as its user reads it: the note of a combobox without items is shown while it has none. *)
Definition shown_attrs (tag : string) (attrs : list (Attr E)) : list (Attr E) :=
  if String.eqb tag "ComboboxEmpty" then hidden_unless data_empty :: attrs else attrs.
Fixpoint as_shown (v : View E) : View E :=
  match v with
  | Text t => Text t
  | El tag attrs cs => if String.eqb tag "TooltipContent" then v else El tag (shown_attrs tag attrs) (map as_shown cs)
  end.

(** The page does not hide the content of an accordion by a class and listen to it, because that class goes to an element
    inside (see [accordion_class]). *)
Definition placed_here (tag : string) (attrs : list (Attr E)) : bool :=
  negb (String.eqb tag "ComboboxInput") && negb (String.eqb tag "AccordionContent" && existsb hides attrs && handles attrs).
Fixpoint placed (v : View E) : bool :=
  match v with Text _ => true | El tag attrs cs => placed_here tag attrs && forallb placed cs end.

(** The page's handlers and perhaps the addon's, the same tooltip and label, the texts in their order, and others perhaps in between *)
Definition addon_handler (name : string) (h : Val -> E) : Prop := name = "onClick" /\ h = addonClick.
Record same_control (c c' : Control E) : Prop := {
  page_handlers : forall name h, handler_of name (c_attrs c) = Some h -> handler_of name (c_attrs c') = Some h;
  own_handlers : forall name h, handler_of name (c_attrs c') = Some h -> handler_of name (c_attrs c) = Some h \/ addon_handler name h;
  same_disabled : attr "disabled" (c_attrs c') = attr "disabled" (c_attrs c);
  same_label : attr "aria-label" (c_attrs c') = attr "aria-label" (c_attrs c);
  same_tip : c_tip c' = c_tip c;
  more_texts : sublist (c_texts c) (c_texts c');
}.
(** An element of the library's own that listens: an addon *)
Definition own_control (c : Control E) : Prop := forall name h, handler_of name (c_attrs c) = Some h -> addon_handler name h.
(** The controls of the page, one by one, and between them those of the library *)
Inductive same_controls : list (Control E) -> list (Control E) -> Prop :=
| no_controls : same_controls [] []
| page_control c c' l l' : same_control c c' -> same_controls l l' -> same_controls (c :: l) (c' :: l')
| library_control c' l l' : own_control c' -> same_controls l l' -> same_controls l (c' :: l').

Lemma same_controls_app l1 l1' l2 l2' : same_controls l1 l1' -> same_controls l2 l2' -> same_controls (l1 ++ l2) (l1' ++ l2').
Proof. induction 1; intros H2; [done| |]; cbn; constructor; auto. Qed.
#[local] Instance same_control_refl : Reflexive same_control.
Proof. intros c; split; auto. Qed.
Lemma same_controls_refl l : same_controls l l.
Proof. induction l; by constructor. Qed.
#[local] Hint Resolve same_controls_refl : core.

Definition keeps_all (vs vs' : list (View E)) : Prop :=
  sublist (flat_map texts vs) (flat_map texts vs') /\ forall tip, same_controls (flat_map (controls_in tip) vs) (flat_map (controls_in tip) vs').
Definition keeps (v v' : View E) : Prop := keeps_all [v] [v'].

Lemma keeps_forall cs cs' : Forall2 keeps cs cs' -> keeps_all cs cs'.
Proof.
  induction 1 as [|v v' cs cs' [Ht Hc] _ [IHt IHc]]; [by split; constructor|]. cbn in Ht, Hc. rewrite !app_nil_r in Ht. split; cbn.
  - by apply sublist_app.
  - intros tip. specialize (Hc tip). rewrite !app_nil_r in Hc. by apply same_controls_app.
Qed.

(** [vs] without controls *)
Definition bare (vs : list (View E)) : Prop := forall tip, flat_map (controls_in tip) vs = [].

Lemma keeps_between cs ds pre post : bare pre -> bare post -> keeps_all cs ds -> keeps_all cs (pre ++ ds ++ post).
Proof.
  intros Hpre Hpost [Ht Hc]. split; [|intros tip]; rewrite !flat_map_app.
  - by apply sublist_inserts_l, sublist_inserts_r.
  - by rewrite Hpre, Hpost, app_nil_r.
Qed.
Lemma keeps_after cs ds post : bare post -> keeps_all cs ds -> keeps_all cs (ds ++ post).
Proof. by apply (keeps_between cs ds []). Qed.
Lemma keeps_before cs ds x : bare [x] -> keeps_all cs ds -> keeps_all cs (x :: ds).
Proof. intros Hx Hk. rewrite <- (app_nil_r ds). by apply (keeps_between cs ds [x] []). Qed.
Lemma keeps_beside cs d post : bare post -> keeps_all cs [d] -> keeps_all cs (d :: post).
Proof. intros Hp Hk. by apply (keeps_after cs [d]). Qed.

(** Attributes of which the page's are the ones that count *)
Definition carries (attrs attrs' : list (Attr E)) : Prop :=
  existsb hides attrs' = existsb hides attrs /\ handles attrs' = handles attrs /\
  (forall name, handler_of name attrs' = handler_of name attrs) /\
  attr "disabled" attrs' = attr "disabled" attrs /\ attr "aria-label" attrs' = attr "aria-label" attrs.

(** A name without a meaning to [View.v] *)
Definition ordinary (tag : string) : Prop := includes ["TooltipContent"; "style"; "Tooltip"] tag = false.
Lemma ordinary_tag tag (attrs : list (Attr E)) : ordinary tag -> off_screen tag attrs = existsb hides attrs /\ String.eqb tag "Tooltip" = false.
Proof.
  unfold ordinary, off_screen. cbn. destruct (String.eqb tag "TooltipContent"), (String.eqb tag "style"), (String.eqb tag "Tooltip"); by cbn.
Qed.

(** An element in the place of another *)
Lemma keeps_el tag tag' attrs attrs' cs ds : ordinary tag -> ordinary tag' -> carries attrs attrs' -> keeps_all cs ds ->
  keeps (El tag attrs cs) (El tag' attrs' ds).
Proof.
  intros Ht Ht' (Ho & Hh & Hn & Hd & Hl) [Hts Hcs].
  destruct (ordinary_tag tag attrs Ht) as [O1 T1], (ordinary_tag tag' attrs' Ht') as [O2 T2].
  split; [|intros tip]; cbn [flat_map texts controls_in]; rewrite O1, O2, Ho, ?T1, ?T2, !app_nil_r; (destruct (existsb hides attrs); [constructor|]); [done|].
  apply same_controls_app; [|done]. rewrite Hh. destruct (handles attrs); [|constructor]. apply page_control; [|constructor].
  split; cbn; try done; intros name h; rewrite Hn; auto.
Qed.

(** An element that hears of clicks besides *)
Lemma keeps_el_addon tag tag' attrs own props cs ds : ordinary tag -> ordinary tag' -> carries attrs (own ++ props) ->
  has_key "onClick" props = false -> handles own = false ->
  keeps_all cs ds -> keeps (El tag attrs cs) (El tag' (own ++ On "onClick" addonClick :: props) ds).
Proof.
  intros Ht Ht' (Ho & Hh & Hn & Hd & Hl) Hk Hown [Hts Hcs].
  set (attrs' := own ++ On "onClick" addonClick :: props).
  assert (H1 : existsb hides attrs' = existsb hides attrs) by (rewrite <- Ho; unfold attrs'; by rewrite !existsb_app).
  assert (H2 : handles attrs' = true) by (unfold attrs', handles; by rewrite existsb_app, orb_true_r).
  assert (Hno : forall name, handler_of name own = None).
  { clear -Hown. intros name. induction own as [|[c|k v|k h] own IH]; cbn in *; try done; by apply IH. }
  assert (Happ : forall name l, handler_of name (own ++ l) = handler_of name l).
  { clear -Hno. intros name l. induction own as [|[c|k v|k h] own IH]; cbn in *; try done; try (apply IH; exact Hno).
    specialize (Hno k). unfold handler_of in Hno. cbn in Hno. by rewrite String.eqb_refl in Hno. }
  assert (H3 : forall name h, handler_of name attrs = Some h -> handler_of name attrs' = Some h).
  { intros name h Hs. unfold attrs'. rewrite Happ. rewrite <- Hn, Happ in Hs. unfold handler_of in *. cbn.
    destruct (String.eqb_spec name "onClick") as [->|Hne]; [|done]. exfalso. clear -Hs Hk.
    induction props as [|[c|k v|k h0] props IH]; cbn in *; try done; apply orb_false_elim in Hk as [Hk1 Hk2]; try (by apply IH).
    apply bool_decide_eq_false in Hk1. destruct (String.eqb_spec "onClick" k) as [<-|]; [done|by apply IH]. }
  assert (H4 : forall name h, handler_of name attrs' = Some h -> handler_of name attrs = Some h \/ addon_handler name h).
  { intros name h. unfold attrs'. rewrite Happ, <- Hn, Happ. unfold handler_of, addon_handler. cbn.
    destruct (String.eqb_spec name "onClick") as [->|Hne]; [|auto]. intros [= <-]. by right. }
  assert (H5 : forall k, attr k attrs' = attr k (own ++ props)).
  { intros k. unfold attrs', attr. clear. induction own as [|[c|k' v|k' h] own IH]; cbn; try done. by destruct (String.eqb k k'). }
  destruct (ordinary_tag tag attrs Ht) as [O1 T1], (ordinary_tag tag' attrs' Ht') as [O2 T2].
  split; [|intros tip]; cbn [flat_map texts controls_in]; rewrite O1, O2, H1, ?T1, ?T2, !app_nil_r; (destruct (existsb hides attrs); [constructor|]); [done|].
  apply same_controls_app; [|done]. rewrite H2. destruct (handles attrs) eqn:Eh.
  - apply page_control; [|constructor]. split; cbn; try done; by rewrite H5.
  - apply library_control; [|constructor]. intros name h Hs. cbn in Hs. apply H4 in Hs as [Hs|Hs]; [|done]. exfalso.
    clear -Hs Eh. induction attrs as [|[c|k v|k h0] attrs IH]; cbn in *; try done; by apply IH.
Qed.

(** An element around: without handlers it adds nothing. *)
Lemma keeps_around cs ds tag attrs : ordinary tag -> existsb hides attrs = false -> handles attrs = false ->
  keeps_all cs ds -> keeps_all cs [El tag attrs ds].
Proof.
  intros Ht Ho Hh [Hv Hc]. destruct (ordinary_tag tag attrs Ht) as [O T].
  split; [|intros tip]; cbn [flat_map texts controls_in]; by rewrite O, Ho, ?Hh, ?T, app_nil_r.
Qed.

Lemma carries_refl attrs : carries attrs attrs.
Proof. done. Qed.
Lemma carries_trans a1 a2 a3 : carries a1 a2 -> carries a2 a3 -> carries a1 a3.
Proof.
  intros (A1 & A2 & A3 & A4 & A5) (B1 & B2 & B3 & B4 & B5).
  split_and!; [by rewrite B1|by rewrite B2|intros name; by rewrite B3|by rewrite B4|by rewrite B5].
Qed.

(** What a component may add of its own *)
Definition own_ok (a : Attr E) : Prop :=
  match a with On _ _ => False | Class c => includes HIDING c = false | At k _ => includes ["disabled"; "aria-label"] k = false end.

Lemma carries_app own attrs : Forall own_ok own -> carries attrs (own ++ attrs).
Proof.
  induction 1 as [|a own Ha Hown IH]; [done|]. eapply carries_trans; [exact IH|]. unfold carries, handler_of, attr.
  destruct a as [c|k v|k h]; cbn in Ha |- *; [by rewrite Ha| |done].
  rewrite (String.eqb_sym "disabled"), (String.eqb_sym "aria-label").
  destruct (String.eqb k "disabled"), (String.eqb k "aria-label"); by cbn in Ha.
Qed.

Lemma carries_with_props own attrs : Forall own_ok own -> carries attrs (with_props own attrs).
Proof.
  intros Ho. apply carries_app. rewrite Forall_forall in *. intros a Ha. apply Ho.
  apply list_elem_of_In in Ha. apply List.filter_In in Ha as [Ha _]. by apply list_elem_of_In.
Qed.

Lemma carries_rest names attrs : includes names "disabled" = false -> includes names "aria-label" = false -> carries attrs (rest names attrs).
Proof.
  intros Hd Hl. induction attrs as [|a attrs (A1 & A2 & A3 & A4 & A5)]; [done|].
  unfold carries, handles, handler_of, attr, rest in *. destruct a as [c|k v|k h]; cbn.
  - by rewrite A1.
  - destruct (includes names k) eqn:Ek; cbn.
    + rewrite A1, A2, A4, A5. split_and!; try done.
      * destruct (String.eqb_spec "disabled" k) as [<-|]; [by rewrite Ek in Hd|done].
      * destruct (String.eqb_spec "aria-label" k) as [<-|]; [by rewrite Ek in Hl|done].
    + rewrite A1, A2. split_and!; [done|done|exact A3|by destruct (String.eqb "disabled" k)|by destruct (String.eqb "aria-label" k)].
  - rewrite A1. split_and!; [done|done| |done|done]. intros name. by destruct (String.eqb name k).
Qed.

Lemma own_style table v : forallb (fun kv => negb (includes HIDING kv.2)) table = true -> Forall own_ok (style_class table v).
Proof.
  intros Ht. unfold style_class. destruct (List.find _ table) as [[k c]|] eqn:Hf; [|constructor].
  apply find_some in Hf as [Hf _]. rewrite forallb_forall in Ht. specialize (Ht _ Hf). cbn in Ht. apply negb_true_iff in Ht.
  by repeat constructor.
Qed.
Lemma own_color v : includes HIDING (color_class v) = false.
Proof.
  unfold color_class. destruct (List.find _ colors) as [[k c]|] eqn:Hf; [|done].
  apply find_some in Hf as [Hf _]. cbn in Hf. repeat destruct Hf as [[= <- <-]|Hf]; done.
Qed.

(** ** Every component keeps what it is given *)

Definition transparent (tag : string) (c : list (Attr E) -> list (View E) -> View E) : Prop :=
  ordinary tag /\ (forall attrs cs, exists tag' attrs' ds, c attrs cs = El tag' attrs' ds /\ ordinary tag') /\
  forall attrs cs ds, placed_here tag attrs = true -> keeps_all cs ds -> keeps (El tag (shown_attrs tag attrs) cs) (c attrs ds).

Lemma transparent_wrapper tag primitive own : ordinary tag -> ordinary primitive -> String.eqb tag "ComboboxEmpty" = false ->
  Forall own_ok own -> transparent tag (wrapper primitive own).
Proof.
  intros Ht Hp He Ho. split; [done|]. split; [by intros; do 3 eexists|]. intros attrs cs ds _ Hk. unfold shown_attrs. rewrite He.
  by apply keeps_el, Hk; [| |apply carries_with_props].
Qed.

(** Attributes of the components' own *)
Ltac own_tac :=
  repeat first [ apply Forall_nil_2 | apply Forall_cons_2 | apply Forall_app_2 | apply own_style; reflexivity | apply own_color
               | progress unfold buttonVariants | done | match goal with |- context [is_str ?v ?s] => destruct (is_str v s) end ].
Ltac carries_tac :=
  repeat first [ apply carries_refl
               | eapply carries_trans; [|apply carries_with_props; solve [own_tac]]
               | eapply carries_trans; [|apply carries_rest; reflexivity] ].
Ltac bare_tac := intros ?; unfold only; repeat case_match; view_simpl; reflexivity.
(** Down from an element to the children the page gave *)
Ltac keeps_tac :=
  repeat first [ assumption
               | apply keeps_el; [reflexivity|reflexivity|solve [carries_tac]|]
               | apply keeps_around; [reflexivity|reflexivity|reflexivity|]
               | apply keeps_after; [solve [bare_tac]|]
               | apply keeps_beside; [solve [bare_tac]|]
               | apply keeps_before; [solve [bare_tac]|] ].
Ltac transparent_tac :=
  first [ apply transparent_wrapper; [reflexivity|reflexivity|reflexivity|solve [own_tac]]
        | split; [reflexivity|]; split;
          [ intros; do 3 eexists; split; [reflexivity|]; unfold ordinary; repeat case_match; reflexivity
          | intros attrs cs ds _ Hk; match goal with |- context [shown_attrs ?t attrs] => change (shown_attrs t attrs) with attrs end;
            cbv zeta; keeps_tac ] ].

Lemma button_transparent : transparent "Button" Button.
Proof. unfold Button, ButtonAs. transparent_tac. destruct (_ || _); keeps_tac. Qed.
Lemma input_button_transparent : transparent "InputGroupButton" InputGroupButton.
Proof. unfold InputGroupButton, InputGroupButtonAs, ButtonAs. transparent_tac. destruct (_ || _); keeps_tac. Qed.
Lemma field_separator_transparent : transparent "FieldSeparator" FieldSeparator.
Proof.
  unfold FieldSeparator. transparent_tac. case_bool_decide as Hd; cbn [negb only]; [by subst; keeps_tac|]. keeps_tac.
Qed.

Lemma empty_transparent : transparent "ComboboxEmpty" (ComboboxEmpty data_empty).
Proof.
  split; [done|]. split; [by intros; do 3 eexists|]. intros attrs cs ds _ Hk. apply keeps_el; [done|done| |done].
  unfold shown_attrs, hidden_unless, with_props, carries, handles, handler_of, attr. cbn -[List.filter]. cbn.
  destruct (negb _), data_empty; cbn; by split_and!.
Qed.

(** A class of the content goes inside: it hides the same, when the content has no handler. *)
Lemma content_transparent : transparent "AccordionContent" AccordionContent.
Proof.
  split; [done|]. split; [by intros; do 3 eexists|]. intros attrs cs ds Hp Hk. change (shown_attrs _ attrs) with attrs.
  unfold placed_here in Hp. change (String.eqb "AccordionContent" "ComboboxInput") with false in Hp. rewrite String.eqb_refl in Hp. cbn in Hp.
  set (named_only := List.filter (fun a => bool_decide (is_Some (key_of a))) attrs).
  assert (Hn : existsb hides named_only = false /\ handles named_only = handles attrs /\
    (forall name, handler_of name named_only = handler_of name attrs) /\
    attr "disabled" named_only = attr "disabled" attrs /\ attr "aria-label" named_only = attr "aria-label" attrs).
  { clear. induction attrs as [|a attrs (A1 & A2 & A3 & A4 & A5)]; [done|].
    unfold named_only, handles, handler_of, attr in *. destruct a as [c|k v|k h]; cbn.
    - by split_and!.
    - split_and!; [done|done|done|by destruct (String.eqb "disabled" k)|by destruct (String.eqb "aria-label" k)].
    - split_and!; [done|done| |done|done]. intros name. by destruct (String.eqb name k). }
  assert (Hc : existsb hides (classes attrs) = existsb hides attrs /\ handles (classes attrs) = false).
  { clear. unfold classes, handles. induction attrs as [|[c|k v|k h] attrs [IH1 IH2]]; cbn; by rewrite ?IH1, ?IH2. }
  destruct Hn as (N1 & N2 & N3 & N4 & N5), Hc as [C1 C2]. unfold AccordionContent. fold named_only.
  assert (Hw : carries named_only (with_props [slot "accordion-content"] named_only)) by (apply carries_with_props; own_tac).
  destruct (existsb hides attrs) eqn:Eh.
  - rewrite andb_true_l in Hp. apply negb_true_iff in Hp. destruct Hw as (W1 & W2 & _).
    split; [|intros tip]; cbn [flat_map texts controls_in]; unfold off_screen; cbn [String.eqb Ascii.eqb Bool.eqb orb];
      rewrite Eh, W1, N1, ?W2, ?N2, ?Hp; cbn; unfold off_screen; cbn; rewrite C1; cbn; constructor.
  - apply keeps_el; [done|done| |].
    + eapply carries_trans; [|exact Hw]. unfold carries. by rewrite Eh, N1, N2, N4, N5.
    + apply keeps_around; [done|by rewrite C1|done|done].
Qed.

(** The addon listens itself, unless the page gives it another handler for clicks. *)
Lemma addon_transparent : transparent "InputGroupAddon" (InputGroupAddon addonClick).
Proof.
  split; [done|]. split; [by intros; do 3 eexists|]. intros attrs cs ds _ Hk. change (shown_attrs _ attrs) with attrs.
  unfold InputGroupAddon. cbv zeta. set (own := [_; _; _; _]). set (props := rest ["align"] attrs).
  assert (Hr : carries attrs props) by (by apply carries_rest).
  set (own1 := [At "role" (VStr "group"); slot "input-group-addon"; At "data-align" (default_to (VStr "inline-start") "align" attrs)] : list (Attr E)).
  set (kept := List.filter (fun a => match key_of a with Some k => negb (has_key k props) | None => true end) own1).
  assert (Hw : carries attrs (kept ++ props)).
  { eapply carries_trans; [exact Hr|]. by apply (carries_with_props own1); own_tac. }
  destruct (has_key "onClick" props) eqn:Ek.
  - assert (with_props own props = kept ++ props) as ->.
    { unfold with_props, own. change [_; _; _; On "onClick" addonClick] with (own1 ++ [On "onClick" addonClick]).
      rewrite List.filter_app. cbn [List.filter key_of]. rewrite Ek. cbn. by rewrite app_nil_r. }
    by apply keeps_el.
  - assert (with_props own props = kept ++ On "onClick" addonClick :: props) as ->.
    { unfold with_props, own. change [_; _; _; On "onClick" addonClick] with (own1 ++ [On "onClick" addonClick]).
      rewrite List.filter_app. cbn [List.filter key_of]. rewrite Ek. cbn. by rewrite <- app_assoc. }
    apply keeps_el_addon; [done|done|exact Hw|done| |done].
    unfold kept, own1. cbn. by destruct (negb _), (negb _), (negb _).
Qed.

Lemma components_transparent : Forall (fun kc => transparent kc.1 kc.2) components.
Proof.
  unfold components. repeat (apply Forall_cons_2; [cbn [fst snd];
    first [apply content_transparent|apply addon_transparent|apply empty_transparent|apply button_transparent|apply input_button_transparent|apply field_separator_transparent|transparent_tac]|]).
  apply Forall_nil_2.
Qed.

Lemma leaves_transparent : Forall (fun kc => ordinary kc.1 /\ (forall attrs, exists tag' attrs' ds, kc.2 attrs [] = El tag' attrs' ds /\ ordinary tag') /\
  forall attrs, keeps (El kc.1 attrs []) (kc.2 attrs [])) leaves.
Proof.
  assert (Hn : forall ds, bare ds -> keeps_all [] ds) by (intros ds Hb; split; [apply sublist_nil_l|intros tip; by rewrite Hb]).
  unfold leaves. repeat (apply Forall_cons_2; [split; [reflexivity|]; split; [intros; do 3 eexists; split; reflexivity|];
    intros attrs; apply keeps_el; [reflexivity|reflexivity|solve [carries_tac]|apply Hn; bare_tac]|]).
  apply Forall_nil_2.
Qed.

Lemma component_of table tag c : component table tag = Some c -> (tag, c) ∈ table.
Proof.
  unfold component. intros Hf. apply fmap_Some in Hf as ([k c'] & Hf & ->). apply find_some in Hf as [Hi Hk].
  apply String.eqb_eq in Hk. cbn in Hk. subst. by apply list_elem_of_In.
Qed.
Lemma component_transparent tag c : component components tag = Some c -> transparent tag c.
Proof. intros Hc. apply component_of in Hc. pose proof components_transparent as Hf. rewrite Forall_forall in Hf. exact (Hf _ Hc). Qed.
Lemma leaf_transparent tag c attrs : component leaves tag = Some c ->
  (exists tag' attrs' ds, c attrs [] = El tag' attrs' ds /\ ordinary tag') /\ keeps (El tag attrs []) (c attrs []).
Proof.
  intros Hc. apply component_of in Hc. pose proof leaves_transparent as Hf. rewrite Forall_forall in Hf.
  destruct (Hf _ Hc) as (_ & Hs & Hk). split; [apply Hs|apply Hk].
Qed.

Lemma keeps_refl v : keeps v v.
Proof. by split. Qed.

(** The elements of a page that have a meaning to [View.v] keep it. *)
Definition tip_part (v : View E) : list Val :=
  match v with El tag _ ds => if String.eqb tag "TooltipContent" then flat_map raw_texts ds else [] | Text _ => [] end.
Lemma ordinary_tip tag attrs ds : ordinary tag -> tip_part (El tag attrs ds) = [].
Proof. unfold ordinary. cbn. by destruct (String.eqb tag "TooltipContent"). Qed.
Lemma as_shown_tip_part v : tip_part (as_shown v) = tip_part v.
Proof. destruct v as [t|tag attrs cs]; [done|]. cbn. destruct (String.eqb tag "TooltipContent") eqn:Et; [by cbn; rewrite Et|by cbn; rewrite Et]. Qed.
Lemma expand_tip_part v : tip_part (expand v) = tip_part (as_shown v).
Proof.
  rewrite as_shown_tip_part. destruct v as [t|tag attrs cs]; [done|]. cbn [expand]. destruct (String.eqb tag "TooltipContent") eqn:Et; [done|].
  assert (Hn : tip_part (El tag attrs cs) = []) by (cbn; by rewrite Et). rewrite Hn.
  destruct (component components tag) as [c|] eqn:Ec.
  - destruct (component_transparent _ _ Ec) as (_ & Hs & _). destruct (Hs attrs (map expand cs)) as (t' & a' & ds & -> & Ho).
    by apply ordinary_tip.
  - destruct cs as [|d cs]; [|by cbn; rewrite Et]. destruct (component leaves tag) as [c|] eqn:El'; [|by cbn; rewrite Et].
    destruct (leaf_transparent _ _ attrs El') as [(t' & a' & ds & -> & Ho) _]. by apply ordinary_tip.
Qed.
Lemma expand_tip cs : tip_of (map expand cs) = tip_of (map as_shown cs).
Proof.
  unfold tip_of. change (flat_map tip_part (map expand cs) = flat_map tip_part (map as_shown cs)).
  induction cs as [|v cs IH]; [done|]. cbn. by rewrite expand_tip_part, IH.
Qed.

Lemma keeps_inside tag attrs cs : keeps_all (map as_shown cs) (map expand cs) ->
  keeps (El tag attrs (map as_shown cs)) (El tag attrs (map expand cs)).
Proof.
  intros [Ht Hc]. split; [|intros tip]; cbn [flat_map texts controls_in]; (destruct (off_screen tag attrs); [constructor|]); rewrite !app_nil_r; [done|].
  rewrite expand_tip. apply same_controls_app; [|done]. destruct (handles attrs); [|constructor]. apply page_control; [|constructor].
  split; cbn; auto.
Qed.

(** An element that is no component of the library keeps its attributes. *)
Lemma shown_other tag attrs : component components tag = None -> shown_attrs tag attrs = attrs.
Proof. unfold shown_attrs. destruct (String.eqb_spec tag "ComboboxEmpty") as [->|]; [|done]. by vm_compute. Qed.

Lemma expand_keeps v : placed v = true -> keeps (as_shown v) (expand v).
Proof.
  induction v as [t|tag attrs cs IH] using View_ind'; [intros _; apply keeps_refl|]. cbn [expand as_shown placed].
  intros [Hp Hcs]%andb_prop. destruct (String.eqb tag "TooltipContent"); [apply keeps_refl|].
  assert (Hk : keeps_all (map as_shown cs) (map expand cs)).
  { apply keeps_forall. clear -IH Hcs. induction IH as [|v cs Hv _ IHcs]; cbn in *; [constructor|].
    apply andb_prop in Hcs as [H1 H2]. constructor; auto. }
  destruct (component components tag) as [c|] eqn:Ec.
  - destruct (component_transparent _ _ Ec) as (_ & _ & Ht). by apply Ht.
  - rewrite (shown_other _ _ Ec). destruct cs as [|d cs]; [|by apply keeps_inside].
    destruct (component leaves tag) as [c|] eqn:El'; [|by apply keeps_inside]. by apply leaf_transparent.
Qed.
End expand.

(** ** Theorems *)


(** A section of an accordion with an addon and the chips of a combobox *)
Definition demo_section : View (list string) :=
  El "Accordion" [] [El "AccordionItem" [] [
    El "AccordionTrigger" [] [txt "Topics"];
    El "AccordionContent" [] [
      El "InputGroup" [] [El "InputGroupAddon" [] [txt "#"]];
      Chips [(VStr "a", [txt "A"])] ["a"] "none" "pick" [] (fun l => l)]]].


(** ** Concrete elements *)

(** A class that hides [AccordionContent] hides what is inside, and not the element that has its handlers. *)
Lemma accordion_class : let attrs := [Class "hidden"; onClick tt] in
  controls (El "AccordionContent" attrs []) = [] /\ length (controls (Lib.AccordionContent attrs [])) = 1.
Proof. vm_compute. done. Qed.

(** The dialog has a button to close it that the page did not ask for. *)
Lemma dialog_closes : texts (expand (fun _ => tt) false (El "DialogContent" [] [@txt unit "x"])) = [VStr "x"; VStr "Close"].
Proof. vm_compute. done. Qed.

(** The chips of a combobox, on the elements of Base UI *)
Lemma chips_expanded :
  let v := Chips [(VStr "a", [txt "A"])] ["a"] "none" "pick" [] (fun l => l) in
  controls (expand (fun _ => []) false v) <> [] /\ texts (expand (fun _ => []) false v) = [VStr "a"; VStr "A"] /\
  texts (expand (fun _ => []) true v) = [VStr "a"; VStr "none"; VStr "A"].
Proof. vm_compute. done. Qed.

Lemma kebab_menu : controls (expand (fun _ => tt) false (@KebabMenu unit)) = [] /\ texts (expand (fun _ => tt) false (@KebabMenu unit)) =
  map VStr ["Open"; "Live Statistics"; "Problem Statistics"; "Leaderboard"; "Participants"; "Exit Group"].
Proof. vm_compute. done. Qed.
