(* ===== verification/FormFields.v ===== *)
(** * Fields of forms

    The parts of the component library that compute: [FieldError] of [ui/field.tsx] and [ui/form.tsx], the wiring of a field of
    react-hook-form with its label, its control, its description and its message.

    [Form] and [Controller] are react-hook-form's; what it knows of a field by its name is a function here. *)

From S2P Require Export Library.

(** ** field.tsx: the errors of a field *)

(** An entry of [errors]: missing, or with or without a message *)
Definition FieldErr : Type := option (option string).
(** [error?.message] *)
Definition message (e : FieldErr) : option string := match e with Some m => m | None => None end.

(** [new Map(...)]: a key that is set again keeps its place. *)
Fixpoint map_set (k : option string) (e : FieldErr) (m : list (option string * FieldErr)) : list (option string * FieldErr) :=
  match m with
  | [] => [(k, e)]
  | (k', e') :: m => if bool_decide (k = k') then (k', e) :: m else (k', e') :: map_set k e m
  end.
Definition uniqueErrors (errors : list FieldErr) : list FieldErr := map snd (foldl (fun m e => map_set (message e) e m) [] errors).

Section errors.
Context {E : Type}.

Definition opt_text (o : option string) : Val := match o with Some s => VStr s | None => VUndef end.
(** [error?.message && <li>] *)
Definition error_item (e : FieldErr) : list (View E) :=
  match message e with None => [] | Some EmptyString => [] | Some m => [El "li" [] [txt m]] end.

(** [content]: the children when there are any, and else what the errors say; nothing when that is not truthy *)
Definition error_content (children : list (View E)) (errors : option (list FieldErr)) : list (View E) :=
  if negb (bool_decide (children = [])) then children else
  match errors with
  | None | Some [] => []
  | Some es =>
      match uniqueErrors es with
      | [e] => only (truthy (opt_text (message e))) [Text (opt_text (message e))]
      | us => [El "ul" [] (flat_map error_item us)]
      end
  end.
Definition FieldError (props : list (Attr E)) (children : list (View E)) (errors : option (list FieldErr)) : list (View E) :=
  match error_content children errors with
  | [] => []
  | content => [El "div" (with_props [At "role" (VStr "alert"); slot "field-error"] props) content]
  end.
End errors.

(** ** form.tsx *)

(** What the form knows of a field *)
Record FieldState := mkFieldState { invalid : bool; isDirty : bool; isTouched : bool; error : Val }.

(** The contexts around a component of a field: [FormFieldContext] and [FormItemContext], both [{}] by default, and the
    form, which is missing outside a [FormProvider] *)
Record FieldContext := mkFieldContext { fieldContext : Val; itemContext : Val; form : option (Val -> FieldState) }.
Definition no_context : FieldContext := mkFieldContext (VObj []) (VObj []) None.

(** What the providers change: [<Form>], [<FormField name>] and [<FormItem>] with the id React gives it *)
Definition Form (get : Val -> FieldState) (c : FieldContext) : FieldContext := mkFieldContext (fieldContext c) (itemContext c) (Some get).
Definition FormField (name : string) (c : FieldContext) : FieldContext :=
  mkFieldContext (VObj [("name", VStr name)]) (itemContext c) (form c).
Definition FormItem_context (id : string) (c : FieldContext) : FieldContext :=
  mkFieldContext (fieldContext c) (VObj [("id", VStr id)]) (form c).

Record FormFieldIds := mkFormFieldIds {
  f_id : Val; f_name : Val; formItemId : string; formDescriptionId : string; formMessageId : string; f_state : FieldState }.

Definition outside_field : Val := js_error "useFormField should be used within <FormField>".
Definition useFormField (c : FieldContext) : Res FormFieldIds :=
  match form c with
  | None => Throw type_error                     (* [useFormContext()] is [null] *)
  | Some getFieldState =>
      let fieldState := getFieldState (prop (fieldContext c) "name") in
      if negb (truthy (fieldContext c)) then Throw outside_field else
      let id := prop (itemContext c) "id" in
      Ok (mkFormFieldIds id (prop (fieldContext c) "name") (to_str id +:+ "-form-item") (to_str id +:+ "-form-item-description")
            (to_str id +:+ "-form-item-message") fieldState)
  end.

Section form.
Context {E : Type}.
Implicit Types (props : list (Attr E)) (children : list (View E)).

(** The element of a [FormItem]; what is inside has [FormItem_context]. *)
Definition FormItem props children : View E := El "div" props children.

Definition FormLabel (c : FieldContext) props children : Res (View E) :=
  f ← useFormField c; Ok (Lib.Label (with_props [At "htmlFor" (VStr (formItemId f))] props) children).

Definition FormControl (c : FieldContext) props children : Res (View E) :=
  f ← useFormField c;
  let failed := truthy (error (f_state f)) in
  Ok (El "Slot" (with_props [At "id" (VStr (formItemId f));
        At "aria-describedby" (VStr (if negb failed then formDescriptionId f else formDescriptionId f +:+ " " +:+ formMessageId f));
        At "aria-invalid" (VBool failed)] props) children).

Definition FormDescription (c : FieldContext) props children : Res (View E) :=
  f ← useFormField c; Ok (El "p" (with_props [At "id" (VStr (formDescriptionId f))] props) children).

(** The error's message as a string, or the children *)
Definition message_body (e : Val) (children : list (View E)) : list (View E) :=
  if truthy e then (let s := to_str (get_opt e "message") in only (negb (String.eqb s "")) [txt s]) else children.
Definition FormMessage (c : FieldContext) props children : Res (list (View E)) :=
  f ← useFormField c;
  match message_body (error (f_state f)) children with
  | [] => Ok []
  | body => Ok [El "p" (with_props [At "id" (VStr (formMessageId f))] props) body]
  end.
End form.

(** ** The errors a field shows *)

(** The first of each *)
Fixpoint firsts (l : list (option string)) : list (option string) :=
  match l with
  | [] => []
  | k :: l => k :: List.filter (fun k' => negb (bool_decide (k' = k))) (firsts l)
  end.
(** What can be read of a message *)
Definition shown (k : option string) : list Val := match k with None | Some EmptyString => [] | Some s => [VStr s] end.

Section lemmas.
Context {E : Type}.

Definition keyed (m : list (option string * FieldErr)) : Prop := Forall (fun kv => message kv.2 = kv.1) m.
Lemma map_set_keys k e m : map fst (map_set k e m) = if bool_decide (k ∈ map fst m) then map fst m else map fst m ++ [k].
Proof.
  induction m as [|[k' e'] m IH]; cbn [map_set map fst]; [by rewrite bool_decide_false by apply not_elem_of_nil|].
  destruct (bool_decide_reflect (k = k')) as [->|Hk]; cbn [map fst].
  - by rewrite bool_decide_true by constructor.
  - rewrite IH, (bool_decide_ext (k ∈ k' :: map fst m) (k ∈ map fst m)) by (rewrite elem_of_cons; tauto).
    by case_bool_decide.
Qed.
Lemma map_set_keyed e m : keyed m -> keyed (map_set (message e) e m).
Proof.
  induction 1 as [|[k' e'] m Hk Hm IH]; cbn [map_set]; [by repeat constructor|].
  case_bool_decide; by constructor.
Qed.

Lemma filter_all {A} (f : A -> bool) l : Forall (fun x => f x = true) l -> List.filter f l = l.
Proof. induction 1 as [|x l Hx _ IH]; [done|]. cbn. by rewrite Hx, IH. Qed.
Lemma filter_filter {A} (f g : A -> bool) l : List.filter f (List.filter g l) = List.filter (fun x => g x && f x) l.
Proof. induction l as [|x l IH]; [done|]. cbn. destruct (g x); cbn; by rewrite IH. Qed.
Lemma filter_swap {A} (f g : A -> bool) l : List.filter f (List.filter g l) = List.filter g (List.filter f l).
Proof. rewrite !filter_filter. apply List.filter_ext. intros x. by destruct (f x), (g x). Qed.

Definition new_to (l : list (option string)) (k : option string) : bool := negb (bool_decide (k ∈ l)).

Lemma fold_keys es : forall m, keyed m ->
  keyed (foldl (fun m e => map_set (message e) e m) m es) /\
  map fst (foldl (fun m e => map_set (message e) e m) m es) = map fst m ++ List.filter (new_to (map fst m)) (firsts (map message es)).
Proof.
  induction es as [|e es IH]; intros m Hm; cbn [foldl map firsts List.filter]; [by rewrite app_nil_r|].
  destruct (IH _ (map_set_keyed e m Hm)) as [Hk ->]. split; [done|]. clear IH Hk. rewrite map_set_keys.
  set (k := message e). set (ks := map fst m). unfold new_to. destruct (bool_decide_reflect (k ∈ ks)) as [Hi|Hi]; cbn [negb]; rewrite filter_filter.
  - f_equal. apply List.filter_ext. intros k'. destruct (bool_decide_reflect (k' = k)) as [->|]; [by rewrite bool_decide_true|done].
  - rewrite <- app_assoc. cbn [app]. do 2 f_equal. apply List.filter_ext. intros k'.
    rewrite (bool_decide_ext (k' ∈ ks ++ [k]) (k' = k \/ k' ∈ ks)) by (rewrite elem_of_app, list_elem_of_singleton; tauto).
    destruct (bool_decide_reflect (k' = k)) as [->|Hn]; cbn; [by rewrite bool_decide_true by auto|].
    f_equal. apply bool_decide_ext. tauto.
Qed.

Lemma uniqueErrors_messages es : map message (uniqueErrors es) = firsts (map message es).
Proof.
  unfold uniqueErrors. destruct (fold_keys es [] (Forall_nil_2 _)) as [Hk Hf]. rewrite filter_all in Hf by (apply Forall_true; done).
  cbn [map app] in Hf. rewrite <- Hf. clear Hf. induction Hk as [|[k e] m Hm _ IH]; [done|]. cbn in *. by rewrite Hm, IH.
Qed.

Lemma error_item_texts (us : list FieldErr) :
  flat_map (@texts E) (flat_map error_item us) = flat_map shown (map message us).
Proof.
  induction us as [|u us IH]; [done|]. cbn. rewrite flat_map_app, IH. f_equal. unfold error_item, shown. by destruct (message u) as [[|a s]|].
Qed.
End lemmas.

(** ** Theorems *)

(** A field shows each of its errors once.  Without children of its own, and with props that do not hide it, the error box of a field reads, in
    their order, the messages of its errors that are not empty, each at its first occurrence; there is no box when there are no errors. *)
Theorem errors_shown_once {E} (props : list (Attr E)) (errors : option (list FieldErr)) : existsb hides props = false ->
  flat_map texts (FieldError props [] errors) = flat_map shown (firsts (map message (default [] errors))) /\
  (default [] errors = [] -> FieldError props [] errors = []).
Proof.
  intros Hp. split; [|by intros Hd; unfold FieldError, error_content; destruct errors as [[|e es]|]].
  assert (Hc : flat_map (@texts E) (error_content [] errors) = flat_map shown (firsts (map message (default [] errors)))).
  { unfold error_content. cbn. destruct errors as [[|e0 es0]|]; [done| |done]. change (default [] (Some (e0 :: es0))) with (e0 :: es0).
    rewrite <- uniqueErrors_messages. destruct (uniqueErrors (e0 :: es0)) as [|e [|e' us]].
    - reflexivity.
    - cbn. destruct (message e) as [[|a s]|]; [done| |done]. cbn. by eqb_simpl.
    - cbn [flat_map texts]. rewrite app_nil_r. unfold off_screen. repeat eqb_simpl. cbn [orb existsb]. exact (error_item_texts (e :: e' :: us)). }
  rewrite <- Hc. unfold FieldError. destruct (error_content [] errors) as [|c cs]; [done|]. cbn [flat_map texts].
  destruct (carries_with_props [At "role" (VStr "alert"); slot "field-error"] props) as [Ho _]; [by repeat constructor|].
  unfold off_screen. repeat eqb_simpl. cbn [orb]. by rewrite Ho, Hp, app_nil_r.
Qed.

(** ** How a field is put together *)

(** The contexts inside [<Form><FormField name><FormItem>] *)
Definition in_field (get : Val -> FieldState) (name id : string) : FieldContext := FormItem_context id (FormField name (Form get no_context)).

(** The id of the first element of a view *)
Definition element_id {E} (v : View E) : Val := match v with El _ attrs _ => attr "id" attrs | Text _ => VUndef end.
Definition element_attr {E} (name : string) (v : View E) : Val := match v with El _ attrs _ => attr name attrs | Text _ => VUndef end.

(** The label of a field names the control; the control is described by the description, and, when the field has an error with a message, by
    the message that is on the screen. *)
Lemma field_wired {E} get name id (ls cs ds : list (View E)) : exists (l c d : View E) (m : list (View E)),
  FormLabel (in_field get name id) [] ls = Ok l /\ FormControl (in_field get name id) [] cs = Ok c /\
  FormDescription (in_field get name id) [] ds = Ok d /\ FormMessage (in_field get name id) [] [] = Ok m /\
  element_attr "htmlFor" l = element_id c /\
  let e := error (get (VStr name)) in
  element_attr "aria-invalid" c = VBool (truthy e) /\
  (truthy e = false -> element_attr "aria-describedby" c = element_id d /\ m = []) /\
  (truthy e = true -> to_str (get_opt e "message") <> "" -> exists p : View E, m = [p] /\ texts p = [VStr (to_str (get_opt e "message"))] /\
     element_attr "aria-describedby" c = VStr (to_str (element_id d) +:+ " " +:+ to_str (element_id p))).
Proof.
  unfold FormMessage, FormLabel, FormControl, FormDescription, in_field. cbn [useFormField FormItem_context FormField Form form fieldContext itemContext no_context truthy negb].
  unfold useFormField. cbn [FormItem_context FormField Form form fieldContext itemContext no_context truthy negb].
  unfold mbind, res_bind, f_state. cbn [prop field]. unfold message_body. repeat eqb_simpl. cbv zeta.
  destruct (truthy (error (get (VStr name)))) eqn:He.
  - destruct (String.eqb (to_str (get_opt (error (get (VStr name))) "message")) "") eqn:Hm; cbn [negb only].
    + do 4 eexists. do 4 (split; [reflexivity|]). split; [reflexivity|]. split; [reflexivity|]. split; [done|].
      intros _ Hn. by apply String.eqb_eq in Hm.
    + do 4 eexists. do 4 (split; [reflexivity|]). split; [reflexivity|]. split; [reflexivity|]. split; [done|].
      intros _ _. eexists. split; [reflexivity|]. by split.
  - do 4 eexists. do 4 (split; [reflexivity|]). split; [reflexivity|]. split; [reflexivity|]. by split.
Qed.

(** Outside a form nothing of a field is rendered; outside a [FormField] the check never fires: its context is an object from the start. *)
Lemma check_never_fires get id : useFormField (FormItem_context id (Form get no_context)) =
  Ok (mkFormFieldIds (VStr id) VUndef (id +:+ "-form-item") (id +:+ "-form-item-description") (id +:+ "-form-item-message") (get VUndef)) /\
  useFormField (FormItem_context id no_context) = Throw type_error.
Proof. by split. Qed.

(** An error without a message is spelled out. *)
Lemma message_undefined : FormMessage (E := unit) (in_field (fun _ => mkFieldState true true true (VObj [("type", VStr "required")])) "code" "r1") [] [] =
  Ok [El "p" [At "id" (VStr "r1-form-item-message")] [txt "undefined"]].
Proof. reflexivity. Qed.

(** Errors that differ and say nothing leave an empty box. *)
Lemma empty_alert : FieldError (E := unit) [] [] (Some [None; Some (Some "")]) =
  [El "div" [At "role" (VStr "alert"); slot "field-error"] [El "ul" [] []]].
Proof. vm_compute. reflexivity. Qed.

Lemma errors_shown_once_witness : existsb hides [At (E := unit) "id" (VStr "e")] = false /\
  flat_map texts (FieldError [At (E := unit) "id" (VStr "e")] [] (Some [Some (Some "a"); Some (Some "b"); Some (Some "a")])) = [VStr "a"; VStr "b"].
Proof.
  split; [reflexivity|]. etransitivity; [apply (errors_shown_once [At (E := unit) "id" (VStr "e")]); reflexivity|]. vm_compute. reflexivity.
Defined.
