(* ===== verification/Charts.v ===== *)
(** * Charts

    [packages/components/ui/chart.tsx]: what the library's charts make of their configuration: the style sheet with the colours of
    the series, the tooltip, the legend, and the flag by which a chart waits for a size.  The chart itself is drawn by recharts;
    its payload is a value here, [toLocaleString] a parameter.  An icon of the configuration is an empty [svg]. *)

From S2P Require Export Library.
From Stdlib Require Import Ascii.

(** ** The configuration *)

(** An entry: a label, an icon, and a colour or one per theme; what is missing is [undefined]. *)
Record Series := mkSeries { s_label : Val; s_icon : bool; s_color : option string; s_theme : option (list (string * string)) }.
Definition ChartConfig : Type := list (string * Series).

Definition THEMES : list (string * string) := [("light", ""); ("dark", ".dark")].

(** [config[k]]: a field of its own, or one that every object has, which has no label, icon or colour *)
Definition OBJECT_MEMBERS : list string :=
  ["constructor"; "__defineGetter__"; "__defineSetter__"; "hasOwnProperty"; "__lookupGetter__"; "__lookupSetter__"; "isPrototypeOf";
   "propertyIsEnumerable"; "toString"; "valueOf"; "__proto__"; "toLocaleString"].
Definition no_series : Series := mkSeries VUndef false None None.
Definition config_get (config : ChartConfig) (k : string) : option Series :=
  match List.find (fun kv => String.eqb k kv.1) config with
  | Some (_, s) => Some s
  | None => if includes OBJECT_MEMBERS k then Some no_series else None
  end.

(** [itemConfig?.label], [itemConfig?.icon] *)
Definition label_of (s : option Series) : Val := match s with Some s => s_label s | None => VUndef end.
Definition icon_of (s : option Series) : bool := match s with Some s => s_icon s | None => false end.

Definition object_typed (v : Val) : bool := match v with VObj _ | VArr _ => true | _ => false end.

(** Members that every object has are not strings: [k in v] and the type of [v[k]] are one question. *)
Definition getPayloadConfigFromPayload (config : ChartConfig) (payload : Val) (key : string) : option Series :=
  if negb (object_typed payload) then None else
  let payloadPayload := prop payload "payload" in
  let configLabelKey :=
    match prop payload key with
    | VStr s => s
    | _ => match (if object_typed payloadPayload then prop payloadPayload key else VUndef) with VStr s => s | _ => key end
    end in
  match config_get config configLabelKey with Some s => Some s | None => config_get config key end.

(** ** The style sheet *)

Definition newline : string := String (ascii_of_nat 10) "".

(** [itemConfig.theme?.[theme] ?? itemConfig.color] *)
Definition theme_color (theme : string) (s : Series) : option string :=
  match s_theme s with
  | Some colors => match List.find (fun kv => String.eqb theme kv.1) colors with Some (_, c) => Some c | None => s_color s end
  | None => s_color s
  end.
(** [config.theme ?? config.color], as a condition *)
Definition coloured (s : Series) : bool := match s_theme s with Some _ => true | None => opt_truthy (s_color s) end.

Definition variable (theme : string) (kv : string * Series) : string :=
  let color := theme_color theme kv.2 in
  if opt_truthy color then "  --color-" +:+ kv.1 +:+ ": " +:+ default "" color +:+ ";" else "".
Definition theme_rule (id : string) (config : ChartConfig) (t : string * string) : string :=
  newline +:+ t.2 +:+ " [data-chart=" +:+ id +:+ "] {" +:+ newline +:+
  join newline (map (variable t.1) config) +:+ newline +:+ "}" +:+ newline.

Definition ChartStyle {E} (id : string) (config : ChartConfig) : list (View E) :=
  match List.filter (fun kv => coloured kv.2) config with
  | [] => []
  | colorConfig => [El "style" [] [txt (join newline (map (theme_rule id colorConfig) THEMES))]]
  end.

(** ** The container *)

(** [useChart()] outside a container *)
Definition no_chart : Val := js_error "useChart must be used within a <ChartContainer />".
Definition useChart (context : option ChartConfig) : Res ChartConfig := match context with Some c => Ok c | None => Throw no_chart end.

(** [uniqueId.replace(/:/g, '')] *)
Fixpoint no_colons (s : string) : string :=
  match s with
  | EmptyString => ""
  | String a s => if Ascii.eqb a ":" then no_colons s else String a (no_colons s)
  end.
Definition chartId (id : option string) (uniqueId : string) : string :=
  "chart-" +:+ match id with Some i => i | None => no_colons uniqueId end.

(** [ready]: set by the effect when the element has a size, then by each report of the observer, until it is disconnected. *)
Record ChartBox := mkChartBox { ready : bool; observed : bool }.
Definition chart_effect (el : option (Z * Z)) (b : ChartBox) : ChartBox :=
  match el with
  | None => b
  | Some (width, height) => mkChartBox (ready b || ((0 <? width)%Z && (0 <? height)%Z)) true
  end.
Definition chart_resized (width height : Z) (b : ChartBox) : ChartBox :=
  if observed b then mkChartBox ((0 <? width)%Z && (0 <? height)%Z) true else b.
Definition chart_unmount (b : ChartBox) : ChartBox := mkChartBox (ready b) false.

Definition ChartContainer {E} (id : option string) (uniqueId : string) (config : ChartConfig) (b : ChartBox)
    (props : list (Attr E)) (children : list (View E)) : View E :=
  El "div" (with_props [slot "chart"; At "data-chart" (VStr (chartId id uniqueId))] props)
    (ChartStyle (chartId id uniqueId) config ++ only (ready b) [El "RechartsPrimitive.ResponsiveContainer" [] children]).

(** ** Tooltip and legend *)

Section contents.
Context {E : Type} (locale : Z -> string).

Definition not_none (item : Val) : bool := negb (is_str (prop item "type") "none").

(** A node that React shows: [undefined], [null] and booleans are nothing. *)
Definition node (v : Val) : list (View E) := match v with VUndef | VNull | VBool _ => [] | _ => [Text v] end.

Record TooltipProps := mkTooltip {
  t_active : bool; t_indicator : string; t_hideLabel : bool; t_hideIndicator : bool; t_label : Val; t_color : option string;
  t_nameKey : option string; t_labelKey : option string;
  t_labelFormatter : option (Val -> list Val -> list (View E));
  t_formatter : option (Val -> Val -> Val -> nat -> Val -> list (View E)) }.

Definition tooltipLabel (config : ChartConfig) (p : TooltipProps) (payload : list Val) : list (View E) :=
  match payload with
  | [] => []
  | item :: _ =>
      if t_hideLabel p then [] else
      let key := match t_labelKey p with
                 | Some k => k
                 | None => to_str (js_coalesce (get_opt item "dataKey") (js_coalesce (get_opt item "name") (VStr "value")))
                 end in
      let itemConfig := getPayloadConfigFromPayload config item key in
      let value := match t_labelKey p, t_label p with
                   | (None | Some EmptyString), VStr label => js_coalesce (label_of (config_get config label)) (VStr label)
                   | _, _ => label_of itemConfig
                   end in
      match t_labelFormatter p with
      | Some f => [div (f value payload)]
      | None => only (truthy value) [div (node value)]
      end
  end.

Definition item_value (v : Val) : list (View E) :=
  if is_nullish v then [] else [span [txt (match v with VNum z => locale z | _ => to_str v end)]].

Definition tooltip_item (config : ChartConfig) (p : TooltipProps) (nestLabel : bool) (label : list (View E)) (index : nat) (item : Val) : View E :=
  let key := match t_nameKey p with
             | Some k => k
             | None => to_str (js_coalesce (prop item "name") (js_coalesce (prop item "dataKey") (VStr "value")))
             end in
  let itemConfig := getPayloadConfigFromPayload config item key in
  let indicatorColor := match t_color p with Some c => VStr c | None => js_coalesce (get_opt (prop item "payload") "fill") (prop item "color") end in
  let plain : list (View E) :=
    (if icon_of itemConfig then [svg] else
     only (negb (t_hideIndicator p))
       [El "div" ([At "--color-bg" indicatorColor; At "--color-border" indicatorColor] ++
                  (if String.eqb (t_indicator p) "dot" then [Class "h-2.5 w-2.5"] else []) ++
                  (if String.eqb (t_indicator p) "line" then [Class "w-1"] else []) ++
                  (if String.eqb (t_indicator p) "dashed" then [Class "w-0 border-[1.5px] border-dashed bg-transparent"] else []) ++
                  (if nestLabel && String.eqb (t_indicator p) "dashed" then [Class "my-0.5"] else [])) []]) ++
    [El "div" [Class (if nestLabel then "items-end" else "items-center")]
       (div ((if nestLabel then label else []) ++ [span (node (js_coalesce (label_of itemConfig) (prop item "name")))]) ::
        item_value (prop item "value"))] in
  El "div" (if String.eqb (t_indicator p) "dot" then [Class "items-center"] else [])
    (match t_formatter p with
     | Some f => if (match prop item "value" with VUndef => false | _ => true end) && truthy (prop item "name")
                 then f (prop item "value") (prop item "name") item index (prop item "payload") else plain
     | None => plain
     end).

Definition nest_label (p : TooltipProps) (payload : list Val) : bool :=
  Nat.eqb (length payload) 1 && negb (String.eqb (t_indicator p) "dot").

Definition ChartTooltipContent (context : option ChartConfig) (p : TooltipProps) (payload : list Val) : Res (list (View E)) :=
  config ← useChart context;
  let label := tooltipLabel config p payload in
  if negb (t_active p) || bool_decide (payload = []) then Ok [] else
  let nestLabel := nest_label p payload in
  Ok [div ((if nestLabel then [] else label) ++
           [div (imap (tooltip_item config p nestLabel label) (List.filter not_none payload))])].

Definition legend_item (config : ChartConfig) (hideIcon : bool) (nameKey : option string) (item : Val) : View E :=
  let key := match nameKey with Some k => k | None => to_str (js_coalesce (prop item "dataKey") (VStr "value")) end in
  let itemConfig := getPayloadConfigFromPayload config item key in
  div ((if icon_of itemConfig && negb hideIcon then svg else El "div" [At "backgroundColor" (prop item "color")] []) ::
       node (label_of itemConfig)).
Definition ChartLegendContent (context : option ChartConfig) (hideIcon : bool) (verticalAlign : string) (nameKey : option string)
    (payload : list Val) : Res (list (View E)) :=
  config ← useChart context;
  if bool_decide (payload = []) then Ok [] else
  Ok [El "div" [Class (if String.eqb verticalAlign "top" then "pb-3" else "pt-3")]
        (map (legend_item config hideIcon nameKey) (List.filter not_none payload))].
End contents.

(** ** Lemmas *)

(** Once mounted, a chart is drawn exactly while its element has a size. *)
Lemma chart_drawn (size : Z * Z) (sizes : list (Z * Z)) :
  let positive s := ((0 <? s.1) && (0 <? s.2))%Z in
  ready (foldl (fun b s => chart_resized s.1 s.2 b) (chart_effect (Some size) (mkChartBox false false)) sizes) =
    positive (default size (last sizes)).
Proof.
  cbv zeta. destruct size as [w h]. cbn [chart_effect ready orb fst snd].
  assert (H : forall w h sizes, foldl (fun b s => chart_resized s.1 s.2 b) (mkChartBox ((0 <? w) && (0 <? h))%Z true) sizes =
     mkChartBox ((0 <? (default (w, h) (last sizes)).1) && (0 <? (default (w, h) (last sizes)).2))%Z true).
  { clear. intros w h sizes. revert w h. induction sizes as [|[w' h'] sizes IH]; intros w h; [done|]. cbn [foldl chart_resized observed fst snd].
    rewrite IH, last_cons. destruct (last sizes) as [[? ?]|]; reflexivity. }
  rewrite H. reflexivity.
Qed.

(** A series is found under its key; the payload can say that another one is meant. *)
Lemma payload_series config fields key s : field "payload" fields = VUndef -> field key fields = VUndef -> config_get config key = Some s ->
  getPayloadConfigFromPayload config (VObj fields) key = Some s.
Proof. intros Hp Hk Hs. unfold getPayloadConfigFromPayload. cbn [prop object_typed negb]. rewrite Hp, Hk. cbn [object_typed]. by rewrite Hs. Qed.
Lemma payload_alias config fields key k s : field key fields = VStr k -> config_get config k = Some s ->
  getPayloadConfigFromPayload config (VObj fields) key = Some s.
Proof. intros Hk Hs. unfold getPayloadConfigFromPayload. cbn [prop object_typed negb]. by rewrite Hk, Hs. Qed.

Section reading.
Context {E : Type} (locale : Z -> string).
Implicit Types (config : ChartConfig) (p : TooltipProps (E := E)).

(** What is read of an entry: the label of its series, or else its name; then its value *)
Definition entry_texts config p (item : Val) : list Val :=
  let key := match t_nameKey p with
             | Some k => k
             | None => to_str (js_coalesce (prop item "name") (js_coalesce (prop item "dataKey") (VStr "value")))
             end in
  flat_map (@texts E) (node (js_coalesce (label_of (getPayloadConfigFromPayload config item key)) (prop item "name"))) ++
  flat_map (@texts E) (item_value locale (prop item "value")).

Lemma tooltip_item_texts config p nest label i item : t_formatter p = None ->
  texts (tooltip_item locale config p nest label i item) = (if nest then flat_map texts label else []) ++ entry_texts config p item.
Proof.
  intros Hf. unfold tooltip_item, entry_texts. rewrite Hf.
  assert (Hh : forall ind (cs : list (View E)), texts (El "div" (if String.eqb ind "dot" then [Class "items-center"] else []) cs) = flat_map texts cs)
    by (intros ind cs; by destruct (String.eqb ind "dot")).
  rewrite Hh, flat_map_app.
  match goal with |- flat_map texts (if ?c then _ else ?x) ++ _ = _ => assert (Hi : flat_map texts (if c then [svg] else x) = []) end.
  { destruct (icon_of _); [done|]. destruct (negb _); [|done]. cbn [only]. cbn [flat_map texts].
    by destruct (String.eqb (t_indicator p) "dot"), (String.eqb (t_indicator p) "line"), (String.eqb (t_indicator p) "dashed"), nest. }
  rewrite Hi. unfold div, span. cbn [app flat_map texts]. unfold off_screen. repeat eqb_simpl. cbn [orb existsb].
  rewrite app_nil_r. destruct nest; cbn [existsb hides]; unfold includes; cbn [existsb HIDING]; repeat eqb_simpl; cbn [orb app];
    rewrite ?flat_map_app; cbn [flat_map texts]; unfold off_screen; repeat eqb_simpl; cbn [orb existsb]; by rewrite ?app_nil_r, <- ?app_assoc.
Qed.

(** The tooltip of a chart: its label once, and every entry that is not of the type [none], with its label and its value. *)
Lemma tooltip_texts config p payload : t_formatter p = None -> t_active p = true ->
  exists v, ChartTooltipContent locale (Some config) p payload = Ok v /\
    let shown := List.filter not_none payload in
    let label := flat_map texts (tooltipLabel config p payload) in
    (payload = [] -> v = []) /\
    (nest_label p payload = false -> payload <> [] -> flat_map texts v = label ++ flat_map (entry_texts config p) shown) /\
    (nest_label p payload = true -> flat_map texts v = flat_map (fun item => label ++ entry_texts config p item) shown).
Proof.
  intros Hf Ha. unfold ChartTooltipContent, useChart, mbind, res_bind. rewrite Ha. cbn [negb orb].
  case_bool_decide as Hp; [subst; eexists; split; [done|]; by split_and!|]. eexists. split; [done|]. cbv zeta.
  assert (Ht : forall (nest : bool) (label : list (View E)) (l : list Val) (f : nat -> Val -> View E), (forall i item, texts (f i item) = (if nest then flat_map texts label else []) ++ entry_texts config p item) ->
     flat_map texts (imap f l) = flat_map (fun item => (if nest : bool then flat_map (@texts E) label else []) ++ entry_texts config p item) l).
  { clear. intros nest label l. induction l as [|x l IH]; intros f Hf; [done|]. rewrite imap_cons. cbn [flat_map].
    rewrite Hf. f_equal. apply IH. intros i item. apply Hf. }
  split; [done|]. split; intros Hn.
  - intros _. rewrite Hn. unfold div. cbn [flat_map texts]. rewrite app_nil_r, flat_map_app. cbn.
    rewrite app_nil_r. f_equal. erewrite Ht; [|intros i item; by apply tooltip_item_texts]. done.
  - rewrite Hn. unfold div. cbn. rewrite !app_nil_r. erewrite Ht; [|intros i item; by apply tooltip_item_texts]. done.
Qed.
End reading.

(** The style sheet of a chart with two series *)
Lemma style_sheet : ChartStyle (E := unit) "chart-r1" [("easy", mkSeries (VStr "Easy") false (Some "green") None);
    ("all", mkSeries (VStr "All") false None (Some [("light", "black"); ("dark", "white")]))] =
  [El "style" [] [txt (join newline ["" ; " [data-chart=chart-r1] {"; "  --color-easy: green;"; "  --color-all: black;"; "}"; ""; "";
     ".dark [data-chart=chart-r1] {"; "  --color-easy: green;"; "  --color-all: white;"; "}"; ""])]].
Proof. vm_compute. reflexivity. Qed.
