(* ===== verification/World.v ===== *)
(** * The world a handler runs in

    [World] is what every handler of the panel shares: the stores, the
    extension storage, the toolbar badge, the active tab, the clock, and the
    environment's future answers.  The answers of the server to the next
    [fetch] calls are the list [w_net], those of the router the list
    [w_router], the rejection of [chrome.tabs.update], if any, is [w_tabErr]: a
    statement quantified over the world is a statement about
    every behaviour of server and router.  [w_log] records, in order, every
    effect that leaves the panel.

    The clock advances when a handler sleeps or waits for an answer; a handler
    is not interleaved with others except where a component models that
    explicitly ([Leaderboard.v], [ProblemCount.v], [RoomChoice.v], [Worker.v]). *)

From S2P Require Export Json Stores.

(** Which parts of the [chrome] object exist. *)
Record Platform := mkPlatform {
  has_storage : bool;      (* chrome.storage.local *)
  has_session : bool;      (* chrome.storage.session *)
  has_runtime : bool;      (* chrome.runtime *)
  has_sendMessage : bool;  (* chrome.runtime.sendMessage *)
  has_runtime_id : bool;   (* chrome.runtime.id *)
  has_getURL : bool;       (* chrome.runtime.getURL *)
  has_tabs : bool;         (* chrome.tabs *)
  has_action : bool;       (* chrome.action *)
}.

(** An answer to [fetch]: a rejection, or a response after [delay] ms whose
    body is JSON ([Some]) or not ([None]). *)
Inductive NetReply :=
| NetFail (e : Val)
| Reply (delay : Z) (status : Z) (body : option Val).

Record Response := mkResponse { status : Z; body : option Val }.

(** [res.ok] *)
Definition res_ok (r : Response) : bool := ((200 <=? status r) && (status r <=? 299))%Z.

Record Request := mkRequest {
  method : string;
  url : string;
  reqBody : option string;
}.

Record Tab := mkTab { tab_id : option Z; tab_url : option string }.

Inductive Effect :=
| EFetch (r : Request)
| ESend (d : string)                      (* WebSocket.send *)
| EClose                                  (* WebSocket.close *)
| EMessage (msg : Val)                    (* chrome.runtime.sendMessage *)
| ETabUpdate (tid : Z) (u : string)       (* chrome.tabs.update *)
| ETabMessage (tid : Z) (t : string)      (* chrome.tabs.sendMessage *)
| ETabCreate (u : string)                 (* chrome.tabs.create *)
| ERoute (r : string)                     (* router.push *)
| EOpen (u : string) (target : string)    (* window.open *)
| EAlert (msg : string)
| EConsole (msg : string)
| ESound (file : string)
| ESleep (ms : Z)
| ECopy (text : string)                   (* document.execCommand('copy') *)
| ECall (api : string) (args : Val).      (* a call of another API of the browser *)

Record World := mkWorld {
  w_room : RoomState;
  w_user : UserState;
  w_panel : PanelState;
  w_settings : SettingsState;
  w_counts : gmap string Z;
  w_storage : gmap string Val;
  w_badge : string;
  w_tab : option Tab;
  w_tabErr : option Val;
  w_platform : Platform;
  w_now : Z;
  w_serverUrl : string;
  w_rtcUrl : string;
  w_net : list NetReply;
  w_router : list (Res bool);
  w_log : list Effect;
}.

(** ** Field updates *)
Section updates.
Context (w : World).
Definition with_room v := mkWorld v (w_user w) (w_panel w) (w_settings w) (w_counts w) (w_storage w) (w_badge w) (w_tab w) (w_tabErr w) (w_platform w) (w_now w) (w_serverUrl w) (w_rtcUrl w) (w_net w) (w_router w) (w_log w).
Definition with_user v := mkWorld (w_room w) v (w_panel w) (w_settings w) (w_counts w) (w_storage w) (w_badge w) (w_tab w) (w_tabErr w) (w_platform w) (w_now w) (w_serverUrl w) (w_rtcUrl w) (w_net w) (w_router w) (w_log w).
Definition with_panel v := mkWorld (w_room w) (w_user w) v (w_settings w) (w_counts w) (w_storage w) (w_badge w) (w_tab w) (w_tabErr w) (w_platform w) (w_now w) (w_serverUrl w) (w_rtcUrl w) (w_net w) (w_router w) (w_log w).
Definition with_settings v := mkWorld (w_room w) (w_user w) (w_panel w) v (w_counts w) (w_storage w) (w_badge w) (w_tab w) (w_tabErr w) (w_platform w) (w_now w) (w_serverUrl w) (w_rtcUrl w) (w_net w) (w_router w) (w_log w).
Definition with_counts v := mkWorld (w_room w) (w_user w) (w_panel w) (w_settings w) v (w_storage w) (w_badge w) (w_tab w) (w_tabErr w) (w_platform w) (w_now w) (w_serverUrl w) (w_rtcUrl w) (w_net w) (w_router w) (w_log w).
Definition with_storage v := mkWorld (w_room w) (w_user w) (w_panel w) (w_settings w) (w_counts w) v (w_badge w) (w_tab w) (w_tabErr w) (w_platform w) (w_now w) (w_serverUrl w) (w_rtcUrl w) (w_net w) (w_router w) (w_log w).
Definition with_badge v := mkWorld (w_room w) (w_user w) (w_panel w) (w_settings w) (w_counts w) (w_storage w) v (w_tab w) (w_tabErr w) (w_platform w) (w_now w) (w_serverUrl w) (w_rtcUrl w) (w_net w) (w_router w) (w_log w).
Definition with_tab v := mkWorld (w_room w) (w_user w) (w_panel w) (w_settings w) (w_counts w) (w_storage w) (w_badge w) v (w_tabErr w) (w_platform w) (w_now w) (w_serverUrl w) (w_rtcUrl w) (w_net w) (w_router w) (w_log w).
Definition with_now v := mkWorld (w_room w) (w_user w) (w_panel w) (w_settings w) (w_counts w) (w_storage w) (w_badge w) (w_tab w) (w_tabErr w) (w_platform w) v (w_serverUrl w) (w_rtcUrl w) (w_net w) (w_router w) (w_log w).
Definition with_urls s r := mkWorld (w_room w) (w_user w) (w_panel w) (w_settings w) (w_counts w) (w_storage w) (w_badge w) (w_tab w) (w_tabErr w) (w_platform w) (w_now w) s r (w_net w) (w_router w) (w_log w).
Definition with_net v := mkWorld (w_room w) (w_user w) (w_panel w) (w_settings w) (w_counts w) (w_storage w) (w_badge w) (w_tab w) (w_tabErr w) (w_platform w) (w_now w) (w_serverUrl w) (w_rtcUrl w) v (w_router w) (w_log w).
Definition with_router v := mkWorld (w_room w) (w_user w) (w_panel w) (w_settings w) (w_counts w) (w_storage w) (w_badge w) (w_tab w) (w_tabErr w) (w_platform w) (w_now w) (w_serverUrl w) (w_rtcUrl w) (w_net w) v (w_log w).
Definition with_log v := mkWorld (w_room w) (w_user w) (w_panel w) (w_settings w) (w_counts w) (w_storage w) (w_badge w) (w_tab w) (w_tabErr w) (w_platform w) (w_now w) (w_serverUrl w) (w_rtcUrl w) (w_net w) (w_router w) v.
End updates.

Abbreviation IO := (M World).

(** ** Effects *)

Definition emit (e : Effect) : IO unit := modify (fun w => with_log w (w_log w ++ [e])).
Definition on_room (f : RoomState -> RoomState) : IO unit := modify (fun w => with_room w (f (w_room w))).
Definition on_user (f : UserState -> UserState) : IO unit := modify (fun w => with_user w (f (w_user w))).
Definition on_panel (f : PanelState -> PanelState) : IO unit := modify (fun w => with_panel w (f (w_panel w))).
Definition on_settings (f : SettingsState -> SettingsState) : IO unit :=
  modify (fun w => with_settings w (f (w_settings w))).

(** [useRoomStore.getState().f] *)
Definition room_get {A} (f : RoomState -> A) : IO A := read (fun w => f (w_room w)).
Definition user_get {A} (f : UserState -> A) : IO A := read (fun w => f (w_user w)).

(** [Date.now()] *)
Definition date_now : IO Z := read w_now.

(** [if (cond) { m }] where [cond] is a part of [chrome] being there *)
Definition if_chrome (p : Platform -> bool) (m : IO unit) : IO unit :=
  b ← read (fun w => p (w_platform w)); when b m.

(** An [undefined] value is not written. *)
Definition storage_put (k : string) (v : Val) (m : gmap string Val) : gmap string Val :=
  match v with VUndef => m | _ => <[k := v]> m end.
Definition storage_set (k : string) (v : Val) : IO unit :=
  modify (fun w => with_storage w (storage_put k v (w_storage w))).
Definition storage_remove (k : string) : IO unit :=
  modify (fun w => with_storage w (delete k (w_storage w))).
(** [result[k]] of [chrome.storage.local.get] *)
Definition storage_get (k : string) : IO Val := read (fun w => default VUndef (w_storage w !! k)).

Definition set_badge (t : string) : IO unit := modify (fun w => with_badge w t).

(** [await new Promise(r => setTimeout(r, ms))] *)
Definition sleep (ms : Z) : IO unit :=
  emit (ESleep ms) ;; modify (fun w => with_now w (w_now w + ms)%Z).

(** [await fetch(...)]; without a further answer the request fails. *)
Definition fetch (r : Request) : IO Response :=
  emit (EFetch r) ;;
  act (fun w =>
    match w_net w with
    | [] => (Throw network_error, w)
    | NetFail e :: net => (Throw e, with_net w net)
    | Reply d st b :: net => (Ok (mkResponse st b), with_now (with_net w net) (w_now w + d)%Z)
    end).

(** [await res.json()] *)
Definition res_json (r : Response) : IO Val :=
  match body r with Some v => mret v | None => throw syntax_error end.

(** [await router.push(route)]; without a further answer it succeeds. *)
Definition router_push (route : string) : IO bool :=
  emit (ERoute route) ;;
  act (fun w =>
    match w_router w with
    | [] => (Ok true, w)
    | r :: l => (r, with_router w l)
    end).

Definition getServerUrl : IO string := read w_serverUrl.
Definition getRtcUrl : IO string := read w_rtcUrl.

Definition get_req (u : string) : Request := mkRequest "GET" u None.
Definition post_req (u : string) : Request := mkRequest "POST" u None.
Definition post_json `{JsonCodec} (u : string) (v : Val) : Request :=
  mkRequest "POST" u (Some (json_stringify v)).

(** The messages of [console.error] and [console.warn]: their fixed text. *)
Definition console (msg : string) : IO unit := emit (EConsole msg).

(** ** What a run leaves in the log *)

Definition is_fetch (e : Effect) : bool := match e with EFetch _ => true | _ => false end.
Definition is_tab_update (e : Effect) : bool := match e with ETabUpdate _ _ => true | _ => false end.
Definition count (p : Effect -> bool) (l : list Effect) : nat := length (List.filter p l).

(** The requests among the effects. *)
Definition requests (l : list Effect) : list Request :=
  omap (fun e => match e with EFetch r => Some r | _ => None end) l.

#[global] Arguments requests : simpl never.

Lemma requests_app l l' : requests (l ++ l') = requests l ++ requests l'.
Proof. apply omap_app. Qed.

#[global] Arguments count : simpl never.

Lemma count_app p l l' : count p (l ++ l') = count p l + count p l'.
Proof. unfold count. by rewrite List.filter_app, length_app. Qed.

(** The pauses among the effects. *)
Definition sleeps (l : list Effect) : list Z :=
  omap (fun e => match e with ESleep ms => Some ms | _ => None end) l.
#[global] Arguments sleeps : simpl never.

Lemma sleeps_app l l' : sleeps (l ++ l') = sleeps l ++ sleeps l'.
Proof. apply omap_app. Qed.

#[export] Hint Rewrite requests_app sleeps_app count_app : jsr.

(** [run m w]: the result and the final world *)
Definition run {A} (m : IO A) (w : World) : Res A * World := m w.

(** The tactic that executes a handler symbolically. *)
Ltac js_unfold :=
  unfold if_chrome, console, on_room, on_user, on_panel, on_settings, room_get, user_get, emit,
    storage_set, storage_remove, storage_get, set_badge, date_now, getServerUrl, getRtcUrl,
    mbind, m_bind, mret, m_ret, modify, read, throw, lift, act, when, try_catch, finally in *.

Ltac js_exec := js_unfold; cbn in *.

(** ** Worlds to run examples in: the stores as they are when the panel loads *)

Definition full_platform : Platform := mkPlatform true true true true true true true true.

Definition fresh_world (tab : option Tab) (net : list NetReply) : World := {|
  w_room := roomStoreInit; w_user := userStoreInit; w_panel := panelStoreInit;
  w_settings := settingsStoreInit; w_counts := ∅; w_storage := ∅; w_badge := "";
  w_tab := tab; w_tabErr := None; w_platform := full_platform; w_now := 0;
  w_serverUrl := "https://api.binarysearchgang.com";
  w_rtcUrl := "wss://api.binarysearchgang.com/ws";
  w_net := net; w_router := []; w_log := [];
|}.
