(* ===== verification/Wp.v ===== *)
(** * Reasoning about handlers

    A weakest-precondition calculus for [IO] and the relation [same_stores]:
    the components prove what a handler does to the stores from the rules
    below, whatever the environment answers. *)

From S2P Require Export World.

Create Rewrite HintDb core.

(** [m] run from [w] ends with a result and a state of [Q]. *)
Definition wp {S A} (m : M S A) (Q : Res A -> S -> Prop) (w : S) : Prop :=
  Q (m w).1 (m w).2.
#[global] Arguments wp : simpl never.

Section rules.
Context {S A B : Type}.
Implicit Types (m : M S A) (Q : Res A -> S -> Prop) (w : S).

Lemma wp_run m Q w : wp m Q w -> Q (m w).1 (m w).2.
Proof. done. Qed.

(** The form of the theorems. *)
Lemma wp_let m Q w : wp m Q w -> let '(r, w') := m w in Q r w'.
Proof. unfold wp. by destruct (m w). Qed.

Lemma wp_mono m Q Q' w : wp m Q w -> (forall r w', Q r w' -> Q' r w') -> wp m Q' w.
Proof. unfold wp. auto. Qed.

Lemma wp_and m Q Q' w : wp m Q w -> wp m Q' w -> wp m (fun r w' => Q r w' /\ Q' r w') w.
Proof. by split. Qed.

Lemma wp_ret (a : A) Q w : Q (Ok a) w -> wp (mret a) Q w.
Proof. done. Qed.

Lemma wp_throw e Q w : Q (Throw e) w -> wp (throw e) Q w.
Proof. done. Qed.

Lemma wp_lift (r : Res A) Q w : Q r w -> wp (lift r) Q w.
Proof. done. Qed.

Lemma wp_read (f : S -> A) Q w : Q (Ok (f w)) w -> wp (read f) Q w.
Proof. done. Qed.

Lemma wp_bind (m : M S B) (f : B -> M S A) Q w :
  wp m (fun r w' => match r with Ok b => wp (f b) Q w' | Throw e => Q (Throw e) w' end) w ->
  wp (m ≫= f) Q w.
Proof. unfold wp, mbind, m_bind. destruct (m w) as [[b|e] w']; done. Qed.

Lemma wp_try m h Q w :
  wp m (fun r w' => match r with Ok a => Q (Ok a) w' | Throw e => wp (h e) Q w' end) w ->
  wp (try_catch m h) Q w.
Proof. unfold wp, try_catch. destruct (m w) as [[b|e] w']; done. Qed.

Lemma wp_finally m (k : S -> S) Q w :
  wp m (fun r w' => Q r (k w')) w -> wp (finally m k) Q w.
Proof. unfold wp, finally. by destruct (m w). Qed.
End rules.

(** Dropping the result of a handler. *)
Lemma bind_ret_state {S A B} (m : M S A) (b : B) s : ((m ≫= fun _ => mret b) s).2 = (m s).2.
Proof. unfold mbind, m_bind. by destruct (m s) as [[a|e] s']. Qed.

Lemma wp_modify {S} f (Q : Res unit -> S -> Prop) w : Q (Ok tt) (f w) -> wp (modify f) Q w.
Proof. done. Qed.

Lemma wp_when {S} b (m : M S unit) (Q : Res unit -> S -> Prop) w :
  (b = true -> wp m Q w) -> (b = false -> Q (Ok tt) w) -> wp (when b m) Q w.
Proof. destruct b; cbn; [intros Hm _; by apply Hm|intros _ Hq; by apply Hq]. Qed.

Lemma wp_if {S A} (b : bool) (m1 m2 : M S A) Q w :
  (b = true -> wp m1 Q w) -> (b = false -> wp m2 Q w) -> wp (if b then m1 else m2) Q w.
Proof. destruct b; auto. Qed.

(** A handler of a part of the state. *)
Lemma wp_zoom {S T A} (prj : S -> T) upd (m : M T A) (Q : Res A -> S -> Prop) s :
  wp m (fun r t => Q r (upd t s)) (prj s) -> wp (zoom prj upd m) Q s.
Proof. unfold wp, zoom. by destruct (m (prj s)). Qed.

Lemma wp_if_chrome p m (Q : Res unit -> World -> Prop) w :
  (p (w_platform w) = true -> wp m Q w) -> (p (w_platform w) = false -> Q (Ok tt) w) ->
  wp (if_chrome p m) Q w.
Proof. intros H1 H2. unfold if_chrome. apply wp_bind, wp_read. by apply wp_when. Qed.

Lemma wp_res_json r (Q : Res Val -> World -> Prop) w :
  (forall v, body r = Some v -> Q (Ok v) w) -> (body r = None -> Q (Throw syntax_error) w) ->
  wp (res_json r) Q w.
Proof. unfold res_json. destruct (body r); intros H1 H2; [by apply H1|by apply H2]. Qed.

(** The three outcomes of a request. *)
Lemma wp_fetch r (Q : Res Response -> World -> Prop) w :
  let w0 := with_log w (w_log w ++ [EFetch r]) in
  (w_net w = [] -> Q (Throw network_error) w0) ->
  (forall e net, w_net w = NetFail e :: net -> Q (Throw e) (with_net w0 net)) ->
  (forall d st b net, w_net w = Reply d st b :: net ->
     Q (Ok (mkResponse st b)) (with_now (with_net w0 net) (w_now w + d)%Z)) ->
  wp (fetch r) Q w.
Proof.
  intros w0 H1 H2 H3. unfold wp, fetch. js_exec.
  destruct (w_net w) as [|[e|d st b] net] eqn:E; cbn; eauto.
Qed.

Lemma wp_push route (Q : Res bool -> World -> Prop) w :
  (forall r w', w_log w' = w_log w ++ [ERoute route] ->
     (exists l, w' = with_router (with_log w (w_log w ++ [ERoute route])) l) -> Q r w') ->
  wp (router_push route) Q w.
Proof.
  intros HQ. unfold wp, router_push. js_exec. destruct (w_router w) as [|r l] eqn:E; cbn;
    apply HQ; try done; [exists (w_router w)|by exists l]. by destruct w; cbn in *; subst.
Qed.

(** ** What the environment may change on its own *)

(** The world without the environment's answers, the clock and the log. *)
Definition core (w : World) : World :=
  with_log (with_router (with_net (with_now w 0) []) []) [].

(** Stores, storage, tab and badge are the same. *)
Definition same_stores (w w' : World) : Prop := core w = core w'.

#[export] Instance same_stores_equiv : Equivalence same_stores.
Proof.
  split.
  - by intros w.
  - by intros w w'.
  - intros w1 w2 w3. unfold same_stores. congruence.
Qed.

(** [core] commutes with the other updates. *)
Lemma core_log w l : core (with_log w l) = core w. Proof. done. Qed.
Lemma core_net w l : core (with_net w l) = core w. Proof. done. Qed.
Lemma core_router w l : core (with_router w l) = core w. Proof. done. Qed.
Lemma core_now w t : core (with_now w t) = core w. Proof. done. Qed.
Lemma core_room w r : core (with_room w r) = with_room (core w) r. Proof. done. Qed.
Lemma core_user w r : core (with_user w r) = with_user (core w) r. Proof. done. Qed.
Lemma core_storage w r : core (with_storage w r) = with_storage (core w) r. Proof. done. Qed.
Lemma core_badge w r : core (with_badge w r) = with_badge (core w) r. Proof. done. Qed.
Lemma with_room_twice w r r' : with_room (with_room w r) r' = with_room w r'. Proof. done. Qed.
#[export] Hint Rewrite with_room_twice core_log core_net core_router core_now core_room core_user core_storage core_badge : core.

(** Closes [same_stores] between updates of worlds known to be the same. *)
Ltac same_tac := unfold same_stores in *; autorewrite with core in *;
  repeat match goal with H : core ?w = _ |- context [core ?w] => rewrite H end;
  autorewrite with core; first [done | congruence].

#[export] Instance with_room_proper : Proper (same_stores ==> eq ==> same_stores) with_room.
Proof. intros w w' H ? r ->. unfold same_stores in *. by rewrite !core_room, H. Qed.

#[export] Instance w_room_proper : Proper (same_stores ==> eq) w_room.
Proof. intros w w' H. exact (f_equal w_room H). Qed.

#[export] Instance w_user_proper : Proper (same_stores ==> eq) w_user.
Proof. intros w w' H. exact (f_equal w_user H). Qed.

#[export] Instance w_storage_proper : Proper (same_stores ==> eq) w_storage.
Proof. intros w w' H. exact (f_equal w_storage H). Qed.

#[export] Instance w_platform_proper : Proper (same_stores ==> eq) w_platform.
Proof. intros w w' H. exact (f_equal w_platform H). Qed.

Lemma with_room_id w : with_room w (w_room w) = w.
Proof. by destruct w. Qed.

Lemma setParticipants_id s : setParticipants s (participants s) = s.
Proof. by destruct s. Qed.

#[export] Hint Rewrite with_room_id setParticipants_id : jsr.

(** One rule application; [wp] goals of matches are split by hand. *)
Ltac wp_step :=
  lazymatch goal with
  | |- wp (mret _) _ _ => apply wp_ret
  | |- wp (res_json _) _ _ => apply wp_res_json; [intros ? ?|intros ?]
  | |- wp (throw _) _ _ => apply wp_throw
  | |- wp (lift _) _ _ => apply wp_lift
  | |- wp (read _) _ _ => apply wp_read
  | |- wp (room_get _) _ _ => unfold room_get; apply wp_read
  | |- wp (user_get _) _ _ => unfold user_get; apply wp_read
  | |- wp getServerUrl _ _ => unfold getServerUrl; apply wp_read
  | |- wp date_now _ _ => unfold date_now; apply wp_read
  | |- wp (storage_get _) _ _ => unfold storage_get; apply wp_read
  | |- wp (modify _) _ _ => apply wp_modify
  | |- wp (emit _) _ _ => unfold emit; apply wp_modify
  | |- wp (console _) _ _ => unfold console, emit; apply wp_modify
  | |- wp (on_room _) _ _ => unfold on_room; apply wp_modify
  | |- wp (on_user _) _ _ => unfold on_user; apply wp_modify
  | |- wp (storage_set _ _) _ _ => unfold storage_set; apply wp_modify
  | |- wp (storage_remove _) _ _ => unfold storage_remove; apply wp_modify
  | |- wp (set_badge _) _ _ => unfold set_badge; apply wp_modify
  | |- wp (try_catch _ _) _ _ => apply wp_try
  | |- wp (_ ≫= _) _ _ => apply wp_bind
  | |- wp (mbind _ _) _ _ => apply wp_bind
  | |- wp (when _ _) _ _ => apply wp_when; intros ?
  | |- wp (if_chrome _ _) _ _ => apply wp_if_chrome; intros ?
  | |- wp (if _ then _ else _) _ _ => apply wp_if; intros ?
  | |- wp (fetch _) _ _ => apply wp_fetch; [intros ?|intros ? ? ?|intros ? ? ? ? ?]
  end.

(** ** What a handler may change

    [steps R m]: the state after [m], also when [m] throws, is related by the
    preorder [R] to the state before. *)

Definition steps {S A} (R : relation S) (m : M S A) : Prop := forall s, R s (m s).2.

Section steps.
Context {S A B : Type} (R : relation S) `{!PreOrder R}.
Implicit Types (m : M S A).

Lemma steps_ret (a : A) : steps R (mret a : M S A).
Proof. by intros s. Qed.
Lemma steps_throw e : steps R (throw e : M S A).
Proof. by intros s. Qed.
Lemma steps_lift (r : Res A) : steps R (lift r : M S A).
Proof. by intros s. Qed.
Lemma steps_read (f : S -> A) : steps R (read f).
Proof. by intros s. Qed.

Lemma steps_bind (m : M S B) (f : B -> M S A) : steps R m -> (forall b, steps R (f b)) -> steps R (m ≫= f).
Proof.
  intros Hm Hf s. unfold mbind, m_bind. pose proof (Hm s) as Hs.
  destruct (m s) as [[b|e] s']; cbn in *; [|done]. by transitivity s'; [|apply Hf].
Qed.

Lemma steps_lift_bind (r : Res B) (f : B -> M S A) :
  (forall b, r = Ok b -> steps R (f b)) -> steps R (lift r ≫= f).
Proof. intros Hf s. unfold mbind, m_bind, lift. destruct r; [by apply Hf|done]. Qed.

Lemma steps_try m h : steps R m -> (forall e, steps R (h e)) -> steps R (try_catch m h).
Proof.
  intros Hm Hf s. unfold try_catch. pose proof (Hm s) as Hs.
  destruct (m s) as [[b|e] s']; cbn in *; [done|]. by transitivity s'; [|apply Hf].
Qed.

Lemma steps_finally m k : steps R m -> (forall s, R s (k s)) -> steps R (finally m k).
Proof.
  intros Hm Hf s. unfold finally. pose proof (Hm s) as Hs.
  destruct (m s) as [r s']; cbn in *. by transitivity s'.
Qed.

Lemma steps_when b (m : M S unit) : steps R m -> steps R (when b m).
Proof. destruct b; [done|]. by intros _ s. Qed.

Lemma steps_modify f : (forall s, R s (f s)) -> steps R (modify f).
Proof. by intros H s. Qed.

Lemma steps_act (f : S -> Res A * S) : (forall s, R s (f s).2) -> steps R (act f).
Proof. by intros H s. Qed.

Lemma steps_zoom {T} (prj : S -> T) upd (m : M T A) :
  (forall s, R s (upd (m (prj s)).2 s)) -> steps R (zoom prj upd m).
Proof. intros H s. unfold zoom. specialize (H s). by destruct (m (prj s)). Qed.
End steps.

Lemma steps_for_each {S X} (R : relation S) `{!PreOrder R} (f : X -> M S unit) l :
  (forall x, steps R (f x)) -> steps R (for_each f l).
Proof. intros Hf. induction l as [|x l IH]; cbn; [by apply steps_ret|]. by apply steps_bind. Qed.

Ltac head_of t := lazymatch t with ?f _ => head_of f | _ => t end.

(** A relation on the shared part of a hook's state. *)
Definition on_fst {S T} (R : relation S) : relation (S * T) := fun s s' => R s.1 s'.1.

#[export] Instance on_fst_preorder {S T} (R : relation S) : PreOrder R -> PreOrder (on_fst (T := T) R).
Proof.
  intros HR. split; unfold on_fst; [by intros s|]. intros s1 s2 s3 H1 H2. by transitivity s2.1.
Qed.

Lemma steps_zoom_fst {S T A} (R : relation S) (m : M S A) :
  steps R m -> steps (on_fst R) (zoom fst (fun w (s : S * T) => (w, s.2)) m).
Proof. intros Hm s. unfold zoom, on_fst. specialize (Hm s.1). by destruct (m s.1). Qed.

Lemma wp_steps {S A} (R : relation S) (m : M S A) s : steps R m -> wp m (fun _ s' => R s s') s.
Proof. intros Hm. exact (Hm s). Qed.

(** Proves [steps R m] rule by rule; leaves the changes [R] has to allow. *)
Ltac steps_step :=
  lazymatch goal with
  | |- steps _ (lift _ ≫= _) => apply steps_lift_bind; [exact _|intros ? ?]
  | |- steps _ (_ ≫= _) => apply steps_bind; [exact _| |intros ?]
  | |- steps _ (mbind _ _) => apply steps_bind; [exact _| |intros ?]
  | |- steps _ (try_catch _ _) => apply steps_try; [exact _| |intros ?]
  | |- steps _ (finally _ _) => apply steps_finally; [exact _| |intros ?]
  | |- steps _ (when _ _) => apply steps_when; [exact _|]
  | |- steps _ (for_each _ _) => apply steps_for_each; [exact _|intros ?]
  | |- steps _ (mret _) => apply steps_ret; exact _
  | |- steps _ (throw _) => apply steps_throw; exact _
  | |- steps _ (lift _) => apply steps_lift; exact _
  | |- steps _ (read _) => apply steps_read; exact _
  | |- steps _ (modify _) => apply steps_modify; intros ?
  | |- steps _ (act _) => apply steps_act; intros ?
  | |- steps (on_fst _) (zoom fst _ _) => apply steps_zoom_fst
  | |- steps _ (zoom _ _ _) => apply steps_zoom; intros ?
  | |- steps _ (match ?x with _ => _ end) => destruct x eqn:?
  | |- steps _ ?m => let h := head_of m in unfold h; cbv beta zeta
  end; cbv beta zeta.

Ltac steps_tac := repeat steps_step; cbv beta zeta.

(** ** Which effects a handler may have *)

(** Every effect of [m] satisfies [P]. *)
Definition logs {A} (P : Effect -> Prop) (m : IO A) : Prop :=
  forall w, exists l, w_log (m w).2 = w_log w ++ l /\ Forall P l.

Section logs.
Context {A B : Type} (P : Effect -> Prop).
Implicit Types (m : IO A).

Lemma logs_pure m : (forall w, w_log (m w).2 = w_log w) -> logs P m.
Proof. intros H w. exists []. by rewrite app_nil_r. Qed.

Lemma logs_ret (a : A) : logs P (mret a : IO A).
Proof. by apply logs_pure. Qed.
Lemma logs_throw e : logs P (throw e : IO A).
Proof. by apply logs_pure. Qed.
Lemma logs_lift (r : Res A) : logs P (lift r : IO A).
Proof. by apply logs_pure. Qed.
Lemma logs_read (f : World -> A) : logs P (read f).
Proof. by apply logs_pure. Qed.

Lemma logs_bind (m : IO B) (f : B -> IO A) : logs P m -> (forall b, logs P (f b)) -> logs P (m ≫= f).
Proof.
  intros Hm Hf w. unfold mbind, m_bind. destruct (Hm w) as (l & Hl & Hp).
  destruct (m w) as [[b|e] w']; cbn in *; [|eauto].
  destruct (Hf b w') as (l' & Hl' & Hp'). exists (l ++ l').
  by rewrite Hl', Hl, app_assoc, Forall_app.
Qed.

Lemma logs_try m h : logs P m -> (forall e, logs P (h e)) -> logs P (try_catch m h).
Proof.
  intros Hm Hf w. unfold try_catch. destruct (Hm w) as (l & Hl & Hp).
  destruct (m w) as [[b|e] w']; cbn in *; [eauto|].
  destruct (Hf e w') as (l' & Hl' & Hp'). exists (l ++ l').
  by rewrite Hl', Hl, app_assoc, Forall_app.
Qed.
End logs.

Lemma logs_modify P f : (forall w, w_log (f w) = w_log w) -> logs P (modify f).
Proof. intros H. by apply logs_pure. Qed.

Lemma logs_emit (P : Effect -> Prop) e : P e -> logs P (emit e).
Proof. intros H w. exists [e]. by split; [|constructor]. Qed.

Lemma logs_when P b m : logs P m -> logs P (when b m).
Proof. destruct b; [done|]. intros _. apply logs_ret. Qed.

Lemma logs_fetch (P : Effect -> Prop) r : P (EFetch r) -> logs P (fetch r).
Proof.
  intros H. apply logs_bind; [by apply logs_emit|]. intros _. apply logs_pure. intros w. unfold act.
  by destruct (w_net w) as [|[|]].
Qed.

Lemma logs_router_push (P : Effect -> Prop) r : P (ERoute r) -> logs P (router_push r).
Proof.
  intros H. apply logs_bind; [by apply logs_emit|]. intros _. apply logs_pure. intros w. unfold act.
  by destruct (w_router w).
Qed.

(** Proves [logs P m] for an [m] made of the operations of [World.v]; leaves
    the effects [P] has to allow. *)
Ltac logs_tac :=
  repeat lazymatch goal with
  | |- logs _ (_ ≫= _) => apply logs_bind; [|intros ?]
  | |- logs _ (mbind _ _) => apply logs_bind; [|intros ?]
  | |- logs _ (try_catch _ _) => apply logs_try; [|intros ?]
  | |- logs _ (when _ _) => apply logs_when
  | |- logs _ (if_chrome _ _) => apply logs_bind; [apply logs_read|intros ?]
  | |- logs _ (mret _) => apply logs_ret
  | |- logs _ (throw _) => apply logs_throw
  | |- logs _ (lift _) => apply logs_lift
  | |- logs _ (read _) => apply logs_read
  | |- logs _ (room_get _) => apply logs_read
  | |- logs _ (user_get _) => apply logs_read
  | |- logs _ getServerUrl => apply logs_read
  | |- logs _ getRtcUrl => apply logs_read
  | |- logs _ date_now => apply logs_read
  | |- logs _ (storage_get _) => apply logs_read
  | |- logs _ (on_room _) => by apply logs_modify
  | |- logs _ (on_user _) => by apply logs_modify
  | |- logs _ (on_panel _) => by apply logs_modify
  | |- logs _ (on_settings _) => by apply logs_modify
  | |- logs _ (storage_set _ _) => by apply logs_modify
  | |- logs _ (storage_remove _) => by apply logs_modify
  | |- logs _ (set_badge _) => by apply logs_modify
  | |- logs _ (modify _) => by apply logs_modify
  | |- logs _ (console _) => apply logs_emit
  | |- logs _ (emit _) => apply logs_emit
  | |- logs _ (fetch _) => apply logs_fetch
  | |- logs _ (router_push _) => apply logs_router_push
  | |- logs _ (match ?x with _ => _ end) => destruct x
  | |- logs _ ?m => let h := head_of m in unfold h; cbv beta zeta
  end; cbv beta zeta; try done.
