(* ===== verification/Navigation.v ===== *)
(** * Navigation

    [utils/navigation.ts] (routes of the panel), the slug functions and the
    single door for automatic moves of the LeetCode tab of
    [hooks/useRoomEvents.ts], and the small callers of both
    ([useTabNavigation.ts], [messageScript.ts], [useNewTab.ts],
    [useDefaultPopup.ts]). *)

From S2P Require Export Wp.
From Stdlib Require Import Ascii.

(** ** Routes (utils/navigation.ts) *)

Definition isNavigationCancellation (error : Val) : bool :=
  match error with
  | VStr s => String.eqb s "Navigation rejected."
  | VObj fs =>
      (has_field "cancelled" fs && is_true (field "cancelled" fs)) ||
      (has_field "message" fs && is_str (field "message" fs) "Navigation rejected.")
  | _ => false
  end.

Definition pushRoute (route : string) : IO bool :=
  try_catch (router_push route)
    (fun error => if isNavigationCancellation error then mret false else throw error).

(** ** Problem slugs (hooks/useRoomEvents.ts) *)

(** [[^/?#]] *)
Definition slug_char (a : ascii) : bool :=
  negb (Ascii.eqb a "/" || Ascii.eqb a "?" || Ascii.eqb a "#").

(** The match of the expression [/\/problems\/([^/?#]+)/] at the start of [u]. *)
Definition slug_here (u : string) : option string :=
  if starts_with "/problems/" u then
    match str_span slug_char (str_drop 10 u) with
    | (EmptyString, _) => None
    | (m, _) => Some m
    end
  else None.

(** Its leftmost match in [url]. *)
Fixpoint parseProblemSlug (url : string) : option string :=
  match slug_here url with
  | Some m => Some m
  | None => match url with String _ u => parseProblemSlug u | EmptyString => None end
  end.

Definition problemUrl (slug : string) : string := "https://leetcode.com/problems/" +:+ slug +:+ "/".

Definition resolveResumeSlug (tabUrl : string) (problems : list string) : option string :=
  match problems with
  | [] => None
  | p0 :: _ =>
      let currentSlug := parseProblemSlug tabUrl in
      if opt_truthy currentSlug && includes problems (default "" currentSlug) then None
      else if negb (str_includes "leetcode.com" tabUrl) then None
      else Some p0
  end.

(** [chrome.tabs.update(tid, { url: u })]: the tab is at [u] afterwards. *)
Definition tabs_update (t : Tab) (tid : Z) (u : string) : IO unit :=
  emit (ETabUpdate tid u) ;;
  act (fun w =>
    match w_tabErr w with
    | Some e => (Throw e, w)
    | None => (Ok tt, with_tab w (Some (mkTab (tab_id t) (Some u))))
    end).

(** The target is at type [any]: one caller passes the slug of a message. *)
Definition navigateActiveTab (decide : string -> Val) : IO unit :=
  tabs ← read (fun w => has_tabs (w_platform w));
  if negb tabs then mret tt else
  try_catch
    (tab ← read w_tab;
     match tab with
     | Some (mkTab (Some tid) (Some turl) as t) =>
         if (tid =? 0)%Z || String.eqb turl "" then mret tt else
         let targetSlug := decide turl in
         if negb (truthy targetSlug) || eq_opt targetSlug (parseProblemSlug turl) then mret tt
         else tabs_update t tid (problemUrl (to_str targetSlug))
     | _ => mret tt
     end)
    (fun error =>
       if negb (isNavigationCancellation error)
       then console "Failed to navigate the active LeetCode tab"
       else mret tt).

(** [url => resolveResumeSlug(url, problems)] *)
Definition resume (problems : list string) : string -> Val :=
  fun u => of_opt (resolveResumeSlug u problems).

(** ** Callers outside useRoomEvents *)

(** [useTabNavigation] *)
Definition tab_name (t : TabName) : string :=
  match t with
  | roomInfo => "roomInfo" | chat => "chat" | leaderboard => "leaderboard"
  | statistics => "statistics" | settings => "settings"
  end.

Definition useTabNavigation (t : TabName) : IO unit :=
  on_room (fun s => setActiveTab s t) ;;
  try_catch (pushRoute ("/" +:+ tab_name t +:+ "-page") ;; mret tt)
    (fun _ => console "Failed to navigate tabs").

(** [messageScript(type)] *)
Definition messageScript (t : string) : IO unit :=
  tabs ← read (fun w => has_tabs (w_platform w));
  if negb tabs then mret tt else
  tab ← read w_tab;
  match tab with
  | Some (mkTab (Some tid) _) => when (negb (tid =? 0)%Z) (emit (ETabMessage tid t))
  | _ => mret tt
  end.

(** [useNewTab().openInNewTab] *)
Definition openInNewTab (u : string) : IO unit := emit (ETabCreate u).

(** [useDefaultPopup]: the mount effect and the redirect *)
Definition isOnLeetCode (w : World) : option bool :=
  if has_tabs (w_platform w) then
    Some (str_includes "leetcode.com" (match w_tab w with Some t => default "" (tab_url t) | None => "" end))
  else None.

Definition redirectToLeetCode : IO unit :=
  emit (EOpen "https://leetcode.com/problems/two-sum/" "_blank").

(** ** Lemmas *)

(** What LeetCode uses as slugs: not empty, no separator of a URL. *)
Definition valid_slug (s : string) : Prop := s <> "" /\ str_forall slug_char s = true.

(** [m] is matched at the start of [u]. *)
Definition matches_here (u m : string) : Prop :=
  valid_slug m /\ exists r, u = "/problems/" +:+ m +:+ r /\
    match r with String a _ => slug_char a = false | EmptyString => True end.

Lemma str_span_rest P s a r : (str_span P s).2 = String a r -> P a = false.
Proof.
  induction s as [|b s IH]; cbn; [done|]. destruct (P b) eqn:Hb.
  - destruct (str_span P s); cbn in *. done.
  - cbn. by intros [= -> ->].
Qed.

Lemma slug_here_spec u m : slug_here u = Some m <-> matches_here u m.
Proof.
  unfold slug_here, matches_here, valid_slug. split.
  - destruct (starts_with "/problems/" u) eqn:Hs; [|done].
    apply starts_with_spec in Hs as [t ->].
    change 10 with (String.length "/problems/"). rewrite str_drop_app.
    pose proof (str_span_app slug_char t) as Ht.
    pose proof (str_span_rest slug_char t) as Hr.
    destruct (str_span slug_char t) as [[|a p] r]; [done|]. destruct Ht as [-> Hp].
    intros [= <-]. split; [done|]. exists r. split; [done|].
    destruct r as [|b r]; [done|]. by apply (Hr b r).
  - intros ([Hne Hm] & r & -> & Hr). rewrite starts_with_app.
    change 10 with (String.length "/problems/"). rewrite str_drop_app.
    rewrite str_span_stop by done. by destruct m.
Qed.

Lemma parse_unfold u :
  parseProblemSlug u = match slug_here u with
                       | Some m => Some m
                       | None => match u with String _ u => parseProblemSlug u | EmptyString => None end
                       end.
Proof. by destruct u. Qed.

Lemma slug_here_none u : slug_here u = None <-> forall m, ~ matches_here u m.
Proof.
  destruct (slug_here u) as [m|] eqn:E; split; intros H; try done.
  - apply slug_here_spec in E. by destruct (H m).
  - intros m Hm. apply slug_here_spec in Hm. congruence.
Qed.

Lemma parse_here u m : matches_here u m -> parseProblemSlug u = Some m.
Proof. intros H. rewrite parse_unfold. apply slug_here_spec in H. by rewrite H. Qed.

Lemma parse_skip a u : slug_here (String a u) = None -> parseProblemSlug (String a u) = parseProblemSlug u.
Proof. intros H. by rewrite parse_unfold, H. Qed.

Lemma parse_valid u m : parseProblemSlug u = Some m -> valid_slug m.
Proof.
  induction u as [|a u IH]; rewrite parse_unfold.
  - done.
  - destruct (slug_here (String a u)) as [m'|] eqn:E; [|done].
    intros [= ->]. by apply slug_here_spec in E as [? _].
Qed.

(** The host part of a problem URL holds no match. *)
Lemma parse_leetcode t :
  parseProblemSlug ("https://leetcode.com" +:+ t) = parseProblemSlug t.
Proof. rewrite !str_app_cons, str_app_nil_l. by rewrite !parse_skip by reflexivity. Qed.

(** A problem URL, with whatever LeetCode appends to it, names its problem. *)
Lemma parse_problemUrl_app s r :
  valid_slug s -> parseProblemSlug (problemUrl s +:+ r) = Some s.
Proof.
  intros Hs. unfold problemUrl.
  change "https://leetcode.com/problems/" with ("https://leetcode.com" +:+ "/problems/").
  rewrite !str_app_assoc, parse_leetcode. apply parse_here. split; [done|].
  exists ("/" +:+ r). split; [done|]. done.
Qed.

Lemma parse_problemUrl s : valid_slug s -> parseProblemSlug (problemUrl s) = Some s.
Proof. intros Hs. rewrite <- (str_app_nil_r (problemUrl s)). by apply parse_problemUrl_app. Qed.

#[export] Hint Resolve parse_problemUrl parse_valid : js.

(** Where [navigateActiveTab decide] sends the tab, if anywhere. *)
Definition nav_move (decide : string -> Val) (w : World) : option (Tab * Z * string) :=
  if negb (has_tabs (w_platform w)) then None else
  match w_tab w with
  | Some (mkTab (Some tid) (Some turl) as t) =>
      if (tid =? 0)%Z || String.eqb turl "" then None
      else if negb (truthy (decide turl)) || eq_opt (decide turl) (parseProblemSlug turl) then None
      else Some (t, tid, problemUrl (to_str (decide turl)))
  | _ => None
  end.

Lemma navigate_stay decide w : nav_move decide w = None -> navigateActiveTab decide w = (Ok tt, w).
Proof.
  unfold nav_move, navigateActiveTab. js_exec.
  destruct (has_tabs (w_platform w)); [|done]. cbn.
  destruct (w_tab w) as [[[tid|] [turl|]]|]; cbn; try done.
  destruct ((tid =? 0)%Z || String.eqb turl ""); [done|].
  by destruct (negb (truthy (decide turl)) || eq_opt (decide turl) (parseProblemSlug turl)).
Qed.

Lemma navigate_go decide w t tid u :
  nav_move decide w = Some (t, tid, u) -> w_tabErr w = None ->
  navigateActiveTab decide w =
    (Ok tt, with_tab (with_log w (w_log w ++ [ETabUpdate tid u])) (Some (mkTab (Some tid) (Some u)))).
Proof.
  unfold nav_move, navigateActiveTab, tabs_update. intros Hm He. js_exec.
  destruct (has_tabs (w_platform w)); [|done]. cbn in *.
  destruct (w_tab w) as [[[i|] [turl|]]|]; cbn in *; try done.
  destruct ((i =? 0)%Z || String.eqb turl ""); [done|].
  destruct (negb (truthy (decide turl)) || eq_opt (decide turl) (parseProblemSlug turl)); [done|].
  simplify_eq. cbn. by rewrite He.
Qed.

(** A refused update: the tab stays, and the handler ends all the same. *)
Lemma navigate_fail decide w t tid u e :
  nav_move decide w = Some (t, tid, u) -> w_tabErr w = Some e ->
  navigateActiveTab decide w =
    (Ok tt, with_log w (w_log w ++ ETabUpdate tid u ::
       (if isNavigationCancellation e then [] else [EConsole "Failed to navigate the active LeetCode tab"]))).
Proof.
  unfold nav_move, navigateActiveTab, tabs_update. intros Hm He. js_exec.
  destruct (has_tabs (w_platform w)); [|done]. cbn in *.
  destruct (w_tab w) as [[[i|] [turl|]]|]; cbn in *; try done.
  destruct ((i =? 0)%Z || String.eqb turl ""); [done|].
  destruct (negb (truthy (decide turl)) || eq_opt (decide turl) (parseProblemSlug turl)); [done|].
  simplify_eq. cbn. rewrite He. destruct (isNavigationCancellation e); cbn; [done|]. by rewrite <- app_assoc.
Qed.

Lemma nav_move_inv decide w t tid u :
  nav_move decide w = Some (t, tid, u) ->
  exists turl, t = mkTab (Some tid) (Some turl) /\ w_tab w = Some t /\ tid <> 0%Z /\ turl <> "" /\
    truthy (decide turl) = true /\ u = problemUrl (to_str (decide turl)).
Proof.
  unfold nav_move. destruct (has_tabs (w_platform w)); [|done]. cbn.
  destruct (w_tab w) as [[[i|] [turl|]]|]; cbn; try done.
  destruct ((i =? 0)%Z || String.eqb turl "") eqn:E1; [done|].
  destruct (negb (truthy (decide turl)) || eq_opt _ _) eqn:E2; [done|].
  intros [= <- <- <-]. js_bool. exists turl. by apply negb_false_iff in H1 || idtac; naive_solver.
Qed.

(** No move from a URL for which [decide] gives nothing, or the slug shown. *)
Lemma nav_move_stay decide w tid turl :
  w_tab w = Some (mkTab tid (Some turl)) ->
  truthy (decide turl) = false \/ eq_opt (decide turl) (parseProblemSlug turl) = true ->
  nav_move decide w = None.
Proof.
  intros Ht Hd. unfold nav_move. rewrite Ht. destruct (has_tabs (w_platform w)), tid as [i|]; cbn; try done.
  destruct ((i =? 0)%Z || String.eqb turl ""); [done|].
  destruct Hd as [-> | ->]; [done|]. by rewrite orb_true_r.
Qed.

(** A tab on a problem of the round is left alone. *)
Lemma resume_on_round ps p r :
  p ∈ ps -> valid_slug p -> truthy (resume ps (problemUrl p +:+ r)) = false.
Proof.
  intros Hin Hv. unfold resume, resolveResumeSlug. rewrite parse_problemUrl_app by done.
  destruct ps as [|p0 ps]; [done|]. destruct Hv as [Hne _].
  apply includes_spec in Hin. change (default "" (Some p)) with p. cbn [opt_truthy].
  by rewrite Hin, (proj2 (String.eqb_neq p "") Hne).
Qed.

Lemma resume_target ps u :
  truthy (resume ps u) = true ->
  exists p0 ps', ps = p0 :: ps' /\ resume ps u = VStr p0 /\ str_includes "leetcode.com" u = true /\
    (forall s, parseProblemSlug u = Some s -> s ∉ ps).
Proof.
  unfold resume, resolveResumeSlug. destruct ps as [|p0 ps]; [done|].
  destruct (opt_truthy (parseProblemSlug u) && includes (p0 :: ps) _) eqn:E1; [done|].
  destruct (str_includes "leetcode.com" u) eqn:E2; [|done]. intros _. cbn [negb].
  exists p0, ps. repeat split; try done. intros s Hs Hin.
  apply includes_spec in Hin. rewrite Hs in E1. apply parse_valid in Hs as [Hne _].
  change (default "" (Some s)) with s in E1. cbn [opt_truthy] in E1.
  by rewrite Hin, (proj2 (String.eqb_neq s "") Hne) in E1.
Qed.

(** After the resume move there is nothing left to do. *)
Lemma resume_settled ps w :
  Forall valid_slug ps -> w_tabErr w = None ->
  nav_move (resume ps) (navigateActiveTab (resume ps) w).2 = None.
Proof.
  intros Hps He. destruct (nav_move (resume ps) w) as [[[t tid] u]|] eqn:Hm.
  - rewrite (navigate_go _ _ _ _ _ Hm He).
    apply nav_move_inv in Hm as (turl & _ & _ & _ & _ & Htr & ->).
    destruct (resume_target _ _ Htr) as (p0 & ps' & -> & -> & _). cbn [to_str].
    eapply nav_move_stay; [done|left].
    rewrite <- (str_app_nil_r (problemUrl p0)). apply resume_on_round; [left|].
    by apply Forall_cons in Hps as [? _].
  - by rewrite (navigate_stay _ _ Hm).
Qed.

(** What a move of the tab depends on and changes: the tab, and how often it
    was updated. *)
Definition tab_view (w : World) : option Tab * option Val * Platform * nat :=
  (w_tab w, w_tabErr w, w_platform w, count is_tab_update (w_log w)).

Definition same_tab (w w' : World) : Prop := tab_view w' = tab_view w.

#[export] Instance same_tab_preorder : PreOrder same_tab.
Proof. split; unfold same_tab; [done|]. intros w1 w2 w3 H1 H2. congruence. Qed.

Lemma nav_move_view decide w w' : same_tab w w' -> nav_move decide w' = nav_move decide w.
Proof. unfold same_tab, tab_view. intros [= H1 H2 H3 H4]. unfold nav_move. by rewrite H1, H3. Qed.

Lemma navigate_view decide w w' : same_tab w w' ->
  same_tab (navigateActiveTab decide w).2 (navigateActiveTab decide w').2.
Proof.
  intros Hw. pose proof (nav_move_view decide _ _ Hw) as Hm. pose proof Hw as Ht. unfold same_tab, tab_view in Ht.
  injection Ht as H1 H2 H3 H4.
  destruct (nav_move decide w) as [[[t tid] u]|] eqn:Hn; [|by rewrite (navigate_stay _ _ Hn), (navigate_stay _ _ Hm)].
  destruct (w_tabErr w) as [e|] eqn:He.
  - rewrite (navigate_fail _ _ _ _ _ _ Hn He), (navigate_fail _ _ _ _ _ _ Hm H2).
    unfold same_tab, tab_view. cbn. by rewrite !count_app, H1, H2, H3, H4, He.
  - rewrite (navigate_go _ _ _ _ _ Hn He), (navigate_go _ _ _ _ _ Hm H2).
    unfold same_tab, tab_view. cbn. by rewrite !count_app, H2, H3, H4, He.
Qed.

Lemma count_keep l e : is_tab_update e = false -> count is_tab_update (l ++ [e]) = count is_tab_update l.
Proof. intros He. rewrite count_app. unfold count at 2. cbn. rewrite He. cbn. lia. Qed.

(** For goals [same_tab w w'] left by [steps_tac]. *)
Ltac tab_tac :=
  unfold same_tab, tab_view; cbn -[count]; rewrite ?count_keep by done; done.

(** ** Theorems *)

(** Replaying a round event cannot bounce the user: the first run of the
    resume move either changes nothing or sends the tab from a LeetCode page
    that shows no problem of the round to the first problem, and running it
    again, any number of times, changes nothing more. *)
Theorem resume_replay_settles (ps : list string) (w : World) :
  Forall valid_slug ps -> w_tabErr w = None ->
  let w1 := (navigateActiveTab (resume ps) w).2 in
  navigateActiveTab (resume ps) w1 = (Ok tt, w1) /\
  (w1 = w \/
   exists tid turl p0, head ps = Some p0 /\ w_tab w = Some (mkTab (Some tid) (Some turl)) /\
     str_includes "leetcode.com" turl = true /\
     (forall s, parseProblemSlug turl = Some s -> s ∉ ps) /\
     w1 = with_tab (with_log w (w_log w ++ [ETabUpdate tid (problemUrl p0)]))
            (Some (mkTab (Some tid) (Some (problemUrl p0))))).
Proof.
  intros Hps He w1. split; [apply navigate_stay; by apply resume_settled|]. subst w1.
  destruct (nav_move (resume ps) w) as [[[t tid] u]|] eqn:Hm.
  - right. rewrite (navigate_go _ _ _ _ _ Hm He). cbn.
    apply nav_move_inv in Hm as (turl & -> & Ht & _ & _ & Htr & ->).
    destruct (resume_target _ _ Htr) as (p0 & ps' & -> & -> & Hlc & Hno). cbn [to_str].
    exists tid, turl, p0. naive_solver.
  - rewrite (navigate_stay _ _ Hm). by left.
Qed.

Lemma resume_replay_settles_witness :
  let w := fresh_world (Some (mkTab (Some 7%Z) (Some "https://leetcode.com/problemset/"))) [] in
  let w1 := (navigateActiveTab (resume ["two-sum"; "3sum"]) w).2 in
  w_tab w1 = Some (mkTab (Some 7%Z) (Some "https://leetcode.com/problems/two-sum/")) /\
  navigateActiveTab (resume ["two-sum"; "3sum"]) w1 = (Ok tt, w1).
Proof.
  split; [reflexivity|].
  apply (resume_replay_settles ["two-sum"; "3sum"]
           (fresh_world (Some (mkTab (Some 7%Z) (Some "https://leetcode.com/problemset/"))) []));
    [|reflexivity].
  repeat constructor; done.
Defined.

(** parseProblemSlug is the leftmost match of its expression: it gives [m]
    exactly when [m] is matched at some place of the URL and nothing is matched
    at an earlier place. *)
Theorem parseProblemSlug_leftmost (url m : string) :
  parseProblemSlug url = Some m <->
  exists p u, url = p +:+ u /\ matches_here u m /\
    forall p1 p2, p = p1 +:+ p2 -> p2 <> "" -> forall m', ~ matches_here (p2 +:+ u) m'.
Proof.
  split.
  - induction url as [|a url IH]; rewrite parse_unfold.
    + done.
    + destruct (slug_here (String a url)) as [m'|] eqn:E.
      * intros [= ->]. apply slug_here_spec in E. exists "", (String a url).
        split; [done|]. split; [done|]. intros [|? ?] [|? ?]; done.
      * intros H. destruct (IH H) as (p & u & -> & Hm & Hl). exists (String a p), u.
        split; [done|]. split; [done|]. intros [|b p1] p2 Hp Hne.
        -- rewrite str_app_nil_l in Hp. subst p2. by apply slug_here_none.
        -- rewrite str_app_cons in Hp. simplify_eq. by eapply Hl.
  - intros (p & u & -> & Hm & Hl). induction p as [|a p IH].
    + rewrite str_app_nil_l. by apply parse_here.
    + rewrite str_app_cons, parse_skip.
      * apply IH. intros p1 p2 -> Hne. by apply (Hl (String a p1) p2).
      * apply slug_here_none. by apply (Hl "" (String a p)).
Qed.

(** problemUrl and parseProblemSlug round-trip on every slug without URL
    separators, also after LeetCode has appended a path, a query or a fragment
    to the address. *)
Theorem problemUrl_roundtrip (s r : string) :
  valid_slug s -> parseProblemSlug (problemUrl s +:+ r) = Some s.
Proof. apply parse_problemUrl_app. Qed.

Lemma problemUrl_roundtrip_witness :
  valid_slug "two-sum" /\
  parseProblemSlug (problemUrl "two-sum" +:+ "description/?envType=daily") = Some "two-sum".
Proof. split; [done|apply problemUrl_roundtrip; done]. Defined.

(** A tab that shows a problem of the round is never moved by a resume,
    whatever LeetCode has appended to the address: the step the user took with
    the arrows is not undone. *)
Theorem resume_never_leaves_round (ps : list string) (p r : string) (tid : Z) (w : World) :
  p ∈ ps -> valid_slug p -> w_tab w = Some (mkTab (Some tid) (Some (problemUrl p +:+ r))) ->
  navigateActiveTab (resume ps) w = (Ok tt, w).
Proof.
  intros Hin Hv Ht. apply navigate_stay. eapply nav_move_stay; [done|].
  left. by apply resume_on_round.
Qed.

Lemma resume_never_leaves_round_witness :
  let w := fresh_world (Some (mkTab (Some 7%Z) (Some (problemUrl "3sum" +:+ "description/")))) [] in
  navigateActiveTab (resume ["two-sum"; "3sum"]) w = (Ok tt, w).
Proof.
  apply (resume_never_leaves_round _ "3sum" "description/" 7%Z); [|done|done].
  apply includes_spec. reflexivity.
Defined.

(** NavigateActiveTab never throws and never names a page other than the
    one [decide] asked for: whatever the tabs answer, its effects are at most
    one update of the active tab to [problemUrl] of the slug decided from the
    live URL, followed by at most one console message. *)
Theorem navigate_total (decide : string -> Val) (w : World) :
  exists l, (navigateActiveTab decide w).1 = Ok tt /\
    w_log (navigateActiveTab decide w).2 = w_log w ++ l /\
    (l = [] \/
     exists tid turl, w_tab w = Some (mkTab (Some tid) (Some turl)) /\ truthy (decide turl) = true /\
       (l = [ETabUpdate tid (problemUrl (to_str (decide turl)))] \/
        l = [ETabUpdate tid (problemUrl (to_str (decide turl)));
             EConsole "Failed to navigate the active LeetCode tab"])).
Proof.
  destruct (nav_move decide w) as [[[t tid] u]|] eqn:Hm.
  - pose proof Hm as Hi. apply nav_move_inv in Hi as (turl & -> & Ht & _ & _ & Htr & ->).
    destruct (w_tabErr w) as [e|] eqn:He.
    + rewrite (navigate_fail _ _ _ _ _ _ Hm He). cbn. eexists. split; [done|]. split; [done|].
      right. destruct (isNavigationCancellation e); eauto 10.
    + rewrite (navigate_go _ _ _ _ _ Hm He). cbn. eexists. split; [done|]. split; [done|].
      right. eauto 10.
  - rewrite (navigate_stay _ _ Hm). cbn. exists []. rewrite app_nil_r. auto.
Qed.
