(* ===== verification/RoomInit.v ===== *)
(** * Entering a room

    [hooks/useRoomInit.ts]: joining and creating a room, restoring the room the
    server still lists the user in, and loading its participants.  The hook's
    functions are closures over the user store as it was when the component
    rendered; that snapshot is the parameter [cap]. *)

From S2P Require Export Navigation.

Inductive RoomActionResult := Success | Failure (message : string).
#[export] Instance RoomActionResult_eq_dec : EqDecision RoomActionResult.
Proof. solve_decision. Defined.

Definition mapBackendUser (user : Val) : Res User :=
  authID ← get user "authID"; uid ← get user "id"; handle ← get user "handle";
  firstName ← get user "firstName"; lastName ← get user "lastName";
  email ← get user "email"; photoURL ← get user "photoURL";
  let full := trim (join " " (map to_str (List.filter truthy [firstName; lastName]))) in
  Ok (mkUser
    (to_str (js_or authID (VStr (to_str uid))))
    (to_str (js_or handle (js_or (VStr full) (js_or email (VStr (to_str uid))))))
    (to_str (js_or email (VStr "")))
    (to_str (js_or photoURL (VStr "")))).

Definition parseJsonSafe (res : Response) : IO Val :=
  try_catch (res_json res) (fun _ => mret VNull).

(** [typeof v === 'string' && v.trim()] *)
Definition nonblank (v : Val) : option string :=
  match v with VStr s => if String.eqb (trim s) "" then None else Some s | _ => None end.

Definition extractErrorMessage (payload : Val) (fallback : string) : string :=
  if negb (truthy payload) then fallback else
  match nonblank payload with Some s => s | None =>
  match nonblank (prop payload "error") with Some s => s | None =>
  match nonblank (prop payload "message") with Some s => s | None =>
  match nonblank (prop payload "details") with Some s => s | None => fallback
  end end end end.

Definition sanitizeRoundCreationError (message : string) : string :=
  if String.eqb message "" then "Failed to create round."
  else if str_includes "Not enough tagged problems found." message
  then "Failed to create round. Not enough tagged problems found."
  else message.

Section useRoomInit.
Context `{JsEnv} `{JsonCodec}.
Context (cap : UserState).

Definition setRoomParticipants (roomId : string) : IO unit :=
  try_catch
    (base ← getServerUrl;
     res ← fetch (get_req (base +:+ "/rooms/" +:+ roomId +:+ "/participants"));
     (if negb (res_ok res)
      then throw (js_error ("Failed to load participants (" +:+ z_str (status res) +:+ ")"))
      else mret tt) ;;
     data ← res_json res;
     d ← lift (get data "data");
     roomUsers ← lift (match arr_of d with Some l => res_map mapBackendUser l | None => Ok [] end);
     on_room (fun s => setParticipants s roomUsers))
    (fun _ =>
       console "Failed to load room participants" ;;
       match userId cap with
       | Some uid =>
           when (negb (String.eqb uid ""))
             (on_room (fun s => setParticipants s
               [mkUser uid (opt_or (username cap) (opt_or (u_email cap) uid))
                       (opt_or (u_email cap) "") (opt_or (iconUrl cap) "")]))
       | None => mret tt
       end).

(** The storage writes after a room was entered by [joinRoom] or [createRoom]. *)
Definition rememberRoom (rid : Val) : IO unit :=
  if_chrome has_storage
    (storage_set "activeRoomId" rid ;;
     storage_remove "nextProblem" ;;
     if_chrome has_action (set_badge "")).

Definition joinRoom (roomCode : string) : IO RoomActionResult :=
  try_catch
    (base ← getServerUrl;
     res ← fetch (post_req (base +:+ "/rooms/" +:+ roomCode +:+ "/join"));
     data ← parseJsonSafe res;
     if negb (res_ok res) then mret (Failure (extractErrorMessage data "Failed to join room.")) else
     room ← lift (get data "data");
     rid ← lift (get room "id"); code ← lift (get room "shortCode"); admin ← lift (get room "adminId");
     on_room (fun s => initRoom s (wire_str rid) (wire_str code) (wire_str admin) (eq_opt admin (userId cap))) ;;
     let lastRound := match prop room "rounds" with VArr l => last_elem l | _ => VUndef end in
     let lastRoundStatus := js_or (get_opt lastRound "Status") (get_opt lastRound "status") in
     on_room (fun s => setHasRoundEnded s (is_str lastRoundStatus "ended")) ;;
     setRoomParticipants (to_str rid) ;;
     on_room (fun s => setRoomNotice s None) ;;
     pushRoute "/room-page" ;;
     rememberRoom rid ;;
     mret Success)
    (fun _ =>
       console "joinRoom" ;;
       mret (Failure "Failed to join room. Please try again.")).

(** The body of the round creation request. *)
Definition roundParams (options : Val) : Res Val :=
  duration ← get options "duration"; easy ← get options "easy"; medium ← get options "medium";
  hard ← get options "hard"; tags ← get options "tags"; companies ← get options "companies";
  blind75 ← get options "blind75"; neetcode150 ← get options "neetcode150";
  recentlyAsked ← get options "recentlyAsked"; excludePaid ← get options "excludePaid";
  anyDifficulty ← get options "anyDifficulty"; anyDifficultyCount ← get options "anyDifficultyCount";
  problemIds ← get options "problemIds";
  Ok (VObj [
    ("duration", js_or duration (VNum 30));
    ("numEasyProblems", js_or easy (VNum 0));
    ("numMediumProblems", js_or medium (VNum 0));
    ("numHardProblems", js_or hard (VNum 0));
    ("tags", js_or tags (VArr []));
    ("companies", js_or companies (VArr []));
    ("blind75", js_or blind75 (VBool false));
    ("neetcode150", js_or neetcode150 (VBool false));
    ("recentlyAsked", js_or recentlyAsked (VBool false));
    ("excludePaid", js_or excludePaid (VBool false));
    ("anyDifficulty", js_or anyDifficulty (VBool false));
    ("numAnyDifficultyProblems", js_or anyDifficultyCount (VNum 0));
    ("problemIds", js_or problemIds (VArr []))]).

Definition createRoom (roomCode : string) (options : Val) : IO RoomActionResult :=
  try_catch
    (base ← getServerUrl;
     (* 1. Create Room *)
     profanity ← lift (get options "profanityFilter");
     res ← fetch (post_json (base +:+ "/rooms")
             (VObj [("roomName", VStr roomCode); ("ttl", VNum 360);
                    ("profanityFilter", js_coalesce profanity (VBool false))]));
     data ← parseJsonSafe res;
     if negb (res_ok res) then mret (Failure (extractErrorMessage data "Failed to create room.")) else
     d ← lift (get data "data");
     rid ← lift (get d "id"); admin ← lift (get d "adminId"); code ← lift (get d "shortCode");
     (* 2. Create Round *)
     params ← lift (roundParams options);
     roundRes ← fetch (post_json (base +:+ "/rooms/" +:+ to_str rid +:+ "/rounds/create") params);
     roundData ← parseJsonSafe roundRes;
     if negb (res_ok roundRes)
     then mret (Failure (sanitizeRoundCreationError (extractErrorMessage roundData "Failed to create round."))) else
     (* 3. Join the room *)
     joinRes ← fetch (post_req (base +:+ "/rooms/" +:+ to_str rid +:+ "/join"));
     if negb (res_ok joinRes)
     then joinData ← parseJsonSafe joinRes;
          mret (Failure (extractErrorMessage joinData "Room was created, but failed to join.")) else
     (* 4. Update state *)
     on_room (fun s => initRoom s (wire_str rid) (wire_str code) (wire_str admin) (eq_opt admin (userId cap))) ;;
     setRoomParticipants (to_str rid) ;;
     on_room (fun s => setRoundDuration s (wire_num (prop params "duration"))) ;;
     on_room (fun s => setRoomNotice s (nonblank (get_opt roundData "warningMessage"))) ;;
     rememberRoom rid ;;
     pushRoute "/room-page" ;;
     mret Success)
    (fun _ =>
       console "Failed to create room/round" ;;
       mret (Failure "Failed to create room. Please try again.")).

(** The last part of [checkActiveRoom]: the state of the room's last round. *)
Definition restoreRound (room : Val) : IO unit :=
  match prop room "rounds" with
  | VArr (r0 :: rs) =>
      let lastRound := last_elem (r0 :: rs) in
      st1 ← lift (get lastRound "Status"); st2 ← lift (get lastRound "status");
      let status := js_or st1 st2 in
      on_room (fun s => setHasRoundEnded s (is_str status "ended")) ;;
      let lastRoundDuration := js_or (prop lastRound "duration") (prop lastRound "Duration") in
      match lastRoundDuration with
      | VNum z => on_room (fun s => setRoundDuration s (Some z))
      | _ => mret tt
      end ;;
      if is_str status "started" then
        on_room (fun s => setIsRoundStarted s true) ;;
        let startTimeStr := js_or (prop lastRound "LastUpdatedTime") (prop lastRound "lastUpdatedTime") in
        let startTime := date_of startTimeStr in
        let endTime := nadd startTime (nmul (nmul (to_num lastRoundDuration) (Fin 60)) (Fin 1000)) in
        now ← date_now;
        when (ngt endTime (Fin now))
          (on_room (fun s => setRoundEndTime s (Some endTime)) ;;
           if_chrome has_storage (storage_set "roundEndTime" (val_of_num endTime)))
      else
        on_room (fun s => setIsRoundStarted s false) ;;
        on_room (fun s => setRoundEndTime s None)
  | _ => mret tt
  end.

(** Entering the room the server lists; the caller's result is [true] once
    this has run to its end. *)
Definition restoreRoom (room : Val) : IO unit :=
  rid ← lift (get room "id"); code ← lift (get room "shortCode"); admin ← lift (get room "adminId");
  currentUserStored ← user_get userId;
  on_room (fun s => initRoom s (wire_str rid) (wire_str code) (wire_str admin) (eq_opt admin currentUserStored)) ;;
  setRoomParticipants (to_str rid) ;;
  on_room (fun s => setRoomNotice s None) ;;
  if_chrome has_storage
    (storage_set "activeRoomId" rid ;;
     console "CheckActiveRoom: Saved activeRoomId" ;;
     ps ← storage_get "problems";
     on_room (fun s => setProblems s (wire_strs (js_or ps (VArr []))))) ;;
  pushRoute "/room-page" ;;
  restoreRound room.

(** The part of [checkActiveRoom] after the retry check. *)
Definition enterActiveRoom (base : string) (res : Response) : IO bool :=
  if negb (res_ok res) then mret false else
  data ← res_json res;
  did ← lift (get data "id");
  let rid := js_or did (prop data "roomID") in
  if negb (truthy rid) then mret false else
  roomRes ← fetch (get_req (base +:+ "/rooms/" +:+ to_str rid));
  if negb (res_ok roomRes) then mret false else
  roomData ← res_json roomRes;
  room ← lift (get roomData "data");
  restoreRoom room ;;
  mret true.

(** [checkActiveRoom(attempt)] with [attempt = 3 - tries]: the request is
    repeated, after a doubling pause, while the server answers 429. *)
Fixpoint checkActiveRoom_at (tries : nat) : IO bool :=
  try_catch
    (base ← getServerUrl;
     res ← fetch (get_req (base +:+ "/rooms/active"));
     match tries with
     | S n =>
         if (status res =? 429)%Z
         then sleep (1000 * 2 ^ Z.of_nat (3 - tries))%Z ;; checkActiveRoom_at n
         else enterActiveRoom base res
     | 0 => enterActiveRoom base res
     end)
    (fun _ => console "Failed to check active room" ;; mret false).

Definition checkActiveRoom : IO bool := checkActiveRoom_at 3.
End useRoomInit.

(** ** Lemmas *)

Section lemmas.
Context `{JsEnv} `{JsonCodec}.
Implicit Types (cap : UserState) (w : World).

(** [setRoomParticipants] issues one request, changes nothing but the
    participants and never throws. *)
Definition asked (u : string) (w w' : World) : Prop :=
  same_stores w' w /\
  requests (w_log w') = requests (w_log w) ++ [get_req (w_serverUrl w +:+ "/rooms/" +:+ u +:+ "/participants")].

Definition only_participants (u : string) (w w' : World) : Prop :=
  (exists ps, same_stores w' (with_room w (setParticipants (w_room w) ps))) /\
  requests (w_log w') = requests (w_log w) ++ [get_req (w_serverUrl w +:+ "/rooms/" +:+ u +:+ "/participants")].

Lemma asked_console u m w w0 : asked u w w0 -> asked u w (with_log w0 (w_log w0 ++ [EConsole m])).
Proof. intros [Hs Hl]. split; [done|]. cbn. by rewrite requests_app, app_nil_r. Qed.

Lemma asked_keep u w w0 : asked u w w0 -> only_participants u w w0.
Proof.
  intros [Hs Hl]. split; [|done]. exists (participants (w_room w)).
  by rewrite setParticipants_id, with_room_id.
Qed.

Lemma asked_set u w w0 ps :
  asked u w w0 -> only_participants u w (with_room w0 (setParticipants (w_room w0) ps)).
Proof. intros [Hs Hl]. split; [|done]. exists ps. by rewrite Hs at 1 2. Qed.

Lemma asked_now u w w0 :
  same_stores w0 w ->
  w_log w0 = w_log w ++ [EFetch (get_req (w_serverUrl w +:+ "/rooms/" +:+ u +:+ "/participants"))] ->
  asked u w w0.
Proof. intros Hs Hl. split; [done|]. by rewrite Hl, requests_app. Qed.

Lemma setRoomParticipants_wp cap u w :
  wp (setRoomParticipants cap u) (fun r w' => r = Ok tt /\ only_participants u w w') w.
Proof.
  unfold setRoomParticipants. wp_step.
  eapply wp_mono with (Q := fun r w' => match r with Ok _ => only_participants u w w' | Throw _ => asked u w w' end).
  - repeat (wp_step; cbn); try (by apply asked_now).
    destruct (get v "data") as [d0|]; [|by apply asked_now]. repeat (wp_step; cbn).
    destruct (match arr_of d0 with Some _ => _ | None => _ end); [|by apply asked_now].
    by apply (asked_set u w (with_now (with_net (with_log w _) net) _)), asked_now.
  - intros [[]|e] w' Hw; [done|]. wp_step. wp_step. apply (asked_console _ "Failed to load room participants") in Hw.
    destruct (userId cap); [|by split; [|apply asked_keep]].
    wp_step; [wp_step|]; (split; [done|]); [by apply asked_set|by apply asked_keep].
Qed.

Lemma pushRoute_wp route (Q : Res bool -> World -> Prop) w :
  (forall r w', same_stores w' w -> requests (w_log w') = requests (w_log w) -> Q r w') ->
  wp (pushRoute route) Q w.
Proof.
  intros HQ. unfold pushRoute. wp_step. apply wp_push. intros r w' Hl [l ->].
  assert (Hq : requests (w_log (with_router (with_log w (w_log w ++ [ERoute route])) l)) = requests (w_log w)).
  { cbn. by rewrite requests_app, app_nil_r. }
  destruct r; [by apply HQ|]. wp_step; wp_step; by apply HQ.
Qed.

(** The router's next move fails, with an error that is no cancelled navigation. *)
Definition router_fails w : Prop :=
  exists e l, w_router w = Throw e :: l /\ isNavigationCancellation e = false.

Lemma pushRoute_exact route (Q : Res bool -> World -> Prop) w :
  (forall b w', ~ router_fails w -> same_stores w' w -> requests (w_log w') = requests (w_log w) -> Q (Ok b) w') ->
  (forall e w', router_fails w -> same_stores w' w -> requests (w_log w') = requests (w_log w) -> Q (Throw e) w') ->
  wp (pushRoute route) Q w.
Proof.
  intros Hok Hno. unfold wp, pushRoute, try_catch, router_push. js_exec.
  destruct (w_router w) as [|[b|e] l] eqn:E; cbn.
  1, 2: apply Hok; [intros (? & ? & Hf & _); congruence|same_tac|cbn; by rewrite requests_app, app_nil_r].
  destruct (isNavigationCancellation e) eqn:Hc; cbn;
    [apply Hok; [intros (? & ? & Hf & ?); congruence|..]|apply Hno; [by exists e, l|..]];
    (same_tac || (cbn; by rewrite requests_app, app_nil_r)).
Qed.

Definition same_router (w w' : World) : Prop := w_router w' = w_router w.
#[local] Instance same_router_preorder : PreOrder same_router.
Proof. split; [done|]. intros w1 w2 w3 H1 H2. unfold same_router in *. congruence. Qed.

Lemma setRoomParticipants_router cap u : steps same_router (setRoomParticipants cap u).
Proof. unfold setRoomParticipants. steps_tac; try done. by destruct (w_net s) as [|[]]. Qed.

(** What the caller learns of [setRoomParticipants]. *)
Lemma setRoomParticipants_then cap u (Q : Res unit -> World -> Prop) w :
  (forall w', only_participants u w w' -> w_router w' = w_router w -> Q (Ok tt) w') ->
  wp (setRoomParticipants cap u) Q w.
Proof.
  intros HQ. eapply wp_mono; [apply wp_and; [apply setRoomParticipants_wp|apply wp_steps, setRoomParticipants_router]|].
  intros r w' [[-> Hp] Hr]. by apply HQ.
Qed.

Lemma parseJsonSafe_wp res (Q : Res Val -> World -> Prop) w :
  Q (Ok (default VNull (body res))) w -> wp (parseJsonSafe res) Q w.
Proof. unfold parseJsonSafe. intros HQ. wp_step. wp_step; [by rewrite H1 in HQ|wp_step; by rewrite H1 in HQ]. Qed.

Lemma nonblank_ne v s : nonblank v = Some s -> s <> "".
Proof. destruct v; cbn; try done. destruct (String.eqb (trim s0) "") eqn:E; [done|]. by intros [= <-] ->. Qed.

Lemma extractErrorMessage_ne v d : d <> "" -> extractErrorMessage v d <> "".
Proof.
  intros Hd. unfold extractErrorMessage. destruct (negb (truthy v)); [done|].
  repeat (case_match; [by eapply nonblank_ne|]). done.
Qed.

(** The room store after [joinRoom] has entered [room]. *)
Definition joined cap (room : Val) (ps : list User) (s : RoomState) : RoomState :=
  let lastRound := match prop room "rounds" with VArr l => last_elem l | _ => VUndef end in
  setRoomNotice (setParticipants (setHasRoundEnded
    (initRoom s (wire_str (prop room "id")) (wire_str (prop room "shortCode"))
       (wire_str (prop room "adminId")) (eq_opt (prop room "adminId") (userId cap)))
    (is_str (js_or (get_opt lastRound "Status") (get_opt lastRound "status")) "ended")) ps) None.

(** What [rememberRoom] does to the stores. *)
Definition remembered (rid : Val) w : World := (rememberRoom rid w).2.

Lemma rememberRoom_wp rid (Q : Res unit -> World -> Prop) w :
  Q (Ok tt) (remembered rid w) -> wp (rememberRoom rid) Q w.
Proof.
  unfold remembered, wp, rememberRoom. js_exec.
  destruct (has_storage (w_platform w)); cbn; [|done].
  by destruct (has_action (w_platform w)).
Qed.

Lemma remembered_log rid w : w_log (remembered rid w) = w_log w.
Proof.
  unfold remembered, rememberRoom. js_exec.
  destruct (has_storage (w_platform w)); cbn; [|done].
  by destruct (has_action (w_platform w)).
Qed.

Lemma remembered_router rid w : w_router (remembered rid w) = w_router w.
Proof.
  unfold remembered, rememberRoom. js_exec.
  destruct (has_storage (w_platform w)); cbn; [|done].
  by destruct (has_action (w_platform w)).
Qed.

#[export] Instance remembered_proper rid : Proper (same_stores ==> same_stores) (remembered rid).
Proof.
  intros w w' Hw. pose proof (w_platform_proper _ _ Hw) as Hp. pose proof (w_storage_proper _ _ Hw) as Hs.
  unfold remembered, rememberRoom. js_exec. rewrite Hp.
  destruct (has_storage (w_platform w')) eqn:E1; cbn; [|done]. rewrite Hp, Hs.
  destruct (has_action (w_platform w')); cbn; same_tac.
Qed.

Lemma requests_console l m : requests (l ++ [EConsole m]) = requests l.
Proof. by rewrite requests_app, app_nil_r. Qed.

Lemma requests_fetch l r : requests (l ++ [EFetch r]) = requests l ++ [r].
Proof. by rewrite requests_app. Qed.

Definition joinRequest code w : Request := post_req (w_serverUrl w +:+ "/rooms/" +:+ code +:+ "/join").
Definition participantsRequest (rid : Val) w : Request :=
  get_req (w_serverUrl w +:+ "/rooms/" +:+ to_str rid +:+ "/participants").

(** The [i]th answer accepts its request, with the JSON [v] ([null] when it has none). *)
Definition accepted (net : list NetReply) (i : nat) (v : Val) : Prop :=
  exists d st b, net !! i = Some (Reply d st b) /\ res_ok (mkResponse st b) = true /\ default VNull b = v.
(** The request was accepted for the room [room]. *)
Definition accepted_room (net : list NetReply) (room : Val) : Prop :=
  exists v, accepted net 0 v /\ prop v "data" = room /\ is_nullish room = false.

Lemma accepted_fun net i v v' : accepted net i v -> accepted net i v' -> v = v'.
Proof. intros (d & st & b & H1 & _ & <-) (d' & st' & b' & H2 & _ & <-). by simplify_eq. Qed.
Lemma accepted_reply net i d st b : net !! i = Some (Reply d st b) ->
  negb (res_ok (mkResponse st b)) = false -> accepted net i (default VNull b).
Proof. intros Hn Ho%negb_false_iff. by exists d, st, b. Qed.
Lemma nullish_data net v room : accepted net 0 v -> is_nullish (prop v "data") = true -> ~ accepted_room net room.
Proof. intros Ha Hn (v' & Hv & <- & Hf). by rewrite (accepted_fun _ _ _ _ Hv Ha), Hn in Hf. Qed.
Lemma unanswered net i v : net !! i = None -> ~ accepted net i v.
Proof. intros Hn (d & st & b & He & _). congruence. Qed.
Lemma answer_failed net i e v : net !! i = Some (NetFail e) -> ~ accepted net i v.
Proof. intros Hn (d & st & b & He & _). congruence. Qed.
Lemma answer_refused net i d st b v : net !! i = Some (Reply d st b) ->
  negb (res_ok (mkResponse st b)) = true -> ~ accepted net i v.
Proof. intros Hn Ho%negb_true_iff (d' & st' & b' & He & Hk & _). simplify_eq. congruence. Qed.
Lemma no_new_room net room : (forall v, ~ accepted net 0 v) -> ~ accepted_room net room.
Proof. intros Hn (v & Ha & _). by eapply Hn. Qed.
Lemma options_given o : is_nullish o = false -> exists params, roundParams o = Ok params.
Proof. intros Hn. unfold roundParams, get. rewrite Hn. cbn. by eexists. Qed.

(** That the [i]th answer accepts nothing, from the answers as far as they are known. *)
Ltac answer_known :=
  repeat match goal with E : w_net (_ _) = _ |- _ => progress cbn in E end; subst;
  match goal with E : w_net _ = _ |- _ => rewrite E end; reflexivity.
Ltac not_accepted :=
  intros ?; first
    [ match goal with Ho : negb (res_ok _) = true |- _ => eapply answer_refused; [|exact Ho]; answer_known end
    | eapply answer_failed; answer_known | eapply unanswered; answer_known ].

(** The three ways [joinRoom] ends. *)
Inductive join_outcome cap code w : Res RoomActionResult -> World -> Prop :=
| join_refused m w' :
    m <> "" -> (forall room, ~ accepted_room (w_net w) room) -> same_stores w' w ->
    requests (w_log w') = requests (w_log w) ++ [joinRequest code w] ->
    join_outcome cap code w (Ok (Failure m)) w'
| join_lost room ps m w' :
    accepted_room (w_net w) room -> router_fails w -> m <> "" ->
    same_stores w' (with_room w (joined cap room ps (w_room w))) ->
    requests (w_log w') = requests (w_log w) ++ [joinRequest code w; participantsRequest (prop room "id") w] ->
    join_outcome cap code w (Ok (Failure m)) w'
| join_done room ps w' :
    accepted_room (w_net w) room -> ~ router_fails w ->
    same_stores w' (remembered (prop room "id") (with_room w (joined cap room ps (w_room w)))) ->
    requests (w_log w') = requests (w_log w) ++ [joinRequest code w; participantsRequest (prop room "id") w] ->
    join_outcome cap code w (Ok Success) w'.

Lemma get_prop v k x : get v k = Ok x -> x = prop v k.
Proof. unfold get. destruct (is_nullish v); congruence. Qed.

Lemma join_outcome_console cap code w r w' m :
  join_outcome cap code w r w' -> join_outcome cap code w r (with_log w' (w_log w' ++ [EConsole m])).
Proof.
  intros [m' w'' Hm Ha Hs Hl|room ps m' w'' Ha Hf Hm Hs Hl|room ps w'' Ha Hf Hs Hl];
    [eapply join_refused|eapply join_lost|eapply join_done]; try done; cbn; by rewrite requests_console.
Qed.

Ltac join_refusal :=
  eapply join_refused;
    [first [done|by apply extractErrorMessage_ne]
    |intros ?; first [by eapply nullish_data|apply no_new_room; not_accepted]
    |done|cbn; by rewrite requests_fetch].

(** From the room's data on: the stores are entered, then the router moves. *)
Lemma joinRoom_enter cap code room w w0 :
  (exists v, accepted (w_net w) 0 v /\ prop v "data" = room) ->
  same_stores w0 w -> requests (w_log w0) = requests (w_log w) ++ [joinRequest code w] ->
  w_serverUrl w0 = w_serverUrl w -> w_router w0 = w_router w ->
  wp (rid ← lift (get room "id"); code ← lift (get room "shortCode"); admin ← lift (get room "adminId");
      on_room (fun s => initRoom s (wire_str rid) (wire_str code) (wire_str admin) (eq_opt admin (userId cap))) ;;
      let lastRound := match prop room "rounds" with VArr l => last_elem l | _ => VUndef end in
      let lastRoundStatus := js_or (get_opt lastRound "Status") (get_opt lastRound "status") in
      on_room (fun s => setHasRoundEnded s (is_str lastRoundStatus "ended")) ;;
      setRoomParticipants cap (to_str rid) ;;
      on_room (fun s => setRoomNotice s None) ;;
      pushRoute "/room-page" ;;
      rememberRoom rid ;;
      mret Success)
    (fun r => join_outcome cap code w
       (match r with Ok a => Ok a | Throw _ => Ok (Failure "Failed to join room. Please try again.") end)) w0.
Proof.
  intros (v0 & Ha & Hd) Hs Hl Hu Hg. unfold get. destruct (is_nullish room) eqn:Hn.
  { wp_step. wp_step. eapply join_refused; try done. intros room'. eapply nullish_data; [done|by rewrite Hd]. }
  assert (Hr : accepted_room (w_net w) room) by (by exists v0).
  repeat (wp_step; cbn).
  apply setRoomParticipants_then. intros w1 [[ps H1] H2] Hg1. cbn in H2, Hg1. rewrite Hg in Hg1.
  rewrite Hl, <- app_assoc, Hu in H2.
  assert (H3 : same_stores (with_room w1 (setRoomNotice (w_room w1) None)) (with_room w (joined cap room ps (w_room w)))).
  { unfold joined. rewrite <- (w_room_proper _ _ Hs), (w_room_proper _ _ H1). cbn in *. same_tac. }
  repeat (wp_step; cbn). apply pushRoute_exact; unfold router_fails; cbn; rewrite Hg1; intros b w2 Hf Hs2 Hl2; cbn in *.
  - wp_step. apply rememberRoom_wp. wp_step. eapply join_done; [done|done|by rewrite Hs2, H3|].
    by rewrite remembered_log, Hl2, H2.
  - eapply join_lost; [done|done|done|by rewrite Hs2, H3|by rewrite Hl2, H2].
Qed.


(** *** createRoom *)

Definition createRoomRequest (code : string) (options : Val) w : Request :=
  post_json (w_serverUrl w +:+ "/rooms")
    (VObj [("roomName", VStr code); ("ttl", VNum 360);
           ("profanityFilter", js_coalesce (prop options "profanityFilter") (VBool false))]).
Definition createRoundRequest (rid params : Val) w : Request :=
  post_json (w_serverUrl w +:+ "/rooms/" +:+ to_str rid +:+ "/rounds/create") params.

(** The room store after [createRoom] has entered the room of the data [d]. *)
Definition created cap (d params roundData : Val) (ps : list User) (s : RoomState) : RoomState :=
  setRoomNotice (setRoundDuration (setParticipants
    (initRoom s (wire_str (prop d "id")) (wire_str (prop d "shortCode"))
       (wire_str (prop d "adminId")) (eq_opt (prop d "adminId") (userId cap))) ps)
    (wire_num (prop params "duration"))) (nonblank (get_opt roundData "warningMessage")).

(** The four requests of a creation. *)
Definition create_requests (code : string) (options d params : Val) w : list Request :=
  [createRoomRequest code options w; createRoundRequest (prop d "id") params w;
   joinRequest (to_str (prop d "id")) w; participantsRequest (prop d "id") w].

(** Why a creation ends after [n] requests: without any, because there are no
    options; otherwise because the last request of them was not accepted, or the
    first was accepted without the data of a room. *)
Definition create_stops (net : list NetReply) (options : Val) (n : nat) : Prop :=
  match n with
  | 0 => is_nullish options = true
  | 1 => is_nullish options = false /\ forall room, ~ accepted_room net room
  | S i => is_nullish options = false /\ forall v, ~ accepted net i v
  end.

Inductive create_outcome cap code options w : Res RoomActionResult -> World -> Prop :=
| create_refused n d params m w' :
    n <= 3 -> create_stops (w_net w) options n -> m <> "" ->
    (1 < n -> accepted_room (w_net w) d /\ roundParams options = Ok params) ->
    (2 < n -> exists v, accepted (w_net w) 1 v) ->
    same_stores w' w ->
    requests (w_log w') = requests (w_log w) ++ take n (create_requests code options d params w) ->
    create_outcome cap code options w (Ok (Failure m)) w'
| create_entered d params roundData ps r w' :
    roundParams options = Ok params -> accepted_room (w_net w) d -> accepted (w_net w) 1 roundData ->
    (exists v, accepted (w_net w) 2 v) ->
    same_stores w' (remembered (prop d "id")
                      (with_room w (created cap d params roundData ps (w_room w)))) ->
    requests (w_log w') = requests (w_log w) ++ create_requests code options d params w ->
    (r = Success /\ ~ router_fails w \/
     r = Failure "Failed to create room. Please try again." /\ router_fails w) ->
    create_outcome cap code options w (Ok r) w'.

Definition create_fallback (r : Res RoomActionResult) : Res RoomActionResult :=
  match r with Ok a => Ok a | Throw _ => Ok (Failure "Failed to create room. Please try again.") end.

Lemma create_outcome_console cap code o w r w' m :
  create_outcome cap code o w r w' -> create_outcome cap code o w r (with_log w' (w_log w' ++ [EConsole m])).
Proof.
  intros [n d p m' w'' Hn Hst Hm H1 H2 Hs Hl|d p rd ps r' w'' Hp H1 H2 H3 Hs Hl Hr];
    [eapply create_refused|eapply create_entered]; try done; cbn; rewrite requests_console; eauto.
Qed.

(** From the answer to the join request on. *)
Lemma createRoom_enter cap code o d params roundData w w0 :
  roundParams o = Ok params -> accepted_room (w_net w) d -> accepted (w_net w) 1 roundData ->
  (exists v, accepted (w_net w) 2 v) ->
  same_stores w0 w -> w_serverUrl w0 = w_serverUrl w -> w_router w0 = w_router w ->
  requests (w_log w0) = requests (w_log w) ++ take 3 (create_requests code o d params w) ->
  wp (on_room (fun s => initRoom s (wire_str (prop d "id")) (wire_str (prop d "shortCode"))
                (wire_str (prop d "adminId")) (eq_opt (prop d "adminId") (userId cap))) ;;
      setRoomParticipants cap (to_str (prop d "id")) ;;
      on_room (fun s => setRoundDuration s (wire_num (prop params "duration"))) ;;
      on_room (fun s => setRoomNotice s (nonblank (get_opt roundData "warningMessage"))) ;;
      rememberRoom (prop d "id") ;;
      pushRoute "/room-page" ;;
      mret Success)
    (fun r => create_outcome cap code o w (create_fallback r)) w0.
Proof.
  intros Hp Hd Hrd Hj Hs Hu Hg Hl. repeat (wp_step; cbn).
  apply setRoomParticipants_then. intros w1 [[ps H1] H2] Hg1. cbn in H2, Hg1. rewrite Hg in Hg1. rewrite Hl, Hu, <- app_assoc in H2. cbn in H2.
  repeat (wp_step; cbn). apply rememberRoom_wp. wp_step.
  apply pushRoute_exact; unfold router_fails at 1; rewrite remembered_router; cbn; rewrite Hg1; intros b w2 Hf Hs2 Hl2;
    rewrite remembered_log in Hl2; cbn in Hl2;
    (assert (H3 : same_stores w2 (remembered (prop d "id")
                   (with_room w (created cap d params roundData ps (w_room w)))));
     [rewrite Hs2; apply remembered_proper; unfold created;
      rewrite <- (w_room_proper _ _ Hs), (w_room_proper _ _ H1); cbn in *; same_tac|]);
    [wp_step|]; (eapply create_entered; [done|exact Hd|exact Hrd|exact Hj|exact H3|by rewrite Hl2, H2|auto]).
Qed.

Lemma sanitize_ne m : m <> "" -> sanitizeRoundCreationError m <> "".
Proof. unfold sanitizeRoundCreationError. intros. by repeat case_match. Qed.

#[local] Hint Resolve extractErrorMessage_ne sanitize_ne : js.

#[local] Hint Extern 1 (_ <> "") => discriminate : js.

(** The reason of a refusal. *)
Ltac stops :=
  cbn [create_stops]; first
    [ done
    | split; [done|]; first [by intros ?; eapply nullish_data|intros ?; apply no_new_room; not_accepted|not_accepted] ].

(** A refusal after [n] requests. *)
Ltac refused n d p :=
  solve [eapply (create_refused _ _ _ _ n d p);
    [lia|stops|auto 3 with js|first [lia|by intros _]|first [lia|by intros _; eexists]|done
    |cbn; by rewrite ?app_nil_r, ?requests_fetch, <- ?app_assoc]].

(** *** checkActiveRoom *)

(** What holds of the room store once the user is in an active room. *)
Definition in_active_room w : Prop :=
  let s := w_room w in
  isInRoom s = true /\ roomNotice s = None /\ unreadCount s = 0%Z /\
  (isRoundStarted s = true -> hasRoundEnded s = false) /\
  (forall e, roundEndTime s = Some e -> isRoundStarted s = true /\ ngt e (Fin (w_now w)) = true).

(** The same before the rounds of the room were looked at. *)
Definition just_entered w : Prop :=
  let s := w_room w in
  isInRoom s = true /\ roomNotice s = None /\ unreadCount s = 0%Z /\
  isRoundStarted s = false /\ roundEndTime s = None.

Lemma just_entered_in w : just_entered w -> in_active_room w.
Proof. unfold just_entered, in_active_room. intros (?&?&?&Hs&He). rewrite Hs, He. by repeat split. Qed.

#[export] Instance just_entered_proper : Proper (same_stores ==> iff) just_entered.
Proof. intros w w' Hw. unfold just_entered. by rewrite (w_room_proper _ _ Hw). Qed.

Lemma restoreRound_wp room w :
  just_entered w -> wp (restoreRound room) (fun r w' => is_ok r = true -> in_active_room w') w.
Proof.
  intros Hw. unfold restoreRound. destruct (prop room "rounds") as [| | | | |[|r0 rs]|];
    try (wp_step; intros _; by apply just_entered_in).
  set (r := last_elem (r0 :: rs)). unfold get.
  destruct (is_nullish r); [by repeat (wp_step; cbn)|]. repeat (wp_step; cbn).
  set (st := js_or (prop r "Status") (prop r "status")).
  set (du := js_or (prop r "duration") (prop r "Duration")).
  destruct Hw as (?&?&?&Hs&He).
  assert (Hx : is_str st "started" = true -> is_str st "ended" = false).
  { intros Hst%is_str_spec. by rewrite Hst. }
  destruct du; repeat (wp_step; cbn); intros _; unfold in_active_room; cbn;
    (repeat split); try done; intros; simplify_eq; auto; try congruence.
Qed.

Lemma restoreRoom_wp cap room w :
  wp (restoreRoom cap room) (fun r w' => is_ok r = true -> in_active_room w') w.
Proof.
  unfold restoreRoom, get. destruct (is_nullish room); [by repeat (wp_step; cbn)|].
  repeat (wp_step; cbn). eapply wp_mono; [apply setRoomParticipants_wp|].
  intros r w1 [-> [[ps H1] _]].
  assert (Hj : just_entered (with_room w1 (setRoomNotice (w_room w1) None))).
  { unfold just_entered. cbn. by rewrite (w_room_proper _ _ H1). }
  repeat (wp_step; cbn); apply pushRoute_wp; intros [b|e] w2 Hs _; try done;
    apply restoreRound_wp; rewrite Hs; apply Hj.
Qed.

(** *** That an active room is entered *)

(** The last round of the room is no [null], and the router does not fail. *)
Definition readable (room : Val) : Prop :=
  is_nullish room = false /\
  match prop room "rounds" with VArr (r :: rs) => is_nullish (last_elem (r :: rs)) = false | _ => True end.
Definition router_goes (w : World) : Prop := forall e, head (w_router w) <> Some (Throw e).

Lemma restoreRound_runs room w : readable room ->
  wp (restoreRound room) (fun r w' => r = Ok tt /\ roomId (w_room w') = roomId (w_room w)) w.
Proof.
  intros [_ Hr]. unfold restoreRound, get. destruct (prop room "rounds") as [| | | | |[|r0 rs]|]; try by wp_step.
  rewrite Hr. repeat (wp_step; cbn). destruct (js_or _ _); repeat (wp_step; cbn); done.
Qed.

Lemma push_goes route (Q : Res bool -> World -> Prop) w : router_goes w ->
  (forall b w', same_stores w' w -> Q (Ok b) w') -> wp (pushRoute route) Q w.
Proof.
  intros Hg HQ. unfold pushRoute, router_push, wp. js_exec. unfold router_goes in Hg.
  destruct (w_router w) as [|[b|e] l] eqn:E; cbn; [apply HQ; same_tac..|]. by destruct (Hg e).
Qed.

Lemma restoreRoom_runs cap room w : readable room -> router_goes w ->
  wp (restoreRoom cap room) (fun r w' => r = Ok tt /\ roomId (w_room w') = wire_str (prop room "id")) w.
Proof.
  intros Hr Hg. unfold restoreRoom, get. destruct (is_nullish room) eqn:Hn; [by destruct Hr; congruence|].
  repeat (wp_step; cbn).
  eapply wp_mono; [apply wp_and; [apply setRoomParticipants_wp|apply wp_steps, setRoomParticipants_router]|].
  intros r w1 [[-> [[ps H1] _]] H2].
  repeat (wp_step; cbn); apply push_goes; try (unfold router_goes; cbn; by rewrite H2);
    intros b w2 Hs; (eapply wp_mono; [by apply restoreRound_runs|]); intros r w3 [-> ->]; (split; [done|]);
    rewrite (w_room_proper _ _ Hs); cbn; by rewrite (w_room_proper _ _ H1).
Qed.

(** The server names a room, and then describes it. *)
Definition listed (net : list NetReply) (room : Val) : Prop :=
  exists d st v d' st' v' net', net = Reply d st (Some v) :: Reply d' st' (Some v') :: net' /\
    res_ok (mkResponse st (Some v)) = true /\ truthy (js_or (prop v "id") (prop v "roomID")) = true /\
    res_ok (mkResponse st' (Some v')) = true /\ prop v' "data" = room.

Lemma wp_fetch_reply r d st b net (Q : Res Response -> World -> Prop) w : w_net w = Reply d st b :: net ->
  Q (Ok (mkResponse st b)) (with_now (with_net (with_log w (w_log w ++ [EFetch r])) net) (w_now w + d)%Z) -> wp (fetch r) Q w.
Proof. intros Hn HQ. unfold wp, fetch. js_exec. rewrite Hn. exact HQ. Qed.

Lemma checkActiveRoom_enters cap room w : listed (w_net w) room -> readable room -> router_goes w ->
  wp (checkActiveRoom cap) (fun r w' => r = Ok true /\ roomId (w_room w') = wire_str (prop room "id")) w.
Proof.
  intros (d & st & v & d' & st' & v' & net & Hnet & Ho & Ht & Ho' & Hd) Hr Hg.
  unfold checkActiveRoom. cbn [checkActiveRoom_at]. do 4 wp_step.
  eapply wp_fetch_reply; [done|]. cbn.
  assert ((st =? 429)%Z = false) as -> by (unfold res_ok in Ho; cbn in Ho; js_bool; lia).
  unfold enterActiveRoom. rewrite Ho. cbn [negb]. unfold res_json at 1. cbn [body].
  assert (is_nullish v = false) as Hv by (by destruct v).
  assert (is_nullish v' = false) as Hv' by (destruct Hr as [Hr _]; subst room; by destruct v').
  unfold get. repeat (wp_step; cbn). rewrite Hv, Ht. cbn [negb].
  wp_step. eapply wp_fetch_reply; [done|]. cbn. rewrite Ho'. cbn.
  unfold res_json. cbn [body]. repeat (wp_step; cbn). rewrite Hv', Hd. wp_step.
  eapply wp_mono; [by apply restoreRoom_runs|]. intros r w' [-> Hid]. by wp_step.
Qed.

Lemma enterActiveRoom_wp cap base res w :
  wp (enterActiveRoom cap base res) (fun r w' => r = Ok true -> in_active_room w') w.
Proof.
  unfold enterActiveRoom, get. repeat (wp_step; cbn); try done.
  destruct (is_nullish v); [done|]. repeat (wp_step; cbn); try done.
  destruct (is_nullish _); [done|]. repeat (wp_step; cbn).
  eapply wp_mono; [apply restoreRoom_wp|]. intros [[]|e] w' Hr; [wp_step; intros _; by apply Hr|done].
Qed.

Lemma checkActiveRoom_at_wp cap n w :
  wp (checkActiveRoom_at cap n)
     (fun r w' => exists b, r = Ok b /\ (b = true -> in_active_room w')) w.
Proof.
  revert w; induction n as [|n IH]; intros w; cbn [checkActiveRoom_at]; wp_step;
    (eapply wp_mono with (Q := fun r w' => r = Ok true -> in_active_room w');
      [|intros [b|e] w' Hr; [exists b; split; [done|by intros ->; apply Hr]|repeat (wp_step; cbn); by exists false]]);
    repeat (wp_step; cbn); try done; try apply enterActiveRoom_wp.
  unfold sleep. repeat (wp_step; cbn). eapply wp_mono; [apply IH|].
  intros r w' (b' & -> & Hb) [= ->]. auto.
Qed.

Definition is_429 (a : NetReply) : bool := match a with Reply _ st _ => (st =? 429)%Z | NetFail _ => false end.

(** The pauses before the last [n] retries. *)
Definition backoff (n : nat) : list Z := drop (3 - n) [1000; 2000; 4000]%Z.

(** What [checkActiveRoom] logs while it is refused: a request, and another one after
    each of the pauses. *)
Fixpoint polling (u : string) (pauses : list Z) : list Effect :=
  EFetch (get_req (u +:+ "/rooms/active")) ::
  match pauses with [] => [] | ms :: l => ESleep ms :: polling u l end.

(** The rest of the log, after the answer that is the last: it pauses no more, and requests
    at most the room and its participants, and nothing unless the answer was accepted. *)
Definition settled (net : list NetReply) (k : nat) (rest : list Effect) : Prop :=
  sleeps rest = [] /\ length (requests rest) <= 2 /\ ((forall v, ~ accepted net k v) -> requests rest = []).

Lemma settled_console net k rest m : settled net k rest -> settled net k (rest ++ [EConsole m]).
Proof.
  intros (Hs & Hl & Hn). unfold settled. rewrite sleeps_app, Hs, requests_console. by split_and!.
Qed.

(** The room is entered with one request, for the participants. *)
Lemma restoreRoom_requests cap room w :
  wp (restoreRoom cap room) (fun _ w' => exists l, requests (w_log w') = requests (w_log w) ++ l /\ length l <= 1) w.
Proof.
  assert (Hr : forall w0, wp (restoreRound room) (fun _ w' => requests (w_log w') = requests (w_log w0)) w0).
  { intros w0. assert (Hl : logs (fun e => match e with EFetch _ => False | _ => True end) (restoreRound room)).
    { unfold restoreRound. destruct (prop room "rounds") as [| | | | |[|]|]; logs_tac. }
    destruct (Hl w0) as (l & Hw & Hp). unfold wp. rewrite Hw, requests_app. clear Hw.
    induction Hp as [|[] l Hx Hp IH]; [by rewrite app_nil_r|try done..]. }
  unfold restoreRoom, get. destruct (is_nullish room).
  { repeat (wp_step; cbn). exists []. rewrite app_nil_r. by split; [|cbn; lia]. }
  repeat (wp_step; cbn). apply setRoomParticipants_then. intros w1 [_ H2] _. cbn in H2.
  repeat (wp_step; cbn); apply pushRoute_wp; intros [b|e] w2 Hs Hl; cbn in Hl;
    rewrite ?requests_console, H2 in Hl;
    try (eapply wp_mono; [apply Hr|]; intros r w3 ->); rewrite Hl; eexists; (split; [done|cbn; lia]).
Qed.

Lemma enterActiveRoom_requests cap base res w :
  wp (enterActiveRoom cap base res) (fun _ w' => exists l, requests (w_log w') = requests (w_log w) ++ l /\
    length l <= 2 /\ (res_ok res = false -> l = [])) w.
Proof.
  unfold enterActiveRoom, get. destruct (res_ok res) eqn:Ho; cbn [negb].
  2: { repeat (wp_step; cbn). exists []. rewrite app_nil_r. split_and!; [done|cbn; lia|done]. }
  assert (Hnone : forall w0, exists l, requests (w_log w0) = requests (w_log w0) ++ l /\ length l <= 2 /\ (true = false -> l = [])).
  { intros w0. exists []. rewrite app_nil_r. split_and!; [done|cbn; lia|done]. }
  assert (Hone : forall w0 r, exists l, requests (w_log w0 ++ [EFetch r]) = requests (w_log w0) ++ l /\ length l <= 2 /\ (true = false -> l = [])).
  { intros w0 r. exists [r]. rewrite requests_fetch. split_and!; [done|cbn; lia|done]. }
  repeat (wp_step; cbn); auto.
  destruct (is_nullish v) eqn:Hv; [by apply Hnone|]. repeat (wp_step; cbn); auto.
  destruct (is_nullish v0); [by auto|]. repeat (wp_step; cbn).
  eapply wp_mono; [apply restoreRoom_requests|]. intros [[]|e] w' (l & Hl & Hn); [wp_step|];
    (eexists; split; [rewrite Hl; cbn; rewrite requests_fetch, <- app_assoc; reflexivity|]);
    (split; [cbn; lia|done]).
Qed.

Lemma enterActiveRoom_settled cap base res w net k : (res_ok res = true -> exists v, accepted net k v) ->
  wp (enterActiveRoom cap base res) (fun _ w' => exists rest, w_log w' = w_log w ++ rest /\ settled net k rest) w.
Proof.
  intros Hok.
  assert (Hl : logs (fun e => match e with ESleep _ => False | _ => True end) (enterActiveRoom cap base res)) by logs_tac.
  destruct (Hl w) as (rest & Hw & Hp). exists rest. split; [done|].
  destruct (enterActiveRoom_requests cap base res w) as (l & Hr & Hn & Hnone).
  rewrite Hw, requests_app in Hr. apply app_inv_head in Hr as <-. split; [|split; [done|]].
  - clear -Hp. induction Hp as [|[] l Hx Hp IH]; done.
  - intros Hna. apply Hnone. destruct (res_ok res); [|done]. destruct (Hok eq_refl) as (v & Hv). by destruct (Hna v).
Qed.

(** A request that is not answered by 429 is the last, and one that is answered by 429 is
    repeated after the next pause. *)
Definition attempts cap n w : Prop :=
  exists k rest, k <= n /\
    w_log (checkActiveRoom_at cap n w).2 = w_log w ++ polling (w_serverUrl w) (take k (backoff n)) ++ rest /\
    Forall (fun a => is_429 a = true) (take k (w_net w)) /\
    (k < n -> forall a, w_net w !! k = Some a -> is_429 a = false) /\
    settled (w_net w) k rest.

(** An attempt that is not repeated does not pause. *)
Lemma attempt_last cap n w :
  n = 0 \/ (forall a, head (w_net w) = Some a -> is_429 a = false) ->
  wp (checkActiveRoom_at cap n) (fun _ w' => exists rest,
    w_log w' = w_log w ++ polling (w_serverUrl w) [] ++ rest /\ settled (w_net w) 0 rest) w.
Proof.
  intros Hn. set (P := fun w' : World => exists rest,
    w_log w' = w_log w ++ polling (w_serverUrl w) [] ++ rest /\ settled (w_net w) 0 rest).
  assert (He : forall base res w0, w_log w0 = w_log w ++ polling (w_serverUrl w) [] ->
    (res_ok res = true -> exists v, accepted (w_net w) 0 v) -> wp (enterActiveRoom cap base res) (fun _ => P) w0).
  { intros base res w0 Hw0 Hok. eapply wp_mono; [by apply (enterActiveRoom_settled cap base res w0 (w_net w) 0)|].
    intros _ w' (rest & Hw' & Hs). exists rest. split; [|done]. by rewrite Hw', Hw0, <- app_assoc. }
  assert (Hf : P (with_log w (w_log w ++ [EFetch (get_req (w_serverUrl w +:+ "/rooms/active"))]))).
  { exists []. split; [done|]. split_and!; [done|unfold requests; cbn; lia|done]. }
  destruct n as [|n]; cbn [checkActiveRoom_at]; wp_step;
    (eapply wp_mono with (Q := fun _ => P);
     [|intros [b|e] w' Hr; [done|repeat (wp_step; cbn)];
       destruct Hr as (rest & Hl & Hs); exists (rest ++ [EConsole "Failed to check active room"]);
       cbn; rewrite Hl, <- !app_assoc; split; [done|by apply settled_console]]);
    repeat (wp_step; cbn); try exact Hf; try (apply He; [done|]);
    try (intros Ho; exists (default VNull b); eapply accepted_reply; [by rewrite H1|by rewrite Ho]).
  destruct Hn as [?|Hn]; [done|]. rewrite H1 in Hn. specialize (Hn _ eq_refl). cbn in *. congruence.
Qed.

(** An attempt that is answered by 429 is repeated after the pause. *)
Lemma attempt_again cap n w d st b net :
  w_net w = Reply d st b :: net -> (st =? 429)%Z = true ->
  exists w1, w_net w1 = net /\ w_serverUrl w1 = w_serverUrl w /\
    w_log w1 = w_log w ++ [EFetch (get_req (w_serverUrl w +:+ "/rooms/active")); ESleep (1000 * 2 ^ Z.of_nat (3 - S n))%Z] /\
    checkActiveRoom_at cap (S n) w = checkActiveRoom_at cap n w1.
Proof.
  intros Hw Hst. pose (ms := (1000 * 2 ^ Z.of_nat (3 - S n))%Z).
  pose (w0 := with_now (with_net (with_log w (w_log w ++
    [EFetch (get_req (w_serverUrl w +:+ "/rooms/active"))])) net) (w_now w + d)%Z).
  exists (with_now (with_log w0 (w_log w0 ++ [ESleep ms])) (w_now w0 + ms)%Z).
  split; [done|]. split; [done|]. split; [cbn; by rewrite <- app_assoc|].
  cbn [checkActiveRoom_at]. unfold try_catch, getServerUrl, read, mbind at 1, m_bind at 1.
  unfold mbind at 1, m_bind at 1, fetch, emit, modify, act, mbind at 1, m_bind at 1. cbn.
  rewrite Hw. cbn. rewrite Hst. subst ms w0. cbn.
  unfold sleep, emit, modify, mbind, m_bind. cbn.
  match goal with |- context [checkActiveRoom_at cap n ?w1] =>
    destruct (checkActiveRoom_at_wp cap n w1) as (b' & Hb & _);
    destruct (checkActiveRoom_at cap n w1) as [r w2]; cbn in *; by subst r end.
Qed.

Lemma attempts_last cap n w : n <= 3 ->
  n = 0 \/ (forall a, head (w_net w) = Some a -> is_429 a = false) -> attempts cap n w.
Proof.
  intros Hn Hl. destruct (attempt_last cap n w Hl) as (rest & Hw & Hs). exists 0, rest.
  split_and!; [lia|exact Hw|constructor| |done].
  intros Hlt a Ha. destruct Hl as [->|Hl]; [lia|]. apply Hl. by destruct (w_net w).
Qed.

Lemma attempts_all cap n w : n <= 3 -> attempts cap n w.
Proof.
  revert w; induction n as [|n IH]; intros w Hn; [by apply attempts_last; [|left]|].
  destruct (w_net w) as [|a net] eqn:Hw; [apply attempts_last; [done|right; by rewrite Hw]|].
  destruct (is_429 a) eqn:Ha; [|apply attempts_last; [done|right; rewrite Hw; by intros ? [= <-]]].
  destruct a as [e|d st b]; [done|].
  destruct (attempt_again cap n w d st b net Hw Ha) as (w1 & Hn1 & Hu1 & Hl1 & He).
  destruct (IH w1) as (k & rest & Hk & Hlog & Hf & Hlast & Hs); [lia|]. exists (S k), rest.
  rewrite He, Hlog, Hl1, Hw, <- Hn1, Hu1. split_and!; [lia| |by constructor| |].
  - rewrite <- !app_assoc. f_equal. unfold backoff. destruct n as [|[|[|]]]; [reflexivity..|lia].
  - intros Hlt. exact (Hlast ltac:(lia)).
  - destruct Hs as (?&?&Hnone). split_and!; [done..|]. intros Hna. apply Hnone. intros v Hv. by apply (Hna v).
Qed.
(** ** Theorems *)

(** C5: joinRoom ends, on every behaviour of server and router, in one of
  three ways and never by a throw.  When the server did not accept the request with the data
  of a room: a failure with a non-empty message after the join request alone, which leaves every
  store as it was.  When it did, the participants are requested second and last and the room store holds
  the ids of the response, no round, no notice and no unread messages; then, when the router fails with
  anything but a cancelled navigation, the result is a failure and the storage does not remember the room;
  when it does not, the result is success, and the storage remembers it. *)
Theorem joinRoom_outcome (cap : UserState) (code : string) (w : World) :
  join_outcome cap code w (joinRoom cap code w).1 (joinRoom cap code w).2.
Proof.
  change (wp (joinRoom cap code) (join_outcome cap code w) w).
  unfold joinRoom. wp_step.
  eapply wp_mono with (Q := fun r => join_outcome cap code w
       (match r with Ok a => Ok a | Throw _ => Ok (Failure "Failed to join room. Please try again.") end)).
  - repeat (wp_step; cbn); try join_refusal.
    apply parseJsonSafe_wp. repeat (wp_step; cbn); [join_refusal|].
    assert (Ha : accepted (w_net w) 0 (default VNull b)) by (by eapply accepted_reply; [rewrite H1|]).
    unfold get. destruct (is_nullish (default VNull b)) eqn:Hn.
    { eapply join_refused; [done|intros; eapply nullish_data; [done|by destruct (default VNull b)]|done|cbn; by rewrite requests_fetch]. }
    apply joinRoom_enter; [by eexists|done|cbn; by rewrite requests_fetch|done|done].
  - intros [r|e] w' Hr; [done|]. repeat (wp_step; cbn). by apply join_outcome_console.
Qed.

(** C2: createRoom never throws.  It issues the requests for the room, its
    round, the join and the participants in this order, each only after the
    server accepted the one before.  It ends after none of them only when there are no options, after
    the first only when the server did not accept it with the data of a room, and after the second or
    third only when the server did not accept that one; the result is then a failure with a non-empty
    message and every store is as it was.  Otherwise the room store holds the new
    room and the duration that was sent for its round, the storage remembers
    the room, and the result is a failure when the router fails with anything but a cancelled navigation, and
    success when it does not. *)
Theorem createRoom_outcome (cap : UserState) (code : string) (options : Val) (w : World) :
  create_outcome cap code options w (createRoom cap code options w).1 (createRoom cap code options w).2.
Proof.
  change (wp (createRoom cap code options) (create_outcome cap code options w) w).
  unfold createRoom. wp_step.
  eapply wp_mono with (Q := fun r => create_outcome cap code options w (create_fallback r)).
  - unfold get. destruct (is_nullish options) eqn:Hno.
    { repeat (wp_step; cbn). refused 0 VUndef VUndef. }
    repeat (wp_step; cbn); try refused 1 VUndef VUndef.
    apply parseJsonSafe_wp. repeat (wp_step; cbn); try refused 1 VUndef VUndef.
    assert (Hb : accepted (w_net w) 0 (default VNull b)) by (by eapply accepted_reply; [rewrite H1|]).
    destruct (is_nullish (default VNull b)) eqn:Hv.
    { assert (Hdat : is_nullish (prop (default VNull b) "data") = true) by (by destruct (default VNull b)).
      refused 1 VUndef VUndef. }
    repeat (wp_step; cbn). destruct (is_nullish (prop (default VNull b) "data")) eqn:Hnd; [refused 1 VUndef VUndef|].
    set (dat := prop (default VNull b) "data") in *.
    assert (Hroom : accepted_room (w_net w) dat) by (by eexists).
    repeat (wp_step; cbn).
    destruct (options_given options Hno) as (params & Hp). rewrite Hp.
    repeat (wp_step; cbn); try refused 2 dat params.
    apply parseJsonSafe_wp. wp_step; [wp_step; refused 2 dat params|].
    cbn in *. subst net.
    match goal with H : negb (res_ok (mkResponse ?st ?b)) = false, H' : w_net w = _ :: Reply ?d ?st ?b :: _ |- _ =>
      assert (Hround : accepted (w_net w) 1 (default VNull b)) by (by eapply accepted_reply; [rewrite H'|]) end.
    wp_step. apply wp_fetch; cbn; [intros ?; refused 3 dat params|intros e net ?; refused 3 dat params|].
    intros d1 st1 b1 net Hnet. apply wp_if; intros Hj; [wp_step; apply parseJsonSafe_wp; wp_step; refused 3 dat params|].
    apply createRoom_enter; [done..| |done|done|done|cbn; by rewrite !requests_fetch, <- !app_assoc].
    eexists. eapply accepted_reply; [by rewrite H1, Hnet|done].
  - intros [r|e] w' Hr; [done|]. repeat (wp_step; cbn). by apply create_outcome_console.
Qed.

(** C6: checkActiveRoom never throws, and answers truly.  When it answers that the user is in an
    active room, the room store says so, without a notice or unread messages,
    its round has not both started and ended, and an end time is set only for a
    started round and only if it still lies in the future.  When the server names a room and
    describes it, and the router moves, it answers so, and the store is in that room. *)
Theorem checkActiveRoom_sound (cap : UserState) (w : World) :
  exists b, (checkActiveRoom cap w).1 = Ok b /\
    (b = true -> in_active_room (checkActiveRoom cap w).2) /\
    (forall room, listed (w_net w) room -> readable room -> router_goes w ->
       b = true /\ roomId (w_room (checkActiveRoom cap w).2) = wire_str (prop room "id")).
Proof.
  destruct (checkActiveRoom_at_wp cap 3 w) as (b & Hb & Ha). exists b. split; [done|]. split; [done|].
  intros room Hl Hr Hg. destruct (checkActiveRoom_enters cap room w Hl Hr Hg) as [Ht Hid].
  split; [|done]. unfold checkActiveRoom in Ht. congruence.
Qed.

(** C33: checkActiveRoom repeats its request only while the server answers 429
    and at most three times.  Its log is the request, and after each of the first [k]
    pauses, of 1, 2 and 4 seconds in this order, the request again, where [k] is the number of leading
    answers 429, up to 3.  Whatever it does then, it pauses no more and issues at most two other requests,
    and none when the last answer did not accept the request. *)
Theorem checkActiveRoom_backoff (cap : UserState) (w : World) :
  exists k rest, k <= 3 /\
    w_log (checkActiveRoom cap w).2 = w_log w ++ polling (w_serverUrl w) (take k [1000; 2000; 4000]%Z) ++ rest /\
    Forall (fun a => is_429 a = true) (take k (w_net w)) /\
    (k < 3 -> forall a, w_net w !! k = Some a -> is_429 a = false) /\
    settled (w_net w) k rest.
Proof. exact (attempts_all cap 3 w ltac:(lia)). Qed.

End lemmas.
