(* ===== verification/ChatSocket.v ===== *)
(** * The chat and event socket

    [hooks/useChatSocket.ts]: the WebSocket connection, the join protocol, the
    dispatch of the frames of rtc-service, the composer and the scroll state.
    The state of a handler is the shared world and the hook's own state [Chat];
    the handlers of a connection are closures over the user and the room of the
    render that opened it, here the field [c_cap].  Of a connection that was
    replaced while it was closing only the close event is still to come ([c_stale]).  A callback that the source
    defers by one animation frame or one task is run at once. *)

From S2P Require Export Wp.

Definition MAX_CHARS : nat := 500.

(** The fields hold what the frame carried, whatever its type. *)
Record Message := mkMessage {
  userHandle : Val;
  userName : Val;
  userPhoto : Val;
  m_data : Val;
  m_roomID : Val;
  isSystem : bool;
}.

Inductive ReadyState := CONNECTING | OPEN | CLOSING | CLOSED.
#[export] Instance ReadyState_eq_dec : EqDecision ReadyState.
Proof. solve_decision. Defined.

(** The parts of the text area, of a scrolling element and of the emoji menu
    that the hook reads and writes. *)
Record TextArea := mkTextArea {
  selectionStart : nat;
  selectionEnd : nat;
  ta_scrollHeight : Z;
  ta_height : string;
  ta_focused : bool;
}.
Record ScrollBox := mkScrollBox { scrollHeight : Z; clientHeight : Z; scrollTop : Z; offsetTop : Z }.

(** The refs and the state of [useChatSocket]. *)
Record Chat := mkChat {
  c_cap : UserState * option string;   (* captured by the open connection *)
  c_sock : option ReadyState;          (* socketRef *)
  c_pendingRoom : option string;       (* pendingRoomIDRef *)
  c_joinedRoom : option string;        (* joinedRoomIDRef *)
  c_suppress : bool;                   (* suppressChatSoundsRef *)
  c_pendingMessage : option string;    (* pendingMessageRef *)
  c_messages : list Message;
  c_inputText : string;
  c_showJump : bool;
  c_atLimit : bool;
  c_timer : option Z;                  (* atLimitTimeoutRef: when it fires *)
  c_toast : Val;
  c_emojiSearch : string;
  c_isAtBottom : bool;
  c_input : option TextArea;           (* inputRef *)
  c_chat : option ScrollBox;           (* chatRef *)
  c_menu : option ScrollBox;           (* emojiMenuRef *)
  c_categories : gmap string ScrollBox; (* categoryRefs *)
  c_renderError : option Val;          (* thrown by a state updater while rendering *)
  c_stale : nat;  (* replaced connections whose close event has not been delivered *)
}.

Definition chatInit (input : option TextArea) (chat menu : option ScrollBox) (cats : gmap string ScrollBox) : Chat := {|
  c_cap := (userStoreInit, None); c_sock := None; c_pendingRoom := None; c_joinedRoom := None; c_suppress := false;
  c_pendingMessage := None; c_messages := []; c_inputText := ""; c_showJump := false;
  c_atLimit := false; c_timer := None; c_toast := VNull; c_emojiSearch := ""; c_isAtBottom := true;
  c_input := input; c_chat := chat; c_menu := menu; c_categories := cats; c_renderError := None; c_stale := 0;
|}.

(** Writes of one ref or one state variable. *)
Section chat_updates.
Context (c : Chat).
Definition on_sock a b p j s := mkChat a b p j s (c_pendingMessage c) (c_messages c) (c_inputText c) (c_showJump c) (c_atLimit c) (c_timer c) (c_toast c) (c_emojiSearch c) (c_isAtBottom c) (c_input c) (c_chat c) (c_menu c) (c_categories c) (c_renderError c) (c_stale c).
Definition set_sock a b := on_sock a b (c_pendingRoom c) (c_joinedRoom c) (c_suppress c).
Definition set_pendingRoom v := on_sock (c_cap c) (c_sock c) v (c_joinedRoom c) (c_suppress c).
Definition set_joinedRoom v := on_sock (c_cap c) (c_sock c) (c_pendingRoom c) v (c_suppress c).
Definition set_suppress v := on_sock (c_cap c) (c_sock c) (c_pendingRoom c) (c_joinedRoom c) v.
Definition on_text p m i a t := mkChat (c_cap c) (c_sock c) (c_pendingRoom c) (c_joinedRoom c) (c_suppress c) p m i (c_showJump c) a t (c_toast c) (c_emojiSearch c) (c_isAtBottom c) (c_input c) (c_chat c) (c_menu c) (c_categories c) (c_renderError c) (c_stale c).
Definition set_pendingMessage v := on_text v (c_messages c) (c_inputText c) (c_atLimit c) (c_timer c).
Definition set_messages v := on_text (c_pendingMessage c) v (c_inputText c) (c_atLimit c) (c_timer c).
Definition setInputText v := on_text (c_pendingMessage c) (c_messages c) v (c_atLimit c) (c_timer c).
Definition setAtLimit v := on_text (c_pendingMessage c) (c_messages c) (c_inputText c) v (c_timer c).
Definition set_timer v := on_text (c_pendingMessage c) (c_messages c) (c_inputText c) (c_atLimit c) v.
Definition on_view j t e b i ch me er := mkChat (c_cap c) (c_sock c) (c_pendingRoom c) (c_joinedRoom c) (c_suppress c) (c_pendingMessage c) (c_messages c) (c_inputText c) j (c_atLimit c) (c_timer c) t e b i ch me (c_categories c) er (c_stale c).
Definition setShowJump v := on_view v (c_toast c) (c_emojiSearch c) (c_isAtBottom c) (c_input c) (c_chat c) (c_menu c) (c_renderError c).
Definition setToastMessage v := on_view (c_showJump c) v (c_emojiSearch c) (c_isAtBottom c) (c_input c) (c_chat c) (c_menu c) (c_renderError c).
Definition setEmojiSearch v := on_view (c_showJump c) (c_toast c) v (c_isAtBottom c) (c_input c) (c_chat c) (c_menu c) (c_renderError c).
Definition set_isAtBottom v := on_view (c_showJump c) (c_toast c) (c_emojiSearch c) v (c_input c) (c_chat c) (c_menu c) (c_renderError c).
Definition set_input v := on_view (c_showJump c) (c_toast c) (c_emojiSearch c) (c_isAtBottom c) v (c_chat c) (c_menu c) (c_renderError c).
Definition set_chat v := on_view (c_showJump c) (c_toast c) (c_emojiSearch c) (c_isAtBottom c) (c_input c) v (c_menu c) (c_renderError c).
Definition set_menu v := on_view (c_showJump c) (c_toast c) (c_emojiSearch c) (c_isAtBottom c) (c_input c) (c_chat c) v (c_renderError c).
Definition set_renderError v := on_view (c_showJump c) (c_toast c) (c_emojiSearch c) (c_isAtBottom c) (c_input c) (c_chat c) (c_menu c) v.
Definition set_stale v := mkChat (c_cap c) (c_sock c) (c_pendingRoom c) (c_joinedRoom c) (c_suppress c) (c_pendingMessage c) (c_messages c) (c_inputText c) (c_showJump c) (c_atLimit c) (c_timer c) (c_toast c) (c_emojiSearch c) (c_isAtBottom c) (c_input c) (c_chat c) (c_menu c) (c_categories c) (c_renderError c) v.
End chat_updates.

(** The browser clamps what is assigned to [scrollTop]. *)
Definition scrollTo (b : ScrollBox) (top : Z) : ScrollBox :=
  mkScrollBox (scrollHeight b) (clientHeight b)
    (Z.max 0 (Z.min top (scrollHeight b - clientHeight b))) (offsetTop b).

(** ** Handlers of the hook *)

Abbreviation CH := (M (World * Chat)).

(** A handler of the shared world. *)
Definition io {A} (m : IO A) : CH A := zoom fst (fun w s => (w, s.2)) m.
Definition chat_get {A} (f : Chat -> A) : CH A := read (fun s => f s.2).
Definition on_chat (f : Chat -> Chat) : CH unit := modify (fun s => (s.1, f s.2)).

(** [setMessages(prev => [...prev, msg])].  The updater reads the message when
    it is run for a render: what it throws then is not caught by the handler. *)
Definition appendMessage (msg : Res Message) : CH unit :=
  on_chat (fun c => match msg with
                    | Ok m => set_messages c (c_messages c ++ [m])
                    | Throw e => set_renderError c (Some e)
                    end).

Definition playChatSound (filename : string) : CH unit :=
  url ← io (read (fun w => has_runtime (w_platform w) && has_getURL (w_platform w)));
  enabled ← io (read (fun w => chatNotificationsEnabled (w_settings w)));
  when (url && enabled) (io (emit (ESound filename))).

Definition isChatVisible (w : World) : bool :=
  bool_decide (activeTab (w_room w) = chat) && negb (isFolded (w_panel w)).

(** [inputRef.current.style.height = 'auto'] *)
Definition resetHeight : CH unit :=
  on_chat (fun c => match c_input c with
    | Some t => set_input c (Some (mkTextArea (selectionStart t) (selectionEnd t) (ta_scrollHeight t) "auto" (ta_focused t)))
    | None => c end).

Definition adjustHeight : CH unit :=
  on_chat (fun c => match c_input c with
    | Some t => set_input c (Some (mkTextArea (selectionStart t) (selectionEnd t) (ta_scrollHeight t)
                                      (z_str (ta_scrollHeight t) +:+ "px") (ta_focused t)))
    | None => c end).

(** [chat.scrollHeight - (chat.clientHeight + chat.scrollTop)] *)
Definition belowView (b : ScrollBox) : Z := (scrollHeight b - (clientHeight b + scrollTop b))%Z.

Section useChatSocket.
Context `{JsonCodec}.

(** *** The connection *)

(** The frame of a join request. *)
Definition joinFrame (cap : UserState) (uid roomID : string) : string :=
  json_stringify (VObj [
    ("name", VStr uid);
    ("request-type", VStr "join-room");
    ("data", VStr (json_stringify (VObj [
       ("userHandle", VStr uid); ("userName", of_opt (username cap)); ("roomID", VStr roomID)])))]).

(** The effect that opens the connection, run with the user and the room of
    its render.  A connection before it that is still closing is replaced: its close
    event comes later, when [socketRef] holds the new one. *)
Definition connect (cap : UserState) (roomId : option string) : CH unit :=
  if negb (opt_truthy (userId cap)) then mret tt else
  io getRtcUrl ;;
  on_chat (fun c => match c_sock c with Some CLOSING => set_stale c (S (c_stale c)) | _ => c end) ;;
  on_chat (fun c => set_sock c (cap, roomId) (Some CONNECTING)).

(** Its cleanup, [ws.close()]: nothing happens to a connection that is closing or closed. *)
Definition disconnect : CH unit :=
  s ← chat_get c_sock;
  match s with
  | Some CONNECTING | Some OPEN => on_chat (fun c => set_sock c (c_cap c) (Some CLOSING)) ;; io (emit EClose)
  | _ => mret tt
  end.

(** The user changed: React runs the cleanup of the last run of the effect, then the effect. *)
Definition reopen (cap : UserState) (roomId : option string) : CH unit :=
  disconnect ;; connect cap roomId.

Definition onopen : CH unit :=
  on_chat (fun c => set_sock c (c_cap c) (Some OPEN)) ;;
  io (on_room (fun s => setIsConnected s true)) ;;
  '(cap, roomId) ← chat_get c_cap;
  pending ← chat_get c_pendingRoom;
  let targetRoomID := if opt_truthy pending then pending else roomId in
  match userId cap, targetRoomID with
  | Some uid, Some target =>
      if String.eqb uid "" || String.eqb target "" then mret tt else
      joined ← chat_get c_joinedRoom;
      if bool_decide (joined = Some target) then mret tt else
      on_chat (fun c => set_suppress c true) ;;
      io (emit (ESend (joinFrame cap uid target))) ;;
      on_chat (fun c => set_joinedRoom c (Some target))
  | _, _ => mret tt
  end.

Definition onclose : CH unit :=
  on_chat (fun c => set_sock c (c_cap c) (Some CLOSED)) ;;
  io (on_room (fun s => setIsConnected s false)) ;;
  on_chat (fun c => set_joinedRoom c None).

(** The close event of a connection that was replaced runs the same callback, which
    does not ask whose event it is. *)
Definition stale_onclose : CH unit :=
  on_chat (fun c => set_stale c (pred (c_stale c))) ;;
  io (on_room (fun s => setIsConnected s false)) ;;
  on_chat (fun c => set_joinedRoom c None).

Definition joinChatRoom (roomID : string) : CH unit :=
  on_chat (fun c => set_suppress c true) ;;
  io (on_room clearUnread) ;;
  joined ← chat_get c_joinedRoom;
  if bool_decide (joined = Some roomID) then on_chat (fun c => set_pendingRoom c (Some roomID)) else
  on_chat (fun c => set_messages c []) ;;
  io (on_room (fun s => setLastGameEvent s None)) ;;
  on_chat (fun c => set_pendingRoom c (Some roomID)) ;;
  '(cap, _) ← chat_get c_cap;
  sock ← chat_get c_sock;
  match userId cap with
  | Some uid =>
      when (bool_decide (sock = Some OPEN) && negb (String.eqb uid ""))
        (on_chat (fun c => set_suppress c true) ;;
         io (emit (ESend (joinFrame cap uid roomID))) ;;
         on_chat (fun c => set_joinedRoom c (Some roomID)))
  | None => mret tt
  end.

(** *** Frames of rtc-service *)

(** A line that no user wrote; it has neither a user name nor a photo. *)
Definition systemMessage (d roomID : Val) : Message :=
  mkMessage (VStr "System") VUndef VUndef d roomID true.

Definition lastEvent (t : GameEventType) (d : Val) : CH unit :=
  now ← io date_now;
  io (on_room (fun s => setLastGameEvent s (Some (mkGameEvent t d now)))).

Definition onChatMessage (message : Val) : CH unit :=
  text ← lift (get message "message");
  let messageText := js_or text (prop message "data") in
  appendMessage (Ok (mkMessage (prop message "userHandle") (prop message "userName")
    (prop message "userPhoto") messageText (prop message "roomID") false)) ;;
  '(cap, _) ← chat_get c_cap;
  let own := eq_opt (prop message "userHandle") (userId cap) in
  pending ← chat_get c_pendingMessage;
  when (own && eq_opt messageText pending)
    (on_chat (fun c => set_pendingMessage c None) ;;
     on_chat (fun c => setInputText c "") ;;
     resetHeight) ;;
  suppress ← chat_get c_suppress;
  when (negb suppress)
    (if own then playChatSound "message-sent.mp3" else playChatSound "message-recieved.mp3") ;;
  visible ← io (read isChatVisible);
  when (negb suppress && negb own && negb visible) (io (on_room incrementUnread)).

Definition onMembership (joined : bool) (message : Val) : CH unit :=
  now ← io date_now;
  io (on_room (fun s => setLastParticipantJoinTime s (Some now))) ;;
  let messageData := js_or (get_opt message "data") (VStr "") in
  when joined (on_chat (fun c => set_suppress c false)) ;;
  when (truthy messageData)
    (appendMessage (roomID ← get message "roomID"; Ok (systemMessage messageData roomID))).

Definition onAnnouncement (message : Val) : CH unit :=
  appendMessage (roomID ← get message "roomID";
                 Ok (systemMessage (js_or (get_opt message "data") (VStr "")) roomID)).

(** [JSON.parse(message?.data || '{}')] *)
Definition parsedData (message : Val) : Res Val :=
  json_parse (to_str (js_or (get_opt message "data") (VStr "{}"))).

Definition onAdminChange (message : Val) : CH unit :=
  try_catch
    (data ← lift (parsedData message);
     newAdminId ← lift (get data "adminId");
     when (truthy newAdminId)
       (io (on_room (fun s => setAdminId s (wire_str newAdminId))) ;;
        currentUserId ← io (user_get userId);
        io (on_room (fun s => setIsAdmin s (eq_opt newAdminId currentUserId))) ;;
        now ← io date_now;
        io (on_room (fun s => setLastParticipantJoinTime s (Some now)))) ;;
     appendMessage (roomID ← get message "roomID";
       Ok (systemMessage (js_or (prop data "message") (VStr "The room admin has changed.")) roomID)))
    (fun _ => io (console "Failed to parse admin-change data")).

Definition onRoundStart (message : Val) : CH unit :=
  try_catch
    (d ← lift (get message "data");
     parsedData ← lift (json_parse (to_str d));
     lastEvent round_start parsedData)
    (fun _ => d ← lift (get message "data"); lastEvent round_start d).

Definition onRoundEnd (message : Val) : CH unit :=
  d ← lift (get message "data"); lastEvent round_end d.

Definition onRoundJoin (message : Val) : CH unit :=
  data ← lift (parsedData message);
  appendMessage (
    uname ← get data "userName";
    roomID ← get message "roomID";
    Ok (systemMessage (VStr (to_str (js_or uname (prop data "userID")) +:+ " joined the round")) roomID)) ;;
  lastEvent join_round data.

Definition onNextProblem (message : Val) : CH unit :=
  try_catch
    (d ← lift (get message "data");
     parsedData ← lift (json_parse (to_str d));
     lastEvent next_problem parsedData)
    (fun _ => io (console "Failed to parse next-problem data")).

Definition dispatch (response : Val) : CH unit :=
  st ← lift (get response "status");
  if is_str st "ok" then
    let message := prop response "message" in
    let responseType := prop response "responseType" in
    if is_str responseType "chat-message" then onChatMessage message
    else if is_str responseType "user-joined" || is_str responseType "user-left"
    then onMembership (is_str responseType "user-joined") message
    else if is_str responseType "system-announcement" then onAnnouncement message
    else if is_str responseType "admin-change" then onAdminChange message
    else if is_str responseType "round-start" then onRoundStart message
    else if is_str responseType "round-end" then onRoundEnd message
    else if is_str responseType "round-join" then onRoundJoin message
    else if is_str responseType "next-problem" then onNextProblem message
    else mret tt
  else if is_str st "error" then
    io (console "RTC Error:") ;;
    when (is_str (prop response "responseType") "chat-message")
      (on_chat (fun c => set_pendingMessage c None) ;;
       on_chat (fun c => setToastMessage c
         (js_or (get_opt (prop response "message") "data") (VStr "Unable to send message."))))
  else mret tt.

Definition onmessage (frame : string) : CH unit :=
  try_catch (response ← lift (json_parse frame); dispatch response)
    (fun _ => io (console "Failed to parse WS message")).

(** *** The composer *)

Definition chatFrame (cap : UserState) (uid roomID text : string) : string :=
  json_stringify (VObj [
    ("name", VStr uid);
    ("request-type", VStr "chat-message");
    ("data", VStr (json_stringify (VObj [
       ("userHandle", VStr uid); ("userName", of_opt (username cap)); ("userPhoto", of_opt (iconUrl cap));
       ("roomID", VStr roomID); ("message", VStr text)])))]).

(** Run with the user and the room of the current render. *)
Definition handleSubmit : CH unit :=
  cap ← io (read w_user);
  rid ← io (room_get roomId);
  box ← chat_get c_chat; textArea ← chat_get c_input; inputText ← chat_get c_inputText;
  match rid with None => mret tt | Some rid =>
  match box with None => mret tt | Some box =>
  match textArea with None => mret tt | Some _ =>
    let text := trim inputText in
    if String.eqb rid "" || String.eqb text "" then mret tt else
    on_chat (fun c => setToastMessage c VNull) ;;
    sock ← chat_get c_sock;
    match userId cap with
    | Some uid =>
        when (bool_decide (sock = Some OPEN) && negb (String.eqb uid ""))
          (io (emit (ESend (chatFrame cap uid rid text))) ;;
           on_chat (fun c => set_pendingMessage c (Some text)) ;;
           on_chat (fun c => setShowJump c (200 <=? belowView box)%Z))
    | None => mret tt
    end
  end end end.

(** [setAtLimit(true)] and its restarted timeout *)
Definition flashLimit : CH unit :=
  now ← io date_now;
  on_chat (fun c => setAtLimit c true) ;;
  on_chat (fun c => set_timer c (Some (now + 500)%Z)).

(** The timeout of [flashLimit] *)
Definition limitTimeout : CH unit :=
  on_chat (fun c => setAtLimit c false) ;;
  on_chat (fun c => set_timer c None).

Definition handleChange (newText : string) : CH unit :=
  inputText ← chat_get c_inputText;
  (if String.length newText <=? MAX_CHARS then on_chat (fun c => setInputText c newText)
   else if String.length inputText <? MAX_CHARS then
     on_chat (fun c => setInputText c (str_take MAX_CHARS newText)) ;; flashLimit
   else flashLimit) ;;
  adjustHeight.

(** [textarea.focus()] after [f] in the next animation frame *)
Definition refocus (f : TextArea -> TextArea) : CH unit :=
  on_chat (fun c => match c_input c with
    | Some t => let t := f t in
        set_input c (Some (mkTextArea (selectionStart t) (selectionEnd t) (ta_scrollHeight t) (ta_height t) true))
    | None => c end) ;;
  adjustHeight.

Definition insertEmoji (emoji : string) : CH unit :=
  textarea ← chat_get c_input;
  match textarea with
  | None => mret tt
  | Some t =>
      inputText ← chat_get c_inputText;
      let newText := str_take (selectionStart t) inputText +:+ emoji +:+ str_drop (selectionEnd t) inputText in
      if String.length newText <=? MAX_CHARS then
        on_chat (fun c => setInputText c newText) ;;
        let cursor := selectionStart t + String.length emoji in
        refocus (fun t => mkTextArea cursor cursor (ta_scrollHeight t) (ta_height t) (ta_focused t))
      else if String.length inputText <? MAX_CHARS then
        on_chat (fun c => setInputText c (str_take MAX_CHARS newText)) ;;
        refocus (fun t => t) ;;
        flashLimit
      else flashLimit
  end.

(** *** Views *)

Definition scrollToCategory (category : string) : CH unit :=
  on_chat (fun c => setEmojiSearch c "") ;;
  menu ← chat_get c_menu; cats ← chat_get c_categories;
  match menu, cats !! category with
  | Some m, Some cat =>
      on_chat (fun c => set_menu c (Some (scrollTo m (offsetTop cat - offsetTop m)%Z)))
  | _, _ => mret tt
  end.

(** The reducer of [groupedMessages]. *)
Definition addToGroups (groups : list (list Message)) (msg : Message) : list (list Message) :=
  match last groups with
  | Some (m0 :: g) =>
      if negb (isSystem msg) && strict_eq (userHandle m0) (userHandle msg)
      then removelast groups ++ [(m0 :: g) ++ [msg]]
      else groups ++ [[msg]]
  | _ => groups ++ [[msg]]
  end.

Definition groupedMessages (messages : list Message) : list (list Message) :=
  fold_left addToGroups messages [].

Definition handleScroll : CH unit :=
  box ← chat_get c_chat;
  match box with
  | Some b =>
      on_chat (fun c => set_isAtBottom c (belowView b <=? 4)%Z) ;;
      on_chat (fun c => setShowJump c (200 <=? belowView b)%Z)
  | None => mret tt
  end.

Definition jumpToBottom : CH unit :=
  box ← chat_get c_chat;
  match box with
  | Some b => on_chat (fun c => set_chat c (Some (scrollTo b (scrollHeight b))))
  | None => mret tt
  end.

(** The effect that runs when the messages changed. *)
Definition followMessages : CH unit :=
  box ← chat_get c_chat;
  match box with
  | Some b =>
      bottom ← chat_get c_isAtBottom;
      when bottom jumpToBottom ;;
      box' ← chat_get c_chat;
      match box' with
      | Some b' => on_chat (fun c => setShowJump c (200 <=? belowView b')%Z)
      | None => mret tt
      end
  | None => mret tt
  end.

Definition dismissToast : CH unit := on_chat (fun c => setToastMessage c VNull).
Definition clearMessages : CH unit := on_chat (fun c => set_messages c []).
End useChatSocket.

(** ** Runs of the hook *)

Inductive ChatEvent :=
| evConnect (cap : UserState) (roomId : option string)
| evDisconnect | evOpen | evClose | evStaleClose
| evFrame (frame : string)
| evJoin (roomID : string)
| evSubmit | evChange (newText : string) | evEmoji (emoji : string) | evTimeout
| evScroll | evMessages | evJump | evDismiss | evClear
| evCategory (category : string) | evSearch (s : string).

Section runs.
Context `{JsonCodec}.

(** A handler runs only when its event can happen: a socket opens once, frames
    arrive on an open socket - none once it is closing -, and a socket is closed once.  The effect
    runs whenever the user changed, whatever the state of the connection. *)
Definition enabled (e : ChatEvent) (c : Chat) : bool :=
  match e with
  | evStaleClose => bool_decide (0 < c_stale c)
  | evOpen => bool_decide (c_sock c = Some CONNECTING)
  | evFrame _ => bool_decide (c_sock c = Some OPEN)
  | evClose => match c_sock c with None | Some CLOSED => false | _ => true end
  | evTimeout => bool_decide (c_timer c <> None)
  | _ => true
  end.

Definition handler (e : ChatEvent) : CH unit :=
  match e with
  | evConnect cap rid => reopen cap rid
  | evDisconnect => disconnect
  | evOpen => onopen
  | evClose => onclose
  | evStaleClose => stale_onclose
  | evFrame f => onmessage f
  | evJoin r => joinChatRoom r
  | evSubmit => handleSubmit
  | evChange t => handleChange t
  | evEmoji e => insertEmoji e
  | evTimeout => limitTimeout
  | evScroll => handleScroll
  | evMessages => followMessages
  | evJump => jumpToBottom
  | evDismiss => dismissToast
  | evClear => clearMessages
  | evCategory k => scrollToCategory k
  | evSearch t => on_chat (fun c => setEmojiSearch c t)
  end.

Definition chat_step (s : World * Chat) (e : ChatEvent) : World * Chat :=
  if enabled e s.2 then (handler e s).2 else s.

Definition chat_run (es : list ChatEvent) (s : World * Chat) : World * Chat := fold_left chat_step es s.
End runs.

(** ** Lemmas *)

(** What the frames of the server leave alone. *)
Definition same_link (s s' : World * Chat) : Prop :=
  let c := s.2 in let c' := s'.2 in
  c_cap c' = c_cap c /\ c_sock c' = c_sock c /\ c_pendingRoom c' = c_pendingRoom c /\
  c_joinedRoom c' = c_joinedRoom c /\ c_atLimit c' = c_atLimit c /\ c_timer c' = c_timer c /\ c_stale c' = c_stale c /\
  (c_inputText c' = c_inputText c \/ c_inputText c' = "").

#[export] Instance same_link_preorder : PreOrder same_link.
Proof.
  split.
  - intros s. unfold same_link. auto 10.
  - intros s1 s2 s3 (?&?&?&?&?&?&?&Hi) (?&?&?&?&?&?&?&Hj). unfold same_link.
    repeat split; try congruence. destruct Hj as [->| ->]; auto.
Qed.

Ltac link := lazymatch goal with |- same_link _ _ => idtac end; unfold same_link; cbn; repeat case_match; cbn; auto 10.

Lemma frames_link `{JsonCodec} f : steps same_link (onmessage f).
Proof. steps_tac; link. Qed.

(** The invariant of the hook's state.  Its last part holds on runs that are [calm], in
    which no replaced connection reports that it is closed. *)
Record chat_inv (calm : Prop) (c : Chat) : Prop := {
  inv_length : String.length (c_inputText c) <= MAX_CHARS;
  inv_timer : c_atLimit c = true -> c_timer c <> None;
  inv_joined : c_joinedRoom c <> None -> c_sock c = Some OPEN \/ c_sock c = Some CLOSING \/ 0 < c_stale c;
  inv_user : c_sock c <> None -> opt_truthy (userId (c_cap c).1) = true;
  inv_pending : calm -> c_sock c = Some OPEN -> opt_truthy (c_pendingRoom c) = true ->
    c_joinedRoom c = c_pendingRoom c;
}.

Lemma chat_inv_link calm s s' : same_link s s' -> chat_inv calm s.2 -> chat_inv calm s'.2.
Proof.
  intros (H1 & H2 & H3 & H4 & H5 & H6 & H8 & H7) [I1 I2 I3 I4 I5].
  split; rewrite ?H1, ?H2, ?H3, ?H4, ?H5, ?H6, ?H8; auto.
  destruct H7 as [->| ->]; [done|cbn; lia].
Qed.

Lemma chat_inv_init calm input box menu cats : chat_inv calm (chatInit input box menu cats).
Proof. split; cbn; try done; lia. Qed.

Lemma chat_inv_steps {A} calm (m : CH A) s : steps same_link m -> chat_inv calm s.2 -> chat_inv calm (m s).2.2.
Proof. intros Hm. exact (chat_inv_link _ _ _ (Hm s)). Qed.

(** Steps through a handler of the hook. *)
Ltac ch_step :=
  first
    [ wp_step
    | lazymatch goal with
      | |- wp (on_chat _) _ _ => apply wp_modify
      | |- wp (chat_get _) _ _ => apply wp_read
      | |- wp (io _) _ _ => apply wp_zoom
      | |- wp (match ?x with _ => _ end) _ _ => destruct x eqn:?
      end ].

Definition inv_after (calm : Prop) (_ : Res unit) (s : World * Chat) : Prop := chat_inv calm s.2.

(** Evaluates the conditions on nullable strings whose value is known. *)
Ltac opt_cases :=
  repeat match goal with
  | H : ?x = Some _, H' : context [?x] |- _ => rewrite H in H'
  | H : userId ?x = None, H' : context [userId ?x] |- _ => rewrite H in H'
  end; cbn in *;
  repeat match goal with H : context [String.eqb ?a ?b] |- _ => destruct (String.eqb a b) end; cbn in *;
  try congruence.

Lemma onopen_inv `{JsonCodec} calm s : c_sock s.2 = Some CONNECTING -> chat_inv calm s.2 -> wp onopen (inv_after calm) s.
Proof.
  intros Hs [I1 I2 I3 I4 I5].
  assert (Hu := I4 ltac:(congruence)). unfold onopen, inv_after. repeat (ch_step; cbn); cbn in *.
  all: split; cbn; auto; try congruence; intros _ _ Hp.
  all: rewrite ?Hp in *; js_bool; try congruence.
  all: opt_cases; by match goal with E : c_pendingRoom _ = None |- _ => rewrite E in Hp end.
Qed.

Lemma joinChatRoom_inv `{JsonCodec} calm r s : chat_inv calm s.2 -> wp (joinChatRoom r) (inv_after calm) s.
Proof.
  destruct s as [w c]. intros [I1 I2 I3 I4 I5]. unfold joinChatRoom, inv_after. cbn in *.
  destruct (c_cap c) as [cap o] eqn:Hc. cbn in I4.
  assert (Hu : c_sock c = Some OPEN -> exists uid, userId cap = Some uid /\ String.eqb uid "" = false).
  { intros Hs. destruct (proj1 (opt_truthy_spec _) (I4 ltac:(congruence))) as (uid & ? & ?).
    exists uid. by rewrite String.eqb_neq. }
  repeat (ch_step; cbn); cbn in *; js_bool; simplify_eq.
  all: split; cbn; auto; try congruence.
  all: try (intros _; left; congruence).
  all: try (intros; match goal with E : c_cap _ = _ |- _ => rewrite E end; by apply I4).
  all: intros _ Hs _; destruct (Hu Hs) as (uid & Hid & Hne); simplify_eq.
  all: match goal with E : _ && _ = false |- _ => by rewrite bool_decide_eq_true_2, Hne in E end.
Qed.

#[local] Opaque MAX_CHARS.
#[local] Arguments str_take : simpl never.
#[local] Arguments str_drop : simpl never.

Lemma chat_inv_text calm c c' :
  chat_inv calm c ->
  c_cap c' = c_cap c -> c_sock c' = c_sock c -> c_pendingRoom c' = c_pendingRoom c ->
  c_joinedRoom c' = c_joinedRoom c -> String.length (c_inputText c') <= MAX_CHARS ->
  (c_atLimit c' = true -> c_timer c' <> None) -> c_stale c' = c_stale c -> chat_inv calm c'.
Proof. intros [I1 I2 I3 I4 I5] H1 H2 H3 H4 H5 H6 H7. split; rewrite ?H1, ?H2, ?H3, ?H4, ?H7; auto. Qed.

Lemma composer_inv `{JsonCodec} calm e s :
  match e with evChange _ | evEmoji _ | evTimeout => True | _ => False end ->
  chat_inv calm s.2 -> wp (handler e) (inv_after calm) s.
Proof.
  intros He Hi. pose proof (inv_length _ _ Hi). pose proof (inv_timer _ _ Hi).
  destruct e; try done; cbn [handler]; clear He.
  all: unfold handleChange, insertEmoji, limitTimeout, flashLimit, refocus, adjustHeight, inv_after.
  all: repeat (ch_step; cbn); apply (chat_inv_text _ _ _ Hi); destruct (c_input s.2); cbn; try done.
  all: repeat match goal with E : (_ <=? _)%nat = true |- _ => apply Nat.leb_le in E end.
  all: try done; rewrite str_take_length; lia.
Qed.

Lemma connection_inv `{JsonCodec} calm e s :
  match e with evConnect _ _ | evDisconnect | evClose => True | evStaleClose => ~ calm | _ => False end ->
  enabled e s.2 = true -> chat_inv calm s.2 -> wp (handler e) (inv_after calm) s.
Proof.
  destruct s as [w c]. intros He Hen Hi. pose proof Hi as [I1 I2 I3 I4 I5].
  destruct e; try done; cbn [handler enabled] in *;
    unfold reopen, connect, disconnect, onclose, stale_onclose, getRtcUrl, inv_after; repeat (ch_step; cbn); cbn in *; js_bool; try done.
  all: try match goal with E : c_sock _ = _ |- _ => rewrite E in * end.
  all: split; cbn; auto; try congruence; try tauto.
  all: try (intros Hj; destruct (I3 Hj) as [E|[E|E]]; (congruence || (do 2 right; lia))).
  intros _. apply I4. by destruct (c_sock c).
Qed.

Lemma chat_step_inv `{JsonCodec} calm s e : (e = evStaleClose -> ~ calm) -> chat_inv calm s.2 -> chat_inv calm (chat_step s e).2.
Proof.
  intros Hq Hi. unfold chat_step. destruct (enabled e s.2) eqn:He; [|done].
  destruct e; lazymatch type of He with enabled ?e _ = _ => first
    [ exact (composer_inv calm e s I Hi) | exact (connection_inv calm e s I He Hi)
    | exact (connection_inv calm e s (Hq eq_refl) He Hi)
    | exact (joinChatRoom_inv calm _ s Hi)
    | cbn [enabled] in He; js_bool; exact (onopen_inv calm s He Hi)
    | apply chat_inv_steps; [clear; steps_tac; link|done] ]
  end.
Qed.

Lemma chat_run_inv `{JsonCodec} calm es s : (In evStaleClose es -> ~ calm) -> chat_inv calm s.2 -> chat_inv calm (chat_run es s).2.
Proof.
  revert s; induction es as [|e es IH]; intros s Hq Hi; [done|].
  apply IH; [intros ?; apply Hq; by right|]. apply chat_step_inv; [|done]. intros ->. apply Hq. by left.
Qed.

(** *** Groups *)

(** [m] is drawn below the last message of the group [g]. *)
Definition continues (g : list Message) (m : Message) : bool :=
  match g with
  | m0 :: _ => negb (isSystem m) && strict_eq (userHandle m0) (userHandle m)
  | [] => false
  end.

(** A group is a first message and messages that continue it. *)
Definition is_group (g : list Message) : Prop :=
  match g with m0 :: ms => Forall (fun m => continues g m = true) ms | [] => False end.

Definition breaks (g g' : list Message) : Prop :=
  match g' with m :: _ => continues g m = false | [] => True end.

(** No group could have been part of the one before. *)
Fixpoint separated (gs : list (list Message)) : Prop :=
  match gs with
  | g :: gs' => match gs' with g' :: _ => breaks g g' | [] => True end /\ separated gs'
  | [] => True
  end.

Definition grouping (gs : list (list Message)) : Prop := Forall is_group gs /\ separated gs.

Lemma addToGroups_new gs m :
  match last gs with Some g => continues g m = false | None => True end ->
  addToGroups gs m = gs ++ [[m]].
Proof.
  unfold addToGroups. destruct (last gs) as [[|m0 g]|]; try done. cbn. by intros ->.
Qed.

Lemma addToGroups_more gs g m : continues g m = true -> addToGroups (gs ++ [g]) m = gs ++ [g ++ [m]].
Proof.
  unfold addToGroups. rewrite last_snoc. destruct g as [|m0 g]; [done|]. cbn. intros ->.
  by rewrite removelast_last.
Qed.

Lemma continues_app g g' m : g <> [] -> continues (g ++ g') m = continues g m.
Proof. by destruct g. Qed.

Lemma addAll gs g ms :
  g <> [] -> Forall (fun m => continues g m = true) ms ->
  fold_left addToGroups ms (gs ++ [g]) = gs ++ [g ++ ms].
Proof.
  revert g; induction ms as [|m ms IH]; intros g Hg Hms; cbn; [by rewrite app_nil_r|].
  apply Forall_cons in Hms as [Hm Hms]. rewrite addToGroups_more by done. rewrite IH.
  - by rewrite <- app_assoc.
  - by destruct g.
  - eapply Forall_impl; [exact Hms|]. intros x. by rewrite continues_app.
Qed.

Lemma separated_snoc gs g :
  separated (gs ++ [g]) <-> separated gs /\ match last gs with Some g0 => breaks g0 g | None => True end.
Proof.
  induction gs as [|g0 gs IH]; [done|]. destruct gs as [|g1 gs]; [cbn; tauto|].
  rewrite last_cons_cons. cbn [app separated] in *. rewrite IH. tauto.
Qed.

(** The reducer reads a list of groups back from their messages. *)
Lemma regroup gs : grouping gs -> groupedMessages (concat gs) = gs.
Proof.
  unfold groupedMessages. induction gs as [|g gs IH] using rev_ind; [done|]. intros [Hg Hs].
  apply Forall_app in Hg as [Hg Hg1]. apply Forall_cons in Hg1 as [Hg1 _].
  apply separated_snoc in Hs as [Hs Hb]. rewrite concat_app, fold_left_app, IH by done.
  cbn. rewrite app_nil_r. destruct g as [|m0 ms]; [done|]. cbn.
  rewrite addToGroups_new by (by destruct (last gs)). by rewrite (addAll gs [m0] ms).
Qed.

Lemma addToGroups_grouping gs m :
  grouping gs -> grouping (addToGroups gs m) /\ concat (addToGroups gs m) = concat gs ++ [m].
Proof.
  intros [Hg Hs]. destruct gs as [|g gs _] using rev_ind.
  { cbn. split; [split; repeat constructor|done]. }
  destruct (continues g m) eqn:Hc.
  - rewrite addToGroups_more by done. rewrite !concat_app. cbn. rewrite !app_nil_r, app_assoc.
    split; [|done]. apply Forall_app in Hg as [Hg Hg1]. apply Forall_cons in Hg1 as [Hg1 _].
    apply separated_snoc in Hs as [Hs Hb]. split.
    + apply Forall_app. split; [done|]. constructor; [|done]. destruct g as [|m0 g]; [done|]. cbn.
      apply Forall_app. split; [exact Hg1|by constructor].
    + apply separated_snoc. split; [done|]. destruct (last gs); [|done]. by destruct g.
  - rewrite addToGroups_new by (by rewrite last_snoc). rewrite !concat_app. split; [|done]. split.
    + apply Forall_app. split; [done|]. by repeat constructor.
    + apply separated_snoc. split; [done|]. by rewrite last_snoc.
Qed.

Lemma grouped_grouping ms : grouping (groupedMessages ms) /\ concat (groupedMessages ms) = ms.
Proof.
  unfold groupedMessages. induction ms as [|m ms IH] using rev_ind; [by repeat split|].
  destruct IH as [Hg Hc]. rewrite fold_left_app. cbn.
  destruct (addToGroups_grouping _ m Hg) as [Hg' Hc']. by rewrite Hc', Hc.
Qed.


(** *** Frames *)

(** The composer after a message of its user with the pending text came back. *)
Definition acknowledge (c : Chat) : Chat :=
  let c := setInputText (set_pendingMessage c None) "" in
  match c_input c with
  | Some t => set_input c (Some (mkTextArea (selectionStart t) (selectionEnd t) (ta_scrollHeight t) "auto" (ta_focused t)))
  | None => c
  end.

(** The world after a chat message arrived. *)
Definition hear (suppress own : bool) (w : World) : World :=
  let w1 := if negb suppress && (has_runtime (w_platform w) && has_getURL (w_platform w) &&
                                 chatNotificationsEnabled (w_settings w))
            then with_log w (w_log w ++ [ESound (if own then "message-sent.mp3" else "message-recieved.mp3")])
            else w in
  if negb suppress && negb own && negb (isChatVisible w)
  then with_room w1 (incrementUnread (w_room w1)) else w1.

(** The message a chat frame adds. *)
Definition heardText (message : Val) : Val := js_or (prop message "message") (prop message "data").
Definition heardMessage (message : Val) : Message :=
  mkMessage (prop message "userHandle") (prop message "userName") (prop message "userPhoto")
    (heardText message) (prop message "roomID") false.

Lemma onChatMessage_eq message w c :
  is_nullish message = false ->
  let own := eq_opt (prop message "userHandle") (userId (c_cap c).1) in
  let c1 := set_messages c (c_messages c ++ [heardMessage message]) in
  onChatMessage message (w, c) =
    (Ok tt, (hear (c_suppress c) own w,
             if own && eq_opt (heardText message) (c_pendingMessage c) then acknowledge c1 else c1)).
Proof.
  intros Hn own c1. unfold onChatMessage, get. rewrite Hn.
  unfold appendMessage, io, on_chat, chat_get, playChatSound, resetHeight, io, zoom. js_unfold.
  fold (heardText message). fold (heardMessage message). cbn.
  destruct (c_cap c) as [cap o] eqn:Hc. subst own c1. cbn. unfold hear, acknowledge.
  destruct (eq_opt (prop message "userHandle") (userId cap)) eqn:Ho; cbn.
  - destruct (eq_opt (heardText message) (c_pendingMessage c)), (c_input c) eqn:Hi; cbn;
      unfold on_chat, modify; cbn; rewrite ?Hi; cbn; destruct (c_suppress c); cbn; try done;
      by destruct (_ && chatNotificationsEnabled _).
  - destruct (c_suppress c); cbn; [done|]. destruct (_ && chatNotificationsEnabled _); cbn.
    + change (isChatVisible (with_log _ _)) with (isChatVisible w). by destruct (isChatVisible w).
    + by destruct (isChatVisible w).
Qed.

(** The hook's state after a chat message: link, flags and messages. *)
Lemma heard_state m c own :
  let c1 := set_messages c (c_messages c ++ [heardMessage m]) in
  let c' := if own && eq_opt (heardText m) (c_pendingMessage c) then acknowledge c1 else c1 in
  c_sock c' = c_sock c /\ c_suppress c' = c_suppress c /\ c_cap c' = c_cap c /\
  c_messages c' = c_messages c ++ [heardMessage m].
Proof.
  cbn. destruct (own && _); cbn; [|done]. unfold acknowledge. cbn. by destruct (c_input c).
Qed.

(** A frame that carries a chat message. *)
Definition chatFrameOf `{JsonCodec} (f : string) (message : Val) : Prop :=
  exists response, json_parse f = Ok response /\ is_nullish message = false /\
    prop response "status" = VStr "ok" /\ prop response "responseType" = VStr "chat-message" /\
    prop response "message" = message.

Lemma onmessage_chat `{JsonCodec} f message w c :
  chatFrameOf f message ->
  let own := eq_opt (prop message "userHandle") (userId (c_cap c).1) in
  let c1 := set_messages c (c_messages c ++ [heardMessage message]) in
  onmessage f (w, c) =
    (Ok tt, (hear (c_suppress c) own w,
             if own && eq_opt (heardText message) (c_pendingMessage c) then acknowledge c1 else c1)).
Proof.
  intros (response & Hp & Hn & Hs & Ht & <-) own c1. unfold onmessage, try_catch, lift.
  unfold mbind, m_bind at 1. rewrite Hp. unfold dispatch, get.
  assert (Hr : is_nullish response = false) by (by destruct response).
  rewrite Hr, Hs, Ht. unfold lift, mbind, m_bind. cbn -[prop].
  change (String.eqb "ok" "ok") with true. change (String.eqb "chat-message" "chat-message") with true.
  cbn -[prop]. by rewrite onChatMessage_eq.
Qed.

(** The frame with which rtc-service delivers a chat message. *)
Definition chatLine `{JsonCodec} (h nm ph d r : string) : string :=
  json_stringify (VObj [
    ("status", VStr "ok"); ("responseType", VStr "chat-message");
    ("message", VObj [("userHandle", VStr h); ("userName", VStr nm); ("userPhoto", VStr ph);
                      ("data", VStr d); ("roomID", VStr r)])]).

Lemma chatLine_of `{JsonCodec} h nm ph d r :
  chatFrameOf (chatLine h nm ph d r)
    (VObj [("userHandle", VStr h); ("userName", VStr nm); ("userPhoto", VStr ph); ("data", VStr d); ("roomID", VStr r)]).
Proof.
  unfold chatFrameOf, chatLine. eexists. rewrite json_parse_stringify by done. by repeat split.
Qed.

(** *** The join protocol *)

(** Connection, pending and joined room of the hook, and the world's log. *)
Definition link_is (cap : UserState) (o : option string) (sk : ReadyState) (p j : option string)
    (l : list Effect) (s : World * Chat) : Prop :=
  c_cap s.2 = (cap, o) /\ c_sock s.2 = Some sk /\ c_pendingRoom s.2 = p /\ c_joinedRoom s.2 = j /\
  w_log s.1 = l.

Section join.
Context `{JsonCodec} (cap : UserState) (o : option string) (uid r : string).
Context (Hu : userId cap = Some uid) (Hu0 : uid <> "") (Hr : r <> "").
Let E1 : String.eqb uid "" = false := proj2 (String.eqb_neq _ _) Hu0.
Let E2 : String.eqb r "" = false := proj2 (String.eqb_neq _ _) Hr.

Ltac join_exec s :=
  let w := fresh "w" in let c := fresh "c" in
  destruct s as [w c]; intros (Hc & Hs & Hp & Hj & Hl); cbn in Hc, Hs, Hp, Hj, Hl;
  unfold chat_step; cbn [enabled snd]; rewrite ?Hs, ?bool_decide_eq_true_2 by done; cbn [handler];
  unfold joinChatRoom, onopen, io, on_chat, chat_get, zoom; js_unfold; cbn;
  rewrite ?Hj, ?Hp; cbn; rewrite ?bool_decide_eq_true_2, ?bool_decide_eq_false_2 by done; cbn;
  rewrite ?Hc; cbn; rewrite ?Hs, ?Hu; cbn; rewrite ?E1, ?E2; cbn.

Lemma join_connecting l p s : link_is cap o CONNECTING p None l s ->
  link_is cap o CONNECTING (Some r) None l (chat_step s (evJoin r)).
Proof. join_exec s. by repeat split. Qed.

Lemma join_open l p s : link_is cap o OPEN p None l s ->
  link_is cap o OPEN (Some r) (Some r) (l ++ [ESend (joinFrame cap uid r)]) (chat_step s (evJoin r)).
Proof. join_exec s. rewrite <- Hl. by repeat split. Qed.

Lemma join_again l p sk s : link_is cap o sk p (Some r) l s ->
  link_is cap o sk (Some r) (Some r) l (chat_step s (evJoin r)).
Proof. join_exec s. by repeat split. Qed.

Lemma open_joins l p s : (if opt_truthy p then p else o) = Some r ->
  link_is cap o CONNECTING p None l s ->
  link_is cap o OPEN p (Some r) (l ++ [ESend (joinFrame cap uid r)]) (chat_step s evOpen).
Proof. intros Ht. join_exec s. rewrite Hp, Ht. cbn. rewrite E2. cbn. rewrite Hj. cbn. rewrite <- Hl. by repeat split. Qed.

Lemma open_waits l s : o = None ->
  link_is cap o CONNECTING None None l s -> link_is cap o OPEN None None l (chat_step s evOpen).
Proof. intros Ho. join_exec s. rewrite Hp, Ho. cbn. by repeat split. Qed.
End join.

(** ** Theorems *)

(** the message groups of the chat are the unique way to cut the messages,
    in order and without loss, into runs of one author: each group is not empty
    and its later messages are user messages with the author of its first, and no group
    starts with a message that belonged to the group before. *)
Theorem groupedMessages_unique (ms : list Message) (gs : list (list Message)) :
  gs = groupedMessages ms <-> concat gs = ms /\ Forall is_group gs /\ separated gs.
Proof.
  split.
  - intros ->. destruct (grouped_grouping ms) as [[? ?] ?]. done.
  - intros (<- & Hg & Hs). by rewrite regroup.
Qed.


(** the history that is replayed after a join is silent: while sounds are
    suppressed, any sequence of chat frames appends its messages in order and
    leaves the world as it was - no sound, no unread count, nothing sent. *)
Theorem replay_is_silent `{JsonCodec} (fs : list string) (ms : list Val) (w : World) (c : Chat) :
  Forall2 chatFrameOf fs ms -> c_sock c = Some OPEN -> c_suppress c = true ->
  (chat_run (map evFrame fs) (w, c)).1 = w /\
  c_messages (chat_run (map evFrame fs) (w, c)).2 = c_messages c ++ map heardMessage ms.
Proof.
  intros Hf. revert c; induction Hf as [|f m fs ms Hfm Hf IH]; intros c Ho Hs; [by rewrite app_nil_r|].
  cbn [map]. unfold chat_run in *. cbn [fold_left]. unfold chat_step at 2 4. cbn [enabled snd].
  rewrite bool_decide_eq_true_2 by done. cbn [handler]. rewrite (onmessage_chat f m w c Hfm). cbn [snd].
  unfold hear. rewrite Hs. cbn [negb andb].
  destruct (heard_state m c (eq_opt (prop m "userHandle") (userId (c_cap c).1))) as (H1 & H2 & _ & H4).
  destruct (IH _ (eq_trans H1 Ho) (eq_trans H2 Hs)) as [-> ->]. split; [done|].
  by rewrite H4, <- app_assoc.
Qed.

Lemma replay_is_silent_witness :
  let c := mkChat (mkUserState true (Some "u1") None None None, None) (Some OPEN) (Some "r") (Some "r") true
             None [] "" false false None VNull "" true None None None ∅ None 0 in
  let w := fresh_world None [] in
  (chat_run (map evFrame [chatLine "u2" "Bo" "" "hi" "r"; chatLine "u1" "Al" "" "yo" "r"]) (w, c)).1 = w /\
  length (c_messages (chat_run (map evFrame [chatLine "u2" "Bo" "" "hi" "r"; chatLine "u1" "Al" "" "yo" "r"]) (w, c)).2) = 2.
Proof.
  intros c w. destruct (replay_is_silent [chatLine "u2" "Bo" "" "hi" "r"; chatLine "u1" "Al" "" "yo" "r"]
    _ w c (List.Forall2_cons _ _ (chatLine_of _ _ _ _ _)
            (List.Forall2_cons _ _ (chatLine_of _ _ _ _ _) (List.Forall2_nil _))) eq_refl eq_refl) as [H1 H2].
  split; [exact H1|]. by rewrite H2.
Defined.

(** Outside a replay a chat frame is counted as unread exactly when another
    user wrote it and the chat is not visible, and it always adds its message. *)
Theorem unread_counted `{JsonCodec} (f : string) (m : Val) (w : World) (c : Chat) :
  chatFrameOf f m -> c_suppress c = false ->
  let '(r, (w', c')) := onmessage f (w, c) in
  r = Ok tt /\ c_messages c' = c_messages c ++ [heardMessage m] /\
  unreadCount (w_room w') =
    (unreadCount (w_room w) +
     Z.b2z (negb (eq_opt (prop m "userHandle") (userId (c_cap c).1)) && negb (isChatVisible w)))%Z.
Proof.
  intros Hf Hs. rewrite (onmessage_chat f m w c Hf). split; [done|].
  destruct (heard_state m c (eq_opt (prop m "userHandle") (userId (c_cap c).1))) as (_ & _ & _ & H4).
  split; [exact H4|]. unfold hear. rewrite Hs. cbn [negb andb].
  destruct (negb _ && negb _), (_ && chatNotificationsEnabled _); cbn; lia.
Qed.

Lemma unread_counted_witness :
  let c := mkChat (mkUserState true (Some "u1") None None None, None) (Some OPEN) (Some "r") (Some "r") false
             None [] "" false false None VNull "" true None None None ∅ None 0 in
  let w := with_room (fresh_world None []) (setActiveTab roomStoreInit roomInfo) in
  unreadCount (w_room (onmessage (chatLine "u2" "Bo" "" "hi" "r") (w, c)).2.1) = 1%Z.
Proof.
  intros c w. pose proof (unread_counted (chatLine "u2" "Bo" "" "hi" "r") _ w c (chatLine_of _ _ _ _ _) eq_refl) as Hu.
  revert Hu. destruct (onmessage (chatLine "u2" "Bo" "" "hi" "r") (w, c)) as [r [w' c']].
  intros (_ & _ & Hu). cbn [fst snd]. rewrite Hu. reflexivity.
Defined.

(** A composer in which the current user can send [text] to the room [rid]. *)
Definition can_send (uid rid text : string) (w : World) (c : Chat) : Prop :=
  roomId (w_room w) = Some rid /\ rid <> "" /\ userId (w_user w) = Some uid /\ uid <> "" /\
  userId (c_cap c).1 = Some uid /\ c_sock c = Some OPEN /\ c_input c <> None /\ c_chat c <> None /\
  trim (c_inputText c) = text /\ text <> "".

Lemma handleSubmit_eq `{JsonCodec} uid rid text w c :
  can_send uid rid text w c ->
  exists c', chat_step (w, c) evSubmit = (with_log w (w_log w ++ [ESend (chatFrame (w_user w) uid rid text)]), c') /\
    c_inputText c' = c_inputText c /\ c_pendingMessage c' = Some text /\ c_cap c' = c_cap c /\ c_sock c' = Some OPEN.
Proof.
  intros (Hr & Hr0 & Hu & Hu0 & Hc & Ho & Hi & Hb & Ht & Ht0).
  unfold chat_step. cbn [enabled handler]. unfold handleSubmit, io, on_chat, chat_get, zoom. js_unfold. cbn.
  rewrite Hr. destruct (c_chat c) as [box|]; [|done]. destruct (c_input c); [|done]. rewrite Ht.
  rewrite (proj2 (String.eqb_neq rid "") Hr0), (proj2 (String.eqb_neq text "") Ht0). cbn.
  rewrite Hu, Ho, bool_decide_eq_true_2, (proj2 (String.eqb_neq uid "") Hu0) by done. cbn. eauto 10.
Qed.

(** Frames of other users leave the composer alone. *)
Lemma others_keep `{JsonCodec} uid fs w c :
  Forall (fun f => exists m, chatFrameOf f m /\ eq_opt (prop m "userHandle") (Some uid) = false) fs ->
  userId (c_cap c).1 = Some uid -> c_sock c = Some OPEN ->
  exists w' c', chat_run (map evFrame fs) (w, c) = (w', c') /\
    c_inputText c' = c_inputText c /\ c_pendingMessage c' = c_pendingMessage c /\
    c_cap c' = c_cap c /\ c_sock c' = Some OPEN.
Proof.
  intros Hf. revert w c; induction Hf as [|f fs (m & Hm & Hn) Hf IH]; intros w c Hu Ho; [eauto 10|].
  cbn [map]. unfold chat_run in *. cbn [fold_left]. unfold chat_step at 2. cbn [enabled snd].
  rewrite bool_decide_eq_true_2 by done. cbn [handler]. rewrite (onmessage_chat f m w c Hm), Hu, Hn. cbn.
  apply (IH _ (set_messages c (c_messages c ++ [heardMessage m])) Hu Ho).
Qed.

(** C31: a message that is sent stays in the composer until the server has
    accepted it: sending emits one frame and keeps the text, messages of other
    users that arrive meanwhile keep it, and the user's own message coming back
    empties the composer. *)
Theorem submit_acknowledged `{JsonCodec} (uid rid text f : string) (fs : list string) (m : Val) (w : World) (c : Chat) :
  can_send uid rid text w c ->
  Forall (fun f => exists m, chatFrameOf f m /\ eq_opt (prop m "userHandle") (Some uid) = false) fs ->
  chatFrameOf f m -> prop m "userHandle" = VStr uid -> heardText m = VStr text ->
  let s1 := chat_step (w, c) evSubmit in
  let s2 := chat_run (map evFrame fs) s1 in
  let s3 := chat_step s2 (evFrame f) in
  w_log s1.1 = w_log w ++ [ESend (chatFrame (w_user w) uid rid text)] /\
  c_inputText s2.2 = c_inputText c /\ c_pendingMessage s2.2 = Some text /\
  c_inputText s3.2 = "" /\ c_pendingMessage s3.2 = None.
Proof.
  intros Hs Hf Hm Hh Ht s1. subst s1. pose proof Hs as (_ & _ & _ & _ & Hu & _).
  destruct (handleSubmit_eq _ _ _ _ _ Hs) as (c1 & E1 & H1 & H2 & H3 & H4). rewrite E1.
  destruct (others_keep uid fs (with_log w (w_log w ++ [ESend (chatFrame (w_user w) uid rid text)])) c1 Hf)
    as (w2 & c2 & E2 & H5 & H6 & H7 & H8); [congruence|done|]. rewrite E2. cbn.
  unfold chat_step. cbn [enabled snd]. rewrite bool_decide_eq_true_2 by done. cbn [handler].
  rewrite (onmessage_chat f m w2 c2 Hm). rewrite H7, H3, Hu, Hh, Ht, H6, H2. cbn. rewrite !String.eqb_refl. cbn.
  unfold acknowledge. cbn. destruct (c_input c2); cbn; by rewrite H5, H1, ?H6, ?H2.
Qed.

Lemma submit_acknowledged_witness :
  let c := mkChat (mkUserState true (Some "u1") None None None, None) (Some OPEN) (Some "r") (Some "r") false
             None [] " hello " false false None VNull "" true
             (Some (mkTextArea 0 0 20%Z "auto" false)) (Some (mkScrollBox 0 0 0 0)) None ∅ None 0 in
  let w := with_user (with_room (fresh_world None []) (setRoomId roomStoreInit (Some "r")))
             (mkUserState true (Some "u1") None None None) in
  let s1 := chat_step (w, c) evSubmit in
  let s2 := chat_run (map evFrame [chatLine "u2" "Bo" "" "hi" "r"]) s1 in
  c_inputText s2.2 = " hello " /\ c_inputText (chat_step s2 (evFrame (chatLine "u1" "Al" "" "hello" "r"))).2 = "".
Proof.
  intros c w s1 s2.
  assert (Hs : can_send "u1" "r" "hello" w c) by (by repeat split).
  assert (Hf : Forall (fun f => exists m, chatFrameOf f m /\ eq_opt (prop m "userHandle") (Some "u1") = false)
                 [chatLine "u2" "Bo" "" "hi" "r"]).
  { apply List.Forall_cons; [|apply List.Forall_nil]. eexists. split; [apply chatLine_of|reflexivity]. }
  pose proof (submit_acknowledged "u1" "r" "hello" _ _ _ w c Hs Hf
    (chatLine_of "u1" "Al" "" "hello" "r") eq_refl eq_refl) as (_ & H1 & _ & H2 & _).
  by split.
Defined.

(** The frames that are sent can be read back: parsing a frame gives the
    request with the user's id, and parsing its data gives the room and the text
    that was meant, for every user, room and text. *)
Theorem frames_readable `{JsonCodec} (cap : UserState) (uid rid text : string) :
  (exists fr d, json_parse (chatFrame cap uid rid text) = Ok fr /\
     prop fr "name" = VStr uid /\ prop fr "request-type" = VStr "chat-message" /\
     json_parse (to_str (prop fr "data")) = Ok d /\
     prop d "userHandle" = VStr uid /\ prop d "roomID" = VStr rid /\ prop d "message" = VStr text) /\
  (exists fr d, json_parse (joinFrame cap uid rid) = Ok fr /\
     prop fr "name" = VStr uid /\ prop fr "request-type" = VStr "join-room" /\
     json_parse (to_str (prop fr "data")) = Ok d /\
     prop d "userHandle" = VStr uid /\ prop d "roomID" = VStr rid).
Proof.
  unfold chatFrame, joinFrame. split; eexists _, _; rewrite json_parse_stringify by done.
  all: split; [reflexivity|]; split; [reflexivity|]; split; [reflexivity|].
  all: match goal with |- context [to_str (prop (VObj [_; _; (_, VStr ?x)]) "data")] =>
         change (to_str (prop (VObj [_; _; (_, VStr x)]) "data")) with x end.
  all: rewrite json_parse_stringify by (by destruct (username cap), (iconUrl cap)); by repeat split.
Qed.

(** the race between opening the connection and joining the chat room is
    harmless: in either order exactly one join request is sent, for the room
    asked for, that room is the joined one, and repeating the join sends nothing more. *)
Theorem join_open_race `{JsonCodec} (cap : UserState) (o : option string) (uid r : string) (l : list Effect)
    (s : World * Chat) :
  userId cap = Some uid -> uid <> "" -> r <> "" -> o = None \/ o = Some r ->
  link_is cap o CONNECTING None None l s ->
  Forall (fun es => link_is cap o OPEN (Some r) (Some r) (l ++ [ESend (joinFrame cap uid r)]) (chat_run es s))
    [[evJoin r; evOpen]; [evOpen; evJoin r]; [evJoin r; evOpen; evJoin r]; [evJoin r; evJoin r; evOpen]].
Proof.
  intros Hu Hu0 Hr Ho Hs. assert (Ht : opt_truthy (Some r) = true) by (apply opt_truthy_spec; eauto).
  repeat apply List.Forall_cons; try apply List.Forall_nil; unfold chat_run; cbn [fold_left].
  - apply (open_joins cap o uid r); [done..|by rewrite Ht|]. by eapply (join_connecting cap o uid r).
  - destruct Ho as [Ho|Ho].
    + eapply (join_open cap o uid r); [done..|]. eapply open_waits; eauto.
    + eapply (join_again cap o); [done..|]. eapply (open_joins cap o uid r) with (p := None); [done..|exact Ho|exact Hs].
  - eapply (join_again cap o); [done..|]. apply open_joins; [done..|by rewrite Ht|]. by eapply (join_connecting cap o uid r).
  - apply (open_joins cap o uid r); [done..|by rewrite Ht|]. eapply (join_connecting cap o uid r); [done..|]. by eapply (join_connecting cap o uid r).
Qed.

Lemma join_open_race_witness :
  let s := (fresh_world None [], set_sock (chatInit None None None ∅) (mkUserState true (Some "u1") None None None, None)
              (Some CONNECTING)) in
  c_joinedRoom (chat_run [evOpen; evJoin "r1"] s).2 = Some "r1".
Proof.
  intros s.
  pose proof (join_open_race (mkUserState true (Some "u1") None None None) None "u1" "r1" [] s eq_refl
    ltac:(done) ltac:(done) (or_introl eq_refl) ltac:(by repeat split)) as Hf.
  apply (proj1 (List.Forall_forall _ _)) with (x := [evOpen; evJoin "r1"]) in Hf; [|cbn; auto].
  by destruct Hf as (_ & _ & _ & ? & _).
Defined.

(** The user changes while the connection is open: it is closed, and replaced at once. *)
Lemma reconnect_open `{JsonCodec} cap cap' o uid p j l s :
  userId cap' = Some uid -> uid <> "" -> link_is cap o OPEN p j l s ->
  let s' := chat_step s (evConnect cap' o) in
  link_is cap' o CONNECTING p j (l ++ [EClose]) s' /\ 0 < c_stale s'.2.
Proof.
  destruct s as [w c]. intros Hu Hu0 (Hc & Hs & Hp & Hj & Hl). cbn in Hc, Hs, Hp, Hj, Hl.
  unfold chat_step. cbn [enabled handler]. unfold reopen, disconnect, connect, io, on_chat, chat_get, zoom.
  js_unfold. cbn. rewrite Hs. cbn. rewrite Hu. cbn. rewrite (proj2 (String.eqb_neq uid "") Hu0). cbn.
  split; [rewrite <- Hl; by repeat split|lia].
Qed.

(** A connection that opens while the room counts as joined sends nothing. *)
Lemma open_keeps `{JsonCodec} cap o r uid l s :
  userId cap = Some uid -> uid <> "" -> r <> "" -> link_is cap o CONNECTING (Some r) (Some r) l s ->
  let s' := chat_step s evOpen in link_is cap o OPEN (Some r) (Some r) l s' /\ c_stale s'.2 = c_stale s.2.
Proof.
  destruct s as [w c]. intros Hu Hu0 Hr (Hc & Hs & Hp & Hj & Hl). cbn in Hc, Hs, Hp, Hj, Hl.
  unfold chat_step. cbn [enabled snd]. rewrite bool_decide_eq_true_2 by done. cbn [handler].
  unfold onopen, io, on_chat, chat_get, zoom. js_unfold. cbn.
  rewrite Hc. cbn. rewrite Hu, Hp. cbn. rewrite (proj2 (String.eqb_neq r "") Hr). cbn.
  rewrite (proj2 (String.eqb_neq uid "") Hu0), ?(proj2 (String.eqb_neq r "") Hr). cbn. rewrite Hj.
  rewrite bool_decide_eq_true_2 by done. cbn. by repeat split.
Qed.

(** The close event of a replaced connection strands the chat: when the user changes while
    the room [r] is joined, and the old connection reports its close after the new one opened, no
    join request was sent over the new connection, and although it is open, the store says that the
    panel is not connected and no room counts as joined. *)
Theorem stale_close_strands `{JsonCodec} (cap cap' : UserState) (o : option string) (uid r : string) (l : list Effect)
    (s : World * Chat) :
  userId cap' = Some uid -> uid <> "" -> r <> "" -> link_is cap o OPEN (Some r) (Some r) l s ->
  let s' := chat_run [evConnect cap' o; evOpen; evStaleClose] s in
  c_sock s'.2 = Some OPEN /\ isConnected (w_room s'.1) = false /\ c_joinedRoom s'.2 = None /\
  w_log s'.1 = l ++ [EClose].
Proof.
  intros Hu Hu0 Hr Hs. unfold chat_run. cbn [fold_left].
  destruct (reconnect_open cap cap' o uid _ _ _ _ Hu Hu0 Hs) as [H1 Hn].
  destruct (open_keeps cap' o r uid _ _ Hu Hu0 Hr H1) as [(Hc & Hk & Hp & Hj & Hl) Hm].
  set (s2 := chat_step (chat_step s (evConnect cap' o)) evOpen) in *. unfold chat_step. cbn [enabled].
  rewrite Hm, bool_decide_eq_true_2 by lia. clearbody s2. destruct s2 as [w2 c2]. cbn in *.
  unfold stale_onclose, io, on_chat, zoom. js_unfold. cbn. by rewrite Hk, Hl.
Qed.

Lemma stale_close_strands_witness :
  let cap := mkUserState true (Some "u1") None None None in
  let s := (fresh_world None [], set_pendingRoom (set_joinedRoom
              (set_sock (chatInit None None None ∅) (cap, None) (Some OPEN)) (Some "r1")) (Some "r1")) in
  isConnected (w_room (chat_run [evConnect (mkUserState true (Some "u2") None None None) None; evOpen; evStaleClose] s).1) = false.
Proof.
  intros cap s.
  by destruct (stale_close_strands cap (mkUserState true (Some "u2") None None None) None "u2" "r1" [] s eq_refl
    ltac:(done) ltac:(done) ltac:(by repeat split)) as (_ & ? & _).
Defined.

(** A response from which a state updater reads a property of nothing. *)
Definition reads_nothing `{JsonCodec} (response : Val) : Prop :=
  let m := prop response "message" in
  is_nullish m = true \/
  (is_str (prop response "responseType") "round-join" = true /\
   exists data, parsedData m = Ok data /\ is_nullish data = true).

Definition same_render (s s' : World * Chat) : Prop := c_renderError s'.2 = c_renderError s.2.

#[export] Instance same_render_preorder : PreOrder same_render.
Proof. split; unfold same_render; [done|]. intros s1 s2 s3 H1 H2. congruence. Qed.

Lemma append_render msg : is_ok msg = true -> steps same_render (appendMessage msg).
Proof. intros Hm. unfold appendMessage. destruct msg; [|done]. steps_tac. done. Qed.

Lemma classic_reads `{JsonCodec} response : reads_nothing response \/ ~ reads_nothing response.
Proof.
  unfold reads_nothing. destruct (is_nullish (prop response "message")); [by do 2 left|].
  destruct (is_str (prop response "responseType") "round-join"); [|right; intros [?|[? _]]; done].
  destruct (parsedData (prop response "message")) as [d|e]; [|right; intros [?|(_ & ? & ? & _)]; done].
  destruct (is_nullish d) eqn:Hd; [left; right; eauto|]. right. intros [?|(_ & d' & [= <-] & ?)]; congruence.
Qed.

Lemma dispatch_render `{JsonCodec} response :
  ~ reads_nothing response -> steps same_render (dispatch response).
Proof.
  unfold reads_nothing. intros Hr. unfold dispatch. apply steps_lift_bind; [exact _|]. intros st _.
  set (m := prop response "message") in *.
  assert (Hm : is_nullish m = false) by (by destruct (is_nullish m); [destruct Hr; left|]).
  unfold onAnnouncement, onMembership, onAdminChange, onRoundJoin, get. rewrite Hm. steps_tac; try done.
  all: unfold same_render; cbn; try by destruct (c_input _).
  match goal with Hd : parsedData m = Ok ?d |- _ => destruct (is_nullish d) eqn:Hn end; [|done].
  destruct Hr. right. eauto.
Qed.

(** An announcement without a message is not kept from the render: the text is
    read with [message?.data], the room with [message.roomID]. *)
Lemma announcement_without_message `{JsonCodec} (s : World * Chat) :
  onmessage (json_stringify (VObj [("status", VStr "ok"); ("responseType", VStr "system-announcement")])) s =
    (Ok tt, (s.1, set_renderError s.2 (Some type_error))).
Proof.
  unfold onmessage, try_catch, lift. unfold mbind, m_bind at 1. by rewrite json_parse_stringify.
Qed.

(** a frame never makes the handler throw; a state updater of the render
    throws only for a frame whose message is missing or whose round-join data is
    null, and it does throw for an announcement without a message. *)
Theorem onmessage_render `{JsonCodec} (f : string) (s : World * Chat) :
  (onmessage f s).1 = Ok tt /\
  (c_renderError (onmessage f s).2.2 = c_renderError s.2 \/
   exists response, json_parse f = Ok response /\ reads_nothing response) /\
  c_renderError
    (onmessage (json_stringify (VObj [("status", VStr "ok"); ("responseType", VStr "system-announcement")])) s).2.2 =
    Some type_error.
Proof.
  split; [|split; [|by rewrite announcement_without_message]].
  - unfold onmessage, try_catch, lift. unfold mbind, m_bind at 1. destruct (json_parse f); [|done].
    destruct (dispatch a s) as [[[]|e] s']; done.
  - destruct (json_parse f) as [response|e] eqn:Hf.
    + destruct (classic_reads response) as [Hr|Hr]; [eauto|left].
      unfold onmessage. apply (steps_try same_render); [|intros e; steps_tac; done].
      apply steps_lift_bind; [exact _|]. intros b Hb. assert (b = response) as -> by congruence.
      by apply dispatch_render.
    + left. unfold onmessage, try_catch, lift. unfold mbind, m_bind at 1. by rewrite Hf.
Qed.
