(* ===== verification/RoomEvents.v ===== *)
(** * Room events

    [hooks/useRoomEvents.ts]: the effects that turn the game events received by
    the socket into the state of the round and the moves of the LeetCode tab,
    and the handlers of the Start, End and Leave buttons.

    The state of a handler is the shared world and the hook's own state [Ev].
    A call that the source does not await is run after the handler that started
    it; a timeout is a step of its own. *)

From S2P Require Export RoomInit.
From Stdlib Require Import Ascii.

(** State, ref and pending timeouts of [useRoomEvents]. *)
Record Ev := mkEv {
  ev_nextProblem : Val;                     (* nextProblem *)
  ev_lastGame : string;                     (* LastGameRef *)
  ev_refresh : option (Z * string);         (* the debounced participants refresh *)
  ev_endTimer : option Z;                   (* the cleanup after handleEndRound *)
}.
Definition evInit : Ev := mkEv VNull "" None None.

Definition set_nextProblem v (e : Ev) : Ev := mkEv v (ev_lastGame e) (ev_refresh e) (ev_endTimer e).
Definition set_lastGame v (e : Ev) : Ev := mkEv (ev_nextProblem e) v (ev_refresh e) (ev_endTimer e).
Definition set_refresh v (e : Ev) : Ev := mkEv (ev_nextProblem e) (ev_lastGame e) v (ev_endTimer e).
Definition set_endTimer v (e : Ev) : Ev := mkEv (ev_nextProblem e) (ev_lastGame e) (ev_refresh e) v.

Abbreviation RE := (M (World * Ev)).
Definition rio {A} (m : IO A) : RE A := zoom fst (fun w s => (w, s.2)) m.
Definition on_ev (f : Ev -> Ev) : RE unit := modify (fun s => (s.1, f s.2)).
Definition ev_get {A} (f : Ev -> A) : RE A := read (fun s => f s.2).

(** [typeof v === 'object' && v !== null] *)
Definition is_object (v : Val) : bool := match v with VObj _ | VArr _ => true | _ => false end.

Definition progressReset (roundKey : string) : IO unit :=
  if_chrome has_runtime
    (emit (EMessage (VObj [("type", VStr "PROBLEM_PROGRESS_RESET"); ("roundKey", VStr roundKey)]))).

Section useRoomEvents.
Context `{JsEnv} `{JsonCodec}.

(** *** The participants *)

(** The debounce: run when the time of the last join or the room changed. *)
Definition scheduleRefresh : RE unit :=
  on_ev (set_refresh None) ;;
  t ← rio (room_get lastParticipantJoinTime); rid ← rio (room_get roomId);
  match t, rid with
  | Some t, Some rid =>
      if (t =? 0)%Z || String.eqb rid "" then mret tt else
      now ← rio date_now; on_ev (set_refresh (Some ((now + 800)%Z, rid)))
  | _, _ => mret tt
  end.

Definition refreshTimeout : RE unit :=
  r ← ev_get ev_refresh;
  match r with
  | Some (_, rid) =>
      on_ev (set_refresh None) ;;
      cap ← rio (read w_user); rio (setRoomParticipants cap rid)
  | None => mret tt
  end.

(** *** The mount effect: the panel was reloaded in a running round *)

Definition resumeOnMount : RE unit :=
  rid ← rio (room_get roomId);
  if negb (opt_truthy rid) then mret tt else
  storage ← rio (read (fun w => has_storage (w_platform w)));
  if negb storage then mret tt else
  LastGameEvent ← rio (storage_get "lastGameEvent");
  resProblems ← rio (storage_get "problems");
  resEnd ← rio (storage_get "roundEndTime");
  if negb (truthy LastGameEvent) then mret tt else
  ref ← ev_get ev_lastGame;
  if loose_eq LastGameEvent ref then mret tt else
  if is_str LastGameEvent "round-start" || is_str LastGameEvent "join-round" then
    let storedProblems := wire_strs (js_or resProblems (VArr [])) in
    let storedEndTime := js_coalesce resEnd VNull in
    now ← rio date_now;
    let shouldResume := truthy storedEndTime && ngt (to_num storedEndTime) (Fin now) in
    if negb shouldResume || (length storedProblems =? 0)%nat then mret tt
    else rio (navigateActiveTab (resume storedProblems))
  else mret tt.

(** *** A round begins, for the room or for one user *)

(** The end of the round; [Date.now()] is [now]. *)
Definition roundEnd (data : Val) (now : Z) : num :=
  if is_object data && truthy (prop data "startTime") then
    let duration := nmul (nmul (to_num (prop data "duration")) (Fin 60)) (Fin 1000) in
    if truthy (prop data "serverNow") then
      let remainingUntilStart :=
        nmul (nsub (to_num (prop data "startTime")) (to_num (prop data "serverNow"))) (Fin 1000) in
      nadd (nadd (Fin now) remainingUntilStart) duration
    else nadd (nmul (to_num (prop data "startTime")) (Fin 1000)) duration
  else nadd (Fin now) (Fin (30 * 60 * 1000)).

Definition roundProblems (data : Val) : list string :=
  if is_object data && truthy (prop data "startTime")
  then wire_strs (js_or (prop data "problems") (VArr [])) else [].

(** [join('|') || 'round'] *)
Definition roundKey (roomId : string) (data : Val) : string :=
  if truthy (get_opt data "startTime")
  then roomId +:+ "|" +:+ to_str (prop data "startTime")
  else let slugs := join "|" (roundProblems data) in
       roomId +:+ "|legacy|" +:+ (if String.eqb slugs "" then "round" else slugs).

(** The result is the round's problems; the caller's move of the tab with
    [resume] of them follows when there are some. *)
Definition applyRoundData (roomId : string) (data : Val) : RE (list string) :=
  now ← rio date_now;
  let problems := roundProblems data in
  let endTime := roundEnd data now in
  rio (on_room (fun s => setRoundEndTime s (Some endTime))) ;;
  rio (on_room (fun s => setIsRoundStarted s true)) ;;
  rio (on_room (fun s => setHasRoundEnded s false)) ;;
  rio (if_chrome has_storage (storage_set "roundEndTime" (val_of_num endTime))) ;;
  rio (progressReset (roundKey roomId data)) ;;
  on_ev (set_nextProblem VNull) ;;
  rio (if_chrome has_storage (storage_remove "nextProblem" ;; if_chrome has_action (set_badge ""))) ;;
  when (0 <? length problems)%nat
    (rio (if_chrome has_storage (storage_set "problems" (VArr (map VStr problems))))) ;;
  mret problems.

Definition rememberEvent (t : GameEventType) : RE unit :=
  rio (if_chrome has_storage (storage_set "lastGameEvent" (VStr (event_name t)))).

(** [navigateActiveTab(url => resolveResumeSlug(url, problems))], if any *)
Definition resumeRound (problems : list string) : RE unit :=
  when (0 <? length problems)%nat (rio (navigateActiveTab (resume problems))).

Definition onRoundStartEvent (roomId : string) (data : Val) : RE unit :=
  on_ev (set_lastGame "round-start") ;;
  cap ← rio (read w_user);
  problems ← applyRoundData roomId data;
  rememberEvent round_start ;;
  resumeRound problems ;;
  rio (setRoomParticipants cap roomId).

Definition onJoinRoundEvent (roomId : string) (data : Val) : RE unit :=
  on_ev (set_lastGame "join-round") ;;
  cap ← rio (read w_user);
  when (eq_opt (get_opt data "userID") (userId cap) && is_str (get_opt data "roundStatus") "in-progress")
    (problems ← applyRoundData roomId data;
     rememberEvent join_round ;;
     resumeRound problems) ;;
  rio (setRoomParticipants cap roomId).

(** An uncaught throw of an effect unmounts the panel. *)
Definition onNextProblemEvent (data : Val) : RE unit :=
  on_ev (set_lastGame "next-problem") ;;
  eventData ← (match data with
               | VStr s => match json_parse s with
                           | Ok v => mret v
                           | Throw _ => rio (console "Failed to parse next-problem data in component") ;; mret data
                           end
               | _ => mret data
               end : RE Val);
  nextProblem ← lift (get eventData "nextProblem");
  userHandle ← lift (get eventData "userHandle");
  uid ← rio (user_get userId);
  rememberEvent next_problem ;;
  match uid with
  | Some uid => when (negb (String.eqb uid "") && loose_eq userHandle uid)
                  (rio (navigateActiveTab (fun _ => nextProblem)))
  | None => mret tt
  end.

Definition onRoundEndEvent (roomId : string) : RE unit :=
  on_ev (set_lastGame "round-end") ;;
  rio (console "We got inside of the round-end game type ") ;;
  rio (on_room (fun s => setRoundEndTime s None)) ;;
  rio (on_room (fun s => setIsRoundStarted s false)) ;;
  rio (on_room (fun s => setHasRoundEnded s true)) ;;
  on_ev (set_nextProblem VNull) ;;
  rio (if_chrome has_storage
    (storage_remove "nextProblem" ;; storage_remove "roundEndTime" ;; storage_remove "problems" ;;
     if_chrome has_action (set_badge ""))) ;;
  now ← rio date_now;
  rio (progressReset (roomId +:+ "|ended|" +:+ z_str now)) ;;
  rio (on_room (fun s => setActiveTab s chat)) ;;
  rememberEvent round_end.

(** The effect that runs when [lastGameEvent] changed. *)
Definition onGameEvent : RE unit :=
  ev ← rio (room_get lastGameEvent); rid ← rio (room_get roomId);
  match ev, rid with
  | Some ev, Some rid =>
      if String.eqb rid "" then mret tt else
      match type ev with
      | round_start => onRoundStartEvent rid (data ev)
      | join_round => onJoinRoundEvent rid (data ev)
      | next_problem => onNextProblemEvent (data ev)
      | round_end => onRoundEndEvent rid
      end
  | _, _ => mret tt
  end.

(** *** The next problem in the storage *)

Definition updateNextProblem : RE unit :=
  storage ← rio (read (fun w => has_storage (w_platform w)));
  when storage (v ← rio (storage_get "nextProblem"); on_ev (set_nextProblem (js_or v VNull))).

(** The listener, for a change of the key in the area [namespace]. *)
Definition onStorageChanged (namespace : string) (change : option Val) : RE unit :=
  match change with
  | Some newValue => when (String.eqb namespace "local") (on_ev (set_nextProblem (js_or newValue VNull)))
  | None => mret tt
  end.

(** *** Buttons *)

Definition alert (msg : string) : IO unit := emit (EAlert msg).

Definition handleStartRound : RE unit :=
  rid ← rio (room_get roomId);
  if negb (opt_truthy rid) then mret tt else
  rio (try_catch
    (base ← getServerUrl;
     res ← fetch (post_req (base +:+ "/rooms/" +:+ to_str (of_opt rid) +:+ "/start"));
     when (negb (res_ok res))
       (data ← res_json res;
        e ← lift (get data "error");
        throw (js_error (to_str (js_or e (VStr ("Failed to start round: " +:+ z_str (status res))))))))
    (fun e =>
       console "Failed to start round" ;;
       msg ← lift (get e "message");
       alert ("Failed to start round: " +:+ to_str msg))).

Definition handleEndRound : RE unit :=
  rid ← rio (room_get roomId);
  if negb (opt_truthy rid) then mret tt else
  try_catch
    (base ← rio getServerUrl;
     res ← rio (fetch (post_req (base +:+ "/rooms/" +:+ to_str (of_opt rid) +:+ "/end")));
     data ← rio (res_json res);
     if negb (res_ok res) then
       rio (console "Failed to end round:") ;;
       e ← lift (get data "error");
       rio (alert ("Failed to end round: " +:+ to_str (js_or e (VNum (status res)))))
     else
       rio (on_room (fun s => setIsRoundStarted s false)) ;;
       rio (on_room (fun s => setHasRoundEnded s true)) ;;
       now ← rio date_now;
       on_ev (set_endTimer (Some (now + 2000)%Z)))
    (fun e =>
       rio (console "Failed to end round (network error):") ;;
       msg ← lift (get e "message");
       rio (alert ("Failed to end round: " +:+ to_str msg))).

(** The timeout of [handleEndRound]. *)
Definition endRoundTimeout : RE unit :=
  t ← ev_get ev_endTimer;
  match t with
  | None => mret tt
  | Some _ =>
      on_ev (set_endTimer None) ;;
      rio (on_room (fun s => setRoundEndTime s None)) ;;
      rio (if_chrome has_storage
        (storage_remove "roundEndTime" ;; storage_remove "lastGameEvent" ;; storage_remove "problems"))
  end.

Definition handleLeaveRoom : RE unit :=
  rid ← rio (room_get roomId); uid ← rio (user_get userId);
  if negb (opt_truthy rid) && negb (opt_truthy uid) then mret tt else
  rio (try_catch
    (base ← getServerUrl;
     response ← fetch (post_req (base +:+ "/rooms/" +:+ to_str (of_opt rid) +:+ "/leave"));
     message ← res_json response;
     if res_ok response then
       if_chrome has_storage
         (storage_remove "activeRoomId" ;; storage_remove "roundEndTime" ;;
          storage_remove "lastGameEvent" ;; storage_remove "problems") ;;
       now ← date_now;
       progressReset (to_str (of_opt rid) +:+ "|left|" +:+ z_str now) ;;
       on_room (fun _ => resetRoom) ;;
       pushRoute "/start-page" ;;
       mret tt
     else console (to_str message))
    (fun _ => console "Unable to send request to leave room")).
End useRoomEvents.

(** ** Runs of the hook *)

Inductive RoomEvent :=
| rvGame (ev : GameEvent)          (* the socket stored an event, the effect runs *)
| rvReplay                         (* the effect runs again for the stored event *)
| rvMount | rvJoinTime | rvRefresh | rvNext
| rvStorage (namespace : string) (change : option Val)
| rvStart | rvEnd | rvEndTimeout | rvLeave.

Section runs.
Context `{JsEnv} `{JsonCodec}.

Definition room_handler (e : RoomEvent) : RE unit :=
  match e with
  | rvGame ev => rio (on_room (fun s => setLastGameEvent s (Some ev))) ;; onGameEvent
  | rvReplay => onGameEvent
  | rvMount => resumeOnMount
  | rvJoinTime => scheduleRefresh
  | rvRefresh => refreshTimeout
  | rvNext => updateNextProblem
  | rvStorage ns c => onStorageChanged ns c
  | rvStart => handleStartRound
  | rvEnd => handleEndRound
  | rvEndTimeout => endRoundTimeout
  | rvLeave => handleLeaveRoom
  end.

Definition room_run (es : list RoomEvent) (s : World * Ev) : World * Ev :=
  fold_left (fun s e => (room_handler e s).2) es s.
End runs.

(** ** Lemmas *)

(** Steps through a handler of the hook. *)
Ltac re_step :=
  first
    [ wp_step
    | lazymatch goal with
      | |- wp (on_ev _) _ _ => apply wp_modify
      | |- wp (ev_get _) _ _ => apply wp_read
      | |- wp (rio _) _ _ => apply wp_zoom
      | |- wp (rememberEvent _) _ _ => unfold rememberEvent
      | |- wp (progressReset _) _ _ => unfold progressReset
      | |- wp (alert _) _ _ => unfold alert
      end ].

(** The round of the room store and the storage is over. *)
Definition round_over (w : World) : Prop :=
  roundEndTime (w_room w) = None /\ isRoundStarted (w_room w) = false /\ hasRoundEnded (w_room w) = true /\
  (has_storage (w_platform w) = true ->
     w_storage w !! "nextProblem" = None /\ w_storage w !! "roundEndTime" = None /\
     w_storage w !! "problems" = None /\ w_storage w !! "lastGameEvent" = Some (VStr "round-end") /\
     (has_action (w_platform w) = true -> w_badge w = "")).

Lemma onRoundEndEvent_wp rid s :
  wp (onRoundEndEvent rid)
     (fun r s' => r = Ok tt /\ round_over s'.1 /\ activeTab (w_room s'.1) = chat /\ w_tab s'.1 = w_tab s.1 /\
        ev_nextProblem s'.2 = VNull /\ w_net s'.1 = w_net s.1 /\
        requests (w_log s'.1) = requests (w_log s.1)) s.
Proof.
  destruct s as [[] ev]. unfold onRoundEndEvent. repeat (re_step; cbn).
  all: unfold round_over; cbn in *; (repeat split); intros; simplify_map_eq; try congruence.
  all: rewrite !requests_app; cbn; by rewrite ?app_nil_r.
Qed.

(** *** The tab *)

Abbreviation same_tab_re := (on_fst same_tab).

Ltac tab_re := unfold on_fst; first [tab_tac | by case_match].

Lemma participants_tab `{JsEnv} cap rid : steps same_tab (setRoomParticipants cap rid).
Proof.
  steps_tac; try tab_tac. match goal with |- context [w_net ?w] => by destruct (w_net w) as [|[|]] end.
Qed.

Lemma applyRoundData_wp `{JsEnv} rid d s :
  wp (applyRoundData rid d) (fun r s' => r = Ok (roundProblems d) /\ same_tab_re s s') s.
Proof.
  destruct s as [[] ev]. unfold applyRoundData. repeat (re_step; cbn).
  all: split; [done|tab_re].
Qed.

Lemma rememberEvent_wp t s : wp (rememberEvent t) (fun r s' => r = Ok tt /\ same_tab_re s s') s.
Proof. destruct s as [[] ev]. repeat (re_step; cbn); (split; [done|tab_re]). Qed.

(** The room and the event the effect runs for stay the same. *)
Definition same_event (w w' : World) : Prop :=
  roomId (w_room w') = roomId (w_room w) /\ lastGameEvent (w_room w') = lastGameEvent (w_room w) /\
  w_tabErr w' = w_tabErr w.

#[export] Instance same_event_preorder : PreOrder same_event.
Proof.
  split; unfold same_event; [done|]. intros w1 w2 w3 (?&?&?) (?&?&?). repeat split; congruence.
Qed.

Lemma onRoundStartEvent_event `{JsEnv} rid d : steps (on_fst same_event) (onRoundStartEvent rid d).
Proof.
  steps_tac; try by (unfold on_fst).
  all: by repeat case_match.
Qed.

Lemma onGameEvent_start `{JsEnv} `{JsonCodec} rid d t s :
  roomId (w_room s.1) = Some rid -> rid <> "" ->
  lastGameEvent (w_room s.1) = Some (mkGameEvent round_start d t) ->
  onGameEvent s = onRoundStartEvent rid d s.
Proof.
  intros Hr Hr0 Hl. destruct s as [w e]. unfold onGameEvent, rio, zoom, room_get, read, mbind at 1 2, m_bind at 1 2.
  cbn in *. rewrite Hl, Hr, (proj2 (String.eqb_neq rid "") Hr0). done.
Qed.

(** An empty list of problems moves nothing. *)
Lemma navigate_none w : navigateActiveTab (resume []) w = (Ok tt, w).
Proof.
  apply navigate_stay. unfold nav_move. destruct (negb _); [done|].
  destruct (w_tab w) as [[[i|] [u|]]|]; try done. by destruct (_ || _).
Qed.

Lemma navigate_ok decide w : (navigateActiveTab decide w).1 = Ok tt.
Proof.
  destruct (nav_move decide w) as [[[t tid] u]|] eqn:Hm; [|by rewrite (navigate_stay _ _ Hm)].
  by destruct (w_tabErr w) as [e|] eqn:He; [rewrite (navigate_fail _ _ _ _ _ _ Hm He)|rewrite (navigate_go _ _ _ _ _ Hm He)].
Qed.

(** The move of [resumeRound], also when there is none. *)
Lemma resumeRound_eq ps s :
  resumeRound ps s = (Ok tt, ((navigateActiveTab (resume ps) s.1).2, s.2)).
Proof.
  unfold resumeRound, when, rio, zoom. destruct ps as [|p ps]; cbn [length Nat.ltb Nat.leb].
  - rewrite navigate_none. by destruct s.
  - pose proof (navigate_ok (resume (p :: ps)) s.1). destruct (navigateActiveTab _ _); cbn in *. by subst.
Qed.

(** One run of the round-start effect moves the tab like one resume move. *)
Lemma onRoundStartEvent_tab `{JsEnv} rid d s :
  same_tab (navigateActiveTab (resume (roundProblems d)) s.1).2 (onRoundStartEvent rid d s).2.1.
Proof.
  change (wp (onRoundStartEvent rid d)
    (fun _ s' => same_tab (navigateActiveTab (resume (roundProblems d)) s.1).2 s'.1) s).
  unfold onRoundStartEvent. repeat (re_step; cbn).
  eapply wp_mono; [apply applyRoundData_wp|]. intros r s1 [-> H1]. apply wp_bind.
  eapply wp_mono; [apply rememberEvent_wp|]. intros r s2 [-> H2]. apply wp_bind.
  unfold wp at 1. rewrite resumeRound_eq. cbn [fst snd]. apply wp_zoom.
  eapply wp_mono; [apply (wp_steps same_tab), participants_tab|]. intros r w3 H3.
  cbn [fst]. etransitivity; [|exact H3]. apply navigate_view. exact (transitivity H1 H2).
Qed.

Lemma same_tab_updates w w' : same_tab w w' ->
  w_tab w' = w_tab w /\ count is_tab_update (w_log w') = count is_tab_update (w_log w).
Proof. unfold same_tab, tab_view. by intros [= H1 H2 H3 H4]. Qed.

(** [n] resume moves, one after the other *)
Fixpoint resumes (ps : list string) (n : nat) (w : World) : World :=
  match n with O => w | S n => (navigateActiveTab (resume ps) (resumes ps n w)).2 end.

(** A start and its replays move the tab like as many resume moves. *)
Lemma replays_tab `{JsEnv} `{JsonCodec} rid d t n s :
  roomId (w_room s.1) = Some rid -> rid <> "" ->
  same_tab (resumes (roundProblems d) (S n) s.1) (room_run (rvGame (mkGameEvent round_start d t) :: replicate n rvReplay) s).1.
Proof.
  intros Hr Hr0. set (s0 := (with_room s.1 (setLastGameEvent (w_room s.1) (Some (mkGameEvent round_start d t))), s.2)).
  assert (Hsame : same_tab s.1 s0.1) by done.
  assert (E1 : room_run [rvGame (mkGameEvent round_start d t)] s = (onRoundStartEvent rid d s0).2)
    by (unfold room_run; cbn [fold_left room_handler]; f_equal; by apply (onGameEvent_start rid d t s0)).
  enough (Hs : let s2 := room_run (rvGame (mkGameEvent round_start d t) :: replicate n rvReplay) s in
    same_tab (resumes (roundProblems d) (S n) s.1) s2.1 /\ same_event s0.1 s2.1) by apply Hs.
  cbv zeta. induction n as [|n [IH1 IH2]].
  - cbn [replicate]. rewrite E1. split; [|apply onRoundStartEvent_event].
    etransitivity; [apply (navigate_view _ _ _ Hsame)|apply onRoundStartEvent_tab].
  - rewrite replicate_S_end, app_comm_cons. unfold room_run in *. rewrite fold_left_app. set (s2 := fold_left _ (_ :: replicate n rvReplay) s) in *.
    cbn [fold_left room_handler]. destruct IH2 as (Ha & Hb & Hc). rewrite (onGameEvent_start rid d t s2); [|by rewrite Ha|done|by rewrite Hb].
    split; [|transitivity s2.1; [by split_and!|apply onRoundStartEvent_event]].
    etransitivity; [apply (navigate_view _ _ _ IH1)|apply onRoundStartEvent_tab].
Qed.

Lemma resumes_stay ps n w : nav_move (resume ps) w = None -> resumes ps n w = w.
Proof. intros Hn. induction n as [|n IH]; [done|]. cbn [resumes]. by rewrite IH, (navigate_stay _ _ Hn). Qed.

Lemma resumes_settle ps n w : Forall valid_slug ps -> w_tabErr w = None -> resumes ps (S n) w = (navigateActiveTab (resume ps) w).2.
Proof.
  intros Hp He. induction n as [|n IH]; [done|]. cbn [resumes] in *. rewrite IH.
  rewrite (navigate_stay (resume ps) (navigateActiveTab (resume ps) w).2); [done|]. by apply resume_settled.
Qed.

Lemma resumes_refused ps n w e : w_tabErr w = Some e -> w_tab (resumes ps n w) = w_tab w /\ w_tabErr (resumes ps n w) = Some e.
Proof.
  intros He. induction n as [|n [IH1 IH2]]; [done|]. cbn [resumes]. set (w' := resumes ps n w) in *.
  destruct (nav_move (resume ps) w') as [[[t tid] u]|] eqn:Hm; [|by rewrite (navigate_stay _ _ Hm)].
  by rewrite (navigate_fail _ _ _ _ _ _ Hm IH2).
Qed.

(** The page [u] is a problem of the round. *)
Definition on_round (ps : list string) (u : string) : Prop := exists p, p ∈ ps /\ parseProblemSlug u = Some p.

Lemma resume_on ps u : on_round ps u -> resume ps u = VNull.
Proof.
  intros (p & Hp & Hu). unfold resume, resolveResumeSlug. destruct ps as [|p0 ps]; [done|]. rewrite Hu.
  apply includes_spec in Hp. change (default "" (Some p)) with p. rewrite Hp. apply parse_valid in Hu as [Hne _].
  cbn [opt_truthy]. by rewrite (proj2 (String.eqb_neq p "") Hne).
Qed.
Lemma resume_off p0 ps u : ~ on_round (p0 :: ps) u -> str_includes "leetcode.com" u = true -> resume (p0 :: ps) u = VStr p0.
Proof.
  intros Hn Hu. unfold resume, resolveResumeSlug. rewrite Hu. destruct (parseProblemSlug u) as [p|] eqn:Hp; [|done].
  destruct (includes (p0 :: ps) (default "" (Some p))) eqn:Hi; [|by rewrite andb_false_r].
  destruct Hn. exists p. split; [by apply includes_spec|done].
Qed.

(** ** Theorems *)

(** C1: a replayed round start cannot bounce the user.  When a round-start event arrives in a room, whose problems are slugs, and is replayed any number of times:
    a tab that shows one of these problems, or no page of LeetCode, is not moved or reloaded, by the event or by a replay.  A tab on another page of LeetCode
    is sent to the first problem, by one update, unless the browser refuses it; and after the event a replay neither moves nor
    reloads the tab.  When the browser refuses the updates, the tab stays where it is. *)
Theorem replayed_start_stays `{JsEnv} `{JsonCodec} (rid : string) (d : Val) (t : Z) (n : nat) (s : World * Ev) :
  roomId (w_room s.1) = Some rid -> rid <> "" -> Forall valid_slug (roundProblems d) ->
  let ps := roundProblems d in
  let s1 := room_run [rvGame (mkGameEvent round_start d t)] s in
  let s2 := room_run (rvGame (mkGameEvent round_start d t) :: replicate n rvReplay) s in
  let updates (s : World * Ev) := count is_tab_update (w_log s.1) in
  (forall tid u, w_tab s.1 = Some (mkTab tid (Some u)) -> on_round ps u \/ str_includes "leetcode.com" u = false ->
     w_tab s2.1 = w_tab s.1 /\ updates s2 = updates s) /\
  (forall tid u p0 ps', w_tab s.1 = Some (mkTab (Some tid) (Some u)) -> tid <> 0%Z -> has_tabs (w_platform s.1) = true ->
     ps = p0 :: ps' -> ~ on_round ps u -> str_includes "leetcode.com" u = true -> w_tabErr s.1 = None ->
     w_tab s1.1 = Some (mkTab (Some tid) (Some (problemUrl p0))) /\ updates s1 = S (updates s)) /\
  (w_tabErr s.1 = None -> w_tab s2.1 = w_tab s1.1 /\ updates s2 = updates s1) /\
  (w_tabErr s.1 <> None -> w_tab s2.1 = w_tab s.1).
Proof.
  intros Hr Hr0 Hp. cbv zeta. pose proof (fun n => replays_tab rid d t n s Hr Hr0) as Hs. set (ps := roundProblems d) in *.
  destruct (same_tab_updates _ _ (Hs 0)) as [T1 C1], (same_tab_updates _ _ (Hs n)) as [T2 C2]. cbn [replicate] in T1, C1.
  rewrite T1, T2, C1, C2. clear T1 T2 C1 C2 Hs. split_and!.
  - intros tid u Ht Hu. assert (Hn : nav_move (resume ps) s.1 = None).
    { eapply nav_move_stay; [exact Ht|left]. destruct Hu as [Hu|Hu]; [by rewrite resume_on|].
      destruct (truthy (resume ps u)) eqn:Htr; [|done]. apply resume_target in Htr as (_ & _ & _ & _ & Hl & _). by rewrite Hl in Hu. }
    by rewrite (resumes_stay _ _ _ Hn).
  - intros tid u p0 ps' Ht Htid Hh Eps Hon Hl He. assert (Hne : u <> "") by (intros ->; done).
    assert (Hm : nav_move (resume ps) s.1 = Some (mkTab (Some tid) (Some u), tid, problemUrl p0)).
    { unfold nav_move. rewrite Hh, Ht. cbn [negb]. rewrite (proj2 (Z.eqb_neq _ _) Htid), (proj2 (String.eqb_neq _ _) Hne). cbn [orb].
      rewrite Eps in *. rewrite resume_off by done. apply Forall_cons in Hp as [[Hp0 _] _]. cbn [truthy].
      rewrite (proj2 (String.eqb_neq _ _) Hp0). cbn [negb orb eq_opt]. destruct (parseProblemSlug u) as [p|] eqn:Ep; [|done].
      destruct (String.eqb p p0) eqn:E; [|by rewrite E || rewrite String.eqb_sym, E]. apply String.eqb_eq in E. subst p.
      destruct Hon. exists p0. split; [left|done]. }
    cbn [resumes]. rewrite (navigate_go _ _ _ _ _ Hm He). cbn. rewrite count_app. split; [done|]. unfold count at 2. cbn. lia.
  - intros He. by rewrite !resumes_settle.
  - intros He. destruct (w_tabErr s.1) as [e|] eqn:Ee; [|done]. by apply (resumes_refused ps (S n) s.1 e).
Qed.

Lemma replayed_start_stays_witness :
  let w := with_room (fresh_world (Some (mkTab (Some 7%Z) (Some "https://leetcode.com/problemset/"))) [])
             (setRoomId roomStoreInit (Some "r1")) in
  let d := VObj [("startTime", VNum 100); ("duration", VNum 30); ("problems", VArr [VStr "two-sum"; VStr "3sum"])] in
  let s2 := @room_run demo_env json_codec (rvGame (mkGameEvent round_start d 0) :: replicate 3 rvReplay) (w, evInit) in
  w_tab s2.1 = Some (mkTab (Some 7%Z) (Some "https://leetcode.com/problems/two-sum/")).
Proof.
  intros w d s2.
  destruct (@replayed_start_stays demo_env json_codec "r1" d 0 3 (w, evInit)) as (_ & _ & Hs & _); [done|done|by repeat constructor|].
  etransitivity; [exact (proj1 (Hs eq_refl))|vm_compute; reflexivity].
Defined.

(** the end of a round does not depend on the panel's clock: with a server
    time the remaining time is what is left until the start plus the duration,
    the same on every client; without one the end is the start plus the
    duration. *)
Theorem roundEnd_clock `{JsEnv} (fs : list (string * Val)) (start duration : Z) (now : Z) :
  field "startTime" fs = VNum start -> field "duration" fs = VNum duration -> start <> 0%Z ->
  (forall server, field "serverNow" fs = VNum server -> server <> 0%Z ->
     nsub (roundEnd (VObj fs) now) (Fin now) = Fin ((start - server) * 1000 + duration * 60 * 1000)) /\
  (truthy (field "serverNow" fs) = false ->
     roundEnd (VObj fs) now = Fin (start * 1000 + duration * 60 * 1000)).
Proof.
  intros Hs Hd H0. unfold roundEnd. cbn [is_object prop]. rewrite Hs, Hd. cbn [truthy andb].
  rewrite (proj2 (Z.eqb_neq start 0) H0). cbn [negb]. split.
  - intros server Hn Hn0. rewrite Hn. cbn [truthy]. rewrite (proj2 (Z.eqb_neq server 0) Hn0). cbn. f_equal. lia.
  - by intros ->.
Qed.

Lemma roundEnd_clock_witness :
  nsub (@roundEnd demo_env (VObj [("startTime", VNum 1000); ("duration", VNum 30); ("serverNow", VNum 990)]) 5) (Fin 5) =
    Fin ((1000 - 990) * 1000 + 30 * 60 * 1000).
Proof.
  apply (proj1 (@roundEnd_clock demo_env [("startTime", VNum 1000); ("duration", VNum 30); ("serverNow", VNum 990)]
    1000 30 5 eq_refl eq_refl ltac:(lia))); [reflexivity|lia].
Defined.

Lemma z_str_no_bar z : str_forall (fun x => negb (Ascii.eqb x "|")) (z_str z) = true.
Proof. by apply z_str_no. Qed.

(** the key under which a round's progress is kept tells rounds apart: for
    server rounds two keys are equal exactly when room and start time are, also
    on a replay at another moment, and the key of a started round is never one
    written at the end of a round, one written on leaving, or the fallback key, of a room
    whose id has no separator. *)
Theorem roundKey_distinct (r1 r2 : string) (d1 d2 : Val) (t1 t2 now : Z) :
  get_opt d1 "startTime" = VNum t1 -> t1 <> 0%Z -> get_opt d2 "startTime" = VNum t2 -> t2 <> 0%Z ->
  (roundKey r1 d1 = roundKey r2 d2 <-> r1 = r2 /\ t1 = t2) /\
  (str_forall (fun x => negb (Ascii.eqb x "|")) r1 = true ->
   roundKey r1 d1 <> r2 +:+ "|ended|" +:+ z_str now /\ roundKey r1 d1 <> r2 +:+ "|left|" +:+ z_str now) /\
  roundKey r1 d1 <> roundKey r2 VNull.
Proof.
  unfold roundKey, get_opt. intros H1 Hn1 H2 Hn2. rewrite H1, H2. cbn [truthy prop].
  rewrite (proj2 (Z.eqb_neq t1 0) Hn1), (proj2 (Z.eqb_neq t2 0) Hn2). cbn [negb to_str].
  change ("|" +:+ z_str t1) with (String "|" (z_str t1)). change ("|" +:+ z_str t2) with (String "|" (z_str t2)).
  assert (Hz : forall a b u v, a +:+ String "|" (z_str u) = b +:+ String "|" (z_str v) -> a = b /\ z_str u = z_str v).
  { intros a b u v. apply last_sep_inj; apply z_str_no_bar. }
  split; [|split].
  - split; [|by intros [-> ->]]. intros Hk. apply Hz in Hk as [-> Hk]. by apply z_str_inj in Hk.
  - intros Hb. split; intros Hk.
    + change ("|ended|" +:+ z_str now) with ("|ended" +:+ String "|" (z_str now)) in Hk.
      rewrite <- str_app_assoc in Hk. apply Hz in Hk as [-> _]. by rewrite str_forall_app, andb_false_r in Hb.
    + change ("|left|" +:+ z_str now) with ("|left" +:+ String "|" (z_str now)) in Hk.
      rewrite <- str_app_assoc in Hk. apply Hz in Hk as [-> _]. by rewrite str_forall_app, andb_false_r in Hb.
  - intros Hk. change (r2 +:+ "|legacy|" +:+ _) with (r2 +:+ ("|legacy" +:+ String "|" "round")) in Hk.
    rewrite <- str_app_assoc in Hk. apply last_sep_inj in Hk as [_ Hk]; [|apply z_str_no_bar|done].
    pose proof (z_str_num_char t1) as Hc. by rewrite Hk in Hc.
Qed.

Lemma roundKey_distinct_witness :
  roundKey "r1" (VObj [("startTime", VNum 7)]) <> roundKey "r1" (VObj [("startTime", VNum 8)]).
Proof.
  intros Hk.
  apply (roundKey_distinct "r1" "r1" (VObj [("startTime", VNum 7)]) (VObj [("startTime", VNum 8)]) 7 8 0) in Hk;
    [destruct Hk; lia|done|lia|done|lia].
Defined.

(** The room store without its participants and last event. *)
Definition untouched (w w' : World) : Prop :=
  exists ps, same_stores w' (with_room w (setParticipants (w_room w) ps)).

#[export] Instance untouched_preorder : PreOrder untouched.
Proof.
  split; unfold untouched.
  - intros w. exists (participants (w_room w)). by rewrite setParticipants_id, with_room_id.
  - intros w1 w2 w3 [ps H1] [qs H2]. exists qs.
    rewrite H2, (w_room_proper _ _ H1), H1. reflexivity.
Qed.

Lemma participants_untouched `{JsEnv} cap rid : steps untouched (setRoomParticipants cap rid).
Proof. intros w. destruct (setRoomParticipants_wp cap rid w) as (_ & Hp & _). exact Hp. Qed.

(** a join-round event that is addressed to another user, or comes for a
    round that is not running, changes no state of this user: neither the round nor
    the storage, the badge or the LeetCode tab - only the participants are loaded
    again. *)
Theorem join_round_of_others `{JsEnv} `{JsonCodec} (rid : string) (d : Val) (t : Z) (s : World * Ev) :
  roomId (w_room s.1) = Some rid -> rid <> "" ->
  lastGameEvent (w_room s.1) = Some (mkGameEvent join_round d t) ->
  eq_opt (get_opt d "userID") (userId (w_user s.1)) = false \/
  is_str (get_opt d "roundStatus") "in-progress" = false ->
  let '(r, s') := onGameEvent s in
  r = Ok tt /\ untouched s.1 s'.1 /\ ev_nextProblem s'.2 = ev_nextProblem s.2 /\
  requests (w_log s'.1) = requests (w_log s.1) ++ [get_req (w_serverUrl s.1 +:+ "/rooms/" +:+ rid +:+ "/participants")].
Proof.
  intros Hr Hr0 Hl Ho.
  assert (E : onGameEvent s = onJoinRoundEvent rid d s).
  { destruct s as [w e]. unfold onGameEvent, rio, zoom, room_get, read, mbind at 1 2, m_bind at 1 2.
    cbn in *. by rewrite Hl, Hr, (proj2 (String.eqb_neq rid "") Hr0). }
  rewrite E. clear E. enough (Hw : wp (onJoinRoundEvent rid d) (fun r s' =>
    r = Ok tt /\ untouched s.1 s'.1 /\ ev_nextProblem s'.2 = ev_nextProblem s.2 /\
    requests (w_log s'.1) = requests (w_log s.1) ++ [get_req (w_serverUrl s.1 +:+ "/rooms/" +:+ rid +:+ "/participants")]) s).
  { unfold wp in Hw. by destruct (onJoinRoundEvent rid d s). }
  unfold onJoinRoundEvent. repeat (re_step; cbn).
  { destruct Ho as [Ho|Ho]; rewrite Ho, ?andb_false_r in *; done. }
  eapply wp_mono; [apply setRoomParticipants_wp|]. cbn. intros r w' [-> [Hp Hq]]. by repeat split.
Qed.

Lemma join_round_of_others_witness :
  let w := with_room (fresh_world None [Reply 50 200 (Some (VObj [("data", VArr [])]))])
    (setLastGameEvent (setRoomId roomStoreInit (Some "r1"))
       (Some (mkGameEvent join_round (VObj [("userID", VStr "u2"); ("roundStatus", VStr "in-progress")]) 0))) in
  isRoundStarted (w_room (@onGameEvent demo_env json_codec (w, evInit)).2.1) = false.
Proof.
  intros w. pose proof (@join_round_of_others demo_env json_codec "r1"
    (VObj [("userID", VStr "u2"); ("roundStatus", VStr "in-progress")]) 0 (w, evInit) eq_refl ltac:(done) eq_refl
    (or_introl eq_refl)) as Hj.
  destruct (onGameEvent (w, evInit)) as [r s']. destruct Hj as (_ & [ps Hs] & _). cbn.
  by rewrite (w_room_proper _ _ Hs).
Defined.

(** a round-end event ends the round everywhere: the store has no end time
    and a round that has ended and not started, the next problem, the end time and the
    problems are gone from the storage and the badge is empty, the chat is
    shown, and the LeetCode tab stays where it is. *)
Theorem round_end_clears `{JsEnv} `{JsonCodec} (rid : string) (d : Val) (t : Z) (s : World * Ev) :
  roomId (w_room s.1) = Some rid -> rid <> "" ->
  lastGameEvent (w_room s.1) = Some (mkGameEvent round_end d t) ->
  let '(r, s') := onGameEvent s in
  r = Ok tt /\ round_over s'.1 /\ activeTab (w_room s'.1) = chat /\ w_tab s'.1 = w_tab s.1 /\
  ev_nextProblem s'.2 = VNull.
Proof.
  intros Hr Hr0 Hl.
  assert (E : onGameEvent s = onRoundEndEvent rid s).
  { destruct s as [w e]. unfold onGameEvent, rio, zoom, room_get, read, mbind at 1 2, m_bind at 1 2.
    cbn in *. by rewrite Hl, Hr, (proj2 (String.eqb_neq rid "") Hr0). }
  rewrite E. pose proof (onRoundEndEvent_wp rid s) as Hw. unfold wp in Hw.
  destruct (onRoundEndEvent rid s) as [r s']. cbn in Hw. tauto.
Qed.

Lemma round_end_clears_witness :
  let w := with_storage (with_room (fresh_world None [])
    (setLastGameEvent (setIsRoundStarted (setRoomId roomStoreInit (Some "r1")) true)
       (Some (mkGameEvent round_end VNull 0)))) {["problems" := VArr [VStr "two-sum"]]} in
  round_over (@onGameEvent demo_env json_codec (w, evInit)).2.1.
Proof.
  intros w. pose proof (@round_end_clears demo_env json_codec "r1" VNull 0 (w, evInit) eq_refl ltac:(done) eq_refl) as Hj.
  destruct (onGameEvent (w, evInit)) as [r s']. by destruct Hj as (_ & Hs & _).
Defined.

(** No round is both running and over. *)
Definition exclusive (w : World) : Prop := isRoundStarted (w_room w) = true -> hasRoundEnded (w_room w) = false.

Definition keeps_exclusive (w w' : World) : Prop := exclusive w -> exclusive w'.

#[export] Instance keeps_exclusive_preorder : PreOrder keeps_exclusive.
Proof. split; unfold keeps_exclusive; [by intros w Hw|]. intros w1 w2 w3 H1 H2 Hw. auto. Qed.

Ltac excl := unfold on_fst, keeps_exclusive, exclusive; cbn; repeat case_match; cbn; auto.

Lemma untouched_exclusive w w' : untouched w w' -> keeps_exclusive w w'.
Proof. intros [ps Hs]. unfold keeps_exclusive, exclusive. by rewrite (w_room_proper _ _ Hs). Qed.

Lemma participants_exclusive `{JsEnv} cap rid : steps keeps_exclusive (setRoomParticipants cap rid).
Proof. intros w. apply untouched_exclusive, participants_untouched. Qed.

Lemma navigate_exclusive decide : steps keeps_exclusive (navigateActiveTab decide).
Proof. steps_tac; excl. Qed.

Definition excl_after {A} (_ : Res A) (s : World * Ev) : Prop := exclusive s.1.

Lemma applyRoundData_exclusive `{JsEnv} rid d s : wp (applyRoundData rid d) excl_after s.
Proof. destruct s as [[] ev]. unfold applyRoundData, excl_after, exclusive. by repeat (re_step; cbn). Qed.

(** From the application of the round's data on. *)
Lemma applied_exclusive `{JsEnv} rid d (m : list string -> RE unit) s :
  (forall ps, steps (on_fst keeps_exclusive) (m ps)) ->
  wp (ps ← applyRoundData rid d; m ps) excl_after s.
Proof.
  intros Hm. apply wp_bind. eapply wp_mono; [apply applyRoundData_exclusive|].
  intros [ps|e] s' Hs; [|done]. exact (Hm ps s' Hs).
Qed.

Lemma start_exclusive `{JsEnv} rid d s : wp (onRoundStartEvent rid d) excl_after s.
Proof.
  unfold onRoundStartEvent. do 3 re_step. apply applied_exclusive. intros ps.
  unfold resumeRound, rio. steps_tac; excl.
Qed.

Lemma join_exclusive `{JsEnv} rid d s : exclusive s.1 -> wp (onJoinRoundEvent rid d) excl_after s.
Proof.
  intros Hs. unfold onJoinRoundEvent. repeat (re_step; cbn).
  - eapply wp_mono; [apply applyRoundData_exclusive|]. intros [ps|e] s' Hs'; [|done].
    eapply wp_mono; [apply (wp_steps (on_fst keeps_exclusive)); unfold resumeRound, rio; steps_tac; excl|].
    intros [[]|e] s2 H2; [|by apply H2]. apply wp_zoom.
    eapply wp_mono; [apply (wp_steps keeps_exclusive), participants_exclusive|]. intros r w' Hw. by apply Hw, H2.
  - eapply wp_mono; [apply (wp_steps keeps_exclusive), participants_exclusive|]. intros r w' Hw. by apply Hw.
Qed.

Lemma end_exclusive `{JsEnv} s : exclusive s.1 -> wp handleEndRound excl_after s.
Proof.
  intros Hs. destruct s as [[] ev]. unfold handleEndRound, excl_after, exclusive in *. repeat (re_step; cbn); try done.
  - destruct (get e "message"); repeat (re_step; cbn); done.
  - destruct (get v "error") as [|e]; repeat (re_step; cbn); try done.
    destruct (get e "message"); repeat (re_step; cbn); done.
Qed.

Lemma room_handler_exclusive `{JsEnv} `{JsonCodec} e s : exclusive s.1 -> wp (room_handler e) excl_after s.
Proof.
  assert (Hg : forall s, exclusive s.1 -> wp onGameEvent excl_after s).
  { clear. intros s Hs. unfold onGameEvent. repeat (re_step; cbn).
    destruct (lastGameEvent (w_room s.1)) as [ev|]; [|by re_step].
    destruct (roomId (w_room s.1)) as [rid|]; [|by re_step]. re_step; [by re_step|].
    destruct (type ev).
    - apply start_exclusive.
    - apply (wp_steps (on_fst keeps_exclusive)) in Hs || (eapply wp_mono;
        [apply (wp_steps (on_fst keeps_exclusive)); unfold onNextProblemEvent; steps_tac; excl|];
        intros r s' Hw; by apply Hw).
    - eapply wp_mono; [apply onRoundEndEvent_wp|]. intros r s' (_ & (_ & Hr & _) & _).
      unfold excl_after, exclusive. by rewrite Hr.
    - by apply join_exclusive. }
  intros Hs. destruct e; cbn [room_handler]; try (by apply Hg); try (by apply end_exclusive).
  all: eapply wp_mono; [apply (wp_steps (on_fst keeps_exclusive)); steps_tac; excl|]; intros r s' Hw; by apply Hw.
Qed.

(** C3: over every run of the room's events - game events in any order and any
    number of replays, buttons with any answers, timeouts, mounts - a round is
    never both running and over. *)
Theorem round_exclusive `{JsEnv} `{JsonCodec} (es : list RoomEvent) (s : World * Ev) :
  (isRoundStarted (w_room s.1) && hasRoundEnded (w_room s.1) = false) ->
  isRoundStarted (w_room (room_run es s).1) && hasRoundEnded (w_room (room_run es s).1) = false.
Proof.
  assert (Hx : forall w, exclusive w <-> isRoundStarted (w_room w) && hasRoundEnded (w_room w) = false).
  { intros w. unfold exclusive. destruct (isRoundStarted _), (hasRoundEnded _); cbn; naive_solver. }
  rewrite <- !Hx. revert s; induction es as [|e es IH]; intros s Hs; [done|].
  apply IH. exact (room_handler_exclusive e s Hs).
Qed.

Lemma round_exclusive_witness :
  let d := VObj [("startTime", VNum 100); ("duration", VNum 30)] in
  let s := (with_room (fresh_world None []) (setRoomId roomStoreInit (Some "r1")), evInit) in
  let s' := @room_run demo_env json_codec
    [rvGame (mkGameEvent round_start d 0); rvEnd; rvReplay; rvGame (mkGameEvent round_end VNull 9); rvEndTimeout] s in
  isRoundStarted (w_room s'.1) && hasRoundEnded (w_room s'.1) = false.
Proof. intros d s s'. apply (@round_exclusive demo_env json_codec). reflexivity. Defined.

(** The answer that confirms that the user has left *)
Definition leave_confirmed (net : list NetReply) : bool :=
  match net with Reply d st (Some v) :: _ => res_ok (mkResponse st (Some v)) | _ => false end.
(** Who leaves: nobody does without a room and a user. *)
Definition someone (w : World) : bool := opt_truthy (roomId (w_room w)) || opt_truthy (userId (w_user w)).

(** leaving is all or nothing: the handler never throws, and asks the server once if there is a room or a user. When
    the server confirms, the room store is reset, the room, its round and its problems are gone from the
    storage, also if the router then fails; otherwise every store is as it was. *)
Theorem leave_outcome (s : World * Ev) :
  let '(r, s') := handleLeaveRoom s in
  r = Ok tt /\ s'.2 = s.2 /\
  (if someone s.1 && leave_confirmed (w_net s.1)
   then w_room s'.1 = roomStoreInit /\
     (has_storage (w_platform s.1) = true ->
      Forall (fun k => w_storage s'.1 !! k = None) ["activeRoomId"; "roundEndTime"; "lastGameEvent"; "problems"])
   else same_stores s'.1 s.1) /\
  requests (w_log s'.1) = requests (w_log s.1) ++
    (if someone s.1 then [post_req (w_serverUrl s.1 +:+ "/rooms/" +:+ to_str (of_opt (roomId (w_room s.1))) +:+ "/leave")] else []).
Proof.
  refine (wp_let _ (fun r s' => _) _ _).
  destruct s as [w ev]. destruct w. unfold someone, handleLeaveRoom. cbn [fst World.w_room World.w_user].
  rewrite <- (negb_involutive (opt_truthy _ || opt_truthy _)), negb_orb.
  repeat (re_step; cbn); cbn in *; subst;
    match goal with E : negb _ && negb _ = _ |- _ => rewrite E; cbn [negb andb leave_confirmed] end.
  all: try match goal with E : res_ok _ = _ |- _ => rewrite E end; try (rewrite ?requests_app, ?app_nil_r; by repeat split).
  all: apply pushRoute_wp; intros [bb|ee] w' Hw Hl; repeat (re_step; cbn).
  all: split; [done|]; split; [done|].
  all: rewrite ?requests_app, Hl; cbn; rewrite ?requests_app, ?app_nil_r; split; [|done].
  all: split; [exact (w_room_proper _ _ Hw)|]; intros Hs; try congruence.
  all: pose proof (w_storage_proper _ _ Hw) as Hst; cbn in Hst |- *; rewrite ?Hst.
  all: repeat apply List.Forall_cons; try apply List.Forall_nil; by simplify_map_eq.
Qed.

(** Starting a round changes no state of the panel, whatever the server
    answers - the round begins with the event of the socket -, and ending one
    changes it only when the server confirmed: then the round is over, and the
    end time stays until the timeout two seconds later. *)
Theorem round_buttons (s : World * Ev) :
  same_stores (handleStartRound s).2.1 s.1 /\ (handleStartRound s).2.2 = s.2 /\
  let s' := (handleEndRound s).2 in
  (same_stores s'.1 s.1 /\ s'.2 = s.2 \/
   same_stores s'.1 (with_room s.1 (setHasRoundEnded (setIsRoundStarted (w_room s.1) false) true)) /\
   ev_endTimer s'.2 = Some (w_now s'.1 + 2000)%Z).
Proof.
  split; [|split].
  - change (wp handleStartRound (fun _ s' => same_stores s'.1 s.1) s). destruct s as [[] ev].
    unfold handleStartRound. repeat (re_step; cbn); try done.
    + destruct (get e "message"); by repeat (re_step; cbn).
    + destruct (get v "error"); repeat (re_step; cbn); try done.
      destruct (get e "message"); by repeat (re_step; cbn).
  - change (wp handleStartRound (fun _ s' => s'.2 = s.2) s). destruct s as [[] ev].
    unfold handleStartRound. repeat (re_step; cbn); try done.
    + destruct (get e "message"); by repeat (re_step; cbn).
    + destruct (get v "error"); repeat (re_step; cbn); try done.
      destruct (get e "message"); by repeat (re_step; cbn).
  - change (wp handleEndRound (fun _ s' => same_stores s'.1 s.1 /\ s'.2 = s.2 \/
      same_stores s'.1 (with_room s.1 (setHasRoundEnded (setIsRoundStarted (w_room s.1) false) true)) /\
      ev_endTimer s'.2 = Some (w_now s'.1 + 2000)%Z) s). destruct s as [[] ev].
    unfold handleEndRound. repeat (re_step; cbn); try (by left); try (by right).
    + destruct (get e "message"); repeat (re_step; cbn); by left.
    + destruct (get v "error") as [|e]; repeat (re_step; cbn); try by left.
      destruct (get e "message"); repeat (re_step; cbn); by left.
Qed.
