(* ===== verification/RoundTimer.v ===== *)
(** * The round clock

    [hooks/useRoundTimer.ts]: the text of the time left, kept by an effect that
    depends on [roundEndTime] and by its interval.  A [TimerEvent] is a render
    after the store's end time changed or a tick of the interval. *)

From S2P Require Export Json Stores.
From Stdlib Require Import Ascii.

(** The [timeRemaining] of the hook, and the end time the running interval
    closed over. *)
Record RoundTimer := mkRoundTimer { timeRemaining : string; interval : option Z }.

(** [if (!roundEndTime)]: [null], [0] and [NaN] mean that no round is timed. *)
Definition timed (roundEndTime : option num) : option Z :=
  match roundEndTime with
  | Some (Fin z) => if (z =? 0)%Z then None else Some z
  | _ => None
  end.

Definition two_digits (z : Z) : string := (if z <? 10 then "0" else "")%Z +:+ z_str z.

(** The text [updateTimer] sets. *)
Definition clock (diff : Z) : string :=
  if (diff <=? 0)%Z then "00:00"
  else
    let hours := (diff / 3600000)%Z in
    let minutes := ((diff mod 3600000) / 60000)%Z in
    let seconds := ((diff mod 60000) / 1000)%Z in
    (if hours >? 0 then z_str hours +:+ ":" else "")%Z +:+ two_digits minutes +:+ ":" +:+ two_digits seconds.

Definition updateTimer (roundEndTime now : Z) (t : RoundTimer) : RoundTimer :=
  mkRoundTimer (clock (roundEndTime - now)) (interval t).

(** The effect: the previous run's interval is cleared first. *)
Definition timer_effect (roundEndTime : option num) (now : Z) (t : RoundTimer) : RoundTimer :=
  match timed roundEndTime with
  | None => mkRoundTimer "00:00" None
  | Some e => updateTimer e now (mkRoundTimer (timeRemaining t) (Some e))
  end.

Inductive TimerEvent :=
| EndTimeChanged (roundEndTime : option num)
| Tick.

Definition timer_step (ev : TimerEvent) (now : Z) (t : RoundTimer) : RoundTimer :=
  match ev with
  | EndTimeChanged e => timer_effect e now t
  | Tick => match interval t with Some e => updateTimer e now t | None => t end
  end.

(** Mounting runs the effect; every later event has its own instant. *)
Definition timer_run (e0 : option num) (t0 : Z) (evs : list (TimerEvent * Z)) : RoundTimer :=
  foldl (fun t ev => timer_step ev.1 ev.2 t) (timer_effect e0 t0 (mkRoundTimer "00:00" None)) evs.

(** ** What the text means *)

(** The number of seconds a text [h:mm:ss] or [mm:ss] stands for. *)
Definition clock_seconds (s : string) : option Z :=
  foldl (fun acc w => a ← acc; z ← z_of_str w; Some (60 * a + z)%Z) (Some 0%Z) (split_on ":" s).

(** The end time in force after a run of events, and the last instant. *)
Definition end_after (e0 : option num) (evs : list (TimerEvent * Z)) : option num :=
  foldl (fun e ev => match ev.1 with EndTimeChanged e' => e' | Tick => e end) e0 evs.
Definition last_instant (t0 : Z) (evs : list (TimerEvent * Z)) : Z := foldl (fun _ ev => ev.2) t0 evs.

(** ** Lemmas *)

Abbreviation no_colon := (str_forall (fun x => negb (Ascii.eqb x ":"))).

Lemma z_str_no_colon z : no_colon (z_str z) = true.
Proof. by apply z_str_no. Qed.

Definition digits_ok (n : nat) : bool :=
  let s := two_digits (Z.of_nat n) in
  (String.length s =? 2) && no_colon s && bool_decide (z_of_str s = Some (Z.of_nat n)).

Lemma digits_all : forallb digits_ok (seq 0 60) = true.
Proof. by vm_compute. Qed.

Lemma two_digits_spec z : (0 <= z < 60)%Z ->
  String.length (two_digits z) = 2 /\ no_colon (two_digits z) = true /\ z_of_str (two_digits z) = Some z.
Proof.
  intros Hz. pose proof digits_all as Hall. rewrite forallb_forall in Hall.
  specialize (Hall (Z.to_nat z)). rewrite in_seq in Hall. unfold digits_ok in Hall.
  rewrite Z2Nat.id in Hall by lia. assert (Hd := Hall ltac:(lia)). js_bool. by apply Nat.eqb_eq in H.
Qed.

Lemma clock_parts d : (0 < d)%Z ->
  (0 <= d / 3600000 /\ 0 <= (d mod 3600000) / 60000 < 60 /\ 0 <= (d mod 60000) / 1000 < 60 /\
   d / 1000 = 60 * (60 * (d / 3600000) + (d mod 3600000) / 60000) + (d mod 60000) / 1000)%Z.
Proof.
  intros Hd.
  assert (H1 := Z.div_mod d 3600000 ltac:(lia)). assert (H2 := Z.mod_pos_bound d 3600000 ltac:(lia)).
  assert (Hm : (d mod 60000 = (d mod 3600000) mod 60000)%Z).
  { symmetry. apply Z.mod_mod_divide. by exists 60%Z. }
  rewrite Hm. set (q := (d / 3600000)%Z) in *. set (r := (d mod 3600000)%Z) in *.
  assert (H3 := Z.div_mod r 60000 ltac:(lia)). assert (H4 := Z.mod_pos_bound r 60000 ltac:(lia)).
  set (m := (r / 60000)%Z) in *. set (s := (r mod 60000)%Z) in *.
  assert (H5 := Z.div_mod s 1000 ltac:(lia)). assert (H6 := Z.mod_pos_bound s 1000 ltac:(lia)).
  repeat split; try lia.
  symmetry. apply (Z.div_unique_pos d 1000 _ (s mod 1000)); lia.
Qed.

Lemma clock_seconds_mmss m s : (0 <= m < 60)%Z -> (0 <= s < 60)%Z ->
  clock_seconds (two_digits m +:+ ":" +:+ two_digits s) = Some (60 * m + s)%Z.
Proof.
  intros (_ & Hm & Hm')%two_digits_spec (_ & Hs & Hs')%two_digits_spec. unfold clock_seconds.
  change (":" +:+ two_digits s) with (String ":" (two_digits s)).
  rewrite split_on_app, split_on_no_sep by done. cbn. rewrite Hm'. cbn. rewrite Hs'. cbn. f_equal; lia.
Qed.

Lemma clock_seconds_hmmss h m s : (0 <= m < 60)%Z -> (0 <= s < 60)%Z ->
  clock_seconds ((z_str h +:+ ":") +:+ two_digits m +:+ ":" +:+ two_digits s) = Some (60 * (60 * h + m) + s)%Z.
Proof.
  intros (_ & Hm & Hm')%two_digits_spec (_ & Hs & Hs')%two_digits_spec. unfold clock_seconds.
  rewrite str_app_assoc.
  change (":" +:+ two_digits m +:+ ":" +:+ two_digits s) with (String ":" (two_digits m +:+ String ":" (two_digits s))).
  rewrite split_on_app by apply z_str_no_colon. rewrite split_on_app, split_on_no_sep by done.
  cbn. rewrite z_of_str_z_str. cbn. rewrite Hm'. cbn. rewrite Hs'. cbn. f_equal; lia.
Qed.

Lemma interval_timed e now t : interval (timer_effect e now t) = timed e.
Proof. unfold timer_effect. by destruct (timed e). Qed.

Lemma timer_invariant e0 t0 evs :
  let t := timer_run e0 t0 evs in
  interval t = timed (end_after e0 evs) /\
  timeRemaining t = match timed (end_after e0 evs) with Some e => clock (e - last_instant t0 evs) | None => "00:00" end.
Proof.
  induction evs as [|[ev now] evs IH] using rev_ind; cbn.
  - unfold timer_run, timer_effect; cbn. by destruct (timed e0).
  - unfold timer_run, end_after, last_instant in *. rewrite !foldl_app. cbn.
    destruct ev as [e|]; cbn.
    + unfold timer_effect. by destruct (timed e).
    + destruct IH as [Hi Ht]. rewrite Hi. by destruct (timed _).
Qed.

(** ** Properties *)

(** at every instant at which the clock was updated, it reads the whole
    seconds left until the end of the round in force, in [mm:ss] below one hour
    and [h:mm:ss] above, and "00:00" when no round is timed or the round is
    over: reading the text back gives the seconds, however the end time changed
    before and however often the interval fired. *)
Theorem clock_reads_back (e0 : option num) (t0 : Z) (evs : list (TimerEvent * Z)) :
  let t := timer_run e0 t0 evs in
  let left := match timed (end_after e0 evs) with Some e => (e - last_instant t0 evs)%Z | None => 0%Z end in
  clock_seconds (timeRemaining t) = Some (Z.max 0 left / 1000)%Z /\
  ((left < 3600000)%Z -> String.length (timeRemaining t) = 5).
Proof.
  cbn zeta. destruct (timer_invariant e0 t0 evs) as [_ ->].
  destruct (timed _) as [e|]; [|done]. set (d := (e - last_instant t0 evs)%Z). unfold clock.
  destruct (Z.leb_spec d 0) as [Hd|Hd].
  { by rewrite Z.max_l by lia. }
  rewrite Z.max_r by lia. destruct (clock_parts d Hd) as (Hh & Hm & Hs & Heq). rewrite Heq.
  destruct (Z.gtb_spec (d / 3600000) 0) as [Hp|Hp]; cbn zeta.
  - split; [by apply clock_seconds_hmmss|]. intros Hlt. exfalso.
    rewrite (Z.div_small d) in Hp; lia.
  - replace (d / 3600000)%Z with 0%Z by lia. rewrite str_app_nil_l. split; [by rewrite clock_seconds_mmss|].
    intros _. destruct (two_digits_spec _ Hm) as [Lm _], (two_digits_spec _ Hs) as [Ls _].
    rewrite !str_app_length, Lm, Ls. done.
Qed.
