(* ===== verification/ProblemCount.v ===== *)
(** * The live problem count of the create-room form

    [stores/useProblemCountStore.ts] and the counting effect of
    [hooks/useRoomChoice.ts]: the cache key of a filter combination, and the
    debounced, abortable request behind the count on the Create button.  The
    effect is a machine whose steps are what happens to it: it runs again with
    other filters, its timeout fires, the answer of its request arrives, the
    form is mounted anew. *)

From S2P Require Export World.
From Stdlib Require Import Ascii.

(** ** The key of a filter combination *)

(** The same selection, whatever the order tags and companies were picked in. *)
Record same_filters (f g : ProblemCountFilters) : Prop := {
  same_difficulties : f_difficulties f = f_difficulties g;
  same_tags : f_tags f ≡ₚ f_tags g;
  same_companies : f_companies f ≡ₚ f_companies g;
  same_flags : (f_blind75 f, f_neetcode150 f, f_recentlyAsked f, f_excludePaid f) =
               (f_blind75 g, f_neetcode150 g, f_recentlyAsked g, f_excludePaid g);
}.

#[export] Instance same_filters_equiv : Equivalence same_filters.
Proof.
  split.
  - by intros f.
  - by intros f g []; split.
  - intros f g h [] []. split; [congruence|by etrans|by etrans|congruence].
Qed.

Abbreviation without c := (str_forall (fun x => negb (Ascii.eqb x c))).

(** A name the key can hold: not empty and without the key's separators. *)
Definition plain_name (s : string) : bool :=
  negb (String.eqb s "") && without ","%char s && without "|"%char s.

Definition plain_filters (f : ProblemCountFilters) : bool :=
  without "|"%char (f_difficulties f) && forallb plain_name (f_tags f) && forallb plain_name (f_companies f).

Lemma without_join c sep l :
  without c sep = true -> Forall (fun s => without c s = true) l -> without c (join sep l) = true.
Proof.
  intros Hsep Hl. induction Hl as [|s l Hs Hl IH]; [done|].
  destruct l as [|t l]; [done|]. rewrite join_cons2, !str_forall_app, Hs, Hsep. exact IH.
Qed.

Lemma sort_strings_perm l : sort_strings l ≡ₚ l.
Proof. apply merge_sort_Permutation. Qed.

#[export] Instance sort_strings_proper : Proper ((≡ₚ) ==> eq) sort_strings.
Proof.
  intros l l' Hl. apply (Sorted_unique String.le); [by apply Sorted_merge_sort; exact _..|].
  by rewrite !sort_strings_perm.
Qed.

Lemma plain_names_sorted l : forallb plain_name l = true ->
  Forall (fun s => s <> "" /\ without ","%char s = true /\ without "|"%char s = true) (sort_strings l).
Proof.
  rewrite sort_strings_perm. intros Hl. apply Forall_forall. intros s Hs%list_elem_of_In.
  rewrite forallb_forall in Hl. apply Hl in Hs. unfold plain_name in Hs. by js_bool.
Qed.

Lemma join_comma_inj l l' :
  Forall (fun s => s <> "" /\ without ","%char s = true) l ->
  Forall (fun s => s <> "" /\ without ","%char s = true) l' ->
  join "," l = join "," l' -> l = l'.
Proof.
  intros Hl Hl' Heq.
  assert (Hsplit : forall k, k <> [] -> Forall (fun s => s <> "" /\ without ","%char s = true) k ->
    split_on "," (join "," k) = k).
  { intros k Hne Hk. apply split_join; [done|]. eapply Forall_impl; [exact Hk|]. by intros s []. }
  destruct l as [|s l], l' as [|s' l']; try done.
  - specialize (Hsplit (s' :: l') ltac:(done) Hl'). rewrite <- Heq in Hsplit. injection Hsplit as <- <-.
    by inversion Hl' as [|? ? [? _]].
  - specialize (Hsplit (s :: l) ltac:(done) Hl). rewrite Heq in Hsplit. injection Hsplit as <- <-.
    by inversion Hl as [|? ? [? _]].
  - rewrite <- (Hsplit (s :: l)), <- (Hsplit (s' :: l')) by done. by rewrite Heq.
Qed.

#[export] Instance key_proper : Proper (same_filters ==> eq) buildProblemCountKey.
Proof.
  intros f g [Hd Ht Hc [= Hb Hn Hr He]]. unfold buildProblemCountKey. by rewrite Hd, Ht, Hc, Hb, Hn, Hr, He.
Qed.

(** The seven parts of the key. *)
Definition key_parts (f : ProblemCountFilters) : list string :=
  [f_difficulties f; join "," (sort_strings (f_tags f)); join "," (sort_strings (f_companies f));
   flag (f_blind75 f); flag (f_neetcode150 f); flag (f_recentlyAsked f); flag (f_excludePaid f)].

Lemma key_split f : plain_filters f = true -> split_on "|" (buildProblemCountKey f) = key_parts f.
Proof.
  intros Hf. unfold plain_filters in Hf. js_bool. apply split_join; [done|].
  assert (Hflag : forall b, without "|"%char (flag b) = true) by by intros [].
  assert (Hj : forall l, forallb plain_name l = true -> without "|"%char (join "," (sort_strings l)) = true).
  { intros l Hl. apply without_join; [done|]. eapply Forall_impl; [by apply plain_names_sorted|]. by intros s (?&?&?). }
  repeat (apply List.Forall_cons; [by auto|]). done.
Qed.

Lemma flag_inj b b' : flag b = flag b' -> b = b'.
Proof. by destruct b, b'. Qed.

Lemma names_inj l l' : forallb plain_name l = true -> forallb plain_name l' = true ->
  join "," (sort_strings l) = join "," (sort_strings l') -> l ≡ₚ l'.
Proof.
  intros Hl Hl' Heq. rewrite <- (sort_strings_perm l), <- (sort_strings_perm l').
  apply plain_names_sorted in Hl, Hl'.
  rewrite (join_comma_inj (sort_strings l) (sort_strings l')); [done| | |done];
    (eapply Forall_impl; [eassumption|]; by intros s (?&?&?)).
Qed.

(** the cache of problem counts never confuses two filter combinations and
    never misses one: two combinations have the same key exactly when they are
    the same selection up to the order in which tags and companies were picked,
    as long as no name is empty or contains the separators of the key. *)
Theorem key_same_selection (f g : ProblemCountFilters) :
  plain_filters f = true -> plain_filters g = true ->
  (buildProblemCountKey f = buildProblemCountKey g <-> same_filters f g).
Proof.
  intros Hf Hg. split; [|by intros ->]. intros Heq.
  apply (f_equal (split_on "|")) in Heq. rewrite !key_split in Heq by done.
  unfold key_parts in Heq. injection Heq as Hd Ht Hc Hb Hn Hr He.
  unfold plain_filters in Hf, Hg. js_bool.
  split; [done|by apply names_inj..|]. apply flag_inj in Hb, Hn, Hr, He. congruence.
Qed.

Lemma key_same_selection_witness :
  let f := mkFilters "easy" ["Array"; "Tree"] ["Meta"; "Google"] true false false true in
  let g := mkFilters "easy" ["Tree"; "Array"] ["Google"; "Meta"] true false false true in
  buildProblemCountKey f = "easy|Array,Tree|Google,Meta|1|0|0|1" /\ same_filters f g.
Proof. split; [reflexivity|]. apply key_same_selection; reflexivity. Defined.

(** ** The query string *)

Definition hex_digit (n : nat) : ascii := Ascii.ascii_of_nat (if n <? 10 then 48 + n else 55 + n).
Definition percent (n : nat) : string := String "%" (String (hex_digit (n / 16)) (String (hex_digit (n mod 16)) "")).

(** [URLSearchParams] serialises in [application/x-www-form-urlencoded]: the
    bytes of the UTF-8 form, those outside the unreserved set escaped. *)
Definition query_char (a : ascii) : string :=
  let n := Ascii.nat_of_ascii a in
  if n =? 32 then "+"
  else if ((48 <=? n) && (n <=? 57)) || ((65 <=? n) && (n <=? 90)) || ((97 <=? n) && (n <=? 122)) ||
          (n =? 42) || (n =? 45) || (n =? 46) || (n =? 95) then String a ""
  else if n <? 128 then percent n
  else percent (192 + n / 64) +:+ percent (128 + n mod 64).

Fixpoint query_escape (s : string) : string :=
  match s with EmptyString => "" | String a s => query_char a +:+ query_escape s end.

(** [params.toString()] *)
Definition query_string (ps : list (string * string)) : string :=
  join "&" (map (fun kv => query_escape kv.1 +:+ "=" +:+ query_escape kv.2) ps).

(** The parameters of a count request, in the order they are set. *)
Definition count_params (f : ProblemCountFilters) : list (string * string) :=
  (if String.eqb (f_difficulties f) "" then [] else [("difficulties", f_difficulties f)]) ++
  (if 0 <? length (f_tags f) then [("tags", join "," (f_tags f))] else []) ++
  (if 0 <? length (f_companies f) then [("companies", join "," (f_companies f))] else []) ++
  (if f_blind75 f then [("blind75", "true")] else []) ++
  (if f_neetcode150 f then [("neetcode150", "true")] else []) ++
  (if f_recentlyAsked f then [("recentlyAsked", "true")] else []) ++
  (if f_excludePaid f then [("excludePaid", "true")] else []).

Definition count_url (base : string) (f : ProblemCountFilters) : string :=
  base +:+ "/problems/count?" +:+ query_string (count_params f).

(** ** The effect *)

(** Where the effect's last run is: its timeout is pending, its request is in
    flight, or it has nothing left to do.  A run that was cleaned up has had
    its timeout cleared or its request aborted; an aborted request rejects
    with an [AbortError], which its handler ignores, so that it has no step. *)
Inductive Phase := Waiting | Sent | Settled.

Record Counting := mkCounting {
  cn_filters : ProblemCountFilters;
  phase : Phase;
  availableCount : option Z;
  isLoadingFilter : bool;
  counts : gmap string Z;          (* the store, which outlives the form *)
  sent : list string;              (* the urls requested so far *)
}.

(** The effect: the cleanup of its previous run, then the cache or a timeout. *)
Definition count_effect (f : ProblemCountFilters) (c : Counting) : Counting :=
  match getCount (buildProblemCountKey f) (counts c) with
  | Some n => mkCounting f Settled (Some n) false (counts c) (sent c)
  | None => mkCounting f Waiting (availableCount c) true (counts c) (sent c)
  end.

(** The first half of the timeout's callback, up to the request. *)
Definition count_timeout (base : string) (c : Counting) : Counting :=
  match phase c with
  | Waiting =>
      mkCounting (cn_filters c) Sent (availableCount c) (isLoadingFilter c) (counts c)
        (sent c ++ [count_url base (cn_filters c)])
  | _ => c
  end.

(** What the code finds in an answer: the count, [null] when the body has no
    number, or an exception. *)
Definition count_of (r : NetReply) : Res (option Z) :=
  match r with
  | NetFail e => Throw e
  | Reply _ st b =>
      let res := mkResponse st b in
      if negb (res_ok res) then Throw (js_error ("Failed to fetch available count: " +:+ z_str st))
      else match b with
           | None => Throw syntax_error
           | Some payload => Ok (match get_opt payload "data" with VNum n => Some n | _ => None end)
           end
  end.

(** The second half, when the request of the last run is answered. *)
Definition count_answer (r : NetReply) (c : Counting) : Counting :=
  match phase c with
  | Sent =>
      match count_of r with
      | Ok n =>
          mkCounting (cn_filters c) Settled n false
            (match n with Some k => setCount (buildProblemCountKey (cn_filters c)) k (counts c) | None => counts c end)
            (sent c)
      | Throw e =>
          mkCounting (cn_filters c) Settled (availableCount c)
            (if is_str (prop e "name") "AbortError" then isLoadingFilter c else false) (counts c) (sent c)
      end
  | _ => c
  end.

(** A form that is mounted anew finds the cache as the last one left it. *)
Definition count_mount (f : ProblemCountFilters) (c : Counting) : Counting :=
  count_effect f (mkCounting f Settled None false (counts c) (sent c)).

Inductive CountEvent :=
| Rerun (f : ProblemCountFilters)
| TimeoutFires
| Answered (r : NetReply)
| Mounted (f : ProblemCountFilters).

Definition count_step (base : string) (ev : CountEvent) (c : Counting) : Counting :=
  match ev with
  | Rerun f => count_effect f c
  | TimeoutFires => count_timeout base c
  | Answered r => count_answer r c
  | Mounted f => count_mount f c
  end.

Definition count_run (base : string) (evs : list CountEvent) (c : Counting) : Counting :=
  foldl (fun c ev => count_step base ev c) c evs.

(** The first form of a panel, on an empty cache. *)
Definition count_init (f : ProblemCountFilters) : Counting :=
  count_effect f (mkCounting f Settled None false ∅ []).

(** ** What the answers were

    The answers that reached their handler, with the filters of the request
    they answer. *)
Fixpoint answers (base : string) (evs : list CountEvent) (c : Counting) : list (ProblemCountFilters * NetReply) :=
  match evs with
  | [] => []
  | ev :: evs =>
      let rest := answers base evs (count_step base ev c) in
      match ev, phase c with
      | Answered r, Sent => (cn_filters c, r) :: rest
      | _, _ => rest
      end
  end.

(** A service whose pool of problems for a selection [f] has the size
    [pool (buildProblemCountKey f)]. *)
Definition tells (pool : string -> Z) (a : ProblemCountFilters * NetReply) : Prop :=
  match count_of a.2 with Ok (Some n) => n = pool (buildProblemCountKey a.1) | _ => True end.

(** The last request of the current filters got no count. *)
Definition count_failed (f : ProblemCountFilters) (l : list (ProblemCountFilters * NetReply)) : Prop :=
  exists r, last l = Some (f, r) /\ forall n, count_of r <> Ok (Some n).

(** ** Lemmas *)

Section counting.
Context (base : string) (pool : string -> Z).
Implicit Types (c : Counting) (f : ProblemCountFilters).

Definition true_cache c : Prop := forall k n, counts c !! k = Some n -> n = pool k.

(** A settled run shows the pool of its filters unless [bad]; a run that is not
    settled shows that it is loading. *)
Definition shows (bad : Prop) c : Prop :=
  match phase c with
  | Settled => isLoadingFilter c = false -> availableCount c = Some (pool (buildProblemCountKey (cn_filters c))) \/ bad
  | _ => isLoadingFilter c = true
  end.

Lemma effect_shows f c bad : true_cache c -> true_cache (count_effect f c) /\ shows bad (count_effect f c).
Proof.
  intros Hc. unfold count_effect, shows. destruct (getCount _ _) as [n|] eqn:E; cbn; [|done].
  split; [done|]. intros _. left. f_equal. exact (Hc _ _ E).
Qed.

Lemma timeout_shows c bad : true_cache c -> shows bad c ->
  true_cache (count_timeout base c) /\ shows bad (count_timeout base c).
Proof. unfold count_timeout, shows. by destruct (phase c) eqn:E; cbn; rewrite ?E. Qed.

Lemma answer_shows r c : tells pool (cn_filters c, r) -> true_cache c -> isLoadingFilter c = true -> phase c = Sent ->
  true_cache (count_answer r c) /\ shows (forall n, count_of r <> Ok (Some n)) (count_answer r c).
Proof.
  unfold tells, count_answer, shows. intros Ht Hc Hl ->. cbn in Ht.
  destruct (count_of r) as [[n|]|e]; cbn; [|by eauto..]. subst n. split; [|by left].
  intros k n. unfold setCount. cbn. rewrite lookup_insert. case_decide; [by intros [= <-]; subst|apply Hc].
Qed.

Lemma answers_app evs ev c : answers base (evs ++ [ev]) c =
  answers base evs c ++
  match ev, phase (count_run base evs c) with Answered r, Sent => [(cn_filters (count_run base evs c), r)] | _, _ => [] end.
Proof.
  revert c; induction evs as [|e evs IH]; intros c; cbn; [by destruct ev, (phase c)|].
  rewrite IH. by destruct e, (phase c).
Qed.

Lemma count_run_shows f evs : Forall (tells pool) (answers base evs (count_init f)) ->
  let c := count_run base evs (count_init f) in
  true_cache c /\ shows (count_failed (cn_filters c) (answers base evs (count_init f))) c.
Proof.
  induction evs as [|ev evs IH] using rev_ind; [intros _; by apply effect_shows|].
  rewrite answers_app, Forall_app. intros [Hl Ht]. destruct (IH Hl) as [Hc Hs]. clear IH Hl.
  unfold count_run in *. rewrite foldl_app. cbn [foldl].
  set (c := foldl (fun c ev => count_step base ev c) (count_init f) evs) in *.
  destruct ev as [g| |r|g]; cbn [count_step]; rewrite ?app_nil_r.
  - by apply effect_shows.
  - destruct (timeout_shows c _ Hc Hs) as [H1 H2]. split; [done|].
    unfold count_timeout in *. by destruct (phase c) eqn:E; rewrite ?E in *.
  - destruct (phase c) eqn:E.
    + unfold count_answer. rewrite E, app_nil_r. done.
    + inversion Ht as [|? ? Htr _]. unfold shows in Hs. rewrite E in Hs.
      destruct (answer_shows r c Htr Hc Hs E) as [H1 H2]. split; [done|]. revert H2.
      unfold shows, count_failed. rewrite last_snoc. unfold count_answer. rewrite E.
      destruct (count_of r) as [[n|]|e] eqn:Er; cbn; intros H2 H3; (destruct (H2 H3) as [|]; [by left|right]); by exists r; rewrite Er.
    + unfold count_answer. rewrite E, app_nil_r. done.
  - by apply effect_shows.
Qed.
End counting.

Lemma effect_hit f n c : counts c !! buildProblemCountKey f = Some n ->
  count_effect f c = mkCounting f Settled (Some n) false (counts c) (sent c).
Proof. intros H. unfold count_effect, getCount. by rewrite H. Qed.

Lemma effect_miss f c : counts c !! buildProblemCountKey f = None ->
  count_effect f c = mkCounting f Waiting (availableCount c) true (counts c) (sent c).
Proof. intros H. unfold count_effect, getCount. by rewrite H. Qed.

Lemma effect_counts f c : counts (count_effect f c) = counts c /\ sent (count_effect f c) = sent c.
Proof. unfold count_effect. by destruct (getCount _ _). Qed.

Lemma effect_again f g n c : counts c !! buildProblemCountKey f = Some n ->
  let c2 := count_effect f (count_effect g c) in
  isLoadingFilter c2 = false /\ availableCount c2 = Some n /\ sent c2 = sent c.
Proof.
  intros H. destruct (effect_counts g c) as [Hc Hs]. cbn zeta.
  rewrite (effect_hit f n); [done|]. by rewrite Hc.
Qed.

(** ** Properties *)

(** the count on the Create button is never the count of other filters.
    Whatever filters the user goes through, and whenever timeouts fire, answers
    arrive and forms are mounted: while a request has yet to be sent or
    answered the form is loading, and when it is not loading it shows the size
    of the pool for the filters now selected, whether it comes from the cache
    or from the answer - unless the last request of these very filters failed. *)
Theorem count_shown (base : string) (pool : string -> Z) (f : ProblemCountFilters) (evs : list CountEvent) :
  Forall (tells pool) (answers base evs (count_init f)) ->
  let c := count_run base evs (count_init f) in
  (phase c <> Settled -> isLoadingFilter c = true) /\
  (isLoadingFilter c = false ->
     availableCount c = Some (pool (buildProblemCountKey (cn_filters c))) \/
     count_failed (cn_filters c) (answers base evs (count_init f))).
Proof.
  intros Ht. destruct (count_run_shows base pool f evs Ht) as [_ Hs]. cbn zeta. revert Hs.
  unfold shows. set (c := count_run base evs (count_init f)). destruct (phase c); intros Hs.
  - split; [done|]. rewrite Hs. done.
  - split; [done|]. rewrite Hs. done.
  - by split.
Qed.

Definition easy_filters : ProblemCountFilters := mkFilters "easy" [] [] false false false true.
Definition hard_filters : ProblemCountFilters := mkFilters "hard" [] [] false false false true.
Definition count_reply (n : Z) : NetReply := Reply 0 200 (Some (VObj [("data", VNum n)])).

(** The user goes from easy to hard before the first answer and back after the
    second: the count of the easy problems is requested twice, the answer that
    arrives is that of the last request, and the count of the hard ones comes
    from the cache when they are selected again. *)
Lemma count_shown_witness :
  let pool k := if String.eqb k (buildProblemCountKey easy_filters) then 7%Z else 3%Z in
  let evs := [TimeoutFires; Rerun hard_filters; TimeoutFires; Answered (count_reply 3); Rerun easy_filters;
              TimeoutFires; Answered (count_reply 7); Rerun hard_filters] in
  let c := count_run "" evs (count_init easy_filters) in
  length (sent c) = 3 /\ phase c = Settled /\ availableCount c = Some 3%Z /\
  (isLoadingFilter c = false -> availableCount c = Some 3%Z \/ count_failed hard_filters (answers "" evs (count_init easy_filters))).
Proof.
  cbn zeta. split; [reflexivity|]. split; [reflexivity|]. split; [reflexivity|].
  apply (count_shown "" (fun k => if String.eqb k (buildProblemCountKey easy_filters) then 7%Z else 3%Z) easy_filters
    [TimeoutFires; Rerun hard_filters; TimeoutFires; Answered (count_reply 3); Rerun easy_filters;
     TimeoutFires; Answered (count_reply 7); Rerun hard_filters]).
  repeat (apply List.Forall_cons; [reflexivity|]). apply List.Forall_nil.
Defined.

(** every selection ends with its count: after the filters change to a
    selection, its timeout fires and its answer with a count arrives, the form
    is not loading, shows that count (or the cached one, without a request) and
    the selection is cached, so that selecting it again shows the same count at
    once and sends nothing. *)
Theorem count_settles (base : string) (f : ProblemCountFilters) (r : NetReply) (n : Z) (c : Counting) :
  count_of r = Ok (Some n) ->
  let c1 := count_run base [Rerun f; TimeoutFires; Answered r] c in
  let shown := default n (counts c !! buildProblemCountKey f) in
  isLoadingFilter c1 = false /\ availableCount c1 = Some shown /\
  length (sent c1) = length (sent c) + match counts c !! buildProblemCountKey f with Some _ => 0 | None => 1 end /\
  forall g, let c2 := count_run base [Rerun g; Rerun f] c1 in
    isLoadingFilter c2 = false /\ availableCount c2 = Some shown /\ sent c2 = sent c1.
Proof.
  intros Hr. cbn zeta. unfold count_run. cbn [foldl count_step].
  destruct (counts c !! buildProblemCountKey f) as [m|] eqn:E; cbn [default].
  - rewrite (effect_hit f m c E). cbn.
    split; [done|]. split; [done|]. split; [lia|]. intros g. exact (effect_again f g m (mkCounting f Settled (Some m) false (counts c) (sent c)) E).
  - rewrite (effect_miss f c E). unfold count_timeout, count_answer. cbn. rewrite Hr. cbn.
    split; [done|]. split; [done|]. split; [by rewrite length_app|]. intros g. apply effect_again. cbn.
    unfold setCount. by rewrite lookup_insert, decide_True.
Qed.

Lemma count_settles_witness :
  let c1 := count_run "" [Rerun hard_filters; TimeoutFires; Answered (count_reply 3)] (count_init easy_filters) in
  isLoadingFilter c1 = false /\ availableCount c1 = Some 3%Z.
Proof.
  destruct (count_settles "" hard_filters (count_reply 3) 3 (count_init easy_filters) eq_refl) as (H1 & H2 & _).
  split; [exact H1|exact H2].
Defined.

(** when the request for the selected filters fails, the form stops loading
    but keeps the count it had: it is that of the filters selected before. *)
Theorem count_error_keeps (base : string) (f : ProblemCountFilters) (r : NetReply) (e : Val) (c : Counting) :
  counts c !! buildProblemCountKey f = None ->
  count_of r = Throw e -> is_str (prop e "name") "AbortError" = false ->
  let c1 := count_run base [Rerun f; TimeoutFires; Answered r] c in
  isLoadingFilter c1 = false /\ cn_filters c1 = f /\ availableCount c1 = availableCount c /\ counts c1 = counts c.
Proof.
  intros Hc Hr He. unfold count_run. cbn [foldl count_step]. rewrite (effect_miss f c Hc).
  unfold count_timeout, count_answer. cbn. rewrite Hr. cbn. by rewrite He.
Qed.

(** Seven easy problems are announced for the hard ones. *)
Lemma count_error_keeps_witness :
  let c := count_run "" [TimeoutFires; Answered (count_reply 7)] (count_init easy_filters) in
  let c1 := count_run "" [Rerun hard_filters; TimeoutFires; Answered (Reply 0 500 None)] c in
  isLoadingFilter c1 = false /\ cn_filters c1 = hard_filters /\ availableCount c1 = Some 7%Z.
Proof.
  destruct (count_error_keeps "" hard_filters (Reply 0 500 None) _
    (count_run "" [TimeoutFires; Answered (count_reply 7)] (count_init easy_filters)) eq_refl eq_refl eq_refl)
    as (H1 & H2 & H3 & _).
  split; [exact H1|]. split; [exact H2|exact H3].
Defined.
