(* ===== verification/RoomChoice.v ===== *)
(** * The create-room form

    [hooks/useRoomChoice.ts] with the tab that drives it,
    [customComponents/CreateRoom/filter-problems-tab.tsx] and its sections: the
    filters, the number of problems, the wizard's steps and the request that
    leaves the form.  The counting effect is the machine of [ProblemCount.v];
    the two loaders of the dropdowns are handlers. *)

From S2P Require Export ProblemCount RoomInit.
From Stdlib Require Import Ascii.

(** ** The state of the hook *)

Record TopicDifficultyCounts := mkTopicCounts { t_total : num; t_easy : num; t_medium : num; t_hard : num }.

Record Choice := mkChoice {
  numberOfEasyProblems : Z;
  numberOfMediumProblems : Z;
  numberOfHardProblems : Z;
  anyDifficulty : bool;
  anyDifficultyCount : Z;
  duration : Z;
  total : Z;
  topics : list Val;
  topicStats : list (string * TopicDifficultyCounts);
  selectedTopics : list string;
  companies : list Val;
  selectedCompanies : list string;
  blind75 : bool;
  neetcode150 : bool;
  recentlyAsked : bool;
  excludePaid : bool;
  formError : option string;
  isSubmittingCreate : bool;
}.

(** The state setters of the hook. *)
Section choice_setters.
Context (c : Choice).
Definition setNumberOfEasyProblems v := mkChoice v (numberOfMediumProblems c) (numberOfHardProblems c) (anyDifficulty c) (anyDifficultyCount c) (duration c) (total c) (topics c) (topicStats c) (selectedTopics c) (companies c) (selectedCompanies c) (blind75 c) (neetcode150 c) (recentlyAsked c) (excludePaid c) (formError c) (isSubmittingCreate c).
Definition setNumberOfMediumProblems v := mkChoice (numberOfEasyProblems c) v (numberOfHardProblems c) (anyDifficulty c) (anyDifficultyCount c) (duration c) (total c) (topics c) (topicStats c) (selectedTopics c) (companies c) (selectedCompanies c) (blind75 c) (neetcode150 c) (recentlyAsked c) (excludePaid c) (formError c) (isSubmittingCreate c).
Definition setNumberOfHardProblems v := mkChoice (numberOfEasyProblems c) (numberOfMediumProblems c) v (anyDifficulty c) (anyDifficultyCount c) (duration c) (total c) (topics c) (topicStats c) (selectedTopics c) (companies c) (selectedCompanies c) (blind75 c) (neetcode150 c) (recentlyAsked c) (excludePaid c) (formError c) (isSubmittingCreate c).
Definition setAnyDifficulty v := mkChoice (numberOfEasyProblems c) (numberOfMediumProblems c) (numberOfHardProblems c) v (anyDifficultyCount c) (duration c) (total c) (topics c) (topicStats c) (selectedTopics c) (companies c) (selectedCompanies c) (blind75 c) (neetcode150 c) (recentlyAsked c) (excludePaid c) (formError c) (isSubmittingCreate c).
Definition setAnyDifficultyCount v := mkChoice (numberOfEasyProblems c) (numberOfMediumProblems c) (numberOfHardProblems c) (anyDifficulty c) v (duration c) (total c) (topics c) (topicStats c) (selectedTopics c) (companies c) (selectedCompanies c) (blind75 c) (neetcode150 c) (recentlyAsked c) (excludePaid c) (formError c) (isSubmittingCreate c).
Definition setDuration v := mkChoice (numberOfEasyProblems c) (numberOfMediumProblems c) (numberOfHardProblems c) (anyDifficulty c) (anyDifficultyCount c) v (total c) (topics c) (topicStats c) (selectedTopics c) (companies c) (selectedCompanies c) (blind75 c) (neetcode150 c) (recentlyAsked c) (excludePaid c) (formError c) (isSubmittingCreate c).
Definition setTotal v := mkChoice (numberOfEasyProblems c) (numberOfMediumProblems c) (numberOfHardProblems c) (anyDifficulty c) (anyDifficultyCount c) (duration c) v (topics c) (topicStats c) (selectedTopics c) (companies c) (selectedCompanies c) (blind75 c) (neetcode150 c) (recentlyAsked c) (excludePaid c) (formError c) (isSubmittingCreate c).
Definition setTopics v := mkChoice (numberOfEasyProblems c) (numberOfMediumProblems c) (numberOfHardProblems c) (anyDifficulty c) (anyDifficultyCount c) (duration c) (total c) v (topicStats c) (selectedTopics c) (companies c) (selectedCompanies c) (blind75 c) (neetcode150 c) (recentlyAsked c) (excludePaid c) (formError c) (isSubmittingCreate c).
Definition setTopicStats v := mkChoice (numberOfEasyProblems c) (numberOfMediumProblems c) (numberOfHardProblems c) (anyDifficulty c) (anyDifficultyCount c) (duration c) (total c) (topics c) v (selectedTopics c) (companies c) (selectedCompanies c) (blind75 c) (neetcode150 c) (recentlyAsked c) (excludePaid c) (formError c) (isSubmittingCreate c).
Definition setSelectedTopics v := mkChoice (numberOfEasyProblems c) (numberOfMediumProblems c) (numberOfHardProblems c) (anyDifficulty c) (anyDifficultyCount c) (duration c) (total c) (topics c) (topicStats c) v (companies c) (selectedCompanies c) (blind75 c) (neetcode150 c) (recentlyAsked c) (excludePaid c) (formError c) (isSubmittingCreate c).
Definition setCompanies v := mkChoice (numberOfEasyProblems c) (numberOfMediumProblems c) (numberOfHardProblems c) (anyDifficulty c) (anyDifficultyCount c) (duration c) (total c) (topics c) (topicStats c) (selectedTopics c) v (selectedCompanies c) (blind75 c) (neetcode150 c) (recentlyAsked c) (excludePaid c) (formError c) (isSubmittingCreate c).
Definition setSelectedCompanies v := mkChoice (numberOfEasyProblems c) (numberOfMediumProblems c) (numberOfHardProblems c) (anyDifficulty c) (anyDifficultyCount c) (duration c) (total c) (topics c) (topicStats c) (selectedTopics c) (companies c) v (blind75 c) (neetcode150 c) (recentlyAsked c) (excludePaid c) (formError c) (isSubmittingCreate c).
Definition setBlind75 v := mkChoice (numberOfEasyProblems c) (numberOfMediumProblems c) (numberOfHardProblems c) (anyDifficulty c) (anyDifficultyCount c) (duration c) (total c) (topics c) (topicStats c) (selectedTopics c) (companies c) (selectedCompanies c) v (neetcode150 c) (recentlyAsked c) (excludePaid c) (formError c) (isSubmittingCreate c).
Definition setNeetcode150 v := mkChoice (numberOfEasyProblems c) (numberOfMediumProblems c) (numberOfHardProblems c) (anyDifficulty c) (anyDifficultyCount c) (duration c) (total c) (topics c) (topicStats c) (selectedTopics c) (companies c) (selectedCompanies c) (blind75 c) v (recentlyAsked c) (excludePaid c) (formError c) (isSubmittingCreate c).
Definition setRecentlyAsked v := mkChoice (numberOfEasyProblems c) (numberOfMediumProblems c) (numberOfHardProblems c) (anyDifficulty c) (anyDifficultyCount c) (duration c) (total c) (topics c) (topicStats c) (selectedTopics c) (companies c) (selectedCompanies c) (blind75 c) (neetcode150 c) v (excludePaid c) (formError c) (isSubmittingCreate c).
Definition setExcludePaid v := mkChoice (numberOfEasyProblems c) (numberOfMediumProblems c) (numberOfHardProblems c) (anyDifficulty c) (anyDifficultyCount c) (duration c) (total c) (topics c) (topicStats c) (selectedTopics c) (companies c) (selectedCompanies c) (blind75 c) (neetcode150 c) (recentlyAsked c) v (formError c) (isSubmittingCreate c).
Definition setFormError v := mkChoice (numberOfEasyProblems c) (numberOfMediumProblems c) (numberOfHardProblems c) (anyDifficulty c) (anyDifficultyCount c) (duration c) (total c) (topics c) (topicStats c) (selectedTopics c) (companies c) (selectedCompanies c) (blind75 c) (neetcode150 c) (recentlyAsked c) (excludePaid c) v (isSubmittingCreate c).
Definition setIsSubmittingCreate v := mkChoice (numberOfEasyProblems c) (numberOfMediumProblems c) (numberOfHardProblems c) (anyDifficulty c) (anyDifficultyCount c) (duration c) (total c) (topics c) (topicStats c) (selectedTopics c) (companies c) (selectedCompanies c) (blind75 c) (neetcode150 c) (recentlyAsked c) (excludePaid c) (formError c) v.
End choice_setters.

Definition choiceInit : Choice :=
  mkChoice 1 0 0 false 1 30 1 [] [] [] [] [] false false false true None false.

Definition minNumberOfProblems : Z := 0.
Definition maxNumberOfProblems : Z := 10.

(** ** The loaders of the dropdowns *)

Section loaders.
Context `{JsEnv}.

(** A request that is repeated after 1, 2 and 4 seconds while it is answered
    429, [tries] times at most. *)
Fixpoint fetch_retry {A} (path : string) (k : Response -> IO A) (h : Val -> IO A) (tries : nat) : IO A :=
  try_catch
    (base ← getServerUrl;
     res ← fetch (get_req (base +:+ path));
     match tries with
     | S n =>
         if (status res =? 429)%Z
         then sleep (1000 * 2 ^ Z.of_nat (3 - tries))%Z ;; fetch_retry path k h n
         else k res
     | 0 => k res
     end)
    h.

(** [payload?.data || []] as the array whose [map] is called *)
Definition data_array (payload : Val) : Res (list Val) :=
  match js_or (get_opt payload "data") (VArr []) with VArr l => Ok l | _ => Throw type_error end.

(** [Object.fromEntries]: the last entry of a key wins, at the place of the first. *)
Fixpoint put_entry {A} (k : string) (v : A) (l : list (string * A)) : list (string * A) :=
  match l with
  | [] => [(k, v)]
  | (k', v') :: l => if String.eqb k k' then (k, v) :: l else (k', v') :: put_entry k v l
  end.
Definition from_entries {A} (l : list (string * A)) : list (string * A) :=
  foldl (fun acc kv => put_entry kv.1 kv.2 acc) [] l.

(** [tag] and the four counts of a statistic; the counts are numbers, one that
    is missing is [NaN] in the sums. *)
Definition topic_entry (stat : Val) : Res (string * TopicDifficultyCounts) :=
  tag ← get stat "tag";
  Ok (to_str tag, mkTopicCounts (to_num (prop stat "totalCount")) (to_num (prop stat "easyCount"))
                    (to_num (prop stat "mediumCount")) (to_num (prop stat "hardCount"))).

(** What [setTopics] and [setTopicStats] are called with. *)
Definition loadTopics : IO (list Val * list (string * TopicDifficultyCounts)) :=
  fetch_retry "/problems/tags"
    (fun response =>
       if negb (res_ok response)
       then throw (js_error ("Failed to fetch topics: " +:+ z_str (status response))) else
       payload ← res_json response;
       stats ← lift (data_array payload);
       tags ← lift (res_map (fun stat => get stat "tag") stats);
       entries ← lift (res_map topic_entry stats);
       mret (tags, from_entries entries))
    (fun _ => console "Failed to load tag stats" ;; mret ([], [])) 3.

Definition loadCompanies : IO (list Val) :=
  fetch_retry "/problems/companies"
    (fun response =>
       if negb (res_ok response)
       then throw (js_error ("Failed to fetch companies: " +:+ z_str (status response))) else
       payload ← res_json response;
       stats ← lift (data_array payload);
       lift (res_map (fun stat => get stat "company") stats))
    (fun _ => console "Failed to load company stats" ;; mret []) 3.
End loaders.

(** ** Values derived in a render *)

(** [l.filter(Boolean)] on nullable strings *)
Definition filter_boolean (l : list (option string)) : list string :=
  omap (fun o => if opt_truthy o then o else None) l.

Definition activeDifficulties (c : Choice) : string :=
  if anyDifficulty c then ""
  else join "," (filter_boolean [
    if (0 <? numberOfEasyProblems c)%Z then Some "easy" else None;
    if (0 <? numberOfMediumProblems c)%Z then Some "medium" else None;
    if (0 <? numberOfHardProblems c)%Z then Some "hard" else None]).

Definition requestedTotal (c : Choice) : Z :=
  if anyDifficulty c then anyDifficultyCount c
  else (numberOfEasyProblems c + numberOfMediumProblems c + numberOfHardProblems c)%Z.

Definition topic_count (active : list string) (stat : TopicDifficultyCounts) : num :=
  if length active =? 0 then t_total stat
  else
    let count := Fin 0 in
    let count := if includes active "easy" then nadd count (t_easy stat) else count in
    let count := if includes active "medium" then nadd count (t_medium stat) else count in
    let count := if includes active "hard" then nadd count (t_hard stat) else count in
    count.

Definition topicCounts (c : Choice) : list (string * num) :=
  let active := if String.eqb (activeDifficulties c) "" then [] else split_on "," (activeDifficulties c) in
  map (fun kv => (kv.1, topic_count active kv.2)) (topicStats c).

(** The dependencies of the counting effect. *)
Definition filters_of (c : Choice) : ProblemCountFilters :=
  mkFilters (activeDifficulties c) (selectedTopics c) (selectedCompanies c)
    (blind75 c) (neetcode150 c) (recentlyAsked c) (excludePaid c).

(** ** Handlers of the hook *)

(** The count a difficulty's buttons change. *)
Definition count_for (d : Difficulty) (c : Choice) : Z :=
  match d with
  | Easy => numberOfEasyProblems c | Medium => numberOfMediumProblems c | Hard => numberOfHardProblems c
  end.
Definition setter_for (d : Difficulty) (c : Choice) (v : Z) : Choice :=
  match d with
  | Easy => setNumberOfEasyProblems c v
  | Medium => setNumberOfMediumProblems c v
  | Hard => setNumberOfHardProblems c v
  end.

Definition decrement (setter : Choice -> Z -> Choice) (val : Z) (c : Choice) : Choice :=
  if ((total c <=? 1) || (val <=? minNumberOfProblems))%Z then c
  else setTotal (setter c (val - 1)%Z) (total c - 1)%Z.

Definition increment (setter : Choice -> Z -> Choice) (val : Z) (c : Choice) : Choice :=
  if (maxNumberOfProblems <=? total c)%Z then c
  else setTotal (setter c (val + 1)%Z) (total c + 1)%Z.

Definition chars : string := "ABCDEFGHIJKLMNOPQRSTUVWXYZabcdefghijklmnopqrstuvwxyz0123456789".

(** [s.charAt(i)] *)
Definition char_at (s : string) (i : nat) : string :=
  match String.get i s with Some a => String a "" | None => "" end.

(** The room code: [draws i] is what the [i]th evaluation of
    [Math.floor(Math.random() * chars.length)] yields. *)
Definition random_code (draws : nat -> nat) : string :=
  foldl (fun code i => code +:+ char_at chars (draws i)) "" (seq 0 5).

Definition roomSettings (c : Choice) : Val :=
  VObj [("easy", VNum (if anyDifficulty c then 0 else numberOfEasyProblems c));
        ("medium", VNum (if anyDifficulty c then 0 else numberOfMediumProblems c));
        ("hard", VNum (if anyDifficulty c then 0 else numberOfHardProblems c));
        ("duration", VNum (duration c));
        ("tags", VArr (map VStr (selectedTopics c)));
        ("companies", VArr (map VStr (selectedCompanies c)));
        ("blind75", VBool (blind75 c));
        ("neetcode150", VBool (neetcode150 c));
        ("recentlyAsked", VBool (recentlyAsked c));
        ("excludePaid", VBool (excludePaid c));
        ("anyDifficulty", VBool (anyDifficulty c));
        ("anyDifficultyCount", VNum (if anyDifficulty c then anyDifficultyCount c else 0))].

(** The call of [props.onCreate] and the state while it runs. *)
Definition handleCreateRoom (draws : nat -> nat) (c : Choice) : Choice * (string * Val) :=
  (setIsSubmittingCreate (setFormError c None) true, (random_code draws, roomSettings c)).

(** The [then] and the [finally] of that call; a rejection only ends it. *)
Definition create_done (result : Res RoomActionResult) (c : Choice) : Choice :=
  setIsSubmittingCreate
    (match result with Ok (Failure m) => setFormError c (Some m) | _ => c end) false.

Definition resetFilters (c : Choice) : Choice :=
  mkChoice 1 0 0 false 1 30 1 (topics c) (topicStats c) [] (companies c) [] false false false true
    None (isSubmittingCreate c).

(** ** The filter tab *)

#[export] Instance ProblemCountFilters_eq_dec : EqDecision ProblemCountFilters.
Proof. solve_decision. Defined.

(** The accordion's sections, in the wizard's order. *)
Definition SECTIONS : list string := ["problems"; "lists"; "topics"; "companies"; "duration"].
Definition LAST_STEP : nat := length SECTIONS - 1.
Definition MAX_ANY_DIFFICULTY : Z := 10.
Definition MIN_ANY_DIFFICULTY : Z := 1.

(** The mounted tab: the hook's state with its counting effect, the wizard, and
    the calls of [createRoom] it has made. *)
Record FilterTab := mkFilterTab {
  choice : Choice;
  counting : Counting;
  currentStep : nat;
  firstStepTouched : bool;
  submitted : list (string * Val);
  mounts : nat;                (* the mounts so far: a promise of an earlier one is not heard *)
}.

Definition isLastStep (t : FilterTab) : bool := currentStep t =? LAST_STEP.
Definition showCreateLabel (t : FilterTab) : bool :=
  ((currentStep t =? 0) && negb (firstStepTouched t)) || isLastStep t.
Definition notEnoughProblems (t : FilterTab) : bool :=
  match availableCount (counting t) with Some n => (n <? requestedTotal (choice t))%Z | None => false end.

(** [disabled] of the Create/Next button *)
Definition primary_disabled (t : FilterTab) : bool :=
  isSubmittingCreate (choice t) || isLoadingFilter (counting t) || (showCreateLabel t && notEnoughProblems t).

Definition plural (n : Z) : string := if (n =? 1)%Z then "" else "s".

(** The text of the button. *)
Definition primary_label (t : FilterTab) : string :=
  if isSubmittingCreate (choice t) then "Creating..."
  else if isLoadingFilter (counting t) then "Loading..."
  else (if showCreateLabel t then "Create" else "Next") +:+
       match availableCount (counting t) with
       | Some n => " (" +:+ z_str n +:+ " result" +:+ plural n +:+ ")"
       | None => ""
       end.

(** The text under it, when there is one. *)
Definition shortage_message (t : FilterTab) : option string :=
  if negb (isLoadingFilter (counting t)) && showCreateLabel t && notEnoughProblems t
  then match availableCount (counting t) with
       | Some n =>
           Some (if (n =? 0)%Z then "No problems found with these filters, try adjusting them!"
                 else "Only " +:+ z_str n +:+ " problem" +:+ plural n +:+
                      " found with these filters but you asked for " +:+ z_str (requestedTotal (choice t)) +:+
                      ", try adjusting them!")
       | None => None
       end
  else None.

(** The section's heading. *)
Definition problems_heading (t : FilterTab) : string :=
  z_str (requestedTotal (choice t)) +:+ " problem" +:+ plural (requestedTotal (choice t)).

(** The effects of the commit that renders [c], after one that rendered [old];
    [fresh] when an array among the dependencies is a new one.  The first
    effect clears [recentlyAsked] without a company; its update renders again
    after the counting effect of the same commit has run. *)
Definition commit (fresh : bool) (old c : Choice) (cn : Counting) : Choice * Counting :=
  let cn := if fresh || negb (bool_decide (filters_of old = filters_of c)) then count_effect (filters_of c) cn else cn in
  if (length (selectedCompanies c) =? 0) && recentlyAsked c
  then let c' := setRecentlyAsked c false in (c', count_effect (filters_of c') cn)
  else (c, cn).

Definition render (fresh : bool) (f : Choice -> Choice) (t : FilterTab) : FilterTab :=
  let '(c, cn) := commit fresh (choice t) (f (choice t)) (counting t) in
  mkFilterTab c cn (currentStep t) (firstStepTouched t) (submitted t) (mounts t).

Definition set_step (n : nat) (t : FilterTab) : FilterTab :=
  mkFilterTab (choice t) (counting t) n (firstStepTouched t) (submitted t) (mounts t).
Definition touchFirstStep (t : FilterTab) : FilterTab :=
  if negb (firstStepTouched t) then mkFilterTab (choice t) (counting t) (currentStep t) true (submitted t) (mounts t) else t.

Definition on_counting (f : Counting -> Counting) (t : FilterTab) : FilterTab :=
  mkFilterTab (choice t) (f (counting t)) (currentStep t) (firstStepTouched t) (submitted t) (mounts t).

Definition handlePrimaryAction (draws : nat -> nat) (t : FilterTab) : FilterTab :=
  if showCreateLabel t
  then let '(c, call) := handleCreateRoom draws (choice t) in
       mkFilterTab c (counting t) (currentStep t) (firstStepTouched t) (submitted t ++ [call]) (mounts t)
  else set_step (Nat.min (currentStep t + 1) LAST_STEP) t.

Definition handleReset (t : FilterTab) : FilterTab :=
  let t := render true resetFilters t in
  mkFilterTab (choice t) (counting t) 0 false (submitted t) (mounts t).

(** [onValueChange] of the accordion: the index of the section, if it is one. *)
Fixpoint index_of (s : string) (l : list string) : option nat :=
  match l with
  | [] => None
  | x :: l => if String.eqb s x then Some 0 else S <$> index_of s l
  end.
Definition open_section (value : string) (t : FilterTab) : FilterTab :=
  match index_of value SECTIONS with Some i => set_step i t | None => t end.

(** What happens to the tab: the user's clicks, the counting effect's timeout
    and answer, the end of a call of [createRoom], the loaders' results, and
    the tab being shown anew. *)
Inductive FormEvent :=
| ClickIncrement (d : Difficulty)
| ClickDecrement (d : Difficulty)
| CheckAnyDifficulty (b : bool)
| ClickAnyIncrement
| ClickAnyDecrement
| CheckBlind75 (b : bool)
| CheckNeetcode150 (b : bool)
| CheckExcludePaid (b : bool)
| SelectTopics (l : list string)
| SelectCompanies (l : list string)
| CheckRecentlyAsked (b : bool)
| ClickRecentlyAskedLabel
| MoveDuration (v : Z)
| OpenSection (value : string)
| ClickReset
| ClickPrimary (draws : nat -> nat)
| DismissError
| CountTimeout
| CountAnswered (r : NetReply)
| CreateSettled (mount : nat) (result : Res RoomActionResult)
| TopicsLoaded (mount : nat) (tags : list Val) (stats : list (string * TopicDifficultyCounts))
| CompaniesLoaded (mount : nat) (l : list Val)
| ShowTab.

(** A mounted tab starts from the hook's defaults, on the cache of the store. *)
Definition mount_tab (t : FilterTab) : FilterTab :=
  mkFilterTab choiceInit (count_mount (filters_of choiceInit) (counting t)) 0 false (submitted t) (S (mounts t)).

Definition tab_init : FilterTab := mkFilterTab choiceInit (count_init (filters_of choiceInit)) 0 false [] 0.

(** ** The sections of the accordion: their callbacks, with the guards of their
    disabled buttons *)

(** [IncDecButtons]: a disabled button is not clicked. *)
Definition inc_dec (disabled : bool) (onClick : FilterTab -> FilterTab) (t : FilterTab) : FilterTab :=
  if disabled then t else onClick t.

Definition onIncrement (d : Difficulty) (t : FilterTab) : FilterTab :=
  inc_dec (anyDifficulty (choice t))
    (fun t => render false (fun c => increment (setter_for d) (count_for d c) c) (touchFirstStep t)) t.
Definition onDecrement (d : Difficulty) (t : FilterTab) : FilterTab :=
  inc_dec (anyDifficulty (choice t))
    (fun t => render false (fun c => decrement (setter_for d) (count_for d c) c) (touchFirstStep t)) t.
Definition onAnyDifficulty (b : bool) (t : FilterTab) : FilterTab :=
  render false (fun c => setAnyDifficulty c b) (touchFirstStep t).
Definition onAnyDecrement : FilterTab -> FilterTab :=
  inc_dec false (fun t => render false (fun c =>
    setAnyDifficultyCount c (Z.max MIN_ANY_DIFFICULTY (anyDifficultyCount c - 1))) (touchFirstStep t)).
Definition onAnyIncrement : FilterTab -> FilterTab :=
  inc_dec false (fun t => render false (fun c =>
    setAnyDifficultyCount c (Z.min MAX_ANY_DIFFICULTY (anyDifficultyCount c + 1))) (touchFirstStep t)).

Definition onBlind75 (b : bool) : FilterTab -> FilterTab := render false (fun c => setBlind75 c b).
Definition onNeetcode150 (b : bool) : FilterTab -> FilterTab := render false (fun c => setNeetcode150 c b).
Definition onExcludePaid (b : bool) : FilterTab -> FilterTab := render false (fun c => setExcludePaid c b).

Definition onTopics (l : list string) : FilterTab -> FilterTab := render true (fun c => setSelectedTopics c l).

(** The counts in the dropdown's items. *)
Definition topic_item (c : Choice) (item : string) : string :=
  item +:+ match list_find (fun kv => kv.1 = item) (topicCounts c) with
           | Some (_, (_, Fin n)) => " (" +:+ z_str n +:+ ")"
           | Some (_, (_, NaN)) => " (NaN)"
           | None => ""
           end.

Definition hasCompanySelected (c : Choice) : bool := 0 <? length (selectedCompanies c).
Definition onCompanies (l : list string) : FilterTab -> FilterTab := render true (fun c => setSelectedCompanies c l).
Definition onRecentlyAsked (b : bool) (t : FilterTab) : FilterTab :=
  if hasCompanySelected (choice t) then render false (fun c => setRecentlyAsked c b) t else t.
Definition onRecentlyAskedLabel (t : FilterTab) : FilterTab :=
  if hasCompanySelected (choice t) then render false (fun c => setRecentlyAsked c (negb (recentlyAsked c))) t else t.

Definition MIN_DURATION : Z := 5.
Definition MAX_DURATION : Z := 120.
Definition STEP : Z := 5.
(** What a slider with these bounds and this step emits. *)
Definition slider_value (v : Z) : Prop := (MIN_DURATION <= v <= MAX_DURATION /\ v mod STEP = 0)%Z.
Definition onDurationChange (v : Z) : FilterTab -> FilterTab := render false (fun c => setDuration c v).

Definition form_step (base : string) (ev : FormEvent) (t : FilterTab) : FilterTab :=
  match ev with
  | ClickIncrement d => onIncrement d t
  | ClickDecrement d => onDecrement d t
  | CheckAnyDifficulty b => onAnyDifficulty b t
  | ClickAnyDecrement => onAnyDecrement t
  | ClickAnyIncrement => onAnyIncrement t
  | CheckBlind75 b => onBlind75 b t
  | CheckNeetcode150 b => onNeetcode150 b t
  | CheckExcludePaid b => onExcludePaid b t
  | SelectTopics l => onTopics l t
  | SelectCompanies l => onCompanies l t
  | CheckRecentlyAsked b => onRecentlyAsked b t
  | ClickRecentlyAskedLabel => onRecentlyAskedLabel t
  | MoveDuration v => onDurationChange v t
  | OpenSection value => open_section value t
  | ClickReset => handleReset t
  | ClickPrimary draws => if primary_disabled t then t else handlePrimaryAction draws t
  | DismissError => render false (fun c => setFormError c None) t
  | CountTimeout => on_counting (count_timeout base) t
  | CountAnswered r => on_counting (count_answer r) t
  | CreateSettled n result => if n =? mounts t then render false (create_done result) t else t
  | TopicsLoaded n tags stats =>
      if n =? mounts t then render false (fun c => setTopicStats (setTopics c tags) stats) t else t
  | CompaniesLoaded n l => if n =? mounts t then render false (fun c => setCompanies c l) t else t
  | ShowTab => mount_tab t
  end.

Definition form_run (base : string) (evs : list FormEvent) (t : FilterTab) : FilterTab :=
  foldl (fun t ev => form_step base ev t) t evs.

(** [createRoomWithSettings] of [pages/create-room-page.tsx]: the room-wide
    setting is added to the tab's options. *)
Definition with_profanity (options : Val) (profanityFilter : bool) : Val :=
  match options with VObj fs => VObj (set_field "profanityFilter" (VBool profanityFilter) fs) | v => v end.
Definition createRoomWithSettings `{JsEnv} `{JsonCodec} (cap : UserState) (profanityFilter : bool)
    (roomCode : string) (options : Val) : IO RoomActionResult :=
  createRoom cap roomCode (with_profanity options profanityFilter).

(** ** Invariants *)

Definition event_ok (ev : FormEvent) : Prop :=
  match ev with MoveDuration v => slider_value v | _ => True end.

Record choice_ok (c : Choice) : Prop := {
  ok_total : total c = (numberOfEasyProblems c + numberOfMediumProblems c + numberOfHardProblems c)%Z;
  ok_counts : (0 <= numberOfEasyProblems c /\ 0 <= numberOfMediumProblems c /\ 0 <= numberOfHardProblems c)%Z;
  ok_bounds : (1 <= total c <= 10)%Z;
  ok_any : (1 <= anyDifficultyCount c <= 10)%Z;
  ok_duration : slider_value (duration c);
}.

(** [recentlyAsked] means nothing without a company. *)
Definition recent_ok (c : Choice) : Prop := recentlyAsked c = true -> selectedCompanies c <> [].

Record form_ok (base : string) (t : FilterTab) : Prop := {
  ok_choice : choice_ok (choice t);
  ok_recent : recent_ok (choice t);
  ok_step : currentStep t <= LAST_STEP;
  ok_filters : cn_filters (counting t) = filters_of (choice t);
  ok_counting : exists evs, counting t = count_run base evs (count_init (filters_of choiceInit));
}.

Lemma choice_ok_init : choice_ok choiceInit.
Proof. by split. Qed.

Lemma choice_ok_reset c : choice_ok (resetFilters c).
Proof. by split. Qed.

Lemma effect_filters f c : cn_filters (count_effect f c) = f.
Proof. unfold count_effect. by destruct (getCount _ _). Qed.

Lemma commit_spec fresh old c cn :
  choice_ok c -> cn_filters cn = filters_of old ->
  let '(c', cn') := commit fresh old c cn in
  choice_ok c' /\ recent_ok c' /\ cn_filters cn' = filters_of c' /\
  exists evs, forall base, cn' = count_run base evs cn.
Proof.
  intros Hc Hf. unfold commit.
  set (b := fresh || _).
  assert (H1 : exists evs, forall base, (if b then count_effect (filters_of c) cn else cn) = count_run base evs cn).
  { destruct b; [by exists [Rerun (filters_of c)]|by exists []]. }
  destruct H1 as [evs H1]. set (cn1 := if b then _ else _) in *.
  destruct (_ && _) eqn:E.
  - apply andb_prop in E as [_ _]. split; [by destruct Hc; split|]. split; [done|]. split; [apply effect_filters|].
    exists (evs ++ [Rerun (filters_of (setRecentlyAsked c false))]). intros base.
    unfold count_run. rewrite foldl_app. cbn. by rewrite (H1 base).
  - split; [done|]. split.
    { intros Hr Hnil. rewrite Hr, Hnil in E. done. }
    split; [|by exists evs]. unfold cn1, b. destruct (fresh || _) eqn:Eb; [apply effect_filters|].
    js_bool. by rewrite Hf.
Qed.

Lemma count_run_app base evs evs' c : count_run base (evs ++ evs') c = count_run base evs' (count_run base evs c).
Proof. apply foldl_app. Qed.

Lemma render_ok base fresh f t :
  form_ok base t -> (choice_ok (choice t) -> choice_ok (f (choice t))) -> form_ok base (render fresh f t).
Proof.
  intros [Hc Hr Hs Hf [evs He]] Hfc. unfold render.
  pose proof (commit_spec fresh (choice t) (f (choice t)) (counting t) (Hfc Hc) Hf) as Hk.
  destruct (commit _ _ _ _) as [c cn]. destruct Hk as (H1 & H2 & H3 & evs' & H4).
  split; cbn; [done..|]. exists (evs ++ evs'). by rewrite count_run_app, <- He.
Qed.

Lemma touch_ok base t : form_ok base t -> form_ok base (touchFirstStep t).
Proof. unfold touchFirstStep. intros [H1 H2 H3 H4 H5]. by destruct (negb _); split. Qed.

Lemma touch_choice t : choice (touchFirstStep t) = choice t.
Proof. unfold touchFirstStep. by destruct (negb _). Qed.

Lemma counting_ok base ev t :
  form_ok base t -> match ev with TimeoutFires | Answered _ => True | _ => False end ->
  form_ok base (on_counting (count_step base ev) t).
Proof.
  intros [Hc Hr Hs Hf [evs He]] Hev. split; cbn; try done.
  - rewrite <- Hf. destruct ev; try done; cbn; unfold count_timeout, count_answer;
      destruct (phase _); try done; by destruct (count_of _).
  - exists (evs ++ [ev]). by rewrite count_run_app, <- He.
Qed.

Lemma increment_ok d c : choice_ok c -> choice_ok (increment (setter_for d) (count_for d c) c).
Proof.
  intros [H1 H2 H3 H4 H5]. unfold increment, maxNumberOfProblems.
  destruct (Z.leb_spec 10 (total c)); [done|]. destruct d; split; cbn; lia || done.
Qed.

Lemma decrement_ok d c : choice_ok c -> choice_ok (decrement (setter_for d) (count_for d c) c).
Proof.
  intros [H1 H2 H3 H4 H5]. unfold decrement, minNumberOfProblems.
  destruct (Z.leb_spec (total c) 1); [done|].
  destruct (Z.leb_spec (count_for d c) 0); [done|]. destruct d; cbn in *; split; cbn; lia || done.
Qed.

Lemma index_of_lt s l i : index_of s l = Some i -> i < length l.
Proof.
  revert i; induction l as [|x l IH]; intros i; cbn; [done|]. destruct (String.eqb s x); [intros [= <-]; lia|].
  destruct (index_of s l) as [j|]; [|done]. intros [= <-]. specialize (IH j eq_refl). lia.
Qed.

Lemma form_step_ok base ev t : event_ok ev -> form_ok base t -> form_ok base (form_step base ev t).
Proof.
  intros Hev Ht. pose proof (touch_ok _ _ Ht) as Ht'.
  destruct ev; cbn [form_step];
    unfold onIncrement, onDecrement, onAnyDifficulty, onAnyDecrement, onAnyIncrement, onBlind75, onNeetcode150,
      onExcludePaid, onTopics, onCompanies, onRecentlyAsked, onRecentlyAskedLabel, onDurationChange, inc_dec;
    repeat case_match; try done;
    try (apply render_ok; [done|intros []; split; cbn; unfold MAX_ANY_DIFFICULTY, MIN_ANY_DIFFICULTY; try done; lia]).
  - apply render_ok; [done|]. rewrite touch_choice. apply increment_ok.
  - apply render_ok; [done|]. rewrite touch_choice. apply decrement_ok.
  - unfold open_section. destruct (index_of _ _) as [i|] eqn:E; [|done].
    apply index_of_lt in E. destruct Ht; split; cbn; try done. cbn in E. unfold LAST_STEP; cbn; lia.
  - assert (Hr : form_ok base (render true resetFilters t)) by (apply render_ok; [done|intros _; apply choice_ok_reset]).
    destruct Hr; split; cbn; try done. lia.
  - unfold handlePrimaryAction. destruct (showCreateLabel t); cbn.
    + destruct Ht as [[] ? ? ? ?]; split; cbn; try done; by split.
    + destruct Ht; split; cbn; try done. lia.
  - by apply (counting_ok base TimeoutFires).
  - by apply (counting_ok base (Answered r)).
  - apply render_ok; [done|]. intros []. unfold create_done. by destruct result as [[|]|]; split.
  - destruct Ht as [? ? ? ? [evs He]]; split; cbn; [apply choice_ok_init|done|lia|apply effect_filters|].
    exists (evs ++ [Mounted (filters_of choiceInit)]). by rewrite count_run_app, <- He.
Qed.

Lemma form_run_ok base evs : Forall event_ok evs -> form_ok base (form_run base evs tab_init).
Proof.
  induction evs as [|ev evs IH] using rev_ind; intros Hev.
  - split; cbn; [apply choice_ok_init|done|lia|apply effect_filters|by exists []].
  - apply Forall_app in Hev as [H1 H2]. inversion H2. unfold form_run in *. rewrite foldl_app. cbn.
    apply form_step_ok; auto.
Qed.

Lemma requested_bounds c : choice_ok c -> (1 <= requestedTotal c <= 10)%Z.
Proof. intros []. unfold requestedTotal. destruct (anyDifficulty c); lia. Qed.

Lemma active_empty c : choice_ok c -> activeDifficulties c = "" <-> anyDifficulty c = true.
Proof.
  intros []. unfold activeDifficulties. destruct (anyDifficulty c); [done|].
  destruct (Z.ltb_spec 0 (numberOfEasyProblems c)), (Z.ltb_spec 0 (numberOfMediumProblems c)),
    (Z.ltb_spec 0 (numberOfHardProblems c)); try done. lia.
Qed.

Lemma active_list c :
  (if String.eqb (activeDifficulties c) "" then [] else split_on "," (activeDifficulties c)) =
  if anyDifficulty c then [] else
    (if (0 <? numberOfEasyProblems c)%Z then ["easy"] else []) ++
    (if (0 <? numberOfMediumProblems c)%Z then ["medium"] else []) ++
    (if (0 <? numberOfHardProblems c)%Z then ["hard"] else []).
Proof. unfold activeDifficulties. by destruct (anyDifficulty c), (0 <? numberOfEasyProblems c)%Z, (0 <? numberOfMediumProblems c)%Z,
  (0 <? numberOfHardProblems c)%Z. Qed.

Definition is_alnum (a : ascii) : bool :=
  let n := Ascii.nat_of_ascii a in
  ((48 <=? n) && (n <=? 57)) || ((65 <=? n) && (n <=? 90)) || ((97 <=? n) && (n <=? 122)).

Lemma char_at_chars i : i < String.length chars ->
  String.length (char_at chars i) = 1 /\ str_forall is_alnum (char_at chars i) = true.
Proof.
  intros Hi.
  assert (Hall : forallb (fun i => (String.length (char_at chars i) =? 1) && str_forall is_alnum (char_at chars i))
    (seq 0 (String.length chars)) = true) by by vm_compute.
  rewrite forallb_forall in Hall. specialize (Hall i). rewrite in_seq in Hall.
  assert (H := Hall ltac:(lia)). js_bool. by apply Nat.eqb_eq in H.
Qed.

(** A room code: five characters of the alphabet. *)
Definition room_code_ok (s : string) : Prop := String.length s = 5 /\ str_forall is_alnum s = true.

Lemma random_code_ok draws : (forall i, draws i < String.length chars) -> room_code_ok (random_code draws).
Proof.
  intros Hd. unfold room_code_ok, random_code. cbn [foldl seq].
  rewrite !str_app_length, !str_forall_app. cbn [String.length str_forall].
  repeat match goal with |- context [char_at chars (draws ?i)] =>
    let H1 := fresh in let H2 := fresh in
    destruct (char_at_chars (draws i) (Hd i)) as [H1 H2]; rewrite H1, H2; clear H1 H2 end. done.
Qed.

(** The numbers of problems of a round request. *)
Definition param (params : Val) (k : string) : Z := match prop params k with VNum z => z | _ => 0%Z end.
Definition asked_total (params : Val) : Z :=
  (param params "numEasyProblems" + param params "numMediumProblems" + param params "numHardProblems" +
   param params "numAnyDifficultyProblems")%Z.

Lemma js_or_num z : js_or (VNum z) (VNum 0) = VNum z.
Proof. unfold js_or. cbn. by destruct (Z.eqb_spec z 0) as [->|]. Qed.

(** The round request of the form's settings. *)
Definition round_request (c : Choice) : Val :=
  let any (z w : Z) := js_or (VNum (if anyDifficulty c then z else w)) (VNum 0) in
  VObj [("duration", js_or (VNum (duration c)) (VNum 30));
        ("numEasyProblems", any 0%Z (numberOfEasyProblems c));
        ("numMediumProblems", any 0%Z (numberOfMediumProblems c));
        ("numHardProblems", any 0%Z (numberOfHardProblems c));
        ("tags", VArr (map VStr (selectedTopics c)));
        ("companies", VArr (map VStr (selectedCompanies c)));
        ("blind75", js_or (VBool (blind75 c)) (VBool false));
        ("neetcode150", js_or (VBool (neetcode150 c)) (VBool false));
        ("recentlyAsked", js_or (VBool (recentlyAsked c)) (VBool false));
        ("excludePaid", js_or (VBool (excludePaid c)) (VBool false));
        ("anyDifficulty", js_or (VBool (anyDifficulty c)) (VBool false));
        ("numAnyDifficultyProblems", any (anyDifficultyCount c) 0%Z);
        ("problemIds", VArr [])].

Lemma settings_round c b : roundParams (with_profanity (roomSettings c) b) = Ok (round_request c).
Proof. reflexivity. Qed.

Lemma duration_pos c : choice_ok c -> (0 < duration c)%Z.
Proof. intros []. unfold slider_value, MIN_DURATION in *. lia. Qed.

Lemma round_request_spec c : choice_ok c ->
  asked_total (round_request c) = requestedTotal c /\ param (round_request c) "duration" = duration c /\
  prop (round_request c) "tags" = VArr (map VStr (selectedTopics c)) /\
  prop (round_request c) "companies" = VArr (map VStr (selectedCompanies c)).
Proof.
  intros Hc%duration_pos.
  assert (Hn : forall k z w, prop (round_request c) k = js_or (VNum (if anyDifficulty c then z else w)) (VNum 0) ->
    param (round_request c) k = if anyDifficulty c then z else w).
  { intros k z w Hk. unfold param. by rewrite Hk, js_or_num. }
  split; [|split; [|done]].
  - unfold asked_total, requestedTotal.
    rewrite (Hn "numEasyProblems" _ _ eq_refl), (Hn "numMediumProblems" _ _ eq_refl),
      (Hn "numHardProblems" _ _ eq_refl), (Hn "numAnyDifficultyProblems" _ _ eq_refl).
    destruct (anyDifficulty c); lia.
  - unfold param. change (prop (round_request c) "duration") with (js_or (VNum (duration c)) (VNum 30)).
    unfold js_or, truthy. destruct (Z.eqb_spec (duration c) 0); [lia|done].
Qed.

(** ** Properties *)

(** whatever the user clicks, in whatever order, and whenever counts,
    loaders and submissions come back, the form asks for a round the service can
    create: the total that guards the buttons is the sum of the three counts,
    none of them is negative, between 1 and 10 problems are requested in either
    mode, the duration is a value of the slider, no difficulty is left out of
    the count unless any is accepted, "recently asked" is never on without a
    company, and the counting effect is at the filters the form shows. *)
Theorem form_invariant (base : string) (evs : list FormEvent) :
  Forall event_ok evs ->
  let t := form_run base evs tab_init in
  let c := choice t in
  total c = (numberOfEasyProblems c + numberOfMediumProblems c + numberOfHardProblems c)%Z /\
  (0 <= numberOfEasyProblems c /\ 0 <= numberOfMediumProblems c /\ 0 <= numberOfHardProblems c)%Z /\
  (1 <= total c <= 10)%Z /\ (1 <= requestedTotal c <= 10)%Z /\ slider_value (duration c) /\
  (activeDifficulties c = "" <-> anyDifficulty c = true) /\
  (recentlyAsked c = true -> selectedCompanies c <> []) /\
  currentStep t <= LAST_STEP /\
  cn_filters (counting t) = filters_of c /\
  exists cevs, counting t = count_run base cevs (count_init (filters_of choiceInit)).
Proof.
  intros Hev. destruct (form_run_ok base evs Hev) as [Hc Hr Hs Hf He]. cbn zeta.
  pose proof (requested_bounds _ Hc). pose proof (active_empty _ Hc). destruct Hc. repeat (split; [done|]). done.
Qed.

Lemma form_invariant_witness :
  let evs := [ClickIncrement Hard; ClickDecrement Easy; ClickDecrement Hard; SelectCompanies ["Meta"];
              CheckRecentlyAsked true; MoveDuration 45; SelectCompanies []; CheckAnyDifficulty true] in
  let c := choice (form_run "" evs tab_init) in
  numberOfHardProblems c = 1%Z /\ recentlyAsked c = false /\ (1 <= requestedTotal c <= 10)%Z.
Proof.
  split; [reflexivity|]. split; [reflexivity|].
  apply (form_invariant "" [ClickIncrement Hard; ClickDecrement Easy; ClickDecrement Hard; SelectCompanies ["Meta"];
              CheckRecentlyAsked true; MoveDuration 45; SelectCompanies []; CheckAnyDifficulty true]).
  repeat (apply List.Forall_cons; [first [exact I|by vm_compute]|]). apply List.Forall_nil.
Defined.

(** What ends the wait for the call of the [n]-th mount: its result, and that the tab is shown anew. *)
Definition ends_wait (n : nat) (ev : FormEvent) : bool :=
  match ev with CreateSettled m _ => m =? n | ShowTab => true | _ => false end.

Lemma render_busy fresh f t : (forall c, isSubmittingCreate (f c) = isSubmittingCreate c) ->
  isSubmittingCreate (choice (render fresh f t)) = isSubmittingCreate (choice t) /\ submitted (render fresh f t) = submitted t /\
  mounts (render fresh f t) = mounts t.
Proof. intros Hf. unfold render, commit. cbv zeta. rewrite <- (Hf (choice t)). by destruct (_ && recentlyAsked _). Qed.

(** While the call runs, nothing that is done to the form makes another one. *)
Lemma busy_step base ev t : isSubmittingCreate (choice t) = true -> ends_wait (mounts t) ev = false ->
  let t' := form_step base ev t in
  isSubmittingCreate (choice t') = true /\ submitted t' = submitted t /\ mounts t' = mounts t.
Proof.
  intros Hb He. destruct ev; cbn [ends_wait] in He; try done; cbn [form_step];
    unfold onIncrement, onDecrement, onAnyDifficulty, onAnyDecrement, onAnyIncrement, onBlind75, onNeetcode150, onExcludePaid, onTopics,
      onCompanies, onRecentlyAsked, onRecentlyAskedLabel, onDurationChange, open_section, inc_dec, touchFirstStep, on_counting, handleReset;
    repeat case_match; cbn [choice submitted mounts]; try done;
    try (match goal with H : primary_disabled t = false |- _ => unfold primary_disabled in H; by rewrite Hb in H end);
    try (match goal with |- context [render ?b ?f ?t'] => destruct (render_busy b f t') as (-> & -> & ->); [|by cbn] end;
         intros c; unfold increment, decrement, setter_for; by repeat case_match).
Qed.

Lemma busy_run base evs t : isSubmittingCreate (choice t) = true -> Forall (fun ev => ends_wait (mounts t) ev = false) evs ->
  let t' := form_run base evs t in isSubmittingCreate (choice t') = true /\ submitted t' = submitted t.
Proof.
  unfold form_run. intros Hb Hev. revert t Hb Hev. induction evs as [|ev evs IH]; intros t Hb Hev; [done|].
  apply Forall_cons in Hev as [He Hev]. destruct (busy_step base ev t Hb He) as (H1 & H2 & H3). cbn zeta in *. cbn [foldl].
  rewrite <- H2. apply IH; [done|]. by rewrite H3.
Qed.

(** The tab forgets the call when it is left and shown anew: a second click creates a second room. *)
Lemma shown_anew_creates_twice :
  let t := form_run "" [CountTimeout; CountAnswered (count_reply 9)] tab_init in
  length (submitted (form_run "" [ClickPrimary (fun _ => 0); ShowTab; CountTimeout; CountAnswered (count_reply 9); ClickPrimary (fun _ => 1)] t)) = 2.
Proof. vm_compute. reflexivity. Qed.

(** C34: the button under the form.  Disabled it does nothing; as Next it moves
    one step and calls nothing; as Create it calls [createRoom] exactly once,
    with a room code of five letters and digits, and whatever is done to the form then, it calls nothing more and
    no second click is heard until that call ends or the tab is left and shown anew.  The round that [createRoom] then requests has
    exactly the number of problems the form announced, which the pool last
    counted can supply, and the form's duration, topics and companies. *)
Theorem primary_submits (base : string) (evs : list FormEvent) (draws : nat -> nat) (profanityFilter : bool) :
  Forall event_ok evs -> (forall i, draws i < String.length chars) ->
  let t := form_run base evs tab_init in
  let t' := form_step base (ClickPrimary draws) t in
  if primary_disabled t then t' = t
  else if showCreateLabel t then
    (forall n, availableCount (counting t) = Some n -> (requestedTotal (choice t) <= n)%Z) /\
    (exists code options params,
       submitted t' = submitted t ++ [(code, options)] /\ room_code_ok code /\
       roundParams (with_profanity options profanityFilter) = Ok params /\
       asked_total params = requestedTotal (choice t) /\ (1 <= asked_total params <= 10)%Z /\
       param params "duration" = duration (choice t) /\
       prop params "tags" = VArr (map VStr (selectedTopics (choice t))) /\
       prop params "companies" = VArr (map VStr (selectedCompanies (choice t)))) /\
    (forall evs' draws', Forall (fun ev => ends_wait (mounts t') ev = false) evs' ->
       let t2 := form_run base evs' t' in
       submitted t2 = submitted t' /\ primary_disabled t2 = true /\ form_step base (ClickPrimary draws') t2 = t2)
  else submitted t' = submitted t /\ choice t' = choice t /\ currentStep t' = S (currentStep t).
Proof.
  intros Hev Hd. destruct (form_run_ok base evs Hev) as [Hc Hr Hs Hf He]. cbn zeta.
  set (t := form_run base evs tab_init) in *. cbn [form_step].
  destruct (primary_disabled t) eqn:Edis; [done|]. unfold handlePrimaryAction.
  destruct (showCreateLabel t) eqn:Ec.
  - split; [|split].
    3:{ intros evs' draws' Hw. cbn [handleCreateRoom] in *.
        match type of Hw with context [mounts ?x] => destruct (busy_run base evs' x eq_refl Hw) as [Hb Hsub] end.
        assert (Hdis : forall t0, isSubmittingCreate (choice t0) = true -> primary_disabled t0 = true).
        { intros t0 Ht0. unfold primary_disabled. by rewrite Ht0. }
        split; [exact Hsub|]. cbn [form_step]. by rewrite Hdis. }
    + intros n Hn. unfold primary_disabled in Edis. rewrite Ec in Edis. unfold notEnoughProblems in Edis.
      rewrite Hn, andb_true_l in Edis. by js_bool.
    + destruct (round_request_spec (choice t) Hc) as (Ht & Hdur & Htags & Hcomp).
      exists (random_code draws), (roomSettings (choice t)), (round_request (choice t)).
      pose proof (requested_bounds _ Hc). split; [done|]. split; [by apply random_code_ok|].
      split; [apply settings_round|]. by rewrite Ht.
  - cbn. split; [done|]. split; [done|].
    unfold showCreateLabel, isLastStep in Ec. js_bool. apply Nat.eqb_neq in H0.
    unfold LAST_STEP in *; cbn in *; lia.
Qed.

Lemma primary_submits_witness :
  let t := form_run "" [CountTimeout; CountAnswered (count_reply 9)] tab_init in
  let t' := form_step "" (ClickPrimary (fun i => 10 * i)) t in
  primary_label t = "Create (9 results)" /\ map fst (submitted t') = ["AKUeo"] /\
  submitted (form_run "" [ClickReset; ClickPrimary (fun _ => 0)] t') = submitted t'.
Proof.
  split; [reflexivity|]. split; [reflexivity|].
  assert (Hd : forall i, (fun i => i * 10 mod 62) i < String.length chars).
  { intros i. apply (Nat.mod_upper_bound (i * 10) 62). lia. }
  assert (He : Forall event_ok [CountTimeout; CountAnswered (count_reply 9)]) by (repeat (apply List.Forall_cons; [exact I|]); apply List.Forall_nil).
  destruct (proj2 (proj2 (primary_submits "" [CountTimeout; CountAnswered (count_reply 9)] (fun i => i * 10 mod 62) false He Hd))
    [ClickReset; ClickPrimary (fun _ => 0)] (fun _ => 0)) as [H _].
  - repeat (apply List.Forall_cons; [reflexivity|]). apply List.Forall_nil.
  - transitivity (submitted (form_step "" (ClickPrimary (fun i => i * 10 mod 62)) (form_run "" [CountTimeout; CountAnswered (count_reply 9)] tab_init))); [|reflexivity].
    etransitivity; [|exact H]. reflexivity.
Defined.

(** The count beside a topic is the number of its problems the round can
    use: all of them in any-difficulty mode, otherwise the sum over the
    difficulties that have a non-zero number of problems. *)
Theorem topicCounts_usable (c : Choice) (tag : string) (stat : TopicDifficultyCounts) :
  choice_ok c -> (tag, stat) ∈ topicStats c ->
  (tag, if anyDifficulty c then t_total stat else
          let part (n : Z) (v : num) := if (0 <? n)%Z then v else Fin 0 in
          nadd (nadd (part (numberOfEasyProblems c) (t_easy stat)) (part (numberOfMediumProblems c) (t_medium stat)))
               (part (numberOfHardProblems c) (t_hard stat))) ∈ topicCounts c.
Proof.
  intros Hc Hin. apply list_elem_of_fmap. exists (tag, stat). split; [|done]. cbn. f_equal. rewrite active_list.
  destruct (anyDifficulty c); [done|]. destruct Hc.
  destruct (Z.ltb_spec 0 (numberOfEasyProblems c)), (Z.ltb_spec 0 (numberOfMediumProblems c)),
    (Z.ltb_spec 0 (numberOfHardProblems c));
    cbv [topic_count app length Nat.eqb includes existsb String.eqb Ascii.eqb Bool.eqb orb];
    destruct stat as [? [] [] []]; cbn; try done; try (f_equal; lia).
Qed.

Lemma topicCounts_usable_witness :
  let stat := mkTopicCounts (Fin 9) (Fin 4) (Fin 3) (Fin 2) in
  let c := setTopicStats (setTotal (setNumberOfHardProblems choiceInit 2) 3) [("Array", stat)] in
  ("Array", Fin 6) ∈ topicCounts c.
Proof.
  cbn zeta. apply (topicCounts_usable (setTopicStats (setTotal (setNumberOfHardProblems choiceInit 2) 3)
    [("Array", mkTopicCounts (Fin 9) (Fin 4) (Fin 3) (Fin 2))]) "Array" (mkTopicCounts (Fin 9) (Fin 4) (Fin 3) (Fin 2))).
  - split; cbn; repeat split; try lia; by vm_compute.
  - apply list_elem_of_here.
Defined.
