(* ===== verification/RoomForms.v ===== *)
(** * The join form and the hand-picked round

    [hooks/useJoinRoom.ts] with [pages/room-choice-page.tsx], and
    [hooks/useProblemPicker.ts] with
    [customComponents/CreateRoom/choose-problems-tab.tsx].  A form's machine
    steps are the user's actions, the results of its loader and the end of the
    call it has made. *)

From S2P Require Export RoomChoice.

(** ** The hand-picked round *)

Module Picker.

(** [problems] is what [setProblems] was given: the entries of the catalogue as
    the service sent them. *)
Record Picker := mkPicker {
  problems : Val;
  isLoadingProblems : bool;
  selectedProblems : list string;
  duration : Z;
  formError : option string;
  isSubmittingCreate : bool;
}.

Section picker_setters.
Context (p : Picker).
Definition setProblems v := mkPicker v (isLoadingProblems p) (selectedProblems p) (duration p) (formError p) (isSubmittingCreate p).
Definition setIsLoadingProblems v := mkPicker (problems p) v (selectedProblems p) (duration p) (formError p) (isSubmittingCreate p).
Definition setSelectedProblems v := mkPicker (problems p) (isLoadingProblems p) v (duration p) (formError p) (isSubmittingCreate p).
Definition setDuration v := mkPicker (problems p) (isLoadingProblems p) (selectedProblems p) v (formError p) (isSubmittingCreate p).
Definition setFormError v := mkPicker (problems p) (isLoadingProblems p) (selectedProblems p) (duration p) v (isSubmittingCreate p).
Definition setIsSubmittingCreate v := mkPicker (problems p) (isLoadingProblems p) (selectedProblems p) (duration p) (formError p) v.
End picker_setters.

Definition pickerInit : Picker := mkPicker (VArr []) true [] 30 None false.

Definition MAX_CHOSEN_PROBLEMS : nat := 10.

(** The loader; [None] when its request was aborted by the unmount, otherwise
    what [setProblems] is called with before the loading flag is cleared. *)
Definition loadProblems : IO (option Val) :=
  fetch_retry "/problems/list"
    (fun response =>
       if negb (res_ok response)
       then throw (js_error ("Failed to fetch problems: " +:+ z_str (status response))) else
       payload ← res_json response;
       mret (Some (js_or (get_opt payload "data") (VArr []))))
    (fun error =>
       name ← lift (get error "name");
       if is_str name "AbortError" then mret None
       else console "Failed to load problem list" ;; mret (Some (VArr []))) 3.

Definition problems_loaded (r : option Val) (p : Picker) : Picker :=
  match r with Some v => setIsLoadingProblems (setProblems p v) false | None => p end.

(** The names and the name-to-id map; computed while rendering, where a
    catalogue that is no array of objects throws. *)
Definition entries (p : Picker) : Res (list Val) :=
  match problems p with VArr l => Ok l | _ => Throw type_error end.
Definition problemNames (p : Picker) : Res (list Val) :=
  l ← entries p; res_map (fun problem => get problem "name") l.
Definition idsByName (p : Picker) : Res (list (Val * Val)) :=
  l ← entries p;
  res_map (fun problem => name ← get problem "name"; id ← get problem "id"; Ok (name, id)) l.

(** [idsByName.get(name)]: the last entry of the name *)
Definition map_get (m : list (Val * Val)) (name : string) : Val :=
  match List.filter (fun kv => is_str kv.1 name) (rev m) with (_, v) :: _ => v | [] => VUndef end.

Definition selectProblems (names : list string) (p : Picker) : Picker :=
  setSelectedProblems p (take MAX_CHOSEN_PROBLEMS names).

(** The ids of the request: [typeof id === 'number'] keeps those found. *)
Definition problemIds (m : list (Val * Val)) (names : list string) : list Z :=
  omap (fun name => match map_get m name with VNum z => Some z | _ => None end) names.

(** The state after the click and the call of [onCreate], if there is one. *)
Definition handleCreateRoom (draws : nat -> nat) (m : list (Val * Val)) (p : Picker) :
    Picker * option (string * Val) :=
  let p := setFormError p None in
  let ids := problemIds m (selectedProblems p) in
  if length ids =? 0 then (p, None)
  else (setIsSubmittingCreate p true,
        Some (random_code draws, VObj [("duration", VNum (duration p)); ("problemIds", VArr (map VNum ids))])).

Definition create_done (result : Res RoomActionResult) (p : Picker) : Picker :=
  setIsSubmittingCreate (match result with Ok (Failure m) => setFormError p (Some m) | _ => p end) false.

Definition resetSelection (p : Picker) : Picker := setFormError (setDuration (setSelectedProblems p []) 30) None.

(** *** The tab *)

Definition atLimit (p : Picker) : bool := MAX_CHOSEN_PROBLEMS <=? length (selectedProblems p).
Definition create_disabled (p : Picker) : bool := isSubmittingCreate p || (length (selectedProblems p) =? 0).
Definition create_label (p : Picker) : string := if isSubmittingCreate p then "Creating..." else "Create".
Definition placeholder (p : Picker) : string :=
  if isLoadingProblems p then "Loading problems..."
  else if 0 <? length (selectedProblems p) then "" else "e.g. Two Sum, Valid Parentheses...".
Definition selection_count (p : Picker) : string :=
  z_str (Z.of_nat (length (selectedProblems p))) +:+ "/" +:+ z_str (Z.of_nat MAX_CHOSEN_PROBLEMS).

(** The mounted tab and the calls it has made; [crashed] when a render threw. *)
Record ChooseTab := mkChooseTab { picker : Picker; calls : list (string * Val); crashed : bool }.

Inductive PickEvent :=
| ProblemsLoaded (r : option Val)
| Select (names : list string)
| SetDuration (v : Z)
| ClickCreate (draws : nat -> nat)
| ClickReset
| Dismiss
| CreateSettled (result : Res RoomActionResult).

(** The render after an update: the memoised values are computed. *)
Definition rendered (p : Picker) (t : ChooseTab) : ChooseTab :=
  mkChooseTab p (calls t) (crashed t || negb (is_ok (problemNames p)) || negb (is_ok (idsByName p))).

Definition pick_step (ev : PickEvent) (t : ChooseTab) : ChooseTab :=
  if crashed t then t else
  match ev with
  | ProblemsLoaded r => rendered (problems_loaded r (picker t)) t
  | Select names => rendered (selectProblems names (picker t)) t
  | SetDuration v => rendered (setDuration (picker t) v) t
  | ClickCreate draws =>
      if create_disabled (picker t) then t
      else match idsByName (picker t) with
           | Ok m =>
               let '(p, call) := handleCreateRoom draws m (picker t) in
               rendered p (mkChooseTab p (calls t ++ option_list call) (crashed t))
           | Throw _ => t
           end
  | ClickReset => rendered (resetSelection (picker t)) t
  | Dismiss => rendered (setFormError (picker t) None) t
  | CreateSettled result => rendered (create_done result (picker t)) t
  end.

Definition pick_init : ChooseTab := mkChooseTab pickerInit [] false.
Definition pick_run (evs : list PickEvent) : ChooseTab := foldl (fun t ev => pick_step ev t) pick_init evs.
End Picker.

(** ** The join form *)

Module Join.

Record JoinForm := mkJoinForm { joinCode : string; formError : option string; isSubmittingJoin : bool }.

Section joinform_setters.
Context (f : JoinForm).
Definition setJoinCode v := mkJoinForm v (formError f) (isSubmittingJoin f).
Definition setFormError v := mkJoinForm (joinCode f) v (isSubmittingJoin f).
Definition setIsSubmittingJoin v := mkJoinForm (joinCode f) (formError f) v.
End joinform_setters.

Definition joinInit : JoinForm := mkJoinForm "" None false.

(** The state after the call and the code [onJoin] is called with, if it is. *)
Definition handleJoinRoom (f : JoinForm) : JoinForm * option string :=
  let f := setFormError f None in
  if String.eqb (trim (joinCode f)) "" then (f, None)
  else (setIsSubmittingJoin f true, Some (trim (joinCode f))).

Definition join_done (result : Res RoomActionResult) (f : JoinForm) : JoinForm :=
  setIsSubmittingJoin (match result with Ok (Failure m) => setFormError f (Some m) | _ => f end) false.

Inductive JoinEvent :=
| TypeCode (code : string)
| PressEnter
| ClickJoin
| Dismiss
| JoinSettled (result : Res RoomActionResult).

(** The mounted form and the codes it has called [onJoin] with. *)
Record JoinPage := mkJoinPage { form : JoinForm; joins : list string }.

Definition submit (p : JoinPage) : JoinPage :=
  let '(f, call) := handleJoinRoom (form p) in mkJoinPage f (joins p ++ option_list call).

(** Enter is ignored and the button disabled while a call runs. *)
Definition join_step (ev : JoinEvent) (p : JoinPage) : JoinPage :=
  match ev with
  | TypeCode code => mkJoinPage (setJoinCode (form p) code) (joins p)
  | PressEnter => if negb (isSubmittingJoin (form p)) then submit p else p
  | ClickJoin => if isSubmittingJoin (form p) then p else submit p
  | Dismiss => mkJoinPage (setFormError (form p) None) (joins p)
  | JoinSettled result => mkJoinPage (join_done result (form p)) (joins p)
  end.

Definition join_page_init : JoinPage := mkJoinPage joinInit [].
Definition join_run (evs : list JoinEvent) : JoinPage := foldl (fun p ev => join_step ev p) join_page_init evs.

Definition join_label (f : JoinForm) : string := if isSubmittingJoin f then "Joining..." else "Join".

(** The Create button of the page. *)
Definition openCreateRoom : IO unit :=
  try_catch (pushRoute "/create-room-page" ;; mret tt) (fun _ => console "Failed to open room creation").
End Join.

(** ** Lemmas *)

Section picker.
Import Picker.

Lemma selected_cap evs : length (selectedProblems (picker (pick_run evs))) <= MAX_CHOSEN_PROBLEMS.
Proof.
  induction evs as [|ev evs IH] using rev_ind; [cbn; lia|]. unfold pick_run in *. rewrite foldl_app. cbn [foldl].
  set (t := foldl _ _ evs) in *. unfold pick_step. destruct (crashed t); [done|].
  destruct ev as [[v|]|names|v|draws| | |[[|m]|e]]; cbn -[take MAX_CHOSEN_PROBLEMS]; try done; try lia.
  - rewrite length_take. lia.
  - destruct (create_disabled _); [done|]. destruct (idsByName _) as [m|]; [|done].
    unfold handleCreateRoom. by destruct (_ =? 0).
Qed.

Lemma map_get_in m name v : map_get m name = v -> v <> VUndef -> exists k, (k, v) ∈ m /\ k = VStr name.
Proof.
  unfold map_get. intros Hv Hne.
  destruct (List.filter _ (rev m)) as [|[k u] l] eqn:E; [by subst|]. subst u.
  assert (Hin : In (k, v) (List.filter (fun kv => is_str kv.1 name) (rev m))) by (rewrite E; by left).
  apply filter_In in Hin as [Hin Hk]. apply is_str_spec in Hk. exists k.
  split; [apply list_elem_of_In, in_rev, Hin|done].
Qed.

Lemma res_map_in {A B} (f : A -> Res B) l l' y :
  res_map f l = Ok l' -> y ∈ l' -> exists x, x ∈ l /\ f x = Ok y.
Proof.
  revert l'; induction l as [|x l IH]; intros l'; cbn.
  - intros [= <-] H. by apply not_elem_of_nil in H.
  - unfold mbind, res_bind. destruct (f x) as [z|] eqn:Ef; [|done]. destruct (res_map f l) as [zs|]; [|done].
    intros [= <-] [->|Hy]%elem_of_cons; [exists x; split; [left|done]|].
    destruct (IH zs eq_refl Hy) as (u & Hu & Hf). exists u. split; [by right|done].
Qed.

(** The catalogue's entry behind an id of the map. *)
Definition entry_of (p : Picker) (name : string) (id : Z) : Prop :=
  exists l e, problems p = VArr l /\ e ∈ l /\ prop e "name" = VStr name /\ prop e "id" = VNum id.

Lemma ids_entries p m names : idsByName p = Ok m ->
  Forall (fun id => exists name, name ∈ names /\ entry_of p name id) (problemIds m names).
Proof.
  intros Hm. apply Forall_forall. intros id Hid. unfold problemIds in Hid.
  apply list_elem_of_omap in Hid as (name & Hname & Hv). exists name. split; [done|].
  destruct (map_get m name) as [| | |z| | |] eqn:E; try done. injection Hv as ->.
  destruct (map_get_in _ _ _ E) as (k & Hin & ->); [done|].
  unfold idsByName, entries in Hm. destruct (problems p) as [| | | | |l|] eqn:El; try done.
  destruct (res_map_in _ _ _ _ Hm Hin) as (e & He & Hf). exists l, e. split; [done|]. split; [done|].
  unfold mbind, res_bind in Hf. destruct (get e "name") as [n|] eqn:En; [|done].
  destruct (get e "id") as [i|] eqn:Ei; [|done]. injection Hf as -> ->. by rewrite <- (get_prop _ _ _ En), <- (get_prop _ _ _ Ei).
Qed.

Lemma problemIds_length m names : length (problemIds m names) <= length names.
Proof.
  unfold problemIds. induction names as [|n names IH]; cbn; [lia|].
  destruct (map_get m n); cbn; lia.
Qed.

Lemma busy_ignored draws t : create_disabled (picker t) = true -> pick_step (ClickCreate draws) t = t.
Proof. intros Hb. unfold pick_step. rewrite Hb. by destruct (crashed t). Qed.

(** A click on Create changes nothing but the error, or makes one call. *)
Lemma click_create draws t :
  let t' := pick_step (ClickCreate draws) t in
  calls t' = calls t \/
  exists m, idsByName (picker t) = Ok m /\
    let ids := problemIds m (selectedProblems (picker t)) in
    length ids <> 0 /\
    calls t' = calls t ++
      [(random_code draws, VObj [("duration", VNum (duration (picker t))); ("problemIds", VArr (map VNum ids))])] /\
    create_disabled (picker t') = true.
Proof.
  cbn zeta. unfold pick_step. destruct (crashed t); [by left|]. destruct (create_disabled (picker t)); [by left|].
  destruct (idsByName (picker t)) as [m|] eqn:Em; [|by left]. unfold handleCreateRoom.
  cbn [selectedProblems setFormError].
  destruct (Nat.eqb_spec (length (problemIds m (selectedProblems (picker t)))) 0) as [E|E].
  - left. cbn. by rewrite app_nil_r.
  - right. exists m. by repeat split.
Qed.
End picker.

(** the Choose tab.  Whatever is selected, loaded and clicked, at most ten
    problems are selected; a click on Create either makes no call or exactly
    one, whose round asks for between one and ten hand-picked problems and none
    by difficulty, every requested id being that of a catalogue entry whose
    name is selected; and no further click is heard while the call runs. *)
Theorem picker_submits (evs : list Picker.PickEvent) (draws : nat -> nat) (profanityFilter : bool) :
  let t := Picker.pick_run evs in
  let t' := Picker.pick_step (Picker.ClickCreate draws) t in
  length (Picker.selectedProblems (Picker.picker t)) <= 10 /\
  (Picker.calls t' = Picker.calls t \/
   exists options params ids,
     Picker.calls t' = Picker.calls t ++ [(random_code draws, options)] /\
     roundParams (with_profanity options profanityFilter) = Ok params /\
     prop params "problemIds" = VArr (map VNum ids) /\ asked_total params = 0%Z /\
     1 <= length ids <= 10 /\
     Forall (fun id => exists name, name ∈ Picker.selectedProblems (Picker.picker t) /\
                                    entry_of (Picker.picker t) name id) ids /\
     forall draws', Picker.pick_step (Picker.ClickCreate draws') t' = t').
Proof.
  cbn zeta. pose proof (selected_cap evs) as Hcap. split; [done|].
  set (t := Picker.pick_run evs) in *.
  destruct (click_create draws t) as [->|(m & Em & Hne & Hc & Hb)]; [by left|]. right.
  set (ids := Picker.problemIds m (Picker.selectedProblems (Picker.picker t))) in *.
  eexists _, _, ids. split; [exact Hc|]. split; [reflexivity|]. split; [reflexivity|]. split; [reflexivity|].
  split; [pose proof (problemIds_length m (Picker.selectedProblems (Picker.picker t)));
          unfold Picker.MAX_CHOSEN_PROBLEMS in *; fold ids in H; lia|].
  split; [by apply ids_entries|]. intros draws'. by apply busy_ignored.
Qed.

(** the join form.  However the user types, presses Enter and clicks, every
    room code it joins with is what was typed without surrounding white space
    and not empty, and a join is never made while another one runs: there is at
    most one join more than joins that have ended. *)
Theorem join_one_at_a_time (evs : list Join.JoinEvent) :
  let p := Join.join_run evs in
  let ended := length (List.filter (fun ev => match ev with Join.JoinSettled _ => true | _ => false end) evs) in
  length (Join.joins p) <= ended + (if Join.isSubmittingJoin (Join.form p) then 1 else 0) /\
  Forall (fun code => code <> "" /\ exists typed, code = trim typed) (Join.joins p).
Proof.
  cbn zeta. induction evs as [|ev evs [IH1 IH2]] using rev_ind; [by split; [cbn; lia|constructor]|].
  unfold Join.join_run in *. rewrite foldl_app, List.filter_app, length_app. cbn [foldl].
  set (p := foldl _ _ evs) in *.
  assert (Hsub : Join.isSubmittingJoin (Join.form p) = false ->
    length (Join.joins (Join.submit p)) <=
      length (List.filter (fun ev => match ev with Join.JoinSettled _ => true | _ => false end) evs) +
      (if Join.isSubmittingJoin (Join.form (Join.submit p)) then 1 else 0) /\
    Forall (fun code => code <> "" /\ exists typed, code = trim typed) (Join.joins (Join.submit p))).
  { intros Hs. rewrite Hs in IH1. unfold Join.submit, Join.handleJoinRoom.
    change (Join.joinCode (Join.setFormError (Join.form p) None)) with (Join.joinCode (Join.form p)).
    destruct (String.eqb_spec (trim (Join.joinCode (Join.form p))) ""); cbn -[trim].
    - rewrite Hs, app_nil_r. split; [lia|done].
    - rewrite length_app. cbn. split; [lia|]. apply Forall_app; split; [done|]. constructor; [eauto|constructor]. }
  destruct ev as [code| | | |[[|m]|e]]; cbn; try (split; [lia|done]);
    destruct (Join.isSubmittingJoin (Join.form p)) eqn:Hs; cbn; rewrite ?Hs in *;
    try (split; [lia|done]); destruct (Hsub eq_refl); split; try lia; done.
Qed.
