(* ===== verification/Leaderboard.v ===== *)
(** * The leaderboard

    [hooks/useLeaderboard.ts] and the values its view,
    [customComponents/RoomDisplays/LeaderboardDisplay.tsx], derives from it.
    The hook's requests overlap: the machine below has a step for each of its
    effects, for the tick of its interval, for the status with which a request is answered and for the
    end of each request, in any order.  Starting a request aborts the previous one, before or after its status
    came; what an aborted request still does is the step in which its promise rejects. *)

From S2P Require Export World.

(** ** The answer of the service *)

(** A row of the board; the fields as the service sent them. *)
Record Entry := mkEntry { e_id : Val; e_username : Val; e_avatarUrl : Val; e_score : Val }.

(** [avatarUrl: entry.photoURL || undefined] and the other fields *)
Definition mapEntry (entry : Val) : Res Entry :=
  uid ← get entry "userAuthID"; handle ← get entry "handle";
  photo ← get entry "photoURL"; score ← get entry "score";
  Ok (mkEntry uid (js_or handle uid) (js_or photo VUndef) score).

(** What a request ends with whose status, not 404, has come, and what came of its JSON: the rows to show, an
    exception.  Whatever the JSON of a refusal throws is caught. *)
Definition body_answer (st : Z) (json : Res Val) : Res (list Entry) :=
  if negb (res_ok (mkResponse st None)) then
    let body := match json with Ok v => v | Throw _ => VObj [] end in
    Throw (js_error (to_str (js_or (get_opt body "message") (VStr ("HTTP " +:+ z_str st)))))
  else
    data ← json;
    board ← get data "leaderboard";
    match js_coalesce board (VArr []) with
    | VArr entries => res_map mapEntry entries
    | _ => Throw type_error
    end.

(** The JSON of an answer, and what the whole request ends with *)
Definition body_of (r : NetReply) : Res Val :=
  match r with NetFail e => Throw e | Reply _ _ (Some v) => Ok v | Reply _ _ None => Throw syntax_error end.
Definition board_answer (r : NetReply) : Res (list Entry) :=
  match r with
  | NetFail e => Throw e
  | Reply _ st _ => if (st =? 404)%Z then Ok [] else body_answer st (body_of r)
  end.

(** ** The hook *)

(** A request in flight: its number, its room, whether it was aborted, and its status when that has come
    and the hook waits for the JSON. *)
Record Pending := mkPending { number : nat; p_room : string; aborted : bool; p_status : option Z }.

Record Board := mkBoard {
  b_roomId : option string;            (* the store's fields the hook reads *)
  b_isRoundStarted : bool;
  b_lastGameEvent : option GameEventType;
  entries : list Entry;
  isLoading : bool;
  error : option Val;
  poll : option string;                (* the room the running interval polls *)
  pending : list Pending;
  next : nat;                          (* the number of the next request *)
}.

Definition POLL_INTERVAL_MS : Z := 15000.

(** [abortRef.current.abort()]: the last request, if it is still in flight *)
Definition abort_last (s : Board) : list Pending :=
  map (fun p => if S (number p) =? next s then mkPending (number p) (p_room p) true (p_status p) else p) (pending s).

(** [fetchLeaderboard] up to its request; the callback closes over [roomId]. *)
Definition fetchLeaderboard (roomId : option string) (s : Board) : Board :=
  match roomId with
  | Some room =>
      if String.eqb room "" then s
      else mkBoard (b_roomId s) (b_isRoundStarted s) (b_lastGameEvent s) (entries s) true None (poll s)
             (abort_last s ++ [mkPending (next s) room false None]) (S (next s))
  | None => s
  end.

(** The end of a request: it is in flight no more, and the [finally] clears the loading flag. *)
Definition finish (n : nat) (es : list Entry) (err : option Val) (s : Board) : Board :=
  mkBoard (b_roomId s) (b_isRoundStarted s) (b_lastGameEvent s) es false err (poll s)
    (List.filter (fun p => negb (number p =? n)) (pending s)) (next s).
(** The [catch] *)
Definition caught (e : Val) (err : option Val) : option Val :=
  if is_nullish e then err
  else if is_str (prop e "name") "AbortError" then err
  else Some (js_coalesce (get_opt e "message") (VStr "Failed to load leaderboard")).

(** What request [p] ends with: an abort rejects the promise that the hook waits for, the one of the answer or, once
    the status has come, the one of the JSON. *)
Definition outcome (p : Pending) (r : NetReply) : Res (list Entry) :=
  match p_status p with
  | None => if aborted p then Throw abort_error else board_answer r
  | Some st => body_answer st (if aborted p then Throw abort_error else body_of r)
  end.

(** The rest of [fetchLeaderboard], once request [n] ends with [r]. *)
Definition settle (n : nat) (r : NetReply) (s : Board) : Board :=
  match List.find (fun p => number p =? n) (pending s) with
  | None => s
  | Some p =>
      match outcome p r with
      | Ok es => finish n es (error s) s
      | Throw e => finish n (entries s) (caught e (error s)) s
      end
  end.

(** The status of request [n] comes, which was not aborted before: at 404 the hook returns, otherwise it reads the JSON. *)
Definition status_came (n : nat) (st : Z) (s : Board) : Board :=
  match List.find (fun p => number p =? n) (pending s) with
  | Some (mkPending _ _ false None) =>
      if (st =? 404)%Z then finish n [] (error s) s
      else mkBoard (b_roomId s) (b_isRoundStarted s) (b_lastGameEvent s) (entries s) (isLoading s) (error s) (poll s)
             (map (fun p => if number p =? n then mkPending (number p) (p_room p) (aborted p) (Some st) else p) (pending s)) (next s)
  | _ => s
  end.

(** The effect that starts and stops the polling. *)
Definition poll_effect (s : Board) : Board :=
  mkBoard (b_roomId s) (b_isRoundStarted s) (b_lastGameEvent s) (entries s) (isLoading s) (error s)
    (if b_isRoundStarted s && opt_truthy (b_roomId s) then b_roomId s else None) (pending s) (next s).

(** The extra fetch when the round ends. *)
Definition round_end_effect (s : Board) : Board :=
  match b_lastGameEvent s with Some round_end => fetchLeaderboard (b_roomId s) s | _ => s end.

Inductive BoardEvent :=
| RoomChanged (roomId : option string)
| RoundChanged (started : bool)
| GameEventSet (e : option GameEventType)
| PollTick
| Refresh
| Answered (n : nat) (st : Z)
| Settled (n : nat) (r : NetReply).

Definition set_store (room : option string) (started : bool) (ev : option GameEventType) (s : Board) : Board :=
  mkBoard room started ev (entries s) (isLoading s) (error s) (poll s) (pending s) (next s).

(** A new room renews the callback, on which all three effects depend. *)
Definition board_step (ev : BoardEvent) (s : Board) : Board :=
  match ev with
  | RoomChanged room =>
      round_end_effect (poll_effect (fetchLeaderboard room (set_store room (b_isRoundStarted s) (b_lastGameEvent s) s)))
  | RoundChanged b => poll_effect (set_store (b_roomId s) b (b_lastGameEvent s) s)
  | GameEventSet e => round_end_effect (set_store (b_roomId s) (b_isRoundStarted s) e s)
  | PollTick => fetchLeaderboard (poll s) s
  | Refresh => fetchLeaderboard (b_roomId s) s
  | Answered n st => status_came n st s
  | Settled n r => settle n r s
  end.

(** Mounting runs the three effects. *)
Definition board_init (room : option string) (started : bool) (ev : option GameEventType) : Board :=
  round_end_effect (poll_effect (fetchLeaderboard room (mkBoard room started ev [] false None None [] 0))).

Definition board_run (evs : list BoardEvent) (s : Board) : Board := foldl (fun s ev => board_step ev s) s evs.

(** ** The view *)

(** [byRank] and the rows below the podium, with the ranks they are shown with *)
Definition byRank (sorted : list Entry) (rank : nat) : option Entry :=
  match rank with 1 => sorted !! 0 | 2 => sorted !! 1 | 3 => sorted !! 2 | _ => None end.
Definition PODIUM_SLOTS : list nat := [2; 1; 3].
Definition podium (sorted : list Entry) : list (nat * option Entry) := map (fun r => (r, byRank sorted r)) PODIUM_SLOTS.
Definition rest_rows (sorted : list Entry) : list (nat * Entry) :=
  imap (fun index player => (index + 4, player)) (drop 3 sorted).

(** Which of its three bodies the board shows. *)
Inductive BoardBody := Skeleton | NoRankings | Rankings.
Definition board_body (s : Board) : BoardBody :=
  if length (entries s) =? 0 then (if isLoading s then Skeleton else NoRankings) else Rankings.

(** [name[0]?.toUpperCase() ?? "?"] *)
Definition initials (name : string) : string :=
  match name with String a _ => to_upper (String a "") | EmptyString => "?" end.

(** ** Invariant *)

(** Requests are numbered in the order they were made, and only the last one
    can be in flight without being aborted; it is for the room of the store, if
    the store still has one, as is the running interval. *)
Record numbered (s : Board) : Prop := {
  ok_numbers : Forall (fun p => number p < next s) (pending s);
  ok_nodup : NoDup (map number (pending s));
  ok_live : forall p, p ∈ pending s -> aborted p = false -> S (number p) = next s;
}.

(** The live request is for this room, if it is one. *)
Definition live_room (room : option string) (s : Board) : Prop :=
  forall p, p ∈ pending s -> aborted p = false -> opt_truthy room = true -> room = Some (p_room p).

Record board_ok (s : Board) : Prop := {
  ok_numbered : numbered s;
  ok_room : live_room (b_roomId s) s;
  ok_poll : forall room, poll s = Some room -> b_roomId s = Some room;
}.

Lemma abort_numbers s : map number (abort_last s) = map number (pending s).
Proof. unfold abort_last. rewrite map_map. apply map_ext. intros p. by destruct (_ =? _). Qed.

Lemma abort_all s p : numbered s -> p ∈ abort_last s -> aborted p = true.
Proof.
  intros Hs (q & -> & Hq)%list_elem_of_fmap. destruct (S (number q) =? next s) eqn:E; [done|].
  destruct (aborted q) eqn:Ea; [done|]. apply Nat.eqb_neq in E. by destruct E; apply ok_live.
Qed.

Lemma number_lt s n : numbered s -> n ∈ map number (pending s) -> n < next s.
Proof.
  intros Hs (q & -> & Hq)%list_elem_of_fmap. pose proof (ok_numbers _ Hs) as Hall.
  rewrite Forall_forall in Hall. by apply Hall.
Qed.

Lemma fetch_numbered room s : numbered s -> numbered (fetchLeaderboard room s).
Proof.
  intros Hs. unfold fetchLeaderboard. destruct room as [r|]; [|done]. destruct (String.eqb r ""); [done|].
  split; cbn.
  - apply Forall_app; split; [|by repeat constructor]. apply Forall_forall. intros p Hp.
    apply Nat.lt_lt_succ_r, number_lt; [done|]. rewrite <- abort_numbers. by apply list_elem_of_fmap_2.
  - rewrite map_app, abort_numbers. cbn. apply NoDup_app. split; [apply (ok_nodup _ Hs)|].
    split; [|apply NoDup_singleton]. intros n Hn Hq%list_elem_of_singleton. subst n.
    apply (number_lt _ _ Hs) in Hn. lia.
  - intros p [Hp|Hq%list_elem_of_singleton]%elem_of_app; [|by subst].
    intros Ha. by rewrite (abort_all _ _ Hs Hp) in Ha.
Qed.

(** A fetch for the room makes the live request one for the room. *)
Lemma fetch_room room s : numbered s -> live_room room (fetchLeaderboard room s).
Proof.
  intros Hs p. unfold fetchLeaderboard. destruct room as [r|]; [|done].
  destruct (String.eqb r "") eqn:E; [cbn; by rewrite E|]. cbn.
  intros [Hp|Hq%list_elem_of_singleton]%elem_of_app Ha; [|by subst]. by rewrite (abort_all _ _ Hs Hp) in Ha.
Qed.

Lemma fetch_fields room s :
  b_roomId (fetchLeaderboard room s) = b_roomId s /\ poll (fetchLeaderboard room s) = poll s /\
  entries (fetchLeaderboard room s) = entries s.
Proof. unfold fetchLeaderboard. destruct room as [r|]; [|done]. by destruct (String.eqb r ""). Qed.

Lemma fetch_ok room s : board_ok s -> room = b_roomId s -> board_ok (fetchLeaderboard room s).
Proof.
  intros [Hn Hr Hp] ->. destruct (fetch_fields (b_roomId s) s) as (E1 & E2 & _).
  split; [by apply fetch_numbered|rewrite E1; by apply fetch_room|by rewrite E1, E2].
Qed.

Lemma poll_ok s : numbered s -> live_room (b_roomId s) s -> board_ok (poll_effect s).
Proof.
  intros Hn Hr. split; [by destruct Hn; split|done|]. cbn. intros room.
  by destruct (_ && _).
Qed.

Lemma round_end_ok s : board_ok s -> board_ok (round_end_effect s).
Proof. intros Hs. unfold round_end_effect. destruct (b_lastGameEvent s) as [[]|]; try done. by apply fetch_ok. Qed.

Lemma NoDup_filter_map {A B} (f : A -> B) (P : A -> bool) l : NoDup (map f l) -> NoDup (map f (List.filter P l)).
Proof.
  induction l as [|x l IH]; cbn; [done|]. intros [Hx Hl]%NoDup_cons. destruct (P x); [|auto]. cbn.
  apply NoDup_cons. split; [|auto]. intros (y & Hy & Hin)%list_elem_of_fmap. apply Hx.
  apply list_elem_of_fmap. exists y. split; [done|]. apply list_elem_of_In, filter_In in Hin as [Hin _].
  by apply list_elem_of_In.
Qed.

Lemma finish_ok n es err s : board_ok s -> board_ok (finish n es err s).
Proof.
  intros [Hn Hr Hp].
  assert (Hin : forall p, p ∈ pending (finish n es err s) -> p ∈ pending s).
  { intros p. unfold finish. cbn. rewrite !list_elem_of_In, filter_In. tauto. }
  split; [split|intros p; cbn|done].
  - apply Forall_forall. intros p Hin'%Hin. apply (number_lt s); [done|]. by apply list_elem_of_fmap_2.
  - apply NoDup_filter_map, Hn.
  - intros p Hin'%Hin. by apply Hn.
  - intros Hin'%Hin. by apply Hr.
Qed.

Lemma settle_ok n r s : board_ok s -> board_ok (settle n r s).
Proof. intros Hs. unfold settle. destruct (List.find _ _) as [p|]; [|done]. destruct (outcome p r); by apply finish_ok. Qed.

Lemma status_came_ok n st s : board_ok s -> board_ok (status_came n st s).
Proof.
  intros Hs. unfold status_came. destruct (List.find _ _) as [[k room [] [st'|]]|]; try done.
  destruct (st =? 404)%Z; [by apply finish_ok|]. destruct Hs as [[N1 N2 N3] Hr Hp].
  set (f := fun p => if number p =? n then mkPending (number p) (p_room p) (aborted p) (Some st) else p).
  assert (Hf : forall p, number (f p) = number p /\ p_room (f p) = p_room p /\ aborted (f p) = aborted p).
  { intros p. unfold f. by destruct (number p =? n). }
  assert (Hm : map number (map f (pending s)) = map number (pending s)).
  { rewrite map_map. apply map_ext. intros p. apply Hf. }
  split; [split|intros p; cbn|done]; cbn.
  - apply Forall_map. eapply Forall_impl; [exact N1|]. intros p Hlt. cbn. by rewrite (proj1 (Hf p)).
  - by rewrite Hm.
  - intros p (q & -> & Hq)%list_elem_of_fmap. destruct (Hf q) as (-> & _ & ->). by apply N3.
  - intros (q & -> & Hq)%list_elem_of_fmap. destruct (Hf q) as (_ & -> & ->). by apply Hr.
Qed.

Lemma set_store_numbered room b e s : numbered s -> numbered (set_store room b e s).
Proof. by intros []; split. Qed.

Lemma board_step_ok ev s : board_ok s -> board_ok (board_step ev s).
Proof.
  intros Hs. pose proof Hs as [Hn Hr Hp]. destruct ev as [room|b|e| | |n st|n r]; cbn [board_step].
  - apply round_end_ok, poll_ok.
    + by apply fetch_numbered, set_store_numbered.
    + destruct (fetch_fields room (set_store room (b_isRoundStarted s) (b_lastGameEvent s) s)) as (-> & _).
      by apply fetch_room, set_store_numbered.
  - by apply poll_ok; [apply set_store_numbered|].
  - apply round_end_ok. by destruct Hn; split.
  - destruct (poll s) as [r|] eqn:E; [|done]. apply fetch_ok; [done|]. by rewrite (Hp r).
  - by apply fetch_ok.
  - by apply status_came_ok.
  - by apply settle_ok.
Qed.

Lemma board_init_ok room b e : board_ok (board_init room b e).
Proof.
  assert (Hn : numbered (mkBoard room b e [] false None None [] 0)).
  { split; cbn; [done|by apply NoDup_nil|by intros p ?%not_elem_of_nil]. }
  apply round_end_ok, poll_ok; [by apply fetch_numbered|].
  destruct (fetch_fields room (mkBoard room b e [] false None None [] 0)) as (-> & _). by apply fetch_room.
Qed.

Lemma board_run_ok evs s : board_ok s -> board_ok (board_run evs s).
Proof. revert s; induction evs as [|ev evs IH]; intros s Hs; [done|]. by apply IH, board_step_ok. Qed.

(** ** Properties *)

(** A request in flight is the one that its number finds. *)
Lemma find_pending p s : numbered s -> p ∈ pending s -> List.find (fun q => number q =? number p) (pending s) = Some p.
Proof.
  intros Hs Hp. destruct (List.find _ _) as [q|] eqn:Ef.
  - apply find_some in Ef as [Hq%list_elem_of_In En%Nat.eqb_eq]. f_equal.
    apply list_elem_of_lookup in Hq as [i Hi], Hp as [j Hj].
    assert (i = j) as <-; [|congruence].
    apply (NoDup_lookup (map number (pending s)) _ _ (number p) (ok_nodup _ Hs)); rewrite list_lookup_fmap; [by rewrite Hi, <- En|by rewrite Hj].
  - apply list_elem_of_In in Hp. apply (find_none _ _ Ef p) in Hp. by rewrite Nat.eqb_refl in Hp.
Qed.

(** An aborted request that ends leaves the rows, and also the error unless the JSON of a refusal was being read. *)
Definition refusal (p : Pending) (err : option Val) : Prop :=
  exists st, p_status p = Some st /\ res_ok (mkResponse st None) = false /\ err = Some (VStr ("HTTP " +:+ z_str st)).

Lemma aborted_ends p r err : aborted p = true -> exists e, outcome p r = Throw e /\ (caught e err = err \/ refusal p (caught e err)).
Proof.
  intros Ha. unfold outcome, refusal. destruct p as [n room a [st|]]; cbn in *; subst a; [|by eexists; split; [done|left]].
  unfold body_answer. destruct (res_ok (mkResponse st None)) eqn:Eo; cbn [negb].
  - eexists. split; [reflexivity|]. by left.
  - eexists. split; [reflexivity|]. right. exists st. by split_and!.
Qed.

(** The live request, in the room of the store *)
Definition is_latest (n : nat) (s : Board) : Prop :=
  exists p, p ∈ pending s /\ number p = n /\ aborted p = false /\ S n = next s /\
    (opt_truthy (b_roomId s) = true -> b_roomId s = Some (p_room p)).

(** C27: the board shows the latest answer.  Whatever order rooms change, rounds start and end, the interval ticks, and
    requests are answered and end in, the status or the end of a
    request changes the rows only when it is the request made last,
    it was not aborted, and it is for the room the store is in, if it is in one; then the rows are
    those of its answer, none at 404, or the ones before when it failed; no other changes the error, with one exception: a
    request that was refused and aborted before its JSON was read still sets its status as the error;
    no other request that is not aborted is in flight; and an interval polls the
    room the store is in. *)
Theorem leaderboard_latest (room : option string) (started : bool) (e : option GameEventType)
    (evs : list BoardEvent) (n : nat) (ev : BoardEvent) :
  (exists st, ev = Answered n st) \/ (exists r, ev = Settled n r) ->
  let s := board_run evs (board_init room started e) in
  let s' := board_step ev s in
  ((entries s' = entries s /\ (error s' = error s \/ exists p, p ∈ pending s /\ number p = n /\ aborted p = true /\ refusal p (error s'))) \/
   is_latest n s) /\
  (forall p, p ∈ pending s -> number p = n -> aborted p = false ->
     match ev with
     | Answered _ st => entries s' = if bool_decide (p_status p = None) && (st =? 404)%Z then [] else entries s
     | Settled _ r => entries s' = match outcome p r with Ok es => es | Throw _ => entries s end
     | _ => True
     end) /\
  (forall p q, p ∈ pending s -> q ∈ pending s -> aborted p = false -> aborted q = false -> number p = number q) /\
  (forall polled, poll s = Some polled -> b_roomId s = Some polled).
Proof.
  intros Hev. cbn zeta. pose proof (board_run_ok evs _ (board_init_ok room started e)) as [Hn Hr Hp].
  set (s := board_run evs (board_init room started e)) in *. split; [|split; [|split; [|done]]].
  - destruct (List.find (fun p => number p =? n) (pending s)) as [p|] eqn:Ef.
    2:{ left. destruct Hev as [[st ->]|[r ->]]; cbn [board_step]; unfold settle, status_came; rewrite Ef; auto. }
    apply find_some in Ef as Hin. destruct Hin as [Hin%list_elem_of_In En%Nat.eqb_eq].
    destruct (aborted p) eqn:Ea; [left|right; exists p; subst n; split_and!; [done..|by apply Hn|by apply Hr]].
    destruct Hev as [[st ->]|[r ->]]; cbn [board_step]; unfold settle, status_came; rewrite Ef.
    + destruct p as [k rm a so]. cbn in Ea. subst a. auto.
    + destruct (aborted_ends p r (error s) Ea) as (x & Ho & Hx). rewrite Ho. cbn. split; [done|].
      destruct Hx as [Hx|Hx]; [by left|]. right. by exists p.
  - intros p Hp' <- Ha. pose proof (find_pending p s Hn Hp') as Ef.
    destruct Hev as [[st ->]|[r ->]]; cbn [board_step]; unfold settle, status_came; rewrite Ef.
    + destruct p as [k rm a [st'|]]; cbn in Ha; subst a; [done|]. cbn [p_status]. cbn.
      by destruct (st =? 404)%Z.
    + by destruct (outcome p r).
  - intros p q Hip Hiq Ha Hb. pose proof (ok_live _ Hn _ Hip Ha). pose proof (ok_live _ Hn _ Hiq Hb). lia.
Qed.

(** The last answer of a room that is refreshed before the rows have come *)
Lemma leaderboard_latest_witness :
  let s := board_run [Refresh] (board_init (Some "r1") true None) in
  entries (board_step (Settled 0 (Reply 5 200 (Some (VObj [])))) s) = [] /\
  entries (board_step (Settled 1 (Reply 5 200 (Some (VObj [("leaderboard", VArr [VObj [("handle", VStr "ann")]])])))) s) =
    [mkEntry VUndef (VStr "ann") VUndef VUndef].
Proof.
  cbn zeta. split.
  - destruct (leaderboard_latest (Some "r1") true None [Refresh] 0 (Settled 0 (Reply 5 200 (Some (VObj [])))) ltac:(right; by eexists))
      as ([[H _]|(p & _ & _ & _ & H & _)] & _); [exact H|discriminate H].
  - destruct (leaderboard_latest (Some "r1") true None [Refresh] 1
      (Settled 1 (Reply 5 200 (Some (VObj [("leaderboard", VArr [VObj [("handle", VStr "ann")]])])))) ltac:(right; by eexists))
      as (_ & H & _).
    apply (H (mkPending 1 "r1" false None)); [|reflexivity|reflexivity].
    apply list_elem_of_further, list_elem_of_here.
Defined.

(** A refresh while the JSON of a refusal is read: the new request has cleared the error, and the old one, although
    aborted, sets it again. *)
Lemma aborted_sets_error :
  let s := board_run [Answered 0 500; Refresh] (board_init (Some "r1") true None) in
  error s = None /\ error (board_step (Settled 0 (NetFail abort_error)) s) = Some (VStr "HTTP 500").
Proof. split; vm_compute; reflexivity. Qed.

(** every row of the service's board is shown once, in its order: the rows
    have the sent ids and scores and are named by the handle, or by the id
    where the handle is empty; the first three stand on the podium and the row
    at position [i] is always shown at rank [i + 1].  A room without a round (404)
    shows no rows, and a failed request keeps the rows and shows an error. *)
Theorem leaderboard_rows (s : Board) (n : nat) (room : string) (fs : list (string * Val)) (rows : list Val) (d st : Z) :
  pending s = [mkPending n room false None] ->
  prop (VObj fs) "leaderboard" = VArr rows ->
  Forall (fun v => is_nullish v = false) rows ->
  let ok := settle n (Reply d 200 (Some (VObj fs))) s in
  entries ok = map (fun v => mkEntry (prop v "userAuthID") (js_or (prop v "handle") (prop v "userAuthID"))
                               (js_or (prop v "photoURL") VUndef) (prop v "score")) rows /\
  isLoading ok = false /\
  (forall i en, entries ok !! i = Some en ->
     if i <? 3 then (S i, Some en) ∈ podium (entries ok) else (S i, en) ∈ rest_rows (entries ok)) /\
  entries (settle n (Reply d 404 None) s) = [] /\
  ((st <> 404)%Z -> res_ok (mkResponse st None) = false ->
     let err := settle n (Reply d st None) s in
     entries err = entries s /\ error err = Some (VStr ("HTTP " +:+ z_str st)) /\ isLoading err = false).
Proof.
  intros Hpend Hl Hrows.
  assert (Hset : forall r, settle n r s = settle n r (mkBoard (b_roomId s) (b_isRoundStarted s) (b_lastGameEvent s)
    (entries s) (isLoading s) (error s) (poll s) [mkPending n room false None] (next s))) by (intros; rewrite <- Hpend; by destruct s).
  assert (Hmap : res_map mapEntry rows = Ok (map (fun v => mkEntry (prop v "userAuthID")
    (js_or (prop v "handle") (prop v "userAuthID")) (js_or (prop v "photoURL") VUndef) (prop v "score")) rows)).
  { clear -Hrows. induction Hrows as [|v rows Hv Hrows IH]; [done|]. cbn [res_map]. rewrite IH. unfold mapEntry, get.
    by rewrite Hv. }
  assert (Hans : board_answer (Reply d 200 (Some (VObj fs))) = res_map mapEntry rows).
  { unfold board_answer, body_answer, body_of, get, mbind, res_bind. change (200 =? 404)%Z with false.
    change (negb (res_ok (mkResponse 200 None))) with false. cbv iota. change (is_nullish (VObj fs)) with false. cbv iota. change (field "leaderboard" fs) with (prop (VObj fs) "leaderboard").
    by rewrite Hl. }
  cbn zeta. rewrite !Hset. unfold settle. cbn [pending List.find number]. rewrite Nat.eqb_refl.
  unfold outcome. cbn [p_status aborted]. rewrite Hans, Hmap. cbn [finish entries isLoading]. split; [done|]. split; [done|]. split; [|split; [done|]].
  - intros i en Hi. destruct (Nat.ltb_spec i 3).
    + unfold podium, PODIUM_SLOTS, byRank. cbn [map].
      destruct i as [|[|[|i]]]; [| | |lia]; rewrite Hi; set_solver.
    + unfold rest_rows. apply list_elem_of_lookup. exists (i - 3). rewrite list_lookup_imap, lookup_drop.
      replace (3 + (i - 3)) with i by lia. rewrite Hi. cbn. do 2 f_equal. lia.
  - intros Hst Hok. unfold board_answer, body_answer. destruct (Z.eqb_spec st 404); [done|]. by rewrite Hok.
Qed.

Definition demo_row (uid handle : string) (score : Z) : Val :=
  VObj [("userAuthID", VStr uid); ("handle", VStr handle); ("photoURL", VStr ""); ("score", VNum score); ("rank", VNum 1)].

Lemma leaderboard_rows_witness :
  let s := board_init (Some "r1") true None in
  let ok := settle 0 (Reply 5 200 (Some (VObj [("leaderboard", VArr [demo_row "a" "ann" 30; demo_row "b" "" 20])]))) s in
  map e_username (entries ok) = [VStr "ann"; VStr "b"] /\
  (forall i en, entries ok !! i = Some en ->
     if i <? 3 then (S i, Some en) ∈ podium (entries ok) else (S i, en) ∈ rest_rows (entries ok)).
Proof.
  split; [reflexivity|].
  apply (leaderboard_rows (board_init (Some "r1") true None) 0 "r1"
    [("leaderboard", VArr [demo_row "a" "ann" 30; demo_row "b" "" 20])]
    [demo_row "a" "ann" 30; demo_row "b" "" 20] 5 200 eq_refl eq_refl).
  repeat (apply List.Forall_cons; [reflexivity|]). apply List.Forall_nil.
Defined.

(** a request that replaces another one ends up not loading although it is
    in flight: when the replaced request rejects, its [finally] clears the flag
    that the newer request has set. *)
Theorem abort_clears_loading (s : Board) (room : string) (r : NetReply) :
  board_ok s -> room <> "" -> b_roomId s = Some room ->
  Exists (fun p => S (number p) = next s) (pending s) ->
  let s1 := board_step Refresh s in
  let s2 := board_step (Settled (next s - 1) r) s1 in
  isLoading s1 = true /\ isLoading s2 = false /\
  mkPending (next s) room false None ∈ pending s2 /\ entries s2 = entries s.
Proof.
  intros [Hn _ _] Hne Hroom Hex. cbn zeta. cbn [board_step]. unfold fetchLeaderboard. rewrite Hroom.
  rewrite (proj2 (String.eqb_neq room "") Hne). unfold settle. cbn [pending isLoading entries].
  destruct (List.find (fun p => number p =? next s - 1) (abort_last s ++ [mkPending (next s) room false None])) as [p|] eqn:Ef.
  - apply find_some in Ef as [Hin%list_elem_of_In Enum%Nat.eqb_eq].
    assert (Hnext : 0 < next s).
    { apply Exists_exists in Hex as (q & Hq & Hq'). lia. }
    apply elem_of_app in Hin as [Hin|Hq%list_elem_of_singleton]; [|subst p; cbn in Enum; lia].
    destruct (aborted_ends p r None (abort_all _ _ Hn Hin)) as (x & -> & _). cbn.
    split; [done|]. split; [done|]. split; [|done].
    apply list_elem_of_In, filter_In. split; [apply in_or_app; right; by left|]. cbn.
    apply negb_true_iff, Nat.eqb_neq. lia.
  - exfalso. apply Exists_exists in Hex as (q & Hq & Hq').
    assert (Hm : number q ∈ map number (abort_last s)) by (rewrite abort_numbers; by apply list_elem_of_fmap_2).
    apply list_elem_of_fmap in Hm as (q' & Hnum & Hin).
    eapply find_none in Ef; [|apply in_or_app; left; apply list_elem_of_In, Hin]. apply Nat.eqb_neq in Ef. lia.
Qed.

Lemma abort_clears_loading_witness :
  let s := board_init (Some "r1") true None in
  let s2 := board_step (Settled 0 (NetFail abort_error)) (board_step Refresh s) in
  isLoading s2 = false /\ map number (pending s2) = [1] /\ board_body s2 = NoRankings.
Proof.
  cbn zeta.
  destruct (abort_clears_loading (board_init (Some "r1") true None) "r1" (NetFail abort_error)
    (board_init_ok (Some "r1") true None) ltac:(discriminate) eq_refl ltac:(left; reflexivity)) as (_ & H & _).
  split; [exact H|]. split; reflexivity.
Defined.
