(* ===== verification/Statistics.v ===== *)
(** * The statistics of a round

    [hooks/useStatistics.ts] and the numbers
    [customComponents/RoomDisplays/StatisticsDisplay.tsx] derives: solve times,
    times and counts per difficulty, the chart's data.  The records are the
    interfaces of the hook; a field the view tests before it uses is optional. *)

From S2P Require Export World.
From stdpp Require Import gmap sets.

Record RoundProblem := mkRoundProblem { rp_id : Z; rp_name : string; rp_slug : string; rp_difficulty : string }.
Record SolvedProblemInfo := mkSolved { problemId : Z; solved_at : string }.
Record RoundDetails := mkRoundDetails {
  roundId : Z;
  rd_status : string;
  roundStartTime : string;
  rd_problems : option (list RoundProblem);
  solvedProblems : option (gmap string (list SolvedProblemInfo));
}.
Record UserStatistics := mkUserStatistics { score : Z }.

(** ** The hook *)

(** How a request of type [A] ends: rejected, or a response with a JSON body of
    that type, [None] for [null] or a missing field. *)
Inductive Fetched (A : Type) := Failed | Got (status : Z) (body : option A).
Arguments Failed {_}.
Arguments Got {_} _ _.

Record Stats := mkStats {
  statistics : option UserStatistics;
  roundDetails : option RoundDetails;
  st_poll : option string;            (* the room of the running interval *)
  st_sent : list string;              (* the urls requested so far *)
}.

Definition statsInit : Stats := mkStats None None None [].

Definition fetchStats (base room : string) (s : Stats) : Stats :=
  mkStats (statistics s) (roundDetails s) (st_poll s)
    (st_sent s ++ [base +:+ "/statistics/" +:+ room; base +:+ "/rooms/" +:+ room +:+ "/round-details"]).

(** The effect; the previous interval has been cleared. *)
Definition stats_effect (base : string) (roomId : option string) (s : Stats) : Stats :=
  match roomId with
  | Some room =>
      if String.eqb room "" then mkStats (statistics s) (roundDetails s) None (st_sent s)
      else fetchStats base room (mkStats (statistics s) (roundDetails s) (Some room) (st_sent s))
  | None => mkStats (statistics s) (roundDetails s) None (st_sent s)
  end.

(** The body is read whatever the status. *)
Definition statistics_answer (r : Fetched UserStatistics) (s : Stats) : Stats :=
  match r with
  | Failed => s
  | Got _ d => mkStats d (roundDetails s) (st_poll s) (st_sent s)
  end.

Definition details_answer (r : Fetched RoundDetails) (s : Stats) : Stats :=
  match r with
  | Failed => s
  | Got st d =>
      if (st =? 404)%Z then s
      else if negb ((200 <=? st) && (st <=? 299))%Z then s
      else match d with
           | Some _ => mkStats (statistics s) d (st_poll s) (st_sent s)
           | None => s
           end
  end.

Inductive StatsEvent :=
| StatsRoom (roomId : option string)
| StatsTick
| StatisticsAnswered (r : Fetched UserStatistics)
| DetailsAnswered (r : Fetched RoundDetails).

Definition stats_step (base : string) (ev : StatsEvent) (s : Stats) : Stats :=
  match ev with
  | StatsRoom room => stats_effect base room s
  | StatsTick => match st_poll s with Some room => fetchStats base room s | None => s end
  | StatisticsAnswered r => statistics_answer r s
  | DetailsAnswered r => details_answer r s
  end.

(** ** The view *)

(** A value per difficulty *)
Record PerDifficulty (A : Type) := mkPer { per_easy : A; per_medium : A; per_hard : A }.
Arguments mkPer {_} _ _ _.
Arguments per_easy {_} _.
Arguments per_medium {_} _.
Arguments per_hard {_} _.

Definition per {A} (p : PerDifficulty A) (d : Difficulty) : A :=
  match d with Easy => per_easy p | Medium => per_medium p | Hard => per_hard p end.
Definition per_update {A} (f : A -> A) (d : Difficulty) (p : PerDifficulty A) : PerDifficulty A :=
  match d with
  | Easy => mkPer (f (per_easy p)) (per_medium p) (per_hard p)
  | Medium => mkPer (per_easy p) (f (per_medium p)) (per_hard p)
  | Hard => mkPer (per_easy p) (per_medium p) (f (per_hard p))
  end.

Section view.
Context `{JsEnv}.

(** [new Date(s.timestamp).getTime()] *)
Definition time_of (s : SolvedProblemInfo) : num := date_parse (solved_at s).

(** [sort((a, b) => time(a) - time(b))]: stable, equal when the difference is
    not a number. *)
Definition not_after (a b : SolvedProblemInfo) : bool := negb (ngt (time_of a) (time_of b)).
Fixpoint insert_solved (x : SolvedProblemInfo) (l : list SolvedProblemInfo) : list SolvedProblemInfo :=
  match l with
  | [] => [x]
  | y :: l' => if not_after x y then x :: l else y :: insert_solved x l'
  end.
Definition sort_solved (l : list SolvedProblemInfo) : list SolvedProblemInfo := foldr insert_solved [] l.

(** [Math.max(0, Math.floor(ms / 1000))] *)
Definition duration_sec (ms : num) : num :=
  match ms with Fin z => Fin (Z.max 0 (z / 1000)) | NaN => NaN end.

(** [`${mins}m ${secs}s`] *)
Definition minutes_text (secs : Z) : string := z_str (secs / 60) +:+ "m " +:+ z_str (secs mod 60) +:+ "s".
Definition minutes_num (secs : num) : string :=
  match secs with Fin z => minutes_text z | NaN => "NaNm NaNs" end.

(** [d.charAt(0).toUpperCase() + d.slice(1).toLowerCase()], when it is one of
    the keys *)
Definition capitalized (d : string) : string := to_upper (str_take 1 d) +:+ to_lower (str_drop 1 d).
Definition difficulty_of (d : string) : option Difficulty :=
  let k := capitalized d in
  if String.eqb k "Easy" then Some Easy
  else if String.eqb k "Medium" then Some Medium
  else if String.eqb k "Hard" then Some Hard
  else None.

(** The map of the problems' difficulties; the last problem of an id wins. *)
Definition diffMap (d : RoundDetails) : gmap Z string :=
  foldl (fun m p => <[rp_id p := rp_difficulty p]> m) ∅ (default [] (rd_problems d)).

(** What the loop over the sorted solutions accumulates. *)
Record Tally := mkTally {
  solvedIds : gset Z;
  timePerDifficulty : PerDifficulty num;
  totalMs : num;
  lastTime : num;
}.

Definition tally_step (m : gmap Z string) (a : Tally) (s : SolvedProblemInfo) : Tally :=
  let t := time_of s in
  let durationSec := duration_sec (nsub t (lastTime a)) in
  mkTally ({[problemId s]} ∪ solvedIds a)
    (match m !! problemId s with
     | Some d =>
         match difficulty_of d with
         | Some k => per_update (fun v => nadd v durationSec) k (timePerDifficulty a)
         | None => timePerDifficulty a
         end
     | None => timePerDifficulty a
     end)
    (nadd (totalMs a) (nsub t (lastTime a))) t.

Definition tally_init (start : string) : Tally := mkTally ∅ (mkPer (Fin 0) (Fin 0) (Fin 0)) (Fin 0) (date_parse start).

Definition total_text (totalMs : num) : string :=
  match totalMs with
  | Fin ms => if (0 <? ms)%Z then minutes_text (ms / 1000) else "—"
  | NaN => "—"
  end.

(** The solutions of the selected player, when there is something to show. *)
Definition solved_of (selected : option string) (roundDetails : option RoundDetails) :
    option (RoundDetails * list SolvedProblemInfo) :=
  uid ← selected; d ← roundDetails; m ← solvedProblems d;
  if String.eqb (roundStartTime d) "" then None else Some (d, default [] (m !! uid)).

(** The first [useMemo] *)
Definition solve_stats (selected : option string) (roundDetails : option RoundDetails) :
    gset Z * string * PerDifficulty num :=
  match solved_of selected roundDetails with
  | None | Some (_, []) => (∅, "—", mkPer (Fin 0) (Fin 0) (Fin 0))
  | Some (d, solved) =>
      let a := foldl (tally_step (diffMap d)) (tally_init (roundStartTime d)) (sort_solved solved) in
      (solvedIds a, total_text (totalMs a), timePerDifficulty a)
  end.

(** [problemTimeMap] *)
Definition problemTimeMap (selected : option string) (roundDetails : option RoundDetails) : gmap Z string :=
  match solved_of selected roundDetails with
  | None => ∅
  | Some (d, solved) =>
      (foldl (fun '(m, last) s =>
                (<[problemId s := minutes_num (duration_sec (nsub (time_of s) last))]> m, time_of s))
         (∅, date_parse (roundStartTime d)) (sort_solved solved)).1
  end.

(** [diffCounts]: solved and total problems per difficulty *)
Definition diffCounts (roundDetails : option RoundDetails) (ids : gset Z) : PerDifficulty (nat * nat) :=
  foldl (fun counts p =>
           match difficulty_of (rp_difficulty p) with
           | Some k => per_update (fun '(solved, total) => ((if decide (rp_id p ∈ ids) then S solved else solved), S total)) k counts
           | None => counts
           end)
    (mkPer (0, 0) (0, 0) (0, 0)) (default [] (roundDetails ≫= rd_problems)).

Definition difficulties : list Difficulty := [Easy; Medium; Hard].

(** [pieData]: the difficulties with a positive time *)
Definition pieData (times : PerDifficulty num) (counts : PerDifficulty (nat * nat)) : list (Difficulty * num * nat) :=
  List.filter (fun x => ngt x.1.2 (Fin 0)) (map (fun d => (d, per times d, (per counts d).1)) difficulties).

(** The text of a problem's row *)
Definition row_text (ids : gset Z) (times : gmap Z string) (p : RoundProblem) : string :=
  if decide (rp_id p ∈ ids)
  then match times !! rp_id p with Some t => if String.eqb t "" then "—" else t | None => "—" end
  else "—".

(** The selected player of the tabs, also after the board has shrunk. *)
Definition safeIdx (selectedIdx : nat) (players : nat) : nat := Nat.min selectedIdx (Nat.max (players - 1) 0).

(** A name in the bar chart *)
Definition chart_name (username : string) : string :=
  if 8 <? String.length username then str_take 7 username +:+ "…" else username.
End view.
#[global] Arguments sort_solved : simpl never.

(** ** Lemmas *)

Section lemmas.
Context `{JsEnv}.
Implicit Types (s : SolvedProblemInfo) (l : list SolvedProblemInfo).

(** The instant of a solution whose timestamp is a date. *)
Definition instant s : Z := match time_of s with Fin z => z | NaN => 0%Z end.
(** Every timestamp is a date, not before [t0]. *)
Definition dated (t0 : Z) l : Prop := Forall (fun s => time_of s = Fin (instant s) /\ (t0 <= instant s)%Z) l.
Definition earlier s s' : Prop := (instant s <= instant s')%Z.

Lemma insert_perm x l : insert_solved x l ≡ₚ x :: l.
Proof.
  induction l as [|y l IH]; cbn; [done|]. destruct (not_after x y); [done|]. rewrite IH. apply Permutation_swap.
Qed.

Lemma sort_perm l : sort_solved l ≡ₚ l.
Proof. unfold sort_solved. induction l as [|x l IH]; cbn; [done|]. by rewrite insert_perm, IH. Qed.

Lemma insert_sorted t0 x l : dated t0 (x :: l) -> StronglySorted earlier l -> StronglySorted earlier (insert_solved x l).
Proof.
  intros [[Hx _] Hl]%Forall_cons Hs. induction Hs as [|y l Hs IH Hy]; cbn; [by repeat constructor|].
  apply Forall_cons in Hl as [[Hy' _] Hl]. unfold not_after. rewrite Hx, Hy'. cbn.
  destruct (Z.ltb_spec (instant y) (instant x)); cbn.
  - constructor; [by apply IH|]. rewrite insert_perm. constructor; [unfold earlier; lia|done].
  - constructor; [by constructor|]. constructor; [unfold earlier; lia|].
    eapply Forall_impl; [exact Hy|]. unfold earlier. intros z. lia.
Qed.

Lemma sort_sorted t0 l : dated t0 l -> StronglySorted earlier (sort_solved l).
Proof.
  intros Hl. induction Hl as [|x l Hx Hl IH]; [constructor|]. change (sort_solved (x :: l)) with (insert_solved x (sort_solved l)). apply (insert_sorted t0); [|done].
  constructor; [done|]. unfold dated in *. by rewrite sort_perm.
Qed.

(** The tally after a total of [T] ms, at [t]. *)
Definition tally_at (T t : Z) (a : Tally) : Prop :=
  totalMs a = Fin T /\ lastTime a = Fin t /\
  exists e m h, timePerDifficulty a = mkPer (Fin e) (Fin m) (Fin h) /\
    (0 <= e /\ 0 <= m /\ 0 <= h /\ 1000 * (e + m + h) <= T)%Z.

Lemma tally_step_at M T t a s : (t <= instant s)%Z -> time_of s = Fin (instant s) ->
  tally_at T t a -> tally_at (T + (instant s - t)) (instant s) (tally_step M a s).
Proof.
  intros Hle Hs (HT & Ht & e & m & h & Hd & He & Hm & Hh & Hb). unfold tally_step. rewrite Hs, Ht, HT, Hd. cbn.
  split; [done|]. split; [done|].
  set (q := Z.max 0 ((instant s - t) / 1000)).
  assert (Hq : (0 <= q /\ 1000 * q <= instant s - t)%Z).
  { unfold q. pose proof (Z.div_pos (instant s - t) 1000). pose proof (Z.mul_div_le (instant s - t) 1000). lia. }
  destruct (M !! problemId s) as [d|]; [|exists e, m, h; split; [done|lia]].
  destruct (difficulty_of d) as [[]|]; cbn;
    [exists (e + q)%Z, m, h|exists e, (m + q)%Z, h|exists e, m, (h + q)%Z|exists e, m, h]; (split; [done|lia]).
Qed.

Lemma tally_run_at M l : forall T t a, StronglySorted earlier l -> dated t l -> tally_at T t a ->
  let t' := default t (instant <$> last l) in
  tally_at (T + (t' - t)) t' (foldl (tally_step M) a l).
Proof.
  induction l as [|s l IH]; intros T t a Hs Hd Ha; cbn.
  - by replace (T + (t - t))%Z with T by lia.
  - apply Forall_cons in Hd as [[H1 H2] Hd]. apply StronglySorted_cons in Hs as [Hall Hs].
    assert (Hd' : dated (instant s) l).
    { apply Forall_forall. intros x Hx. unfold dated in Hd. rewrite Forall_forall in Hd, Hall.
      split; [by apply Hd|by apply Hall]. }
    specialize (IH _ _ _ Hs Hd' (tally_step_at M _ _ _ _ H2 H1 Ha)). cbn in IH.
    destruct l as [|s' l]; [cbn in *; by replace (T + (instant s - t) + (instant s - instant s))%Z with (T + (instant s - t))%Z in IH by lia|].
    change (last (s :: s' :: l)) with (last (s' :: l)). destruct (last (s' :: l)) as [z|] eqn:El; cbn in *;
      [|by apply last_None in El].
    by replace (T + (instant s - t) + (instant z - instant s))%Z with (T + (instant z - t))%Z in IH by lia.
Qed.

Lemma tally_ids M l : forall a, solvedIds (foldl (tally_step M) a l) = list_to_set (map problemId l) ∪ solvedIds a.
Proof.
  induction l as [|s l IH]; intros a; cbn; [by rewrite (left_id_L ∅ (∪))|].
  rewrite IH. cbn. by rewrite (assoc_L (∪)), (comm_L (∪) (list_to_set _) {[_]}).
Qed.

Lemma sorted_last l x : StronglySorted earlier l -> last l = Some x -> forall y, y ∈ l -> earlier y x.
Proof.
  induction 1 as [|z l Hs IH Hz]; [done|]. destruct l as [|w l].
  - intros [= ->] y ->%list_elem_of_singleton. unfold earlier; lia.
  - intros Hlast. specialize (IH Hlast). intros y [->|Hy]%elem_of_cons; [|by apply IH].
    rewrite Forall_forall in Hz. apply Hz. by apply last_Some_elem_of.
Qed.

Lemma per_update_count (ids : gset Z) (p : RoundProblem) d k (c : PerDifficulty (nat * nat)) :
  per (per_update (fun '(sv, tot) => ((if decide (rp_id p ∈ ids) then S sv else sv), S tot)) d c) k =
  if decide (d = k) then ((if decide (rp_id p ∈ ids) then S (per c k).1 else (per c k).1), S (per c k).2) else per c k.
Proof. destruct d, k, c as [[] [] []]; done. Qed.

Lemma diffCounts_spec (ids : gset Z) k : forall (ps : list RoundProblem) (c : PerDifficulty (nat * nat)),
  let of_k := List.filter (fun p => bool_decide (difficulty_of (rp_difficulty p) = Some k)) ps in
  per (foldl (fun counts p => match difficulty_of (rp_difficulty p) with
           | Some k => per_update (fun '(solved, total) => ((if decide (rp_id p ∈ ids) then S solved else solved), S total)) k counts
           | None => counts end) c ps) k =
  ((per c k).1 + length (List.filter (fun p => bool_decide (rp_id p ∈ ids)) of_k), (per c k).2 + length of_k).
Proof.
  cbn zeta. induction ps as [|p ps IH]; intros c; cbn.
  - rewrite !Nat.add_0_r. by destruct (per c k).
  - rewrite IH. destruct (difficulty_of (rp_difficulty p)) as [d|] eqn:E; cbn.
    + rewrite per_update_count. destruct (decide (d = k)) as [->|Hne]; cbn.
      * rewrite bool_decide_true by done. cbn. destruct (decide (rp_id p ∈ ids)).
        -- rewrite bool_decide_true by done. cbn. f_equal; lia.
        -- rewrite bool_decide_false by done. f_equal; lia.
      * rewrite (bool_decide_false (Some d = Some k)) by congruence. done.
    + rewrite bool_decide_false by done. done.
Qed.
End lemmas.

(** ** Properties *)

(** C37: the statistics of a player who has solved something, whatever order the
    solutions were sent in, when every timestamp is a date after the start of the
    round: the solve time is the time from the start to the last solution, the
    times per difficulty are not negative and together do not exceed it, the
    solved problems are exactly those sent, and the count of a difficulty has
    as its total the problems of that difficulty and as its first part those
    solved among them. *)
Theorem solve_stats_spec `{JsEnv} (uid : string) (d : RoundDetails) (m : gmap string (list SolvedProblemInfo))
    (solved : list SolvedProblemInfo) (t0 : Z) :
  solvedProblems d = Some m -> m !! uid = Some solved -> solved <> [] -> roundStartTime d <> "" ->
  date_parse (roundStartTime d) = Fin t0 -> dated t0 solved ->
  let '(ids, text, times) := solve_stats (Some uid) (Some d) in
  (exists s e md h, s ∈ solved /\ (forall s', s' ∈ solved -> (instant s' <= instant s)%Z) /\
     text = total_text (Fin (instant s - t0)) /\
     times = mkPer (Fin e) (Fin md) (Fin h) /\
     (0 <= e /\ 0 <= md /\ 0 <= h /\ e + md + h <= (instant s - t0) / 1000)%Z) /\
  ids = list_to_set (map problemId solved) /\
  (forall k, let of_k := List.filter (fun p => bool_decide (difficulty_of (rp_difficulty p) = Some k))
                           (default [] (rd_problems d)) in
     per (diffCounts (Some d) ids) k =
       (length (List.filter (fun p => bool_decide (rp_id p ∈ ids)) of_k), length of_k)).
Proof.
  intros Hm Hs Hne Hst Hd0 Hd. unfold solve_stats, solved_of. cbn. rewrite Hm. cbn.
  rewrite (proj2 (String.eqb_neq _ _) Hst), Hs. cbn. destruct solved as [|s0 solved]; [done|].
  set (l := sort_solved (s0 :: solved)).
  assert (Hp : l ≡ₚ s0 :: solved) by apply sort_perm.
  assert (Hdl : dated t0 l) by (unfold dated in *; by rewrite Hp).
  assert (Hsl : StronglySorted earlier l) by by apply (sort_sorted t0).
  assert (Hi : tally_at 0 t0 (tally_init (roundStartTime d))).
  { unfold tally_at, tally_init; cbn. rewrite Hd0. split; [done|]. split; [done|]. by exists 0%Z, 0%Z, 0%Z. }
  destruct (tally_run_at (diffMap d) l 0 t0 _ Hsl Hdl Hi) as (HT & _ & e & md & h & Ht & He & Hmd & Hh & Hb).
  destruct (last l) as [x|] eqn:El; [|apply last_None in El; rewrite El in Hp; by apply Permutation_nil_cons in Hp].
  cbn in HT, Hb. split; [|split].
  - exists x, e, md, h. split; [rewrite <- Hp; by apply last_Some_elem_of|].
    split; [intros s' Hs'; apply (sorted_last l x Hsl El); by rewrite Hp|].
    rewrite HT, Ht. split; [done|]. split; [done|]. repeat split; try done.
    apply Z.div_le_lower_bound; lia.
  - rewrite tally_ids. cbn [tally_init solvedIds]. rewrite (right_id_L ∅ (∪)).
    apply list_to_set_perm_L. by rewrite Hp.
  - intros k. unfold diffCounts. by rewrite diffCounts_spec; destruct k.
Qed.

(** Dates as their number of milliseconds. *)
Definition ms_env : JsEnv :=
  {| date_parse := fun s => match z_of_str s with Some z => Fin z | None => NaN end; str_to_num := fun _ => NaN |}.

Lemma solve_stats_spec_witness :
  let d := mkRoundDetails 1 "started" "1000" (Some [mkRoundProblem 7 "Two Sum" "two-sum" "EASY"; mkRoundProblem 8 "3Sum" "3sum" "medium"])
             (Some {["u" := [mkSolved 8 "200500"; mkSolved 7 "62000"]]}) in
  let '(ids, text, times) := @solve_stats ms_env (Some "u") (Some d) in
  text = "3m 19s" /\ times = mkPer (Fin 61) (Fin 138) (Fin 0) /\ ids = {[7; 8]}%Z.
Proof.
  cbn zeta.
  pose proof (@solve_stats_spec ms_env "u"
    (mkRoundDetails 1 "started" "1000" (Some [mkRoundProblem 7 "Two Sum" "two-sum" "EASY"; mkRoundProblem 8 "3Sum" "3sum" "medium"])
      (Some {["u" := [mkSolved 8 "200500"; mkSolved 7 "62000"]]})) {["u" := [mkSolved 8 "200500"; mkSolved 7 "62000"]]}
    [mkSolved 8 "200500"; mkSolved 7 "62000"] 1000 eq_refl eq_refl ltac:(discriminate) ltac:(discriminate) eq_refl) as Hw.
  assert (Hd : @dated ms_env 1000 [mkSolved 8 "200500"; mkSolved 7 "62000"]).
  { repeat (apply List.Forall_cons; [split; [reflexivity|by vm_compute]|]). apply List.Forall_nil. }
  specialize (Hw Hd). destruct (solve_stats _ _) as [[ids text] times] eqn:E.
  destruct Hw as (_ & Hids & _).
  pose proof (f_equal (fun x => x.1.2) E) as Et. pose proof (f_equal snd E) as Ed. vm_compute in Et, Ed.
  split; [by rewrite <- Et|]. split; [by rewrite <- Ed|]. rewrite Hids. by vm_compute.
Defined.
