(* ===== verification/Toolbar.v ===== *)
(** * The toolbar of a room

    [customComponents/Toolbar/Toolbar.tsx] and
    [customComponents/Toolbar/ProblemProgress.tsx] with
    [hooks/useTouchedProblems.ts]: the stepping between the problems of the
    round, the settings toggle, and the colour of every problem's segment. *)

From S2P Require Export Navigation Statistics.
From stdpp Require Import gmap sets.

(** ** Stepping between problems *)

(** [problems.indexOf(slug)] *)
Fixpoint indexOf (slug : string) (problems : list string) : option nat :=
  match problems with
  | [] => None
  | p :: ps => if String.eqb slug p then Some 0 else S <$> indexOf slug ps
  end.

(** The state of the component: -2 while the index is not known, -1 off-round. *)
Record Toolbar := mkToolbar { tb_problems : list string; currIndex : Z; isTimerVisible : bool }.

(** [sync(url)] of the effect *)
Definition sync (url : option string) (t : Toolbar) : Toolbar :=
  let slug := if opt_truthy url then parseProblemSlug (default "" url) else None in
  mkToolbar (tb_problems t)
    (match slug with
     | Some s => if String.eqb s "" then -1 else match indexOf s (tb_problems t) with Some i => Z.of_nat i | None => -1 end
     | None => -1
     end)%Z
    (isTimerVisible t).

(** What the component hears: the problems of the store changed, the tab query
    of the effect was answered, a tab was updated, the timer button.  Without
    problems the effect subscribes to nothing. *)
Inductive ToolbarEvent :=
| ProblemsChanged (ps : list string)
| TabQueried (url : option string)
| TabUpdated (change_url : option string) (tab_active : bool)
| ToggleTimer.

Definition toolbar_step (ev : ToolbarEvent) (t : Toolbar) : Toolbar :=
  match ev with
  | ProblemsChanged ps => mkToolbar ps (currIndex t) (isTimerVisible t)
  | TabQueried url => if length (tb_problems t) =? 0 then t else sync url t
  | TabUpdated url active =>
      if length (tb_problems t) =? 0 then t else if opt_truthy url && active then sync url t else t
  | ToggleTimer => mkToolbar (tb_problems t) (currIndex t) (negb (isTimerVisible t))
  end.

Definition toolbar_init (ps : list string) : Toolbar := mkToolbar ps (-2) true.

(** [problems[i]] as a string *)
Definition problem_at (problems : list string) (i : Z) : string :=
  if (i <? 0)%Z then "undefined" else default "undefined" (problems !! Z.to_nat i).

Definition stepProblem (delta : Z) (t : Toolbar) : IO unit :=
  let newIndex := if (currIndex t =? -1)%Z then 0%Z else (currIndex t + delta)%Z in
  emit (EOpen (problemUrl (problem_at (tb_problems t) newIndex)) "_top").

(** [disabled] of the two buttons *)
Definition prev_disabled (t : Toolbar) : bool := ((currIndex t =? -2) || (currIndex t =? 0))%Z.
Definition next_disabled (t : Toolbar) : bool :=
  ((currIndex t =? -2) || (currIndex t =? Z.of_nat (length (tb_problems t)) - 1))%Z.

Definition click_prev (t : Toolbar) : IO unit := when (negb (prev_disabled t)) (stepProblem (-1) t).
Definition click_next (t : Toolbar) : IO unit := when (negb (next_disabled t)) (stepProblem 1 t).

(** Which of the round buttons an admin sees. *)
Inductive RoundButton := EndRound | StartRound.
Definition round_button (s : RoomState) : option RoundButton :=
  if isAdmin s && negb (hasRoundEnded s) then Some (if isRoundStarted s then EndRound else StartRound) else None.

(** The settings button *)
Definition toggleSettings (s : RoomState) : RoomState :=
  match activeTab s with
  | settings => setActiveTab s (tab_of (previousTab s))
  | _ => setActiveTab s settings
  end.

(** ** The progress bar *)

(** [useTouchedProblems]: the set, and whether the hook is mounted.  The keys
    of the session area are written by the worker; [None] is a removed key. *)
Record Touched := mkTouched { touched : gset string; cancelled : bool }.
Inductive TouchedEvent :=
| ReadAnswered (v : option (list string))
| StorageChanged (area : string) (newValue : option (option (list string)))
| TouchedUnmount.
Definition touched_step (ev : TouchedEvent) (t : Touched) : Touched :=
  if cancelled t then t else
  match ev with
  | ReadAnswered v => mkTouched (list_to_set (default [] v)) false
  | StorageChanged area change =>
      if negb (String.eqb area "session") then t
      else match change with
           | None => t
           | Some v => mkTouched (list_to_set (default [] v)) false
           end
  | TouchedUnmount => mkTouched (touched t) true
  end.
Definition touchedInit : Touched := mkTouched ∅ false.

Inductive SegmentState := solved | active | touched_seg | untouched.
#[export] Instance SegmentState_eq_dec : EqDecision SegmentState.
Proof. solve_decision. Defined.

Definition GREEN : string := "#62AF2E".
Definition YELLOW : string := "#ffa500".
Definition GREY : string := "rgb(var(--foreground) / 0.25)".

(** Fill and stroke *)
Definition SEGMENT_STYLE (s : SegmentState) : string * string :=
  match s with
  | solved => (GREEN, GREEN)
  | active => ("transparent", GREEN)
  | touched_seg => (YELLOW, YELLOW)
  | untouched => ("transparent", GREY)
  end.

Definition nonempty (s : string) : bool := negb (String.eqb s "").

(** The problems of the bar: the server's, or else the store's. *)
Definition bar_problems (roundDetails : option RoundDetails) (storeProblems : list string) : list string :=
  let fromServer := List.filter nonempty (map rp_slug (default [] (roundDetails ≫= rd_problems))) in
  if 0 <? length fromServer then fromServer else storeProblems.

(** The round's own id-to-slug map. *)
Definition slugById (d : RoundDetails) : gmap Z string :=
  foldl (fun m p => <[rp_id p := rp_slug p]> m) ∅ (default [] (rd_problems d)).

Definition solvedSlugs (userId : option string) (roundDetails : option RoundDetails) : gset string :=
  match userId, roundDetails with
  | Some uid, Some d =>
      if String.eqb uid "" then ∅
      else
        foldl (fun acc s =>
                 match slugById d !! problemId s with
                 | Some slug => if nonempty slug then {[slug]} ∪ acc else acc
                 | None => acc
                 end) ∅ (default [] (solvedProblems d ≫= fun m => m !! uid))
  | _, _ => ∅
  end.

(** The slug of the active tab: a query answered (on mount and on every tab
    switch), or the url of a tab updated. *)
Definition slug_sync (url : option string) : option string :=
  if opt_truthy url then parseProblemSlug (default "" url) else None.
Inductive SlugEvent := ActiveQueried (url : option string) | ActiveUpdated (change_url : option string) (tab_active : bool).
Definition slug_step (ev : SlugEvent) (currSlug : option string) : option string :=
  match ev with
  | ActiveQueried url => slug_sync url
  | ActiveUpdated url tab_active => if opt_truthy url && tab_active then slug_sync url else currSlug
  end.

Definition segmentState (solvedSet touchedSet : gset string) (currSlug : option string) (slug : string) : SegmentState :=
  if decide (slug ∈ solvedSet) then solved
  else if decide (currSlug = Some slug) then active
  else if decide (slug ∈ touchedSet) then touched_seg
  else untouched.

(** The fill and the stroke of every segment, in the order of the problems. *)
Definition segments (details : option RoundDetails) (storeProblems : list string) (userId currSlug : option string)
    (t : gset string) : list (string * string) :=
  map (fun slug => SEGMENT_STYLE (segmentState (solvedSlugs userId details) t currSlug slug))
    (bar_problems details storeProblems).

(** ** Lemmas *)

Lemma indexOf_lookup s ps i : indexOf s ps = Some i -> ps !! i = Some s.
Proof.
  revert i; induction ps as [|p ps IH]; intros i; cbn; [done|].
  destruct (String.eqb_spec s p) as [->|]; [by intros [= <-]|].
  destruct (indexOf s ps) as [j|]; [|done]. intros [= <-]. cbn. by apply IH.
Qed.

(** The index is one of a problem of the round, or -1. *)
Definition index_ok (t : Toolbar) : Prop :=
  (currIndex t = -1)%Z \/ (currIndex t = -2)%Z \/ (0 <= currIndex t < Z.of_nat (length (tb_problems t)))%Z.

Lemma sync_ok url t : index_ok (sync url t).
Proof.
  unfold index_ok, sync; cbn. destruct (if opt_truthy url then _ else _) as [s|]; [|by left].
  destruct (String.eqb s ""); [by left|]. destruct (indexOf s (tb_problems t)) as [i|] eqn:E; [|by left].
  right; right. apply indexOf_lookup, lookup_lt_Some in E. lia.
Qed.

(** The problems of the round did not change after the last synchronisation. *)
Definition no_change (ev : ToolbarEvent) : bool := match ev with ProblemsChanged _ => false | _ => true end.

Lemma toolbar_ok evs t : forallb no_change evs = true -> index_ok t ->
  index_ok (foldl (fun t ev => toolbar_step ev t) t evs) /\
  tb_problems (foldl (fun t ev => toolbar_step ev t) t evs) = tb_problems t.
Proof.
  revert t; induction evs as [|ev evs IH]; intros t; [done|]. cbn [forallb foldl]. intros [Hev Hevs]%andb_prop Ht.
  assert (Hs : index_ok (toolbar_step ev t) /\ tb_problems (toolbar_step ev t) = tb_problems t).
  { destruct ev as [ps|url|url act|]; cbn in Hev |- *; [done| | |done];
      destruct (length (tb_problems t) =? 0); try done; [by split; [apply sync_ok|]|].
    destruct (opt_truthy url && act); [by split; [apply sync_ok|]|done]. }
  destruct Hs as [H1 H2]. destruct (IH _ Hevs H1) as [H3 H4]. by rewrite H4.
Qed.

Lemma problem_at_in ps i : (0 <= i < Z.of_nat (length ps))%Z ->
  exists p, ps !! Z.to_nat i = Some p /\ problem_at ps i = p.
Proof.
  intros Hi. destruct (lookup_lt_is_Some_2 ps (Z.to_nat i)) as [p Hp]; [lia|]. exists p. split; [done|].
  unfold problem_at. destruct (Z.ltb_spec i 0); [lia|]. by rewrite Hp.
Qed.

(** ** Properties *)

(** stepping stays in the round.  While the problems of the round are the
    same, after any tab updates, a click on an arrow opens nothing or the page
    of exactly one problem: off-round the first one, otherwise the neighbour of
    the problem the tab is on, and opening it and hearing of it moves the index
    there. *)
Theorem step_in_round (problems : list string) (evs : list ToolbarEvent) (w : World) :
  problems <> [] -> forallb no_change evs = true ->
  let t := foldl (fun t ev => toolbar_step ev t) (toolbar_init problems) evs in
  forall d click, (d, click) = ((-1)%Z, click_prev t) \/ (d, click) = (1%Z, click_next t) ->
    (click w = (Ok tt, w) /\
      (currIndex t = -2 \/ currIndex t + d < 0 \/ currIndex t + d = Z.of_nat (length problems))%Z) \/
    exists p i, problems !! i = Some p /\
      click w = (Ok tt, with_log w (w_log w ++ [EOpen (problemUrl p) "_top"])) /\
      Z.of_nat i = (if (currIndex t =? -1)%Z then 0 else currIndex t + d)%Z.
Proof.
  intros Hne Hevs. cbn zeta.
  destruct (toolbar_ok evs (toolbar_init problems) Hevs) as [Hok Hps]; [by right; left|].
  set (t := foldl _ _ evs) in *. cbn in Hps.
  assert (Hlen : 0 < length problems) by (destruct problems; [done|cbn; lia]).
  assert (Hopen : forall d, (0 <= (if (currIndex t =? -1)%Z then 0 else currIndex t + d) < Z.of_nat (length problems))%Z ->
    exists p i, problems !! i = Some p /\
      stepProblem d t w = (Ok tt, with_log w (w_log w ++ [EOpen (problemUrl p) "_top"])) /\
      Z.of_nat i = (if (currIndex t =? -1)%Z then 0 else currIndex t + d)%Z).
  { intros d Hi. destruct (problem_at_in problems _ Hi) as (p & Hp & Hat).
    exists p, (Z.to_nat (if (currIndex t =? -1)%Z then 0 else currIndex t + d)%Z). split; [done|]. split; [|lia].
    unfold stepProblem, emit, modify. by rewrite Hps, Hat. }
  intros d click [[= -> ->]|[= -> ->]]; unfold click_prev, click_next, prev_disabled, next_disabled; rewrite ?Hps;
    destruct (Z.eqb_spec (currIndex t) (-2)) as [E|E]; cbn [orb negb when]; try (left; split; [done|by left]).
  - destruct (Z.eqb_spec (currIndex t) 0) as [E0|E0]; cbn [negb when]; [left; split; [done|lia]|].
    right. apply Hopen. destruct Hok as [H|[H|H]]; destruct (Z.eqb_spec (currIndex t) (-1)); rewrite ?Hps in *; lia.
  - destruct (Z.eqb_spec (currIndex t) (Z.of_nat (length problems) - 1)) as [E0|E0]; cbn [negb when];
      [left; split; [done|lia]|].
    right. apply Hopen. destruct Hok as [H|[H|H]]; destruct (Z.eqb_spec (currIndex t) (-1)); rewrite ?Hps in *; lia.
Qed.

Lemma step_in_round_witness :
  let w := fresh_world None [] in
  let t := foldl (fun t ev => toolbar_step ev t) (toolbar_init ["two-sum"; "3sum"])
             [TabQueried (Some "https://leetcode.com/problems/3sum/description/")] in
  currIndex t = 1%Z /\
  exists p i, ["two-sum"; "3sum"] !! i = Some p /\
    click_prev t w = (Ok tt, with_log w (w_log w ++ [EOpen (problemUrl p) "_top"])) /\ Z.of_nat i = 0%Z.
Proof.
  split; [reflexivity|].
  destruct (step_in_round ["two-sum"; "3sum"] [TabQueried (Some "https://leetcode.com/problems/3sum/description/")]
    (fresh_world None []) ltac:(discriminate) eq_refl (-1)%Z _ (or_introl eq_refl)) as [[_ H]|(p & i & H1 & H2 & H3)].
  - exfalso. vm_compute in H. destruct H as [H|[H|H]]; discriminate H.
  - exists p, i. split; [exact H1|]. split; [exact H2|exact H3].
Defined.

(** The settings button is a switch: pressed on any other tab it opens
    Settings, and pressed again it brings back the tab that was open, leaving
    everything else of the room as it was; also after Settings was opened twice. *)
Theorem settings_toggle (s : RoomState) (t : MainTab) :
  activeTab s = tab_of t ->
  activeTab (toggleSettings s) = settings /\
  activeTab (toggleSettings (toggleSettings s)) = tab_of t /\
  activeTab (toggleSettings (setActiveTab (toggleSettings s) settings)) = tab_of t /\
  setActiveTab (toggleSettings (toggleSettings s)) settings = toggleSettings s.
Proof. intros Ht. destruct s; cbn in Ht; subst. by destruct t. Qed.

Lemma settings_toggle_witness :
  activeTab (toggleSettings (toggleSettings (setActiveTab roomStoreInit leaderboard))) = leaderboard.
Proof. apply (settings_toggle (setActiveTab roomStoreInit leaderboard) mLeaderboard). reflexivity. Defined.
