(* ===== verification/Session.v ===== *)
(** * The session: configuration, sign-in, restoring and sign-out

    [lib/config.ts], [hooks/useLogin.ts], [hooks/useSessionInit.ts] and
    [hooks/useGitHubConnection.ts].  The answers of the extension's worker to
    [chrome.runtime.sendMessage] and the state of a window the hooks have
    opened are arguments: a popup is [None] when it was blocked and otherwise
    says whether it is closed. *)

From S2P Require Export RoomInit Wp.

(** ** lib/config.ts *)

Definition PRODUCTION_SERVER_URL : string := "https://api.binarysearchgang.com".
Definition PRODUCTION_RTC_URL : string := "wss://api.binarysearchgang.com/ws".
Definition LOCAL_SERVER_URLS : list string := ["http://localhost:3600"; "http://localhost:3000"].

(** The values at module load; the build's environment variables are arguments. *)
Definition config_default (env_server env_rtc : option string) : IO unit :=
  modify (fun w => with_urls w (opt_or env_server PRODUCTION_SERVER_URL) (opt_or env_rtc PRODUCTION_RTC_URL)).

(** The loop of [detectLocalServerUrl]; a request that takes more than two
    seconds is one that fails. *)
Fixpoint detect_in (urls : list string) : IO (option string) :=
  match urls with
  | [] => mret None
  | serverUrl :: urls =>
      found ← (try_catch
        (response ← fetch (get_req (serverUrl +:+ "/health"));
         mret (res_ok response))
        (fun _ => mret false) : IO bool);
      if found : bool then mret (Some serverUrl) else detect_in urls
  end.
Definition detectLocalServerUrl : IO (option string) := detect_in LOCAL_SERVER_URLS.

(** The callback of the storage read; [configReady] resolves when it returns. *)
Definition config_loaded : IO unit :=
  storedServer ← storage_get "configServerUrl";
  storedRtc ← storage_get "configRtcServiceUrl";
  when (truthy storedServer) (modify (fun w => with_urls w (to_str storedServer) (w_rtcUrl w))) ;;
  when (truthy storedRtc) (modify (fun w => with_urls w (w_serverUrl w) (to_str storedRtc))) ;;
  localServerUrl ← detectLocalServerUrl;
  match localServerUrl with
  | Some u =>
      when (negb (String.eqb u ""))
        (modify (fun w => with_urls w u "ws://localhost:5001/ws") ;;
         storage_set "configServerUrl" (VStr u) ;;
         storage_set "configRtcServiceUrl" (VStr "ws://localhost:5001/ws"))
  | None => mret tt
  end.

(** Module load: the defaults, then the storage when there is one. *)
Definition config_init (env_server env_rtc : option string) : IO unit :=
  config_default env_server env_rtc ;; if_chrome has_storage config_loaded.

(** The storage listener; [changes] holds the new values of the changed keys. *)
Definition config_changed (changes : list (string * Val)) (namespace : string) : IO unit :=
  if negb (String.eqb namespace "local") then mret tt else
  when (has_field "configServerUrl" changes)
    (modify (fun w => with_urls w (to_str (field "configServerUrl" changes)) (w_rtcUrl w))) ;;
  when (has_field "configRtcServiceUrl" changes)
    (modify (fun w => with_urls w (w_serverUrl w) (to_str (field "configRtcServiceUrl" changes)))).

(** ** hooks/useLogin.ts *)

Inductive AuthProvider := google | github.
Definition provider_name (p : AuthProvider) : string := match p with google => "google" | github => "github" end.

(** The form's [handleChange] *)
Definition handleCredential (name value : string) (credentials : list (string * string)) : list (string * string) :=
  (fix put (l : list (string * string)) : list (string * string) :=
     match l with
     | [] => [(name, value)]
     | (k, v) :: l => if String.eqb name k then (name, value) :: l else (k, v) :: put l
     end) credentials.

(** Storing the user of a response; the fields are those of the model. *)
Definition login_user (userObject : Val) : IO unit :=
  uid ← lift (get userObject "id"); uname ← lift (get userObject "name");
  email ← lift (get userObject "email"); photo ← lift (get userObject "photo");
  on_user (loginUser (wire_str uid) (wire_str uname) (wire_str email) (wire_str photo)).

(** One run of [checkAuth]: signed in, to be run again in a second, or given up
    because the window is gone.  An exception ends the polling as well. *)
Inductive AuthStep := SignedIn (user : Val) | CheckAgain | GivenUp.

Definition checkAuth (popup : option bool) : IO AuthStep :=
  base ← getServerUrl;
  response ← fetch (get_req (base +:+ "/auth/user"));
  if res_ok response then
    userObject ← res_json response;
    login_user userObject ;;
    if_chrome has_storage (storage_set "user" userObject) ;;
    pushRoute "/start-page" ;;
    mret (SignedIn userObject)
  else match popup with
       | Some false => mret CheckAgain
       | _ => mret GivenUp
       end.

(** The runs of [checkAuth], one per state of the popup: the list is how long
    it was observed. *)
Fixpoint poll_auth (popups : list (option bool)) : IO (option AuthStep) :=
  match popups with
  | [] => mret None
  | p :: popups =>
      r ← checkAuth p;
      match r with
      | CheckAgain => sleep 1000 ;; poll_auth popups
      | _ => mret (Some r)
      end
  end.

Definition login (provider : AuthProvider) (popups : list (option bool)) : IO (option AuthStep) :=
  base ← getServerUrl;
  emit (EOpen (base +:+ "/auth/" +:+ provider_name provider) "") ;;
  sleep 5000 ;;
  poll_auth popups.

Definition finishLogout : IO unit :=
  on_user resetUser ;;
  on_room (fun _ => resetRoom) ;;
  pushRoute "/login-page" ;;
  mret tt.

(** [logout]; [response] is the worker's answer to the message, if it answers. *)
Definition logout (response : Val) : IO unit :=
  currentRoomId ← room_get roomId;
  match currentRoomId with
  | Some rid =>
      when (negb (String.eqb rid ""))
        (try_catch
           (base ← getServerUrl;
            fetch (post_req (base +:+ "/rooms/" +:+ rid +:+ "/leave")) ;;
            mret tt)
           (fun _ => console "Unable to leave room during logout"))
  | None => mret tt
  end ;;
  let finish := try_catch finishLogout (fun _ => console "Failed to navigate after logout") in
  ext ← read (fun w => has_runtime (w_platform w) && has_runtime_id (w_platform w));
  if ext : bool
  then emit (EMessage (VObj [("type", VStr "LOGOUT")])) ;;
       when (truthy response && truthy (get_opt response "success")) finish
  else finish.

(** ** hooks/useSessionInit.ts *)

Record SessionInit := mkSessionInit { sessionReady : bool; hasRun : bool }.
Definition sessionInit0 : SessionInit := mkSessionInit false false.

Section session.
Context `{JsEnv} `{JsonCodec}.

(** [initSession]; [auth] is how the message CHECK_AUTH ends.  [checkActiveRoom]
    is the one of the first render, which captured the signed-out user. *)
Definition initSession (auth : Res Val) : IO unit :=
  try_catch
    (cachedUser ← storage_get "user";
     if negb (truthy (get_opt cachedUser "id")) then pushRoute "/login-page" ;; mret tt else
     emit (EMessage (VObj [("type", VStr "CHECK_AUTH")])) ;;
     response ← lift auth;
     if negb (truthy (get_opt response "success")) then pushRoute "/login-page" ;; mret tt else
     user ← lift (get response "user");
     login_user user ;;
     enteredRoom ← checkActiveRoom userStoreInit;
     when (negb enteredRoom) (pushRoute "/start-page" ;; mret tt))
    (fun _ => console "session").

Definition set_ready (s : World * SessionInit) : World * SessionInit := (s.1, mkSessionInit true (hasRun s.2)).

(** The effect, with the [finally] that opens the gate. *)
Definition session_effect (enabled : bool) (auth : Res Val) : M (World * SessionInit) unit :=
  if negb enabled then mret tt else
  ran ← read (fun s : World * SessionInit => hasRun s.2);
  if ran : bool then mret tt else
  modify (fun s : World * SessionInit => (s.1, mkSessionInit (sessionReady s.2) true)) ;;
  ext ← read (fun s : World * SessionInit => has_runtime (w_platform s.1) && has_sendMessage (w_platform s.1));
  if negb ext then modify set_ready
  else finally (zoom fst (fun w (s : World * SessionInit) => (w, s.2)) (initSession auth)) set_ready.
End session.

(** ** hooks/useGitHubConnection.ts *)

Record GitHubConnection := mkConnection { connected : Val; gh_username : Val }.
Definition no_connection : GitHubConnection := mkConnection (VBool false) VNull.

Abbreviation GH := (M (World * GitHubConnection)).
Definition gio {A} (m : IO A) : GH A := zoom fst (fun w s => (w, s.2)) m.

(** [refresh]: the data of the answer, [None] when there is none. *)
Definition refresh : GH (option Val) :=
  try_catch
    (base ← gio getServerUrl;
     res ← gio (fetch (get_req (base +:+ "/auth/github/connect/status")));
     if negb (res_ok res) then mret None else
     data ← gio (res_json res);
     modify (fun s : World * GitHubConnection => (s.1, mkConnection (prop data "connected") (prop data "username"))) ;;
     mret (Some data))
    (fun _ => gio (console "[useGitHubConnection]") ;; mret None).

(** The effect on [isLoggedIn] *)
Definition connection_effect (isLoggedIn : bool) : GH unit :=
  if negb isLoggedIn then modify (fun s : World * GitHubConnection => (s.1, no_connection))
  else refresh ;; mret tt.

(** [checkConnection], once per state of the popup ([true]: closed). *)
Fixpoint poll_connection (closed : list bool) : GH unit :=
  match closed with
  | [] => mret tt
  | c :: closed =>
      data ← refresh;
      if match data with Some v => truthy (get_opt v "connected") | None => false end then mret tt
      else if c then refresh ;; mret tt
      else gio (sleep 1000) ;; poll_connection closed
  end.

Definition connect (popup : bool) (closed : list bool) : GH unit :=
  base ← gio getServerUrl;
  gio (emit (EOpen (base +:+ "/auth/github/connect") "")) ;;
  if negb popup then mret tt else gio (sleep 1000) ;; poll_connection closed.

(** ** Lemmas *)

(** The user store is the same. *)
Definition same_user (w w' : World) : Prop := w_user w' = w_user w.
#[export] Instance same_user_preorder : PreOrder same_user.
Proof. split; [by intros w|]. unfold same_user. intros w1 w2 w3. congruence. Qed.

Section lemmas.
Context `{JsEnv} `{JsonCodec}.

Lemma checkActiveRoom_user cap : steps same_user (checkActiveRoom cap).
Proof.
  unfold checkActiveRoom. generalize 3 as n. induction n as [|n IH]; cbn [checkActiveRoom_at];
    steps_tac; try done; try apply IH; repeat case_match; done.
Qed.

Lemma pushRoute_log route (Q : Res bool -> World -> Prop) w :
  (forall r w', same_stores w' w -> w_log w' = w_log w ++ [ERoute route] -> Q r w') -> wp (pushRoute route) Q w.
Proof.
  intros HQ. unfold pushRoute. wp_step. apply wp_push. intros r w' Hl [l ->].
  destruct r; [by apply HQ|]. wp_step; wp_step; by apply HQ.
Qed.

(** The user a response signs in. *)
Definition signed_in (user : Val) : UserState :=
  loginUser (wire_str (prop user "id")) (wire_str (prop user "name")) (wire_str (prop user "email"))
    (wire_str (prop user "photo")) userStoreInit.

Lemma login_user_wp user (Q : Res unit -> World -> Prop) w :
  (is_nullish user = false -> Q (Ok tt) (with_user w (signed_in user))) ->
  (is_nullish user = true -> Q (Throw type_error) w) -> wp (login_user user) Q w.
Proof.
  intros H1 H2. unfold login_user, get. destruct (is_nullish user); repeat (wp_step; cbn); auto.
Qed.

(** *** Restoring *)

(** Who the cached user and the worker's answer authenticate. *)
Definition authenticated (w : World) (auth : Res Val) : option Val :=
  if truthy (get_opt (default VUndef (w_storage w !! "user")) "id") then
    match auth with
    | Ok response => if truthy (get_opt response "success") then Some (prop response "user") else None
    | Throw _ => None
    end
  else None.

(** The worlds a session can start in. *)
Definition restored (w : World) (auth : Res Val) (w' : World) : Prop :=
  match authenticated w auth with
  | Some user =>
      if is_nullish user then same_stores w' w
      else w_user w' = signed_in user /\
           (in_active_room w' \/ exists l m, w_log w' = l ++ ERoute "/start-page" :: m /\ requests m = [])
  | None => same_stores w' w /\ requests (w_log w') = requests (w_log w)
  end.

Lemma checkActiveRoom_wp cap w :
  wp (checkActiveRoom cap) (fun r w' => exists b, r = Ok b /\ (b = true -> in_active_room w') /\ w_user w' = w_user w) w.
Proof.
  eapply wp_mono; [apply wp_and; [apply checkActiveRoom_at_wp|apply (wp_steps same_user), checkActiveRoom_user]|].
  intros r w' [(b & -> & Hb) Hu]. by exists b.
Qed.

Lemma initSession_wp auth w : wp (initSession auth) (fun r w' => r = Ok tt /\ restored w auth w') w.
Proof.
  unfold initSession, restored, authenticated. wp_step.
  eapply wp_mono with (Q := fun r w' =>
    match authenticated w auth with
    | Some user =>
        if is_nullish user then same_stores w' w
        else w_user w' = signed_in user /\
             (in_active_room w' \/ exists l m, w_log w' = l ++ ERoute "/start-page" :: m /\ requests m = [])
    | None => same_stores w' w /\ requests (w_log w') = requests (w_log w)
    end).
  2:{ unfold authenticated. intros [[]|e] w' Hr; [by split|]. wp_step. split; [done|].
      destruct (if truthy _ then _ else _) as [user|].
      - destruct (is_nullish user); [done|]. destruct Hr as [Hu [Hr|(l & m & Hl & Hm)]]; (split; [done|]); [by left|right].
        exists l, (m ++ [EConsole "session"]). cbn. rewrite Hl, <- app_assoc. split; [done|]. by rewrite requests_app, Hm.
      - destruct Hr as [Hs Hq]. split; [done|]. cbn. by rewrite requests_app, Hq, app_nil_r. }
  unfold authenticated. repeat wp_step; cbn beta iota.
  - destruct (truthy (get_opt (default VUndef (w_storage w !! "user")) "id")); [done|].
    apply pushRoute_wp. intros [b|e] w' Hs Hl; by repeat wp_step.
  - destruct (truthy (get_opt (default VUndef (w_storage w !! "user")) "id")); [|done].
    destruct auth as [response|e]; [|split; [done|]; cbn; by rewrite requests_app, app_nil_r].
    repeat wp_step; cbn beta iota.
    + destruct (truthy (get_opt response "success")); [done|].
      apply pushRoute_wp. intros [b|e] w' Hs Hl; repeat wp_step; (split; [done|]); rewrite Hl; cbn; by rewrite requests_app, app_nil_r.
    + unfold get. destruct (is_nullish response) eqn:En; [by destruct response|].
      destruct (truthy (get_opt response "success")); [|done].
      wp_step. apply login_user_wp; intros Hn; rewrite Hn; [|done].
      wp_step. eapply wp_mono; [apply checkActiveRoom_wp|]. intros r w1 (b & -> & Hb & Hu). cbn in Hu.
      wp_step; [|split; [done|left; apply Hb; by destruct b]].
      wp_step. apply pushRoute_log. intros r w2 Hs Hl.
      assert (Hu2 : w_user w2 = signed_in (prop response "user")) by (by rewrite (w_user_proper _ _ Hs)).
      destruct r; repeat wp_step; (split; [done|right]); exists (w_log w1), []; by rewrite Hl.
Qed.
End lemmas.

(** ** Properties *)

(** C32: the session is restored once, and the gate always opens.  Whatever the
    server, the router and the worker answer, the effect ends, the panel is
    ready, and running the effect again does nothing.  A user without a cached
    identity, or whom the worker does not confirm, leaves every store as it was
    and no request is sent; a confirmed one is signed in with the worker's
    data, and is then in the active room or has been routed to the start page. *)
Theorem session_restored_once `{JsEnv} `{JsonCodec} (auth auth' : Res Val) (w : World) :
  let '(r, s') := session_effect true auth (w, sessionInit0) in
  r = Ok tt /\ sessionReady s'.2 = true /\
  session_effect true auth' s' = (Ok tt, s') /\
  (if has_runtime (w_platform w) && has_sendMessage (w_platform w) then restored w auth s'.1 else s'.1 = w).
Proof.
  unfold session_effect. cbn. unfold mbind, m_bind, read, modify. cbn.
  destruct (has_runtime (w_platform w) && has_sendMessage (w_platform w)); cbn; [|done].
  unfold finally, zoom. cbn. pose proof (initSession_wp auth w) as [Hr Hw]. destruct (initSession auth w) as [r w'].
  cbn in *. subst r. done.
Qed.

(** *** Signing in *)

Section login.
Context `{JsEnv}.

Definition auth_request (w : World) : Request := get_req (w_serverUrl w +:+ "/auth/user").

(** What one run of [checkAuth] does. *)
Definition checked (p : option bool) (w : World) (r : Res AuthStep) (w' : World) : Prop :=
  requests (w_log w') = requests (w_log w) ++ [auth_request w] /\ sleeps (w_log w') = sleeps (w_log w) /\
  match r with
  | Ok CheckAgain => p = Some false /\ w_user w' = w_user w /\ w_serverUrl w' = w_serverUrl w
  | Ok GivenUp => p <> Some false /\ w_user w' = w_user w
  | Ok (SignedIn user) => w_user w' = signed_in user
  | Throw e => forall e' net, w_net w = NetFail e' :: net -> e = e' /\ w_user w' = w_user w
  end.

Lemma log_fetch l r : requests (l ++ [EFetch r]) = requests l ++ [r] /\ sleeps (l ++ [EFetch r]) = sleeps l.
Proof. split; [by rewrite requests_app|by rewrite sleeps_app, app_nil_r]. Qed.

Lemma log_route l r : requests (l ++ [ERoute r]) = requests l /\ sleeps (l ++ [ERoute r]) = sleeps l.
Proof. by rewrite requests_app, sleeps_app, !app_nil_r. Qed.

Lemma checkAuth_wp p w : wp (checkAuth p) (checked p w) w.
Proof.
  unfold checkAuth, checked. repeat wp_step; cbn -[requests sleeps];
    try (destruct (log_fetch (w_log w) (auth_request w)) as [Hr Hs]; split; [exact Hr|split; [exact Hs|]]);
    try (intros e' net' Hn; split; congruence).
  - apply login_user_wp; intros Hn.
    + repeat wp_step; cbn -[requests sleeps].
      all: apply pushRoute_log; intros r w' Hw Hl.
      all: destruct r as [b'|e']; repeat wp_step; rewrite Hl; cbn -[requests sleeps].
      all: destruct (log_fetch (w_log w) (auth_request w)) as [Hr Hs].
      all: rewrite (proj1 (log_route _ _)), (proj2 (log_route _ _)); split; [exact Hr|split; [exact Hs|]].
      all: first [by rewrite (w_user_proper _ _ Hw)|intros e2 net2 Hn2; split; congruence].
    + destruct (log_fetch (w_log w) (auth_request w)) as [Hr Hs]. split; [exact Hr|split; [exact Hs|]].
      intros e' net' Hn'. split; congruence.
  - destruct p as [[]|]; wp_step; cbn -[requests sleeps];
      destruct (log_fetch (w_log w) (auth_request w)) as [Hr Hs]; (split; [exact Hr|split; [exact Hs|]]); done.
Qed.

(** What the polling does: [n] requests, with a second between them, made only
    while the popup is open. *)
Definition polled (popups : list (option bool)) (w : World) (r : Res (option AuthStep)) (w' : World) : Prop :=
  exists n k, n <= length popups /\ (k = n \/ S k = n) /\
    requests (w_log w') = requests (w_log w) ++ repeat (auth_request w) n /\
    sleeps (w_log w') = sleeps (w_log w) ++ repeat 1000%Z k /\
    Forall (fun p => p = Some false) (take k popups) /\
    match r with
    | Ok (Some (SignedIn user)) => w_user w' = signed_in user
    | Ok (Some GivenUp) => w_user w' = w_user w /\ exists p, popups !! k = Some p /\ p <> Some false
    | Ok _ => w_user w' = w_user w /\ n = length popups
    | Throw _ => True
    end.

Lemma poll_auth_wp popups : forall w, wp (poll_auth popups) (polled popups w) w.
Proof.
  induction popups as [|p popups IH]; intros w; cbn [poll_auth].
  { wp_step. exists 0, 0. cbn. rewrite !app_nil_r. by repeat split; [lia|left|..]. }
  wp_step. eapply wp_mono; [apply checkAuth_wp|]. intros r w1 (Hr & Hs & Hc).
  assert (Hone : forall r2 : Res (option AuthStep), (match r2 with
      | Ok (Some (SignedIn user)) => w_user w1 = signed_in user
      | Ok (Some GivenUp) => p <> Some false /\ w_user w1 = w_user w
      | Ok _ => False | Throw _ => True end) -> polled (p :: popups) w r2 w1).
  { intros r2 H2. exists 1, 0. cbn. rewrite Hr, Hs, app_nil_r. split; [lia|]. split; [by right|].
    split; [done|]. split; [done|]. split; [by constructor|].
    destruct r2 as [[[user| |]|]|]; try done. destruct H2 as [Hp Hu]. split; [done|]. by exists p. }
  destruct r as [[user| |]|e]; try (wp_step; by apply Hone); try (by apply Hone).
  destruct Hc as (Hp & Hu & Hurl). unfold sleep. repeat (wp_step; cbn -[requests sleeps]).
  eapply wp_mono; [apply IH|]. intros r w2 (n & k & Hn & Hk & Hr2 & Hs2 & Hall & Hm). exists (S n), (S k).
  cbn -[requests sleeps] in Hr2, Hs2, Hm. unfold auth_request in *. cbn in Hr2, Hm. rewrite Hurl in Hr2. cbn [length].
  split; [lia|]. split; [lia|]. split.
  { rewrite Hr2, requests_app, Hr. cbn. by rewrite app_nil_r, <- app_assoc. }
  split.
  { rewrite Hs2, sleeps_app, Hs. cbn. by rewrite <- app_assoc. }
  split; [by constructor|]. destruct r as [[[user| |]|]|]; try done.
  - destruct Hm as [Hm ->]. by rewrite Hm.
  - destruct Hm as [Hm Hq]. by rewrite Hm.
  - destruct Hm as [Hm ->]. by rewrite Hm.
Qed.
End login.

Lemma poll_auth_log popups : logs (fun _ => True) (poll_auth popups).
Proof. induction popups as [|p popups IH]; cbn [poll_auth]; logs_tac; apply IH. Qed.

(** signing in.  One window is opened; after five seconds the service is
    asked who the user is, and again every second as long as it does not know
    and the window is open; a user it names is the user of the store.  The
    polling gives up when the window is gone, and then, as while it goes on,
    the user store is untouched.  A request that fails ends the polling with
    its exception: nothing asks again, and nothing is reported. *)
Theorem login_polls (provider : AuthProvider) (popups : list (option bool)) (w : World) :
  let '(r, w') := login provider popups w in
  let u := w_serverUrl w +:+ "/auth/" +:+ provider_name provider in
  exists n k, n <= length popups /\ (k = n \/ S k = n) /\
    w_log w' !! length (w_log w) = Some (EOpen u "") /\
    requests (w_log w') = requests (w_log w) ++ repeat (auth_request w) n /\
    sleeps (w_log w') = sleeps (w_log w) ++ 5000%Z :: repeat 1000%Z k /\
    Forall (fun p => p = Some false) (take k popups) /\
    match r with
    | Ok (Some (SignedIn user)) => w_user w' = signed_in user
    | Ok (Some GivenUp) => w_user w' = w_user w /\ exists p, popups !! k = Some p /\ p <> Some false
    | Ok _ => w_user w' = w_user w /\ n = length popups
    | Throw _ => True
    end /\
    (forall e net, popups <> [] -> w_net w = NetFail e :: net ->
       r = Throw e /\ n = 1 /\ w_user w' = w_user w /\ w_log w' = w_log w ++ [EOpen u ""; ESleep 5000; EFetch (auth_request w)]).
Proof.
  unfold login, getServerUrl, sleep, emit, modify, read. unfold mbind, m_bind. cbn -[requests sleeps].
  match goal with |- context [poll_auth popups ?x] => set (w1 := x) end. pose proof (poll_auth_wp popups w1) as Hp.
  destruct (poll_auth_log popups w1) as (l & Hlog & _).
  assert (Hfail : forall e net, popups <> [] -> w_net w = NetFail e :: net ->
    poll_auth popups w1 = (Throw e, with_net (with_log w1 (w_log w1 ++ [EFetch (auth_request w)])) net)).
  { intros e net Hne Hnet. destruct popups as [|p popups]; [done|]. cbn [poll_auth]. unfold mbind, m_bind.
    unfold checkAuth, getServerUrl, fetch, emit, modify, read, act. cbn. unfold mbind, m_bind. cbn. by rewrite Hnet. }
  unfold wp in Hp. destruct (poll_auth popups w1) as [r w2]. destruct Hp as (n & k & Hn & Hk & Hr & Hs & Hall & Hm). cbn [fst snd] in *.
  exists n, k. split; [done|]. split; [done|]. split.
  { cbn [snd] in Hlog. rewrite Hlog. cbn. rewrite <- !app_assoc. by rewrite lookup_app_r, Nat.sub_diag by lia. }
  split.
  { rewrite Hr. cbn. rewrite !requests_app. cbn. by rewrite !app_nil_r. }
  split.
  { rewrite Hs. cbn. rewrite !sleeps_app. cbn. by rewrite <- !app_assoc. }
  split; [done|]. split; [done|]. intros e net Hne Hnet. specialize (Hfail e net Hne Hnet). injection Hfail as -> ->.
  split; [done|]. split.
  - cbn in Hr. rewrite !requests_app in Hr. cbn in Hr. rewrite !app_nil_r in Hr. apply app_inv_head in Hr.
    by destruct n as [|[|n]].
  - split; [done|]. cbn. by rewrite <- !app_assoc.
Qed.

(** *** Configuration *)

(** The stored value of a key, when it counts. *)
Definition stored (k : string) (w : World) : option string :=
  let v := default VUndef (w_storage w !! k) in if truthy v then Some (to_str v) else None.

(** The [i]th answer is that of a healthy server. *)
Definition healthy (i : nat) (w : World) : bool :=
  match w_net w !! i with Some (Reply _ st b) => res_ok (mkResponse st b) | _ => false end.

Definition health_request (u : string) : Request := get_req (u +:+ "/health").

(** What the configuration is when [configReady] resolves. *)
Definition configured (server rtc : string) (n : nat) (w w' : World) : Prop :=
  w_serverUrl w' = server /\ w_rtcUrl w' = rtc /\
  requests (w_log w') = requests (w_log w) ++ map health_request (take n LOCAL_SERVER_URLS).

Definition with_local (u : string) (w w' : World) : Prop :=
  w_storage w' = <["configRtcServiceUrl" := VStr "ws://localhost:5001/ws"]>
                   (<["configServerUrl" := VStr u]> (w_storage w)).

(** [detect_in] finds the first healthy server, with one request per server. *)
Lemma detect_wp (Q : Res (option string) -> World -> Prop) w :
  (forall w', same_stores w' w ->
     let n := if healthy 0 w then 1 else 2 in
     w_serverUrl w' = w_serverUrl w /\ w_rtcUrl w' = w_rtcUrl w /\
     requests (w_log w') = requests (w_log w) ++ map health_request (take n LOCAL_SERVER_URLS) ->
     Q (Ok (if healthy 0 w then Some "http://localhost:3600"
            else if healthy 1 w then Some "http://localhost:3000" else None)) w') ->
  wp detectLocalServerUrl Q w.
Proof.
  unfold detectLocalServerUrl, detect_in, LOCAL_SERVER_URLS, healthy. intros HQ.
  unfold wp, fetch, try_catch, emit, modify, act. unfold mbind, m_bind. cbn -[requests res_ok].
  destruct w as [? ? ? ? ? ? ? ? ? ? ? ? ? net0 ? ?]. cbn -[requests res_ok] in *.
  destruct net0 as [|[e|d st b] [|[e'|d' st' b'] net]]; cbn -[requests res_ok] in *;
    repeat match goal with |- context [res_ok ?x] => destruct (res_ok x) eqn:?; cbn -[requests res_ok] in * end;
    apply HQ; try done; (split; [done|split; [done|]]); cbn -[requests]; rewrite ?requests_app, <- ?app_assoc; done.
Qed.

(** the configuration always resolves, whatever is stored and whatever the
    local servers answer: to the first of the two local servers that is healthy,
    with the local chat service, both remembered; otherwise to the stored
    addresses, then to those of the build, then to production, the storage
    unchanged.  A server is asked once, the second only when the first fails,
    and without extension storage none is asked. *)
Theorem config_resolves (env_server env_rtc : option string) (w : World) :
  let '(r, w') := config_init env_server env_rtc w in
  let server := opt_or env_server PRODUCTION_SERVER_URL in
  let rtc := opt_or env_rtc PRODUCTION_RTC_URL in
  r = Ok tt /\
  if has_storage (w_platform w) then
    if healthy 0 w
    then configured "http://localhost:3600" "ws://localhost:5001/ws" 1 w w' /\ with_local "http://localhost:3600" w w'
    else if healthy 1 w
    then configured "http://localhost:3000" "ws://localhost:5001/ws" 2 w w' /\ with_local "http://localhost:3000" w w'
    else configured (default server (stored "configServerUrl" w)) (default rtc (stored "configRtcServiceUrl" w)) 2 w w' /\
         w_storage w' = w_storage w
  else configured server rtc 0 w w' /\ w_storage w' = w_storage w.
Proof.
  apply (wp_let (config_init env_server env_rtc)). unfold config_init, config_default. wp_step. wp_step.
  wp_step; cbn in H; rewrite H; cbv zeta.
  2:{ split; [done|]. by split; [split; [|split; [|rewrite app_nil_r]]|]. }
  unfold config_loaded. wp_step. wp_step. wp_step. wp_step. wp_step.
  set (w1 := with_urls w _ _). unfold stored.
  change (w_storage w1) with (w_storage w).
  set (s1 := default VUndef (w_storage w !! "configServerUrl")).
  set (s2 := default VUndef (w_storage w !! "configRtcServiceUrl")).
  destruct (truthy s1), (truthy s2); cbn [when default]; repeat wp_step; apply detect_wp;
    cbv zeta; intros w' Hs (Hu & Hr & Hq);
    change (healthy 0 _) with (healthy 0 w) in *; change (healthy 1 _) with (healthy 1 w) in *;
    destruct (healthy 0 w); [|destruct (healthy 1 w)| |destruct (healthy 1 w)| |destruct (healthy 1 w)| |destruct (healthy 1 w)];
    cbn [String.eqb negb when]; repeat (wp_step; cbn [String.eqb negb when]);
    (split; [done|]); (split; [by split|]);
    unfold with_local; cbn; by rewrite (w_storage_proper _ _ Hs).
Qed.

(** *** Signing out *)

(** The worker takes part in the sign-out. *)
Definition through_worker (w : World) : bool := has_runtime (w_platform w) && has_runtime_id (w_platform w).
Definition confirmed (response : Val) : bool := truthy response && truthy (get_opt response "success").

(** The request that leaves the room, when the user is in one. *)
Definition leave_requests (w : World) : list Request :=
  match roomId (w_room w) with
  | Some rid => if String.eqb rid "" then [] else [post_req (w_serverUrl w +:+ "/rooms/" +:+ rid +:+ "/leave")]
  | None => []
  end.

Lemma finishLogout_wp (Q : Res unit -> World -> Prop) w :
  (forall w' m, w_user w' = userStoreInit -> w_room w' = roomStoreInit ->
     w_log w' = w_log w ++ ERoute "/login-page" :: m -> requests m = [] -> Q (Ok tt) w') ->
  wp (try_catch finishLogout (fun _ => console "Failed to navigate after logout")) Q w.
Proof.
  intros HQ. wp_step. unfold finishLogout. repeat wp_step. apply pushRoute_log. intros r w' Hs Hl.
  assert (Hu : w_user w' = userStoreInit) by by rewrite (w_user_proper _ _ Hs).
  assert (Hr : w_room w' = roomStoreInit) by by rewrite (w_room_proper _ _ Hs).
  destruct r; repeat wp_step.
  - by apply (HQ w' []).
  - apply (HQ _ [EConsole "Failed to navigate after logout"]); try done. cbn in *. by rewrite Hl, <- app_assoc.
Qed.

(** signing out.  The room is left on the service first, if the user is in
    one, whether or not that request works; then, when the worker confirms the
    sign-out or there is no worker, both stores are as at the start and the
    panel is routed to the login page; when the worker does not confirm, no
    store has changed.  No failure escapes. *)
Theorem logout_outcome (response : Val) (w : World) :
  let '(r, w') := logout response w in
  r = Ok tt /\
  requests (w_log w') = requests (w_log w) ++ leave_requests w /\
  if negb (through_worker w) || confirmed response
  then w_user w' = userStoreInit /\ w_room w' = roomStoreInit /\
       exists l m, w_log w' = l ++ ERoute "/login-page" :: m /\ requests m = []
  else same_stores w' w.
Proof.
  apply (wp_let (logout response)). unfold logout, leave_requests. wp_step. wp_step. wp_step.
  eapply wp_mono with (Q := fun r w' => r = Ok tt /\ same_stores w' w /\
    requests (w_log w') = requests (w_log w) ++ leave_requests w).
  - unfold leave_requests. destruct (roomId (w_room w)) as [rid|]; [|wp_step; by rewrite app_nil_r].
    wp_step; destruct (String.eqb rid ""); try done; [|by rewrite app_nil_r].
    repeat (wp_step; cbn -[requests]); (split; [done|split; [done|]]); rewrite ?requests_app; cbn; by rewrite ?app_nil_r.
  - intros r w1 (-> & Hs & Hq). wp_step. wp_step. rewrite (w_platform_proper _ _ Hs).
    change (has_runtime (w_platform w) && has_runtime_id (w_platform w)) with (through_worker w).
    wp_step; rewrite H; cbn [negb orb].
    + wp_step. wp_step. wp_step; change (truthy response && truthy (get_opt response "success")) with (confirmed response) in *.
      * rewrite H0. apply finishLogout_wp. intros w' m Hu Hr Hl Hm. split; [done|]. split.
        { rewrite Hl, requests_app. change (requests (ERoute "/login-page" :: m)) with (requests m).
          cbn. by rewrite Hm, requests_app, Hq, !app_nil_r. }
        split; [done|]. split; [done|]. eauto.
      * rewrite H0. split; [done|]. split; [|done]. cbn. by rewrite requests_app, Hq, app_nil_r.
    + apply finishLogout_wp. intros w' m Hu Hr Hl Hm. split; [done|]. split.
      { rewrite Hl, requests_app. change (requests (ERoute "/login-page" :: m)) with (requests m).
        by rewrite Hm, Hq, !app_nil_r. }
      split; [done|]. split; [done|]. eauto.
Qed.
