(* ===== verification/Settings.v ===== *)
(** * The settings

    [stores/useSettingsStore.ts], [customComponents/RoomDisplays/SettingsDisplay.tsx]
    with [customComponents/NotificationToggle.tsx], and [useThemeSync] of
    [pages/_app.tsx]. *)

From S2P Require Export Session.

(** ** The store's actions *)

Definition setChatNotificationsEnabled (enabled : bool) : IO unit :=
  on_settings (fun s => mkSettingsState enabled (themePreference s)) ;;
  if_chrome has_storage (storage_set "chatNotificationsEnabled" (VBool enabled)).

Definition setThemePreference (pref : ThemePreference) : IO unit :=
  on_settings (fun s => mkSettingsState (chatNotificationsEnabled s) pref) ;;
  if_chrome has_storage (storage_set "themePreference" (VStr (theme_name pref))).

(** [v === 'auto' || v === 'dark' || v === 'light'] *)
Definition theme_of (v : Val) : option ThemePreference :=
  if is_str v "auto" then Some auto
  else if is_str v "dark" then Some dark
  else if is_str v "light" then Some light
  else None.

Definition loadSettings : IO unit :=
  if_chrome has_storage
    (enabled ← storage_get "chatNotificationsEnabled";
     pref ← storage_get "themePreference";
     match enabled with
     | VBool b => on_settings (fun s => mkSettingsState b (themePreference s))
     | _ => mret tt
     end ;;
     match theme_of pref with
     | Some t => on_settings (fun s => mkSettingsState (chatNotificationsEnabled s) t)
     | None => mret tt
     end).

(** The click on a [NotificationToggle] *)
Definition toggle_click (enabled disabled : bool) (onChange : bool -> IO unit) : IO unit :=
  when (negb disabled) (onChange (negb enabled)).
Definition toggle_label (enabled : bool) : string := if enabled then "ON" else "OFF".

(** ** The settings tab *)

Module Display.
Definition MIN_DURATION : Z := 5.
Definition MAX_DURATION : Z := 120.

(** The state of the component; [ds_error] is what [setError] was given. *)
Record Display := mkDisplay { value : Z; saving : bool; ds_error : Val; saved : bool }.

Section display_setters.
Context (d : Display).
Definition setValue v := mkDisplay v (saving d) (ds_error d) (saved d).
Definition setSaving v := mkDisplay (value d) v (ds_error d) (saved d).
Definition setError v := mkDisplay (value d) (saving d) v (saved d).
Definition setSaved v := mkDisplay (value d) (saving d) (ds_error d) v.
End display_setters.

Definition displayInit (roundDuration : option Z) : Display := mkDisplay (default 30%Z roundDuration) false VNull false.

Abbreviation DS := (M (World * Display)).
Definition dio {A} (m : IO A) : DS A := zoom fst (fun w s => (w, s.2)) m.
Definition on_display (f : Display -> Display) : DS unit := modify (fun s : World * Display => (s.1, f s.2)).

(** The effect that follows the stored duration. *)
Definition duration_effect : DS unit :=
  dur ← dio (room_get roundDuration);
  match dur with Some z => on_display (fun d => setValue d z) | None => mret tt end.

Definition clamp (n : Z) : Z := Z.max MIN_DURATION (Z.min MAX_DURATION n).
Definition change (next : Z) (d : Display) : Display := setError (setSaved (setValue d (clamp next)) false) VNull.

Definition dirty (d : Display) (s : RoomState) : bool := negb (bool_decide (roundDuration s = Some (value d))).
Definition save_disabled (d : Display) (s : RoomState) : bool := saving d || negb (dirty d s).

Section save.
Context `{JsonCodec}.
Definition onSave : DS unit :=
  rid ← dio (room_get roomId);
  match rid with
  | None | Some EmptyString => on_display (fun d => setError d (VStr "Not in a room."))
  | Some roomId =>
      on_display (fun d => setSaving d true) ;;
      on_display (fun d => setError d VNull) ;;
      finally
        (try_catch
           (base ← dio getServerUrl;
            v ← read (fun s : World * Display => value s.2);
            res ← dio (fetch (post_json (base +:+ "/rooms/" +:+ roomId +:+ "/rounds/time") (VObj [("duration", VNum v)])));
            data ← dio (try_catch (res_json res) (fun _ => mret VNull));
            if negb (res_ok res)
            then on_display (fun d => setError d
                   (js_or (js_and data (js_or (get_opt data "error") (get_opt data "message")))
                          (VStr ("Failed to update timer: " +:+ z_str (status res)))))
            else dio (on_room (fun s => setRoundDuration s
                   (wire_num (js_coalesce (get_opt (get_opt data "data") "duration") (VNum v))))) ;;
                 on_display (fun d => setSaved d true))
           (fun e => on_display (fun d => setError d (js_or (get_opt e "message") (VStr "Failed to update timer.")))))
        (fun s => (s.1, setSaving s.2 false))
  end.
End save.

(** The message disappears after three seconds. *)
Definition saved_timeout (d : Display) : Display := setSaved d false.

(** What stands where the timer is edited. *)
Inductive TimerArea := OnlyAdmin | BeforeRound | TimerSlider (v : Z).
Definition timer_area (s : RoomState) (d : Display) : TimerArea :=
  if negb (isAdmin s) then OnlyAdmin else if isRoundStarted s then BeforeRound else TimerSlider (value d).
Definition save_shown (s : RoomState) : bool := isAdmin s && negb (isRoundStarted s).
Definition saved_shown (d : Display) (s : RoomState) : bool := saved d && negb (dirty d s).

Definition theme_label (pref : ThemePreference) : string :=
  match pref with auto => "Auto" | dark => "Dark" | light => "Light" end.
Definition theme_note (pref : ThemePreference) : string :=
  match pref with
  | auto => "Follows LeetCode's theme setting"
  | _ => "Locked to " +:+ theme_name pref +:+ " mode"
  end.
End Display.

(** ** useThemeSync *)

(** The class of the document: [None] while neither was set. *)
Definition applyTheme (theme : Val) : option bool := Some (negb (is_str theme "light")).

Inductive ThemeEvent :=
| ThemeRead (pref : Val) (prefersLight : bool)
| ThemeMessage (data : Val)
| ThemeChanged (newValue : option Val).

(** The dark class is set ([Some true]), the light one, or none. *)
Definition theme_step (ev : ThemeEvent) (root : option bool) : option bool :=
  match ev with
  | ThemeRead pref prefersLight =>
      if truthy pref && negb (is_str pref "auto") then applyTheme pref
      else if prefersLight then applyTheme (VStr "light") else root
  | ThemeMessage data =>
      if is_str (get_opt data "type") "BSG_THEME_UPDATE" then applyTheme (prop data "theme") else root
  | ThemeChanged change =>
      match change with
      | Some pref => if truthy pref && negb (is_str pref "auto") then applyTheme pref else root
      | None => root
      end
  end.

(** ** Properties *)

(** settings survive the panel.  What the user chose last is what a panel
    loaded later shows, whatever its stores held: after both settings were
    chosen in either order, loading them into any store gives them back, and
    loading reads nothing else and writes nothing.  What is stored by anything
    else and is no setting leaves the store alone. *)
Theorem settings_survive (enabled : bool) (pref : ThemePreference) (w w2 : World) :
  has_storage (w_platform w) = true -> has_storage (w_platform w2) = true ->
  let stored m := (m w).2 in
  (w_storage w2 = w_storage (stored (setChatNotificationsEnabled enabled ;; setThemePreference pref)) \/
   w_storage w2 = w_storage (stored (setThemePreference pref ;; setChatNotificationsEnabled enabled)) ->
   loadSettings w2 = (Ok tt, with_settings w2 (mkSettingsState enabled pref))) /\
  ((forall b, w_storage w2 !! "chatNotificationsEnabled" <> Some (VBool b)) ->
   theme_of (default VUndef (w_storage w2 !! "themePreference")) = None ->
   loadSettings w2 = (Ok tt, w2)).
Proof.
  intros Hw Hw2. cbv zeta. split.
  - assert (Hload : w_storage w2 !! "chatNotificationsEnabled" = Some (VBool enabled) ->
      w_storage w2 !! "themePreference" = Some (VStr (theme_name pref)) ->
      loadSettings w2 = (Ok tt, with_settings w2 (mkSettingsState enabled pref))).
    { intros H1 H2. unfold loadSettings. js_unfold. rewrite Hw2, H1, H2. by destruct w2, pref. }
    unfold setChatNotificationsEnabled, setThemePreference. js_unfold. cbn. rewrite !Hw. cbn.
    rewrite ?Hw. cbn. intros [H|H]; apply Hload; rewrite H; cbn; by simplify_map_eq.
  - intros H1 H2. unfold loadSettings. js_unfold. rewrite Hw2, H2.
    destruct (w_storage w2 !! "chatNotificationsEnabled") as [[]|] eqn:E; try done. by destruct (H1 b).
Qed.

Lemma settings_survive_witness :
  let w := fresh_world None [] in
  let w2 := with_storage w (w_storage ((setChatNotificationsEnabled false ;; setThemePreference light) w).2) in
  loadSettings w2 = (Ok tt, with_settings w2 (mkSettingsState false light)).
Proof.
  cbn zeta.
  refine (proj1 (settings_survive false light (fresh_world None [])
    (with_storage (fresh_world None [])
       (w_storage ((setChatNotificationsEnabled false ;; setThemePreference light) (fresh_world None [])).2))
    eq_refl eq_refl) _).
  left. reflexivity.
Defined.
