(* ===== verification/Panel.v ===== *)
(** * The panel around the pages

    [pages/_app.tsx] (without [useThemeSync], in [Settings.v]), the header and
    the sidebar of [customComponents/TabBar], [customComponents/Footer],
    [customComponents/Toast.tsx], the small hooks they use, and the views of
    [pages/room-page.tsx]: the participants and the chat.

    A view is modelled by what it decides: which of its parts are shown, with
    which texts and which handlers; markup and styling are left out. *)

From S2P Require Export ChatSocket Navigation Session.

(** ** The small hooks *)

(** [useIsFolded]: the width of the document, whenever it changes *)
Definition folded_at (width : Z) : bool := (width <=? 36)%Z.

(** [useIsActive]: a runtime message *)
Definition active_message (message : Val) (isActive : bool) : bool :=
  if is_str (prop message "type") "NOT_ACTIVE" then false else isActive.

(** [useIsMaximized] and [useBrowser] read a key of the storage on mount and
    follow its changes; [None] is a change of other keys. *)
Inductive KeyEvent := KeyRead (v : Val) | KeyChanged (newValue : option Val).
Definition strictly_true (v : Val) : bool := match v with VBool b => b | _ => false end.
Definition maximized_step (ev : KeyEvent) (maximized : bool) : bool :=
  match ev with
  | KeyRead v | KeyChanged (Some v) => strictly_true v
  | KeyChanged None => maximized
  end.
Definition browser_step (ev : KeyEvent) (browser : Val) : Val :=
  match ev with
  | KeyRead v => if truthy v then v else browser
  | KeyChanged (Some v) => v
  | KeyChanged None => browser
  end.

(** [useIsScrolled] and [useIsOverflowed]: the measures of the element. *)
Definition is_scrolled (scrollLeft scrollTop : Z) : bool * bool := ((0 <? scrollLeft)%Z, (0 <? scrollTop)%Z).
Definition is_overflowed (scrollWidth clientWidth scrollHeight clientHeight : Z) : bool * bool :=
  ((clientWidth <? scrollWidth)%Z, (clientHeight <? scrollHeight)%Z).

(** *** useCopyCode *)

(** [doLocalCopy], up to [markCopied] *)
Definition doLocalCopy (roomCode : string) : IO bool := emit (ECopy roomCode) ;; mret true.

(** Whether the code was marked as copied.  [response] is how the message to
    the worker ends: [sendMessage] itself throws, or its callback is called. *)
Definition copyRoomCode (roomCode : option string) (response : Res Val) : IO bool :=
  match roomCode with
  | None | Some EmptyString => mret false
  | Some code =>
      ext ← read (fun w => has_runtime (w_platform w) && has_sendMessage (w_platform w));
      if ext : bool then
        emit (EMessage (VObj [("type", VStr "COPY_TO_CLIPBOARD"); ("text", VStr code)])) ;;
        match response with
        | Ok resp => if truthy (get_opt resp "ok") then mret true else doLocalCopy code
        | Throw _ => doLocalCopy code
        end
      else doLocalCopy code
  end.

(** The flag and the timeouts that will clear it. *)
Record Copied := mkCopied { isCopied : bool; copyTimers : nat }.
Definition markCopied (c : Copied) : Copied := mkCopied true (S (copyTimers c)).
Definition copied_timeout (c : Copied) : Copied := mkCopied false (Nat.pred (copyTimers c)).

(** *** Toast *)

(** The timer of the effect: when a message is shown, until it is dismissed. *)
Definition toast_timer (message : Val) (now durationMs : Z) : option Z :=
  if truthy message then Some (now + durationMs)%Z else None.
Definition TOAST_MS : Z := 4000.
Definition toast_shown (message : Val) : bool := truthy message.

(** ** Header and sidebar *)

(** The tabs in order; the leaderboard's button is hidden. *)
Definition TABS : list (TabName * string) :=
  [(roomInfo, "Room"); (chat, "Chat"); (leaderboard, "Leaderboard"); (statistics, "Statistics")].
Definition tab_hidden (t : TabName) : bool := bool_decide (t = leaderboard).

(** The separator before a tab disappears next to the hovered tab; the hidden
    leaderboard does not count as a neighbour. *)
Definition separator_invisible (t : TabName) (hoveredTab : option TabName) : bool :=
  match t, hoveredTab with
  | roomInfo, Some roomInfo => true
  | chat, Some (roomInfo | chat) => true
  | leaderboard, Some (chat | leaderboard) => true
  | statistics, Some (chat | statistics) => true
  | _, _ => false
  end.

(** What both bars are told by the pointer and clicks. *)
Inductive BarEvent := EnterTab (t : TabName) | LeaveTab.
Definition hover_step (ev : BarEvent) : option TabName := match ev with EnterTab t => Some t | LeaveTab => None end.
Definition header_click (t : TabName) : IO unit := on_room (fun s => setActiveTab s t).
Definition selectTabAndUnfold (t : TabName) : IO unit := on_room (fun s => setActiveTab s t) ;; messageScript "UNFOLD".
Definition onMaximize : IO unit := messageScript "MAXIMIZE".
Definition onFold : IO unit := messageScript "FOLD".
Definition onUnfold : IO unit := messageScript "UNFOLD".

Definition logout_shown (isInRoom isLoggedIn : bool) : bool := negb isInRoom && isLoggedIn.
Definition maximize_text (isMaximized : bool) : string := if isMaximized then "Exit" else "Maximize".

(** The wheel handler: how far the tabs are scrolled, if they are. *)
Definition onWheel (deltaX deltaY : Z) : option Z :=
  let delta := if (Z.abs deltaY <? Z.abs deltaX)%Z then deltaX else deltaY in
  if negb (delta =? 0)%Z then Some delta else None.

(** The badge on the logo of the folded panel. *)
Definition unread_badge (unreadCount : Z) : option string :=
  if (0 <? unreadCount)%Z then Some (if (9 <? unreadCount)%Z then "9+" else z_str unreadCount) else None.

(** ** Footer *)

Definition copy_text (isCopied : bool) : string := if isCopied then "Copied" else "Copy room code".
Definition onRate : IO unit :=
  emit (EOpen "https://chromewebstore.google.com/detail/bsg/mnllpknljobnjmbaognpclblmpfcllmc" "_blank").
Definition onFeedback : IO unit := emit (EOpen "https://acmutd.typeform.com/to/R0knpSwj" "").

(** The repository button; the popup and its states are those of [connect]. *)
Definition onGitHub (isLoggedIn : bool) (popup : bool) (closed : list bool) : GH unit :=
  if negb isLoggedIn then mret tt else
  github ← read (fun s : World * GitHubConnection => s.2);
  if truthy (Session.connected github)
  then gio (emit (EOpen ("https://github.com/" +:+ to_str (gh_username github) +:+ "/BSG-Submissions") ""))
  else Session.connect popup closed.

(** ** The app *)

Record App := mkApp {
  configLoaded : bool;
  isRestoreSlow : bool;
  appReady : bool;                     (* useSessionInit *)
  folded : bool;                       (* useIsFolded *)
  isActive : bool;                     (* useIsActive *)
  seen : TabName * bool;               (* the dependencies of the last unread effect *)
}.

(** What is rendered. *)
Inductive AppBody := Popup | Blank | Restoring (indicator : bool) | PanelBody (folded : bool).
Definition app_body (isDefaultPopup : bool) (a : App) : AppBody :=
  if isDefaultPopup then Popup
  else if negb (configLoaded a) then Blank
  else if negb (appReady a) then Restoring (isRestoreSlow a && negb (folded a))
  else PanelBody (folded a).
Definition toolbar_shown (s : RoomState) : bool := isInRoom s.

(** The effects after a render whose dependencies changed. *)
Definition app_effects (s : World * App) : World * App :=
  let '(w, a) := s in
  let w := if bool_decide (folded a = (seen a).2) then w else with_panel w (setIsFolded (folded a) (w_panel w)) in
  let deps := (activeTab (w_room w), folded a) in
  let w := if negb (bool_decide (deps = seen a)) && (bool_decide (activeTab (w_room w) = chat) && negb (folded a))
           then with_room w (clearUnread (w_room w)) else w in
  (w, mkApp (configLoaded a) (isRestoreSlow a) (appReady a) (folded a) (isActive a) deps).

(** On mount both effects run. *)
Definition app_mount (w : World) : World * App :=
  let w := with_panel w (setIsFolded false (w_panel w)) in
  (if bool_decide (activeTab (w_room w) = chat) then with_room w (clearUnread (w_room w)) else w,
   mkApp false false false false false (activeTab (w_room w), false)).

(** What happens to the panel: its own events, the clicks on tabs, entering and
    leaving a room, and the frames of the event socket. *)
Inductive AppEvent :=
| ConfigReady
| SlowTimer
| SessionOpened
| Resized (width : Z)
| RuntimeMessage (message : Val)
| MouseEnter | MouseLeave | MouseDown
| TabClicked (t : TabName)
| SettingsClicked
| RoomEntered (rid code admin : option string) (isadm : bool)
| RoomLeft
| FrameHeard (f : string).

Section app.
Context `{JsonCodec}.

Definition app_event (ev : AppEvent) (s : World * Chat * App) : World * Chat * App :=
  let '(w, c, a) := s in
  let on_w (m : IO unit) := ((m w).2, c, a) in
  match ev with
  | ConfigReady => (w, c, mkApp true (isRestoreSlow a) (appReady a) (folded a) (isActive a) (seen a))
  | SlowTimer => (w, c, mkApp (configLoaded a) true (appReady a) (folded a) (isActive a) (seen a))
  | SessionOpened => (w, c, mkApp (configLoaded a) (isRestoreSlow a) true (folded a) (isActive a) (seen a))
  | Resized width => (w, c, mkApp (configLoaded a) (isRestoreSlow a) (appReady a) (folded_at width) (isActive a) (seen a))
  | RuntimeMessage m => (w, c, mkApp (configLoaded a) (isRestoreSlow a) (appReady a) (folded a) (active_message m (isActive a)) (seen a))
  | MouseEnter => on_w (on_panel (setIsPanelHovered true))
  | MouseLeave => on_w (on_panel (setIsPanelHovered false))
  | MouseDown => ((messageScript "ACTIVE" w).2, c, mkApp (configLoaded a) (isRestoreSlow a) (appReady a) (folded a) true (seen a))
  | TabClicked t => on_w (if folded a then selectTabAndUnfold t else header_click t)
  | SettingsClicked => on_w (on_room (fun s =>
      match activeTab s with settings => setActiveTab s (tab_of (previousTab s)) | _ => setActiveTab s settings end))
  | RoomEntered rid code admin isadm => on_w (on_room (fun s => initRoom s rid code admin isadm))
  | RoomLeft => on_w (on_room (fun _ => resetRoom))
  | FrameHeard f => ((onmessage f (w, c)).2, a)
  end.

(** React renders and runs the effects after every event. *)
Definition app_step (ev : AppEvent) (s : World * Chat * App) : World * Chat * App :=
  let '(w, c, a) := app_event ev s in
  let '(w, a) := app_effects (w, a) in (w, c, a).

Definition app_run (evs : list AppEvent) (s : World * Chat * App) : World * Chat * App :=
  foldl (fun s ev => app_step ev s) s evs.
End app.

(** ** room-page.tsx *)

(** Mounting the page loads the settings; each display is told whether its tab
    is the active one. *)
Definition display_active (t : TabName) (s : RoomState) : bool := bool_decide (activeTab s = t).
Definition notice_shown (s : RoomState) : bool := opt_truthy (roomNotice s).
Definition dismissNotice : IO unit := on_room (fun s => setRoomNotice s None).

(** A row of [RoomInfoDisplay]: picture, name, and whether the crown is shown. *)
Definition participant_rows (s : RoomState) : list (string * string * bool) :=
  map (fun u => (photo u, name u, bool_decide (adminId s = Some (id u)))) (participants s).

(** ** ChatDisplay.tsx *)

(** What a group of messages is drawn as. *)
Inductive Bubble :=
| SystemLine (text : Val)
| OwnBubble (texts : list Val)
| OtherBubble (picture author : Val) (texts : list Val).

Definition bubble (uid : option string) (group : list Message) : Res Bubble :=
  match group with
  | [] => Throw type_error
  | m0 :: _ =>
      if isSystem m0 then Ok (SystemLine (m_data m0))
      else if eq_opt (userHandle m0) uid then Ok (OwnBubble (map m_data group))
      else Ok (OtherBubble (userPhoto m0) (userName m0) (map m_data group))
  end.

Definition chat_view (uid : option string) (messages : list Message) : Res (list Bubble) :=
  res_map (bubble uid) (groupedMessages messages).

(** The emojis of [emojis.json], by category. *)
Record Emoji := mkEmoji { emoji : string; emoji_name : string; keywords : list string }.
Definition emojiList (emojiMap : list (string * list Emoji)) : list (string * Emoji) :=
  flat_map (fun '(category, emojis) => map (pair category) emojis) emojiMap.
Definition emojiSearchResults (emojiMap : list (string * list Emoji)) (emojiSearch : string) : list (string * Emoji) :=
  if String.eqb emojiSearch "" then []
  else List.filter (fun '(_, e) => str_includes emojiSearch (emoji_name e) ||
                                   existsb (fun keyword => str_includes emojiSearch keyword) (keywords e))
         (emojiList emojiMap).

(** Enter sends the message, with Shift it is the text area's. *)
Definition onKeyDown `{JsonCodec} (key : string) (shiftKey : bool) : CH unit :=
  when (String.eqb key "Enter" && negb shiftKey) handleSubmit.
Definition counter_text (inputText : string) : string :=
  z_str (Z.of_nat (String.length inputText)) +:+ "/" +:+ z_str (Z.of_nat MAX_CHARS).

(** ** login-page.tsx *)

Definition shields_note (browser : Val) : bool := is_str browser "Brave".
Definition onSignIn (popups : list (option bool)) : IO (option AuthStep) := login google popups.

(** ** Lemmas *)

(** What a frame of the event socket leaves alone: the panel, the tab, and the
    unread count while the chat is visible. *)
Definition heeds (s s' : World * Chat) : Prop :=
  w_panel s'.1 = w_panel s.1 /\ activeTab (w_room s'.1) = activeTab (w_room s.1) /\
  (isChatVisible s.1 = true -> unreadCount (w_room s'.1) = unreadCount (w_room s.1)).

Lemma visible_of w w' : w_panel w' = w_panel w -> activeTab (w_room w') = activeTab (w_room w) ->
  isChatVisible w' = isChatVisible w.
Proof. intros H1 H2. unfold isChatVisible. by rewrite H1, H2. Qed.

#[export] Instance heeds_preorder : PreOrder heeds.
Proof.
  split; [done|]. intros s1 s2 s3 (H1 & H2 & H3) (H4 & H5 & H6).
  split; [congruence|]. split; [congruence|]. intros Hv. rewrite H6, H3; [done..|].
  by rewrite (visible_of _ _ H1 H2).
Qed.

Lemma chat_heeds m : steps heeds (onChatMessage m).
Proof.
  intros [w c]. destruct (is_nullish m) eqn:Hm.
  - unfold onChatMessage, get. rewrite Hm. done.
  - pose proof (onChatMessage_eq m w c Hm) as H. cbv zeta in H. rewrite H. unfold heeds, hear; cbn [snd fst].
    generalize (eq_opt (prop m "userHandle") (userId (c_cap c).1)). intros own.
    destruct (has_runtime _ && _ && _), (c_suppress c), own, (isChatVisible w) eqn:E; cbn; rewrite ?E; done.
Qed.

Lemma frame_heeds `{JsonCodec} f : steps heeds (onmessage f).
Proof.
  unfold onmessage. apply steps_try; [exact _| |by intros e; steps_tac].
  apply steps_lift_bind; [exact _|]. intros response _. unfold dispatch.
  apply steps_lift_bind; [exact _|]. intros st _. destruct (is_str st "ok").
  - cbv zeta. destruct (is_str _ "chat-message"); [apply chat_heeds|]. steps_tac; done.
  - steps_tac; done.
Qed.

Section unread.
Context `{JsonCodec}.
Implicit Types (s : World * Chat * App).

(** After every event and its effects. *)
Definition caught_up s : Prop :=
  let '(w, c, a) := s in
  isFolded (w_panel w) = folded a /\ seen a = (activeTab (w_room w), folded a) /\
  (isChatVisible w = true -> unreadCount (w_room w) = 0%Z).

(** Between an event and its effects. *)
Definition settled s : Prop :=
  let '(w, c, a) := s in
  isFolded (w_panel w) = (seen a).2 /\
  (seen a = (activeTab (w_room w), folded a) -> isChatVisible w = true -> unreadCount (w_room w) = 0%Z).

Lemma effects_catch_up w c a : settled (w, c, a) ->
  caught_up ((app_effects (w, a)).1, c, (app_effects (w, a)).2).
Proof.
  intros [H1 H2]. unfold app_effects, caught_up.
  set (w1 := if bool_decide _ then w else _).
  assert (Hf : isFolded (w_panel w1) = folded a).
  { unfold w1. case_bool_decide as E; [by rewrite H1|done]. }
  assert (Ht : w_room w1 = w_room w) by (unfold w1; by case_bool_decide).
  clearbody w1. case_bool_decide as E; cbn [negb andb fst snd seen folded].
  - rewrite Ht in *. split; [done|]. split; [done|]. intros Hv. apply H2; [done|].
    unfold isChatVisible in *. rewrite H1. rewrite Hf, Ht in Hv. by rewrite <- E.
  - destruct (bool_decide _ && negb (folded a)) eqn:Ev; cbn.
    + done.
    + split; [done|]. split; [done|]. unfold isChatVisible. by rewrite Hf, Ev.
Qed.

Lemma messageScript_stores t w :
  w_room (messageScript t w).2 = w_room w /\ w_panel (messageScript t w).2 = w_panel w.
Proof.
  unfold messageScript. js_exec. destruct (has_tabs _); [|done]. cbn.
  destruct (w_tab w) as [[[tid|] ?]|]; cbn; try done. by destruct (negb _).
Qed.

Lemma event_settled ev s : caught_up s -> settled (app_event ev s).
Proof.
  destruct s as [[w c] a]. intros (H1 & H2 & H3).
  assert (Hs : forall w' c' a', isFolded (w_panel w') = isFolded (w_panel w) -> seen a' = seen a ->
    (activeTab (w_room w') = activeTab (w_room w) -> isChatVisible w = true ->
     unreadCount (w_room w') = unreadCount (w_room w) \/ unreadCount (w_room w') = 0%Z) ->
    settled (w', c', a')).
  { intros w' c' a' Hf Hs Hu. unfold settled. rewrite Hs, H2. cbn [snd]. split; [congruence|].
    intros [= Ha Hb] Hv. assert (Hw : isChatVisible w = true).
    { unfold isChatVisible in *. by rewrite Ha, <- Hf. }
    destruct (Hu (eq_sym Ha) Hw) as [->|]; [|done]. by apply H3. }
  destruct ev; unfold app_event; try (apply Hs; cbn; auto; fail).
  - destruct (messageScript_stores "ACTIVE" w) as [E1 E2]. apply Hs; rewrite ?E1, ?E2; auto.
  - apply Hs; destruct (folded a); auto; unfold selectTabAndUnfold; cbn [fst snd].
    all: destruct (messageScript_stores "UNFOLD" (with_room w (setActiveTab (w_room w) t))) as [E1 E2].
    all: js_exec; rewrite ?E1, ?E2; auto.
  - apply Hs; cbn; auto. intros _ _. left. by destruct (activeTab (w_room w)).
  - pose proof (frame_heeds f (w, c)) as (E1 & E2 & E3). destruct (onmessage f (w, c)) as [r [w' c']].
    cbn in *. apply (Hs w' c a); cbn; [by rewrite E1|done|auto].
Qed.

Lemma app_run_caught_up evs s : caught_up s -> caught_up (app_run evs s).
Proof.
  revert s; induction evs as [|ev evs IH]; intros s Hs; [done|]. apply IH.
  pose proof (event_settled ev s Hs) as He. unfold app_step. destruct (app_event ev s) as [[w c] a].
  apply (effects_catch_up w c a) in He. by destruct (app_effects (w, a)).
Qed.

Lemma mount_caught_up w c : caught_up ((app_mount w).1, c, (app_mount w).2).
Proof.
  unfold app_mount, caught_up, isChatVisible. cbn. case_bool_decide as E; cbn; [done|].
  split; [done|]. split; [done|]. by rewrite bool_decide_eq_false_2.
Qed.
End unread.

(** *** The chat view *)

Definition bubble_texts (b : Bubble) : list Val :=
  match b with SystemLine t => [t] | OwnBubble ts => ts | OtherBubble _ _ ts => ts end.

(** The handle System is the one of the system lines only. *)
Definition handle_ok (m : Message) : Prop :=
  if isSystem m then userHandle m = VStr "System" else userHandle m <> VStr "System".

(** What the bubble of the run [g] tells of its messages. *)
Definition bubble_ok (uid : option string) (g : list Message) (b : Bubble) : Prop :=
  bubble_texts b = map m_data g /\
  match b with
  | SystemLine _ => exists m, g = [m] /\ isSystem m = true
  | OwnBubble _ => Forall (fun m => isSystem m = false /\ eq_opt (userHandle m) uid = true) g
  | OtherBubble _ _ _ => Forall (fun m => isSystem m = false /\ eq_opt (userHandle m) uid = false) g
  end.

Lemma run_authors g m : is_group g -> m ∈ g -> exists m0 l, g = m0 :: l /\
  (m = m0 \/ isSystem m = false /\ strict_eq (userHandle m0) (userHandle m) = true).
Proof.
  destruct g as [|m0 l]; [done|]. intros Hg Hm. exists m0, l. split; [done|].
  apply elem_of_cons in Hm as [->|Hm]; [by left|]. right. cbn in Hg.
  rewrite Forall_forall in Hg. specialize (Hg m Hm). apply andb_prop in Hg as [Hs He].
  by apply negb_true_iff in Hs.
Qed.

Lemma strict_eq_opt v v' uid : strict_eq v v' = true -> eq_opt v uid = eq_opt v' uid.
Proof.
  destruct v, v'; cbn; try done; intros E; js_bool; subst; try done.
Qed.

Lemma strict_eq_str v k : strict_eq (VStr k) v = true -> v = VStr k.
Proof. destruct v; cbn; try done. by intros ->%String.eqb_eq. Qed.

(** The bubble of a run. *)
Lemma bubble_run uid g : is_group g -> Forall handle_ok g -> exists b, bubble uid g = Ok b /\ bubble_ok uid g b.
Proof.
  intros Hg Hh. destruct g as [|m0 l]; [done|]. unfold bubble, bubble_ok.
  pose proof (Forall_inv Hh) as H0. unfold handle_ok in H0.
  destruct (isSystem m0) eqn:E0.
  - destruct l as [|m l]; [eexists; split; [done|]; eauto|]. exfalso.
    pose proof (Forall_inv Hg) as Hm. cbn in Hm. rewrite H0 in Hm. apply andb_prop in Hm as [Hs He].
    pose proof (Forall_inv (Forall_inv_tail Hh)) as H1. unfold handle_ok in H1.
    apply negb_true_iff in Hs. rewrite Hs in H1. by apply strict_eq_str in He.
  - assert (Hall : Forall (fun m => isSystem m = false /\ eq_opt (userHandle m) uid = eq_opt (userHandle m0) uid) (m0 :: l)).
    { apply Forall_forall. intros m Hm. destruct (run_authors _ m Hg Hm) as (? & ? & [= <- <-] & [->|[Hs He]]); [done|].
      split; [done|]. symmetry. by apply strict_eq_opt. }
    destruct (eq_opt (userHandle m0) uid); eexists; split; try done; split; done.
Qed.

(** ** Properties *)

(** C30: the unread count follows what the user sees.  Over every run of the
    panel - resizes, clicks on tabs and on the settings button, rooms entered
    and left, and any frames of the event socket - the panel store knows
    whether the panel is folded, and whenever the chat can be seen there is
    nothing unread and no badge, whatever the stores held before. *)
Theorem chat_seen `{JsonCodec} (evs : list AppEvent) (w : World) (c : Chat) :
  let '(w', c', a') := app_run evs ((app_mount w).1, c, (app_mount w).2) in
  isFolded (w_panel w') = folded a' /\
  (activeTab (w_room w') = chat -> folded a' = false ->
   unreadCount (w_room w') = 0%Z /\ unread_badge (unreadCount (w_room w')) = None).
Proof.
  pose proof (app_run_caught_up evs _ (mount_caught_up w c)) as Hc.
  destruct (app_run evs _) as [[w' c'] a']. destruct Hc as (H1 & _ & H3). split; [done|].
  intros Ht Hf. rewrite H3; [done|]. unfold isChatVisible. by rewrite Ht, H1, Hf.
Qed.

(** the chat shows every message once and in order: as long as no user has
    the handle of the system's messages, the groups of any messages are drawn
    without an exception, the texts of the bubbles are the texts of the
    messages, every system message has a line of its own, and a bubble on the
    user's side holds only messages of the user, one on the other side none. *)
Theorem chat_view_complete (uid : option string) (ms : list Message) :
  Forall handle_ok ms ->
  exists bs, chat_view uid ms = Ok bs /\
    concat (map bubble_texts bs) = map m_data ms /\
    Forall2 (bubble_ok uid) (groupedMessages ms) bs.
Proof.
  intros Hms. unfold chat_view. destruct (grouped_grouping ms) as [[Hg _] Hc].
  revert Hg Hc Hms. generalize (groupedMessages ms) as gs. intros gs Hg <- Hms.
  induction Hg as [|g gs Hg1 Hg IH]; [by exists []|]. cbn in Hms. apply Forall_app in Hms as [Hm1 Hm2].
  destruct (IH Hm2) as (bs & Hbs & Hcat & Hall). destruct (bubble_run uid g Hg1 Hm1) as (b & Hb & Hok).
  exists (b :: bs). cbn [res_map]. unfold mbind, res_bind. rewrite Hb, Hbs. split; [done|].
  split; [|by constructor]. cbn [map concat]. rewrite Hcat, map_app. by destruct Hok as [-> _].
Qed.

Lemma chat_view_complete_witness :
  let say h d := mkMessage (VStr h) VUndef VUndef (VStr d) VUndef false in
  let ms := [say "u1" "hi"; say "u1" "there"; mkMessage (VStr "System") VUndef VUndef (VStr "u2 joined") VUndef true; say "u2" "yo"] in
  exists bs, chat_view (Some "u1") ms = Ok bs /\ concat (map bubble_texts bs) = map m_data ms.
Proof.
  intros say ms. destruct (chat_view_complete (Some "u1") ms) as (bs & H1 & H2 & _).
  - repeat (apply List.Forall_cons; [first [reflexivity | discriminate]|]). apply List.Forall_nil.
  - exists bs. split; assumption.
Defined.
