(* ===== verification/Observers.v ===== *)
(** * Watching elements

    The hooks by which the panel follows an element of the page as React attaches and detaches it, and as the browser reports on it:
    [hooks/useIsOverflowed.ts], [TabBar/useIsScrolled.ts], the height of the chat's text field ([RoomDisplays/ChatDisplay.tsx]), and the content script's wait
    for LeetCode's page ([waitForQDContent] of [contentScript.js]).

    What the browser keeps is part of the state: the observers that are connected and the listeners that are registered.  It calls
    exactly those; each step that React or the browser takes is an event. *)

From S2P Require Export Panel.

(** An element, by its identity *)
Abbreviation Node := nat.

(** ** useIsOverflowed *)

Record Overflow := mkOverflow {
  o_element : option Node;              (* elementRef.current *)
  o_observer : option nat;              (* observerRef.current *)
  connected : list (nat * Node);        (* the observers that observe, and what *)
  created : nat;                        (* how many there have been *)
  isOverflowedX : bool;
  isOverflowedY : bool;
}.
Definition overflow_init : Overflow := mkOverflow None None [] 0 false false.

Definition drop_observer (o : nat) (l : list (nat * Node)) : list (nat * Node) := List.filter (fun c => negb (Nat.eqb c.1 o)) l.

(** [overflowRef(node)] *)
Definition overflowRef (node : option Node) (s : Overflow) : Overflow :=
  let connected := match o_observer s with Some o => drop_observer o (connected s) | None => connected s end in
  match node with
  | None => mkOverflow None None connected (created s) (isOverflowedX s) (isOverflowedY s)
  | Some n => mkOverflow (Some n) (Some (created s)) (connected ++ [(created s, n)]) (S (created s)) (isOverflowedX s) (isOverflowedY s)
  end.

(** The measures of an element: the width and the height of its content, and of itself *)
Record Measures := mkMeasures { scrollWidth : Z; clientWidth : Z; scrollHeight : Z; clientHeight : Z }.

(** The callback of the observer [o], which measures the element it was made for *)
Definition overflow_report (o : nat) (measure : Node -> Measures) (s : Overflow) : Overflow :=
  match List.find (fun c => Nat.eqb c.1 o) (connected s) with
  | None => s
  | Some (_, n) =>
      let m := measure n in
      let '(x, y) := is_overflowed (scrollWidth m) (clientWidth m) (scrollHeight m) (clientHeight m) in
      mkOverflow (o_element s) (o_observer s) (connected s) (created s) x y
  end.

Inductive OverflowEvent := ORef (node : option Node) | OReport (o : nat) (measure : Node -> Measures).
Definition overflow_step (s : Overflow) (ev : OverflowEvent) : Overflow :=
  match ev with ORef node => overflowRef node s | OReport o measure => overflow_report o measure s end.
Definition overflow_run (evs : list OverflowEvent) : Overflow := foldl overflow_step overflow_init evs.

(** ** useIsScrolled *)

Record Scroll := mkScroll { s_element : option Node; listeners : list Node; isScrolledX : bool; isScrolledY : bool }.
Definition scroll_init : Scroll := mkScroll None [] false false.

Definition addListener (n : Node) (l : list Node) : list Node := if existsb (Nat.eqb n) l then l else l ++ [n].
Definition removeListener (n : Node) (l : list Node) : list Node := List.filter (fun m => negb (Nat.eqb m n)) l.

(** [scrollRef(node)]; [handleScroll] is the same function in every render. *)
Definition scrollRef (node : option Node) (s : Scroll) : Scroll :=
  let ls := match s_element s with Some n => removeListener n (listeners s) | None => listeners s end in
  mkScroll node (match node with Some n => addListener n ls | None => ls end) (isScrolledX s) (isScrolledY s).

(** A scroll event on [n]: [handleScroll] reads the element of the ref. *)
Definition handleScroll (offsets : Node -> Z * Z) (s : Scroll) : Scroll :=
  match s_element s with
  | None => s
  | Some e => let '(x, y) := is_scrolled (offsets e).1 (offsets e).2 in mkScroll (s_element s) (listeners s) x y
  end.
Definition scrolled (n : Node) (offsets : Node -> Z * Z) (s : Scroll) : Scroll :=
  if existsb (Nat.eqb n) (listeners s) then handleScroll offsets s else s.

Inductive ScrollEvent := SRef (node : option Node) | SScroll (n : Node) (offsets : Node -> Z * Z).
Definition scroll_step (s : Scroll) (ev : ScrollEvent) : Scroll :=
  match ev with SRef node => scrollRef node s | SScroll n offsets => scrolled n offsets s end.
Definition scroll_run (evs : list ScrollEvent) : Scroll := foldl scroll_step scroll_init evs.

(** ** The header bar: [combinedRef] of HeaderBar.tsx, the same element with a wheel handler of its own *)

Record Bar := mkBar {
  b_scroll : Scroll;
  wheels : list (Node * nat);             (* the wheel listeners: each attachment makes a new handler *)
  b_handlers : nat;
  wheelCleanup : option (Node * nat);     (* what the clean-up removes *)
}.
Definition bar_init : Bar := mkBar scroll_init [] 0 None.

Definition combinedRef (node : option Node) (b : Bar) : Bar :=
  let ws := match wheelCleanup b with
            | Some (n, h) => List.filter (fun w => negb (Nat.eqb w.1 n && Nat.eqb w.2 h)) (wheels b)
            | None => wheels b
            end in
  let s := scrollRef node (b_scroll b) in
  match node with
  | None => mkBar s ws (b_handlers b) None
  | Some n => mkBar s (ws ++ [(n, b_handlers b)]) (S (b_handlers b)) (Some (n, b_handlers b))
  end.

(** ** The height of the chat's text field *)

(** [content]: the height of its text when the field is as wide as that *)
Record FieldHeight := mkFieldHeight { lastWidth : Z; styleHeight : option Z; ta_observed : bool }.
Definition textarea_effect (clientWidth : Z) (height : option Z) : FieldHeight := mkFieldHeight clientWidth height true.
Definition textarea_report (content : Z -> Z) (clientWidth : Z) (t : FieldHeight) : FieldHeight :=
  if ta_observed t then
    if negb (clientWidth =? lastWidth t)%Z then mkFieldHeight clientWidth (Some (content clientWidth)) true else t
  else t.
Definition textarea_cleanup (t : FieldHeight) : FieldHeight := mkFieldHeight (lastWidth t) (styleHeight t) false.

(** ** waitForQDContent *)

Record Waiting := mkWaiting { resolved : option Node; watching : bool }.
(** What [document.querySelector('#qd-content')] finds at the start, and at each report of a mutation *)
Definition waitForQDContent (existing : option Node) : Waiting :=
  match existing with Some el => mkWaiting (Some el) false | None => mkWaiting None true end.
Definition mutated (found : option Node) (w : Waiting) : Waiting :=
  if watching w then match found with Some el => mkWaiting (Some el) false | None => w end else w.

(** ** Invariants *)

(** Exactly the attached element is observed, by the observer of the ref. *)
Definition overflow_ok (s : Overflow) : Prop :=
  match o_element s with
  | None => o_observer s = None /\ connected s = []
  | Some n => exists o, o_observer s = Some o /\ connected s = [(o, n)] /\ o < created s
  end.

Lemma overflowRef_ok node s : overflow_ok s -> overflow_ok (overflowRef node s).
Proof.
  unfold overflow_ok, overflowRef. intros Hs.
  assert (Hd : match o_observer s with Some o => drop_observer o (connected s) | None => connected s end = []).
  { destruct (o_element s) as [n|].
    - destruct Hs as (o & -> & -> & _). unfold drop_observer. cbn. by rewrite Nat.eqb_refl.
    - by destruct Hs as [-> ->]. }
  rewrite Hd. destruct node as [n|]; cbn; [|done]. exists (created s). split_and!; [done|done|lia].
Qed.
Lemma overflow_report_ok o measure s : overflow_ok s -> overflow_ok (overflow_report o measure s).
Proof. unfold overflow_report. intros Hs. by destruct (List.find _ (connected s)) as [[o' n]|]. Qed.

Lemma overflow_run_ok evs : overflow_ok (overflow_run evs).
Proof.
  unfold overflow_run. assert (H : overflow_ok overflow_init) by done. revert H. generalize overflow_init. 
  induction evs as [|ev evs IH]; intros s Hs; [done|]. cbn. apply IH. destruct ev; [by apply overflowRef_ok|by apply overflow_report_ok].
Qed.

Definition scroll_ok (s : Scroll) : Prop := listeners s = match s_element s with Some n => [n] | None => [] end.
Lemma scrollRef_ok node s : scroll_ok s -> scroll_ok (scrollRef node s).
Proof.
  unfold scroll_ok, scrollRef. intros ->. cbn [s_element listeners].
  assert (Hr : match s_element s with Some n => removeListener n match s_element s with Some n => [n] | None => [] end
               | None => match s_element s with Some n => [n] | None => [] end end = []).
  { destruct (s_element s) as [n|]; [|done]. unfold removeListener. cbn. by rewrite Nat.eqb_refl. }
  rewrite Hr. by destruct node.
Qed.
Lemma scrolled_ok n offsets s : scroll_ok s -> scroll_ok (scrolled n offsets s).
Proof. unfold scrolled, handleScroll. intros Hs. destruct (existsb _ _); [|done]. by destruct (s_element s) eqn:He; unfold scroll_ok in *; cbn; rewrite ?He in *. Qed.
Lemma scroll_run_ok evs : scroll_ok (scroll_run evs).
Proof.
  unfold scroll_run. assert (H : scroll_ok scroll_init) by done. revert H. generalize scroll_init.
  induction evs as [|ev evs IH]; intros s Hs; [done|]. cbn. apply IH. destruct ev; [by apply scrollRef_ok|by apply scrolled_ok].
Qed.

(** The header has one wheel handler, on the element that it follows. *)
Lemma bar_run_ok (nodes : list (option Node)) :
  let b := foldl (fun b node => combinedRef node b) bar_init nodes in
  scroll_ok (b_scroll b) /\ s_element (b_scroll b) = default None (last nodes) /\ map fst (wheels b) = option_list (s_element (b_scroll b)) /\
  wheels b = option_list (wheelCleanup b).
Proof.
  cbv zeta. rewrite <- (rev_involutive nodes). generalize (rev nodes). clear nodes. intros nodes. induction nodes as [|node nodes (H1 & H2 & H3 & H4)]; [done|].
  cbn [rev]. rewrite foldl_app. set (b := foldl _ bar_init (rev nodes)) in *. cbn [foldl]. rewrite last_snoc.
  assert (Hw : match wheelCleanup b with Some (n, h) => List.filter (fun w => negb (Nat.eqb w.1 n && Nat.eqb w.2 h)) (wheels b) | None => wheels b end = []).
  { rewrite H4. destruct (wheelCleanup b) as [[n h]|]; [|done]. cbn. by rewrite !Nat.eqb_refl. }
  unfold combinedRef. rewrite Hw. destruct node as [n|]; cbn [b_scroll wheels wheelCleanup]; (split; [by apply scrollRef_ok|]); by split_and!.
Qed.

(** ** Theorems *)

(** The bars follow the element they show.  However React attaches and detaches elements and in whatever order the browser
    reports: the browser watches exactly the attached element, by one observer and one listener, and none when there is none; a report
    on it sets the flags to its measures, and a report on any other element, or by an observer of before, changes nothing. *)
Theorem bars_follow_element (os : list OverflowEvent) (ss : list ScrollEvent) (measure : Node -> Measures) (offsets : Node -> Z * Z) :
  let o := overflow_run os in
  let s := scroll_run ss in
  map snd (connected o) = option_list (o_element o) /\ listeners s = option_list (s_element s) /\
  (forall n, o_element o = Some n -> exists id, connected o = [(id, n)] /\
     (isOverflowedX (overflow_report id measure o), isOverflowedY (overflow_report id measure o)) =
       is_overflowed (scrollWidth (measure n)) (clientWidth (measure n)) (scrollHeight (measure n)) (clientHeight (measure n)) /\
     forall id', id' <> id -> overflow_report id' measure o = o) /\
  (forall n, (s_element s = Some n ->
       (isScrolledX (scrolled n offsets s), isScrolledY (scrolled n offsets s)) = is_scrolled (offsets n).1 (offsets n).2) /\
     (s_element s <> Some n -> scrolled n offsets s = s)).
Proof.
  cbv zeta. pose proof (overflow_run_ok os) as Ho. pose proof (scroll_run_ok ss) as Hs.
  generalize dependent (overflow_run os). generalize dependent (scroll_run ss). intros s Hs o Ho. unfold overflow_ok, scroll_ok in *.
  split_and!.
  - destruct (o_element o) as [n|]; [by destruct Ho as (id & _ & -> & _)|by destruct Ho as [_ ->]].
  - by destruct (s_element s).
  - intros n Hn. rewrite Hn in Ho. destruct Ho as (id & _ & Hc & _). exists id. split; [done|]. unfold overflow_report. rewrite Hc. cbn.
    rewrite Nat.eqb_refl. split; [done|]. intros id' Hne. rewrite (proj2 (Nat.eqb_neq id id')) by done. done.
  - intros n. unfold scrolled, handleScroll. rewrite Hs. split.
    + intros ->. cbn. by rewrite Nat.eqb_refl.
    + intros Hne. destruct (s_element s) as [m|]; [|done]. cbn. rewrite (proj2 (Nat.eqb_neq n m)) by congruence. done.
Qed.

(** A change of width sets the height of the text field to that of its text; a report without one leaves the height the user's typing gave it. *)
Lemma textarea_height content (width : Z) (height : option Z) (widths : list Z) :
  let t := foldl (fun t w => textarea_report content w t) (textarea_effect width height) widths in
  lastWidth t = default width (last widths) /\
  (styleHeight t = height /\ Forall (eq width) widths \/ styleHeight t = Some (content (lastWidth t))).
Proof.
  cbv zeta. assert (H : forall t, ta_observed t = true ->
     let t' := foldl (fun t w => textarea_report content w t) t widths in
     lastWidth t' = default (lastWidth t) (last widths) /\
     (styleHeight t' = styleHeight t /\ Forall (eq (lastWidth t)) widths \/ styleHeight t' = Some (content (lastWidth t')))).
  { induction widths as [|w widths IH]; intros t Ht; cbn [foldl]; [by split; [|left]|]. cbv zeta.
    unfold textarea_report at 2 4 6 8. rewrite Ht. rewrite last_cons. destruct (Z.eqb_spec w (lastWidth t)) as [->|Hw]; cbn [negb].
    - destruct (IH t Ht) as [H1 H2]. split; [by destruct (last widths)|]. destruct H2 as [[H2 H3]|H2]; [left|by right]. by split; [|constructor].
    - destruct (IH (mkFieldHeight w (Some (content w)) true) eq_refl) as [H1 H2]. split; [by destruct (last widths)|]. right.
      destruct H2 as [[H2 H3]|H2]; [|done]. rewrite H2, H1. cbn. do 2 f_equal. destruct (last widths) as [x|] eqn:Hx; [|done].
      rewrite Forall_forall in H3. cbn in H3. apply H3. by apply last_Some_elem_of. }
  exact (H (textarea_effect width height) eq_refl).
Qed.

(** The wait ends with the first element that is found, and then watches no more. *)
Lemma first_content existing (found : list (option Node)) :
  let w := foldl (fun w f => mutated f w) (waitForQDContent existing) found in
  resolved w = head (omap (fun x : option Node => x) (existing :: found)) /\ watching w = negb (bool_decide (is_Some (resolved w))).
Proof.
  cbv zeta. assert (Hd : forall el found, foldl (fun w f => mutated f w) (mkWaiting (Some el) false) found = mkWaiting (Some el) false)
    by (clear; intros el found; induction found as [|f found IH]; [done|exact IH]).
  destruct existing as [el|]; cbn [waitForQDContent]; [by rewrite Hd|].
  induction found as [|[el|] found IH]; cbn [foldl]; [done|by unfold mutated at 2 4; cbn; rewrite Hd|exact IH].
Qed.
