(* ===== verification/FormViews.v ===== *)
(** * The forms as they are rendered

    The pages before a room: [pages/create-room-page.tsx] with the tabs and
    sections of [customComponents/CreateRoom], [pages/room-choice-page.tsx] with
    [start-page.tsx], [pages/login-page.tsx] and [pages/defaultPopup.tsx].

    The handlers of the views are the events of the machines of [RoomChoice.v] and
    [RoomForms.v]; the theorems here are about the machines driven by what is on
    the screen. *)

From S2P Require Export View RoomForms.

(** ** Sections of the filter tab *)

Section sections.
Context {E : Type}.

Definition DurationPicker (duration : Z) (onDurationChange : Z -> E) : View E :=
  div [El "Label" [] [num_txt duration; txt " mins"];
       El "Slider" [At "min" (VNum MIN_DURATION); At "max" (VNum MAX_DURATION); At "step" (VNum STEP);
                    At "value" (VArr [VNum duration]); On "onValueChange" (fun v => onDurationChange (first_num v))] []].

Definition getColorClass (disabled : bool) (diff : Difficulty) : string :=
  if disabled then "text-gray-500"
  else match diff with Easy => "text-green-500" | Medium => "text-yellow-500" | Hard => "text-red-500" end.

Definition NumberOfProblemsWithDifficultyLabel (difficulty : Difficulty) (num : Z) (disabled : bool) : View E :=
  El "span" [Class (getColorClass disabled difficulty)] [txt (difficulty_name difficulty); txt ": "; num_txt num].
End sections.

(** [checked] of a checkbox *)
Definition checked_of (v : Val) : bool := truthy v.

Definition ProblemCountSection (c : Choice) : View FormEvent :=
  div (map (fun d =>
         div [span [NumberOfProblemsWithDifficultyLabel d (count_for d c) (anyDifficulty c)];
              IncDecButtons (ClickDecrement d) (ClickIncrement d) (anyDifficulty c)]) [Easy; Medium; Hard] ++
       [div [El "FieldGroup" [] [El "Field" [] [
               El "Checkbox" [At "id" (VStr "any-difficulty-checkbox"); At "checked" (VBool (anyDifficulty c));
                              On "onCheckedChange" (fun v => CheckAnyDifficulty (checked_of v))] [];
               El "FieldContent" [] [El "FieldLabel" [At "htmlFor" (VStr "any-difficulty-checkbox")]
                 [txt "Any Difficulty: "; num_txt (anyDifficultyCount c)]]]];
             IncDecButtons ClickAnyDecrement ClickAnyIncrement false]]).

Definition list_field (id : string) (checked : bool) (onChange : bool -> FormEvent) (label : string)
    (description : list (View FormEvent)) : View FormEvent :=
  El "Field" [] [
    El "Checkbox" [At "id" (VStr id); At "checked" (VBool checked); On "onCheckedChange" (fun v => onChange (checked_of v))] [];
    El "FieldContent" [] [El "FieldLabel" [At "htmlFor" (VStr id)] [txt label]; El "FieldDescription" [] description]].

Definition ProblemListSection (c : Choice) : View FormEvent :=
  El "FieldGroup" [] [
    list_field "blind75-checkbox" (blind75 c) CheckBlind75 "Select problems from the Blind 75"
      [txt "The best practice questions to prepare for algorithmic coding interviews"];
    list_field "neetcode150-checkbox" (neetcode150 c) CheckNeetcode150 "Select problems from the Neetcode 150"
      [txt "Problems sourced from"; txt " ";
       El "a" [At "href" (VStr "https://neetcode.io/"); At "target" (VStr "_blank"); At "rel" (VStr "noopener noreferrer")]
         [txt "neetcode.io"]];
    list_field "exclude-paid-checkbox" (excludePaid c) CheckExcludePaid "Exclude paid problems"
      [txt "Skip LeetCode Premium problems, which need a subscription to open"]].

(** [selected.length ? '' : text] *)
Definition unless_selected (selected : list string) (text : string) : string :=
  if length selected =? 0 then text else "".

(** [{item}{typeof topicCounts[item] === 'number' ? ... : ''}] *)
Definition topic_entry_text (c : Choice) (item : Val) : list (View FormEvent) :=
  [Text item;
   txt match list_find (fun kv => kv.1 = to_str item) (topicCounts c) with
       | Some (_, (_, Fin n)) => " (" +:+ z_str n +:+ ")"
       | Some (_, (_, NaN)) => " (NaN)"
       | None => ""
       end].

Definition TopicSelectSection (c : Choice) : View FormEvent :=
  Chips (map (fun item => (item, topic_entry_text c item)) (topics c)) (selectedTopics c) "No topics found."
    (unless_selected (selectedTopics c) "e.g. Array, Dynamic Programming...") [] SelectTopics.

Definition CompanySelectSection (c : Choice) : View FormEvent :=
  div [Chips (map (fun item => (item, [Text item])) (companies c)) (selectedCompanies c) "No companies found."
         (unless_selected (selectedCompanies c) "e.g. Google, Amazon...") [] SelectCompanies;
       div [div [
         El "Checkbox" [At "checked" (VBool (recentlyAsked c)); At "disabled" (VBool (negb (hasCompanySelected c)));
                        On "onCheckedChange" (fun v => CheckRecentlyAsked (checked_of v))] [];
         El "Label" [Class (if hasCompanySelected c then "cursor-pointer" else "cursor-not-allowed opacity-50");
                     onClick ClickRecentlyAskedLabel] [txt "Recently asked"]]]].

(** ** filter-problems-tab.tsx *)

Definition AccordionItem (value : string) (trigger content : list (View FormEvent)) : View FormEvent :=
  El "AccordionItem" [At "value" (VStr value)] [El "AccordionTrigger" [] trigger; El "AccordionContent" [] content].

Definition heading (title : string) (note : list (View FormEvent)) : list (View FormEvent) :=
  [span [txt title; span note]].

(** [draws] are the random numbers of the code a click will draw. *)
Definition FilterProblemsTab (draws : nat -> nat) (t : FilterTab) : View FormEvent :=
  let c := choice t in
  El "" [] ([
    El "Accordion" [At "type" (VStr "single"); At "value" (VStr (nth (currentStep t) SECTIONS ""));
                    On "onValueChange" (fun v => OpenSection (to_str v))]
      [AccordionItem "problems"
         (heading "Number of Problems" [num_txt (requestedTotal c); txt " problem"; txt (plural (requestedTotal c))])
         [ProblemCountSection c];
       AccordionItem "lists" [txt "Pick from a list"] [ProblemListSection c];
       AccordionItem "topics" [txt "Select topics"] [TopicSelectSection c];
       AccordionItem "companies" [txt "Select Companies"] [CompanySelectSection c];
       AccordionItem "duration" (heading "Duration" [num_txt (duration c); txt " minutes"])
         [DurationPicker (duration c) MoveDuration]]] ++
    FormErrorMessage (formError c) DismissError ++
    [div [Button [onClick ClickReset] [txt "Reset"];
          Button [onClick (ClickPrimary draws); At "disabled" (VBool (primary_disabled t))] [txt (primary_label t)]]] ++
    match shortage_message t with Some m => [p_ [txt m]] | None => [] end).

(** ** choose-problems-tab.tsx *)

Definition RENDERED_MATCHES : Z := 50.

Definition ChooseProblemsTab (draws : nat -> nat) (p : Picker.Picker) : Res (View Picker.PickEvent) :=
  names ← Picker.problemNames p;
  Ok (div ([
    div [div ([
      div [El "Label" [] [txt "Pick your problems"];
           span [num_txt (Z.of_nat (length (Picker.selectedProblems p))); txt "/"; num_txt (Z.of_nat Picker.MAX_CHOSEN_PROBLEMS)]];
      Chips (map (fun item => (item, [Text item])) names) (Picker.selectedProblems p) "No problems found."
        (Picker.placeholder p) [At "limit" (VNum RENDERED_MATCHES)] Picker.Select] ++
      only (Picker.atLimit p)
        [p_ [txt "That's the max of "; num_txt (Z.of_nat Picker.MAX_CHOSEN_PROBLEMS); txt " problems - remove one to swap it out."]]);
      DurationPicker (Picker.duration p) Picker.SetDuration]] ++
    FormErrorMessage (Picker.formError p) Picker.Dismiss ++
    [div [Button [onClick Picker.ClickReset] [txt "Reset"];
          Button [onClick (Picker.ClickCreate draws); At "disabled" (VBool (Picker.create_disabled p))]
            [txt (Picker.create_label p)]]])).

(** ** create-room-page.tsx *)

(** What its handlers do: leave, switch the filter of the chat, choose a tab, or a tab's own event. *)
Inductive CreatePageEvent :=
| Cancel
| SetProfanityFilter (b : bool)
| ShowTabOf (value : string)
| Filtering (ev : FormEvent)
| Picking (ev : Picker.PickEvent).

Definition decorative {E} : View E := div [div []; div []].

(** [tab] is the value of the [Tabs], ["filter"] at first; only its content is mounted. *)
Definition CreateRoomPage (draws : nat -> nat) (profanityFilter : bool) (tab : string) (t : FilterTab) (p : Picker.Picker) :
    Res (View CreatePageEvent) :=
  content ← (if String.eqb tab "filter" then Ok (map_view Filtering (FilterProblemsTab draws t))
             else v ← ChooseProblemsTab draws p; Ok (map_view Picking v));
  Ok (div [decorative;
    div [
      div [El "h2" [] [txt "Create a Room"];
           Button [onClick Cancel; At "aria-label" (VStr "Cancel"); At "title" (VStr "Cancel")] [El "X" [] []]];
      div [div [span [txt "Profanity filter"]; span [txt "Block chat messages that contain profanity"]];
           NotificationToggle profanityFilter false "Profanity filter" SetProfanityFilter];
      El "Tabs" [At "defaultValue" (VStr "filter"); On "onValueChange" (fun v => ShowTabOf (to_str v))]
        [El "TabsList" [] [El "TabsTrigger" [At "value" (VStr "filter")] [txt "Filter"];
                           El "TabsTrigger" [At "value" (VStr "choose")] [txt "Choose"]];
         El "TabsContent" [At "value" (VStr tab)] [content]]]]).

(** ** room-choice-page.tsx *)

(** Opening the create page first clears the error. *)
Inductive ChoicePageEvent := OpenCreate | Joining (ev : Join.JoinEvent) | KeyIgnored.

Definition RoomChoice (f : Join.JoinForm) : View ChoicePageEvent :=
  div [decorative;
    div [El "h1" [] [txt "Create a room or join one"];
      div ([
        Button [onClick OpenCreate] [p_ [txt "Create"]; El "FontAwesomeIcon" [At "icon" (VStr "faPlus")] []];
        div [
          El "input" [At "value" (VStr (Join.joinCode f)); At "placeholder" (VStr "Enter room code");
                      On "onChange" (fun v => Joining (Join.TypeCode (to_str v)));
                      On "onKeyDown" (fun key => if is_str key "Enter" && negb (Join.isSubmittingJoin f)
                                                 then Joining Join.PressEnter else KeyIgnored)] [];
          Button [onClick (Joining Join.ClickJoin); At "disabled" (VBool (Join.isSubmittingJoin f))]
            [p_ [txt (Join.join_label f)]; El "FontAwesomeIcon" [At "icon" (VStr "faDoorOpen")] []]]] ++
        FormErrorMessage (Join.formError f) (Joining Join.Dismiss))]].

(** [onJoin] is [joinRoom]. *)
Definition StartPage (f : Join.JoinForm) : View ChoicePageEvent := RoomChoice f.

(** ** login-page.tsx *)

Inductive LoginPageEvent := SignIn (provider : string).

Definition LoginPage (browser : Val) : View LoginPageEvent :=
  div [decorative;
    div [
      div [div [svg]; div [El "h1" [] [txt "Binary Search Gang"]; p_ [txt "Collaborative LeetCode"]]];
      div [div []; div []; div []];
      div (only (is_str browser "Brave")
             [div [svg; p_ [span [txt "Turn off Shields"];
                            txt " for this site. Brave blocks the Google login popup. Use the lion icon in the address bar."]]] ++
           [Button [onClick (SignIn "google")] [svg; txt "Sign in with Google"]])]].

(** ** defaultPopup.tsx *)

Inductive PopupEvent := RedirectToLeetCode.

Definition TrophyIcon {E} : View E := svg.

(** [isOnLeetCode] is [null] until the tab was queried. *)
Definition DefaultPopup (isOnLeetCode : option bool) : View PopupEvent :=
  div [decorative;
    div [El "style" [] []; svg;
      div ([div [TrophyIcon]; p_ [txt "BSG"]] ++
        if default false isOnLeetCode
        then [p_ [txt "You are on LeetCode. Go to a problem to open up the side panel!"]]
        else [p_ [txt "You are not on LeetCode. Once you go to the website you can open up the side panel to start solving!"];
              Button [onClick RedirectToLeetCode] [txt "Go to LeetCode"]])]].

(** ** The form on the screen *)

Section screen.
Context `{WidgetLaws} (base : string).
Implicit Types (t : FilterTab) (e : FormEvent).

(** What reaches the tab without the user. *)
Definition background e : bool :=
  match e with
  | CountTimeout | CountAnswered _ | CreateSettled _ _ | TopicsLoaded _ _ _ | CompaniesLoaded _ _ | ShowTab => true
  | _ => false
  end.

(** A step of the rendered tab: the user operates something that is on the screen
    and not disabled, or an event of the background. *)
Inductive tab_happens : FilterTab -> FilterTab -> Prop :=
| by_user draws t e : offers (FilterProblemsTab draws t) e -> tab_happens t (form_step base e t)
| by_itself t e : background e = true -> tab_happens t (form_step base e t).

Definition reports_ok (tag : string) (attrs : list (Attr FormEvent)) (h : Val -> FormEvent) : Prop :=
  forall x, emits tag attrs x -> event_ok (h x).

Lemma chips_ok items value empty placeholder (f : list string -> FormEvent) :
  (forall l, event_ok (f l)) -> Forall (fun i => Forall (all_handlers reports_ok) i.2) items ->
  all_handlers reports_ok (Chips items value empty placeholder [] f).
Proof.
  intros Hf Hi. unfold Chips. cbn [app]. all_handlers_tac.
  - intros x _. apply Hf.
  - apply Forall_fmap, Forall_true. intros v. cbn. all_handlers_tac.
  - apply Forall_fmap. eapply Forall_impl; [exact Hi|]. intros i Hi'. cbn. by all_handlers_tac.
Qed.

Lemma picker_ok z : all_handlers reports_ok (DurationPicker z MoveDuration).
Proof.
  unfold DurationPicker. all_handlers_tac. intros x Hx.
  destruct (slider_emits _ _ _ Hx) as (v & lo & hi & st & Hlo & Hhi & Hst & -> & Hr & Hm).
  cbv in Hlo, Hhi, Hst. injection Hlo as <-. injection Hhi as <-. injection Hst as <-.
  unfold event_ok, slider_value, first_num, MIN_DURATION, MAX_DURATION, STEP. split; [lia|].
  rewrite <- (Z.sub_add 5 v), <- Z.add_mod_idemp_l, Hm; [done|lia].
Qed.
Lemma error_ok m : Forall (all_handlers reports_ok) (FormErrorMessage m DismissError).
Proof. destruct m as [[]|]; cbn; all_handlers_tac; by intros x. Qed.

(** Every handler of the rendered tab dispatches an event the form is made for. *)
Lemma tab_handlers draws t : all_handlers reports_ok (FilterProblemsTab draws t).
Proof.
  unfold FilterProblemsTab, ProblemCountSection, ProblemListSection, TopicSelectSection, CompanySelectSection,
    AccordionItem, list_field, heading, IncDecButtons, NumberOfProblemsWithDifficultyLabel. cbn [map app].
  all_handlers_tac; try (intros x _; exact I).
  - apply chips_ok; [done|]. apply Forall_fmap, Forall_true. intros i. cbn [snd compose]. try unfold topic_entry_text. all_handlers_tac.
  - apply chips_ok; [done|]. apply Forall_fmap, Forall_true. intros i. cbn [snd compose]. try unfold topic_entry_text. all_handlers_tac.
  - apply picker_ok.
  - apply error_ok.
  - destruct (shortage_message t); all_handlers_tac.
Qed.

Lemma background_ok e : background e = true -> event_ok e.
Proof. by destruct e. Qed.

(** A run of the screen is a run of the machine over accepted events. *)
Lemma screen_run t : rtc tab_happens tab_init t -> exists evs, Forall event_ok evs /\ t = form_run base evs tab_init.
Proof.
  revert t. apply (rtc_ind_r (fun t => exists evs, Forall event_ok evs /\ t = form_run base evs tab_init)); [by exists []|].
  intros t1 t2 _ Hs (evs & Hevs & ->).
  assert (He : exists e, event_ok e /\ t2 = form_step base e (form_run base evs tab_init)).
  { destruct Hs as [draws t e Ho|t e He]; exists e; (split; [|done]); [|by apply background_ok].
    destruct (offers_handler _ _ _ (tab_handlers draws t) Ho) as (tag & attrs & h & x & Hq & Hx & ->). by apply Hq. }
  destruct He as (e & He & ->). exists (evs ++ [e]). split; [by apply Forall_app_2; [|constructor]|].
  unfold form_run. by rewrite foldl_app.
Qed.
End screen.

(** *** Finding the primary button *)

Lemma unnamed_chips {E} l items value empty placeholder (f : list string -> E) :
  Forall (fun i => Forall (fun v => forall tip, controls_in tip v = []) i.2) items ->
  String.eqb l empty = false -> unnamed l (Chips items value empty placeholder [] f).
Proof.
  intros Hi Hl. unfold unnamed. destruct (chips_controls [] items value empty placeholder f Hi) as (attrs & Ha & ->).
  constructor; [|constructor]. unfold named. cbn -[attr]. rewrite Ha.
  destruct value as [|v value]; cbn; rewrite ?Hl; [done|]. by destruct value; rewrite ?andb_false_r.
Qed.

(** The primary button's text is not another control's. *)
Lemma label_distinct t s : s ∈ ["Recently asked"; "x"; "Dismiss error"; "Reset"; "No topics found."; "No companies found."; "Number of Problems"] ->
  String.eqb (primary_label t) s = false.
Proof.
  unfold primary_label. intros Hs.
  destruct (isSubmittingCreate (choice t)), (isLoadingFilter (counting t)), (showCreateLabel t);
    repeat (apply elem_of_cons in Hs as [->|Hs]; [by vm_compute|]); by apply not_elem_of_nil in Hs.
Qed.

Section named.
Context (t : FilterTab).
Let l := primary_label t.
Let Hl := label_distinct t.

Ltac unnamed_tac :=
  repeat first
    [ lazymatch goal with
      | |- Forall _ [] => apply Forall_nil_2
      | |- Forall _ (_ :: _) => apply Forall_cons_2
      | |- unnamed _ (Text _) => apply Forall_nil_2
      | |- unnamed _ (El _ ?a _) => apply unnamed_el; [discriminate|first [left; reflexivity|right; split]|]
      end
    | reflexivity
    | progress unfold div, span, p_, txt, num_txt, svg, Button, onClick ].

Lemma problems_unnamed : unnamed l (ProblemCountSection (choice t)).
Proof.
  unfold ProblemCountSection, IncDecButtons, NumberOfProblemsWithDifficultyLabel. cbn [map app]. unnamed_tac.
Qed.

Lemma lists_unnamed : unnamed l (ProblemListSection (choice t)).
Proof. unfold ProblemListSection, list_field. unnamed_tac. Qed.

Lemma topics_unnamed : unnamed l (TopicSelectSection (choice t)).
Proof.
  unfold TopicSelectSection. apply unnamed_chips; [|by apply Hl; set_solver].
  apply Forall_fmap, Forall_true. intros i. by repeat constructor.
Qed.

Lemma companies_unnamed : unnamed l (CompanySelectSection (choice t)).
Proof.
  unfold CompanySelectSection. unnamed_tac.
  - apply unnamed_chips; [|by apply Hl; set_solver]. apply Forall_fmap, Forall_true. intros i. by repeat constructor.
  - cbn. by rewrite Hl by set_solver.
Qed.

Lemma duration_unnamed : unnamed l (DurationPicker (duration (choice t)) MoveDuration).
Proof. unfold DurationPicker. unnamed_tac. Qed.

Lemma errors_unnamed m : Forall (unnamed l) (FormErrorMessage m DismissError).
Proof.
  destruct m as [[|a m]|]; cbn [FormErrorMessage]; unnamed_tac.
  - change (String.eqb (primary_label t) "x" && true = false). by rewrite Hl by set_solver.
  - change (String.eqb (primary_label t) "Dismiss error" && true = false). by rewrite Hl by set_solver.
Qed.

(** A click on the button under the form, found by its text. *)
Lemma primary_click draws : click [l] (FilterProblemsTab draws t) =
  if primary_disabled t then None else Some (ClickPrimary draws).
Proof.
  unfold click, controls, FilterProblemsTab.
  change (controls_in [] (El "" [] ?cs)) with (flat_map (controls_in []) cs).
  rewrite flat_map_app, unnamed_find; cycle 1.
  { apply Forall_cons_2; [|apply Forall_nil_2]. unfold AccordionItem, heading. unnamed_tac.
    - change (String.eqb (primary_label t) "Number of Problems" && false = false). by rewrite andb_false_r.
    - apply problems_unnamed.
    - apply lists_unnamed.
    - apply topics_unnamed.
    - apply companies_unnamed.
    - apply duration_unnamed. }
  rewrite flat_map_app, unnamed_find by apply errors_unnamed.
  rewrite flat_map_app. unfold div, Button, onClick, txt, p_. view_simpl. subst l.
  unfold named, attr. view_simpl. rewrite Hl, String.eqb_refl by set_solver. cbn. unfold operate, operable, handler_of, attr. view_simpl.
  by destruct (primary_disabled t).
Qed.
End named.

(** ** Pressing the button *)

(** A user who sees the button under the form and clicks it. *)
Definition press (base : string) (draws : nat -> nat) (t : FilterTab) : FilterTab :=
  match click [primary_label t] (FilterProblemsTab draws t) with
  | Some e => form_step base e t
  | None => t
  end.

(** Nothing is under way, and the pool last counted is enough. *)
Definition ready_to_create (t : FilterTab) : Prop :=
  isSubmittingCreate (choice t) = false /\ isLoadingFilter (counting t) = false /\ notEnoughProblems t = false.

Lemma press_eq base draws t : ready_to_create t ->
  press base draws t =
    if showCreateLabel t
    then mkFilterTab (setIsSubmittingCreate (setFormError (choice t) None) true) (counting t) (currentStep t)
           (firstStepTouched t) (submitted t ++ [(random_code draws, roomSettings (choice t))]) (mounts t)
    else set_step (Nat.min (currentStep t + 1) LAST_STEP) t.
Proof.
  intros (H1 & H2 & H3). unfold press. rewrite primary_click.
  assert (Hd : primary_disabled t = false) by (unfold primary_disabled; by rewrite H1, H2, H3, andb_false_r).
  rewrite Hd. cbn [form_step]. by rewrite Hd.
Qed.

(** The steps of the wizard that are still ahead. *)
Definition steps_left (t : FilterTab) : nat := if showCreateLabel t then 0 else LAST_STEP - currentStep t.

Lemma presses base draws n t : ready_to_create t -> currentStep t <= LAST_STEP -> steps_left t = n ->
  (forall k, k <= n -> submitted (Nat.iter k (press base draws) t) = submitted t) /\
  submitted (Nat.iter (S n) (press base draws) t) = submitted t ++ [(random_code draws, roomSettings (choice t))].
Proof.
  revert t. induction n as [|n IH]; intros t Ht Hs Hn.
  - assert (Hc : showCreateLabel t = true).
    { unfold steps_left in Hn. destruct (showCreateLabel t) eqn:E; [done|]. unfold showCreateLabel, isLastStep in E.
      apply orb_false_iff in E as [_ E]. apply Nat.eqb_neq in E. lia. }
    split; [by intros [|k] Hk; [|lia]|]. cbn. by rewrite press_eq, Hc.
  - unfold steps_left in Hn. destruct (showCreateLabel t) eqn:Hc; [done|].
    set (t' := press base draws t).
    assert (Et : t' = set_step (S (currentStep t)) t).
    { unfold t'. rewrite press_eq, Hc by done. f_equal. lia. }
    assert (Hn' : steps_left t' = n).
    { rewrite Et. unfold steps_left, showCreateLabel, isLastStep; cbn [currentStep set_step firstStepTouched].
      assert (HL : LAST_STEP = 4) by done. rewrite HL in *. destruct (currentStep t =? 3) eqn:E; [apply Nat.eqb_eq in E; rewrite E in *; cbn; lia|].
      apply Nat.eqb_neq in E. destruct (S (currentStep t) =? 4) eqn:E2; [apply Nat.eqb_eq in E2; lia|cbn; lia]. }
    assert (Hr : ready_to_create t').
    { rewrite Et. destruct Ht as (H1 & H2 & H3). repeat split; done. }
    destruct (IH t' Hr) as [H1 H2]; [rewrite Et; change (S (currentStep t) <= LAST_STEP); lia|done|].
    assert (Hsub : submitted t' = submitted t) by (by rewrite Et).
    assert (Hch : choice t' = choice t) by (by rewrite Et).
    split.
    + intros [|k] Hk; [done|]. rewrite Nat.iter_succ_r. fold t'. rewrite H1 by lia. done.
    + rewrite Nat.iter_succ_r. fold t'. by rewrite H2, Hsub, Hch.
Qed.

(** ** Properties *)

(** C26: the form on the screen stays well-formed.  Whatever the user operates of what is rendered and not
    disabled, and whenever counts, loaders and submissions come back or the tab is shown anew, the form
    asks for a round the service can create: the total that guards the buttons is the sum of the three
    counts, none of them is negative, between 1 and 10 problems are requested in either mode, the duration
    is a value of the slider, no difficulty is left out of the count unless any is accepted,
    "recently asked" is never on without a company, and the counting effect is at the filters the form shows. *)
Theorem screen_keeps_form `{WidgetLaws} (base : string) (t : FilterTab) :
  rtc (tab_happens base) tab_init t ->
  let c := choice t in
  total c = (numberOfEasyProblems c + numberOfMediumProblems c + numberOfHardProblems c)%Z /\
  (0 <= numberOfEasyProblems c /\ 0 <= numberOfMediumProblems c /\ 0 <= numberOfHardProblems c)%Z /\
  (1 <= total c <= 10)%Z /\ (1 <= requestedTotal c <= 10)%Z /\ slider_value (duration c) /\
  (activeDifficulties c = "" <-> anyDifficulty c = true) /\
  (recentlyAsked c = true -> selectedCompanies c <> []) /\
  currentStep t <= LAST_STEP /\
  cn_filters (counting t) = filters_of c /\
  exists cevs, counting t = count_run base cevs (count_init (filters_of choiceInit)).
Proof. intros (evs & Hevs & ->)%screen_run. by apply form_invariant. Qed.

(** C35: a room is at most five clicks away.  From any state of the form on the screen, while no call or count is
    under way and the pool last counted is large enough: a user who keeps clicking the button under the form, found by the
    text it has at the time, goes through the steps that are left, during which nothing is
    requested, and then calls [createRoom] once, with the form as it was when the user began. *)
Theorem five_clicks_create `{WidgetLaws} (base : string) (draws : nat -> nat) (t : FilterTab) :
  rtc (tab_happens base) tab_init t -> ready_to_create t ->
  exists n, n < 5 /\
    (forall k, k <= n -> submitted (Nat.iter k (press base draws) t) = submitted t) /\
    submitted (Nat.iter (S n) (press base draws) t) = submitted t ++ [(random_code draws, roomSettings (choice t))].
Proof.
  intros (evs & Hevs & ->)%screen_run Hr. set (t := form_run base evs tab_init) in *.
  exists (steps_left t). split; [unfold steps_left, LAST_STEP, SECTIONS; destruct (showCreateLabel t); cbn; lia|].
  apply presses; [done| |done]. apply (ok_step base). by apply form_run_ok.
Qed.

(** The control at a position, operated. *)
Lemma operate_at draws t i c name h x :
  controls (FilterProblemsTab draws t) !! i = Some c -> operable c = true -> On name h ∈ c_attrs c ->
  emits (c_tag c) (c_attrs c) x -> tab_happens "" t (form_step "" (h x) t).
Proof. intros Hi Ho Hh Hx. apply (by_user "" draws). apply (operated _ c name h x); try done. by eapply list_elem_of_lookup_2. Qed.

Lemma moved_slider : rtc (tab_happens "") tab_init (form_step "" (MoveDuration 45) tab_init).
Proof.
  apply rtc_once. apply (operate_at (fun _ => 0) tab_init 17 _ "onValueChange" (fun v => MoveDuration (first_num v)) (VArr [VNum 45])
    eq_refl eq_refl).
  - cbn. set_solver.
  - intros _. exists 45%Z, 5%Z, 120%Z, 5%Z. repeat split; lia.
Qed.

Lemma screen_keeps_form_witness :
  let t := form_step "" (MoveDuration 45) tab_init in
  duration (choice t) = 45%Z /\ slider_value (duration (choice t)).
Proof.
  split; [reflexivity|]. apply (screen_keeps_form "" (form_step "" (MoveDuration 45) tab_init) moved_slider).
Defined.

Lemma one_more_counted :
  rtc (tab_happens "") tab_init (form_run "" [ClickIncrement Hard; CountTimeout; CountAnswered (count_reply 9)] tab_init).
Proof.
  eapply rtc_l; [apply (operate_at (fun _ => 0) tab_init 6 _ "onClick" (fun _ => ClickIncrement Hard) VUndef eq_refl eq_refl);
    [cbn; set_solver|done]|].
  eapply rtc_l; [by apply (by_itself "" _ CountTimeout)|]. eapply rtc_l; [by apply (by_itself "" _ (CountAnswered (count_reply 9)))|].
  apply rtc_refl.
Qed.

Lemma five_clicks_create_witness :
  let t := form_run "" [ClickIncrement Hard; CountTimeout; CountAnswered (count_reply 9)] tab_init in
  exists n, n < 5 /\
    (forall k, k <= n -> submitted (Nat.iter k (press "" (fun _ => 0)) t) = submitted t) /\
    submitted (Nat.iter (S n) (press "" (fun _ => 0)) t) = submitted t ++ [(random_code (fun _ => 0), roomSettings (choice t))].
Proof.
  exact (five_clicks_create "" (fun _ => 0) _ one_more_counted (conj eq_refl (conj eq_refl eq_refl))).
Defined.
