(* ===== verification/RoomViews.v ===== *)
(** * The room as it is rendered

    [pages/room-page.tsx] with the displays of [customComponents/RoomDisplays]:
    participants, chat, leaderboard, statistics and settings.  Each display is a
    function from the state of its hooks to a [View]; it throws where the render
    of the source does. *)

From S2P Require Export View Leaderboard Statistics Settings Panel.
From Stdlib Require Import Ascii.

(** ** RoomInfoDisplay.tsx *)

Definition HoverCardContent {E} (children : list (View E)) : View E := El "TooltipContent" [] children.

Definition RoomInfoDisplay {E} (isActive : bool) (s : RoomState) : View E :=
  El "div" [hidden_unless isActive]
    (div [txt "Participants"] ::
     map (fun user =>
       El "HoverCard" [] [
         El "HoverCardTrigger" [] [Button [] [
           div ([El "img" [At "src" (VStr (photo user))] []; txt (name user)] ++
                only (bool_decide (adminId s = Some (id user))) [svg]);
           El "div" [Class "bg-green-500"] []]];
         HoverCardContent []]) (participants s)).

(** ** ChatDisplay.tsx *)

Inductive ChatAct :=
| TypeText (newText : string)
| PressKey (key : Val) (shiftKey : bool)
| SendMessage
| JumpToBottom
| ToggleEmojis
| TypeEmojiSearch (s : string)
| ScrollTo (category : string)
| InsertEmoji (emoji : string)
| DismissToast.

Definition emojiCategories : list (string * string) :=
  [("people", "People"); ("nature", "Nature"); ("food", "Food"); ("activities", "Activities"); ("travel", "Travel");
   ("objects", "Objects"); ("symbols", "Symbols"); ("flags", "Flags")].

(** The corners of a bubble next to its neighbours of the group are less round. *)
Definition own_bubble (n j : nat) (msg : Message) : View ChatAct :=
  El "div" [Class (if j =? 0 then "" else "rounded-tr-sm"); Class (if j =? n - 1 then "" else "rounded-br-sm")] [Text (m_data msg)].
Definition other_bubble (n j : nat) (msg : Message) : View ChatAct :=
  El "div" [Class (if j =? n - 1 then "" else "rounded-bl-sm")] [Text (m_data msg)].

Definition group_view (uid : option string) (group : list Message) : Res (View ChatAct) :=
  match group with
  | [] => Throw type_error
  | m0 :: _ =>
      Ok (if isSystem m0 then div [Text (m_data m0)]
          else if eq_opt (userHandle m0) uid then div (imap (own_bubble (length group)) group)
          else div [div [El "img" [At "src" (userPhoto m0); At "alt" (userName m0)] []; Text (userName m0)];
                    div (imap (other_bubble (length group)) group)])
  end.

Definition emoji_button (e : Emoji) : View ChatAct := Button [onClick (InsertEmoji (emoji e))] [txt (emoji e)].

Section chat_display.
Context (emojiMap : list (string * list Emoji)).

(** [emojiMap[category.key].map] *)
Definition category_view (category : string * string) : Res (View ChatAct) :=
  match list_find (fun kv => kv.1 = category.1) emojiMap with
  | Some (_, (_, emojis)) => Ok (div [div [txt category.2; div []]; div (map emoji_button emojis)])
  | None => Throw type_error
  end.

Definition category_button (category : string * string) : View ChatAct :=
  TooltipWrapper category.2 [] (Button [onClick (ScrollTo category.1)] [svg]).

Definition ChatDisplay (isActive displayEmojis : bool) (uid : option string) (c : Chat) : Res (View ChatAct) :=
  groups ← res_map (group_view uid) (groupedMessages (c_messages c));
  categories ← res_map category_view emojiCategories;
  let searching := negb (String.eqb (c_emojiSearch c) "") in
  Ok (El "div" [hidden_unless isActive] (Toast (c_toast c) DismissToast ++ [
    div [
      div groups;
      div [div (
        only (c_showJump c) [TooltipWrapper "Jump to bottom" [] (Button [onClick JumpToBottom] [svg])] ++ [
        div [
          El "textarea" [At "placeholder" (VStr "Type a message"); At "value" (VStr (c_inputText c));
                         On "onChange" (fun v => TypeText (to_str v));
                         On "onKeyDown" (fun e => PressKey (prop e "key") (truthy (prop e "shiftKey")))] [];
          div [
            El "div" [Class (if c_atLimit c then "text-red-500" else "text-foreground/60")]
              [num_txt (Z.of_nat (String.length (c_inputText c))); txt "/"; num_txt (Z.of_nat MAX_CHARS)];
            div [TooltipWrapper "Emojis" [] (Button [onClick ToggleEmojis] [svg]);
                 TooltipWrapper "Send Message" [] (Button [onClick SendMessage] [svg])]]];
        div [txt "Please note all chat messages are monitored."]])]];
    El "div" [Class (if displayEmojis then "h-[10.25rem]" else "h-0")] [
      div [svg; El "input" [At "placeholder" (VStr "Find an emoji"); At "value" (VStr (c_emojiSearch c));
                            On "onChange" (fun v => TypeEmojiSearch (to_str v))] []];
      div [
        div (TooltipWrapper "Recent" [] (Button [onClick (ScrollTo "recent")] [svg]) :: map category_button emojiCategories);
        El "div" [Class (if searching then "hidden" else "")] categories;
        El "div" [Class (if searching then "" else "hidden")]
          [div (map (fun e => emoji_button e.2) (emojiSearchResults emojiMap (c_emojiSearch c)))]]]])).
End chat_display.

(** What the handlers of the display do; the key's default is prevented when it sends. *)
Definition chat_act `{JsonCodec} (a : ChatAct) (displayEmojis : bool) : CH bool :=
  match a with
  | TypeText s => handleChange s ;; mret displayEmojis
  | PressKey key shift => when (is_str key "Enter" && negb shift) handleSubmit ;; mret displayEmojis
  | SendMessage => handleSubmit ;; mret displayEmojis
  | JumpToBottom => jumpToBottom ;; mret displayEmojis
  | ToggleEmojis => mret (negb displayEmojis)
  | TypeEmojiSearch s => on_chat (fun c => setEmojiSearch c s) ;; mret displayEmojis
  | ScrollTo k => scrollToCategory k ;; mret displayEmojis
  | InsertEmoji e => insertEmoji e ;; mret displayEmojis
  | DismissToast => dismissToast ;; mret displayEmojis
  end.

(** ** LeaderboardDisplay.tsx *)

(** [parseInt(s, 16)] *)
Definition hex_digit (a : Ascii.ascii) : option Z :=
  let n := Z.of_nat (Ascii.nat_of_ascii a) in
  if ((48 <=? n) && (n <=? 57))%Z then Some (n - 48)%Z
  else if ((97 <=? n) && (n <=? 102))%Z then Some (n - 87)%Z
  else if ((65 <=? n) && (n <=? 70))%Z then Some (n - 55)%Z
  else None.
Fixpoint parse_hex (acc : option Z) (s : string) : option Z :=
  match s with
  | String a s' => match hex_digit a with Some d => parse_hex (Some (16 * default 0 acc + d)%Z) s' | None => acc end
  | EmptyString => acc
  end.
Definition hex_str (s : string) : string := match parse_hex None s with Some z => z_str z | None => "NaN" end.

(** [s.replace("#", "")] *)
Fixpoint drop_hash (s : string) : string :=
  match s with
  | String a s' => if Ascii.eqb a "#"%char then s' else String a (drop_hash s')
  | EmptyString => ""
  end.

Definition hexToRgb (hex : string) : string :=
  let clean := str_take 6 (drop_hash hex) in
  let r := hex_str (str_take 2 clean) in
  let g := hex_str (str_take 2 (str_drop 2 clean)) in
  let b := hex_str (str_take 2 (str_drop 4 clean)) in
  r +:+ "," +:+ g +:+ "," +:+ b.

Inductive AvatarSize := sm | md | lg.
Definition sizeMap (s : AvatarSize) : string :=
  match s with lg => "w-14 h-14 text-2xl" | md => "w-10 h-10 text-lg" | sm => "w-7 h-7 text-sm" end.

(** The opacities are the texts the numbers have in a template. *)
Record PodiumSlot := mkSlot {
  rank : nat;
  columnOrder : nat;
  podiumHeight : string;
  avatarSize : AvatarSize;
  rankTextSize : string;
  glowOpacity : string;
  borderOpacity : string;
  topRoofOpacity : string;
  showTrophy : bool;
  color : option string;
  podiumBackground : option string;
}.

Definition SLOTS : list PodiumSlot := [
  mkSlot 2 0 "h-[160px]" md "text-3xl" "0.3" "0.3" "0.4" false (Some "#72ab1c")
    (Some "linear-gradient(to bottom, rgba(58,85,24,0.6), rgba(42,61,18,0.8), rgba(30,42,13,0.9))");
  mkSlot 1 1 "h-[200px]" lg "text-4xl" "0.8" "0.9" "0.9" true (Some "#587f28ff")
    (Some "linear-gradient(to bottom, rgba(88, 127, 40, 1), rgba(50, 87, 24, 0.8), rgba(30,42,13,0.9))");
  mkSlot 3 2 "h-[120px]" md "text-2xl" "0.15" "0.3" "0.3" false (Some "#93c449ff")
    (Some "linear-gradient(to bottom, rgba(50, 74, 20, 0.6), rgba(40, 61, 15, 0.8), rgba(30,42,13,0.9))")].

Section numbers.
(** [Number.prototype.toLocaleString], which depends on the browser's locale. *)
Context (toLocaleString : Z -> string).

(** [score.toLocaleString()]; on a text it is the text. *)
Definition score_text (score : Val) : Res Val :=
  match score with
  | VUndef | VNull => Throw type_error
  | VNum z => Ok (VStr (toLocaleString z))
  | v => Ok (VStr (to_str v))
  end.

(** [initials(username)] *)
Definition name_initials (username : Val) : Res string :=
  match username with
  | VUndef | VNull => Throw type_error
  | VStr s => Ok (initials s)
  | _ => Ok "?"
  end.

Definition PlayerAvatar {E} (participant : Entry) (size : AvatarSize) : Res (View E) :=
  if truthy (e_avatarUrl participant)
  then Ok (El "img" [At "src" (e_avatarUrl participant); At "alt" (e_username participant); Class (sizeMap size)] [])
  else i ← name_initials (e_username participant); Ok (El "div" [Class (sizeMap size)] [txt i]).

Definition rgba (rgb opacity : string) : Val := VStr ("rgba(" +:+ rgb +:+ "," +:+ opacity +:+ ")").
Definition border (c : string) : Val := VStr ("1px solid " +:+ c).
Definition default_background : string :=
  "linear-gradient(to bottom, rgba(58,85,24,0.6), rgba(42,61,18,0.8), rgba(30,42,13,0.9))".

Definition or_background (o : option string) : string :=
  match o with None | Some EmptyString => default_background | Some b => b end.

Definition PodiumColumn {E} (slot : PodiumSlot) (participant : option Entry) : Res (View E) :=
  match participant with
  | None => Ok (div [])
  | Some participant =>
      let rgb := hexToRgb (default "#72ab1c" (color slot)) in
      let line := border (to_str (rgba rgb (borderOpacity slot))) in
      avatar ← PlayerAvatar participant (avatarSize slot);
      points ← score_text (e_score participant);
      Ok (div [
        div ([El "div" [At "backgroundColor" (rgba rgb (glowOpacity slot))] []; div [avatar]] ++
             only (showTrophy slot) [div [svg]]);
        El "div" [Class (podiumHeight slot)] [
          El "div" [At "backgroundColor" (rgba rgb (topRoofOpacity slot))] [];
          El "div" [At "background" (VStr (or_background (podiumBackground slot)));
                    At "borderTop" line; At "borderLeft" line; At "borderRight" line] [div []];
          div [El "div" [Class (rankTextSize slot)] [num_txt (Z.of_nat (rank slot))];
               p_ [Text (e_username participant)]; p_ [Text points]]]])
  end.

Definition LeaderboardSkeleton {E} : View E :=
  div (div [div []; div []; div []] :: replicate 3 (div [])).

Definition NoRankingsYet {E} : View E :=
  div [div [div []; div [svg]]; p_ [txt "No Rankings Yet!"]; p_ [txt "Scores appear once a round starts"]; div []].

(** A row below the podium, of the player in fourth place and after. *)
Definition rank_row {E} (row : nat * Entry) : Res (View E) :=
  let '(rank, player) := row in
  avatar ← PlayerAvatar player sm;
  points ← score_text (e_score player);
  Ok (div [div [
    div [div [txt "#"; num_txt (Z.of_nat rank)]; div [avatar];
         div [p_ [Text (e_username player)]; p_ [txt "Rank "; num_txt (Z.of_nat rank)]]];
    div [p_ [Text points]; p_ [txt "pts"]]]]).

Definition LeaderboardDisplay {E} (isActive : bool) (b : Board) : Res (View E) :=
  let sorted := entries b in
  columns ← res_map (fun slot => PodiumColumn slot (byRank sorted (rank slot))) SLOTS;
  rows ← res_map rank_row (rest_rows sorted);
  Ok (El "div" [hidden_unless isActive] (
    div [El "h1" [] [txt "Leaderboard"]; p_ [txt "Current Room Rankings"]; div []] ::
    match Leaderboard.error b with
    | Some e => only (truthy e) [div [p_ [Text e]]]
    | None => []
    end ++
    only (isLoading b && (length sorted =? 0)) [LeaderboardSkeleton] ++
    only (negb (isLoading b) && (length sorted =? 0)) [NoRankingsYet] ++
    only (0 <? length sorted)
      [div [div columns; div [if 0 <? length rows then div rows else div []]]])).
End numbers.

(** ** StatisticsDisplay.tsx *)

Inductive StatsAct := SelectPlayer (idx : nat).

Definition BSG_GREEN : string := "#72ab1c".
Definition BSG_GREEN_DIM : string := "#4d7a10".
Definition difficultyColor (d : Difficulty) : string :=
  match d with Easy => "#10b981" | Medium => "#ffa500" | Hard => "#ff4d4d" end.

Definition StatCard {E} (icon : View E) (label : string) (value : Val) (dim : bool) : View E :=
  div [div []; div [El "span" [Class (if dim then "text-foreground/40" else "text-primary")] [icon]; span [txt label]];
       El "div" [Class (if dim then "text-foreground/40" else "")] [Text value]].

Definition LoadingState {E} : View E := div [El "Loader2" [] []; p_ [txt "Loading statistics…"]].
Definition EmptyState {E} : View E :=
  div [El "TrendingUp" [] []; p_ [txt "No round data yet."; El "br" [] []; txt "Stats will appear once a round starts."]].

(** The tooltip of a sector of the chart. *)
Definition PieTooltip {E} (active : bool) (payload : list (Difficulty * Z * nat)) : list (View E) :=
  match payload with
  | (diff, secs, solvedCount) :: _ =>
      only active
        [div [div [El "div" [At "backgroundColor" (VStr (difficultyColor diff))] []; span [txt (difficulty_name diff)]];
              span [txt "Time: "; num_txt (secs / 60); txt "m "; num_txt (secs mod 60); txt "s"];
              span [txt "Solved: "; num_txt (Z.of_nat solvedCount)]]]
  | [] => []
  end.

Definition dot {E} (c : string) : View E := El "div" [At "backgroundColor" (VStr c)] [].

(** [secs > 0 ? `${mins}m ${s}s` : '—'] *)
Definition time_text (secs : num) : string := if ngt secs (Fin 0) then minutes_num secs else "—".

Definition num_val (n : num) : Val := match n with Fin z => VNum z | NaN => VStr "NaN" end.

(** The bars of the chart: a shortened name and the score. *)
Definition chart_username (username : Val) : Res Val :=
  match username with
  | VUndef | VNull => Throw type_error
  | VStr s => Ok (VStr (chart_name s))
  | v => Ok v
  end.
Definition scoreChartData (participants : list Entry) : Res (list (Val * Val)) :=
  res_map (fun p => u ← chart_username (e_username p); Ok (u, e_score p)) participants.

Section statistics_display.
Context `{JsEnv} (toLocaleString : Z -> string).

Definition stat_cards {E} (st : Stats) (selected : option string) (ids : gset Z) (total : string)
    (counts : PerDifficulty (nat * nat)) : list (View E) :=
  [StatCard svg "Points" (VStr (toLocaleString (match Statistics.statistics st with Some u => score u | None => 0%Z end))) false;
   StatCard (El "CheckCircle2" [] []) "Solved"
     (match selected with Some _ => VNum (Z.of_nat (size ids)) | None => VStr "—" end)
     (match selected with Some _ => size ids =? 0 | None => true end);
   StatCard (El "Clock" [] []) "Total Time" (VStr total) (String.eqb total "—")] ++
  flat_map (fun d =>
    let '(solved, all) := per counts d in
    only (0 <? all)
      [StatCard (dot (difficultyColor d)) (difficulty_name d)
         (VStr (z_str (Z.of_nat solved) +:+ "/" +:+ z_str (Z.of_nat all))) (solved =? 0)]) difficulties.

Definition time_distribution {E} (times : PerDifficulty num) (counts : PerDifficulty (nat * nat)) : View E :=
  let pie := pieData times counts in
  div [
    div (span [txt "Time Distribution"] :: only (length pie =? 0) [span [txt "not tracked"]]);
    div [
      El "div" [] (
        if 0 <? length pie
        then [El "ResponsiveContainer" [] [El "PieChart" [] [
                El "Pie" [At "data" (VArr (map (fun '(d, v, n) => VObj [("name", VStr (difficulty_name d)); ("value", num_val v);
                            ("fill", VStr (difficultyColor d)); ("solvedCount", VNum (Z.of_nat n))]) pie))] [];
                El "Tooltip" [At "content" (VStr "PieTooltip")] []]]]
        else [svg; div [span [txt "—"]]]);
      div (map (fun d => div [dot (difficultyColor d); span [txt (difficulty_name d)]; span [txt (time_text (per times d))]])
             difficulties)]].

Definition problem_row {E} (ids : gset Z) (times : gmap Z string) (p : RoundProblem) : View E :=
  div [div [if decide (rp_id p ∈ ids) then El "CheckCircle2" [] [] else div [];
            div [span [txt (rp_name p)];
                 El "span" [At "color" (if String.eqb (rp_difficulty p) "Easy" then VStr (difficultyColor Easy)
                                        else if String.eqb (rp_difficulty p) "Medium" then VStr (difficultyColor Medium)
                                        else if String.eqb (rp_difficulty p) "Hard" then VStr (difficultyColor Hard)
                                        else VUndef)] [txt (rp_difficulty p)]]];
       div [txt (row_text ids times p)]].

Definition problem_breakdown {E} (st : Stats) (ids : gset Z) (times : gmap Z string) : View E :=
  let ps := default [] (roundDetails st ≫= rd_problems) in
  div [div [txt "Problem Breakdown"];
       div (map (problem_row ids times) ps ++ only (length ps =? 0) [div [txt "No problems found"]])].

Definition room_statistics {E} (data : list (Val * Val)) (safe : nat) : View E :=
  div [div [txt "Room Statistics"];
       div [div [div [El "ResponsiveContainer" [] [
         El "BarChart" [At "data" (VArr (map (fun '(u, s) => VObj [("username", u); ("score", s)]) data))] [
           El "CartesianGrid" [] []; El "XAxis" [At "dataKey" (VStr "username")] []; El "YAxis" [] []; El "Tooltip" [] [];
           El "Bar" [At "dataKey" (VStr "score")]
             (imap (fun i _ => El "Cell" [At "fill" (VStr (if i =? safe then BSG_GREEN else BSG_GREEN_DIM))] []) data)]]]]]].

(** The player of a tab; as a key of an object the id is a text. *)
Definition selected_player (participants : list Entry) (selectedIdx : nat) : option string :=
  (fun p => to_str (e_id p)) <$> participants !! safeIdx selectedIdx (length participants).

Definition player_tab (selectedIdx idx : nat) (p : Entry) : View StatsAct :=
  Button [onClick (SelectPlayer idx); Class (if idx =? selectedIdx then "bg-primary/20" else "bg-[#333333]")] [Text (e_username p)].

Definition StatisticsDisplay (isActive : bool) (b : Board) (st : Stats) (selectedIdx : nat) : Res (View StatsAct) :=
  let participants := entries b in
  let selected := selected_player participants selectedIdx in
  data ← scoreChartData participants;
  let '(ids, total, times) := solve_stats selected (roundDetails st) in
  let counts := diffCounts (roundDetails st) ids in
  let rowTimes := problemTimeMap selected (roundDetails st) in
  Ok (if negb isActive then El "div" [Class "hidden"] []
      else if isLoading b && (length participants =? 0) then LoadingState
      else if match Leaderboard.error b with Some e => truthy e | None => false end && (length participants =? 0) then EmptyState
      else div [
        div (imap (player_tab selectedIdx) participants);
        div [div [txt "Submission Details"; div [div [txt "Solve Time"; div [txt total]]];
                  div (stat_cards st selected ids total counts)]];
        time_distribution times counts;
        problem_breakdown st ids rowTimes;
        room_statistics data (safeIdx selectedIdx (length participants))]).
End statistics_display.

(** ** SettingsDisplay.tsx *)

Inductive SettingsAct :=
| ChangeTimer (z : Z)
| SetSounds (enabled : bool)
| PickTheme (pref : ThemePreference)
| SaveTimer
| SignOut.

Definition themes : list ThemePreference := [auto; dark; light].

Definition SettingsDisplay (isActive : bool) (s : RoomState) (prefs : SettingsState) (d : Display.Display) : View SettingsAct :=
  El "div" [hidden_unless isActive] [
    div [txt "Settings"];
    div [div [txt "Edit Timer"];
      div [match Display.timer_area s d with
           | Display.OnlyAdmin => p_ [txt "Only the room admin can change the timer."]
           | Display.BeforeRound => p_ [txt "The timer can only be edited before the round starts."]
           | Display.TimerSlider v =>
               div [El "Label" [] [txt "Timer: "; num_txt v; txt " mins"];
                    El "Slider" [At "min" (VNum Display.MIN_DURATION); At "max" (VNum Display.MAX_DURATION); At "step" (VNum 5);
                                 At "value" (VArr [VNum v]); On "onValueChange" (fun x => ChangeTimer (first_num x))] []]
           end]];
    div [div [span [txt "Chat sounds"]; span [txt "Play a sound when messages are sent or received"]];
         NotificationToggle (chatNotificationsEnabled prefs) false "Chat notifications" SetSounds];
    div [div [txt "Theme"];
         div (map (fun pref => Button [onClick (PickTheme pref);
                Class (if bool_decide (themePreference prefs = pref) then "bg-primary" else "bg-transparent")]
                [txt (Display.theme_label pref)]) themes);
         span [txt (Display.theme_note (themePreference prefs))]];
    div (only (Display.save_shown s)
           [div (only (truthy (Display.ds_error d)) [p_ [Text (Display.ds_error d)]] ++
                 only (Display.saved_shown d s) [p_ [txt "Timer updated."]] ++
                 [Button [onClick SaveTimer; At "disabled" (VBool (Display.save_disabled d s))]
                    [txt (if Display.saving d then "Saving…" else "Save")]])] ++
         [Button [onClick SignOut] [txt "Sign out"]])].

(** ** room-page.tsx *)

(** What the handlers of the page do: dismiss the notice, or what those of a display do. *)
Inductive RoomAct :=
| DismissNotice
| Chatting (a : ChatAct)
| Viewing (a : StatsAct)
| SettingUp (a : SettingsAct).

(** The state of the hooks and components of the page. *)
Record RoomScreen := mkRoomScreen {
  rs_room : RoomState;
  rs_user : UserState;
  rs_settings : SettingsState;
  rs_chat : Chat;
  rs_displayEmojis : bool;
  rs_board : Board;
  rs_stats : Stats;
  rs_selectedIdx : nat;
  rs_display : Display.Display;
}.

Section room_page.
Context `{JsEnv} (toLocaleString : Z -> string) (emojiMap : list (string * list Emoji)).

(** The display of a tab. *)
Definition display (t : TabName) (isActive : bool) (r : RoomScreen) : Res (View RoomAct) :=
  match t with
  | roomInfo => Ok (RoomInfoDisplay isActive (rs_room r))
  | chat => v ← ChatDisplay emojiMap isActive (rs_displayEmojis r) (userId (rs_user r)) (rs_chat r); Ok (map_view Chatting v)
  | leaderboard => LeaderboardDisplay toLocaleString isActive (rs_board r)
  | Stores.statistics => v ← StatisticsDisplay toLocaleString isActive (rs_board r) (rs_stats r) (rs_selectedIdx r); Ok (map_view Viewing v)
  | settings => Ok (map_view SettingUp (SettingsDisplay isActive (rs_room r) (rs_settings r) (rs_display r)))
  end.

Definition DISPLAYS : list TabName := [roomInfo; chat; leaderboard; Stores.statistics; settings].

Definition notice_view (s : RoomState) : list (View RoomAct) :=
  match roomNotice s with
  | None | Some EmptyString => []
  | Some notice => [div [div [span [txt notice]; Button [onClick DismissNotice] [txt "Dismiss"]]]]
  end.

Definition RoomPage (r : RoomScreen) : Res (View RoomAct) :=
  displays ← res_map (fun t => display t (display_active t (rs_room r)) r) DISPLAYS;
  Ok (El "" [] (notice_view (rs_room r) ++ [div displays])).
End room_page.

(** ** Lemmas *)

Section page_lemmas.
Context `{JsEnv} (toLocaleString : Z -> string) (emojiMap : list (string * list Emoji)).
Implicit Types (r : RoomScreen) (v : View RoomAct).

(** A view that cannot be seen. *)
Definition invisible {E} (v : View E) : Prop := texts v = [] /\ forall tip, controls_in tip v = [].

Lemma invisible_hidden {E} tag (attrs : list (Attr E)) cs : off_screen tag attrs = true -> invisible (El tag attrs cs).
Proof. intros Ho. split; [by apply hidden_texts|]. intros tip. by apply hidden_controls. Qed.

Lemma invisible_map {E F} (f : E -> F) (v : View E) : invisible v -> invisible (map_view f v).
Proof. intros [H1 H2]. split; [by rewrite map_view_texts|]. intros tip. by rewrite map_view_controls, H2. Qed.

Lemma display_hidden t r v : display toLocaleString emojiMap t false r = Ok v -> invisible v.
Proof.
  destruct t; cbn [display]; unfold mbind, res_bind.
  - intros [= <-]. by apply invisible_hidden.
  - unfold ChatDisplay, mbind, res_bind. destruct (res_map _ (groupedMessages _)); [|done].
    destruct (res_map _ emojiCategories); [|done]. intros [= <-]. by apply invisible_hidden.
  - unfold LeaderboardDisplay, mbind, res_bind. destruct (res_map _ SLOTS); [|done].
    destruct (res_map _ (rest_rows _)); [|done]. intros [= <-]. by apply invisible_hidden.
  - unfold StatisticsDisplay, mbind, res_bind. destruct (scoreChartData _); [|done].
    destruct (solve_stats _ _) as [[ids total] times]. intros [= <-]. by apply invisible_hidden.
  - intros [= <-]. by apply invisible_hidden.
Qed.

(** The five displays, of which only the active tab's is not hidden. *)
Lemma displays_active r ds (k : TabName) l : NoDup l ->
  res_map (fun t => display toLocaleString emojiMap t (bool_decide (k = t)) r) l = Ok ds ->
  ((k ∉ l) /\ Forall invisible ds) \/
  (exists d, (k ∈ l) /\ display toLocaleString emojiMap k true r = Ok d /\
    flat_map texts ds = texts d /\ flat_map controls ds = controls d).
Proof.
  intros Hl. revert ds. induction Hl as [|t l Ht Hl IH]; intros ds.
  - intros [= <-]. left. split; [apply not_elem_of_nil|constructor].
  - cbn [res_map]. unfold mbind, res_bind.
    destruct (display _ _ t (bool_decide (k = t)) r) as [v|e] eqn:Ev; [|done].
    destruct (res_map _ l) as [vs|e] eqn:Evs; [|done]. intros [= <-].
    destruct (decide (k = t)) as [->|Hne].
    + rewrite bool_decide_eq_true_2 in Ev by done. right. exists v.
      destruct (IH vs eq_refl) as [[_ Hi]|(d & Hd & _)]; [|done].
      split; [apply list_elem_of_here|]. split; [done|]. cbn.
      rewrite !flat_map_nil, !app_nil_r; [done|..]; (eapply Forall_impl; [exact Hi|]); intros w [H1 H2]; [apply H2|done].
    + rewrite bool_decide_eq_false_2 in Ev by done. apply display_hidden in Ev as Hv. destruct Hv as [H1 H2].
      destruct (IH vs eq_refl) as [[Hn Hi]|(d & Hd & Hd' & E1 & E2)].
      * left. split; [by apply not_elem_of_cons|by constructor].
      * right. exists d. split; [by apply list_elem_of_further|]. split; [done|]. cbn. unfold controls at 1.
        by rewrite H1, H2, E1, E2.
Qed.
End page_lemmas.

(** *** The board *)

Section board_lemmas.
Context (toLocaleString : Z -> string).

(** What the card of a player reads: the initial of a player without a picture, the rank, the name, the score. *)
Definition avatar_text (p : Entry) : list Val :=
  if truthy (e_avatarUrl p) then [] else match name_initials (e_username p) with Ok i => [VStr i] | Throw _ => [] end.
Definition points (p : Entry) : Val := match score_text toLocaleString (e_score p) with Ok v => v | Throw _ => VUndef end.
Definition card_texts (card : nat * Entry) : list Val :=
  let '(rank, p) := card in
  if rank <=? 3 then avatar_text p ++ [VNum (Z.of_nat rank); e_username p; points p]
  else [VStr "#"; VNum (Z.of_nat rank)] ++ avatar_text p ++
       [e_username p; VStr "Rank "; VNum (Z.of_nat rank); points p; VStr "pts"].

Lemma avatar_texts {E} p sz (v : View E) : PlayerAvatar p sz = Ok v -> texts v = avatar_text p.
Proof.
  unfold PlayerAvatar, avatar_text. destruct (truthy (e_avatarUrl p)); [intros [= <-]; by destruct sz|].
  unfold mbind, res_bind. destruct (name_initials _) as [i|]; [|done]. intros [= <-]. by destruct sz.
Qed.

Lemma podium_texts {E} slot p (v : View E) : rank slot <= 3 -> includes HIDING (podiumHeight slot) = false ->
  includes HIDING (rankTextSize slot) = false ->
  PodiumColumn toLocaleString slot (Some p) = Ok v -> texts v = card_texts (rank slot, p).
Proof.
  intros Hr Hh Hs. unfold PodiumColumn, mbind, res_bind. destruct (PlayerAvatar p _) as [av|] eqn:Ea; [|done].
  apply avatar_texts in Ea. destruct (score_text _ _) as [pts|] eqn:Ep; [|done]. intros [= <-].
  unfold card_texts, points. rewrite Ep, (proj2 (Nat.leb_le _ _) Hr).
  destruct (showTrophy slot); view_simpl; rewrite Ea; cbn in Hh, Hs; rewrite ?Hh, ?Hs; cbn; by rewrite ?app_nil_r.
Qed.

Lemma row_texts {E} row (v : View E) : 3 < row.1 -> rank_row toLocaleString row = Ok v -> texts v = card_texts row.
Proof.
  destruct row as [rank p]. cbn [fst]. intros Hr. unfold rank_row, mbind, res_bind.
  destruct (PlayerAvatar p _) as [av|] eqn:Ea; [|done]. apply avatar_texts in Ea.
  destruct (score_text _ _) as [pts|] eqn:Ep; [|done]. intros [= <-]. unfold card_texts, points.
  rewrite Ep, (proj2 (Nat.leb_gt _ _) Hr). view_simpl. rewrite Ea. cbn. by rewrite ?app_nil_r, <- ?app_assoc.
Qed.
End board_lemmas.

(** The cards in the order of the document: the podium from left to right, then the rows. *)
Definition cards (es : list Entry) : list (nat * Entry) :=
  omap (fun slot => (fun p => (rank slot, p)) <$> byRank es (rank slot)) SLOTS ++ rest_rows es.

Lemma imap_shift {A B} (f g : nat -> A -> B) (l : list A) : (forall i x, f i x = g i x) -> imap f l = imap g l.
Proof. intros Hfg. apply imap_ext. intros i x _. apply Hfg. Qed.

(** Every player has one card, with the rank of their place. *)
Lemma cards_perm es : cards es ≡ₚ imap (fun i p => (S i, p)) es.
Proof.
  unfold cards, SLOTS, rest_rows. destruct es as [|a [|b [|c es]]]; cbn -[imap].
  - done.
  - done.
  - cbn. apply Permutation_swap.
  - cbn [imap]. change (drop 0 es) with es.
    rewrite (imap_shift (fun index player => (index + 4, player)) _ es (fun i x => f_equal (fun n => (n, x)) (Nat.add_comm i 4))).
    apply Permutation_swap.
Qed.

Section board_theorem.
Context (toLocaleString : Z -> string).

Definition board_heading (b : Board) : list Val :=
  [VStr "Leaderboard"; VStr "Current Room Rankings"] ++
  match Leaderboard.error b with Some e => if truthy e then [e] else [] | None => [] end.
Definition nobody_text (b : Board) : list Val :=
  if isLoading b then [] else [VStr "No Rankings Yet!"; VStr "Scores appear once a round starts"].

Lemma columns_texts {E} es (columns : list (View E)) slots :
  Forall (fun s => rank s <= 3 /\ includes HIDING (podiumHeight s) = false /\ includes HIDING (rankTextSize s) = false) slots ->
  res_map (fun slot => PodiumColumn toLocaleString slot (byRank es (rank slot))) slots = Ok columns ->
  flat_map texts columns =
    flat_map (card_texts toLocaleString) (omap (fun slot => (fun p => (rank slot, p)) <$> byRank es (rank slot)) slots).
Proof.
  intros Hs. revert columns. induction Hs as [|s slots (H1 & H2 & H3) Hs IH]; intros columns; [by intros [= <-]|].
  cbn [res_map]. unfold mbind, res_bind. destruct (PodiumColumn _ s _) as [v|] eqn:Ev; [|done].
  destruct (res_map _ slots) as [vs|]; [|done]. intros [= <-]. cbn [flat_map omap list_omap].
  destruct (byRank es (rank s)) as [p|] eqn:Ep; cbn.
  - rewrite (podium_texts toLocaleString s p v H1 H2 H3 Ev). cbn. f_equal. by apply IH.
  - injection Ev as <-. by apply IH.
Qed.

Lemma rows_texts {E} l (rows : list (View E)) : Forall (fun r => 3 < r.1) l ->
  res_map (rank_row toLocaleString) l = Ok rows -> flat_map texts rows = flat_map (card_texts toLocaleString) l.
Proof.
  intros Hl. revert rows. induction Hl as [|r l Hr Hl IH]; intros rows; [by intros [= <-]|].
  cbn [res_map]. unfold mbind, res_bind. destruct (rank_row _ r) as [v|] eqn:Ev; [|done].
  destruct (res_map _ l) as [vs|]; [|done]. intros [= <-]. cbn [flat_map].
  rewrite (row_texts toLocaleString r v Hr Ev). f_equal. by apply IH.
Qed.

Lemma board_texts {E} (b : Board) (v : View E) : LeaderboardDisplay toLocaleString true b = Ok v ->
  texts v = board_heading b ++
    match entries b with [] => nobody_text b | es => flat_map (card_texts toLocaleString) (cards es) end.
Proof.
  unfold LeaderboardDisplay, mbind, res_bind. destruct (res_map _ SLOTS) as [columns|] eqn:Ec; [|done].
  destruct (res_map _ (rest_rows _)) as [rows|] eqn:Er; [|done]. intros [= <-].
  apply columns_texts in Ec; [|by repeat constructor].
  apply rows_texts in Er.
  2:{ apply Forall_lookup. intros i [n p] Hi. unfold rest_rows in Hi. apply list_lookup_imap_Some in Hi as (x & _ & [= -> _]).
      cbn. lia. }
  assert (Hes : match entries b with [] => nobody_text b | es => flat_map (card_texts toLocaleString) (cards es) end =
    match entries b with [] => nobody_text b | _ => flat_map texts columns ++ flat_map texts rows end).
  { rewrite Ec, Er. destruct (entries b); [done|]. unfold cards. by rewrite flat_map_app. }
  rewrite Hes. unfold board_heading, nobody_text. clear Ec Er Hes.
  destruct (Leaderboard.error b) as [e|]; [destruct (truthy e)|];
    destruct (entries b) as [|a es], (isLoading b), rows as [|row rows]; view_simpl; rewrite ?app_nil_r; try done.
Qed.
End board_theorem.

(** *** Rendering *)

Lemma res_map_ok {A B} (f : A -> Res B) (l : list A) : Forall (fun x => exists y, f x = Ok y) l -> exists ys, res_map f l = Ok ys.
Proof.
  induction 1 as [|x l [y Hy] Hl [ys Hys]]; [by exists []|]. exists (y :: ys).
  cbn [res_map]. unfold mbind, res_bind. by rewrite Hy, Hys.
Qed.

(** A row of the board that can be drawn: it has a name and a score. *)
Definition row_ok (p : Entry) : Prop := is_nullish (e_username p) = false /\ is_nullish (e_score p) = false.
(** The emojis have every category of the picker. *)
Definition emojis_complete (emojiMap : list (string * list Emoji)) : Prop :=
  Forall (fun category => is_Some (list_find (fun kv => kv.1 = category.1) emojiMap)) emojiCategories.

Section rendering.
Context (toLocaleString : Z -> string).

Lemma card_ok {E} p sz : row_ok p ->
  exists (v : View E) w, PlayerAvatar p sz = Ok v /\ score_text toLocaleString (e_score p) = Ok w.
Proof.
  intros [Hn Hs]. unfold PlayerAvatar, mbind, res_bind.
  assert (exists w, score_text toLocaleString (e_score p) = Ok w) as [w Hw] by (destruct (e_score p); eauto; done).
  destruct (truthy (e_avatarUrl p)); [by eexists _, w|].
  assert (exists i, name_initials (e_username p) = Ok i) as [i ->] by (destruct (e_username p); eauto; done).
  by eexists _, w.
Qed.

Lemma board_renders {E} isActive (b : Board) : Forall row_ok (entries b) ->
  exists v : View E, LeaderboardDisplay toLocaleString isActive b = Ok v.
Proof.
  intros Hb. unfold LeaderboardDisplay, mbind, res_bind.
  destruct (res_map_ok (fun slot => @PodiumColumn toLocaleString E slot (byRank (entries b) (rank slot))) SLOTS) as [cs ->].
  { apply Forall_true. intros slot. destruct (byRank _ _) as [p|] eqn:Hp; [|by eexists].
    assert (row_ok p) as Hr.
    { unfold byRank in Hp. repeat (case_match; try done); eapply Forall_lookup_1; eauto. }
    destruct (card_ok (E := E) p (avatarSize slot) Hr) as (v & w & Hv & Hw).
    unfold PodiumColumn, mbind, res_bind. rewrite Hv, Hw. by eexists. }
  destruct (res_map_ok (@rank_row toLocaleString E) (rest_rows (entries b))) as [rs ->]; [|by eexists].
  unfold rest_rows. apply Forall_lookup. intros i [n p] (p' & Hp & [= -> ->])%list_lookup_imap_Some.
  rewrite lookup_drop in Hp. pose proof (Forall_lookup_1 _ _ _ _ Hb Hp) as Hr.
  destruct (card_ok (E := E) p' sm Hr) as (v & w & Hv & Hw).
  unfold rank_row, mbind, res_bind. rewrite Hv, Hw. by eexists.
Qed.

Lemma statistics_renders `{JsEnv} isActive (b : Board) st idx : Forall row_ok (entries b) ->
  exists v, StatisticsDisplay toLocaleString isActive b st idx = Ok v.
Proof.
  intros Hb. unfold StatisticsDisplay, mbind, res_bind.
  destruct (res_map_ok (fun p => u ← chart_username (e_username p); Ok (u, e_score p)) (entries b)) as [data Hd].
  { eapply Forall_impl; [exact Hb|]. intros p [Hn _]. destruct (e_username p); try done; by eexists. }
  unfold scoreChartData. rewrite Hd. destruct (solve_stats _ _) as [[ids total] times]. by eexists.
Qed.
End rendering.

Definition bubble_lines (b : Bubble) : list Val :=
  match b with SystemLine t => [t] | OwnBubble ts => ts | OtherBubble _ author ts => author :: ts end.

Lemma bubbles_texts (f : nat -> Message -> View ChatAct) ms : (forall j m, texts (f j m) = [m_data m]) ->
  flat_map texts (imap f ms) = map m_data ms.
Proof.
  intros Hf. revert f Hf. induction ms as [|m ms IH]; intros f Hf; [done|]. cbn [imap flat_map map].
  rewrite Hf. cbn. f_equal. apply (IH (f ∘ S)). intros j m'. apply Hf.
Qed.

(** A group is drawn as its bubble. *)
Lemma group_texts uid g b : bubble uid g = Ok b -> exists v, group_view uid g = Ok v /\ texts v = bubble_lines b.
Proof.
  unfold bubble, group_view. destruct g as [|m0 l]; [done|].
  destruct (isSystem m0); [intros [= <-]; by eexists|].
  assert (forall n j m, texts (own_bubble n j m) = [m_data m]) as Ho.
  { intros n j m. unfold own_bubble. by destruct (j =? 0), (j =? n - 1). }
  assert (forall n j m, texts (other_bubble n j m) = [m_data m]) as Ho'.
  { intros n j m. unfold other_bubble. by destruct (j =? n - 1). }
  destruct (eq_opt (userHandle m0) uid); intros [= <-]; eexists; (split; [done|]).
  - transitivity (flat_map texts (imap (own_bubble (length (m0 :: l))) (m0 :: l))); [done|]. by rewrite bubbles_texts.
  - transitivity (userName m0 :: flat_map texts (imap (other_bubble (length (m0 :: l))) (m0 :: l)) ++ []); [done|].
    by rewrite bubbles_texts, app_nil_r.
Qed.

Lemma groups_texts uid gs bs : res_map (bubble uid) gs = Ok bs ->
  exists vs, res_map (group_view uid) gs = Ok vs /\ flat_map texts vs = flat_map bubble_lines bs.
Proof.
  revert bs. induction gs as [|g gs IH]; intros bs; cbn [res_map]; [intros [= <-]; by exists []|].
  unfold mbind, res_bind. destruct (bubble uid g) as [b|] eqn:Hb; [|done].
  destruct (res_map _ gs) as [bs'|]; [|done]. intros [= <-].
  destruct (group_texts _ _ _ Hb) as (v & -> & Hv). destruct (IH bs' eq_refl) as (vs & -> & Hvs).
  exists (v :: vs). split; [done|]. cbn. by rewrite Hv, Hvs.
Qed.

Lemma categories_ok emojiMap : emojis_complete emojiMap -> exists cs, res_map (category_view emojiMap) emojiCategories = Ok cs.
Proof.
  intros He. apply res_map_ok. eapply Forall_impl; [exact He|]. intros category [[i [k es]] Hf].
  unfold category_view. rewrite Hf. by eexists.
Qed.

Definition toast_texts (c : Chat) : list Val := if truthy (c_toast c) then [c_toast c; VStr "x"] else [].
(** The counter of the text area and the note below it. *)
Definition composer_texts (c : Chat) : list Val :=
  [VNum (Z.of_nat (String.length (c_inputText c))); VStr "/"; VNum (Z.of_nat MAX_CHARS);
   VStr "Please note all chat messages are monitored."].

Lemma chat_texts emojiMap isActive picking uid c bs : emojis_complete emojiMap -> chat_view uid (c_messages c) = Ok bs ->
  exists v, ChatDisplay emojiMap isActive picking uid c = Ok v /\
    (isActive = true -> picking = false -> texts v = toast_texts c ++ flat_map bubble_lines bs ++ composer_texts c).
Proof.
  intros He Hb. destruct (categories_ok _ He) as [cs Hcs]. destruct (groups_texts _ _ _ Hb) as (vs & Hvs & Ht).
  unfold ChatDisplay, mbind, res_bind. rewrite Hvs, Hcs. eexists. split; [done|]. intros -> ->. rewrite <- Ht.
  unfold Toast, toast_texts, composer_texts. destruct (truthy (c_toast c)), (c_showJump c), (c_atLimit c); view_simpl; by rewrite ?app_nil_r.
Qed.

Lemma bubbles_exist uid ms : exists bs, chat_view uid ms = Ok bs.
Proof.
  apply res_map_ok. destruct (grouped_grouping ms) as [[Hg _] _]. eapply Forall_impl; [exact Hg|].
  intros [|m0 g] Hm; [done|]. unfold bubble. destruct (isSystem m0); [by eexists|].
  destruct (eq_opt _ uid); by eexists.
Qed.

Lemma bubbles_authors uid gs bs : res_map (bubble uid) gs = Ok bs ->
  Forall2 (fun g b => match b with
                      | OtherBubble picture author ts => exists m, head g = Some m /\ author = userName m /\ picture = userPhoto m
                      | _ => True
                      end) gs bs.
Proof.
  revert bs. induction gs as [|g gs IH]; intros bs; cbn [res_map]; [intros [= <-]; constructor|].
  unfold mbind, res_bind. destruct (bubble uid g) as [b|] eqn:Hb; [|done].
  destruct (res_map _ gs) as [bs'|]; [|done]. intros [= <-]. constructor; [|by apply IH].
  unfold bubble in Hb. destruct g as [|m0 g]; [done|].
  destruct (isSystem m0); [by injection Hb as <-|]. destruct (eq_opt _ _); injection Hb as <-; [done|]. by exists m0.
Qed.

(** The rows below the podium have the ranks from four on. *)
Lemma cards_ranks es : map fst (drop 3 (cards es)) = seq 4 (length es - 3).
Proof.
  unfold cards, SLOTS, rest_rows. destruct es as [|a [|b [|c es]]]; try done. cbn [omap list_omap byRank lookup list_lookup fmap option_fmap option_map app drop length].
  replace (S (S (S (length es))) - 3) with (length es) by lia.
  assert (forall n (l : list Entry), map fst (imap (fun i p => (i + n, p)) l) = seq n (length l)) as Hs.
  { intros n l. revert n. induction l as [|p l IH]; intros n; [done|]. cbn. f_equal.
    rewrite <- (IH (S n)). f_equal. apply imap_ext. intros i x _. cbn. f_equal. lia. }
  apply Hs.
Qed.

Section rendering_page.
Context `{JsEnv} (toLocaleString : Z -> string) (emojiMap : list (string * list Emoji)) (r : RoomScreen).
Context (Hrows : Forall row_ok (entries (rs_board r))) (Hemojis : emojis_complete emojiMap).

Lemma display_renders t isActive : exists v, display toLocaleString emojiMap t isActive r = Ok v.
Proof using Hrows Hemojis.
  destruct t; cbn [display]; unfold mbind, res_bind.
  - by eexists.
  - destruct (bubbles_exist (userId (rs_user r)) (c_messages (rs_chat r))) as [bs Hbs].
    destruct (chat_texts emojiMap isActive (rs_displayEmojis r) _ (rs_chat r) bs Hemojis Hbs) as (v & -> & _). by eexists.
  - by apply board_renders.
  - destruct (statistics_renders toLocaleString isActive (rs_board r) (rs_stats r) (rs_selectedIdx r) Hrows) as [v ->]. by eexists.
  - by eexists.
Qed.

(** The page with its parts: the notice and the display of the active tab. *)
Lemma page_shows : exists v d, RoomPage toLocaleString emojiMap r = Ok v /\
  display toLocaleString emojiMap (activeTab (rs_room r)) true r = Ok d /\
  texts v = flat_map texts (notice_view (rs_room r)) ++ texts d /\
  controls v = flat_map controls (notice_view (rs_room r)) ++ controls d.
Proof using Hrows Hemojis.
  destruct (res_map_ok (fun t => display toLocaleString emojiMap t (display_active t (rs_room r)) r) DISPLAYS) as [ds Hds].
  { apply Forall_true. intros t. apply display_renders. }
  unfold RoomPage, mbind, res_bind. rewrite Hds.
  destruct (displays_active toLocaleString emojiMap r ds (activeTab (rs_room r)) DISPLAYS) as [[Hn _]|(d & _ & Hd & Ht & Hc)].
  - by apply (bool_decide_unpack (NoDup DISPLAYS)).
  - exact Hds.
  - exfalso. apply Hn. destruct (activeTab (rs_room r)); unfold DISPLAYS; set_solver.
  - eexists _, d. split; [done|]. split; [done|]. split.
    + transitivity (flat_map texts (notice_view (rs_room r) ++ [div ds])); [done|].
      rewrite flat_map_app. cbn. by rewrite app_nil_r, Ht.
    + transitivity (flat_map controls (notice_view (rs_room r) ++ [div ds])); [done|].
      rewrite flat_map_app. f_equal. transitivity (flat_map controls ds ++ []); [done|]. by rewrite app_nil_r.
Qed.
End rendering_page.

Definition dismiss_control : Control RoomAct := mkControl "button" [onClick DismissNotice] [] [VStr "Dismiss"].

(** The page of a room shows one display, the active tab's.  If the emojis are complete and every row of the
    board has a name and a score, the page renders without throwing; what can be read on it is the
    notice, if there is one, and the display of the active tab, and nothing of the other four; what can be operated
    on it is the button that dismisses the notice and the controls of that display. *)
Theorem one_display `{JsEnv} (toLocaleString : Z -> string) (emojiMap : list (string * list Emoji)) (r : RoomScreen) :
  Forall row_ok (entries (rs_board r)) -> emojis_complete emojiMap ->
  exists v d, RoomPage toLocaleString emojiMap r = Ok v /\
    display toLocaleString emojiMap (activeTab (rs_room r)) true r = Ok d /\
    texts v = match roomNotice (rs_room r) with
              | None | Some EmptyString => []
              | Some notice => [VStr notice; VStr "Dismiss"]
              end ++ texts d /\
    controls v = (if notice_shown (rs_room r) then [dismiss_control] else []) ++ controls d.
Proof.
  intros Hr He. destruct (page_shows toLocaleString emojiMap r Hr He) as (v & d & Hv & Hd & Ht & Hc).
  exists v, d. split; [done|]. split; [done|]. unfold notice_view, notice_shown, opt_truthy in *.
  rewrite Ht, Hc. by destruct (roomNotice (rs_room r)) as [[|a s]|].
Qed.

Definition demo_emojis : list (string * list Emoji) := map (fun category => (category.1, [mkEmoji "+1" "thumbs up" []])) emojiCategories.
Definition demo_entry (name : string) (score : Z) : Entry := mkEntry (VStr name) (VStr name) VUndef (VNum score).
Definition demo_board (es : list Entry) : Board := mkBoard (Some "r1") true None es false None (Some "r1") [] 1.
Definition demo_screen (s : RoomState) (es : list Entry) : RoomScreen :=
  mkRoomScreen s userStoreInit settingsStoreInit (chatInit None None None ∅) false (demo_board es) statsInit 0 (Display.displayInit None).

Lemma one_display_witness :
  let r := demo_screen (setRoomNotice (setActiveTab roomStoreInit leaderboard) (Some "Round over")) [demo_entry "ada" 7] in
  exists v, RoomPage (H := demo_env) z_str demo_emojis r = Ok v /\
    click ["Dismiss"] v = Some DismissNotice /\
    texts v = [VStr "Round over"; VStr "Dismiss"; VStr "Leaderboard"; VStr "Current Room Rankings"; VStr "A"; VNum 1; VStr "ada"; VStr "7"].
Proof.
  intros r. destruct (one_display (H := demo_env) z_str demo_emojis r) as (v & d & Hv & Hd & Ht & Hc).
  - constructor; [split; reflexivity|constructor].
  - repeat constructor; eexists; vm_compute; reflexivity.
  - exists v. split; [exact Hv|]. unfold click. rewrite Hc, Ht. split; [reflexivity|].
    f_equal. vm_compute in Hd. injection Hd as <-. vm_compute. reflexivity.
Defined.

(** C28: The board shows every player once, with the right rank.  If the rows have names and scores, the display renders;
    what can be read on it is the heading with the error, if there is one, and then, if nobody is ranked, the note
    that says so (unless the board is loading), and otherwise one card per player, the podium first; a card has the rank of the
    player's place in the service's order, the name and the score. *)
Theorem board_on_screen (toLocaleString : Z -> string) (b : Board) :
  Forall row_ok (entries b) ->
  exists (v : View RoomAct) shown, LeaderboardDisplay toLocaleString true b = Ok v /\
    texts v = board_heading b ++ (if decide (entries b = []) then nobody_text b else flat_map (card_texts toLocaleString) shown) /\
    shown ≡ₚ imap (fun i p => (S i, p)) (entries b) /\
    map fst (drop 3 shown) = seq 4 (length (entries b) - 3).
Proof.
  intros Hr. destruct (board_renders toLocaleString (E := RoomAct) true b Hr) as [v Hv].
  exists v, (cards (entries b)). split; [done|]. split; [|split; [apply cards_perm|apply cards_ranks]].
  rewrite (board_texts _ _ _ Hv). destruct (decide (entries b = [])) as [->|Hne]; [done|]. by destruct (entries b).
Qed.

Lemma board_on_screen_witness :
  let b := demo_board [demo_entry "ada" 7; demo_entry "bob" 5; demo_entry "cyd" 2; demo_entry "dan" 1] in
  exists (v : View RoomAct), LeaderboardDisplay z_str true b = Ok v /\
    exists shown, texts v = [VStr "Leaderboard"; VStr "Current Room Rankings"] ++ flat_map (card_texts z_str) shown /\
      shown ≡ₚ [(1, demo_entry "ada" 7); (2, demo_entry "bob" 5); (3, demo_entry "cyd" 2); (4, demo_entry "dan" 1)].
Proof.
  intros b. destruct (board_on_screen z_str b) as (v & shown & H1 & H2 & H3 & _).
  - repeat (constructor; [split; reflexivity|]). constructor.
  - exists v. split; [exact H1|]. exists shown. split; [|exact H3]. rewrite H2. destruct (decide _) as [[=]|_]. reflexivity.
Defined.

(** C29: The chat shows every message once, in order.  With the emojis complete and the picker closed, the
    display renders; what can be read on it is the toast, if there is one, the lines of the bubbles, in order, and the counter of the
    text area; the bubbles have exactly the texts of the messages, in order; a bubble that is not one's own starts with its author; a
    system line stands alone, and the bubbles of oneself have one's own messages only. *)
Theorem chat_on_screen (emojiMap : list (string * list Emoji)) (uid : option string) (c : Chat) :
  emojis_complete emojiMap -> Forall handle_ok (c_messages c) ->
  exists v bs, ChatDisplay emojiMap true false uid c = Ok v /\
    texts v = toast_texts c ++ flat_map bubble_lines bs ++ composer_texts c /\
    concat (map bubble_texts bs) = map m_data (c_messages c) /\
    Forall2 (bubble_ok uid) (groupedMessages (c_messages c)) bs /\
    Forall2 (fun g b => match b with
                        | OtherBubble picture author ts => exists m, head g = Some m /\ author = userName m /\ picture = userPhoto m
                        | _ => True
                        end) (groupedMessages (c_messages c)) bs.
Proof.
  intros He Hm. destruct (chat_view_complete uid (c_messages c) Hm) as (bs & Hb & Hcat & Hok).
  destruct (chat_texts emojiMap true false uid c bs He Hb) as (v & Hv & Ht).
  exists v, bs. split; [done|]. split; [by apply Ht|]. split; [done|]. split; [done|]. exact (bubbles_authors uid _ _ Hb).
Qed.

Lemma chat_on_screen_witness :
  let say h d := mkMessage (VStr h) (VStr h) VUndef (VStr d) VUndef false in
  let c := set_messages (chatInit None None None ∅) [say "u1" "hi"; say "u1" "there"; say "u2" "yo"] in
  exists v bs, ChatDisplay demo_emojis true false (Some "u1") c = Ok v /\
    texts v = flat_map bubble_lines bs ++ composer_texts c /\ concat (map bubble_texts bs) = [VStr "hi"; VStr "there"; VStr "yo"].
Proof.
  intros say c. destruct (chat_on_screen demo_emojis (Some "u1") c) as (v & bs & H1 & H2 & H3 & _).
  - repeat constructor; eexists; vm_compute; reflexivity.
  - repeat (constructor; [discriminate|]). constructor.
  - exists v, bs. split; [exact H1|]. split; [exact H2|exact H3].
Defined.
