(* ===== verification/PanelViews.v ===== *)
(** * The panel as it is rendered

    The bars of [customComponents/TabBar], [customComponents/Footer], the toolbar
    and the progress bar of [customComponents/Toolbar], and the render of
    [pages/_app.tsx] around the page of [RoomViews.v]. *)

From S2P Require Export FormViews RoomViews Toolbar.

(** ** The two bars *)

(** What the handlers of a bar do; the hovered tab is the bar's own state. *)
Inductive BarAct :=
| HoverTab (t : option TabName)
| PickTab (t : TabName)
| PickTabAndUnfold (t : TabName)
| Script (type : string)
| LogOut.

Definition separator (t : TabName) (hoveredTab : option TabName) : View BarAct :=
  El "div" [Class (if tab_hidden t then "hidden" else ""); Class (if separator_invisible t hoveredTab then "invisible" else "")] [].

(** The attributes of a tab's button. *)
Definition tab_attrs (t : TabName) (click : BarAct) : list (Attr BarAct) :=
  [On "onMouseEnter" (fun _ => HoverTab (Some t)); On "onMouseLeave" (fun _ => HoverTab None); onClick click;
   Class (if tab_hidden t then "!hidden" else "")].
Definition dimmed (activeTab t : TabName) : Attr BarAct := Class (if bool_decide (activeTab = t) then "" else "opacity-60").
Definition weight (activeTab t : TabName) : Attr BarAct := Class (if bool_decide (activeTab = t) then "font-medium" else "font-normal").

Definition header_tab (activeTab : TabName) (hoveredTab : option TabName) (tab : TabName * string) : list (View BarAct) :=
  let '(t, label) := tab in
  [separator t hoveredTab;
   Button (tab_attrs t (PickTab t))
     [El "div" [dimmed activeTab t] [div [svg]; El "div" [weight activeTab t] [txt label]]]].

Definition sidebar_tab (activeTab : TabName) (hoveredTab : option TabName) (tab : TabName * string) : list (View BarAct) :=
  let '(t, label) := tab in
  [separator t hoveredTab;
   Button (tab_attrs t (PickTabAndUnfold t))
     [El "div" [dimmed activeTab t] [El "div" [weight activeTab t] [txt label]; div [svg]]]].

(** The fade at an edge, where there is more to scroll to. *)
Definition fade (shown : bool) : View BarAct := El "div" [hidden_unless shown] [].

Definition maximize_button (isMaximized : bool) : View BarAct :=
  TooltipWrapper (maximize_text isMaximized) ["Alt"; "+"] (Button [onClick (Script "MAXIMIZE")] [MaximizeIcon isMaximized]).

Definition HeaderBar (inRoom : bool) (active : TabName) (hoveredTab : option TabName) (isScrolledX hovered loggedIn isMaximized : bool) :
    View BarAct :=
  El "div" [On "onDoubleClick" (fun _ => Script "MAXIMIZE")] (
    (if inRoom
     then [div [div [div [div [svg]]]; fade isScrolledX];
           div (flat_map (header_tab active hoveredTab) TABS)]
     else [div [div [svg]; txt "BSG"]]) ++
    [div (div [] ::
      only (logout_shown inRoom loggedIn) [TooltipWrapper "Sign out" [] (Button [onClick LogOut] [svg])] ++
      [El "div" [hidden_unless hovered] [
         maximize_button isMaximized;
         TooltipWrapper "Fold" ["Alt"; "-"] (Button [onClick (Script "FOLD")] [svg])]])]).

(** [{unreadCount > 9 ? <>9 +</> : unreadCount}] *)
Definition unread_mark (unreadCount : Z) : list (View BarAct) :=
  only (0 <? unreadCount)%Z
    [span (if (9 <? unreadCount)%Z then [span [txt "9"]; span [txt "+"]] else [num_txt unreadCount])].

Definition Sidebar (inRoom : bool) (active : TabName) (hoveredTab : option TabName) (isScrolledY hovered isMaximized : bool)
    (unreadCount : Z) : View BarAct :=
  El "div" [On "onDoubleClick" (fun _ => Script "UNFOLD")] (
    (if inRoom
     then [div [div [div [div (svg :: unread_mark unreadCount)]]; fade isScrolledY];
           div (flat_map (sidebar_tab active hoveredTab) TABS)]
     else [div [div [svg]; div [txt "BSG"]]]) ++
    [div [div []; El "div" [hidden_unless hovered] [
       maximize_button isMaximized;
       TooltipWrapper "Unfold" ["Alt"; "-"] (Button [onClick (Script "UNFOLD")] [svg])]]]).

(** ** Footer.tsx *)

Inductive FooterAct := CopyCode (roomCode : option string) | Rate | Feedback | GitHubButton.

(** [github.connected] and [github.username] as the hook has them. *)
Definition github_tip (loggedIn : bool) (github : GitHubConnection) : string :=
  if negb loggedIn then "First log in to access the GitHub repo to store your submissions"
  else if truthy (Session.connected github)
       then "Submissions saved to " +:+ to_str (gh_username github) +:+ "/BSG-Submissions"
       else "Connect GitHub to store your submissions in a repo".

Definition Footer (inRoom isCopied isConnected : bool) (roomCode : option string) (loggedIn : bool) (github : GitHubConnection) :
    View FooterAct :=
  El "" [] [div [
    div [TooltipWrapper (copy_text isCopied) []
           (Button [onClick (CopyCode roomCode); Class (if inRoom then "" else "invisible")]
              [El "div" [Class (if isConnected then "bg-green-500" else "bg-red-500")] [];
               div (match roomCode with Some c => [txt c] | None => [] end ++ [svg])])];
    div [TooltipWrapper "Rate our extension" [] (Button [onClick Rate] [svg]);
         TooltipWrapper "Give us feedback" [] (Button [onClick Feedback] [svg]);
         TooltipWrapper (github_tip loggedIn github) []
           (Button [onClick GitHubButton;
                    Class (if truthy (Session.connected github) then "text-green-500" else "text-foreground/60")] [svg])]]].

(** ** Toolbar.tsx and ProblemProgress.tsx *)

Inductive ToolAct := StepProblem (delta : Z) | EndTheRound | StartTheRound | ToggleTheTimer | ToggleSettings | LeaveTheRoom.

(** The slug of the active tab decides the colour of the segments. *)
Definition ProblemProgress {E} (details : option RoundDetails) (storeProblems : list string) (uid currSlug : option string)
    (touchedSet : gset string) : list (View E) :=
  let problems := bar_problems details storeProblems in
  if length problems =? 0 then []
  else [div (imap (fun i slug =>
          let '(fill, stroke) := SEGMENT_STYLE (segmentState (solvedSlugs uid details) touchedSet currSlug slug) in
          El "div" [Class (if i =? 0 then "rounded-l-full" else ""); Class (if i =? length problems - 1 then "rounded-r-full" else "");
                    At "backgroundColor" (VStr fill); At "borderColor" (VStr stroke)] []) problems)].

Definition tool_button (tip : string) (attrs : list (Attr ToolAct)) : View ToolAct := TooltipWrapper tip [] (Button attrs [svg]).

Definition ToolbarView (s : RoomState) (t : Toolbar) (timeRemaining : string) (progress : list (View ToolAct)) : View ToolAct :=
  El "" [] ([div [
    div ([tool_button "Previous Problem" [onClick (StepProblem (-1)); At "disabled" (VBool (prev_disabled t))];
          tool_button "Next Problem" [onClick (StepProblem 1); At "disabled" (VBool (next_disabled t))]] ++
         match round_button s with
         | Some EndRound => [tool_button "End Round" [onClick EndTheRound]]
         | Some StartRound => [tool_button "Start Round" [onClick StartTheRound]]
         | None => []
         end);
    div [
      div [tool_button (if isTimerVisible t then "Hide Timer" else "Show Timer")
             [onClick ToggleTheTimer; Class (if isTimerVisible t then "bg-bsg-glass" else "bg-transparent")];
           El "div" [hidden_unless (isTimerVisible t)] [txt timeRemaining]];
      tool_button "Settings"
        [onClick ToggleSettings; Class (if bool_decide (activeTab s = settings) then "bg-bsg-glass" else "bg-transparent")];
      tool_button "Leave Room" [onClick LeaveTheRoom]]]] ++ progress).

(** ** _app.tsx *)

(** What anything in the panel does; the page is one of the router's. *)
Inductive PanelAct :=
| Hovered (b : bool)
| Pressed
| InBar (a : BarAct)
| InToolbar (a : ToolAct)
| InFooter (a : FooterAct)
| InRoomPage (a : RoomAct)
| InStartPage (a : ChoicePageEvent)
| InCreatePage (a : CreatePageEvent)
| InLoginPage (a : LoginPageEvent).

(** The state of the components around the page. *)
Record PanelScreen := mkPanelScreen {
  ps_app : App;
  ps_panel : PanelState;
  ps_maximized : bool;
  ps_headerHover : option TabName;
  ps_sidebarHover : option TabName;
  ps_scrolled : bool * bool;
  ps_toolbar : Toolbar;
  ps_timeRemaining : string;
  ps_progress : option string * gset string;    (* currSlug, touchedSlugs *)
  ps_copied : bool;
  ps_github : GitHubConnection;
  ps_room : RoomScreen;
}.

Section app_view.
Context (page : View PanelAct).

(** A panel that is neither the popup nor waiting. *)
Definition PanelBodyView (s : PanelScreen) : View PanelAct :=
  let r := rs_room (ps_room s) in
  let u := rs_user (ps_room s) in
  let isFolded := folded (ps_app s) in
  El "div" [Class (if Panel.isActive (ps_app s) then "active" else "");
            On "onMouseEnter" (fun _ => Hovered true); On "onMouseLeave" (fun _ => Hovered false);
            On "onMouseDown" (fun _ => Pressed)] [
    El "div" [Class (if isFolded then "flex" else "hidden")]
      [map_view InBar (Sidebar (isInRoom r) (activeTab r) (ps_sidebarHover s) (ps_scrolled s).2
         (isPanelHovered (ps_panel s)) (ps_maximized s) (unreadCount r))];
    El "div" [Class (if isFolded then "hidden" else "flex")] [
      map_view InBar (HeaderBar (isInRoom r) (activeTab r) (ps_headerHover s) (ps_scrolled s).1
         (isPanelHovered (ps_panel s)) (isLoggedIn u) (ps_maximized s));
      div [div (
        only (toolbar_shown r)
          [map_view InToolbar (ToolbarView r (ps_toolbar s) (ps_timeRemaining s)
             (ProblemProgress (roundDetails (rs_stats (ps_room s))) (problems r) (userId u)
                (ps_progress s).1 (ps_progress s).2))] ++
        [div [page];
         map_view InFooter (Footer (isInRoom r) (ps_copied s) (isConnected r) (roomCode r) (isLoggedIn u) (ps_github s))])]]].

Definition AppView (isDefaultPopup : bool) (s : PanelScreen) : View PanelAct :=
  match app_body isDefaultPopup (ps_app s) with
  | Popup => div [page]
  | Blank => div []
  | Restoring indicator =>
      div (only indicator [div [p_ [txt "BSG_"]; p_ [txt "Restoring session…"]]])
  | PanelBody _ => PanelBodyView s
  end.
End app_view.

(** The tabs that can be clicked, as [TABS] labels them *)
Definition offered (t : TabName) (label : string) : Prop := (t, label) ∈ TABS /\ tab_hidden t = false.

Lemma offered_cases t label : offered t label ->
  (t = roomInfo /\ label = "Room") \/ (t = chat /\ label = "Chat") \/ (t = Stores.statistics /\ label = "Statistics").
Proof. unfold offered, TABS. rewrite !elem_of_cons, elem_of_nil. intros [H1 H2]. naive_solver. Qed.

(** ** Clicks *)

(** In a room, a click on the name of a tab is one on its button in the bar that is shown. *)
Lemma tab_button page (s : PanelScreen) t label : offered t label ->
  configLoaded (ps_app s) = true -> appReady (ps_app s) = true -> isInRoom (rs_room (ps_room s)) = true ->
  click [label] (AppView page false s) = Some (InBar (if folded (ps_app s) then PickTabAndUnfold t else PickTab t)).
Proof.
  intros Ht H1 H2 H3. unfold AppView, app_body. rewrite H1, H2. cbn [negb]. unfold PanelBodyView, HeaderBar, Sidebar, unread_mark.
  rewrite H3. generalize (ps_sidebarHover s), (ps_headerHover s), (ps_scrolled s).
  intros sh hh [sx sy]. cbn [fst snd].
  destruct (folded (ps_app s)); cbn [only].
  - destruct (Panel.isActive (ps_app s)), (0 <? unreadCount (rs_room (ps_room s)))%Z, (9 <? unreadCount (rs_room (ps_room s)))%Z, sy,
      (activeTab (rs_room (ps_room s))), sh as [[]|];
      destruct (offered_cases _ _ Ht) as [[-> ->]|[[-> ->]|[-> ->]]]; reflexivity.
  - destruct (Panel.isActive (ps_app s)), sx,
      (activeTab (rs_room (ps_room s))), hh as [[]|];
      destruct (offered_cases _ _ Ht) as [[-> ->]|[[-> ->]|[-> ->]]]; reflexivity.
Qed.
