(* ===== verification/RateLimit.v ===== *)
(** * The gateway's middleware

    [src/server/src/middleware]: the fixed-window rate limiter over Redis
    ([rate-limit.js]), the sliding window of [logging.js], and the validation of
    requests ([logging.js]).

    Redis is not part of the repository: it is a class of operations over
    a state, with the behaviour of INCR and EXPIRE that the limiter relies on as
    a second class.  The limiters are proved against these classes; [demo_redis] is an
    instance. *)

From S2P Require Export World.

(** ** Redis *)

(** The client of the package redis, over the state [S] of the server; an operation may
    throw when the server cannot be reached. *)
Class RedisClient (S : Type) := {
  redis_incr : string -> M S Z;
  redis_decr : string -> M S Z;
  redis_expire : string -> Z -> M S unit;
  redis_get : string -> M S (option string);
  redis_set : string -> string -> M S unit;
  redis_del : string -> M S unit;
}.

(** INCR counts by one; a failed INCR may have counted; EXPIRE with a positive time to
    live changes no counter now. *)
Class RedisLaws (S : Type) `{RedisClient S} := {
  counter : string -> S -> Z;
  incr_counts k s :
    match redis_incr k s with
    | (Ok v, s') => v = (counter k s + 1)%Z /\ counter k s' = v
    | (Throw _, s') => (counter k s <= counter k s')%Z
    end;
  expire_keeps k n s : (0 < n)%Z -> counter k (redis_expire k n s).2 = counter k s;
}.

(** ** The limiter of rate-limit.js *)

(** [x || d] for numbers that may be absent. *)
Definition num_or (x : option Z) (d : Z) : Z := match x with Some z => if (z =? 0)%Z then d else z | None => d end.
Definition text_or (x : option string) (d : string) : string := match x with Some EmptyString | None => d | Some t => t end.

Record Options := mkOptions {
  o_windowSeconds : option Z;
  o_burstSize : option Z;
  o_keyPrefix : option string;
  o_skipSuccessful : option bool;
  o_skipFailed : option bool;
}.

Record RateLimiter := mkRateLimiter {
  windowSeconds : Z;
  burstSize : Z;
  keyPrefix : string;
  skipSuccessfulRequests : bool;
  skipFailedRequests : bool;
}.

(** [new RateLimiter(redisClient, options)] *)
Definition newRateLimiter (o : Options) : RateLimiter :=
  mkRateLimiter (num_or (o_windowSeconds o) 1) (num_or (o_burstSize o) 20) (text_or (o_keyPrefix o) "ratelimit:")
    (default false (o_skipSuccessful o)) (default false (o_skipFailed o)).

(** [createRateLimitMiddleware], up to the limiter *)
Definition limiter_of (o : Options) : RateLimiter :=
  newRateLimiter (mkOptions (Some (num_or (o_windowSeconds o) 1)) (Some (num_or (o_burstSize o) 100))
    (Some (text_or (o_keyPrefix o) "ratelimit:")) (Some (default false (o_skipSuccessful o)))
    (Some (default true (o_skipFailed o)))).

(** [req.user?.id] as a text, and [req.ip] *)
Definition getIdentifier (user : option string) (ip : string) (useUser : bool) : string :=
  match user with
  | Some id => if useUser then "user:" +:+ id else "ip:" +:+ ip
  | None => "ip:" +:+ ip
  end.

Definition window_ms (l : RateLimiter) : Z := (windowSeconds l * 1000)%Z.
Definition window_index (l : RateLimiter) (now : Z) : Z := (now / window_ms l)%Z.

Definition currentKey (l : RateLimiter) (now : Z) (identifier : string) : string :=
  keyPrefix l +:+ identifier +:+ ":" +:+ z_str (window_index l now).

(** What [checkLimit] returns: without its numbers when Redis failed. *)
Record Counted := mkCounted { current : Z; ckey : string; limit : Z; remaining : Z; resetAt : Z }.
Record Verdict := mkVerdict { allowed : bool; counted : option Counted }.

(** An answer that ends the request, and its headers. *)
Record Answer := mkAnswer { a_status : Z; a_body : Val }.

Definition too_many (message : string) (retryAfter : Z) : Answer :=
  mkAnswer 429 (VObj [("status", VStr "error"); ("message", VStr message); ("retryAfter", VNum retryAfter)]).

Section limiter.
Context {S : Type} `{RedisClient S}.

Definition checkLimit (l : RateLimiter) (now : Z) (identifier : string) : M S Verdict :=
  let key := currentKey l now identifier in
  try_catch
    (current ← redis_incr key;
     when (current =? 1)%Z (redis_expire key (windowSeconds l)) ;;
     mret (mkVerdict (current <=? burstSize l)%Z
       (Some (mkCounted current key (burstSize l) (Z.max 0 (burstSize l - current))
         ((window_index l now + 1) * window_ms l)%Z))))
    (fun _ => mret (mkVerdict true None)).

(** The headers of the rate limit *)
Definition rate_headers (v : Verdict) : list (string * Z) :=
  match counted v with
  | Some c => if (limit c =? 0)%Z then [] else
      [("X-RateLimit-Limit", limit c); ("X-RateLimit-Remaining", Z.max 0 (remaining c)); ("X-RateLimit-Reset", resetAt c)]
  | None => []
  end.

(** The middleware: the answer 429, or none when the request goes on. *)
Definition rateLimit (l : RateLimiter) (now : Z) (user : option string) (ip : string) :
    M S (list (string * Z) * option Answer) :=
  v ← checkLimit l now (getIdentifier user ip (bool_decide (is_Some user)));
  mret (rate_headers v, if allowed v then None else Some (too_many "Rate limit exceeded" (windowSeconds l))).

(** The slot given back when a response with this status is sent as JSON; a
    failure of Redis is ignored. *)
Definition refund (l : RateLimiter) (v : Verdict) (status : Z) : M S unit :=
  match counted v with
  | None => mret tt
  | Some c =>
      let isError := (400 <=? status)%Z in
      when ((skipSuccessfulRequests l && negb isError) || (skipFailedRequests l && isError))
        (try_catch (redis_decr (ckey c) ;; mret tt) (fun _ => mret tt))
  end.

Definition reset (l : RateLimiter) (now : Z) (identifier : string) : M S unit :=
  redis_del (currentKey l now identifier).

(** [parseInt(count || '0', 10)] of a counter *)
Definition getCount (l : RateLimiter) (now : Z) (identifier : string) : M S (option Z) :=
  count ← redis_get (currentKey l now identifier);
  mret (z_of_str (text_or count "0")).

(** *** Per endpoint *)

Definition no_options : Options := mkOptions None None None None None.

(** [config[endpoint] || config.default] *)
Definition getLimiter (config : gmap string Options) (limiters : gmap string RateLimiter) (endpoint : string) :
    RateLimiter * gmap string RateLimiter :=
  match limiters !! endpoint with
  | Some l => (l, limiters)
  | None =>
      let o := match config !! endpoint with Some o => o | None => default no_options (config !! "default") end in
      let l := newRateLimiter o in (l, <[endpoint := l]> limiters)
  end.

(** [{ default: { windowSeconds: 1, burstSize: 100 }, ...endpointConfig }] *)
Definition endpoint_config (endpointConfig : gmap string Options) : gmap string Options :=
  endpointConfig ∪ {[ "default" := mkOptions (Some 1) (Some 100) None None None ]}%Z.

Definition perEndpoint (config : gmap string Options) (now : Z) (method path : string) (user : option string) (ip : string) :
    M (gmap string RateLimiter * S) (list (string * Z) * option Answer) :=
  l ← (fun s => let '(l, ls) := getLimiter config s.1 (method +:+ ":" +:+ path) in (Ok l, (ls, s.2)));
  v ← zoom snd (fun r s => (s.1, r)) (checkLimit l now (getIdentifier user ip (bool_decide (is_Some user))));
  mret (rate_headers v, if allowed v then None else Some (too_many "Rate limit exceeded for this endpoint" (windowSeconds l))).

(** A run of checks of one identifier: before each, the rest of the system acts. *)
Fixpoint check_run (l : RateLimiter) (identifier : string) (reqs : list ((S -> S) * Z)) (s : S) : list Verdict * S :=
  match reqs with
  | [] => ([], s)
  | (others, now) :: reqs =>
      let '(r, s') := checkLimit l now identifier (others s) in
      let '(vs, s'') := check_run l identifier reqs s' in
      (match r with Ok v => v :: vs | Throw _ => vs end, s'')
  end.
End limiter.

(** ** The sliding window of logging.js *)

(** The times of the requests let through, per address. *)
Abbreviation Clients := (gmap string (list Z)).

Record Sliding := mkSliding { requestsPerMinute : nat; timeWindow : Z }.

Definition active_times (c : Sliding) (now : Z) (times : list Z) : list Z :=
  List.filter (fun t => (now - t <? timeWindow c)%Z) times.

(** A request: the clients afterwards, and 429 or nothing. *)
Definition sliding (c : Sliding) (now : Z) (ip : string) (clients : Clients) : Clients * option Answer :=
  let validRequests := active_times c now (default [] (clients !! ip)) in
  if requestsPerMinute c <=? length validRequests
  then (<[ip := validRequests]> clients,
        Some (mkAnswer 429 (VObj [("error", VStr "Too many requests");
                                  ("retryAfter", VNum ((timeWindow c + 999) / 1000))])))
  else (<[ip := validRequests ++ [now]]> clients, None).

(** The interval that drops the records that are no longer needed. *)
Definition sweep (c : Sliding) (now : Z) (clients : Clients) : Clients :=
  omap (fun times => match active_times c now times with [] => None | l => Some l end) clients.

(** ** Validation *)

(** [Content-Length] as a number, when there is one; whether [express.json] left a
    body that is truthy. *)
Definition validate (method : string) (contentType : option string) (contentLength : option Z) (hasBody : bool) : option Answer :=
  if (String.eqb method "POST" || String.eqb method "PUT") &&
     ((match contentLength with Some n => (0 <? n)%Z | None => false end) || hasBody) &&
     negb (match contentType with Some t => str_includes "application/json" t | None => false end)
  then Some (mkAnswer 400 (VObj [("error", VStr "Invalid Content-Type. Expected application/json")]))
  else None.

(** The chunks that arrive after the middleware: the answer at the first one beyond a megabyte. *)
Fixpoint payload (size : Z) (chunks : list Z) : option Answer :=
  match chunks with
  | [] => None
  | n :: chunks =>
      let size := (size + n)%Z in
      if (1048576 <? size)%Z then Some (mkAnswer 413 (VObj [("error", VStr "Payload too large")])) else payload size chunks
  end.

(** ** Lemmas *)

Section limiter_lemmas.
Context {S : Type} `{RedisLaws S}.

(** The three ways a check ends. *)
Lemma checkLimit_cases l now identifier s : (0 < windowSeconds l)%Z ->
  let k := currentKey l now identifier in
  let '(r, s') := checkLimit l now identifier s in
  (r = Ok (mkVerdict true None) /\ (counter k s <= counter k s')%Z) \/
  let c := (counter k s + 1)%Z in
  counter k s' = c /\
  r = Ok (mkVerdict (c <=? burstSize l)%Z
    (Some (mkCounted c k (burstSize l) (Z.max 0 (burstSize l - c)) ((window_index l now + 1) * window_ms l)%Z))).
Proof.
  intros Hw k. unfold checkLimit, try_catch. fold k. unfold mbind, m_bind.
  pose proof (incr_counts k s) as Hi. destruct (redis_incr k s) as [[v|e] s1]; [|by left].
  destruct Hi as [-> Hc]. unfold when. destruct (counter k s + 1 =? 1)%Z eqn:E.
  - pose proof (expire_keeps k (windowSeconds l) s1 Hw) as He.
    destruct (redis_expire k (windowSeconds l) s1) as [[[]|e] s2]; cbn in *.
    + right. split; [congruence|done].
    + left. split; [done|]. lia.
  - right. done.
Qed.

(** The checks that counted and let the request through. *)
Definition let_through (v : Verdict) : bool := allowed v && match counted v with Some _ => true | None => false end.

(** The rest of the system only adds to the counter of [k], and the check at [now] uses it. *)
Definition same_window (l : RateLimiter) (identifier k : string) (r : (S -> S) * Z) : Prop :=
  (forall s, (counter k s <= counter k (r.1 s))%Z) /\ currentKey l r.2 identifier = k.

Lemma burst_bound l identifier k reqs s : (0 < windowSeconds l)%Z -> Forall (same_window l identifier k) reqs ->
  let vs := (check_run l identifier reqs s).1 in
  length vs = length reqs /\
  (Z.of_nat (length (List.filter let_through vs)) <= Z.max 0 (burstSize l - counter k s))%Z /\
  Forall (fun v => match counted v with
                   | Some c => (0 <= remaining c)%Z /\ (0 < current c - counter k s)%Z /\ allowed v = (current c <=? burstSize l)%Z
                   | None => allowed v = true end) vs.
Proof.
  intros Hw Hr. revert s. induction Hr as [|[f now] reqs [Hf Hk] Hr IH]; intros s; cbn -[Z.max].
  { split; [done|]. split; [lia|constructor]. }
  pose proof (checkLimit_cases l now identifier (f s) Hw) as Hc. cbn in Hk. rewrite Hk in Hc.
  destruct (checkLimit l now identifier (f s)) as [r s1]. specialize (IH s1). specialize (Hf s). cbn [fst] in Hf.
  destruct (check_run l identifier reqs s1) as [vs s2]. cbn -[Z.max] in IH.
  destruct IH as (IH1 & IH2 & IH3).
  assert (Hmono : (counter k s <= counter k s1)%Z -> Forall (fun v => match counted v with
                   | Some c => (0 <= remaining c)%Z /\ (0 < current c - counter k s)%Z /\ allowed v = (current c <=? burstSize l)%Z
                   | None => allowed v = true end) vs).
  { intros Hle. eapply Forall_impl; [exact IH3|]. intros v; cbv beta; destruct (counted v); [|done].
    intros (? & ? & ?). split; [done|]. split; [lia|done]. }
  destruct Hc as [[-> Hle]|[Hs1 ->]]; cbn -[Z.max].
  - split; [lia|]. split; [lia|]. constructor; [done|]. apply Hmono. lia.
  - split; [lia|]. split.
    + destruct (counter k (f s) + 1 <=? burstSize l)%Z eqn:E; cbn -[Z.max]; js_bool; lia.
    + constructor; [|apply Hmono; lia]. cbn -[Z.max]. split; [lia|]. split; [lia|done].
Qed.

(** Without failures and without other requests, every slot of the window is used. *)
Lemma burst_exact l identifier k reqs s : (0 < windowSeconds l)%Z ->
  Forall (fun r => (forall s, r.1 s = s) /\ currentKey l r.2 identifier = k) reqs ->
  Forall (fun v => counted v <> None) (check_run l identifier reqs s).1 ->
  (length (List.filter let_through (check_run l identifier reqs s).1) =
     Nat.min (length reqs) (Z.to_nat (burstSize l - counter k s))).
Proof.
  intros Hw Hr. revert s. induction Hr as [|[f now] reqs [Hf Hk] Hr IH]; intros s Hv; [done|].
  cbn -[Nat.min] in *. pose proof (checkLimit_cases l now identifier (f s) Hw) as Hc. rewrite Hk in Hc. rewrite Hf in *.
  destruct (checkLimit l now identifier s) as [r s1]. specialize (IH s1).
  destruct (check_run l identifier reqs s1) as [vs s2]. cbn -[Nat.min] in *.
  destruct Hc as [[-> Hle]|[Hs1 ->]]; [by apply Forall_cons in Hv as [? _]|].
  apply Forall_cons in Hv as [_ Hv]. specialize (IH Hv). cbn -[Nat.min].
  destruct (counter k s + 1 <=? burstSize l)%Z eqn:E; cbn -[Nat.min]; rewrite IH, Hs1; js_bool; lia.
Qed.
End limiter_lemmas.

Lemma key_distinct l now now' identifier identifier' :
  currentKey l now identifier = currentKey l now' identifier' ->
  identifier = identifier' /\ window_index l now = window_index l now'.
Proof.
  unfold currentKey. intros Hk. apply (inj (String.app (keyPrefix l))) in Hk.
  rewrite !str_app_cons, !str_app_nil_l in Hk.
  apply last_sep_inj in Hk as [-> Hz]; [|by apply z_str_no..].
  split; [done|]. by apply (inj z_str) in Hz.
Qed.

(** ** The sliding window against its reference *)

(** Requests, and the interval that sweeps. *)
Inductive SlideEvent := Hit (now : Z) (ip : string) | Sweep (now : Z).
Definition event_time (ev : SlideEvent) : Z := match ev with Hit now _ | Sweep now => now end.

Fixpoint sliding_run (c : Sliding) (evs : list SlideEvent) (clients : Clients) : list bool :=
  match evs with
  | [] => []
  | Hit now ip :: evs =>
      let '(clients, answer) := sliding c now ip clients in
      match answer with None => true | Some _ => false end :: sliding_run c evs clients
  | Sweep now :: evs => sliding_run c evs (sweep c now clients)
  end.

(** The reference: the requests that went through, in full. *)
Definition recent (c : Sliding) (now : Z) (ip : string) (passed : list (string * Z)) : list Z :=
  omap (fun r => if decide (r.1 = ip /\ (now < r.2 + timeWindow c)%Z) then Some r.2 else None) passed.

Fixpoint sliding_spec (c : Sliding) (evs : list SlideEvent) (passed : list (string * Z)) : list bool :=
  match evs with
  | [] => []
  | Hit now ip :: evs =>
      let ok := length (recent c now ip passed) <? requestsPerMinute c in
      ok :: sliding_spec c evs (if ok then passed ++ [(ip, now)] else passed)
  | Sweep _ :: evs => sliding_spec c evs passed
  end.

(** The clock does not go back. *)
Fixpoint in_order (t : Z) (evs : list SlideEvent) : Prop :=
  match evs with [] => True | ev :: evs => (t <= event_time ev)%Z /\ in_order (event_time ev) evs end.

Lemma recent_active c now ip passed :
  recent c now ip passed = active_times c now (map snd (List.filter (fun r => String.eqb ip r.1) passed)).
Proof.
  unfold active_times, recent. induction passed as [|[ip' t] passed IH]; [done|].
  cbn -[Z.ltb]. rewrite IH. destruct (String.eqb_spec ip ip') as [<-|Hne]; cbn -[Z.ltb]; case_decide as Hd; cbn in Hd;
    [| |naive_solver|done]; destruct (now - t <? timeWindow c)%Z eqn:E; js_bool; try done;
    exfalso; [lia|apply Hd; split; [done|lia]].
Qed.

(** Dropping what is old earlier does not change what is active later. *)
Lemma active_twice c now now' times : (now <= now')%Z ->
  active_times c now' (active_times c now times) = active_times c now' times.
Proof.
  intros Hn. unfold active_times. induction times as [|t times IH]; [done|]. cbn.
  destruct (now - t <? timeWindow c)%Z eqn:E; cbn; rewrite IH; [done|].
  destruct (now' - t <? timeWindow c)%Z eqn:E'; [|done]. js_bool. lia.
Qed.

Lemma active_app c now l l' : active_times c now (l ++ l') = active_times c now l ++ active_times c now l'.
Proof. apply List.filter_app. Qed.

#[global] Arguments active_times : simpl never.

(** What the limiter knows agrees with the reference from [t] on. *)
Definition agrees (c : Sliding) (t : Z) (clients : Clients) (passed : list (string * Z)) : Prop :=
  forall ip now, (t <= now)%Z -> active_times c now (default [] (clients !! ip)) = recent c now ip passed.

Lemma agrees_sweep c t now clients passed : (t <= now)%Z -> agrees c t clients passed ->
  agrees c now (sweep c now clients) passed.
Proof.
  intros Ht Ha ip now' Hn. rewrite <- (Ha ip now') by lia. unfold sweep. rewrite lookup_omap.
  destruct (clients !! ip) as [times|]; cbn; [|done].
  destruct (active_times c now times) eqn:E; cbn; rewrite <- (active_twice c now now' times Hn), E; done.
Qed.

Lemma recent_app c now ip passed r : recent c now ip (passed ++ [r]) =
  recent c now ip passed ++ (if String.eqb ip r.1 then active_times c now [r.2] else []).
Proof.
  rewrite !recent_active, List.filter_app, map_app, active_app. cbn. by destruct (String.eqb ip r.1); cbn; rewrite ?app_nil_r.
Qed.

Lemma agrees_hit c t now ip clients passed : (t <= now)%Z -> agrees c t clients passed ->
  let '(clients', answer) := sliding c now ip clients in
  let ok := length (recent c now ip passed) <? requestsPerMinute c in
  match answer with None => true | Some _ => false end = ok /\
  agrees c now clients' (if ok then passed ++ [(ip, now)] else passed).
Proof.
  intros Ht Ha. unfold sliding. rewrite (Ha ip now Ht).
  set (n := length _). assert (Hb : (n <? requestsPerMinute c) = negb (requestsPerMinute c <=? n)) by apply Nat.ltb_antisym.
  rewrite Hb. destruct (requestsPerMinute c <=? n) eqn:E; cbn; (split; [done|]); intros ip' now' Hn.
  - destruct (decide (ip = ip')) as [<-|Hne].
    + rewrite lookup_insert_eq. cbn. by rewrite <- (Ha ip now Ht), active_twice, Ha by lia.
    + rewrite lookup_insert_ne by done. apply Ha. lia.
  - rewrite recent_app. cbn [fst snd]. destruct (decide (ip = ip')) as [<-|Hne].
    + rewrite lookup_insert_eq, String.eqb_refl. cbn [default from_option Datatypes.id].
      rewrite active_app. f_equal. by rewrite <- (Ha ip now Ht), active_twice, Ha by lia.
    + rewrite lookup_insert_ne, (proj2 (String.eqb_neq ip' ip)), app_nil_r by done. apply Ha. lia.
Qed.

Lemma sliding_agrees c evs t clients passed : in_order t evs -> agrees c t clients passed ->
  sliding_run c evs clients = sliding_spec c evs passed.
Proof.
  revert t clients passed; induction evs as [|[now ip|now] evs IH]; intros t clients passed; [done| |]; cbn;
    intros [Ht Ho] Ha.
  - pose proof (agrees_hit c t now ip clients passed Ht Ha) as Hh.
    destruct (sliding c now ip clients) as [clients' answer]. destruct Hh as [-> Hh]. f_equal. by apply (IH now).
  - apply (IH now); [done|]. by apply (agrees_sweep c t).
Qed.

(** ** An instance of Redis: counters without expiry and texts *)

Record DemoRedis := mkDemoRedis { d_counts : gmap string Z; d_texts : gmap string string }.

#[export] Instance demo_redis : RedisClient DemoRedis := {
  redis_incr k s := let v := (default 0 (d_counts s !! k) + 1)%Z in (Ok v, mkDemoRedis (<[k := v]> (d_counts s)) (d_texts s));
  redis_decr k s := let v := (default 0 (d_counts s !! k) - 1)%Z in (Ok v, mkDemoRedis (<[k := v]> (d_counts s)) (d_texts s));
  redis_expire k n s := (Ok tt, s);
  redis_get k s := (Ok (match d_counts s !! k with Some z => Some (z_str z) | None => d_texts s !! k end), s);
  redis_set k v s := (Ok tt, mkDemoRedis (d_counts s) (<[k := v]> (d_texts s)));
  redis_del k s := (Ok tt, mkDemoRedis (delete k (d_counts s)) (delete k (d_texts s)));
}.

#[export] Program Instance demo_laws : RedisLaws DemoRedis := {
  counter k s := default 0%Z (d_counts s !! k);
}.
Next Obligation. intros k s. cbn. by rewrite lookup_insert_eq. Qed.
Next Obligation. done. Qed.

(** ** Theorems *)

(** C21: The limiter never grants more than its burst.  For every Redis that counts (whatever fails, and whatever the
    other replicas and clients add in between), among the checks of one caller in one window at most as many are let through
    by the count as the burst has left at the start; what it reports as remaining is never negative; a
    check is answered always, and refused exactly when its count exceeds the burst; a failure of
    Redis lets the request through. *)
Theorem burst_respected {S} `{RedisLaws S} (l : RateLimiter) (identifier k : string) (reqs : list ((S -> S) * Z)) (s : S) :
  (0 < windowSeconds l)%Z -> Forall (same_window l identifier k) reqs ->
  let vs := (check_run l identifier reqs s).1 in
  length vs = length reqs /\
  (Z.of_nat (length (List.filter let_through vs)) <= Z.max 0 (burstSize l - counter k s))%Z /\
  Forall (fun v => match counted v with
                   | Some c => (0 <= remaining c)%Z /\ (0 < current c - counter k s)%Z /\ allowed v = (current c <=? burstSize l)%Z
                   | None => allowed v = true end) vs.
Proof. apply burst_bound. Qed.

(** The sliding window of the logging middleware is exact.  Although it forgets the requests that have left the
    window, on every request and in the sweeps of its interval at any times, it refuses a request exactly when as many requests
    of the same address as allowed were let through in the window before, counted over the whole history. *)
Theorem sliding_exact (c : Sliding) (t : Z) (evs : list SlideEvent) :
  in_order t evs -> sliding_run c evs ∅ = sliding_spec c evs [].
Proof. intros Ho. by apply (sliding_agrees c evs t). Qed.

Definition auth_limiter : RateLimiter := mkRateLimiter 60 2 "ratelimit:auth:" false false.

Lemma burst_respected_witness :
  let vs := (check_run auth_limiter "ip:1" [(fun s => s, 0%Z); (fun s => s, 5%Z); (fun s => s, 59999%Z)] (mkDemoRedis ∅ ∅)).1 in
  map allowed vs = [true; true; false] /\ (Z.of_nat (length (List.filter let_through vs)) <= 2)%Z.
Proof.
  intros vs. split; [reflexivity|].
  refine (proj1 (proj2 (burst_respected auth_limiter "ip:1" "ratelimit:auth:ip:1:0"
    [(fun s => s, 0%Z); (fun s => s, 5%Z); (fun s => s, 59999%Z)] (mkDemoRedis ∅ ∅) _ _))); [done|].
  repeat constructor; intros; reflexivity.
Defined.

Lemma sliding_exact_witness :
  sliding_run (mkSliding 2 1000) [Hit 0 "a"; Hit 10 "a"; Sweep 20; Hit 30 "a"; Hit 40 "b"; Sweep 1005; Hit 1006 "a"] ∅ =
    [true; true; false; true; true].
Proof.
  rewrite (sliding_exact (mkSliding 2 1000) 0); [reflexivity|]. cbn. lia.
Defined.
