(* ===== verification/Gateway.v ===== *)
(** * The gateway

    [src/server/src]: the Express application of [index.js] with its routers
    ([routes/rooms.js], [problems.js], [statistics.js], [submission.js],
    [auth.js]) and what they use of [config/github.js], [config/redis.js] and
    [config/passport.js].

    A handler is a computation over [Gw]: Redis, the answers of the services it
    calls, and the log of those calls.  What the sessions and the OAuth exchange of
    passport decide comes with the request.  Work that is not awaited is
    a task, which runs later.  The log lines of the handlers are left out, and the texts of
    answers that are only logged can always be read. *)

From S2P Require Export RateLimit.
From Stdlib Require Import Ascii.

(** ** Requests, calls and answers *)

Record User := mkUser {
  user_id : string;
  user_name : Val;
  user_email : Val;
  user_photo : Val;
  accessToken : option string;
  provider : string;
}.

(** What the strategies read of a profile; [None] where the field is absent. *)
Record Profile := mkProfile {
  p_id : string;
  displayName : option string;
  p_username : string;
  emails : list string;
  photos : list string;
  givenName : option string;
  familyName : option string;
}.

Record HttpReq := mkHttpReq {
  h_method : string;
  h_path : string;
  h_query : list (string * string);  (* one text per key *)
  h_body : Val;                     (* what express.json leaves in req.body *)
  h_contentType : option string;
  h_contentLength : option Z;
  h_ip : string;
  h_user : option User;             (* the user of the session *)
  h_oauth : option User;            (* what passport.authenticate ends with *)
  h_grant : option (string * Profile);   (* what GitHub grants a connection: token and profile; none when it is refused *)
  h_logoutError : bool;             (* req.logout and req.session.destroy fail *)
  h_destroyError : bool;
}.

(** A call of another service; the body is the value that is stringified. *)
Record Upstream := mkUpstream {
  up_method : string;
  up_url : string;
  up_headers : list (string * string);
  up_body : option Val;
}.

Inductive GwEffect :=
| Call (u : Upstream)
| SessionLogout
| SessionDestroy
| ClearCookie.

(** Work that is not awaited. *)
Inductive Task :=
| PushToGithub (authID : string) (slug language code : Val)
| SyncUser (authID : string) (userData : Val)
| RevokeToken (token : string).

Inductive HttpReply :=
| RJson (a : Answer)
| RText (status : Z) (text : string)
| RRedirect (url : string)
| RPage (page : string)
| ROAuth (strategy : string) (scope : list string)   (* handed over to passport *)
| RNotFound.

Record Env := mkEnv {
  centralServiceUrl : string;
  serverSecret : string;
  GITHUB_CLIENT_ID : string;
  GITHUB_CLIENT_SECRET : string;
  isoDate : Z -> string;            (* new Date(ms).toISOString() *)
}.

Record Gw (S : Type) := mkGw {
  g_redis : S;
  g_net : list NetReply;
  g_log : list GwEffect;
  g_now : Z;
  g_tasks : list Task;
}.
Arguments mkGw {_} _ _ _ _ _.
Arguments g_redis {_} _.
Arguments g_net {_} _.
Arguments g_log {_} _.
Arguments g_now {_} _.
Arguments g_tasks {_} _.

Definition gw_json (status : Z) (fs : list (string * Val)) : HttpReply := RJson (mkAnswer status (VObj fs)).
Definition error_json (status : Z) (msg : string) : HttpReply := gw_json status [("error", VStr msg)].

(** *** Texts *)

Definition hex_value (a : ascii) : option nat :=
  let n := nat_of_ascii a in
  if (48 <=? n) && (n <=? 57) then Some (n - 48)
  else if (97 <=? n) && (n <=? 102) then Some (n - 87)
  else if (65 <=? n) && (n <=? 70) then Some (n - 55)
  else None.

(** [decodeURIComponent], byte by byte; malformed escapes throw. *)
Fixpoint decode_uri (s : string) : option string :=
  match s with
  | EmptyString => Some ""
  | String a r =>
      if Ascii.eqb a "%" then
        match r with
        | String b (String c r) =>
            x ← hex_value b; y ← hex_value c; t ← decode_uri r;
            Some (String (ascii_of_nat (16 * x + y)) t)
        | _ => None
        end
      else t ← decode_uri r; Some (String a t)
  end.

Definition base64_digit (n : N) : ascii :=
  ascii_of_N (if n <? 26 then 65 + n else if n <? 52 then 71 + n else if n <? 62 then n - 4
              else if n =? 62 then 43 else 47)%N.

(** [Buffer.from(s).toString('base64')] *)
Fixpoint base64 (s : string) : string :=
  match s with
  | EmptyString => EmptyString
  | String a EmptyString =>
      let n := (N_of_ascii a * 16)%N in
      String (base64_digit (n / 64)%N) (String (base64_digit (n mod 64)%N) "==")
  | String a (String b EmptyString) =>
      let n := ((N_of_ascii a * 256 + N_of_ascii b) * 4)%N in
      String (base64_digit (n / 4096)%N) (String (base64_digit ((n / 64) mod 64)%N) (String (base64_digit (n mod 64)%N) "="))
  | String a (String b (String c r)) =>
      let n := (N_of_ascii a * 65536 + N_of_ascii b * 256 + N_of_ascii c)%N in
      String (base64_digit (n / 262144)%N) (String (base64_digit ((n / 4096) mod 64)%N)
        (String (base64_digit ((n / 64) mod 64)%N) (String (base64_digit (n mod 64)%N) (base64 r))))
  end.

Definition hex_upper (n : nat) : ascii := ascii_of_nat (if n <? 10 then 48 + n else 55 + n).

(** The serialisation of a value in [URLSearchParams]. *)
Fixpoint form_encode (s : string) : string :=
  match s with
  | EmptyString => EmptyString
  | String a r =>
      let n := nat_of_ascii a in
      if ((48 <=? n) && (n <=? 57)) || ((65 <=? n) && (n <=? 90)) || ((97 <=? n) && (n <=? 122)) ||
         (n =? 42) || (n =? 45) || (n =? 46) || (n =? 95) then String a (form_encode r)
      else if n =? 32 then String "+" (form_encode r)
      else String "%" (String (hex_upper (n / 16)) (String (hex_upper (n mod 16)) (form_encode r)))
  end.

(** ** Routing

    Express is a parameter: how it splits a path, which routes it finds, and where a
    router that is mounted goes on.  [ExpressLaws] is what its documentation says of
    the paths this code uses: texts are compared without case, a parameter is one segment that is
    not empty, and [get] answers HEAD too, of which nothing is assumed. *)

Inductive Seg := Lit (s : string) | Param.

Class Express := {
  path_segments : string -> list string;
  (* the parameters of a match, as they stand in the path *)
  match_path : list Seg -> list string -> option (list string);
  (* app.use(prefix, router): the rest of the path *)
  mounted : string -> list string -> option (list string);
  method_is : string -> string -> bool;
}.

Class ExpressLaws `{Express} := {
  segments_of_path l : l <> [] -> last l <> Some "" ->
    Forall (fun s => str_forall (fun a => negb (Ascii.eqb a "/")) s = true) l -> path_segments (join "/" ("" :: l)) = l;
  match_end : match_path [] [] = Some [];
  match_longer t segs : match_path [] (t :: segs) = None;
  match_shorter x pat : match_path (x :: pat) [] = None;
  match_lit s t pat segs :
    match_path (Lit s :: pat) (t :: segs) = if String.eqb (to_lower s) (to_lower t) then match_path pat segs else None;
  match_param t pat segs :
    match_path (Param :: pat) (t :: segs) = if String.eqb t "" then None else cons t <$> match_path pat segs;
  mounted_at prefix t segs :
    mounted prefix (t :: segs) = if String.eqb (to_lower prefix) (to_lower t) then Some segs else None;
  method_same m : m <> "HEAD" -> forall r, method_is m r = String.eqb m r;
}.

(** The first route that matches, and its parameters. *)
Fixpoint find_route `{Express} {H} (table : list (string * list Seg * H)) (method : string) (segs : list string) : option (list string * H) :=
  match table with
  | [] => None
  | (m, pat, h) :: table =>
      match (if method_is method m then match_path pat segs else None) with
      | Some params => Some (params, h)
      | None => find_route table method segs
      end
  end.

(** *** An instance *)

(** The segments of a path; a trailing slash does not count. *)
Definition demo_segments (path : string) : list string :=
  match split_on "/" path with
  | "" :: segs => match reverse segs with "" :: rest => reverse rest | _ => segs end
  | segs => segs
  end.
Fixpoint demo_match (pat : list Seg) (segs : list string) : option (list string) :=
  match pat, segs with
  | [], [] => Some []
  | Lit s :: pat, t :: segs => if String.eqb (to_lower s) (to_lower t) then demo_match pat segs else None
  | Param :: pat, t :: segs => if String.eqb t "" then None else cons t <$> demo_match pat segs
  | _, _ => None
  end.
Definition demo_mounted (prefix : string) (segs : list string) : option (list string) :=
  match segs with
  | s :: rest => if String.eqb (to_lower prefix) (to_lower s) then Some rest else None
  | [] => None
  end.
Definition demo_method (method route : string) : bool :=
  String.eqb method route || (String.eqb method "HEAD" && String.eqb route "GET").

#[export] Instance demo_express : Express := {
  path_segments := demo_segments; match_path := demo_match; mounted := demo_mounted; method_is := demo_method;
}.
#[export] Program Instance demo_express_laws : ExpressLaws.
Next Obligation.
  intros l Hne Hl Hf. cbn [path_segments demo_express]. unfold demo_segments. rewrite split_join; [|done|by constructor].
  destruct l as [|x l] using rev_ind; [done|]. rewrite last_snoc in Hl. rewrite reverse_snoc.
  destruct x; [done|]. done.
Qed.
Next Obligation. done. Qed.
Next Obligation. done. Qed.
Next Obligation. by intros []. Qed.
Next Obligation. done. Qed.
Next Obligation. done. Qed.
Next Obligation. done. Qed.
Next Obligation.
  intros m Hm r. cbn. unfold demo_method. apply String.eqb_neq in Hm. by rewrite Hm, orb_false_r.
Qed.

(** ** The handlers *)

Section gateway.
Context {S : Type} `{RedisClient S} `{JsonCodec} `{Express} (E : Env).
Abbreviation GM := (M (Gw S)).

Definition g_emit (e : GwEffect) : GM unit :=
  modify (fun g => mkGw (g_redis g) (g_net g) (g_log g ++ [e]) (g_now g) (g_tasks g)).
Definition rds {A} (m : M S A) : GM A := zoom g_redis (fun r g => mkGw r (g_net g) (g_log g) (g_now g) (g_tasks g)) m.
Definition spawn (t : Task) : GM unit :=
  modify (fun g => mkGw (g_redis g) (g_net g) (g_log g) (g_now g) (g_tasks g ++ [t])).

(** [await fetch(...)]; without a further answer the call fails. *)
Definition call (u : Upstream) : GM Response :=
  g_emit (Call u) ;;
  act (fun g =>
    match g_net g with
    | [] => (Throw network_error, g)
    | NetFail e :: net => (Throw e, mkGw (g_redis g) net (g_log g) (g_now g) (g_tasks g))
    | Reply d st b :: net => (Ok (mkResponse st b), mkGw (g_redis g) net (g_log g) (g_now g + d)%Z (g_tasks g))
    end).
Definition g_json (r : Response) : GM Val := match body r with Some v => mret v | None => throw syntax_error end.

Definition secret_headers (authID : string) : list (string * string) :=
  [("X-Server-Secret", serverSecret E); ("X-User-Auth-ID", authID)].
Definition json_headers (authID : string) : list (string * string) :=
  ("Content-Type", "application/json") :: secret_headers authID.
Definition central (path : string) : string := centralServiceUrl E +:+ path.

(** The body [JSON.stringify(v)] of a call: none for [undefined]. *)
Definition stringified (v : Val) : option Val := match v with VUndef => None | _ => Some v end.

(** What the proxies do with their call: pass the answer on. *)
Definition pass_on (u : Upstream) : GM HttpReply :=
  try_catch
    (response ← call u; data ← g_json response; mret (RJson (mkAnswer (status response) data)))
    (fun _ => mret (error_json 500 "Internal server error")).

Definition Handler := User -> list string -> HttpReq -> GM HttpReply.
Definition id_of (params : list string) : string := default "" (params !! 0).

(** *** routes/rooms.js *)

Definition createRoom : Handler := fun u _ req =>
  pass_on (mkUpstream "POST" (central "/api/rooms/") (json_headers (user_id u)) (stringified (h_body req))).
Definition getParticipants : Handler := fun u ps _ =>
  pass_on (mkUpstream "GET" (central ("/api/rooms/" +:+ id_of ps +:+ "/participants")) (secret_headers (user_id u)) None).
Definition createRound : Handler := fun u ps req =>
  pass_on (mkUpstream "POST" (central ("/api/rooms/" +:+ id_of ps +:+ "/rounds/create")) (json_headers (user_id u))
    (stringified (h_body req))).
Definition updateRoundTime : Handler := fun u ps req =>
  pass_on (mkUpstream "POST" (central ("/api/rooms/" +:+ id_of ps +:+ "/rounds/time")) (json_headers (user_id u))
    (stringified (h_body req))).
Definition startRound : Handler := fun u ps _ =>
  pass_on (mkUpstream "POST" (central ("/api/rooms/" +:+ id_of ps +:+ "/start")) (secret_headers (user_id u)) None).
Definition joinRoom : Handler := fun u ps _ =>
  pass_on (mkUpstream "POST" (central ("/api/rooms/" +:+ id_of ps +:+ "/join")) (secret_headers (user_id u)) None).
Definition activeRoom : Handler := fun u _ _ =>
  pass_on (mkUpstream "GET" (central "/api/rooms/active") (secret_headers (user_id u)) None).
Definition getRoom : Handler := fun u ps _ =>
  pass_on (mkUpstream "GET" (central ("/api/rooms/" +:+ id_of ps)) (secret_headers (user_id u)) None).
Definition leaveRoom : Handler := fun u ps _ =>
  pass_on (mkUpstream "POST" (central ("/api/rooms/" +:+ id_of ps +:+ "/leave")) (secret_headers (user_id u)) None).
Definition endRound : Handler := fun u ps _ =>
  pass_on (mkUpstream "POST" (central ("/api/rooms/" +:+ id_of ps +:+ "/end")) (secret_headers (user_id u)) None).
Definition getLeaderboard : Handler := fun u ps _ =>
  pass_on (mkUpstream "GET" (central ("/api/rooms/" +:+ id_of ps +:+ "/leaderboard")) (secret_headers (user_id u)) None).
Definition getRoundDetails : Handler := fun u ps _ =>
  pass_on (mkUpstream "GET" (central ("/api/rooms/" +:+ id_of ps +:+ "/round-details")) (secret_headers (user_id u)) None).

Definition rooms_routes : list (string * list Seg * Handler) :=
  [("POST", [], createRoom);
   ("GET", [Param; Lit "participants"], getParticipants);
   ("POST", [Param; Lit "rounds"; Lit "create"], createRound);
   ("POST", [Param; Lit "rounds"; Lit "time"], updateRoundTime);
   ("POST", [Param; Lit "start"], startRound);
   ("POST", [Param; Lit "join"], joinRoom);
   ("GET", [Lit "active"], activeRoom);
   ("GET", [Param], getRoom);
   ("POST", [Param; Lit "leave"], leaveRoom);
   ("POST", [Param; Lit "end"], endRound);
   ("GET", [Param; Lit "leaderboard"], getLeaderboard);
   ("GET", [Param; Lit "round-details"], getRoundDetails)].

(** *** routes/problems.js *)

Definition problems_get (path : string) : Handler := fun u _ _ =>
  pass_on (mkUpstream "GET" (central path) (secret_headers (user_id u)) None).
Definition getTags : Handler := problems_get "/api/problems/tags".
Definition getCompanies : Handler := problems_get "/api/problems/companies".
Definition getList : Handler := problems_get "/api/problems/list".

Definition COUNT_PARAMS : list string :=
  ["tags"; "companies"; "blind75"; "neetcode150"; "recentlyAsked"; "difficulties"; "excludePaid"].

(** [params.toString()] *)
Definition count_params (query : list (string * string)) : string :=
  join "&" (omap (fun k => match list_find (fun kv => kv.1 = k) query with
                           | Some (_, (_, v)) => if String.eqb v "" then None else Some (k +:+ "=" +:+ form_encode v)
                           | None => None
                           end) COUNT_PARAMS).

Definition getCount_problems : Handler := fun u _ req =>
  pass_on (mkUpstream "GET" (central ("/api/problems/count?" +:+ count_params (h_query req))) (secret_headers (user_id u)) None).

Definition problems_routes : list (string * list Seg * Handler) :=
  [("GET", [Lit "tags"], getTags); ("GET", [Lit "companies"], getCompanies); ("GET", [Lit "list"], getList);
   ("GET", [Lit "count"], getCount_problems)].

(** *** routes/statistics.js *)

Definition getStatistics : Handler := fun u ps _ =>
  try_catch
    (response ← call (mkUpstream "GET" (central ("/api/statistics/" +:+ id_of ps)) (json_headers (user_id u)) None);
     data ← g_json response;
     mret (RJson (mkAnswer (if res_ok response then 200 else status response) data)))
    (fun _ => mret (error_json 500 "Internal Server Error")).
Definition statistics_routes : list (string * list Seg * Handler) := [("GET", [Param], getStatistics)].

(** *** routes/submission.js *)

Definition EXTENSIONS : list (string * string) :=
  [("python3", ".py"); ("cpp", ".cpp"); ("python", ".py"); ("java", ".java"); ("c", ".c"); ("csharp", ".cs");
   ("javascript", ".js"); ("typescript", ".ts"); ("php", ".php"); ("swift", ".swift"); ("kotlin", ".kt");
   ("dart", ".dart"); ("golang", ".go"); ("ruby", ".rb"); ("scala", ".scala"); ("rust", ".rs"); ("racket", ".rkt");
   ("erlang", ".erl"); ("elixir", ".ex"); ("mysql", ".sql"); ("mssql", ".sql"); ("oraclesql", ".sql");
   ("postgresql", ".sql"); ("pythondata", ".py"); ("bash", ".sh")].

(** [map[language]]: own keys of the object *)
Definition extension_of (language : string) : option string :=
  snd <$> (snd <$> list_find (fun kv => kv.1 = language) EXTENSIONS).
Definition solutionPath (slug language : Val) : string :=
  "submission/" +:+ to_str slug +:+ "/solution" +:+ default ".txt" (extension_of (to_str language)).

Definition submission (u : option User) (req : HttpReq) : GM HttpReply :=
  match u with
  | None => mret (error_json 401 "Not authenticated")
  | Some u =>
      (* reading a field of an absent body throws; Express answers 500 *)
      if is_nullish (h_body req) then mret (RText 500 "Internal Server Error") else
      let f := prop (h_body req) in
      if negb (is_str (f "status") "Accepted")
      then mret (gw_json 200 [("message", VStr "Ignored non-accepted submission")]) else
      let authID := user_id u in
      try_catch
        (activeRoomRes ← call (mkUpstream "GET" (central "/api/rooms/active") (secret_headers authID) None);
         if negb (res_ok activeRoomRes) then mret (error_json 500 "Failed to check active room") else
         activeRoomData ← g_json activeRoomRes;
         roomID ← lift (get activeRoomData "roomID");
         if negb (truthy roomID) then mret (gw_json 200 [("message", VStr "No active room for user")]) else
         lookupRes ← call (mkUpstream "GET" (central ("/api/problems/lookup?slug=" +:+ to_str (f "slug"))) (secret_headers authID) None);
         if negb (res_ok lookupRes) then mret (error_json 500 "Problem lookup failed") else
         problemData ← g_json lookupRes;
         data ← lift (get problemData "data");
         let problemID := get_opt data "id" in
         if negb (truthy problemID) then mret (error_json 404 "Problem not found") else
         submitRes ← call (mkUpstream "POST" (central ("/api/rooms/" +:+ to_str roomID +:+ "/" +:+ to_str problemID))
           (secret_headers authID ++ [("Content-Type", "application/json")])
           (Some (VObj [("code", f "code"); ("language", f "language"); ("runtime", f "runtime"); ("memory", f "memory");
                        ("verdict", f "status")])));
         if negb (res_ok submitRes) then mret (error_json 500 "Failed to submit score") else
         spawn (PushToGithub authID (f "slug") (f "language") (f "code")) ;;
         statsRes ← call (mkUpstream "POST" (central ("/api/statistics/" +:+ to_str roomID +:+ "/update")) (json_headers authID)
           (Some (VObj [("runtime", f "runtime"); ("difficulty", get_opt data "difficulty")])));
         mret (gw_json 200 [("success", VBool true); ("message", VStr "Score submitted")]))
        (fun _ => mret (error_json 500 "Internal server error"))
  end.

(** *** config/redis.js *)

Definition getStoredGithubToken (userId : string) : GM (option string) := rds (redis_get ("gh_token:" +:+ userId)).
Definition saveGithubToken (userId token : string) : GM unit := rds (redis_set ("gh_token:" +:+ userId) token).
Definition deleteStoredGithubToken (userId : string) : GM unit := rds (redis_del ("gh_token:" +:+ userId)).
Definition getGithubRepoLink (userId : string) : GM Val :=
  link ← rds (redis_get ("gh_repo:" +:+ userId));
  match link with Some (String _ _ as l) => lift (json_parse l) | _ => mret VNull end.
Definition saveGithubRepoLink (userId : string) (link : string * string) : GM unit :=
  rds (redis_set ("gh_repo:" +:+ userId) (json_stringify (VObj [("token", VStr link.1); ("username", VStr link.2)]))).

(** *** config/github.js *)

Definition revokeGithubToken (token : string) : GM Response :=
  call (mkUpstream "DELETE" ("https://api.github.com/applications/" +:+ GITHUB_CLIENT_ID E +:+ "/token")
    [("Authorization", "Basic " +:+ base64 (GITHUB_CLIENT_ID E +:+ ":" +:+ GITHUB_CLIENT_SECRET E));
     ("Accept", "application/vnd.github+json"); ("Content-Type", "application/json")]
    (Some (VObj [("access_token", VStr token)]))).

Definition SUBMISSION_REPO : string := "BSG-Submissions".
Definition githubHeaders (token : string) : list (string * string) :=
  [("Authorization", "Bearer " +:+ token); ("Accept", "application/vnd.github+json"); ("Content-Type", "application/json")].

Definition createSubmissionRepo (token : string) : GM unit :=
  response ← call (mkUpstream "POST" "https://api.github.com/user/repos" (githubHeaders token)
    (Some (VObj [("name", VStr SUBMISSION_REPO); ("description", VStr "Solutions submitted during BSG rounds")])));
  when (negb (res_ok response) && negb (status response =? 422)%Z) (throw (js_error "Repo creation failed")).

Definition commitSolution (token owner path : string) (code : string) (message : string) : GM unit :=
  let fileUrl := "https://api.github.com/repos/" +:+ owner +:+ "/" +:+ SUBMISSION_REPO +:+ "/contents/" +:+ path in
  existing ← call (mkUpstream "GET" fileUrl (githubHeaders token) None);
  sha ← (if res_ok existing then d ← g_json existing; lift (get d "sha") else mret VUndef);
  response ← call (mkUpstream "PUT" fileUrl (githubHeaders token)
    (Some (VObj [("message", VStr message); ("content", VStr (base64 code)); ("sha", sha)])));
  when (negb (res_ok response)) (throw (js_error "Commit failed")).

(** [Buffer.from(code)] of something that is no text throws. *)
Definition pushToGithub (authID : string) (slug language code : Val) : GM unit :=
  link ← getGithubRepoLink authID;
  if negb (truthy link) then mret tt else
  match code with
  | VStr c => commitSolution (to_str (prop link "token")) (to_str (prop link "username")) (solutionPath slug language) c
                ("Solved " +:+ to_str slug)
  | _ =>
      let fileUrl := "https://api.github.com/repos/" +:+ to_str (prop link "username") +:+ "/" +:+ SUBMISSION_REPO +:+ "/contents/"
                       +:+ solutionPath slug language in
      existing ← call (mkUpstream "GET" fileUrl (githubHeaders (to_str (prop link "token"))) None);
      (if res_ok existing then d ← g_json existing; lift (get d "sha") else mret VUndef) ;;
      throw type_error
  end.

(** *** config/passport.js *)

Definition opt_text (o : option string) : Val := match o with Some t => VStr t | None => VUndef end.
(** [name.split(' ')[0]] and [name.split(' ').slice(1).join(' ')] *)
Definition first_name (name : string) : string := default "" (head (split_on " " name)).
Definition last_name (name : string) : string := join " " (tail (split_on " " name)).

(** [x || d] for a text that may be absent *)
Definition text_or_else (x : option string) (d : string) : string := match x with Some EmptyString | None => d | Some t => t end.

Definition user_data (first last : string) (handle : Val) (u : User) : Val :=
  VObj [("firstName", VStr first); ("lastName", VStr last); ("handle", handle);
        ("email", user_email u); ("photoURL", user_photo u)].

(** The user, and the call that stores it; a profile without an e-mail throws. *)
Definition googleVerify (token : string) (p : Profile) : GM User :=
  let named (given : option string) (part : string -> string) : GM string :=
    match given, displayName p with
    | Some (String _ _ as t), _ => mret t
    | _, Some name => mret (part name)
    | _, None => throw type_error
    end in
  match emails p with
  | [] => throw type_error
  | email :: _ =>
      let u := mkUser (p_id p) (opt_text (displayName p)) (VStr email) (opt_text (head (photos p))) (Some token) "google" in
      first ← named (givenName p) first_name;
      last ← named (familyName p) last_name;
      spawn (SyncUser (user_id u) (user_data first last (opt_text (displayName p)) u)) ;;
      mret u
  end.

Definition githubVerify (token : string) (p : Profile) : GM User :=
  let name := text_or_else (displayName p) (p_username p) in
  let u := mkUser (p_id p) (VStr name) (opt_text (head (emails p))) (opt_text (head (photos p))) (Some token) "github" in
  spawn (SyncUser (user_id u) (user_data (first_name name) (last_name name) (VStr name) u)) ;;
  try_catch
    (previous ← getStoredGithubToken (user_id u);
     match previous with
     | Some t => when (negb (String.eqb t "") && negb (String.eqb t token)) (revokeGithubToken t ;; mret tt)
     | None => mret tt
     end ;;
     saveGithubToken (user_id u) token)
    (fun _ => mret tt) ;;
  mret u.

(** github-connect: what becomes [req.account]. *)
Definition connectVerify (token : string) (p : Profile) : GM (string * string) :=
  createSubmissionRepo token ;; mret (token, p_username p).

(** *** Tasks *)

Definition run_task (t : Task) : GM unit :=
  try_catch
    match t with
    | PushToGithub authID slug language code => pushToGithub authID slug language code
    | SyncUser authID data =>
        res ← call (mkUpstream "POST" (central "/api/users/") (json_headers authID) (Some data));
        when (negb (res_ok res)) (call (mkUpstream "PUT" (central "/api/users/") (json_headers authID) (Some data)) ;; mret tt)
    | RevokeToken token => revokeGithubToken token ;; mret tt
    end
    (fun _ => mret tt).

(** The oldest task runs. *)
Definition next_task : GM unit :=
  ts ← read g_tasks;
  match ts with
  | [] => mret tt
  | t :: ts => modify (fun g => mkGw (g_redis g) (g_net g) (g_log g) (g_now g) ts) ;; run_task t
  end.

(** *** routes/auth.js *)

Definition authGoogle (_ : HttpReq) : GM HttpReply := mret (ROAuth "google" ["profile"; "email"]).
Definition googleCallback (req : HttpReq) : GM HttpReply :=
  match h_oauth req with Some _ => mret (RRedirect "/auth/done") | None => mret (RRedirect "/auth/google") end.
Definition authDone (req : HttpReq) : GM HttpReply :=
  match list_find (fun kv => kv.1 = "error") (h_query req) with
  | Some (_, (_, v)) => mret (RPage (if String.eqb v "" then "done" else "failed"))
  | None => mret (RPage "done")
  end.
Definition authUser (req : HttpReq) : GM HttpReply :=
  match h_user req with
  | Some u => mret (gw_json 200 [("id", VStr (user_id u)); ("name", user_name u); ("email", user_email u); ("photo", user_photo u)])
  | None => mret (error_json 401 "Not authenticated")
  end.

(** The token is taken back where it was given; failures do not keep the user signed in. *)
Definition revokeLogin (u : User) : GM unit :=
  match accessToken u with
  | Some (String _ _ as token) =>
      try_catch
        (if String.eqb (provider u) "github" then
           response ← revokeGithubToken token;
           when (res_ok response) (deleteStoredGithubToken (user_id u))
         else if String.eqb (provider u) "google" then
           call (mkUpstream "POST" ("https://oauth2.googleapis.com/revoke?token=" +:+ token) [] None) ;; mret tt
         else mret tt)
        (fun _ => mret tt)
  | _ => mret tt
  end.

Definition authLogout (req : HttpReq) : GM HttpReply :=
  match h_user req with Some u => revokeLogin u | None => mret tt end ;;
  if h_logoutError req
  then mret (gw_json 500 [("success", VBool false); ("message", VStr "Error logging out")]) else
  g_emit SessionLogout ;;
  if h_destroyError req
  then mret (gw_json 500 [("success", VBool false); ("message", VStr "Error destroying session")]) else
  g_emit SessionDestroy ;; g_emit ClearCookie ;;
  mret (gw_json 200 [("success", VBool true); ("message", VStr "Logged out successfully")]).

Definition authGithub (_ : HttpReq) : GM HttpReply := mret (ROAuth "github" ["user:email"]).
Definition githubConnect (req : HttpReq) : GM HttpReply :=
  match h_user req with
  | None => mret (RText 401 "Log in to BSG before connecting GitHub")
  | Some _ => mret (ROAuth "github-connect" ["public_repo"])
  end.
Definition connectStatus (req : HttpReq) : GM HttpReply :=
  match h_user req with
  | None => mret (error_json 401 "Not authenticated")
  | Some u =>
      try_catch
        (link ← getGithubRepoLink (user_id u);
         mret (gw_json 200 [("connected", VBool (truthy link));
                            ("username", if is_nullish (get_opt link "username") then VNull else get_opt link "username")]))
        (fun _ => mret (error_json 500 "Failed to check GitHub connection"))
  end.

(** The handler, with the account that passport.authorize leaves *)
Definition connectHandler (account : option (string * string)) (req : HttpReq) : GM HttpReply :=
  match h_user req, account with
  | Some u, Some account =>
      try_catch
        (saveGithubRepoLink (user_id u) account ;; mret (RRedirect "/auth/done"))
        (fun _ => spawn (RevokeToken account.1) ;; mret (RRedirect "/auth/done?error=github_connect"))
  | _, _ =>
      match account with
      | Some (token, _) => when (negb (String.eqb token "")) (spawn (RevokeToken token))
      | None => mret tt
      end ;;
      mret (RRedirect "/auth/done?error=github_connect")
  end.
(** Behind passport.authorize: a refusal is redirected, the handler runs with what the strategy ends with, and its
    error goes to Express, which answers 500. *)
Definition connectCallback (req : HttpReq) : GM HttpReply :=
  match h_grant req with
  | None => mret (RRedirect "/auth/done?error=github_connect")
  | Some (token, p) => account ← connectVerify token p; connectHandler (Some account) req
  end.
Definition githubCallback (req : HttpReq) : GM HttpReply :=
  match h_oauth req with Some _ => mret (RRedirect "/auth/done") | None => mret (RRedirect "/") end.

Definition auth_routes : list (string * list Seg * (HttpReq -> GM HttpReply)) :=
  [("GET", [Lit "google"], authGoogle);
   ("GET", [Lit "google"; Lit "callback"], googleCallback);
   ("GET", [Lit "done"], authDone);
   ("GET", [Lit "user"], authUser);
   ("POST", [Lit "logout"], authLogout);
   ("GET", [Lit "github"], authGithub);
   ("GET", [Lit "github"; Lit "connect"], githubConnect);
   ("GET", [Lit "github"; Lit "connect"; Lit "status"], connectStatus);
   ("GET", [Lit "github"; Lit "callback"; Lit "connect"], connectCallback);
   ("GET", [Lit "github"; Lit "callback"], githubCallback)].

(** *** index.js *)

Definition ensureAuth (h : Handler) (params : list string) (req : HttpReq) : GM HttpReply :=
  match h_user req with
  | None => mret (error_json 401 "Not authenticated")
  | Some u => h u params req
  end.

Definition authRateLimit : RateLimiter :=
  limiter_of (mkOptions (Some 60) (Some 120) (Some "ratelimit:auth:") None (Some false))%Z.
Definition globalRateLimit : RateLimiter :=
  limiter_of (mkOptions (Some 60) (Some 600) (Some "ratelimit:global:") None (Some false))%Z.

(** The limiter as a middleware of the application. *)
Definition limited (l : RateLimiter) (req : HttpReq) (next : GM HttpReply) : GM HttpReply :=
  now ← read g_now;
  r ← rds (rateLimit l now (user_id <$> h_user req) (h_ip req));
  match r.2 with Some a => mret (RJson a) | None => next end.

(** A router of authenticated routes; the rest of the application when none matches. *)
Definition serve (table : list (string * list Seg * Handler)) (segs : list string) (req : HttpReq)
    (next : GM HttpReply) : GM HttpReply :=
  match find_route table (h_method req) segs with
  | None => next
  | Some (raw, h) =>
      match mapM decode_uri raw with
      | None => mret (RText 400 "Bad Request")
      | Some params => ensureAuth h params req
      end
  end.

Definition health (ready : bool) : GM HttpReply :=
  now ← read g_now;
  mret (gw_json 200 [("status", VStr "ok"); ("redis", VStr (if ready then "ok" else "not ready"));
                     ("timestamp", VStr (isoDate E now))]).

(** The routers behind the global limiter. *)
Definition routers (ready : bool) (segs : list string) (req : HttpReq) : GM HttpReply :=
  match mounted "rooms" segs with Some rest => serve rooms_routes rest req (mret RNotFound) | None =>
  match mounted "problems" segs with Some rest => serve problems_routes rest req (mret RNotFound) | None =>
  match mounted "submission" segs with
  | Some rest => match find_route [("POST", [], tt)] (h_method req) rest with Some _ => submission (h_user req) req | None => mret RNotFound end
  | None =>
  match mounted "statistics" segs with Some rest => serve statistics_routes rest req (mret RNotFound) | None =>
  match find_route [("GET", [Lit "health"], tt)] (h_method req) segs with Some _ => health ready | None => mret RNotFound end
  end end end end.

Definition app (ready : bool) (req : HttpReq) : GM HttpReply :=
  match validate (h_method req) (h_contentType req) (h_contentLength req) (truthy (h_body req)) with
  | Some a => mret (RJson a)
  | None =>
      let segs := path_segments (h_path req) in
      let rest := limited globalRateLimit req (routers ready segs req) in
      match mounted "auth" segs with
      | None => rest
      | Some auth =>
          limited authRateLimit req
            (match find_route auth_routes (h_method req) auth with
             | Some (_, h) => h req
             | None => rest
             end)
      end
  end.
End gateway.
