(* ===== verification/GatewaySpec.v ===== *)
(** * What the gateway promises

    Theorems about [Gateway.v]: nothing leaves the gateway for a caller without a
    session; the requests of the panel reach the service they are meant for, with the
    caller's identity, and its answers come back unchanged; a submission is scored at most
    once and pushed only after it was scored; signing out. *)

From S2P Require Export Wp Gateway.
From Stdlib Require Import Ascii.

(** ** What a handler keeps *)

Section kept.
Context {S : Type}.

(** The calls and the tasks are the ones before. *)
Definition calm (g g' : Gw S) : Prop := g_log g' = g_log g /\ g_tasks g' = g_tasks g /\ g_net g' = g_net g /\ g_now g' = g_now g.

#[export] Instance calm_preorder : PreOrder calm.
Proof.
  split; [by intros g|]. intros g1 g2 g3 (A1 & B1 & C1 & D1) (A2 & B2 & C2 & D2). unfold calm.
  by rewrite A2, B2, C2, D2.
Qed.

Lemma steps_rds {A} (m : M S A) : steps calm (rds m).
Proof. intros g. unfold rds, zoom. by destruct (m (g_redis g)). Qed.
End kept.

Section lemmas.
Context {S : Type} `{RedisClient S} `{JsonCodec} `{Express} (E : Env).

(** A check of the limiter always has a verdict. *)
Lemma checkLimit_total l now identifier (s : S) : exists v, (checkLimit l now identifier s).1 = Ok v.
Proof.
  unfold checkLimit, try_catch. match goal with |- context [match ?m s with _ => _ end] => destruct (m s) as [[v|e] s'] end.
  - by exists v.
  - by eexists.
Qed.

Lemma rateLimit_total l now user ip (g : Gw S) :
  exists hs a g', rds (rateLimit l now user ip) g = (Ok (hs, a), g') /\ calm g g' /\
    (a = None \/ a = Some (too_many "Rate limit exceeded" (windowSeconds l))).
Proof.
  unfold rds, zoom, rateLimit, mbind, m_bind.
  destruct (checkLimit_total l now (getIdentifier user ip (bool_decide (is_Some user))) (g_redis g)) as [v Hv].
  destruct (checkLimit l now _ (g_redis g)) as [r s']. cbn in Hv. subst r. cbn.
  eexists _, _, _. split; [done|]. split; [done|]. destruct (allowed v); auto.
Qed.

(** The limiter in front of a handler: 429, or the handler. *)
Lemma limited_cases l req (next : M (Gw S) HttpReply) g :
  exists g', calm g g' /\
    (limited l req next g = (Ok (RJson (too_many "Rate limit exceeded" (windowSeconds l))), g') \/ limited l req next g = next g').
Proof.
  unfold limited, mbind, m_bind, read.
  destruct (rateLimit_total l (g_now g) (user_id <$> h_user req) (h_ip req) g) as (hs & a & g' & Hr & Hc & Ha).
  rewrite Hr. exists g'. split; [done|]. destruct Ha as [->| ->]; cbn; auto.
Qed.

(** ** Nothing for strangers *)

(** What a caller without a session gets. *)
Definition refused (r : HttpReply) : Prop :=
  match r with
  | RNotFound => True
  | RJson a => a_status a = 401%Z \/ a_status a = 400%Z \/ a_status a = 429%Z
  | RText st _ => st = 400%Z
  | _ => False
  end.

Lemma serve_refuses table segs req next (g : Gw S) : h_user req = None ->
  serve table segs req next g = next g \/ exists r, serve table segs req next g = (Ok r, g) /\ refused r.
Proof.
  intros Hu. unfold serve. destruct (find_route table (h_method req) segs) as [[raw h]|]; [right|by left].
  destruct (mapM decode_uri raw); eexists; (split; [|]).
  - unfold ensureAuth. by rewrite Hu.
  - cbn. auto.
  - done.
  - cbn. auto.
Qed.

Lemma serve_refuses_here table segs req (g : Gw S) : h_user req = None ->
  exists r, serve table segs req (mret RNotFound) g = (Ok r, g) /\ refused r.
Proof. intros Hu. destruct (serve_refuses table segs req (mret RNotFound) g Hu) as [->|Hr]; [by exists RNotFound|done]. Qed.

(** The answer of the health check *)
Definition healthy (r : HttpReply) : Prop := exists ready t, r = gw_json 200
  [("status", VStr "ok"); ("redis", VStr ready); ("timestamp", VStr t)].

Lemma routers_refuse ready segs req (g : Gw S) : h_user req = None ->
  exists r, routers E ready segs req g = (Ok r, g) /\ (refused r \/ (healthy r /\ match_path [Lit "health"] segs <> None)).
Proof.
  intros Hu. unfold routers.
  assert (Hs : forall table rest, exists r, serve table rest req (mret RNotFound) g = (Ok r, g) /\
            (refused r \/ (healthy r /\ match_path [Lit "health"] segs <> None))).
  { intros table rest. destruct (serve_refuses_here table rest req g Hu) as (r & Hr & Hf). exists r. auto. }
  destruct (mounted "rooms" segs); [apply Hs|]. destruct (mounted "problems" segs); [apply Hs|].
  destruct (mounted "submission" segs) as [rest|].
  { destruct (find_route _ _ rest); [|by exists RNotFound; split; [|left]].
    exists (error_json 401 "Not authenticated"). unfold submission. rewrite Hu. split; [done|]. left. cbn. auto. }
  destruct (mounted "statistics" segs); [apply Hs|]. cbn [find_route].
  destruct (method_is (h_method req) "GET"); [|by exists RNotFound; split; [|left]].
  destruct (match_path [Lit "health"] segs) eqn:Eh; [|by exists RNotFound; split; [|left]].
  eexists. split; [reflexivity|]. right. split; [|done]. by eexists _, _.
Qed.

(** ** Passing on *)

(** The answer of a service, as a proxy hands it to its caller. *)
Definition relayed (net : list NetReply) : HttpReply :=
  match net with
  | Reply _ st (Some v) :: _ => RJson (mkAnswer st v)
  | _ => error_json 500 "Internal server error"
  end.

Lemma pass_on_outcome u (g : Gw S) :
  exists g', pass_on u g = (Ok (relayed (g_net g)), g') /\ g_log g' = g_log g ++ [Call u] /\ g_tasks g' = g_tasks g.
Proof.
  unfold pass_on, call, g_emit, g_json. js_unfold. cbn.
  destruct (g_net g) as [|[e|d st [v|]] net]; cbn; by eexists.
Qed.
End lemmas.

(** ** Theorems *)

(** C18: Nothing is done for a stranger.  Whatever a request without a session asks of the gateway outside
    /auth, no service is called and no work is scheduled; the answer is the health check at /health, or else one of
    401, 400 (a body that is no JSON, or a malformed path), 429 (too many requests) and not found. *)
Theorem strangers_refused {S} `{RedisClient S} `{JsonCodec} `{Express} (E : Env) (ready : bool) (req : HttpReq) (g : Gw S) :
  h_user req = None -> mounted "auth" (path_segments (h_path req)) = None ->
  exists r g', app E ready req g = (Ok r, g') /\ g_log g' = g_log g /\ g_tasks g' = g_tasks g /\
    (refused r \/ (healthy r /\ match_path [Lit "health"] (path_segments (h_path req)) <> None)).
Proof.
  intros Hu Ha. unfold app, validate. destruct (_ && _ && _).
  { eexists _, g. split; [done|]. repeat split; try done. left. cbn. auto. }
  cbv zeta. rewrite Ha.
  destruct (limited_cases globalRateLimit req (routers E ready (path_segments (h_path req)) req) g) as (g' & (L & T & _) & Hr).
  destruct Hr as [->| ->].
  - eexists _, g'. split; [done|]. repeat split; try done. left. cbn. auto.
  - destruct (routers_refuse E ready (path_segments (h_path req)) req g' Hu) as (r & -> & Hr).
    by exists r, g'.
Qed.

(** ** The requests of the panel *)

Inductive PanelCall :=
| CreateRoom (body : Val) | Participants (rid : string) | CreateRound (rid : string) (body : Val)
| RoundTime (rid : string) (body : Val) | Start (rid : string) | Join (rid : string) | Active | Room (rid : string)
| Leave (rid : string) | End_ (rid : string) | Leaderboard (rid : string) | RoundDetails (rid : string)
| Tags | Companies | ProblemList | ProblemCount (query : list (string * string)).

Definition panel_method (c : PanelCall) : string :=
  match c with
  | CreateRoom _ | CreateRound _ _ | RoundTime _ _ | Start _ | Join _ | Leave _ | End_ _ => "POST"
  | _ => "GET"
  end.
(** The path behind the server's URL *)
Definition panel_path (c : PanelCall) : string :=
  match c with
  | CreateRoom _ => "/rooms"
  | Participants rid => "/rooms/" +:+ rid +:+ "/participants"
  | CreateRound rid _ => "/rooms/" +:+ rid +:+ "/rounds/create"
  | RoundTime rid _ => "/rooms/" +:+ rid +:+ "/rounds/time"
  | Start rid => "/rooms/" +:+ rid +:+ "/start"
  | Join rid => "/rooms/" +:+ rid +:+ "/join"
  | Active => "/rooms/active"
  | Room rid => "/rooms/" +:+ rid
  | Leave rid => "/rooms/" +:+ rid +:+ "/leave"
  | End_ rid => "/rooms/" +:+ rid +:+ "/end"
  | Leaderboard rid => "/rooms/" +:+ rid +:+ "/leaderboard"
  | RoundDetails rid => "/rooms/" +:+ rid +:+ "/round-details"
  | Tags => "/problems/tags"
  | Companies => "/problems/companies"
  | ProblemList => "/problems/list"
  | ProblemCount _ => "/problems/count"
  end.
Definition panel_body (c : PanelCall) : Val :=
  match c with CreateRoom b | CreateRound _ b | RoundTime _ b => b | _ => VUndef end.
Definition panel_room (c : PanelCall) : option string :=
  match c with
  | Participants rid | CreateRound rid _ | RoundTime rid _ | Start rid | Join rid | Room rid | Leave rid | End_ rid
  | Leaderboard rid | RoundDetails rid => Some rid
  | _ => None
  end.

(** The request as it arrives at the gateway, with its session. *)
Definition received (c : PanelCall) (u : User) (ip : string) : HttpReq :=
  mkHttpReq (panel_method c) (panel_path c) (match c with ProblemCount q => q | _ => [] end) (panel_body c)
    (if truthy (panel_body c) then Some "application/json" else None) None ip (Some u) None None false false.

(** What the service is asked for it: the same method and path below /api, with the
    caller's identity and the gateway's secret. *)
Definition service_call (E : Env) (c : PanelCall) (u : User) : Upstream :=
  mkUpstream (panel_method c)
    (central E ("/api" +:+ match c with
                           | CreateRoom _ => "/rooms/"
                           | ProblemCount q => "/problems/count?" +:+ count_params q
                           | _ => panel_path c
                           end))
    (match c with CreateRoom _ | CreateRound _ _ | RoundTime _ _ => json_headers E (user_id u) | _ => secret_headers E (user_id u) end)
    (stringified (panel_body c)).

(** A room's id as the services give it out: no separator, no escape, and not the word that
    names the user's active room. *)
Definition plain_id (rid : string) : Prop :=
  str_forall (fun a => negb (Ascii.eqb a "/" || Ascii.eqb a "%")) rid = true /\ rid <> "" /\ to_lower rid <> "active".

Lemma plain_no_slash rid : plain_id rid -> str_forall (fun a => negb (Ascii.eqb a "/")) rid = true.
Proof.
  intros [Hp _]. induction rid as [|a rid IH]; [done|]. cbn in *. apply andb_prop in Hp as [Ha Hp].
  apply negb_true_iff, orb_false_elim in Ha as [-> _]. by apply IH.
Qed.

Lemma decode_plain rid : str_forall (fun a => negb (Ascii.eqb a "/" || Ascii.eqb a "%")) rid = true -> decode_uri rid = Some rid.
Proof.
  induction rid as [|a rid IH]; [done|]. cbn. rewrite andb_true_iff, negb_true_iff, orb_false_iff.
  intros [[_ ->] Hr]. by rewrite IH.
Qed.

(** The laws of Express fix the routes of the gateway. *)
Section express.
Context `{ExpressLaws}.

Lemma match_path_laws pat segs : match_path pat segs = demo_match pat segs.
Proof.
  revert segs; induction pat as [|[s|] pat IH]; intros [|t segs]; cbn [demo_match].
  - apply match_end.
  - apply match_longer.
  - apply match_shorter.
  - rewrite match_lit. by destruct (String.eqb _ _).
  - apply match_shorter.
  - rewrite match_param. destruct (String.eqb t ""); [done|]. by rewrite IH.
Qed.

Lemma find_route_laws {A} (table : list (string * list Seg * A)) m segs : m <> "HEAD" ->
  find_route table m segs = @find_route demo_express _ table m segs.
Proof.
  intros Hm. induction table as [|[[r pat] h] table IH]; [done|]. cbn [find_route].
  by rewrite method_same, (@method_same _ demo_express_laws), match_path_laws, IH.
Qed.

Lemma room_segments rid l : plain_id rid ->
  Forall (fun s => str_forall (fun a => negb (Ascii.eqb a "/")) s = true) l -> last l <> Some "" ->
  path_segments (join "/" ("" :: "rooms" :: rid :: l)) = "rooms" :: rid :: l.
Proof.
  intros Hr Hl Hlast. apply segments_of_path; [done| |].
  - destruct l as [|x l]; [|done]. cbn. destruct Hr as (_ & Hne & _). congruence.
  - repeat constructor; [by apply plain_no_slash|done].
Qed.
End express.

(** The side conditions of a route below a room. *)
Lemma not_active rid : plain_id rid -> String.eqb (to_lower "active") (to_lower rid) = false.
Proof. intros (_ & _ & Hn). apply String.eqb_neq. intros He. apply Hn. by rewrite <- He. Qed.
Lemma not_empty rid : plain_id rid -> String.eqb rid "" = false.
Proof. intros (_ & Hn & _). by apply String.eqb_neq. Qed.

Section forwarding.
Context {S : Type} `{RedisClient S} `{JsonCodec} `{ExpressLaws} (E : Env).

(** Where the routers take the call. *)
Definition leads_to c u ip ready (g : Gw S) : Prop :=
  mounted "auth" (path_segments (panel_path c)) = None /\
  routers E ready (path_segments (panel_path c)) (received c u ip) g = pass_on (service_call E c u) g.

(** A route of a router takes the call to its service. *)
Lemma served prefix table c u ip ready (g : Gw S) rest raw h :
  prefix = "rooms" /\ table = rooms_routes E \/ prefix = "problems" /\ table = problems_routes E ->
  path_segments (panel_path c) = prefix :: rest ->
  @find_route demo_express _ table (panel_method c) rest = Some (raw, h) -> mapM decode_uri raw = Some raw ->
  h u raw (received c u ip) g = pass_on (service_call E c u) g -> leads_to c u ip ready g.
Proof.
  intros Ht Hs Hf Hd Hh. unfold leads_to. rewrite Hs, mounted_at. split; [by destruct Ht as [[-> _]|[-> _]]|].
  transitivity (serve table rest (received c u ip) (mret RNotFound) g).
  - unfold routers. by destruct Ht as [[-> ->]|[-> ->]]; rewrite !mounted_at.
  - unfold serve. cbn [h_method received]. rewrite find_route_laws by (by destruct c). rewrite Hf, Hd. exact Hh.
Qed.

Lemma submission_served ready req (g : Gw S) : h_method req = "POST" ->
  routers E ready ["submission"] req g = submission E (h_user req) req g.
Proof.
  intros Hm. unfold routers. rewrite !mounted_at, Hm.
  change (String.eqb (to_lower "rooms") (to_lower "submission")) with false.
  change (String.eqb (to_lower "problems") (to_lower "submission")) with false.
  change (String.eqb (to_lower "submission") (to_lower "submission")) with true.
  cbv beta iota. by rewrite find_route_laws.
Qed.

Lemma room_served c u ip ready (g : Gw S) rid l h : plain_id rid -> panel_path c = join "/" ("" :: "rooms" :: rid :: l) ->
  Forall (fun s => str_forall (fun a => negb (Ascii.eqb a "/")) s = true) l -> last l <> Some "" ->
  @find_route demo_express _ (rooms_routes E) (panel_method c) (rid :: l) = Some ([rid], h) ->
  h u [rid] (received c u ip) g = pass_on (service_call E c u) g -> leads_to c u ip ready g.
Proof.
  intros Hp Hpath Hl Hlast Hf Hh. apply (served "rooms" (rooms_routes E) _ _ _ _ _ (rid :: l) [rid] h); [by left| |done| |done].
  - by rewrite Hpath, room_segments.
  - cbn. destruct Hp as [Hd _]. by rewrite (decode_plain rid Hd).
Qed.

Tactic Notation "room_route" constr(rid) constr(l) uconstr(h) constr(Hr) :=
  apply (room_served _ _ _ _ _ rid l h Hr); [done|repeat constructor|done| |done];
  cbn [find_route rooms_routes match_path method_is panel_method demo_express demo_match];
  rewrite ?(not_active _ Hr), ?(not_empty _ Hr); done.
Tactic Notation "plain_route" constr(prefix) uconstr(table) constr(rest) uconstr(h) :=
  apply (served prefix table _ _ _ _ _ rest (@nil string) h); [tauto| |done|done|done];
  exact (segments_of_path (prefix :: rest) ltac:(done) ltac:(done) ltac:(repeat constructor)).

Lemma routed c u ip ready (g : Gw S) : (forall rid, panel_room c = Some rid -> plain_id rid) -> leads_to c u ip ready g.
Proof.
  intros Hp.
  destruct c as [b|rid|rid b|rid b|rid|rid| |rid|rid|rid|rid|rid| | | |q]; try pose proof (Hp rid eq_refl) as Hr.
  - plain_route "rooms" (rooms_routes E) (@nil string) (createRoom E).
  - room_route rid ["participants"] (getParticipants E) Hr.
  - room_route rid ["rounds"; "create"] (createRound E) Hr.
  - room_route rid ["rounds"; "time"] (updateRoundTime E) Hr.
  - room_route rid ["start"] (startRound E) Hr.
  - room_route rid ["join"] (joinRoom E) Hr.
  - plain_route "rooms" (rooms_routes E) ["active"] (activeRoom E).
  - room_route rid (@nil string) (getRoom E) Hr.
  - room_route rid ["leave"] (leaveRoom E) Hr.
  - room_route rid ["end"] (endRound E) Hr.
  - room_route rid ["leaderboard"] (getLeaderboard E) Hr.
  - room_route rid ["round-details"] (getRoundDetails E) Hr.
  - plain_route "problems" (problems_routes E) ["tags"] (getTags E).
  - plain_route "problems" (problems_routes E) ["companies"] (getCompanies E).
  - plain_route "problems" (problems_routes E) ["list"] (getList E).
  - plain_route "problems" (problems_routes E) ["count"] (getCount_problems E).
Qed.
End forwarding.

(** The answer to a call of the panel: 429 without any call, or the service's. *)
Lemma forwarded {S} `{RedisClient S} `{JsonCodec} `{ExpressLaws} (E : Env) (c : PanelCall) (u : User) (ip : string)
    (ready : bool) (g : Gw S) :
  (forall rid, panel_room c = Some rid -> plain_id rid) ->
  exists r g', app E ready (received c u ip) g = (Ok r, g') /\ g_tasks g' = g_tasks g /\
    ((r = RJson (too_many "Rate limit exceeded" (windowSeconds globalRateLimit)) /\ g_log g' = g_log g) \/
     (r = relayed (g_net g) /\ g_log g' = g_log g ++ [Call (service_call E c u)])).
Proof.
  intros Hp. unfold app.
  assert (Hv : validate (h_method (received c u ip)) (h_contentType (received c u ip)) (h_contentLength (received c u ip))
            (truthy (h_body (received c u ip))) = None).
  { destruct c as [b|rid|rid b|rid b|rid|rid| |rid|rid|rid|rid|rid| | | |q]; try reflexivity; cbn; by destruct (truthy b). }
  rewrite Hv. cbv zeta. change (h_path (received c u ip)) with (panel_path c).
  destruct (routed E c u ip ready g Hp) as [-> _].
  match goal with |- context [limited globalRateLimit ?req ?next g] =>
    destruct (limited_cases globalRateLimit req next g) as (g1 & (L & T & N & _) & [->| ->]) end.
  - eexists _, g1. split; [done|]. auto.
  - destruct (routed E c u ip ready g1 Hp) as [_ ->].
    destruct (pass_on_outcome (service_call E c u) g1) as (g2 & -> & L2 & T2).
    eexists _, g2. split; [done|]. rewrite L2, T2, L, T, N. auto.
Qed.

(** C17: The panel's requests reach the service.  A request of the panel for the rooms or the problems with a
    session is either answered 429 without any call, or it leads to exactly one call of the central service,
    with the same method, the same path below /api and the same body, in the name of the session's user
    and with the gateway's secret; and the panel gets the service's status and JSON unchanged, or 500 when there is none.
    For a request that names a room this is so if the id, as it stands in the path that arrives, is not empty, has
    no slash and no percent sign and is not the word active ([plain_id]): the ids and codes of the services are such, but
    a code is typed, and one with an encoded slash reaches another path of the service ([room_id_escapes]), while
    the word active is taken for the user's active room. *)
Theorem panel_calls_forwarded {S} `{RedisClient S} `{JsonCodec} `{ExpressLaws} (E : Env) (c : PanelCall) (u : User) (ip : string)
    (ready : bool) (g : Gw S) :
  (forall rid, panel_room c = Some rid -> plain_id rid) ->
  exists r g', app E ready (received c u ip) g = (Ok r, g') /\ g_tasks g' = g_tasks g /\
    ((r = RJson (too_many "Rate limit exceeded" (windowSeconds globalRateLimit)) /\ g_log g' = g_log g) \/
     (r = relayed (g_net g) /\ g_log g' = g_log g ++ [Call (service_call E c u)])).
Proof. apply forwarded. Qed.

(** ** Submissions *)

Section submissions.
Context {S : Type} (E : Env).

(** An answer that counts: its status is in the two hundreds. *)
Definition ok_reply (n : NetReply) : Prop := exists d st b, n = Reply d st b /\ res_ok (mkResponse st b) = true.
(** The JSON of an answer that counts. *)
Definition ok_json (n : NetReply) (v : Val) : Prop := exists d st, n = Reply d st (Some v) /\ res_ok (mkResponse st (Some v)) = true.

Definition active_call (u : User) : Upstream := mkUpstream "GET" (central E "/api/rooms/active") (secret_headers E (user_id u)) None.
Definition lookup_call (u : User) (slug : Val) : Upstream :=
  mkUpstream "GET" (central E ("/api/problems/lookup?slug=" +:+ to_str slug)) (secret_headers E (user_id u)) None.
(** The call that scores a submission *)
Definition score_call (u : User) (room problem body : Val) : Upstream :=
  mkUpstream "POST" (central E ("/api/rooms/" +:+ to_str room +:+ "/" +:+ to_str problem))
    (secret_headers E (user_id u) ++ [("Content-Type", "application/json")])
    (Some (VObj [("code", prop body "code"); ("language", prop body "language"); ("runtime", prop body "runtime");
                 ("memory", prop body "memory"); ("verdict", prop body "status")])).
Definition stats_call (u : User) (room : Val) (difficulty : Val) (body : Val) : Upstream :=
  mkUpstream "POST" (central E ("/api/statistics/" +:+ to_str room +:+ "/update")) (json_headers E (user_id u))
    (Some (VObj [("runtime", prop body "runtime"); ("difficulty", difficulty)])).

(** What was found out before the [n]th call: the room the user is in, and the problem in it. *)
Definition room_known (net : list NetReply) (room : Val) : Prop :=
  exists n v, net !! 0 = Some n /\ ok_json n v /\ prop v "roomID" = room /\ truthy room = true.
Definition problem_known (net : list NetReply) (problem difficulty : Val) : Prop :=
  exists n v, net !! 1 = Some n /\ ok_json n v /\ prop (prop v "data") "id" = problem /\ truthy problem = true /\
    get_opt (prop v "data") "difficulty" = difficulty.
Definition scored (net : list NetReply) : Prop := exists n, net !! 2 = Some n /\ ok_reply n.

Definition score_submitted : HttpReply := gw_json 200 [("success", VBool true); ("message", VStr "Score submitted")].

Definition answered (o : option NetReply) : bool := match o with Some (Reply _ _ _) => true | _ => false end.

(** How the handling of an accepted submission ends: after which calls, with which work left and
    with which answer. *)
Inductive Handled (u : User) (body : Val) (net : list NetReply) : list Upstream -> list Task -> HttpReply -> Prop :=
| NoRoom r : (forall room, ~ room_known net room) -> r <> score_submitted -> Handled u body net [active_call u] [] r
| NoProblem room r : room_known net room -> (forall problem difficulty, ~ problem_known net problem difficulty) ->
    r <> score_submitted -> Handled u body net [active_call u; lookup_call u (prop body "slug")] [] r
| NotScored room problem difficulty r : room_known net room -> problem_known net problem difficulty -> ~ scored net ->
    r <> score_submitted ->
    Handled u body net [active_call u; lookup_call u (prop body "slug"); score_call u room problem body] [] r
| Scored room problem difficulty : room_known net room -> problem_known net problem difficulty -> scored net ->
    Handled u body net
      [active_call u; lookup_call u (prop body "slug"); score_call u room problem body; stats_call u room difficulty body]
      [PushToGithub (user_id u) (prop body "slug") (prop body "language") (prop body "code")]
      (if answered (net !! 3) then score_submitted else error_json 500 "Internal server error").

(** A call and what follows. *)
Lemma call_bind {A} u (k : Response -> M (Gw S) A) g :
  (call u ≫= k) g =
    let g1 := mkGw (g_redis g) (g_net g) (g_log g ++ [Call u]) (g_now g) (g_tasks g) in
    match g_net g with
    | [] => (Throw network_error, g1)
    | NetFail e :: net => (Throw e, mkGw (g_redis g) net (g_log g1) (g_now g) (g_tasks g))
    | Reply d st b :: net => k (mkResponse st b) (mkGw (g_redis g) net (g_log g1) (g_now g + d)%Z (g_tasks g))
    end.
Proof. unfold call, g_emit. js_unfold. cbn. by destruct (g_net g) as [|[e|d st b] net]. Qed.

Lemma no_room net : (forall d st v rest, net = Reply d st (Some v) :: rest -> res_ok (mkResponse st (Some v)) = true ->
  truthy (prop v "roomID") = false) -> forall room, ~ room_known net room.
Proof.
  intros Hn room (n & v & Hl & (d & st & -> & Hok) & <- & Ht). destruct net as [|n net]; [done|]. cbn in Hl. simplify_eq.
  by rewrite (Hn _ _ _ _ eq_refl Hok) in Ht.
Qed.
Lemma no_problem n net : (forall d st v rest, net = Reply d st (Some v) :: rest -> res_ok (mkResponse st (Some v)) = true ->
  truthy (prop (prop v "data") "id") = false) -> forall p d, ~ problem_known (n :: net) p d.
Proof.
  intros Hn p d (n' & v & Hl & (d' & st & -> & Hok) & <- & Ht & _). destruct net as [|n'' net]; [done|]. cbn in Hl. simplify_eq.
  by rewrite (Hn _ _ _ _ eq_refl Hok) in Ht.
Qed.
Lemma not_scored n n' net : (forall d st b rest, net = Reply d st b :: rest -> res_ok (mkResponse st b) = false) ->
  ~ scored (n :: n' :: net).
Proof.
  intros Hn (n'' & Hl & (d & st & b & -> & Hok)). destruct net as [|? net]; [done|]. cbn in Hl. simplify_eq.
  by rewrite (Hn _ _ _ _ eq_refl) in Hok.
Qed.

Lemma g_json_bind {A} (r : Response) (k : Val -> M (Gw S) A) g :
  (g_json r ≫= k) g = match body r with Some v => k v g | None => (Throw syntax_error, g) end.
Proof. unfold g_json. by destruct (body r). Qed.
Lemma get_bind {A} v key (k : Val -> M (Gw S) A) g :
  (lift (get v key) ≫= k) g = if is_nullish v then (Throw type_error, g) else k (prop v key) g.
Proof. unfold get. by destruct (is_nullish v). Qed.
Lemma prop_nullish v key : is_nullish v = true -> prop v key = VUndef.
Proof. by destruct v. Qed.

Definition handled (u : User) (req : HttpReq) (g : Gw S) (p : Res HttpReply * Gw S) : Prop :=
  exists calls tasks r, p.1 = Ok r /\ Handled u (h_body req) (g_net g) calls tasks r /\
    g_log p.2 = g_log g ++ map Call calls /\ g_tasks p.2 = g_tasks g ++ tasks /\ g_redis p.2 = g_redis g.

(** An end of the handler, by the constructor of [Handled]. *)
Ltac handled_tac c :=
  do 3 eexists; split; [reflexivity|]; split; [cbn; c|];
  split; [by cbn; rewrite <- ?app_assoc|]; split; [by cbn; rewrite ?app_nil_r|reflexivity].


Ltac silent_tac := intros; simplify_eq; first [congruence|done|by rewrite (prop_nullish _ _ ltac:(eassumption))].
Ltac stop1 := handled_tac ltac:(apply NoRoom; [apply no_room; silent_tac|done]).
Ltac stop2 Hroom := handled_tac ltac:(eapply NoProblem; [apply Hroom|apply no_problem; silent_tac|done]).
Ltac stop3 Hroom Hprob := handled_tac ltac:(eapply NotScored; [apply Hroom|apply Hprob|apply not_scored; silent_tac|done]).

Lemma submission_handled u req (g : Gw S) : is_str (prop (h_body req) "status") "Accepted" = true ->
  handled u req g (submission E (Some u) req g).
Proof.
  intros Hs. destruct g as [rd net log now tasks]. unfold submission.
  assert (is_nullish (h_body req) = false) as -> by (by destruct (h_body req)).
  rewrite Hs. cbv zeta. cbn [negb]. unfold try_catch. rewrite call_bind. cbn.
  destruct net as [|[e|d st b] net]; cbn; [stop1..|].
  destruct (res_ok (mkResponse st b)) eqn:E1; cbn [negb]; [|stop1].
  rewrite g_json_bind. cbn [body]. destruct b as [v|]; [|stop1].
  rewrite get_bind. destruct (is_nullish v) eqn:N1; [stop1|].
  destruct (truthy (prop v "roomID")) eqn:T1; cbn [negb]; [|stop1].
  assert (Hroom : forall l', room_known (Reply d st (Some v) :: l') (prop v "roomID")).
  { intros l'. exists (Reply d st (Some v)), v. split; [done|]. split; [by exists d, st|done]. }
  rewrite call_bind. cbn.
  destruct net as [|[e|d' st' b'] net]; cbn; [stop2 Hroom..|].
  destruct (res_ok (mkResponse st' b')) eqn:E2; cbn [negb]; [|stop2 Hroom].
  rewrite g_json_bind. cbn [body]. destruct b' as [v'|]; [|stop2 Hroom].
  rewrite get_bind. destruct (is_nullish v') eqn:N2; [stop2 Hroom|].
  unfold get_opt. destruct (truthy (prop (prop v' "data") "id")) eqn:T2; cbn [negb]; [|stop2 Hroom].
  assert (Hprob : forall n l', problem_known (n :: Reply d' st' (Some v') :: l') (prop (prop v' "data") "id")
            (prop (prop v' "data") "difficulty")).
  { intros n l'. exists (Reply d' st' (Some v')), v'. split; [done|]. split; [by exists d', st'|done]. }
  rewrite call_bind. cbn.
  destruct net as [|[e|d'' st'' b''] net]; cbn; [stop3 Hroom Hprob..|].
  destruct (res_ok (mkResponse st'' b'')) eqn:E3; cbn [negb]; [|stop3 Hroom Hprob].
  assert (Hsc : forall n n' l', scored (n :: n' :: Reply d'' st'' b'' :: l')) by
    (intros n n' l'; exists (Reply d'' st'' b''); split; [done|by exists d'', st'', b'']).
  unfold spawn, call, g_emit. js_unfold. cbn.
  destruct net as [|[e|d3 st3 b3] net]; cbn; handled_tac ltac:(eapply Scored; [apply Hroom|apply Hprob|apply Hsc]).
Qed.
End submissions.

(** C16: A submission is scored at most once, and published only when it was scored.  Handling an accepted
    submission of a user always ends with an answer, whatever the services answer or fail to: it has asked for the
    active room; for the problem only if there is a room; it has scored the submission only if the room's and the problem's
    ids were answered, with the code, the language, the run time and the memory of the request; it publishes the solution
    exactly if the scoring was confirmed, and only then are the statistics updated; success is answered exactly if
    that update was answered in any way. *)
Theorem submission_outcome {S} (E : Env) (u : User) (req : HttpReq) (g : Gw S) :
  is_str (prop (h_body req) "status") "Accepted" = true ->
  exists calls tasks r g', submission E (Some u) req g = (Ok r, g') /\
    g_log g' = g_log g ++ map Call calls /\ g_tasks g' = g_tasks g ++ tasks /\ g_redis g' = g_redis g /\
    Handled E u (h_body req) (g_net g) calls tasks r.
Proof.
  intros Hs. destruct (submission_handled E u req g Hs) as (calls & tasks & r & H1 & H2 & H3 & H4 & H5).
  exists calls, tasks, r, (submission E (Some u) req g).2. split; [|done].
  destruct (submission E (Some u) req g) as [r' g']. cbn in H1. by subst.
Qed.

(** ** Signing out, and accounts *)

Section accounts.
Context {S : Type} `{RedisClient S} `{JsonCodec} `{Express} (E : Env).

(** The call that takes back the token a user signed in with. *)
Definition revocation (u : User) : list Upstream :=
  match accessToken u with
  | None | Some EmptyString => []
  | Some token =>
      if String.eqb (provider u) "github" then
        [mkUpstream "DELETE" ("https://api.github.com/applications/" +:+ GITHUB_CLIENT_ID E +:+ "/token")
           [("Authorization", "Basic " +:+ base64 (GITHUB_CLIENT_ID E +:+ ":" +:+ GITHUB_CLIENT_SECRET E));
            ("Accept", "application/vnd.github+json"); ("Content-Type", "application/json")]
           (Some (VObj [("access_token", VStr token)]))]
      else if String.eqb (provider u) "google" then
        [mkUpstream "POST" ("https://oauth2.googleapis.com/revoke?token=" +:+ token) [] None]
      else []
  end.

Lemma rds_log {A} (m : M S A) (g : Gw S) : g_log (rds m g).2 = g_log g /\ g_tasks (rds m g).2 = g_tasks g.
Proof. unfold rds, zoom. by destruct (m (g_redis g)). Qed.

Lemma revokeLogin_outcome u (g : Gw S) : exists g', revokeLogin E u g = (Ok tt, g') /\
  g_log g' = g_log g ++ map Call (revocation u) /\ g_tasks g' = g_tasks g.
Proof.
  unfold revokeLogin, revocation. destruct (accessToken u) as [[|a t]|];
    [by exists g; rewrite app_nil_r| |by exists g; rewrite app_nil_r].
  unfold try_catch. destruct (String.eqb (provider u) "github").
  - unfold revokeGithubToken. rewrite call_bind. cbn.
    destruct (g_net g) as [|[e|d st b] net]; cbn; [by eexists..|]. unfold when.
    destruct (res_ok _); [|by eexists].
    unfold deleteStoredGithubToken. match goal with |- context [rds ?m ?x] =>
      destruct (rds_log m x) as [L T]; destruct (rds m x) as [[[]|e] g']; cbn in L, T; exists g' end; (split; [reflexivity|]); by rewrite L, T.
  - destruct (String.eqb (provider u) "google"); [|by exists g; rewrite app_nil_r].
    rewrite call_bind. cbn. destruct (g_net g) as [|[e|d st b] net]; cbn; by eexists.
Qed.
End accounts.

(** C23: Signing out does not hang on anything.  Whatever the provider and Redis answer, the token of the user who
    signs out is sent once to the provider it came from, and then the session is left, destroyed and its cookie cleared,
    unless leaving or destroying it fails; the panel is told success exactly if neither failed. *)
Theorem logout_ends_session {S} `{RedisClient S} (E : Env) (req : HttpReq) (g : Gw S) :
  exists r g', authLogout E req g = (Ok (RJson r), g') /\ g_tasks g' = g_tasks g /\
    g_log g' = g_log g ++ map Call (match h_user req with Some u => revocation E u | None => [] end) ++
      (if h_logoutError req then [] else SessionLogout :: if h_destroyError req then [] else [SessionDestroy; ClearCookie]) /\
    a_status r = (if h_logoutError req || h_destroyError req then 500 else 200)%Z /\
    prop (a_body r) "success" = VBool (negb (h_logoutError req || h_destroyError req)).
Proof.
  assert (Hr : exists g', match h_user req with Some u => revokeLogin E u | None => mret tt end g = (Ok tt, g') /\
    g_log g' = g_log g ++ map Call (match h_user req with Some u => revocation E u | None => [] end) /\ g_tasks g' = g_tasks g).
  { destruct (h_user req) as [u|]; [apply revokeLogin_outcome|exists g; by rewrite app_nil_r]. }
  destruct Hr as (g1 & Hr & L & T). unfold authLogout, mbind at 1, m_bind at 1. rewrite Hr.
  destruct (h_logoutError req); cbn [orb]; [eexists _, g1; split; [reflexivity|]; cbn; rewrite L, ?app_nil_r; by split_and!|].
  unfold g_emit. js_unfold. cbn. destruct (h_destroyError req); cbn; eexists _, _;
    (split; [reflexivity|]); cbn; rewrite L, <- ?app_assoc; by split.
Qed.

(** GitHub made the repository for the submissions, or had it already. *)
Definition repo_made (net : list NetReply) : bool :=
  match net with Reply _ st b :: _ => res_ok (mkResponse st b) || (st =? 422)%Z | _ => false end.
Definition repo_call (token : string) : Upstream :=
  mkUpstream "POST" "https://api.github.com/user/repos" (githubHeaders token)
    (Some (VObj [("name", VStr SUBMISSION_REPO); ("description", VStr "Solutions submitted during BSG rounds")])).

Lemma connectVerify_cases {S} token p (g : Gw S) : exists r g', connectVerify token p g = (r, g') /\
  g_log g' = g_log g ++ [Call (repo_call token)] /\ g_redis g' = g_redis g /\ g_tasks g' = g_tasks g /\
  if repo_made (g_net g) then r = Ok (token, p_username p) else exists e, r = Throw e.
Proof.
  unfold connectVerify, createSubmissionRepo. unfold mbind at 1, m_bind at 1. rewrite call_bind. cbv zeta.
  destruct (g_net g) as [|[e|d st b] net]; cbn [repo_made]; try (eexists _, _; split; [reflexivity|]; cbn; by eauto 10).
  unfold when. cbn [status]. destruct (res_ok _), (st =? 422)%Z; cbn; eexists _, _; (split; [reflexivity|]); cbn; by eauto 10.
Qed.

(** What becomes of the token with which GitHub's authorization ends, of the stores and of the tasks: [r] is the answer. *)
Definition account_settled {S} `{RedisClient S} `{JsonCodec} (req : HttpReq) (g g' : Gw S) (r : Res HttpReply) : Prop :=
  match h_grant req with
  | None => r = Ok (RRedirect "/auth/done?error=github_connect") /\ g' = g
  | Some (token, p) =>
      g_log g' = g_log g ++ [Call (repo_call token)] /\
      if repo_made (g_net g) then
        match h_user req with
        | None =>
            r = Ok (RRedirect "/auth/done?error=github_connect") /\ g_redis g' = g_redis g /\
            g_tasks g' = g_tasks g ++ (if String.eqb token "" then [] else [RevokeToken token])
        | Some u =>
            match redis_set ("gh_repo:" +:+ user_id u)
                    (json_stringify (VObj [("token", VStr token); ("username", VStr (p_username p))])) (g_redis g) with
            | (Ok _, s) => r = Ok (RRedirect "/auth/done") /\ g_redis g' = s /\ g_tasks g' = g_tasks g
            | (Throw _, s) => r = Ok (RRedirect "/auth/done?error=github_connect") /\ g_redis g' = s /\
                              g_tasks g' = g_tasks g ++ [RevokeToken token]
            end
        end
      else (exists e, r = Throw e) /\ g_redis g' = g_redis g /\ g_tasks g' = g_tasks g
  end.

(** C24: A GitHub account whose repository was made is kept or given back.  When the authorization of a repository comes
    back with a token, one call asks GitHub for the repository of the submissions.  If GitHub made it or had it already, the token is
    either stored for the user of the session, or work is left that revokes it at GitHub: when Redis fails, and, unless it is empty, when
    nobody is signed in any more.  If GitHub did neither, the request ends with an error, and the token is neither stored nor
    revoked.  Without a token nothing is called, stored or revoked. *)
Theorem account_kept_or_revoked {S} `{RedisClient S} `{JsonCodec} (req : HttpReq) (g : Gw S) :
  account_settled req g (connectCallback req g).2 (connectCallback req g).1.
Proof.
  unfold account_settled, connectCallback. destruct (h_grant req) as [[token p]|]; [|done].
  destruct (connectVerify_cases token p g) as (r & g1 & Hv & L & R & T & Hr).
  assert (Hq : (connectVerify token p ≫= fun account => connectHandler (Some account) req) g =
    match r with Ok a => connectHandler (Some a) req g1 | Throw e => (Throw e, g1) end).
  { unfold mbind, m_bind. rewrite Hv. by destruct r. }
  rewrite Hq. destruct (repo_made (g_net g)); [|destruct Hr as [e ->]; cbn; by eauto 10].
  rewrite Hr. unfold connectHandler, saveGithubRepoLink, try_catch, mbind, m_bind, rds, zoom. destruct (h_user req) as [u|]; cbn [fst snd].
  - rewrite R. destruct (redis_set _ _ (g_redis g)) as [[v|e] s]; cbn; by rewrite ?L, ?T.
  - unfold when. destruct (String.eqb token ""); cbn; by rewrite ?R, ?L, ?T, ?app_nil_r.
Qed.

(** A token for which GitHub makes no repository dangles: it works, and neither Redis nor a task knows of it. *)
Lemma token_dangles {S} `{RedisClient S} `{JsonCodec} (req : HttpReq) (g : Gw S) token p :
  h_grant req = Some (token, p) -> repo_made (g_net g) = false ->
  let '(r, g') := connectCallback req g in
  (exists e, r = Throw e) /\ g_redis g' = g_redis g /\ g_tasks g' = g_tasks g.
Proof.
  intros Hg Hn. unfold connectCallback. rewrite Hg. destruct (connectVerify_cases token p g) as (r & g1 & Hv & _ & R & T & Hr).
  rewrite Hn in Hr. destruct Hr as [e ->]. unfold mbind at 1, m_bind at 1. rewrite Hv. by eauto.
Qed.

(** ** Concrete runs *)

Definition demo_gw_env : Env := mkEnv "http://central" "secret" "client" "hush" (fun _ => "1970-01-01T00:00:00.000Z").
Definition demo_user : User := mkUser "7" VNull VNull VNull (Some "tok") "google".
Definition demo_gw (net : list NetReply) : Gw DemoRedis := mkGw (mkDemoRedis ∅ ∅) net [] 0 [].

Lemma strangers_refused_witness :
  let req := mkHttpReq "POST" "/rooms/abc/start" [] VUndef None None "1.2.3.4" None None None false false in
  exists r g', app demo_gw_env true req (demo_gw []) = (Ok r, g') /\ g_log g' = [] /\ g_tasks g' = [] /\
    (refused r \/ (healthy r /\ match_path [Lit "health"] (path_segments "/rooms/abc/start") <> None)).
Proof. intros req. exact (strangers_refused demo_gw_env true req (demo_gw []) eq_refl eq_refl). Defined.

Lemma panel_calls_forwarded_witness :
  exists r g', app demo_gw_env true (received (Join "abc") demo_user "1.2.3.4") (demo_gw [Reply 5 200 (Some (VObj []))]) = (Ok r, g') /\
    g_tasks g' = [] /\
    ((r = RJson (too_many "Rate limit exceeded" (windowSeconds globalRateLimit)) /\ g_log g' = []) \/
     (r = RJson (mkAnswer 200 (VObj [])) /\ g_log g' = [] ++ [Call (service_call demo_gw_env (Join "abc") demo_user)])).
Proof.
  apply (panel_calls_forwarded demo_gw_env (Join "abc") demo_user "1.2.3.4" true (demo_gw [Reply 5 200 (Some (VObj []))])).
  intros rid [= <-]. split; [reflexivity|]. split; discriminate.
Defined.

Definition demo_body : Val := VObj [("slug", VStr "two-sum"); ("status", VStr "Accepted"); ("code", VStr "x"); ("language", VStr "cpp")].
Lemma submission_outcome_witness :
  exists calls tasks r g', submission demo_gw_env (Some demo_user)
      (mkHttpReq "POST" "/submission" [] demo_body None None "" None None None false false) (demo_gw []) = (Ok r, g') /\
    g_log g' = [] ++ map Call calls /\ g_tasks g' = [] ++ tasks /\ g_redis g' = g_redis (demo_gw []) /\
    Handled demo_gw_env demo_user demo_body [] calls tasks r.
Proof.
  exact (submission_outcome demo_gw_env demo_user
    (mkHttpReq "POST" "/submission" [] demo_body None None "" None None None false false) (demo_gw []) eq_refl).
Defined.

(** A room's id is decoded and put into the URL of the call as it is: an encoded slash leaves the rooms. *)
Lemma room_id_escapes :
  let req := mkHttpReq "POST" "/rooms/..%2Fstatistics%2F1%2Fupdate%3F/start" [] VUndef None None "" (Some demo_user) None None false false in
  (app demo_gw_env true req (demo_gw [])).2.(g_log) =
    [Call (mkUpstream "POST" "http://central/api/rooms/../statistics/1/update?/start" (secret_headers demo_gw_env "7") None)].
Proof. vm_compute. reflexivity. Qed.

(** A solution that was scored and published is answered like a failure when the statistics do not answer. *)
Lemma scored_but_failed :
  let room := VObj [("roomID", VStr "r")] in
  let problem := VObj [("data", VObj [("id", VNum 3)])] in
  let out := submission demo_gw_env (Some demo_user)
    (mkHttpReq "POST" "/submission" [] demo_body None None "" None None None false false)
    (demo_gw [Reply 1 200 (Some room); Reply 1 200 (Some problem); Reply 1 201 None; NetFail network_error]) in
  out.1 = Ok (error_json 500 "Internal server error") /\ length (g_tasks out.2) = 1 /\ length (g_log out.2) = 4.
Proof. vm_compute. done. Qed.
