(* ===== verification/Server.v ===== *)
(** * The gateway in front of the browser

    [index.js] from its start to its middlewares, with [middleware/cors.js], [middleware/logger.js] and [config/redis.js], and what
    [config/passport.js] registers: when the server listens,
    what its session cookie is, and which pages of which origin can call it and read its answers.

    Two parties are not code of the repository.  The package [cors] is a class, with what its documentation says of a list of origins
    and of [credentials].  A browser follows the Fetch standard: a call across origins that is not simple is asked for
    first (the preflight); an answer is readable when its headers name the origin and admit credentials; a cookie that is [lax] goes along
    only when the page belongs to the site.  A panel of the extension has the permission for the gateway's host and counts as one. *)

From S2P Require Export GatewaySpec.
From Stdlib Require Import Ascii.

(** ** config/redis.js, index.js: the start *)

Definition not_ready : Val := VObj [("name", VStr "Error"); ("message", VStr "Redis client is not ready after connect")].

(** [connected]: how [redisClient.connect()] ends; [isReady]: the flag after it.  What is printed is left out. *)
Definition connectToRedis (connected : Res unit) (isReady : bool) : Res unit :=
  _ ← connected; if isReady then Ok tt else Throw not_ready.

Record Cookie := mkCookie { maxAge : Z; httpOnly : bool; secure : bool; sameSite : string }.
Record Listening := mkListening { port : Z; trustProxy : option Z; cookie : Cookie; rolling : bool }.

(** [startServer()]: what listens; nothing does when it throws. *)
Definition startServer (NODE_ENV : option string) (connected : Res unit) (isReady : bool) : Res Listening :=
  _ ← connectToRedis connected isReady;
  let isProduction := bool_decide (NODE_ENV = Some "production") in
  Ok (mkListening 3000 (if isProduction then Some 1%Z else None) (mkCookie 3600000 true isProduction "lax") true).

(** ** middleware/cors.js *)

Definition allowedOrigins (EXTENSION_ID : option string) : list string :=
  [ "chrome-extension://" +:+ match EXTENSION_ID with None | Some EmptyString => "mnllpknljobnjmbaognpclblmpfcllmc" | Some i => i end;
    "https://leetcode.com" ].

(** ** middleware/logger.js: what it prints, and the request goes on *)

Definition logger (authenticated : bool) (sessionID : string) : list string := if authenticated then ["Session ID: " +:+ sessionID] else [].

(** ** config/passport.js: what is registered *)

(** A session holds the user as a whole. *)
Definition serializeUser (user : User) : Res User := Ok user.
Definition deserializeUser (user : User) : Res User := Ok user.

Record Strategy := mkStrategy { strategy_name : string; callbackURL : string; checks_state : bool; sessionKey : option string }.

Definition server_url (SERVER_URL : option string) : string :=
  match SERVER_URL with None | Some EmptyString => "https://api.binarysearchgang.com" | Some u => u end.
Definition google_strategy (SERVER_URL : option string) : Strategy :=
  mkStrategy "google" (server_url SERVER_URL +:+ "/auth/google/callback") true None.
Definition github_strategy (SERVER_URL : option string) : Strategy :=
  mkStrategy "github" (server_url SERVER_URL +:+ "/auth/github/callback") true None.
Definition connect_strategy (SERVER_URL : option string) : Strategy :=
  mkStrategy "github-connect" (default "undefined" SERVER_URL +:+ "/auth/github/callback/connect") true (Some "oauth2:github.com:connect").

(** ** middleware/cors.js, continued *)

(** The package: for a method and an [Origin], the headers it sets, and whether it ends the response itself *)
Class CorsPackage := { cors : list string -> bool -> string -> option string -> list (string * string) * bool }.

Definition header (name : string) (hs : list (string * string)) : option string := snd <$> List.find (fun kv => String.eqb name kv.1) hs.

Class CorsLaws `{CorsPackage} := {
  cors_listed origins cred m o : o ∈ origins -> header "Access-Control-Allow-Origin" (cors origins cred m (Some o)).1 = Some o;
  cors_unlisted origins cred m o : o ∉ origins -> header "Access-Control-Allow-Origin" (cors origins cred m (Some o)).1 = None;
  cors_credentials origins m o : header "Access-Control-Allow-Credentials" (cors origins true m o).1 = Some "true";
  cors_preflight origins cred m o : (cors origins cred m o).2 = String.eqb m "OPTIONS";
}.

(** ** The application behind its middlewares *)

Section server.
Context {S : Type} `{RedisClient S} `{JsonCodec} `{Express} `{CorsPackage} (E : Env) (EXTENSION_ID : option string) (ready : bool).
Abbreviation GM := (M (Gw S)).

(** The validation answers before the headers are set. *)
Definition server (origin : option string) (req : HttpReq) : GM (list (string * string) * HttpReply) :=
  match validate (h_method req) (h_contentType req) (h_contentLength req) (truthy (h_body req)) with
  | Some a => mret ([], RJson a)
  | None =>
      let '(hs, ended) := cors (allowedOrigins EXTENSION_ID) true (h_method req) origin in
      if ended then mret (hs, RText 204 "") else r ← app E ready req; mret (hs, r)
  end.

(** ** A page that calls it *)

(** A call that needs no preflight *)
Definition simple (req : HttpReq) : bool :=
  includes ["GET"; "HEAD"; "POST"] (h_method req) &&
  match h_contentType req with
  | None => true
  | Some t => existsb (fun p => starts_with p t) ["application/x-www-form-urlencoded"; "multipart/form-data"; "text/plain"]
  end.

Definition preflight (req : HttpReq) : HttpReq :=
  mkHttpReq "OPTIONS" (h_path req) (h_query req) VUndef None None (h_ip req) None None None false false.
(** Without the cookie there is no session. *)
Definition without_session (req : HttpReq) : HttpReq :=
  mkHttpReq (h_method req) (h_path req) (h_query req) (h_body req) (h_contentType req) (h_contentLength req) (h_ip req) None None None
    (h_logoutError req) (h_destroyError req).

Definition readable (origin : string) (hs : list (string * string)) : bool :=
  bool_decide (header "Access-Control-Allow-Origin" hs = Some origin) && bool_decide (header "Access-Control-Allow-Credentials" hs = Some "true").

(** [fetch(url, {credentials: 'include'})] of a page of [origin]: the answer, if the page gets to read it *)
Definition page_call (c : Cookie) (origin : string) (same_site : bool) (req : HttpReq) : GM (option HttpReply) :=
  let sent := if same_site || negb (String.eqb (sameSite c) "lax") then req else without_session req in
  (if simple req then mret true else r ← server (Some origin) (preflight req); mret (readable origin r.1)) ≫= fun go : bool =>
  if go then r ← server (Some origin) sent; mret (if readable origin r.1 then Some r.2 else None)
  else mret None.
End server.

(** ** Lemmas *)

Section lemmas.
Context {S : Type} `{RedisClient S} `{JsonCodec} `{Express} `{CorsLaws} (E : Env) (ext : option string) (ready : bool).
Implicit Types (g : Gw S) (req : HttpReq).

Lemma readable_iff origin m : readable origin (cors (allowedOrigins ext) true m (Some origin)).1 = bool_decide (origin ∈ allowedOrigins ext).
Proof.
  unfold readable. rewrite cors_credentials, andb_comm. rewrite (bool_decide_true (Some "true" = Some "true")) by done. cbn [andb].
  destruct (decide (origin ∈ allowedOrigins ext)) as [Hi|Hi].
  - rewrite cors_listed by done. by rewrite !bool_decide_true.
  - rewrite cors_unlisted by done. by rewrite !bool_decide_false.
Qed.

Lemma server_preflight origin req g :
  server E ext ready (Some origin) (preflight req) g = (Ok ((cors (allowedOrigins ext) true "OPTIONS" (Some origin)).1, RText 204 ""), g).
Proof.
  unfold server. change (validate _ _ _ _) with (@None Answer). cbn [h_method preflight].
  pose proof (cors_preflight (allowedOrigins ext) true "OPTIONS" (Some origin)) as Hp.
  destruct (cors _ _ _ _) as [hs ended]. cbn in *. by rewrite Hp.
Qed.

Lemma server_answer origin req g : h_method req <> "OPTIONS" ->
  validate (h_method req) (h_contentType req) (h_contentLength req) (truthy (h_body req)) = None ->
  server E ext ready (Some origin) req g =
    match app E ready req g with
    | (Ok r, g') => (Ok ((cors (allowedOrigins ext) true (h_method req) (Some origin)).1, r), g')
    | (Throw e, g') => (Throw e, g')
    end.
Proof.
  intros Hm Hv. unfold server. rewrite Hv. pose proof (cors_preflight (allowedOrigins ext) true (h_method req) (Some origin)) as Hp.
  destruct (cors _ _ _ _) as [hs ended]. cbn [snd fst] in *. rewrite Hp. apply String.eqb_neq in Hm. rewrite Hm.
  js_unfold. by destruct (app E ready req g) as [[r|e] g'].
Qed.
End lemmas.

(** ** What the providers call back *)

Section callbacks.
Context {S : Type} `{RedisClient S} `{JsonCodec} `{ExpressLaws} (E : Env).

(** With the URL of the server set, each strategy is called back on a route of the gateway that ends its flow; the connection of a repository
    below the callback that GitHub knows, as GitHub demands, and with a state of its own. *)
Lemma callbacks_routed url : url <> "" ->
  let under s l h := callbackURL s = url +:+ join "/" ("" :: "auth" :: l) /\ path_segments (join "/" ("" :: "auth" :: l)) = "auth" :: l /\
    mounted "auth" ("auth" :: l) = Some l /\ find_route (auth_routes E) "GET" l = Some ([], h) in
  under (google_strategy (Some url)) ["google"; "callback"] googleCallback /\
  under (github_strategy (Some url)) ["github"; "callback"] githubCallback /\
  under (connect_strategy (Some url)) ["github"; "callback"; "connect"] connectCallback /\
  callbackURL (connect_strategy (Some url)) = callbackURL (github_strategy (Some url)) +:+ "/connect" /\
  sessionKey (connect_strategy (Some url)) <> sessionKey (github_strategy (Some url)).
Proof.
  intros Hu. destruct url as [|a url]; [done|]. cbv zeta.
  assert (Hm : forall l, mounted "auth" ("auth" :: l) = Some l) by (intros l; by rewrite mounted_at).
  assert (Hp : forall l, l <> [] -> last l <> Some "" -> Forall (fun s => str_forall (fun a => negb (Ascii.eqb a "/")) s = true) l ->
     path_segments (join "/" ("" :: "auth" :: l)) = "auth" :: l).
  { intros l Hl Hla Hf. apply segments_of_path; [done|by destruct l|by constructor]. }
  repeat apply conj; try done; try (apply Hp; [done|done|by repeat constructor]);
    try (rewrite find_route_laws by done; vm_compute; reflexivity); cbn; by rewrite str_app_assoc.
Qed.
End callbacks.

(** Without it the two sign-ins fall back on the address of the deployment, and the connection does not. *)
Lemma connect_without_url : callbackURL (github_strategy None) = "https://api.binarysearchgang.com/auth/github/callback" /\
  callbackURL (connect_strategy None) = "undefined/auth/github/callback/connect".
Proof. by split. Qed.

(** ** Theorems *)

Section pages.
Context {S : Type} `{RedisClient S} `{JsonCodec} `{Express} `{CorsLaws} (E : Env) (ext : option string) (ready : bool).
Implicit Types (g : Gw S) (req : HttpReq).

(** What a request without a session leaves of the gateway, and that it is answered *)
Lemma server_stranger origin req g : h_user req = None -> mounted "auth" (path_segments (h_path req)) = None ->
  exists hs r g', server E ext ready (Some origin) req g = (Ok (hs, r), g') /\ calm g g' /\ (origin ∉ allowedOrigins ext -> readable origin hs = false).
Proof.
  intros Hu Ha. unfold server. destruct (validate _ _ _ _) as [a|] eqn:Hv; [by exists [], (RJson a), g|].
  pose proof (readable_iff ext origin (h_method req)) as Hr. destruct (cors _ _ _ _) as [hs ended]. cbn in Hr.
  assert (origin ∉ allowedOrigins ext -> readable origin hs = false) by (intros; rewrite Hr; by apply bool_decide_false).
  destruct ended; [by eexists hs, _, g|]. unfold app. rewrite Hv. cbv zeta. rewrite Ha.
  destruct (limited_cases globalRateLimit req (routers E ready (path_segments (h_path req)) req) g) as (g' & C & [L|L]).
  - js_unfold. rewrite L. by eexists hs, _, g'.
  - destruct (routers_refuse E ready (path_segments (h_path req)) req g' Hu) as (r & Hq & _).
    js_unfold. rewrite L, Hq. by exists hs, r, g'.
Qed.
End pages.

(** C19: Which pages can use the gateway.  Once the server listens, whatever its environment, a page of another site whose
    origin is not one of the two allowed ones gets no answer of the gateway outside /auth to read, whoever is signed in: its call
    reaches no service and schedules no work, and it counts at most against the rate limit, and only if it is one that
    browsers send without asking first.  A call by an allowed origin with the session gets exactly what the
    application answers, unless the validation refuses it. *)
Theorem who_may_call {S} `{RedisClient S} `{JsonCodec} `{Express} `{CorsLaws} (E : Env) (ext NODE_ENV : option string) (ready : bool)
    (l : Listening) (origin : string) (req : HttpReq) (g : Gw S) :
  startServer NODE_ENV (Ok tt) true = Ok l ->
  (origin ∉ allowedOrigins ext -> mounted "auth" (path_segments (h_path req)) = None ->
     exists g', page_call E ext ready (cookie l) origin false req g = (Ok None, g') /\ calm g g' /\ (simple req = false -> g' = g)) /\
  (origin ∈ allowedOrigins ext -> h_method req <> "OPTIONS" ->
     validate (h_method req) (h_contentType req) (h_contentLength req) (truthy (h_body req)) = None ->
     page_call E ext ready (cookie l) origin true req g =
       match app E ready req g with (Ok r, g') => (Ok (Some r), g') | (Throw e, g') => (Throw e, g') end).
Proof.
  intros Hl. assert (Hc : sameSite (cookie l) = "lax") by (revert Hl; cbn; by intros [= <-]). unfold page_call. rewrite Hc, String.eqb_refl. cbn [orb negb].
  split; [intros Ho Ha|intros Ho Hm Hv].
  - destruct (server_stranger E ext ready origin (without_session req) g) as (hs & r & g' & Hs & C & Hr); [done..|].
    destruct (simple req).
    + exists g'. js_unfold. rewrite Hs. cbn. by rewrite Hr.
    + exists g. js_unfold. rewrite server_preflight. cbn [fst]. rewrite readable_iff, bool_decide_false by done. by split_and!.
  - assert (Hpre : forall k : bool -> M (Gw S) (option HttpReply),
        ((if simple req then mret true else r ← server E ext ready (Some origin) (preflight req); mret (readable origin r.1)) ≫= k) g = k true g).
    { intros k. destruct (simple req); [done|]. js_unfold. rewrite server_preflight. cbn [fst]. by rewrite readable_iff, bool_decide_true. }
    rewrite Hpre. js_unfold. rewrite server_answer by done. destruct (app E ready req g) as [[r|e] g']; [|done].
    cbn [fst snd]. by rewrite readable_iff, bool_decide_true.
Qed.

(** ** Concrete runs *)

(** The package on the lists of its documentation *)
#[local] Instance demo_cors : CorsPackage := {|
  cors origins cred m o :=
    (match o with Some o' => if bool_decide (o' ∈ origins) then [("Access-Control-Allow-Origin", o')] else [] | None => [] end
       ++ (if cred then [("Access-Control-Allow-Credentials", "true")] else []), String.eqb m "OPTIONS") |}.
#[local] Instance demo_cors_laws : CorsLaws.
Proof.
  split.
  - intros. cbn. by rewrite bool_decide_true.
  - intros. cbn. rewrite bool_decide_false by done. by destruct cred.
  - intros origins m [o|]; cbn; [by case_bool_decide|done].
  - done.
Qed.

Definition demo_start : HttpReq :=
  mkHttpReq "POST" "/rooms/abc/start" [] VUndef None None "1.2.3.4" (Some demo_user) None None false false.

Lemma who_may_call_witness : exists l, startServer (Some "production") (Ok tt) true = Ok l /\
  (exists g', page_call demo_gw_env None true (cookie l) "https://evil.example" false demo_start (demo_gw []) = (Ok None, g') /\
     calm (demo_gw []) g' /\ (simple demo_start = false -> g' = demo_gw [])) /\
  page_call demo_gw_env None true (cookie l) "https://leetcode.com" true demo_start (demo_gw [Reply 5 200 (Some (VObj []))]) =
    match app demo_gw_env true demo_start (demo_gw [Reply 5 200 (Some (VObj []))]) with
    | (Ok r, g') => (Ok (Some r), g') | (Throw e, g') => (Throw e, g') end.
Proof.
  eexists. split; [reflexivity|]. split.
  - refine (proj1 (who_may_call demo_gw_env None (Some "production") true _ "https://evil.example" demo_start (demo_gw []) eq_refl) _ eq_refl).
    vm_compute. intros Hi. apply list_elem_of_In in Hi. cbn in Hi. intuition discriminate.
  - refine (proj2 (who_may_call demo_gw_env None (Some "production") true _ "https://leetcode.com" demo_start
      (demo_gw [Reply 5 200 (Some (VObj []))]) eq_refl) _ _ eq_refl); [|done].
    apply list_elem_of_In. cbn. auto.
Defined.

(** The answer of the validation has no headers: the extension cannot read why its request was refused. *)
Lemma refusal_unreadable :
  let req := mkHttpReq "POST" "/rooms" [] VUndef (Some "text/plain") (Some 7%Z) "1.2.3.4" (Some demo_user) None None false false in
  (server demo_gw_env None true (Some "https://leetcode.com") req (demo_gw [])).1 =
    Ok ([], RJson (mkAnswer 400 (VObj [("error", VStr "Invalid Content-Type. Expected application/json")]))) /\
  (page_call demo_gw_env None true (mkCookie 3600000 true true "lax") "https://leetcode.com" true req (demo_gw [])).1 = Ok None.
Proof. vm_compute. done. Qed.
