(* ===== verification/Logging.v ===== *)
(** * The logger of the gateway

    [middleware/logging.js]: the structured logger and the middleware that wraps the
    methods of a response, for any number of requests that are answered in any order.  The limiter and
    the validation of the same file are in [RateLimit.v].

    A response and the methods that Express gives it are parameters; what is printed is a list of
    the objects that are stringified. *)

From S2P Require Export Gateway.

(** [{...a, ...b}] *)
Definition spread (a b : list (string * Val)) : list (string * Val) := fold_left (fun fs kv => set_field kv.1 kv.2 fs) b a.

Inductive LogLevel := DEBUG | INFO | WARN | ERROR.
Definition LOG_LEVELS (l : LogLevel) : string :=
  match l with DEBUG => "DEBUG" | INFO => "INFO" | WARN => "WARNING" | ERROR => "ERROR" end.

Record StructuredLogger := mkLogger {
  service : string;
  requestCounter : Z;
  printed : list Val;
}.
Definition newLogger (service : string) : StructuredLogger := mkLogger service 0 [].

Section logger.
Context (isoDate : Z -> string).

Definition log (now : Z) (level : LogLevel) (message : string) (metadata : list (string * Val)) (l : StructuredLogger) : StructuredLogger :=
  mkLogger (service l) (requestCounter l) (printed l ++
    [VObj (spread [("timestamp", VStr (isoDate now)); ("level", VStr (LOG_LEVELS level)); ("service", VStr (service l));
                   ("message", VStr message)] metadata)]).
Definition debug (now : Z) := log now DEBUG.
Definition info (now : Z) := log now INFO.
Definition warn (now : Z) := log now WARN.
(** [error ? error.message : null] *)
Definition error (now : Z) (message : string) (err : Val) (metadata : list (string * Val)) : StructuredLogger -> StructuredLogger :=
  log now ERROR message (spread metadata
    [("error", if truthy err then prop err "message" else VNull); ("stack", if truthy err then prop err "stack" else VNull)]).

(** What the logger reads of a request, at the time it reads it: [req.user] comes with the session, and
    [req.path] is relative to the router that handles the request. *)
Record ReqView := mkReqView { rq_method : string; rq_path : string; rq_user : option string; rq_ip : Val; rq_id : Val }.
Definition user_or_null (req : ReqView) : Val := match rq_user req with Some u => VStr u | None => VNull end.

(** [createRequestLogger]; [req.id] is a field nobody sets. *)
Definition request_metadata (req : ReqView) (metadata : list (string * Val)) : list (string * Val) :=
  spread [("request_id", rq_id req); ("user_id", user_or_null req); ("path", VStr (rq_path req))] metadata.
Definition request_info (req : ReqView) (now : Z) (message : string) (metadata : list (string * Val)) :=
  info now message (request_metadata req metadata).
Definition request_error (req : ReqView) (now : Z) (message : string) (err : Val) (metadata : list (string * Val)) :=
  error now message err (request_metadata req metadata).
Definition request_warn (req : ReqView) (now : Z) (message : string) (metadata : list (string * Val)) :=
  warn now message (request_metadata req metadata).

(** ** The middleware *)

Section middleware.
(** A response, and what Express does: its methods may throw, as [res.status] does for a code that is none. *)
Context {R : Type} (fresh : R) (statusCode : R -> Z) (originalStatus : Z -> R -> Res R) (originalJson : Val -> R -> Res R).

(** What the wrapped methods close over *)
Record Wrapped := mkWrapped { startTime : Z; requestId : Z }.

Definition wrap (now : Z) (l : StructuredLogger) : StructuredLogger * Wrapped :=
  let id := (requestCounter l + 1)%Z in (mkLogger (service l) id (printed l), mkWrapped now id).

Definition line (req : ReqView) : string := rq_method req +:+ " " +:+ rq_path req.
Definition json_metadata (w : Wrapped) (req : ReqView) (now : Z) (r : R) : list (string * Val) :=
  [("request_id", VNum (requestId w)); ("method", VStr (rq_method req)); ("path", VStr (rq_path req));
   ("status_code", VNum (statusCode r)); ("duration_ms", VNum (now - startTime w)); ("user_id", user_or_null req); ("ip", rq_ip req)].
Definition status_metadata (w : Wrapped) (req : ReqView) (code : Z) : list (string * Val) :=
  [("request_id", VNum (requestId w)); ("status_code", VNum code); ("path", VStr (rq_path req))].

(** [res.json(data)] and [res.status(code)]; the line is printed first. *)
Definition wrapped_json (w : Wrapped) (req : ReqView) (now : Z) (data : Val) (l : StructuredLogger) (r : R) : StructuredLogger * Res R :=
  (info now (line req) (json_metadata w req now r) l, originalJson data r).
Definition wrapped_status (w : Wrapped) (req : ReqView) (now : Z) (code : Z) (l : StructuredLogger) (r : R) : StructuredLogger * Res R :=
  ((if (400 <=? code)%Z then warn now (line req) (status_metadata w req code) l else l), originalStatus code r).

Inductive RespCall := CallStatus (code : Z) | CallJson (data : Val).
Definition wrapped (w : Wrapped) (req : ReqView) (now : Z) (c : RespCall) : StructuredLogger -> R -> StructuredLogger * Res R :=
  match c with CallStatus code => wrapped_status w req now code | CallJson data => wrapped_json w req now data end.
(** The method without the middleware *)
Definition original (c : RespCall) (r : R) : Res R :=
  match c with CallStatus code => originalStatus code r | CallJson data => originalJson data r end.

(** *** Traffic *)

(** A request arrives; the handler of the [n]-th calls a method of its response; another part of the gateway prints a line
    with the same logger. *)
Inductive Traffic :=
| Arrives (now : Z)
| Calls (n : nat) (req : ReqView) (now : Z) (c : RespCall)
| Prints (now : Z) (level : LogLevel) (message : string) (metadata : list (string * Val)).

(** A method that throws leaves the response as it is. *)
Definition kept (r : R) (r' : Res R) : R := match r' with Ok r' => r' | Throw _ => r end.

Definition logged_step (s : StructuredLogger * list (Wrapped * R)) (ev : Traffic) : StructuredLogger * list (Wrapped * R) :=
  let '(l, rs) := s in
  match ev with
  | Arrives now => let '(l, w) := wrap now l in (l, rs ++ [(w, fresh)])
  | Calls n req now c =>
      match rs !! n with
      | None => s
      | Some (w, r) => let '(l, r') := wrapped w req now c l r in (l, <[n := (w, kept r r')]> rs)
      end
  | Prints now level message metadata => (log now level message metadata l, rs)
  end.
Definition logged_run (service : string) (evs : list Traffic) : StructuredLogger * list (Wrapped * R) :=
  fold_left logged_step evs (newLogger service, []).

(** The responses without the middleware *)
Definition plain_step (rs : list R) (ev : Traffic) : list R :=
  match ev with
  | Arrives _ => rs ++ [fresh]
  | Calls n _ _ c => match rs !! n with None => rs | Some r => <[n := kept r (original c r)]> rs end
  | Prints _ _ _ _ => rs
  end.

(** The traffic of one request: when it arrived, and its calls *)
Definition arrivals (evs : list Traffic) : list Z := omap (fun ev => match ev with Arrives now => Some now | _ => None end) evs.
Fixpoint calls_of (n : nat) (seen : nat) (evs : list Traffic) : list (ReqView * Z * RespCall) :=
  match evs with
  | [] => []
  | Arrives _ :: evs => calls_of n (S seen) evs
  | Prints _ _ _ _ :: evs => calls_of n seen evs
  | Calls m req now c :: evs => (if (m =? n) && (n <? seen) then [(req, now, c)] else []) ++ calls_of n seen evs
  end.

(** The lines that the other parts print, and that these have no number of a request, as is the case with each of
    their calls of the logger *)
Definition others (service : string) (evs : list Traffic) : list Val :=
  omap (fun ev => match ev with
    | Prints now level message metadata => last (printed (log now level message metadata (newLogger service)))
    | _ => None end) evs.
Definition unnumbered (ev : Traffic) : Prop :=
  match ev with Prints _ _ _ metadata => "request_id" ∉ metadata.*1 | _ => True end.

(** What a logger prints for a request that is alone *)
Definition alone (w : Wrapped) (s : StructuredLogger * R) (call : ReqView * Z * RespCall) : StructuredLogger * R :=
  let '(req, now, c) := call in let '(l, r') := wrapped w req now c s.1 s.2 in (l, kept s.2 r').
Definition alone_run (service : string) (w : Wrapped) (calls : list (ReqView * Z * RespCall)) : StructuredLogger * R :=
  fold_left (alone w) calls (newLogger service, fresh).
End middleware.
End logger.

(** ** Lemmas *)

(** A line with the number of a request *)
Definition numbered (e : Val) : bool := match prop e "request_id" with VNum _ => true | _ => false end.
Definition of_request (id : Z) (e : Val) : bool := match prop e "request_id" with VNum z => (z =? id)%Z | _ => false end.

Section lemmas.
Context (isoDate : Z -> string) {R : Type} (fresh : R) (statusCode : R -> Z) (originalStatus : Z -> R -> Res R)
  (originalJson : Val -> R -> Res R) (svc : string).
Implicit Types (w : Wrapped) (r : R) (l : StructuredLogger) (evs : list Traffic).

Abbreviation run := (logged_run isoDate fresh statusCode originalStatus originalJson svc).
Abbreviation lone := (alone isoDate statusCode originalStatus originalJson).

(** The lines of one call *)
Definition lines w (req : ReqView) (now : Z) (c : RespCall) r : list Val :=
  printed (wrapped isoDate statusCode originalStatus originalJson w req now c (newLogger svc) r).1.

Lemma wrapped_lines w req now c l r : service l = svc ->
  wrapped isoDate statusCode originalStatus originalJson w req now c l r =
    (mkLogger svc (requestCounter l) (printed l ++ lines w req now c r), original originalStatus originalJson c r).
Proof.
  destruct l as [s k ls]. cbn [service]. intros ->. unfold lines. destruct c as [code|data]; cbn.
  - unfold wrapped_status. destruct (400 <=? code)%Z; cbn; [done|]. by rewrite app_nil_r.
  - done.
Qed.

Lemma lines_id w req now c r : Forall (fun e => prop e "request_id" = VNum (requestId w)) (lines w req now c r).
Proof.
  unfold lines. destruct c as [code|data]; cbn.
  - unfold wrapped_status. destruct (400 <=? code)%Z; repeat constructor.
  - repeat constructor.
Qed.

Lemma filter_own id ls : Forall (fun e => prop e "request_id" = VNum id) ls -> List.filter (of_request id) ls = ls.
Proof. induction 1 as [|e ls He Hls IH]; [done|]. cbn. unfold of_request at 1. by rewrite He, Z.eqb_refl, IH. Qed.
Lemma filter_other id id' ls : id <> id' -> Forall (fun e => prop e "request_id" = VNum id') ls -> List.filter (of_request id) ls = [].
Proof.
  intros Hne. induction 1 as [|e ls He Hls IH]; [done|]. cbn. unfold of_request at 1. by rewrite He, (proj2 (Z.eqb_neq id' id)), IH by done.
Qed.

(** A line of another part *)
Definition other_line now level message metadata : Val :=
  VObj (spread [("timestamp", VStr (isoDate now)); ("level", VStr (LOG_LEVELS level)); ("service", VStr svc); ("message", VStr message)] metadata).

Lemma other_unnumbered now level message metadata : "request_id" ∉ metadata.*1 ->
  prop (other_line now level message metadata) "request_id" = VUndef.
Proof.
  unfold other_line. cbn [prop]. intros Hm.
  assert (Hb : field "request_id" [("timestamp", VStr (isoDate now)); ("level", VStr (LOG_LEVELS level)); ("service", VStr svc); ("message", VStr message)] = VUndef) by done.
  revert Hm Hb. generalize [("timestamp", VStr (isoDate now)); ("level", VStr (LOG_LEVELS level)); ("service", VStr svc); ("message", VStr message)].
  unfold spread. induction metadata as [|[k v] md IH]; intros fs Hm Hb; [done|]. cbn in *.
  apply not_elem_of_cons in Hm as [Hk Hm]. apply IH; [done|]. by rewrite field_set_ne.
Qed.

Lemma filter_numbered ls id : Forall (fun e => prop e "request_id" = VNum id) ls ->
  List.filter (fun e => negb (numbered e)) ls = [].
Proof. induction 1 as [|e ls He Hls IH]; [done|]. cbn. unfold numbered at 1. by rewrite He. Qed.

Lemma calls_of_app n k evs evs' : calls_of n k (evs ++ evs') = calls_of n k evs ++ calls_of n (k + length (arrivals evs)) evs'.
Proof.
  revert k. induction evs as [|[now|m req now c|now lv msg md] evs IH]; intros k; cbn; [| | |exact (IH k)].
  - by rewrite Nat.add_0_r.
  - rewrite IH. f_equal. change (arrivals (Arrives now :: evs)) with (now :: arrivals evs). cbn [length].
    by replace (S k + length (arrivals evs)) with (k + S (length (arrivals evs))) by lia.
  - by rewrite IH, app_assoc.
Qed.

Lemma calls_of_later n k evs : k + length (arrivals evs) <= n -> calls_of n k evs = [].
Proof.
  revert k. induction evs as [|[now|m req now c|now lv msg md] evs IH]; intros k Hk; cbn [calls_of];
    [done|apply IH; cbn in Hk; unfold arrivals in *; lia| |exact (IH k Hk)].
  change (arrivals (Calls m req now c :: evs)) with (arrivals evs) in Hk.
  rewrite IH by lia. rewrite (proj2 (Nat.ltb_ge n k)) by lia. by rewrite andb_false_r.
Qed.

(** What is known of a run after every event. *)
Definition traced evs (s : StructuredLogger * list (Wrapped * R)) : Prop :=
  service s.1 = svc /\ requestCounter s.1 = Z.of_nat (length s.2) /\ length s.2 = length (arrivals evs) /\
  Forall (fun e => numbered e = true -> exists n, n < length s.2 /\ prop e "request_id" = VNum (Z.of_nat n + 1)) (printed s.1) /\
  List.filter (fun e => negb (numbered e)) (printed s.1) = others isoDate svc evs /\
  s.2.*2 = fold_left (plain_step fresh originalStatus originalJson) evs [] /\
  forall n w r, s.2 !! n = Some (w, r) -> requestId w = (Z.of_nat n + 1)%Z /\ arrivals evs !! n = Some (startTime w) /\
    fold_left (lone w) (calls_of n 0 evs) (newLogger svc, fresh) =
      (mkLogger svc 0 (List.filter (of_request (requestId w)) (printed s.1)), r).

Lemma arrives_traced evs now s : traced evs s ->
  traced (evs ++ [Arrives now]) (logged_step isoDate fresh statusCode originalStatus originalJson s (Arrives now)).
Proof.
  destruct s as [l rs]. intros (H1 & H2 & H3 & H4 & H7 & H5 & H6). cbn in *. unfold traced. cbn [fst snd service requestCounter printed].
  unfold arrivals, others in *. rewrite !omap_app, fold_left_app, !length_app. cbn. rewrite H2, app_nil_r.
  split; [done|]. split; [lia|]. split; [lia|]. split.
  { eapply Forall_impl; [exact H4|]. intros e He Hn. destruct (He Hn) as (n & Hl & Hq). exists n. split; [lia|done]. }
  split; [done|].
  split; [by rewrite fmap_app, H5|]. intros n w r Hn. rewrite calls_of_app. cbn. rewrite app_nil_r.
  apply lookup_app_Some in Hn as [Hn|[Hn1 Hn2]].
  - destruct (H6 n w r Hn) as (E1 & E2 & E3). split; [done|]. split; [by apply lookup_app_l_Some|done].
  - apply list_lookup_singleton_Some in Hn2 as [Hz [= <- <-]]. assert (n = length rs) as -> by lia. cbn.
    split; [lia|]. split; [rewrite lookup_app_r by lia; by rewrite H3, Nat.sub_diag|].
    rewrite calls_of_later by (cbn; unfold arrivals; lia). cbn. f_equal. unfold newLogger. f_equal. symmetry.
    clear -H4. induction H4 as [|e ls He _ IH]; [done|]. cbn. unfold numbered in He. unfold of_request at 1.
    destruct (prop e "request_id"); try done. destruct (He eq_refl) as (n & Hn & [= ->]).
    by rewrite (proj2 (Z.eqb_neq _ _)), IH by lia.
Qed.

Lemma calls_traced evs m req now c s : traced evs s ->
  traced (evs ++ [Calls m req now c]) (logged_step isoDate fresh statusCode originalStatus originalJson s (Calls m req now c)).
Proof.
  destruct s as [l rs]. intros (H1 & H2 & H3 & H4 & H7 & H5 & H6). cbn [logged_step fst snd] in *.
  unfold traced. rewrite fold_left_app. cbn [fold_left plain_step]. rewrite <- H5, list_lookup_fmap.
  unfold arrivals, others in *. rewrite !omap_app. cbn [omap list_omap]. rewrite !app_nil_r.
  destruct (rs !! m) as [[w0 r0]|] eqn:Hm; cbn.
  2:{ split_and!; try done. intros n w r Hn. rewrite calls_of_app. cbn.
      destruct (Nat.eqb_spec m n) as [->|Hne]; [congruence|]. rewrite app_nil_r. by apply H6. }
  rewrite (wrapped_lines w0 req now c l r0 H1). cbn. rewrite length_insert.
  destruct (H6 m w0 r0 Hm) as (E1 & E2 & E3). pose proof (lookup_lt_Some _ _ _ Hm) as Hlt.
  split; [done|]. split; [done|]. split; [done|]. split.
  { apply Forall_app_2; [done|]. eapply Forall_impl; [apply lines_id|]. intros e He _. exists m. by rewrite <- E1. }
  split.
  { rewrite List.filter_app, H7. rewrite (filter_numbered _ (requestId w0)), app_nil_r; [done|apply lines_id]. }
  split; [by rewrite list_fmap_insert|]. intros n w r Hn. rewrite calls_of_app, fold_left_app. cbn [calls_of]. rewrite app_nil_r, List.filter_app.
  destruct (Nat.eqb_spec m n) as [->|Hne]; cbn [andb].
  - rewrite list_lookup_insert_eq in Hn by done. injection Hn as <- <-. split; [done|]. split; [done|].
    rewrite E3. cbn [Nat.add]. assert ((n <? length (arrivals evs)) = true) as -> by (apply Nat.ltb_lt; unfold arrivals; lia). cbn.
    rewrite wrapped_lines by done. cbn. by rewrite (filter_own _ _ (lines_id w0 req now c r0)).
  - rewrite list_lookup_insert_ne in Hn by done. destruct (H6 n w r Hn) as (F1 & F2 & F3). split; [done|]. split; [done|].
    cbn. rewrite F3. rewrite (filter_other (requestId w) (requestId w0) (lines w0 req now c r0)); [by rewrite app_nil_r|lia|apply lines_id].
Qed.

Lemma prints_traced evs now level message md s : "request_id" ∉ md.*1 -> traced evs s ->
  traced (evs ++ [Prints now level message md])
    (logged_step isoDate fresh statusCode originalStatus originalJson s (Prints now level message md)).
Proof.
  destruct s as [l rs]. intros Hmd (H1 & H2 & H3 & H4 & H7 & H5 & H6). cbn [fst snd] in *.
  pose proof (other_unnumbered now level message md Hmd) as Hu. unfold other_line in Hu.
  unfold traced, logged_step, log. cbn [fst snd service requestCounter printed]. rewrite H1.
  set (e := VObj (spread _ md)) in *.
  unfold arrivals, others in *. rewrite !omap_app, fold_left_app. cbn. rewrite app_nil_r.
  split; [done|]. split; [done|]. split; [done|]. split.
  { apply Forall_app_2; [done|]. constructor; [|constructor]. unfold numbered. by rewrite Hu. }
  split.
  { rewrite List.filter_app, H7. cbn. unfold numbered. by rewrite Hu. }
  split; [done|]. intros n w r Hn. destruct (H6 n w r Hn) as (E1 & E2 & E3). rewrite calls_of_app, List.filter_app. cbn.
  unfold of_request at 2. rewrite Hu, !app_nil_r. by split_and!.
Qed.

Lemma run_traced evs : Forall unnumbered evs -> traced evs (run evs).
Proof.
  induction evs as [|ev evs IH] using rev_ind; [intros _; by split_and!|]. unfold logged_run. rewrite fold_left_app. cbn [fold_left].
  intros [Hevs Hev]%Forall_app. apply Forall_cons in Hev as [Hev _]. specialize (IH Hevs).
  destruct ev; [by apply arrives_traced|by apply calls_traced|by apply prints_traced].
Qed.
End lemmas.

(** ** Theorems *)

(** C22: The log traces every request and changes none.  However many requests are answered in whichever interleaving, whatever the
    methods of Express do, and whatever the other parts of the gateway - the limiters, the validation, the handlers - print with the
    same logger, as long as their lines have no request_id of their own: every response is the one it would be without the middleware;
    the requests are numbered in the order in which they arrive; the lines without a number are those of the other parts, in
    their order, and every other line carries the number of one of the requests; and the lines of a request, in their order, are
    those that this request alone would leave, whatever the others do in between. *)
Theorem requests_traced (isoDate : Z -> string) {R : Type} (fresh : R) (statusCode : R -> Z) (originalStatus : Z -> R -> Res R)
    (originalJson : Val -> R -> Res R) (service : string) (evs : list Traffic) :
  Forall unnumbered evs ->
  let s := logged_run isoDate fresh statusCode originalStatus originalJson service evs in
  s.2.*2 = fold_left (plain_step fresh originalStatus originalJson) evs [] /\
  length s.2 = length (arrivals evs) /\
  List.filter (fun e => negb (numbered e)) (printed s.1) = others isoDate service evs /\
  Forall (fun e => numbered e = true -> exists n, n < length s.2 /\ prop e "request_id" = VNum (Z.of_nat n + 1)) (printed s.1) /\
  forall n w r, s.2 !! n = Some (w, r) ->
    requestId w = (Z.of_nat n + 1)%Z /\ arrivals evs !! n = Some (startTime w) /\
    alone_run isoDate fresh statusCode originalStatus originalJson service w (calls_of n 0 evs) =
      (mkLogger service 0 (List.filter (of_request (requestId w)) (printed s.1)), r).
Proof.
  intros Hevs. destruct (run_traced isoDate fresh statusCode originalStatus originalJson service evs Hevs) as (_ & _ & H3 & H4 & H7 & H5 & H6).
  split_and!; done.
Qed.

(** Two requests, of which the first is refused, and between them a line of the limiter. *)
Definition demo_traffic : list Traffic :=
  let req := mkReqView "GET" "/api/rooms" None (VStr "::1") VUndef in
  [Arrives 10; Arrives 11; Calls 1 req 12 (CallStatus 401);
   Prints 13 WARN "Rate limit check failed, allowing request" [("error", VStr "ECONNREFUSED")]; Calls 1 req 14 (CallJson VNull);
   Calls 0 req 15 (CallJson VNull)].

Lemma requests_traced_witness :
  let s := logged_run z_str 200%Z (fun r => r) (fun code _ => if (100 <=? code)%Z then Ok code else Throw type_error) (fun _ r => Ok r)
             "bsg" demo_traffic in
  s.2.*2 = [200; 401]%Z /\ others z_str "bsg" demo_traffic = List.filter (fun e => negb (numbered e)) (printed s.1) /\
  length (List.filter (of_request 2) (printed s.1)) = 2 /\ length (printed s.1) = 4.
Proof.
  intros s. destruct (requests_traced z_str 200%Z (fun r => r) (fun code _ => if (100 <=? code)%Z then Ok code else Throw type_error)
    (fun _ r => Ok r) "bsg" demo_traffic) as (H1 & _ & H2 & _).
  - repeat constructor; cbn. rewrite not_elem_of_cons. split; [done|apply not_elem_of_nil].
  - split; [etransitivity; [exact H1|reflexivity]|]. split; [by symmetry|]. split; vm_compute; reflexivity.
Defined.

(** ** The answers of the application *)

(** The methods that an answer of [Gateway.v] calls; a redirection and the answers of Express itself set the status without them. *)
Definition reply_calls (r : HttpReply) : list RespCall :=
  match r with
  | RJson a => [CallStatus (a_status a); CallJson (a_body a)]
  | RText status _ => [CallStatus status]
  | _ => []
  end.

(** A JSON answer leaves one line with its status, after a warning if it is an error. *)
Lemma answer_lines isoDate {R} (fresh r0 : R) statusCode originalStatus originalJson svc w req now a :
  originalStatus (a_status a) fresh = Ok r0 -> statusCode r0 = a_status a ->
  let calls := map (fun c => (req, now, c)) (reply_calls (RJson a)) in
  map (fun e => (prop e "level", prop e "status_code", prop e "request_id"))
      (printed (alone_run isoDate fresh statusCode originalStatus originalJson svc w calls).1) =
    (if (400 <=? a_status a)%Z then [(VStr "WARNING", VNum (a_status a), VNum (requestId w))] else []) ++
    [(VStr "INFO", VNum (a_status a), VNum (requestId w))].
Proof.
  intros Ho Hs. unfold alone_run, alone, wrapped, wrapped_status, wrapped_json. cbn [map reply_calls fold_left fst snd].
  destruct (400 <=? a_status a)%Z; cbn; rewrite Ho; cbn; by rewrite Hs.
Qed.
