(* ===== verification/Worker.v ===== *)
(** * The extension's service worker

    [extension/background.js] with [extension/offscreen.js]: the messages of the
    panel and of the content script, the queue of writes behind the touched
    problems, the submissions that wait for their verdict, and the worker's own
    connection to rtc-service.

    The state of a handler is the shared world, of which the worker uses the
    storage, the badge, the clock and the network, and the worker's own state.
    A job of the promise chain [touchedWrites], a read of [chrome.storage] and its callback,
    and every event of a socket are steps of their own, in any order; the
    requests that wait for the configuration are handled once it is resolved. *)

From S2P Require Export ChatSocket.

Module BG.

Definition PRODUCTION_SERVER_URL : string := "https://api.binarysearchgang.com".
Definition PRODUCTION_RTC_URL : string := "wss://api.binarysearchgang.com/ws".
Definition TOUCHED_KEY : string := "touchedSlugs".
Definition TOUCHED_ROUND_KEY : string := "touchedSlugsRound".

(** A WebSocket object; its number is its position in [conns].  With its state
    goes what was last sent on it. *)
Record Conn := mkConn { conn_state : ReadyState; conn_sent : option string }.

(** A mutation waiting in the promise chain [touchedWrites]. *)
Inductive TouchedJob := Touch (slug : Val) | Reset (roundKey : Val).

(** A submission message whose storage read is under way. *)
Inductive SubmissionJob := Pending (data : Val) | Verdict (data : Val).

Record Worker := mkWorker {
  SERVER_URL : string;
  RTC_SERVICE_URL : string;
  configReady : bool;
  offscreenCreated : bool;
  activeRoomId : Val;
  userProfile : Val;
  socket : option nat;
  conns : list Conn;
  session : gmap string Val;                 (* chrome.storage.session *)
  touchedWrites : list TouchedJob;
  reads : list SubmissionJob;                (* storage reads not yet answered *)
  callbacks : list (SubmissionJob * gmap string Val);  (* answered with this storage *)
}.

Definition workerInit : Worker :=
  mkWorker PRODUCTION_SERVER_URL PRODUCTION_RTC_URL false false VNull VNull None [] ∅ [] [] [].

Section worker_setters.
Context (k : Worker).
Definition set_config s r b := mkWorker s r b (offscreenCreated k) (activeRoomId k) (userProfile k) (socket k) (conns k) (session k) (touchedWrites k) (reads k) (callbacks k).
Definition set_offscreen v := mkWorker (SERVER_URL k) (RTC_SERVICE_URL k) (configReady k) v (activeRoomId k) (userProfile k) (socket k) (conns k) (session k) (touchedWrites k) (reads k) (callbacks k).
Definition set_room v := mkWorker (SERVER_URL k) (RTC_SERVICE_URL k) (configReady k) (offscreenCreated k) v (userProfile k) (socket k) (conns k) (session k) (touchedWrites k) (reads k) (callbacks k).
Definition set_profile v := mkWorker (SERVER_URL k) (RTC_SERVICE_URL k) (configReady k) (offscreenCreated k) (activeRoomId k) v (socket k) (conns k) (session k) (touchedWrites k) (reads k) (callbacks k).
Definition set_socket v l := mkWorker (SERVER_URL k) (RTC_SERVICE_URL k) (configReady k) (offscreenCreated k) (activeRoomId k) (userProfile k) v l (session k) (touchedWrites k) (reads k) (callbacks k).
Definition set_session v l := mkWorker (SERVER_URL k) (RTC_SERVICE_URL k) (configReady k) (offscreenCreated k) (activeRoomId k) (userProfile k) (socket k) (conns k) v l (reads k) (callbacks k).
Definition set_jobs v l := mkWorker (SERVER_URL k) (RTC_SERVICE_URL k) (configReady k) (offscreenCreated k) (activeRoomId k) (userProfile k) (socket k) (conns k) (session k) (touchedWrites k) v l.
End worker_setters.

Abbreviation WK := (M (World * Worker)).
Definition bio {A} (m : IO A) : WK A := zoom fst (fun w s => (w, s.2)) m.
Definition on_bg (f : Worker -> Worker) : WK unit := modify (fun s => (s.1, f s.2)).
Definition bg_get {A} (f : Worker -> A) : WK A := read (fun s => f s.2).

(** ** Copying *)

(** How the environment answers the calls of [ensureOffscreen] and [doCopy]:
    [None] where the API does not exist. *)
Record CopyEnv := mkCopyEnv {
  hasDocument : option (Res bool);     (* chrome.offscreen.hasDocument *)
  createDocument : Res unit;
  offscreenAnswer : Res Val;           (* the message OFFSCREEN_COPY *)
  writeText : option (Res unit);       (* navigator.clipboard.writeText *)
}.

Definition ensureOffscreen (e : CopyEnv) : WK bool :=
  created ← bg_get offscreenCreated;
  if created : bool then mret true else
  match hasDocument e with
  | None => mret false
  | Some has =>
      try_catch
        (exists_ ← lift has;
         when (negb exists_)
           (bio (emit (ECall "chrome.offscreen.createDocument" (VObj [
              ("url", VStr "offscreen.html"); ("reasons", VArr [VStr "CLIPBOARD"]);
              ("justification", VStr "Required to write to clipboard from content scripts")]))) ;;
            lift (createDocument e)) ;;
         on_bg (fun k => set_offscreen k true) ;;
         mret true)
        (fun _ => bio (console "ensureOffscreen error") ;; mret false)
  end.

(** The clipboard of the worker, then giving up. *)
Definition workerCopy (e : CopyEnv) (text : Val) : WK Val :=
  match writeText e with
  | Some r =>
      try_catch
        (bio (emit (ECall "navigator.clipboard.writeText" text)) ;; lift r ;; mret (VBool true))
        (fun _ => bio (console "navigator.clipboard.writeText in service worker failed") ;; mret (VBool false))
  | None => mret (VBool false)
  end.

Definition doCopy (e : CopyEnv) (text : Val) : WK Val :=
  hasOffscreen ← try_catch (ensureOffscreen e) (fun _ => mret false);
  if negb hasOffscreen then workerCopy e text else
  sent ← try_catch
    (bio (emit (EMessage (VObj [("type", VStr "OFFSCREEN_COPY"); ("text", text)]))) ;;
     res ← lift (offscreenAnswer e);
     mret (Some (js_and res (prop res "ok"))))
    (fun _ => bio (console "sendMessage to offscreen failed") ;; mret None);
  match sent with
  | Some ok => mret ok
  | None => workerCopy e text
  end.

(** The listener of the offscreen document: what it answers.  [execCopy] is how
    [document.execCommand('copy')] ends. *)
Definition offscreenCopy (msg : Val) (clipboard : option (Res unit)) (execCopy : Res bool) : option Val :=
  if negb (truthy msg && is_str (prop msg "type") "OFFSCREEN_COPY") then None
  else match clipboard with
       | Some (Ok _) => Some (VObj [("ok", VBool true)])
       | _ => match execCopy with
              | Ok b => Some (VObj [("ok", VBool b)])
              | Throw e => Some (VObj [("ok", VBool false); ("err", VStr (to_str e))])
              end
       end.

(** ** Touched problems *)

Definition markProblemTouched (slug : Val) : WK unit :=
  when (truthy slug) (on_bg (fun k => set_session k (session k) (touchedWrites k ++ [Touch slug]))).
Definition resetTouchedProblems (roundKey : Val) : WK unit :=
  on_bg (fun k => set_session k (session k) (touchedWrites k ++ [Reset roundKey])).

(** [touched.includes(slug)] *)
Definition touched_includes (l : list Val) (slug : Val) : bool := existsb (fun v => strict_eq v slug) l.

(** A job: its read, and its write unless there is nothing to write. *)
Definition touchedJob (j : TouchedJob) (s : gmap string Val) : Res (gmap string Val) :=
  match j with
  | Touch slug =>
      match js_or (default VUndef (s !! TOUCHED_KEY)) (VArr []) with
      | VArr touched =>
          Ok (if touched_includes touched slug then s else <[TOUCHED_KEY := VArr (touched ++ [slug])]> s)
      | _ => Throw type_error
      end
  | Reset roundKey =>
      Ok (if strict_eq (default VUndef (s !! TOUCHED_ROUND_KEY)) roundKey then s
          else <[TOUCHED_KEY := VArr []]> (storage_put TOUCHED_ROUND_KEY roundKey s))
  end.

(** The next job of the chain runs; a failure is reported and the chain goes on. *)
Definition runTouched : WK unit :=
  jobs ← bg_get touchedWrites;
  match jobs with
  | [] => mret tt
  | j :: jobs =>
      on_bg (fun k => set_session k (session k) jobs) ;;
      try_catch
        (available ← bio (read (fun w => has_session (w_platform w)));
         s ← bg_get session;
         s' ← lift (if available : bool then touchedJob j s else Throw type_error);
         on_bg (fun k => set_session k s' (touchedWrites k)))
        (fun _ => bio (console "Background: touched-problem write failed"))
  end.

(** ** The connection to rtc-service *)

Section connection.
Context `{JsEnv} `{JsonCodec}.

Definition conn_at (k : Worker) (n : nat) : option Conn := conns k !! n.
(** [socket.readyState], when there is a socket *)
Definition readyState (k : Worker) : option ReadyState := socket k ≫= fun n => conn_state <$> conn_at k n.

Definition joinPayload (profile room : Val) : string :=
  let handle := VStr (to_str (prop profile "id") +:+ "_bg") in
  json_stringify (VObj [
    ("name", handle); ("request-type", VStr "join-room");
    ("data", VStr (json_stringify (VObj [
       ("userHandle", handle); ("roomID", room); ("suppressAnnouncement", VBool true)])))]).

(** [socket.send(d)] on the connection [n] *)
Definition send_on (n : nat) (d : string) : WK unit :=
  bio (emit (ESend d)) ;;
  on_bg (fun k => set_socket k (socket k) (alter (fun c => mkConn (conn_state c) (Some d)) n (conns k))).

Definition sendJoinRoom : WK unit :=
  k ← read (fun s : World * Worker => s.2);
  match socket k with
  | Some n =>
      when (bool_decide (readyState k = Some OPEN) && truthy (activeRoomId k) && truthy (userProfile k))
        (send_on n (joinPayload (userProfile k) (activeRoomId k)))
  | None => mret tt
  end.

Definition connectWebSocket : WK unit :=
  k ← read (fun s : World * Worker => s.2);
  if bool_decide (readyState k = Some OPEN) || bool_decide (readyState k = Some CONNECTING)
  then when (bool_decide (readyState k = Some OPEN) && truthy (activeRoomId k) && truthy (userProfile k)) sendJoinRoom
  else bio (emit (ECall "new WebSocket" (VStr (RTC_SERVICE_URL k)))) ;;
       on_bg (fun k => set_socket k (Some (length (conns k))) (conns k ++ [mkConn CONNECTING None])).

(** [if (activeRoomId && userProfile) connectWebSocket()] *)
Definition connectIfKnown : WK unit :=
  k ← read (fun s : World * Worker => s.2);
  when (truthy (activeRoomId k) && truthy (userProfile k)) connectWebSocket.

(** The state of the connection [n] as the browser changes it. *)
Definition conn_becomes (n : nat) (st : ReadyState) : WK unit :=
  on_bg (fun k => set_socket k (socket k) (alter (fun c => mkConn st (conn_sent c)) n (conns k))).

Definition onopen : WK unit :=
  k ← read (fun s : World * Worker => s.2);
  when (truthy (activeRoomId k) && truthy (userProfile k)) sendJoinRoom.

(** [onclose]; its timeout is the event [Reconnect]. *)
Definition onclose : WK unit := on_bg (fun k => set_socket k None (conns k)).
Definition reconnect : WK unit :=
  k ← read (fun s : World * Worker => s.2);
  when (truthy (activeRoomId k)) connectWebSocket.

(** [a == b] *)
Definition loosely_equal (a b : Val) : bool :=
  match a, b with
  | _, VStr s => loose_eq a s
  | VStr s, _ => loose_eq b s
  | (VUndef | VNull), _ => is_nullish b
  | _, (VUndef | VNull) => false
  | (VObj _ | VArr _), (VObj _ | VArr _) => false
  | _, _ => match to_num a, to_num b with Fin x, Fin y => (x =? y)%Z | _, _ => false end
  end.

Definition handleNextProblem (dataStr : Val) : WK unit :=
  data ← match dataStr with
         | VStr s =>
             try_catch (d ← lift (json_parse s); mret (Some d))
               (fun _ => bio (console "Background: Failed to parse next-problem data") ;; mret None)
         | v => mret (Some v)
         end;
  match data with
  | None => mret tt
  | Some data =>
      if negb (match data with VObj _ | VArr _ => true | _ => false end)
      then bio (console "Background: Invalid next-problem data format")
      else
        profile ← bg_get userProfile;
        if truthy profile && loosely_equal (prop profile "id") (prop data "userHandle")
        then bio (storage_set "nextProblem" (prop data "nextProblem")) ;;
             bio (set_badge "!") ;;
             bio (emit (ECall "chrome.action.setBadgeBackgroundColor" (VObj [("color", VStr "#00FF00")])))
        else mret tt
  end.

Definition onmessage (frame : string) : WK unit :=
  try_catch
    (response ← lift (json_parse frame);
     st ← lift (get response "status");
     if negb (is_str st "ok") then mret tt else
     let responseType := prop response "responseType" in
     let message := prop response "message" in
     if is_str responseType "next-problem" then
       when (truthy message && truthy (prop message "data")) (handleNextProblem (prop message "data"))
     else if is_str responseType "round-end" then
       bio (storage_remove "nextProblem") ;; bio (set_badge "")
     else if is_str responseType "room-expired" then
       bio (storage_remove "activeRoomId") ;; bio (storage_remove "nextProblem") ;;
       bio (storage_remove "roundEndTime") ;; bio (set_badge "") ;;
       bio (emit (ECall "chrome.notifications.create" (VObj [
         ("type", VStr "basic"); ("title", VStr "Room Closed");
         ("message", VStr "Your room has expired and been deleted.")])))
     else mret tt)
    (fun _ => bio (console "Background: WS processing error")).

(** ** Start and storage changes *)

(** The storage read of the start; [finally] resolves the configuration. *)
Definition loaded (ok : bool) : WK unit :=
  (if ok : bool then
    server ← bio (storage_get "configServerUrl"); rtc ← bio (storage_get "configRtcServiceUrl");
    room ← bio (storage_get "activeRoomId"); user ← bio (storage_get "user");
    when (truthy server) (on_bg (fun k => set_config k (to_str server) (RTC_SERVICE_URL k) (configReady k))) ;;
    when (truthy rtc) (on_bg (fun k => set_config k (SERVER_URL k) (to_str rtc) (configReady k))) ;;
    when (truthy room) (on_bg (fun k => set_room k room)) ;;
    when (truthy user) (on_bg (fun k => set_profile k user)) ;;
    connectIfKnown
   else bio (console "Background: config initialization failed")) ;;
  on_bg (fun k => set_config k (SERVER_URL k) (RTC_SERVICE_URL k) true).

(** [changes] holds the new values of the changed keys, [undefined] for a
    removed one. *)
Definition storageChanged (changes : list (string * Val)) (namespace : string) : WK unit :=
  when (String.eqb namespace "local")
    (when (has_field "activeRoomId" changes)
       (on_bg (fun k => set_room k (field "activeRoomId" changes)) ;; connectIfKnown) ;;
     when (has_field "user" changes)
       (on_bg (fun k => set_profile k (field "user" changes)) ;; connectIfKnown)).

(** ** Requests *)

(** CHECK_AUTH: the response; none when even the handler of the failure throws. *)
Definition checkAuth : WK Val :=
  server ← bg_get SERVER_URL;
  try_catch
    (bio (response ← fetch (get_req (server +:+ "/auth/user"));
          userData ← (if res_ok response then res_json response else throw (js_error "Not authenticated") : IO Val);
          storage_set "user" userData ;;
          mret (VObj [("success", VBool true); ("user", userData)])))
    (fun error =>
       bio (storage_remove "user" ;;
            msg ← lift (get error "message");
            mret (VObj [("success", VBool false); ("error", msg)]))).

Definition LOGOUT_KEYS : list string :=
  ["user"; "activeRoomId"; "roundEndTime"; "nextProblem"; "problems"; "lastGameEvent"; "pendingSubmissions"].

Definition finishLogout : WK Val :=
  on_bg (fun k => set_room k VNull) ;;
  k ← read (fun s : World * Worker => s.2);
  match socket k with
  | Some n =>
      bio (emit EClose) ;;
      when (negb (bool_decide (readyState k = Some CLOSED))) (conn_becomes n CLOSING) ;;
      on_bg (fun k => set_socket k None (conns k))
  | None => mret tt
  end ;;
  bio (for_each storage_remove LOGOUT_KEYS) ;;
  bio (if_chrome has_action (set_badge "")) ;;
  mret (VObj [("success", VBool true)]).

Definition workerLogout : WK Val :=
  server ← bg_get SERVER_URL;
  try_catch (bio (fetch (post_req (server +:+ "/auth/logout")) ;; mret tt)) (fun _ => mret tt) ;;
  finishLogout.

(** *** Submissions *)

(** [pending[id] = x] and [delete pending[id]] *)
Definition put_key (pending : Val) (id : string) (x : Val) : Val :=
  match pending with VObj fs => VObj (set_field id x fs) | v => v end.
Definition delete_key (pending : Val) (id : string) : Val :=
  match pending with VObj fs => VObj (List.filter (fun kv => negb (String.eqb kv.1 id)) fs) | v => v end.

(** [roundEndTime && Date.now() > roundEndTime] *)
Definition round_over_at (roundEndTime : Val) (now : Z) : bool :=
  truthy roundEndTime && ngt (Fin now) (to_num roundEndTime).

Definition submissionBody (pendingData data : Val) : Val :=
  VObj [("slug", prop pendingData "problemSlug"); ("status", VStr "Accepted");
        ("code", prop pendingData "typed_code"); ("language", prop pendingData "lang");
        ("runtime", prop data "elapsed_time"); ("memory", prop data "memory_percentile")].

(** The request of an accepted submission; its answer is only logged. *)
Definition submit (server : string) (pendingData data : Val) : IO unit :=
  try_catch
    (fetch (post_json (server +:+ "/submission") (submissionBody pendingData data)) ;; mret tt)
    (fun _ => console "Background: Submission server network error:").

(** The callback of a storage read that was answered with [snapshot]. *)
Definition submissionCallback (j : SubmissionJob) (snapshot : gmap string Val) : WK unit :=
  let pending := js_or (default VUndef (snapshot !! "pendingSubmissions")) (VObj []) in
  match j with
  | Pending data =>
      bio (storage_set "pendingSubmissions" (put_key pending (to_str (prop data "submissionId")) data))
  | Verdict data =>
      let id := to_str (prop data "submissionId") in
      let pendingData := prop pending id in
      if negb (truthy pendingData) then bio (console "Background: No pending submission found") else
      now ← bio date_now;
      server ← bg_get SERVER_URL;
      bio (storage_set "pendingSubmissions" (delete_key pending id)) ;;
      when (is_str (prop data "status_msg") "Accepted" &&
            negb (round_over_at (default VUndef (snapshot !! "roundEndTime")) now))
        (bio (submit server pendingData data))
  end.

(** The oldest read is answered; the oldest answered one runs its callback. *)
Definition readAnswered : WK unit :=
  k ← read (fun s : World * Worker => s.2);
  stored ← bio (read w_storage);
  match reads k with
  | [] => mret tt
  | j :: js => on_bg (fun k => set_jobs k js (callbacks k ++ [(j, stored)]))
  end.
Definition runCallback : WK unit :=
  k ← read (fun s : World * Worker => s.2);
  match callbacks k with
  | [] => mret tt
  | (j, snapshot) :: cs => on_bg (fun k => set_jobs k (reads k) cs) ;; submissionCallback j snapshot
  end.

(** ** The listener *)

Definition received : Val := VObj [("received", VBool true)].

(** What is sent back, if anything is. *)
Definition onMessage (e : CopyEnv) (request : Val) : WK (option Val) :=
  if truthy request && is_str (prop request "type") "COPY_TO_CLIPBOARD" then
    ok ← doCopy e (js_or (prop request "text") (VStr ""));
    mret (Some (VObj [("ok", ok)]))
  else
  ty ← lift (get request "type");
  if is_str ty "CHECK_AUTH" then r ← checkAuth; mret (Some r)
  else if is_str ty "LOGOUT" then r ← workerLogout; mret (Some r)
  else if is_str ty "PROBLEM_PROGRESS_RESET" then
    resetTouchedProblems (prop request "roundKey") ;; mret (Some received)
  else if is_str ty "PROBLEM_TOUCHED" then
    markProblemTouched (prop request "slug") ;; mret (Some received)
  else if is_str ty "SUBMISSION_PENDING" then
    id ← lift (get (prop request "data") "submissionId");
    when (truthy id && truthy (prop (prop request "data") "problemSlug"))
      (on_bg (fun k => set_jobs k (reads k ++ [Pending (prop request "data")]) (callbacks k))) ;;
    mret (Some received)
  else if is_str ty "SUBMISSION_RESULT" then
    lift (get (prop request "data") "submissionId") ;;
    on_bg (fun k => set_jobs k (reads k ++ [Verdict (prop request "data")]) (callbacks k)) ;;
    mret (Some received)
  else mret None.

(** ** Runs *)

Inductive BgEvent :=
| Loaded (ok : bool)
| StorageEvent (changes : list (string * Val)) (namespace : string)
| Message (e : CopyEnv) (request : Val)
| TouchedStep
| ReadAnswered
| RunCallback
| SocketOpened (n : nat)
| SocketFrame (n : nat) (frame : string)
| SocketClosing (n : nat)
| SocketClosed (n : nat)
| Reconnect.

(** Which events can happen: CHECK_AUTH and LOGOUT wait for the configuration, as do the
    storage reads, which are answered after the one of the start; a socket opens
    only while it is connecting, hears frames while open, and closes once; the timeout of
    [onclose] may fire at any time. *)
Definition can_happen (ev : BgEvent) (k : Worker) : bool :=
  let st n := conn_state <$> conn_at k n in
  match ev with
  | Loaded _ => negb (configReady k)
  | Message _ request =>
      configReady k || negb (is_str (prop request "type") "CHECK_AUTH" || is_str (prop request "type") "LOGOUT")
  | ReadAnswered | RunCallback => configReady k
  | SocketOpened n => bool_decide (st n = Some CONNECTING)
  | SocketFrame n _ => bool_decide (st n = Some OPEN)
  | SocketClosing n => bool_decide (st n = Some OPEN)
  | SocketClosed n => bool_decide (n < length (conns k)) && negb (bool_decide (st n = Some CLOSED))
  | _ => true
  end.

Definition handler (ev : BgEvent) : WK unit :=
  match ev with
  | Loaded ok => loaded ok
  | StorageEvent changes namespace => storageChanged changes namespace
  | Message e request => onMessage e request ;; mret tt
  | TouchedStep => runTouched
  | ReadAnswered => readAnswered
  | RunCallback => runCallback
  | SocketOpened n => conn_becomes n OPEN ;; onopen
  | SocketFrame n frame => onmessage frame
  | SocketClosing n => conn_becomes n CLOSING
  | SocketClosed n => conn_becomes n CLOSED ;; onclose
  | Reconnect => reconnect
  end.

Definition bg_step (s : World * Worker) (ev : BgEvent) : World * Worker :=
  if can_happen ev s.2 then (handler ev s).2 else s.
Definition bg_run (evs : list BgEvent) (s : World * Worker) : World * Worker := fold_left bg_step evs s.
End connection.
End BG.

Import BG.

(** ** The specification of the touched problems *)

(** The round and the slugs, in the order in which they were touched. *)
Record Progress := mkProgress { round : Val; slugs : list Val }.

Definition progress_step (p : Progress) (j : TouchedJob) : Progress :=
  match j with
  | Touch slug => if touched_includes (slugs p) slug then p else mkProgress (round p) (slugs p ++ [slug])
  | Reset key => if strict_eq (round p) key then p
                 else mkProgress (match key with VUndef => round p | _ => key end) []
  end.

(** What the session storage says. *)
Definition progress_of (s : gmap string Val) : Progress :=
  mkProgress (default VUndef (s !! TOUCHED_ROUND_KEY))
    (match default VUndef (s !! TOUCHED_KEY) with VArr l => l | _ => [] end).

(** What a message asks for. *)
Definition jobs_of (request : Val) : list TouchedJob :=
  if truthy request && is_str (prop request "type") "COPY_TO_CLIPBOARD" then []
  else if is_str (prop request "type") "PROBLEM_PROGRESS_RESET" then [Reset (prop request "roundKey")]
  else if is_str (prop request "type") "PROBLEM_TOUCHED" then
    if truthy (prop request "slug") then [Touch (prop request "slug")] else []
  else [].
Definition event_jobs (ev : BgEvent) : list TouchedJob :=
  match ev with Message _ request => jobs_of request | _ => [] end.

(** ** Lemmas *)

(** *** The queue *)

(** The worker's part of the session storage is an array. *)
Definition session_ok (s : gmap string Val) : Prop :=
  match default VUndef (s !! TOUCHED_KEY) with VUndef | VArr _ => True | _ => False end.

Lemma touched_job_refines j s : session_ok s ->
  exists s', touchedJob j s = Ok s' /\ session_ok s' /\ progress_of s' = progress_step (progress_of s) j.
Proof.
  intros Hs. unfold session_ok, progress_of in *. destruct j as [slug|key]; cbn.
  - assert (Hw : forall l, session_ok (<[TOUCHED_KEY := VArr l]> s) /\
      progress_of (<[TOUCHED_KEY := VArr l]> s) = mkProgress (round (progress_of s)) l).
    { intros l. unfold session_ok, progress_of. rewrite lookup_insert_eq, lookup_insert_ne by done. done. }
    unfold session_ok, progress_of in Hw.
    destruct (default VUndef (s !! TOUCHED_KEY)) as [| | | | |l|] eqn:E; try done; cbn.
    + eexists. split; [done|]. apply Hw.
    + fold (touched_includes l slug). destruct (touched_includes l slug); eexists; (split; [done|]); [by rewrite E|apply Hw].
  - destruct (strict_eq _ key); eexists; (split; [done|]); cbn; [done|].
    rewrite lookup_insert_eq, lookup_insert_ne by done. cbn. split; [done|].
    destruct key; cbn; by rewrite ?lookup_insert_eq.
Qed.

(** What a handler that leaves the queue alone keeps. *)
Definition same_touched (s s' : World * Worker) : Prop :=
  w_platform s'.1 = w_platform s.1 /\ session s'.2 = session s.2 /\ touchedWrites s'.2 = touchedWrites s.2.

#[export] Instance same_touched_preorder : PreOrder same_touched.
Proof. split; unfold same_touched; [done|]. intros s1 s2 s3 (?&?&?) (?&?&?). repeat split; congruence. Qed.

(** The world's part of a handler does not touch the platform. *)
Definition same_platform (w w' : World) : Prop := w_platform w' = w_platform w.
#[export] Instance same_platform_preorder : PreOrder same_platform.
Proof. split; unfold same_platform; [done|]. intros ???. congruence. Qed.

Lemma steps_bio {A} (m : IO A) : steps same_platform m -> steps same_touched (bio m).
Proof.
  intros Hm s. unfold bio, zoom, same_touched. specialize (Hm s.1). by destruct (m s.1).
Qed.

Lemma steps_fetch_platform r : steps same_platform (fetch r).
Proof. intros w. unfold fetch, same_platform. js_exec. by destruct (w_net w) as [|[|]]. Qed.

Ltac platform_tac :=
  repeat (lazymatch goal with
  | |- steps same_platform (fetch _) => apply steps_fetch_platform
  | |- same_platform _ _ => unfold same_platform; cbn; repeat case_match; done
  | |- _ => steps_step
  end).
Ltac touched_tac :=
  repeat (lazymatch goal with
  | |- steps same_touched (bio _) => apply steps_bio; platform_tac
  | |- same_touched _ _ => unfold same_touched; cbn; repeat case_match; done
  | |- _ => steps_step
  end).

Section queue.
Context `{JsEnv} `{JsonCodec}.

Lemma steps_connect : steps same_touched connectIfKnown.
Proof. touched_tac. Qed.

Lemma steps_loaded ok : steps same_touched (loaded ok).
Proof. touched_tac. Qed.

Lemma steps_storageChanged l ns : steps same_touched (storageChanged l ns).
Proof. touched_tac. Qed.

Lemma steps_doCopy e text : steps same_touched (doCopy e text).
Proof. touched_tac. Qed.

Lemma steps_checkAuth : steps same_touched checkAuth.
Proof. touched_tac. Qed.

Lemma steps_workerLogout : steps same_touched workerLogout.
Proof. touched_tac. Qed.

Lemma steps_onmessage frame : steps same_touched (onmessage frame).
Proof. touched_tac. Qed.

Lemma steps_runCallback : steps same_touched runCallback.
Proof. touched_tac. Qed.

End queue.

(** What a message does to the queue. *)
Definition enqueues (jobs : list TouchedJob) (s s' : World * Worker) : Prop :=
  w_platform s'.1 = w_platform s.1 /\ session s'.2 = session s.2 /\
  touchedWrites s'.2 = touchedWrites s.2 ++ jobs.

Lemma enqueues_same s s' : same_touched s s' -> enqueues [] s s'.
Proof. unfold same_touched, enqueues. by rewrite app_nil_r. Qed.

Section refinement.
Context `{JsEnv} `{JsonCodec}.

Lemma onMessage_others e request :
  is_str (prop request "type") "PROBLEM_PROGRESS_RESET" = false ->
  is_str (prop request "type") "PROBLEM_TOUCHED" = false ->
  steps same_touched (onMessage e request).
Proof.
  intros Hr Ht. unfold onMessage. destruct (truthy request && is_str (prop request "type") "COPY_TO_CLIPBOARD").
  { apply steps_bind; [exact _|apply steps_doCopy|intros ?]. touched_tac. }
  apply steps_lift_bind; [exact _|]. intros ty Hty.
  assert (ty = prop request "type") as ->.
  { unfold get in Hty. destruct (is_nullish request); [done|congruence]. }
  rewrite Hr, Ht.
  repeat lazymatch goal with |- context [if ?b then _ else _] => destruct b end;
    try (apply steps_bind; [exact _|first [apply steps_checkAuth|apply steps_workerLogout]|intros ?]); touched_tac.
Qed.

Lemma get_str v k s : prop v k = VStr s -> get v k = Ok (VStr s).
Proof. intros Hp. unfold get. rewrite Hp. by destruct v. Qed.

Lemma is_str_true v s : is_str v s = true -> v = VStr s.
Proof. destruct v; try done. cbn. by intros ->%String.eqb_eq. Qed.

Lemma onMessage_enqueues e request s : enqueues (jobs_of request) s (onMessage e request s).2.
Proof.
  destruct (is_str (prop request "type") "PROBLEM_PROGRESS_RESET") eqn:Er;
    [|destruct (is_str (prop request "type") "PROBLEM_TOUCHED") eqn:Et].
  - apply is_str_true in Er. unfold jobs_of, onMessage. rewrite (get_str _ _ _ Er), Er.
    change (is_str (VStr "PROBLEM_PROGRESS_RESET") "COPY_TO_CLIPBOARD") with false. by rewrite andb_false_r.
  - apply is_str_true in Et. unfold jobs_of, onMessage. rewrite (get_str _ _ _ Et), Et.
    change (is_str (VStr "PROBLEM_TOUCHED") "COPY_TO_CLIPBOARD") with false. rewrite andb_false_r.
    change (is_str (VStr "PROBLEM_TOUCHED") "PROBLEM_PROGRESS_RESET") with false. change (is_str (VStr "PROBLEM_TOUCHED") "PROBLEM_TOUCHED") with true.
    unfold markProblemTouched. destruct (truthy (prop request "slug")); [done|]. by apply enqueues_same.
  - unfold jobs_of. rewrite Er, Et. destruct (_ && _); by apply enqueues_same, onMessage_others.
Qed.

(** What the worker will know of the round once the queue has run. *)
Definition queued_progress (k : Worker) : Progress :=
  fold_left progress_step (touchedWrites k) (progress_of (session k)).

(** [chrome.storage.session] exists and holds an array or nothing. *)
Definition touched_ok (s : World * Worker) : Prop :=
  has_session (w_platform s.1) = true /\ session_ok (session s.2).

Lemma touched_ok_enqueues jobs s s' : enqueues jobs s s' -> touched_ok s ->
  touched_ok s' /\ queued_progress s'.2 = fold_left progress_step jobs (queued_progress s.2).
Proof.
  intros (Hp & Hs & Ht) [H1 H2]. unfold touched_ok, queued_progress.
  by rewrite Hp, Hs, Ht, fold_left_app.
Qed.

Lemma runTouched_empty s : touchedWrites s.2 = [] -> runTouched s = (Ok tt, s).
Proof. intros E. unfold runTouched, bg_get. js_unfold. by rewrite E. Qed.

Lemma runTouched_job s j jobs m : touchedWrites s.2 = j :: jobs -> has_session (w_platform s.1) = true ->
  touchedJob j (session s.2) = Ok m -> (runTouched s).2 = (s.1, set_session s.2 m jobs).
Proof.
  intros E Hh Hj. unfold runTouched, bg_get, on_bg, bio, zoom. js_unfold. rewrite E. cbn. rewrite Hh. cbn.
  by rewrite Hj.
Qed.

Lemma runTouched_ok s : touched_ok s ->
  touched_ok (runTouched s).2 /\ queued_progress (runTouched s).2.2 = queued_progress s.2.
Proof.
  intros Hs. pose proof Hs as [H1 H2]. destruct (touchedWrites s.2) as [|j jobs] eqn:E.
  - by rewrite runTouched_empty.
  - destruct (touched_job_refines j (session s.2) H2) as (m & Hj & Hok & Hp).
    rewrite (runTouched_job _ _ _ _ E H1 Hj). unfold touched_ok, queued_progress. cbn. by rewrite Hp, E.
Qed.

Lemma bg_step_progress s ev : touched_ok s ->
  touched_ok (bg_step s ev) /\
  queued_progress (bg_step s ev).2 = fold_left progress_step (event_jobs ev) (queued_progress s.2).
Proof.
  intros Hs. unfold bg_step.
  assert (Hother : steps same_touched (handler ev) -> event_jobs ev = [] ->
    touched_ok (handler ev s).2 /\
    queued_progress (handler ev s).2.2 = fold_left progress_step (event_jobs ev) (queued_progress s.2)).
  { intros Hh ->. by apply touched_ok_enqueues; [apply enqueues_same, Hh|]. }
  destruct (can_happen ev s.2) eqn:Ec.
  - destruct ev; try solve [apply Hother; [touched_tac|done]].
    + cbn [handler]. rewrite bind_ret_state. by apply (touched_ok_enqueues _ _ _ (onMessage_enqueues e request s)).
    + by apply runTouched_ok.
  - destruct ev; try done. cbn in *. unfold jobs_of. split; [done|].
    apply orb_false_elim in Ec as [_ Ec]. apply negb_false_iff in Ec.
    destruct (prop request "type") as [| | | |t| |]; try done. cbn in *.
    apply orb_prop in Ec as [Ec|Ec]; apply String.eqb_eq in Ec as ->; by rewrite andb_false_r.
Qed.
Lemma bg_run_progress evs s : touched_ok s ->
  touched_ok (bg_run evs s) /\
  queued_progress (bg_run evs s).2 = fold_left progress_step (concat (event_jobs <$> evs)) (queued_progress s.2).
Proof.
  revert s; induction evs as [|ev evs IH]; intros s Hs; [done|].
  change (bg_run (ev :: evs) s) with (bg_run evs (bg_step s ev)).
  destruct (bg_step_progress s ev Hs) as [H1 H2]. destruct (IH _ H1) as [H3 H4]. split; [done|].
  rewrite H4, H2. cbn [fmap list_fmap concat]. by rewrite fold_left_app.
Qed.

(** As many steps of the queue as it has jobs empty it. *)
Lemma bg_run_drains n s : touched_ok s -> length (touchedWrites s.2) = n ->
  touchedWrites (bg_run (replicate n TouchedStep) s).2 = [].
Proof.
  revert s; induction n as [|n IH]; intros s Hs Hn; [by apply nil_length_inv|].
  destruct (touchedWrites s.2) as [|j jobs] eqn:E; [done|]. injection Hn as Hn.
  change (bg_run (replicate (S n) TouchedStep) s) with (bg_run (replicate n TouchedStep) (runTouched s).2).
  apply IH; [by apply runTouched_ok|]. destruct Hs as [H1 H2].
  destruct (touched_job_refines j (session s.2) H2) as (m & Hj & _).
  by rewrite (runTouched_job _ _ _ _ E H1 Hj).
Qed.

Lemma queue_steps_ask_nothing n : concat (event_jobs <$> replicate n TouchedStep) = [].
Proof. by induction n. Qed.

Lemma touched_run evs w k :
  has_session (w_platform w) = true -> session_ok (session k) -> touchedWrites k = [] ->
  let s := bg_run evs (w, k) in
  let goal := fold_left progress_step (concat (event_jobs <$> evs)) (progress_of (session k)) in
  let s' := bg_run (replicate (length (touchedWrites s.2)) TouchedStep) s in
  fold_left progress_step (touchedWrites s.2) (progress_of (session s.2)) = goal /\
  touchedWrites s'.2 = [] /\ progress_of (session s'.2) = goal.
Proof.
  intros Hp Hs Hq s goal s'. destruct (bg_run_progress evs (w, k)) as [H1 H2]; [by split|].
  assert (Hg : queued_progress s.2 = goal).
  { unfold s. rewrite H2. unfold queued_progress. cbn [snd]. by rewrite Hq. }
  pose proof (bg_run_drains _ s H1 eq_refl) as Hd.
  destruct (bg_run_progress (replicate (length (touchedWrites s.2)) TouchedStep) s H1) as [_ H4].
  split; [done|]. split; [done|]. rewrite <- Hg. rewrite queue_steps_ask_nothing in H4. cbn in H4.
  rewrite <- H4. unfold queued_progress. unfold s'. by rewrite Hd.
Qed.

(** *** The specification *)

Lemma progress_kept jobs p :
  Forall (fun j => match j with Reset key => strict_eq (round p) key = true | Touch _ => True end) jobs ->
  let p' := fold_left progress_step jobs p in
  round p' = round p /\ slugs p `prefix_of` slugs p' /\
  Forall (fun j => match j with Touch slug => touched_includes (slugs p') slug = true \/ strict_eq slug slug = false | Reset _ => True end) jobs.
Proof.
  revert p; induction jobs as [|j jobs IH]; intros p; cbn; [done|].
  intros [Hj Hjobs]%Forall_cons.
  assert (Hr : round (progress_step p j) = round p) by (destruct j; cbn; case_match; done).
  assert (Hp : slugs p `prefix_of` slugs (progress_step p j)).
  { destruct j; cbn; [case_match; [done|by exists [slug]]|by rewrite Hj]. }
  destruct (IH (progress_step p j)) as (H1 & H2 & H3); [by rewrite Hr|].
  split; [congruence|]. split; [by etransitivity|]. constructor; [|done].
  destruct j as [slug|]; [|done]. destruct (strict_eq slug slug) eqn:Es; [left|by right].
  destruct H2 as [l ->]. unfold touched_includes. rewrite existsb_app. apply orb_true_iff; left.
  cbn. fold (touched_includes (slugs p) slug). destruct (touched_includes (slugs p) slug) eqn:Ei; [done|].
  cbn. by rewrite existsb_app, orb_true_iff; cbn; rewrite Es; right.
Qed.
End refinement.

(** *** Submissions *)

(** Requests without a body: none of them is a submission. *)
Definition bodyless (e : Effect) : Prop :=
  match e with EFetch r => reqBody r = None | _ => True end.

(** The stored submissions are the ones before, or were removed. *)
Definition keeps_pending (m m' : gmap string Val) : Prop :=
  m' !! "pendingSubmissions" = m !! "pendingSubmissions" \/ m' !! "pendingSubmissions" = None.

#[export] Instance keeps_pending_preorder : PreOrder keeps_pending.
Proof. split; unfold keeps_pending; [auto|]. intros m1 m2 m3 [|] [|]; intuition congruence. Qed.

Lemma keeps_put k v m : k <> "pendingSubmissions" -> keeps_pending m (storage_put k v m).
Proof. intros Hk. left. unfold storage_put. destruct v; try done; by rewrite lookup_insert_ne. Qed.

Lemma keeps_delete k m : keeps_pending m (delete k m).
Proof.
  destruct (decide (k = "pendingSubmissions")) as [->|Hk]; [right; apply lookup_delete_eq|left; by apply lookup_delete_ne].
Qed.

(** A handler that has nothing to do with submissions. *)
Definition quiet_w (w w' : World) : Prop :=
  keeps_pending (w_storage w) (w_storage w') /\
  exists l, w_log w' = w_log w ++ l /\ Forall bodyless l.
Definition quiet (s s' : World * Worker) : Prop :=
  quiet_w s.1 s'.1 /\ reads s'.2 = reads s.2 /\ callbacks s'.2 = callbacks s.2.

#[export] Instance quiet_w_preorder : PreOrder quiet_w.
Proof.
  split.
  - intros w. split; [done|]. exists []. by rewrite app_nil_r.
  - intros w1 w2 w3 (H1 & l1 & E1 & F1) (H2 & l2 & E2 & F2). split; [by etransitivity|].
    exists (l1 ++ l2). split; [by rewrite E2, E1, app_assoc|by apply Forall_app].
Qed.
#[export] Instance quiet_preorder : PreOrder quiet.
Proof.
  split.
  - intros s. by split; [reflexivity|].
  - intros s1 s2 s3 (Q1 & R1 & C1) (Q2 & R2 & C2). split; [by transitivity s2.1|].
    by rewrite R2, C2.
Qed.

Lemma quiet_bio {A} (m : IO A) : steps quiet_w m -> steps quiet (bio m).
Proof. intros Hm s. unfold bio, zoom. specialize (Hm s.1). by destruct (m s.1). Qed.

Lemma quiet_emit e : bodyless e -> steps quiet_w (emit e).
Proof. intros He w. split; [done|]. exists [e]. by split; [|constructor]. Qed.

Lemma quiet_fetch r : reqBody r = None -> steps quiet_w (fetch r).
Proof.
  intros Hr. apply steps_bind; [exact _|by apply quiet_emit|]. intros _. apply steps_act. intros w.
  by destruct (w_net w) as [|[|]]; (split; [done|]; exists []; by rewrite app_nil_r).
Qed.

Lemma quiet_set k v : k <> "pendingSubmissions" -> steps quiet_w (storage_set k v).
Proof. intros Hk w. split; [by apply keeps_put|]. exists []. by rewrite app_nil_r. Qed.

Lemma quiet_remove k : steps quiet_w (storage_remove k).
Proof. intros w. split; [apply keeps_delete|]. exists []. by rewrite app_nil_r. Qed.

Ltac quiet_w_tac :=
  repeat (lazymatch goal with
  | |- steps quiet_w (fetch _) => by apply quiet_fetch
  | |- steps quiet_w (emit _) => by apply quiet_emit
  | |- steps quiet_w (console _) => by apply quiet_emit
  | |- steps quiet_w (storage_set _ _) => by apply quiet_set
  | |- steps quiet_w (storage_remove _) => by apply quiet_remove
  | |- quiet_w _ _ => split; [done|exists []; by rewrite app_nil_r]
  | |- _ => steps_step
  end).
Ltac quiet_tac :=
  repeat (lazymatch goal with
  | |- steps quiet (bio _) => apply quiet_bio; quiet_w_tac
  | |- quiet _ _ => split; [|by split]; reflexivity
  | |- _ => steps_step
  end).

Section submissions.
Context `{JsEnv} `{JsonCodec}.

Lemma quiet_doCopy e text : steps quiet (doCopy e text).
Proof. quiet_tac. Qed.
Lemma quiet_checkAuth : steps quiet checkAuth.
Proof. quiet_tac. Qed.
Lemma quiet_workerLogout : steps quiet workerLogout.
Proof. quiet_tac. Qed.
Lemma quiet_onmessage frame : steps quiet (onmessage frame).
Proof. quiet_tac. Qed.
Lemma quiet_loaded ok : steps quiet (loaded ok).
Proof. quiet_tac. Qed.
Lemma quiet_storageChanged l ns : steps quiet (storageChanged l ns).
Proof. quiet_tac. Qed.
Lemma quiet_runTouched : steps quiet runTouched.
Proof. quiet_tac. Qed.
End submissions.

(** The stored submissions were reported pending, each under its own id. *)
Definition reported_id (d : Val) : string := to_str (prop d "submissionId").

Section authentic.
Context `{JsEnv} `{JsonCodec} (P V : Val -> Prop).

Definition pending_ok (m : gmap string Val) : Prop :=
  match default VUndef (m !! "pendingSubmissions") with
  | VUndef => True
  | VObj fs => Forall (fun kv => P kv.2 /\ reported_id kv.2 = kv.1) fs
  | _ => False
  end.
Definition job_ok (j : SubmissionJob) : Prop := match j with Pending d => P d | Verdict d => V d end.

(** A request whose body was put together from a pending submission and an
    accepting verdict on it. *)
Definition authentic (r : Request) : Prop :=
  exists server p d, r = post_json (server +:+ "/submission") (submissionBody p d) /\
    P p /\ V d /\ reported_id p = reported_id d /\ is_str (prop d "status_msg") "Accepted" = true.
Definition effect_ok (e : Effect) : Prop :=
  match e with EFetch r => reqBody r = None \/ authentic r | _ => True end.

Definition submissions_ok (s : World * Worker) : Prop :=
  pending_ok (w_storage s.1) /\ Forall job_ok (reads s.2) /\
  Forall (fun jm => job_ok jm.1 /\ pending_ok jm.2) (callbacks s.2).

(** [s'] extends the log of [s] by authentic requests, and keeps the invariant. *)
Definition honest (s s' : World * Worker) : Prop :=
  submissions_ok s -> submissions_ok s' /\ exists l, w_log s'.1 = w_log s.1 ++ l /\ Forall effect_ok l.

#[export] Instance honest_preorder : PreOrder honest.
Proof.
  split.
  - intros s Hs. split; [done|]. exists []. by rewrite app_nil_r.
  - intros s1 s2 s3 H12 H23 Hs. destruct (H12 Hs) as (Hs2 & l1 & E1 & F1).
    destruct (H23 Hs2) as (Hs3 & l2 & E2 & F2). split; [done|]. exists (l1 ++ l2).
    split; [by rewrite E2, E1, app_assoc|by apply Forall_app].
Qed.

Lemma pending_keeps m m' : keeps_pending m m' -> pending_ok m -> pending_ok m'.
Proof. unfold pending_ok. by intros [->| ->]. Qed.

Lemma quiet_honest s s' : quiet s s' -> honest s s'.
Proof.
  intros ((Hk & l & Hl & Hb) & Hr & Hc) (H1 & H2 & H3). split.
  - unfold submissions_ok. rewrite Hr, Hc. split; [by eapply pending_keeps|done].
  - exists l. split; [done|]. eapply Forall_impl; [done|]. intros [] ?; cbn in *; auto.
Qed.

Lemma steps_quiet_honest {A} (m : WK A) : steps quiet m -> steps honest m.
Proof. intros Hm s. apply quiet_honest, Hm. Qed.

Lemma pending_fields fs id v : Forall (fun kv => P kv.2 /\ reported_id kv.2 = kv.1) fs ->
  prop (VObj fs) id = v -> truthy v = true -> P v /\ reported_id v = id.
Proof.
  induction 1 as [|[k x] fs Hx Hfs IH]; cbn; [by intros <-|].
  destruct (String.eqb id k) eqn:E; [|done]. intros <- _. by apply String.eqb_eq in E as ->.
Qed.

Lemma set_field_forall (Q : string * Val -> Prop) k v fs : Q (k, v) -> Forall Q fs -> Forall Q (set_field k v fs).
Proof.
  intros Hq. induction 1 as [|[k' v'] fs Hx Hfs IH]; cbn; [by constructor|].
  destruct (String.eqb k k'); by constructor.
Qed.

(** The object a callback works on. *)
Lemma pending_object m : pending_ok m ->
  exists fs, js_or (default VUndef (m !! "pendingSubmissions")) (VObj []) = VObj fs /\
    Forall (fun kv => P kv.2 /\ reported_id kv.2 = kv.1) fs.
Proof.
  unfold pending_ok. destruct (default VUndef (m !! "pendingSubmissions")) as [| | | | | |fs]; try done; intros Hf.
  - by exists [].
  - by exists fs.
Qed.

Lemma pending_put m fs : Forall (fun kv => P kv.2 /\ reported_id kv.2 = kv.1) fs ->
  pending_ok (storage_put "pendingSubmissions" (VObj fs) m).
Proof. unfold pending_ok. cbn. by rewrite lookup_insert_eq. Qed.

Lemma callback_pending d m s : P d -> pending_ok m -> honest s (submissionCallback (Pending d) m s).2.
Proof.
  intros Hd Hm (H1 & H2 & H3). destruct (pending_object m Hm) as (fs & Hfs & Hok).
  unfold submissionCallback. rewrite Hfs. cbn.
  split; [|by exists []; rewrite app_nil_r]. split; [|done].
  apply pending_put, set_field_forall; [done|done].
Qed.
Lemma honest_set fs : Forall (fun kv => P kv.2 /\ reported_id kv.2 = kv.1) fs ->
  steps honest (bio (storage_set "pendingSubmissions" (VObj fs))).
Proof.
  intros Hf s (H1 & H2 & H3). split; [|by exists []; rewrite app_nil_r]. split; [by apply pending_put|done].
Qed.

(** What a handler of the world may log without touching the storage. *)
Lemma honest_bio {A} (m : IO A) :
  (forall w, w_storage (m w).2 = w_storage w) -> logs effect_ok m -> steps honest (bio m).
Proof.
  intros Hm Hl s Hs. unfold bio, zoom. specialize (Hm s.1). destruct (Hl s.1) as (l & El & Fl).
  destruct (m s.1) as [r w']. cbn in *. split; [|by exists l].
  unfold submissions_ok. cbn. by rewrite Hm.
Qed.

Lemma fetch_storage r w : w_storage (fetch r w).2 = w_storage w.
Proof. unfold fetch. js_exec. by destruct (w_net w) as [|[|]]. Qed.

Lemma honest_submit server p d : P p -> V d -> reported_id p = reported_id d ->
  is_str (prop d "status_msg") "Accepted" = true -> steps honest (bio (submit server p d)).
Proof.
  intros Hp Hd Hid Ha. apply honest_bio.
  - intros w. unfold submit, try_catch. set (r := post_json _ _). pose proof (fetch_storage r w) as Hf.
    unfold mbind, m_bind. by destruct (fetch r w) as [[|] ?].
  - logs_tac. right. by exists server, p, d.
Qed.

Lemma callback_honest j m : job_ok j -> pending_ok m -> steps honest (submissionCallback j m).
Proof.
  intros Hj Hm. destruct j as [d|d]; [intros s; by apply callback_pending|].
  destruct (pending_object m Hm) as (fs & Hfs & Hok).
  unfold submissionCallback. rewrite Hfs. cbv zeta.
  destruct (truthy (prop (VObj fs) (to_str (prop d "submissionId")))) eqn:Et; cbn [negb];
    [|by apply steps_quiet_honest; quiet_tac].
  destruct (pending_fields _ _ _ Hok eq_refl Et) as [Hp Hid].
  apply steps_bind; [exact _|by apply steps_quiet_honest; quiet_tac|intros now].
  apply steps_bind; [exact _|by apply steps_quiet_honest; quiet_tac|intros server].
  apply steps_bind; [exact _|apply honest_set; eapply List.incl_Forall; [apply List.incl_filter|done]|intros _].
  destruct (is_str (prop d "status_msg") "Accepted") eqn:Ea; cbn [andb when]; [|apply steps_ret; exact _].
  apply steps_when; [exact _|]. by apply honest_submit.
Qed.

Lemma runCallback_honest s : honest s (runCallback s).2.
Proof.
  intros Hs. pose proof Hs as (H1 & H2 & H3). unfold runCallback. js_unfold.
  destruct (callbacks s.2) as [|[j m] cs] eqn:Ec; [by apply honest_preorder|].
  apply Forall_cons in H3 as [[Hj Hm] H3].
  apply (callback_honest j m Hj Hm (s.1, set_jobs s.2 (reads s.2) cs)). by split.
Qed.

Lemma readAnswered_honest s : honest s (readAnswered s).2.
Proof.
  destruct s as [w k]. intros (H1 & H2 & H3). unfold readAnswered. js_unfold. unfold bio, zoom. cbn in *.
  destruct (reads k) as [|j js] eqn:Er; cbn.
  - split; [by unfold submissions_ok; cbn; rewrite Er|]. exists []. by rewrite app_nil_r.
  - apply Forall_cons in H2 as [Hj H2]. split; [|by exists []; rewrite app_nil_r].
    split; [done|]. split; [done|]. apply Forall_app. by split; [|constructor].
Qed.

(** The messages of the run are the ones [P] and [V] are about. *)
Definition message_ok (ev : BgEvent) : Prop :=
  match ev with
  | Message _ request =>
      (prop request "type" = VStr "SUBMISSION_PENDING" -> P (prop request "data")) /\
      (prop request "type" = VStr "SUBMISSION_RESULT" -> V (prop request "data"))
  | _ => True
  end.

Lemma enqueue_honest s j : job_ok j -> honest s (s.1, set_jobs s.2 (reads s.2 ++ [j]) (callbacks s.2)).
Proof.
  intros Hj (H1 & H2 & H3). split; [|by exists []; rewrite app_nil_r].
  split; [done|]. split; [|done]. apply Forall_app. by split; [|constructor].
Qed.

Lemma onMessage_honest e request : message_ok (Message e request) -> steps honest (onMessage e request).
Proof.
  intros [Hp Hv]. unfold onMessage.
  destruct (truthy request && is_str (prop request "type") "COPY_TO_CLIPBOARD").
  { apply steps_quiet_honest. apply steps_bind; [exact _|apply quiet_doCopy|intros ?]. quiet_tac. }
  apply steps_lift_bind; [exact _|]. intros ty Hty.
  assert (ty = prop request "type") as ->.
  { unfold get in Hty. destruct (is_nullish request); [done|congruence]. }
  set (ty := prop request "type") in *.
  destruct (is_str ty "SUBMISSION_PENDING") eqn:E1; [|destruct (is_str ty "SUBMISSION_RESULT") eqn:E2];
    [apply is_str_true in E1 as ->|apply is_str_true in E2 as ->|]; cbn.
  - apply steps_lift_bind; [exact _|]. intros id _.
    apply steps_bind; [exact _| |intros _; apply steps_ret; exact _].
    apply steps_when; [exact _|]. intros s. apply enqueue_honest. by apply Hp.
  - apply steps_lift_bind; [exact _|]. intros id _.
    apply steps_bind; [exact _| |intros _; apply steps_ret; exact _].
    intros s. apply enqueue_honest. by apply Hv.
  - apply steps_quiet_honest.
    repeat lazymatch goal with |- context [if ?b then _ else _] => destruct b end;
      try (apply steps_bind; [exact _|first [apply quiet_checkAuth|apply quiet_workerLogout]|intros ?]); quiet_tac.
Qed.

Lemma bg_step_honest ev s : message_ok ev -> honest s (bg_step s ev).
Proof.
  intros Hm. unfold bg_step. destruct (can_happen ev s.2); [|reflexivity].
  assert (Hq : steps quiet (handler ev) -> honest s (handler ev s).2).
  { intros Hh. apply quiet_honest, Hh. }
  destruct ev; try solve [apply Hq; quiet_tac].
  - cbn [handler]. rewrite bind_ret_state. by apply onMessage_honest.
  - apply readAnswered_honest.
  - apply runCallback_honest.
Qed.

Lemma bg_run_honest evs s : Forall message_ok evs -> honest s (bg_run evs s).
Proof.
  intros Hm. revert s; induction Hm as [|ev evs He Hm IH]; intros s; [reflexivity|].
  etransitivity; [by apply (bg_step_honest ev)|]. apply IH.
Qed.
End authentic.

(** ** Theorems: touched problems *)

Section touched_theorems.
Context `{JsEnv} `{JsonCodec}.

(** C7: The worker implements the abstract progress of a round.  However the messages of panel and
    content script, the jobs of the promise chain and all other events of the worker are interleaved,
    the pending jobs lead from the stored progress to the progress that the messages of the run,
    taken in their order, define; and once the chain has run as many jobs as are pending, it is
    empty and that progress is what [chrome.storage.session] holds. *)
Theorem touched_refines (evs : list BgEvent) (w : World) (k : Worker) :
  has_session (w_platform w) = true -> session_ok (session k) -> touchedWrites k = [] ->
  let s := bg_run evs (w, k) in
  let goal := fold_left progress_step (concat (event_jobs <$> evs)) (progress_of (session k)) in
  let s' := bg_run (replicate (length (touchedWrites s.2)) TouchedStep) s in
  fold_left progress_step (touchedWrites s.2) (progress_of (session s.2)) = goal /\
  touchedWrites s'.2 = [] /\ progress_of (session s'.2) = goal.
Proof.
  intros Hp Hs Hq. by apply touched_run.
Qed.

(** Within a round no touched problem is ever forgotten: while every reset that arrives names the
    round already stored (the panel asks for one each time rtc-service replays the start to
    a reconnecting socket), the slugs already there stay, in their order, and every slug reported in
    the run is among them once the chain has run. *)
Theorem touched_kept (evs : list BgEvent) (w : World) (k : Worker) :
  has_session (w_platform w) = true -> session_ok (session k) -> touchedWrites k = [] ->
  Forall (fun j => match j with
                   | Reset key => strict_eq (round (progress_of (session k))) key = true
                   | Touch _ => True end) (concat (event_jobs <$> evs)) ->
  let s := bg_run evs (w, k) in
  let s' := bg_run (replicate (length (touchedWrites s.2)) TouchedStep) s in
  slugs (progress_of (session k)) `prefix_of` slugs (progress_of (session s'.2)) /\
  forall slug, Touch (VStr slug) ∈ concat (event_jobs <$> evs) ->
    touched_includes (slugs (progress_of (session s'.2))) (VStr slug) = true.
Proof.
  intros Hp Hs Hq Hk s s'.
  destruct (touched_run evs w k Hp Hs Hq) as (_ & _ & Hg). fold s s' in Hg.
  rewrite Hg. destruct (progress_kept _ _ Hk) as (_ & H2 & H3). split; [done|].
  intros slug Hin. rewrite Forall_forall in H3. destruct (H3 _ Hin) as [|Hf]; [done|].
  exfalso. cbn in Hf. by rewrite String.eqb_refl in Hf.
Qed.
End touched_theorems.

Definition no_copy : CopyEnv := mkCopyEnv None (Ok tt) (Ok VUndef) None.
Definition bg_msg (ty : string) (fs : list (string * Val)) : BgEvent := Message no_copy (VObj (("type", VStr ty) :: fs)).

(** A round, a report, a replayed start and a second report, the queue running in between. *)
Definition touched_demo : list BgEvent :=
  [bg_msg "PROBLEM_PROGRESS_RESET" [("roundKey", VStr "r|1")]; bg_msg "PROBLEM_TOUCHED" [("slug", VStr "two-sum")];
   TouchedStep; bg_msg "PROBLEM_PROGRESS_RESET" [("roundKey", VStr "r|1")]; TouchedStep;
   bg_msg "PROBLEM_TOUCHED" [("slug", VStr "lru-cache")]; bg_msg "PROBLEM_TOUCHED" [("slug", VStr "two-sum")]].

Lemma touched_refines_witness :
  let s := bg_run (H := demo_env) touched_demo (fresh_world None [], workerInit) in
  length (touchedWrites s.2) = 3 /\
  progress_of (session (bg_run (H := demo_env) (replicate 3 TouchedStep) s).2) =
    mkProgress (VStr "r|1") [VStr "two-sum"; VStr "lru-cache"].
Proof.
  intros s. split; [reflexivity|].
  destruct (touched_refines (H := demo_env) touched_demo (fresh_world None []) workerInit eq_refl I eq_refl) as (_ & _ & Hp).
  exact Hp.
Defined.

Lemma touched_kept_witness :
  let k := set_session workerInit (<[TOUCHED_KEY := VArr [VStr "two-sum"]]> {[ TOUCHED_ROUND_KEY := VStr "r|1" ]}) [] in
  let evs := [bg_msg "PROBLEM_PROGRESS_RESET" [("roundKey", VStr "r|1")]; bg_msg "PROBLEM_TOUCHED" [("slug", VStr "lru-cache")]] in
  let s := bg_run (H := demo_env) evs (fresh_world None [], k) in
  touched_includes (slugs (progress_of (session (bg_run (H := demo_env) (replicate 2 TouchedStep) s).2))) (VStr "lru-cache") = true.
Proof.
  intros k evs s.
  refine (proj2 (touched_kept (H := demo_env) evs (fresh_world None []) k eq_refl I eq_refl _) "lru-cache" _).
  - repeat constructor.
  - right. left.
Defined.

(** ** Theorems: submissions *)

(** A message of the run with this type and this data. *)
Definition reported (evs : list BgEvent) (ty : string) (d : Val) : Prop :=
  exists e request, Message e request ∈ evs /\ prop request "type" = VStr ty /\ prop request "data" = d.

Section submission_theorems.
Context `{JsEnv} `{JsonCodec}.

(** C8: The worker never makes a submission up.  Whatever the events of a run and their order (reads
    of the storage answered late, verdicts without a submission, a sign-out in between), every request
    with a body that the worker makes is the submission of a solution that the content script reported
    as pending, under the id of a verdict it reported too, and that verdict is Accepted. *)
Theorem submission_authentic (evs : list BgEvent) (w : World) (k : Worker) :
  w_storage w !! "pendingSubmissions" = None -> reads k = [] -> callbacks k = [] ->
  exists l, w_log (bg_run evs (w, k)).1 = w_log w ++ l /\
    forall r, EFetch r ∈ l -> reqBody r <> None ->
      exists server p d, r = post_json (server +:+ "/submission") (submissionBody p d) /\
        reported evs "SUBMISSION_PENDING" p /\ reported evs "SUBMISSION_RESULT" d /\
        to_str (prop p "submissionId") = to_str (prop d "submissionId") /\
        prop d "status_msg" = VStr "Accepted".
Proof.
  intros Hp Hr Hc.
  assert (Hm : Forall (message_ok (reported evs "SUBMISSION_PENDING") (reported evs "SUBMISSION_RESULT")) evs).
  { apply Forall_forall. intros [] Hin; try done. cbn. split; intros ?; by exists e, request. }
  destruct (bg_run_honest _ _ evs (w, k) Hm) as (_ & l & Hl & Hok).
  { unfold submissions_ok, pending_ok. cbn. by rewrite Hp, Hr, Hc. }
  exists l. split; [done|]. intros r Hin Hb. rewrite Forall_forall in Hok.
  destruct (Hok _ Hin) as [|(server & p & d & -> & ? & ? & ? & ?%is_str_true)]; [done|].
  by exists server, p, d.
Qed.

(** The messages and storage events by which a verdict is handled on its own. *)
Definition verdict_events (d : Val) : list BgEvent :=
  [bg_msg "SUBMISSION_RESULT" [("data", d)]; ReadAnswered; RunCallback].

(** The state after a verdict on the pending submission [p]. *)
Definition verdict_handled (d p : Val) (fs : list (string * Val)) (s s' : World * Worker) : Prop :=
  let id := to_str (prop d "submissionId") in
  let accepted := is_str (prop d "status_msg") "Accepted" &&
    negb (round_over_at (default VUndef (w_storage s.1 !! "roundEndTime")) (w_now s.1)) in
  requests (w_log s'.1) = requests (w_log s.1) ++
    (if accepted then [post_json (SERVER_URL s.2 +:+ "/submission") (submissionBody p d)] else []) /\
  w_storage s'.1 = <["pendingSubmissions" := VObj (List.filter (fun kv => negb (String.eqb kv.1 id)) fs)]> (w_storage s.1) /\
  s'.2 = s.2.

Lemma submit_outcome server p d w :
  requests (w_log (submit server p d w).2) =
    requests (w_log w) ++ [post_json (server +:+ "/submission") (submissionBody p d)] /\
  w_storage (submit server p d w).2 = w_storage w.
Proof.
  unfold submit, fetch. js_exec. destruct (w_net w) as [|[|]]; cbn;
    by rewrite !requests_app; cbn; rewrite ?app_nil_r.
Qed.

Lemma filtered_field fs id : field id (List.filter (fun kv : string * Val => negb (String.eqb kv.1 id)) fs) = VUndef.
Proof.
  induction fs as [|[k v] fs IH]; [done|]. cbn. destruct (String.eqb k id) eqn:E; cbn; [done|].
  by rewrite String.eqb_sym, E.
Qed.
Lemma verdict_run d w k : is_nullish d = false -> configReady k = true -> reads k = [] -> callbacks k = [] ->
  bg_run (verdict_events d) (w, k) = (submissionCallback (Verdict d) (w_storage w) (w, k)).2.
Proof.
  intros Hd Hc Hr Hcb. destruct k; cbn [configReady reads callbacks] in *; subst. by destruct d.
Qed.

Lemma verdict_known d p fs w k :
  let id := to_str (prop d "submissionId") in
  w_storage w !! "pendingSubmissions" = Some (VObj fs) -> field id fs = p -> truthy p = true ->
  verdict_handled d p fs (w, k) (submissionCallback (Verdict d) (w_storage w) (w, k)).2.
Proof.
  intros id Hs Hf Ht. unfold submissionCallback. rewrite Hs. cbn -[submit round_over_at].
  fold id. rewrite Hf, Ht. cbn -[submit round_over_at]. unfold verdict_handled. fold id.
  unfold bg_get. js_unfold. unfold bio, zoom. cbn -[submit round_over_at].
  destruct (is_str (prop d "status_msg") "Accepted" && _); cbn -[submit].
  - match goal with |- context [submit ?sv ?p ?d ?w'] => destruct (submit_outcome sv p d w') as [H1 H2];
      destruct (submit sv p d w') as [r w''] end.
    cbn in *. by rewrite H1, H2.
  - by rewrite app_nil_r.
Qed.

Lemma verdict_unknown d fs w k :
  w_storage w !! "pendingSubmissions" = Some (VObj fs) -> truthy (field (to_str (prop d "submissionId")) fs) = false ->
  let s' := (submissionCallback (Verdict d) (w_storage w) (w, k)).2 in
  requests (w_log s'.1) = requests (w_log w) /\ w_storage s'.1 = w_storage w.
Proof.
  intros Hs Hf. unfold submissionCallback. rewrite Hs. cbn. rewrite Hf. cbn.
  by rewrite requests_app, app_nil_r.
Qed.

(** C10: A verdict on a pending submission that is handled on its own is scored at most once: it
    leads to one request with the reported solution if it is Accepted and the round is not over, and to none
    otherwise; either way the submission is no longer pending and everything else in the storage stays, so that
    the same verdict a second time sends nothing and changes nothing. *)
Theorem submission_scored (d p : Val) (fs : list (string * Val)) (w : World) (k : Worker) :
  is_nullish d = false -> configReady k = true -> reads k = [] -> callbacks k = [] ->
  w_storage w !! "pendingSubmissions" = Some (VObj fs) ->
  field (to_str (prop d "submissionId")) fs = p -> truthy p = true ->
  let s1 := bg_run (verdict_events d) (w, k) in
  let s2 := bg_run (verdict_events d) s1 in
  verdict_handled d p fs (w, k) s1 /\
  requests (w_log s2.1) = requests (w_log s1.1) /\ w_storage s2.1 = w_storage s1.1.
Proof.
  intros Hd Hc Hr Hcb Hs Hf Ht s1 s2.
  assert (Hv : verdict_handled d p fs (w, k) s1).
  { unfold s1. rewrite verdict_run by done. by apply verdict_known. }
  split; [done|]. destruct Hv as (_ & Hst & Hk). unfold s2. clearbody s1. destruct s1 as [w1 k1]. cbn [fst snd] in *. subst k1.
  rewrite verdict_run by done. eapply verdict_unknown.
  - rewrite Hst. apply lookup_insert_eq.
  - by rewrite filtered_field.
Qed.
End submission_theorems.

(** A solution, and the verdict on it. *)
Definition demo_pending (id : string) : Val :=
  VObj [("submissionId", VStr id); ("problemSlug", VStr "two-sum"); ("typed_code", VStr "x"); ("lang", VStr "cpp")].
Definition demo_verdict (id : string) : Val :=
  VObj [("submissionId", VStr id); ("status_msg", VStr "Accepted"); ("elapsed_time", VNum 3)].

Definition demo_submission : list BgEvent :=
  [Loaded true; bg_msg "SUBMISSION_PENDING" [("data", demo_pending "7")]; ReadAnswered; RunCallback;
   bg_msg "SUBMISSION_RESULT" [("data", demo_verdict "7")]; ReadAnswered; RunCallback].

Lemma submission_authentic_witness :
  exists l, w_log (bg_run (H := demo_env) demo_submission (fresh_world None [], workerInit)).1 = [] ++ l /\
    length l = 2 /\
    forall r, EFetch r ∈ l -> reqBody r <> None ->
      exists server p d, r = post_json (server +:+ "/submission") (submissionBody p d) /\
    reported demo_submission "SUBMISSION_PENDING" p /\ reported demo_submission "SUBMISSION_RESULT" d /\
    to_str (prop p "submissionId") = to_str (prop d "submissionId") /\
    prop d "status_msg" = VStr "Accepted".
Proof.
  destruct (submission_authentic (H := demo_env) demo_submission (fresh_world None []) workerInit eq_refl eq_refl eq_refl)
    as (l & Hl & Hr).
  exists l. split; [exact Hl|]. split; [|exact Hr].
  apply (f_equal length) in Hl. vm_compute in Hl. exact (eq_sym Hl).
Defined.

Lemma submission_scored_witness :
  let fs := [("7", demo_pending "7")] in
  let w := with_storage (fresh_world None []) {[ "pendingSubmissions" := VObj fs ]} in
  let k := set_config workerInit "https://s" "wss://s" true in
  length (requests (w_log (bg_run (H := demo_env) (verdict_events (demo_verdict "7")) (w, k)).1)) = 1.
Proof.
  intros fs w k.
  destruct (submission_scored (H := demo_env) (demo_verdict "7") (demo_pending "7") fs w k eq_refl eq_refl eq_refl
    eq_refl eq_refl eq_refl eq_refl) as [(Hr & _ & _) _].
  rewrite Hr. reflexivity.
Defined.

(** Two submissions whose messages overlap: the verdict on the first is read before the second
    is stored and written after it, and the second is no longer pending when its own verdict
    comes: the accepted solution is never submitted. *)
Definition overlap_demo : list BgEvent :=
  [Loaded true; bg_msg "SUBMISSION_PENDING" [("data", demo_pending "7")]; ReadAnswered; RunCallback;
   bg_msg "SUBMISSION_PENDING" [("data", demo_pending "8")]; bg_msg "SUBMISSION_RESULT" [("data", demo_verdict "7")];
   ReadAnswered; ReadAnswered; RunCallback; RunCallback;
   bg_msg "SUBMISSION_RESULT" [("data", demo_verdict "8")]; ReadAnswered; RunCallback].

Lemma overlapping_submission_lost :
  let s := bg_run (H := demo_env) overlap_demo (fresh_world None [], workerInit) in
  requests (w_log s.1) =
    [post_json "https://api.binarysearchgang.com/submission" (submissionBody (demo_pending "7") (demo_verdict "7"))] /\
  w_storage s.1 !! "pendingSubmissions" = Some (VObj []).
Proof. split; vm_compute; reflexivity. Qed.
