(* ===== verification/WorkerConn.v ===== *)
(** * The worker's connection

    Theorems about the connection of [Worker.v] to rtc-service: the room it is
    in, what ends it, and how sign-in and sign-out act on it. *)

From S2P Require Export Worker.
Import BG.

(** ** The connection knows the room *)

(** If the current socket is open, and the room and the user are known, the
    last thing sent on it is the request to join that room as that user. *)
Definition joined `{JsonCodec} (k : Worker) : Prop :=
  match socket k with
  | None => True
  | Some n =>
      exists c, conns k !! n = Some c /\
        (conn_state c = OPEN -> truthy (activeRoomId k) = true -> truthy (userProfile k) = true ->
         conn_sent c = Some (joinPayload (userProfile k) (activeRoomId k)))
  end.

(** The four fields the connection depends on. *)
Definition same_conn (s s' : World * Worker) : Prop :=
  activeRoomId s'.2 = activeRoomId s.2 /\ userProfile s'.2 = userProfile s.2 /\
  socket s'.2 = socket s.2 /\ conns s'.2 = conns s.2.

#[export] Instance same_conn_preorder : PreOrder same_conn.
Proof.
  split; [by intros s|]. intros s1 s2 s3 (A1 & B1 & C1 & D1) (A2 & B2 & C2 & D2).
  unfold same_conn. by rewrite A2, B2, C2, D2.
Qed.

Lemma steps_bio_conn {A} (m : IO A) : steps same_conn (bio m).
Proof. intros s. unfold bio, zoom. by destruct (m s.1). Qed.

Ltac conn_tac :=
  repeat (lazymatch goal with
  | |- steps same_conn (bio _) => apply steps_bio_conn
  | |- same_conn _ _ => done
  | |- _ => steps_step
  end).

Section joined.
Context `{JsEnv} `{JsonCodec}.

Lemma joined_same s s' : same_conn s s' -> joined s.2 -> joined s'.2.
Proof. intros (H1 & H2 & H3 & H4). unfold joined. by rewrite H1, H2, H3, H4. Qed.

(** Both parts of a request to join are known. *)
Definition known (k : Worker) : bool := truthy (activeRoomId k) && truthy (userProfile k).

(** The current socket, if there is one, is an object. *)
Definition socket_exists (k : Worker) : Prop := match socket k with Some n => is_Some (conns k !! n) | None => True end.

Lemma joined_exists k : joined k -> socket_exists k.
Proof. unfold joined, socket_exists. destruct (socket k); [|done]. intros (c & -> & _). by exists c. Qed.

Lemma joined_unknown k : socket_exists k -> known k = false -> joined k.
Proof.
  unfold joined, socket_exists, known. intros Hs Hk. destruct (socket k); [|done].
  destruct Hs as [c Hc]. exists c. split; [done|]. intros _ H1 H2. by rewrite H1, H2 in Hk.
Qed.

Lemma joined_not_open k n c : socket k = Some n -> conns k !! n = Some c -> conn_state c <> OPEN -> joined k.
Proof. unfold joined. intros -> Hc Ho. by exists c. Qed.

(** The state after [sendJoinRoom]. *)
Lemma sendJoinRoom_joined s : socket_exists s.2 -> joined (sendJoinRoom s).2.2.
Proof.
  intros Hs. unfold sendJoinRoom, readyState, conn_at. js_unfold.
  destruct (socket s.2) as [n|] eqn:En; [|by unfold joined; cbn; rewrite En].
  unfold socket_exists in Hs. rewrite En in Hs. destruct Hs as [c Hc]. cbn. rewrite Hc. cbn.
  destruct (bool_decide (Some (conn_state c) = Some OPEN)) eqn:Eo; js_bool; cbn.
  - destruct (truthy (activeRoomId s.2)) eqn:E1; [destruct (truthy (userProfile s.2)) eqn:E2|]; cbn.
    + unfold joined. change (send_on _ _ s).2.2 with (set_socket s.2 (socket s.2)
        (alter (fun c => mkConn (conn_state c) (Some (joinPayload (userProfile s.2) (activeRoomId s.2)))) n (conns s.2))).
      cbn. rewrite En. eexists. rewrite list_lookup_alter_eq, Hc. cbn. by split.
    + apply joined_unknown; [by unfold socket_exists; rewrite En, Hc; eexists|]. unfold known. by rewrite E1, E2.
    + apply joined_unknown; [by unfold socket_exists; rewrite En, Hc; eexists|]. unfold known. by rewrite E1.
  - apply (joined_not_open _ n c); [done..|]. congruence.
Qed.

Lemma connectWebSocket_joined s : known s.2 = true -> socket_exists s.2 -> joined (connectWebSocket s).2.2.
Proof.
  intros Hk Hs. unfold known in Hk. unfold connectWebSocket. unfold mbind, m_bind, read.
  destruct (bool_decide (readyState s.2 = Some OPEN)) eqn:Eo; cbn [orb andb].
  - rewrite Hk. apply sendJoinRoom_joined. done.
  - destruct (bool_decide (readyState s.2 = Some CONNECTING)) eqn:Ec.
    + cbn. unfold readyState, conn_at in Ec. js_bool. destruct (socket s.2) as [n|] eqn:En; [|done].
      cbn in Ec. destruct (conns s.2 !! n) as [c|] eqn:Hc; [|done]. cbn in Ec.
      eapply joined_not_open; [done..|]. congruence.
    + unfold joined. cbn. exists (mkConn CONNECTING None). split; [|done].
      by apply list_lookup_middle.
Qed.

Lemma connectIfKnown_joined s : socket_exists s.2 -> joined (connectIfKnown s).2.2.
Proof.
  intros Hs. unfold connectIfKnown. unfold mbind, m_bind, read. fold (known s.2).
  destruct (known s.2) eqn:Ek; [by apply connectWebSocket_joined|by apply joined_unknown].
Qed.

(** Where [connectIfKnown] runs after changes of other fields. *)
Definition same_sockets (k k' : Worker) : Prop := socket k' = socket k /\ conns k' = conns k.

Lemma exists_same k k' : same_sockets k k' -> socket_exists k -> socket_exists k'.
Proof. intros [H1 H2]. unfold socket_exists. by rewrite H1, H2. Qed.

Lemma connect_then s (m : WK unit) : m s = (Ok tt, (m s).2) -> same_sockets s.2 (m s).2.2 ->
  socket_exists s.2 -> joined ((m ;; connectIfKnown) s).2.2.
Proof.
  intros Hm Hs Hx. unfold mbind, m_bind at 1. rewrite Hm. apply connectIfKnown_joined. by eapply exists_same.
Qed.

Lemma loaded_joined ok s : joined s.2 -> joined (loaded ok s).2.2.
Proof.
  intros Hj. pose proof (joined_exists _ Hj) as Hx. unfold loaded.
  set (fin := on_bg _). set (body := if ok then _ else _).
  enough (joined (body s).2.2) as Hb.
  { unfold mbind, m_bind. destruct (body s) as [[]  s']; [|done]. exact Hb. }
  destruct ok; unfold body; [|by apply (joined_same s)].
  unfold bio, zoom. js_unfold. cbn -[connectIfKnown].
  repeat match goal with |- context [truthy ?v] => destruct (truthy v); cbn -[connectIfKnown truthy] end;
    apply connectIfKnown_joined; exact Hx.
Qed.

Lemma storageChanged_joined l ns s : joined s.2 -> joined (storageChanged l ns s).2.2.
Proof.
  intros Hj. unfold storageChanged. destruct (String.eqb ns "local"); [|done]. cbn [when].
  assert (Hstep : forall b f (t : World * Worker), (forall k, same_sockets k (f k)) -> joined t.2 ->
    joined ((when b (on_bg f ;; connectIfKnown) : WK unit) t).2.2).
  { intros b f t Hf Ht. destruct b; [|done]. apply connect_then; [done|apply Hf|by apply joined_exists]. }
  unfold mbind, m_bind. set (first := when (has_field "activeRoomId" l) _).
  assert (Hfirst : joined (first s).2.2) by (by apply Hstep).
  destruct (first s) as [[] s']; [|done]. by apply Hstep.
Qed.

Lemma exists_alter n f k : socket_exists k -> socket_exists (set_socket k (socket k) (alter f n (conns k))).
Proof.
  unfold socket_exists. cbn. destruct (socket k) as [i|]; [|done]. intros [c Hc].
  destruct (decide (n = i)) as [->|Hne]; [rewrite list_lookup_alter_eq|rewrite list_lookup_alter_ne by done];
    rewrite Hc; by eexists.
Qed.

(** A connection that is not open any more. *)
Lemma becomes_joined n st k : st <> OPEN -> joined k ->
  joined (set_socket k (socket k) (alter (fun c => mkConn st (conn_sent c)) n (conns k))).
Proof.
  intros Hst. unfold joined. cbn. destruct (socket k) as [i|]; [|done]. intros (c & Hc & Hs).
  destruct (decide (n = i)) as [->|Hne]; [rewrite list_lookup_alter_eq|rewrite list_lookup_alter_ne by done];
    rewrite Hc; eexists; split; [done|done|done|done].
Qed.

Lemma opened_joined n s : joined s.2 -> joined ((conn_becomes n OPEN ;; onopen) s).2.2.
Proof.
  intros Hj. pose proof (joined_exists _ Hj) as Hx.
  set (s' := (conn_becomes n OPEN s).2). change (joined (onopen s').2.2).
  assert (Hx' : socket_exists s'.2) by by apply exists_alter.
  unfold onopen. unfold mbind, m_bind, read. fold (known s'.2).
  destruct (known s'.2) eqn:Ek; cbn [when]; [by apply sendJoinRoom_joined|by apply joined_unknown].
Qed.

Lemma reconnect_joined s : joined s.2 -> joined (reconnect s).2.2.
Proof.
  intros Hj. pose proof (joined_exists _ Hj) as Hx. unfold reconnect. unfold mbind, m_bind, read.
  destruct (truthy (activeRoomId s.2)) eqn:Ea; cbn [when]; [|done].
  destruct (truthy (userProfile s.2)) eqn:Eu; [by apply connectWebSocket_joined; [unfold known; rewrite Ea, Eu|]|].
  (* without a profile nothing is sent *)
  apply joined_unknown.
  - unfold connectWebSocket. unfold mbind, m_bind, read. rewrite Eu, andb_false_r.
    destruct (_ || _); [done|]. unfold socket_exists. cbn. rewrite list_lookup_middle by done. by eexists.
  - unfold known, connectWebSocket. unfold mbind, m_bind, read. rewrite Eu, andb_false_r.
    destruct (_ || _); cbn; by rewrite Eu, andb_false_r.
Qed.

(** What [same_conn] keeps survives the rest of a handler. *)
Lemma seq_kept (Q : Worker -> Prop) {A B} (m : WK A) (f : A -> WK B) s :
  (forall s1 s2, same_conn s1 s2 -> Q s1.2 -> Q s2.2) ->
  Q (m s).2.2 -> (forall a, steps same_conn (f a)) -> Q ((m ≫= f) s).2.2.
Proof.
  intros HQ Hm Hf. unfold mbind, m_bind. destruct (m s) as [[a|e] s']; [|done].
  by apply (HQ s'); [apply Hf|].
Qed.

Lemma joined_seq {A B} (m : WK A) (f : A -> WK B) s :
  joined (m s).2.2 -> (forall a, steps same_conn (f a)) -> joined ((m ≫= f) s).2.2.
Proof. apply (seq_kept joined), joined_same. Qed.

Lemma joined_after {A B} (m : WK A) (f : A -> WK B) s :
  steps same_conn m -> joined s.2 -> (forall a s', joined s'.2 -> joined (f a s').2.2) ->
  joined ((m ≫= f) s).2.2.
Proof.
  intros Hm Hs Hf. assert (Hj : joined (m s).2.2) by by apply (joined_same s); [apply Hm|].
  unfold mbind, m_bind. destruct (m s) as [[a|e] s']; [by apply Hf|done].
Qed.

Lemma finishLogout_disconnects s : socket (finishLogout s).2.2 = None /\ activeRoomId (finishLogout s).2.2 = VNull.
Proof.
  set (Q := fun k => socket k = None /\ activeRoomId k = VNull).
  change (Q (finishLogout s).2.2). unfold finishLogout.
  unfold mbind at 1, m_bind at 1. cbn [on_bg modify]. unfold mbind at 1, m_bind at 1. cbn [read].
  apply seq_kept; [intros ? ? (H1 & _ & H3 & _); unfold Q; by rewrite H1, H3| |intros ?; conn_tac].
  cbn. destruct (socket s.2) as [n|] eqn:En; cbn; [|by unfold Q; cbn; rewrite En].
  unfold bio, zoom. js_unfold. cbn. by destruct (negb _).
Qed.

Lemma workerLogout_joined s : joined s.2 -> joined (workerLogout s).2.2.
Proof.
  intros Hj. apply joined_after; [conn_tac|done|]. intros server s1 H1.
  apply joined_after; [conn_tac|done|]. intros [] s2 H2.
  unfold joined. by rewrite (proj1 (finishLogout_disconnects s2)).
Qed.

Lemma onMessage_joined e request s : joined s.2 -> joined (onMessage e request s).2.2.
Proof.
  intros Hj. unfold onMessage.
  destruct (truthy request && is_str (prop request "type") "COPY_TO_CLIPBOARD").
  { eapply joined_same; [|done]. enough (steps same_conn (ok ← doCopy e (js_or (prop request "text") (VStr ""));
      mret (Some (VObj [("ok", ok)])) : WK (option Val))) as Hs by apply Hs. conn_tac. }
  apply joined_after; [conn_tac|done|]. intros ty s1 H1.
  repeat match goal with |- context [if ?b then _ else _] => destruct b end;
    try (apply joined_seq; [by apply workerLogout_joined|intros ?; conn_tac]);
    (eapply joined_same; [|done]);
    match goal with |- same_conn s1 (?m s1).2 => enough (steps same_conn m) as Hs by apply Hs; conn_tac end.
Qed.

Lemma bg_step_joined s ev : joined s.2 -> joined (bg_step s ev).2.
Proof.
  intros Hj. unfold bg_step. destruct (can_happen ev s.2); [|done].
  assert (Hsame : steps same_conn (handler ev) -> joined (handler ev s).2.2).
  { intros Hh. by apply (joined_same s); [apply Hh|]. }
  destruct ev; try solve [apply Hsame; conn_tac]; cbn [handler].
  - by apply loaded_joined.
  - by apply storageChanged_joined.
  - rewrite bind_ret_state. by apply onMessage_joined.
  - by apply opened_joined.
  - by apply becomes_joined.
  - done.
  - by apply reconnect_joined.
Qed.
End joined.

(** C9: The worker is in the right room.  After any run of its events from its start (the configuration
    read early or late, changes of room and user, sign-outs, sockets opening, closing and reconnecting in
    any order), whenever the worker's socket is open and it knows a room and a user, the last
    frame it sent on that socket is the request to join that room as that user. *)
Theorem worker_joined `{JsEnv} `{JsonCodec} (evs : list BgEvent) (w : World) :
  joined (bg_run evs (w, workerInit)).2.
Proof.
  assert (Hj : joined (w, workerInit).2) by done. revert Hj. generalize (w, workerInit).
  induction evs as [|ev evs IH]; intros s Hj; [done|]. apply IH. by apply bg_step_joined.
Qed.

(** A sign-out, and a sign-in before the old socket has closed: the close of the
    old socket makes the worker forget the new one, which is open, and the reconnection
    opens a third, so that two open connections are in the room. *)
Definition stale_close_demo : list BgEvent :=
  let signed_in := StorageEvent [("activeRoomId", VStr "r"); ("user", VObj [("id", VNum 1)])] "local" in
  [Loaded true; signed_in; SocketOpened 0; bg_msg "LOGOUT" []; signed_in; SocketOpened 1; SocketClosed 0;
   Reconnect; SocketOpened 2].

Lemma stale_close_leaks :
  let k := (bg_run (H := demo_env) stale_close_demo (fresh_world None [], workerInit)).2 in
  socket k = Some 2 /\ conn_state <$> conns k = [CLOSED; OPEN; OPEN].
Proof. vm_compute. done. Qed.
