(* ===== verification/ContentScript.v ===== *)
(** * The content script

    [extension/contentScript.js] and [extension/injected.js]: what the extension
    does inside a LeetCode page.  The script reports the problem in which the user
    writes code, frames the panel and keeps its width, its layout and its theme, and
    hands the intercepted submissions on to the worker.

    The page is a record; a listener or a callback is a function on it, and
    [cs_step] the event loop.  Measures of the window and of elements arrive with
    the events.  Widths and fractions of the window are exact rationals, where the code
    has doubles; the root font size is the usual 16 pixels. *)

From S2P Require Export Navigation.
From Stdlib Require Import Ascii QArith Qround Lqa.

(** ** Numbers *)

Definition qle : Q -> Q -> bool := Qle_bool.
Definition qlt (a b : Q) : bool := negb (Qle_bool b a).
Definition qmin (a b : Q) : Q := if qle a b then a else b.
Definition qmax (a b : Q) : Q := if qle a b then b else a.
(** [Math.round] *)
Definition math_round (q : Q) : Z := Qfloor (q + (1 # 2)).

Module CS.

(** What the script keeps in [chrome.storage.local]: fractions are numbers
    that need not be integral, and [SPx q] is the text of [q] followed by px. *)
Inductive Stored := SNum (q : Q) | SPx (q : Q) | SVal (v : Val).
(** [typeof x === 'number' && x > 0] *)
Definition positive_number (s : option Stored) : option Q :=
  match s with
  | Some (SNum q) => if qlt 0 q then Some q else None
  | Some (SVal (VNum z)) => if (0 <? z)%Z then Some (inject_Z z) else None
  | _ => None
  end.
Definition stored_truthy (s : option Stored) : bool :=
  match s with
  | Some (SNum q) => negb (Qeq_bool q 0)
  | Some (SPx _) => true
  | Some (SVal v) => truthy v
  | None => false
  end.
Definition stored_true (s : option Stored) : bool :=
  match s with Some (SVal v) => is_true v | _ => false end.
(** A theme preference or another string *)
Definition stored_str (s : option Stored) : option string :=
  match s with Some (SVal (VStr t)) => Some t | _ => None end.

(** ** Touched problems *)

Record EditorEvent := mkEditorEvent {
  ev_type : string;
  ev_key : string;
  ctrlKey : bool;
  metaKey : bool;
  in_editor : bool;     (* the target is an element inside a .monaco-editor *)
}.

Definition INERT_KEYS : list string :=
  ["Shift"; "Control"; "Alt"; "Meta"; "CapsLock"; "Tab"; "Escape";
   "ArrowUp"; "ArrowDown"; "ArrowLeft"; "ArrowRight";
   "Home"; "End"; "PageUp"; "PageDown"; "Insert";
   "ContextMenu"; "NumLock"; "ScrollLock"; "Pause"].

Definition is_digit (a : ascii) : bool :=
  let n := Ascii.nat_of_ascii a in (48 <=? n)%nat && (n <=? 57)%nat.

(** [/^F\d{1,2}$/] *)
Definition function_key (k : string) : bool :=
  match k with
  | String "F" (String a EmptyString) => is_digit a
  | String "F" (String a (String b EmptyString)) => is_digit a && is_digit b
  | _ => false
  end.

Definition isEditingKey (e : EditorEvent) : bool :=
  if includes INERT_KEYS (ev_key e) || function_key (ev_key e) then false
  else if ctrlKey e || metaKey e then includes ["v"; "x"; "z"; "y"] (to_lower (ev_key e))
  else true.

(** ** The page *)

Record Window := mkWindow {
  innerWidth : Z;
  innerHeight : Z;
  wrapperTop : Q;     (* wrapper.getBoundingClientRect().top *)
  qdHeight : Q;       (* qd.getBoundingClientRect().height *)
}.

(** The style of the panel; [fixed] is [position: 'fixed'] with the z-index and the
    corners that are always set with it. *)
Record Style := mkStyle {
  width : Q;
  height : Q;
  fixed : bool;
  top : option Q;
  transition : bool;
  light : bool;         (* backgroundColor is LIGHT_BG *)
}.

Inductive BarColor := DARK_HANDLE | LIGHT_HANDLE | BLUE.
Record Handle := mkHandle {
  shown : bool;          (* display *)
  handleHeight : option Q;
  barColor : BarColor;
  barTall : bool;        (* height 100% *)
  iframeEvents : bool;   (* iframe.style.pointerEvents *)
  resizing : bool;       (* the cursor and userSelect of the body *)
}.

(** LeetCode's tabsets: path of each, and whether it has the active class. *)
Record Tabset := mkTabset { path : string; tabsetActive : bool }.

Record Page := mkPage {
  reportedTouches : list string;
  panelFolded : bool;
  panelMaximized : bool;
  preMaximizeFraction : Q;
  panelWidthFraction : Q;
  window : Window;
  panel : Style;
  handle : Handle;
  isDragging : bool;
  stored : gmap string Stored;
  panelActive : bool;
  tabsets : list Tabset;
  observed : option nat;       (* the tabset activeTabsetObserver watches *)
  sent : list Val;             (* chrome.runtime.sendMessage *)
  posted : list Val;           (* postMessage to the panel *)
}.

Section setters.
Context (p : Page).
Definition set_touches v := mkPage v (panelFolded p) (panelMaximized p) (preMaximizeFraction p) (panelWidthFraction p) (window p) (panel p) (handle p) (isDragging p) (stored p) (panelActive p) (tabsets p) (observed p) (sent p) (posted p).
Definition set_mode f m pre w := mkPage (reportedTouches p) f m pre w (window p) (panel p) (handle p) (isDragging p) (stored p) (panelActive p) (tabsets p) (observed p) (sent p) (posted p).
Definition set_window v := mkPage (reportedTouches p) (panelFolded p) (panelMaximized p) (preMaximizeFraction p) (panelWidthFraction p) v (panel p) (handle p) (isDragging p) (stored p) (panelActive p) (tabsets p) (observed p) (sent p) (posted p).
Definition set_panel v := mkPage (reportedTouches p) (panelFolded p) (panelMaximized p) (preMaximizeFraction p) (panelWidthFraction p) (window p) v (handle p) (isDragging p) (stored p) (panelActive p) (tabsets p) (observed p) (sent p) (posted p).
Definition set_handle v d := mkPage (reportedTouches p) (panelFolded p) (panelMaximized p) (preMaximizeFraction p) (panelWidthFraction p) (window p) (panel p) v d (stored p) (panelActive p) (tabsets p) (observed p) (sent p) (posted p).
Definition set_stored v := mkPage (reportedTouches p) (panelFolded p) (panelMaximized p) (preMaximizeFraction p) (panelWidthFraction p) (window p) (panel p) (handle p) (isDragging p) v (panelActive p) (tabsets p) (observed p) (sent p) (posted p).
Definition set_tabs a t o := mkPage (reportedTouches p) (panelFolded p) (panelMaximized p) (preMaximizeFraction p) (panelWidthFraction p) (window p) (panel p) (handle p) (isDragging p) (stored p) a t o (sent p) (posted p).
Definition send v := mkPage (reportedTouches p) (panelFolded p) (panelMaximized p) (preMaximizeFraction p) (panelWidthFraction p) (window p) (panel p) (handle p) (isDragging p) (stored p) (panelActive p) (tabsets p) (observed p) (sent p ++ [v]) (posted p).
Definition post v := mkPage (reportedTouches p) (panelFolded p) (panelMaximized p) (preMaximizeFraction p) (panelWidthFraction p) (window p) (panel p) (handle p) (isDragging p) (stored p) (panelActive p) (tabsets p) (observed p) (sent p) (posted p ++ [v]).
End setters.

Definition store (k : string) (v : Stored) (p : Page) : Page := set_stored p (<[k := v]> (stored p)).
Definition s_bool (b : bool) : Stored := SVal (VBool b).

(** *** Reporting *)

Definition reportTouch (pathname : string) (p : Page) : Page :=
  match parseProblemSlug pathname with
  | None => p
  | Some slug =>
      if includes (reportedTouches p) slug then p
      else send (set_touches p (reportedTouches p ++ [slug]))
             (VObj [("type", VStr "PROBLEM_TOUCHED"); ("slug", VStr slug)])
  end.

Definition handleEditorInput (pathname : string) (e : EditorEvent) (p : Page) : Page :=
  if negb (in_editor e) then p
  else if String.eqb (ev_type e) "keydown" && negb (isEditingKey e) then p
  else reportTouch pathname p.

(** ** The width of the panel *)

Definition MIN_PANEL_WIDTH : Q := 36.
Definition COLLAPSE_WIDTH : Q := 120.
Definition MIN_EXPAND_WIDTH : Q := COLLAPSE_WIDTH + 40.

(** [window.innerWidth] as a width *)
Definition window_width (p : Page) : Q := inject_Z (innerWidth (window p)).

Definition set_width (w : Q) (s : Style) : Style := mkStyle w (height s) (fixed s) (top s) (transition s) (light s).
Definition set_height (h : Q) (s : Style) : Style := mkStyle (width s) h (fixed s) (top s) (transition s) (light s).
Definition on_panel (f : Style -> Style) (p : Page) : Page := set_panel p (f (panel p)).

(** The width is also what it returns. *)
Definition clampWidth (p : Page) (px : Q) : Q := qmax MIN_PANEL_WIDTH (qmin (window_width p) px).
Definition applyPanelWidth (px : Q) (p : Page) : Page := on_panel (set_width (clampWidth p px)) p.

Definition getMaximizedOffset (p : Page) : Q := qmax 0 (wrapperTop (window p)).
Definition maximized_height (p : Page) : Q := inject_Z (innerHeight (window p)) - getMaximizedOffset p.

Definition applyMaximizedLayout (p : Page) : Page :=
  set_panel p (mkStyle (window_width p) (maximized_height p) true (Some (getMaximizedOffset p)) false (light (panel p))).

Definition set_mode_of (p : Page) (folded maximized : bool) (fraction : Q) : Page :=
  set_mode p folded maximized (preMaximizeFraction p) fraction.

(** What [setPanelWidth] writes. *)
Definition persist_width (isFolded : bool) (widthPx : Q) (p : Page) : Page :=
  store "isPanelFolded" (s_bool isFolded)
    (store "isPanelMaximized" (s_bool (panelMaximized p))
      (store "panelWidthFraction" (SNum (panelWidthFraction p))
        (store "panelWidth" (if isFolded then SVal (VStr "24rem") else SPx widthPx) p))).

Definition setPanelWidth (px : Q) (isFolded : bool) (p : Page) : Page :=
  let widthPx := clampWidth p (if isFolded then MIN_PANEL_WIDTH else px) in
  let p := set_panel p (set_width widthPx (panel p)) in
  let p := if isFolded then set_mode_of p true (panelMaximized p) (panelWidthFraction p)
           else set_mode_of p false
                  (if qlt widthPx (window_width p - 1) then false else panelMaximized p)
                  (qmin 1 (widthPx / window_width p)) in
  persist_width isFolded widthPx p.

Definition requestWidth (px : Q) (p : Page) : Page :=
  if qle px COLLAPSE_WIDTH then setPanelWidth MIN_PANEL_WIDTH true p else setPanelWidth px false p.

Definition expanded_width (fraction : Q) (p : Page) : Q := inject_Z (math_round (fraction * window_width p)).

Definition syncPanelWidth (p : Page) : Page :=
  if panelFolded p then p
  else if panelMaximized p then
    set_panel p (mkStyle (window_width p) (maximized_height p) (fixed (panel p)) (Some (getMaximizedOffset p))
                   (transition (panel p)) (light (panel p)))
  else requestWidth (expanded_width (panelWidthFraction p) p) p.

(** *** The start *)

(** [parseFloat] on a text that begins with a decimal number without exponent. *)
Definition digits_value (d : string) : Z :=
  str_fold (fun n a => 10 * n + Z.of_nat (Ascii.nat_of_ascii a - 48))%Z 0%Z d.
Definition parse_float_abs (s : string) : option Q :=
  let '(whole, rest) := str_span is_digit s in
  let frac := match rest with String "." r => (str_span is_digit r).1 | _ => "" end in
  if String.eqb whole "" && String.eqb frac "" then None
  else Some (inject_Z (digits_value whole) +
             inject_Z (digits_value frac) / inject_Z (10 ^ Z.of_nat (String.length frac))).
Definition parse_float (s : string) : option Q :=
  match trim_start s with
  | String "-" r => Qopp <$> parse_float_abs r
  | String "+" r => parse_float_abs r
  | r => parse_float_abs r
  end.

(** [parseFloat(result.panelWidth ?? '24rem')] *)
Definition legacy_width (s : option Stored) : option Q :=
  match s with
  | None | Some (SVal (VUndef | VNull)) => Some 24
  | Some (SNum q) | Some (SPx q) => Some q
  | Some (SVal v) => parse_float (to_str v)
  end.

(** The page before [initPanelWidth]. *)
Definition pageInit (w : Window) (storage : gmap string Stored) (tabs : list Tabset) : Page :=
  mkPage [] false false (1 # 4) (1 # 4) w (mkStyle 0 (qdHeight w) false None true false)
    (mkHandle true None DARK_HANDLE false true false) false storage false tabs None [] [].

Definition initPanelWidth (p : Page) : Page :=
  let result := stored p in
  let p := if decide (result !! "isPanelFolded" = None) then store "isPanelFolded" (s_bool false) p else p in
  let isPanelFolded := stored_truthy (result !! "isPanelFolded") in
  let pre := default (preMaximizeFraction p) (positive_number (result !! "preMaximizeFraction")) in
  let p := set_mode p isPanelFolded (stored_true (result !! "isPanelMaximized")) pre (panelWidthFraction p) in
  let p := match positive_number (result !! "panelWidthFraction") with
           | Some f => set_mode_of p (panelFolded p) (panelMaximized p) f
           | None =>
               let px := match legacy_width (result !! "panelWidth") with
                         | Some rem => if qlt 0 rem then rem * 16 else 384
                         | None => 384
                         end in
               let f := qmax (5 # 100) (qmin 1 (px / window_width p)) in
               store "panelWidthFraction" (SNum f) (set_mode_of p (panelFolded p) (panelMaximized p) f)
           end in
  let expandedPx := expanded_width (panelWidthFraction p) p in
  if isPanelFolded || qle expandedPx COLLAPSE_WIDTH
  then on_panel (set_width MIN_PANEL_WIDTH) (set_mode_of p true (panelMaximized p) (panelWidthFraction p))
  else on_panel (set_width expandedPx) p.

Definition show_handle (b : bool) (p : Page) : Page :=
  let h := handle p in
  set_handle p (mkHandle b (handleHeight h) (barColor h) (barTall h) (iframeEvents h) (resizing h)) (isDragging p).

(** The browser [DetectBrowser] finds among [navigator.userAgentData.brands];
    without it the script stops here. *)
Definition DetectBrowser (brands : option (list string)) : Res string :=
  match brands with
  | Some l => match l !! 2%nat with Some b => Ok b | None => Throw type_error end
  | None => Throw type_error
  end.

(** The heights that follow the content of the page. *)
Definition syncHandleHeight (p : Page) : Page :=
  if panelMaximized p then on_panel (set_height (maximized_height p)) p
  else
    let h := handle p in
    let p := set_handle p (mkHandle (shown h) (Some (qdHeight (window p))) (barColor h) (barTall h) (iframeEvents h) (resizing h)) (isDragging p) in
    on_panel (set_height (qmax 0 (qmin (qdHeight (window p)) (inject_Z (innerHeight (window p)))))) p.

(** Everything up to the first [syncHandleHeight]; [None] when it throws. *)
Definition startPanel (brands : option (list string)) (p : Page) : option Page :=
  match DetectBrowser brands with
  | Throw _ => None
  | Ok b =>
      let p := initPanelWidth (store "browser" (SVal (VStr b)) p) in
      let p := if panelMaximized p then applyMaximizedLayout (show_handle false p) else p in
      Some (syncHandleHeight p)
  end.

(** *** The messages of the panel *)

Definition fold (p : Page) : Page := setPanelWidth MIN_PANEL_WIDTH true p.

(** The storage is read and the width set in one step. *)
Definition unfold_panel (p : Page) : Page :=
  let f := default (panelWidthFraction p) (positive_number (stored p !! "panelWidthFraction")) in
  let p := store "isPanelFolded" (s_bool false) (set_mode_of p false (panelMaximized p) f) in
  requestWidth (qmax MIN_EXPAND_WIDTH (expanded_width f p)) p.

Definition maximize (p : Page) : Page :=
  if negb (panelMaximized p) then
    let pre := panelWidthFraction p in
    let p := applyMaximizedLayout (show_handle false (set_mode p false true pre 1)) in
    store "isPanelFolded" (s_bool false) (store "isPanelMaximized" (s_bool true)
      (store "preMaximizeFraction" (SNum pre) p))
  else
    let p := show_handle true (set_mode_of p false false (preMaximizeFraction p)) in
    let target := qmax MIN_EXPAND_WIDTH (expanded_width (preMaximizeFraction p) p) in
    let targetHeight := qmax 0 (qmin (qdHeight (window p)) (inject_Z (innerHeight (window p)))) in
    let p := set_panel p (mkStyle target targetHeight false None false (light (panel p))) in
    store "isPanelFolded" (s_bool false) (store "isPanelMaximized" (s_bool false) p).

(** The next frame after a restored size. *)
Definition enable_transition (p : Page) : Page :=
  let s := panel p in set_panel p (mkStyle (width s) (height s) (fixed s) (top s) true (light s)).

(** ** Theme *)

(** What the theme depends on in the page: [localStorage] and the media query. *)
Record Look := mkLook { lc_theme : option string; prefers_dark : bool }.

Definition getResolvedTheme (l : Look) : string :=
  match lc_theme l with
  | Some t => if String.eqb t "dark" || String.eqb t "light" then t else if prefers_dark l then "dark" else "light"
  | None => if prefers_dark l then "dark" else "light"
  end.

(** [loaded]: whether the frame has a window to post to. *)
Definition sendThemeToIframe (frame : bool) (theme : string) (p : Page) : Page :=
  let p := if frame then post p (VObj [("type", VStr "BSG_THEME_UPDATE"); ("theme", VStr theme)]) else p in
  let s := panel p in
  set_panel p (mkStyle (width s) (height s) (fixed s) (top s) (transition s) (String.eqb theme "light")).

(** The preference, when it is a text that is not empty. *)
Definition preference (p : Page) : option string :=
  match stored_str (stored p !! "themePreference") with Some "" | None => None | Some t => Some t end.

Definition syncTheme (frame : bool) (l : Look) (p : Page) : Page :=
  match preference p with
  | Some t => sendThemeToIframe frame (if String.eqb t "auto" then getResolvedTheme l else t) p
  | None => sendThemeToIframe frame (getResolvedTheme l) p
  end.

(** The class of the page, or the preference of the system, has changed. *)
Definition pageThemeChanged (frame : bool) (l : Look) (p : Page) : Page :=
  match preference p with
  | None | Some "auto" => sendThemeToIframe frame (getResolvedTheme l) p
  | Some _ => p
  end.

(** The colour of the bar at rest *)
Definition restColor (l : Look) (p : Page) : BarColor :=
  match preference p with
  | Some t => if String.eqb t "light" then LIGHT_HANDLE else DARK_HANDLE
  | None => if prefers_dark l then DARK_HANDLE else LIGHT_HANDLE
  end.

(** ** Dragging *)

Definition set_bar (c : BarColor) (tall : bool) (p : Page) : Page :=
  let h := handle p in
  set_handle p (mkHandle (shown h) (handleHeight h) c tall (iframeEvents h) (resizing h)) (isDragging p).

(** [x] is the right edge of the panel minus the pointer's position. *)
Definition dragTo (x : Q) (p : Page) : Page := requestWidth (clampWidth p x) p.

Definition beginDrag (x : Q) (p : Page) : Page :=
  let h := handle p in
  dragTo x (set_handle p (mkHandle (shown h) (handleHeight h) BLUE true false true) true).

Definition endDrag (l : Look) (p : Page) : Page :=
  if negb (isDragging p) then p
  else let h := handle p in
       set_handle p (mkHandle (shown h) (handleHeight h) (restColor l p) false true false) false.

Definition pointerMove (x : Q) (p : Page) : Page := if negb (isDragging p) then p else dragTo x p.
Definition pointerEnter (p : Page) : Page := if negb (isDragging p) then set_bar BLUE true p else p.
Definition pointerLeave (l : Look) (p : Page) : Page :=
  if negb (isDragging p) then set_bar (restColor l p) false p else p.

(** The frames after a change of the content's size and of the window's. *)
Definition contentResized (p : Page) : Page :=
  let p := syncHandleHeight p in if negb (isDragging p) then syncPanelWidth p else p.
Definition windowResized (p : Page) : Page := syncPanelWidth (syncHandleHeight p).

(** ** The active tab of LeetCode *)

Definition set_active (b : bool) (t : Tabset) : Tabset := mkTabset (path t) b.

Definition activate (p : Page) : Page :=
  if panelActive p then p
  else match list_find tabsetActive (tabsets p) with
       | None => set_tabs p true (tabsets p) (observed p)
       | Some (i, _) => set_tabs p true (alter (set_active false) i (tabsets p)) (Some i)
       end.

Definition removeActive (p : Page) : Page :=
  send (set_tabs p false (tabsets p) None) (VObj [("type", VStr "NOT_ACTIVE")]).

(** What was clicked: a tab with its path, something directly in the tabset
    [i], or nothing of a tabset. *)
Inductive Target := OnTab (layoutPath : option string) | OnTabset (i : nat) | Elsewhere.

(** [tabPath?.split('/').slice(0, -1).join('/')] *)
Definition tabset_path (tabPath : option string) : string :=
  match tabPath with
  | Some t => let parts := split_on "/" t in join "/" (take (length parts - 1) parts)
  | None => "undefined"
  end.

Definition target_tabset (t : Target) (p : Page) : option nat :=
  match t with
  | OnTab tabPath => fst <$> list_find (fun ts => path ts = tabset_path tabPath) (tabsets p)
  | OnTabset i => if (i <? length (tabsets p))%nat then Some i else None
  | Elsewhere => None
  end.

Definition mousedown (t : Target) (p : Page) : Page :=
  match target_tabset t p with
  | Some i => let p := removeActive p in set_tabs p (panelActive p) (alter (set_active true) i (tabsets p)) (observed p)
  | None => p
  end.

(** A node added to the layout: a tabset, or a tab. *)
Definition tabsetAdded (ts : Tabset) (p : Page) : Page :=
  removeActive (set_tabs p (panelActive p) (tabsets p ++ [ts]) (observed p)).
Definition tabAdded (p : Page) : Page := removeActive p.

(** LeetCode gives the tabset [i] the active class; the observer takes it away
    again from the one it watches. *)
Definition classAdded (i : nat) (p : Page) : Page :=
  let ts := alter (set_active true) i (tabsets p) in
  if decide (observed p = Some i) then set_tabs p (panelActive p) (alter (set_active false) i ts) (observed p)
  else set_tabs p (panelActive p) ts (observed p).

(** ** Submissions *)

(** A call of [fetch] by the page: its first argument when it is a string, the
    body of its options, and the JSON of the answer. *)
Record PageFetch := mkPageFetch { f_url : string; f_body : option string; f_answer : Res Val }.

(** The match of [/problems\/([^\/]+)\/submit/] at the start of [u]: greedy, so
    the group ends before a slash. *)
Definition submit_here (u : string) : option string :=
  if starts_with "problems/" u then
    let '(m, rest) := str_span (fun a => negb (Ascii.eqb a "/")) (str_drop 9 u) in
    if negb (String.eqb m "") && starts_with "/submit" rest then Some m else None
  else None.
Fixpoint submitSlug (u : string) : option string :=
  match submit_here u with
  | Some m => Some m
  | None => match u with String _ u => submitSlug u | EmptyString => None end
  end.

Section injected.
Context `{JsonCodec}.

(** [window.postMessage] to the content script: what the page posts. *)
Definition injectedSubmit (f : PageFetch) : Res (option Val) :=
  if negb (str_includes "/submit/" (f_url f)) then Ok None else
  data ← f_answer f;
  body ← match f_body f with Some b => if String.eqb b "" then Ok (VObj []) else json_parse b | None => Ok (VObj []) end;
  id ← get data "submission_id";
  lang ← get body "lang"; question ← get body "question_id"; code ← get body "typed_code";
  Ok (Some (VObj [("type", VStr "BSG_LEETCODE_SUBMISSION");
    ("payload", VObj [("problemSlug", VStr (default "" (submitSlug (f_url f)))); ("submissionId", id);
                      ("lang", lang); ("question_id", question); ("typed_code", code)])])).

Definition injectedCheck (f : PageFetch) : Res (option Val) :=
  if negb (str_includes "/check/" (f_url f)) then Ok None else
  data ← f_answer f;
  state ← get data "state";
  if negb (is_str state "SUCCESS") then Ok None else
  Ok (Some (VObj [("type", VStr "BSG_LEETCODE_RESULT");
    ("payload", VObj (("submissionId", of_opt (split_on "/" (f_url f) !! 3%nat)) ::
       ((fun k => (k, prop data k)) <$>
         ["status_msg"; "total_correct"; "total_testcases"; "runtime_percentile"; "memory_percentile";
          "code_output"; "std_output"; "elapsed_time"])))])).

(** Both are posted; an exception of either is only logged. *)
Definition posted_by (f : PageFetch) : list Val :=
  let got r := match r with Ok (Some v) => [v] | _ => [] end in
  got (injectedSubmit f) ++ got (injectedCheck f).

(** [event.data] of a message of the page itself; none if reading its type throws *)
Definition pageMessage (data : Val) (p : Page) : Page :=
  if negb (truthy (prop data "type")) then p else
  let p := if is_str (prop data "type") "BSG_LEETCODE_SUBMISSION"
           then send p (VObj [("type", VStr "SUBMISSION_PENDING"); ("data", prop data "payload")]) else p in
  if is_str (prop data "type") "BSG_LEETCODE_RESULT"
  then send p (VObj [("type", VStr "SUBMISSION_RESULT"); ("data", prop data "payload")]) else p.

Definition pageFetch (f : PageFetch) (p : Page) : Page := fold_left (fun p v => pageMessage v p) (posted_by f) p.
End injected.

(** ** Events *)

Inductive CsEvent :=
| Typed (pathname : string) (e : EditorEvent)
| Resize (w : Window)
| ContentResize (top qd : Q)
| FOLD | UNFOLD | MAXIMIZE | ACTIVE
| FrameLoaded (l : Look) | PageTheme (l : Look) | Preference (v : Stored) (l : Look)
| DragStart (x : Q) | DragMove (x : Q) | DragEnd (l : Look) | Hover | Unhover (l : Look)
| Painted
| MouseDown (t : Target) | TabsetAdded (ts : Tabset) | TabAdded | ClassAdded (i : nat)
| Fetched (f : PageFetch).

(** What can happen: the handle is there to be pressed while it is shown.  The script takes the messages of the
    panel in every state. *)
Definition can_occur (ev : CsEvent) (p : Page) : bool :=
  match ev with DragStart _ => shown (handle p) | _ => true end.

Definition cs_handler `{JsonCodec} (ev : CsEvent) (p : Page) : Page :=
  match ev with
  | Typed pathname e => handleEditorInput pathname e p
  | Resize w => windowResized (set_window p w)
  | ContentResize t q => contentResized (set_window p (mkWindow (innerWidth (window p)) (innerHeight (window p)) t q))
  | FOLD => fold p
  | UNFOLD => unfold_panel p
  | MAXIMIZE => maximize p
  | ACTIVE => activate p
  | FrameLoaded l => syncTheme true l p
  | PageTheme l => pageThemeChanged true l p
  | Preference v l => syncTheme true l (store "themePreference" v p)
  | DragStart x => beginDrag x p
  | DragMove x => pointerMove x p
  | DragEnd l => endDrag l p
  | Hover => pointerEnter p
  | Unhover l => pointerLeave l p
  | Painted => enable_transition p
  | MouseDown t => mousedown t p
  | TabsetAdded ts => tabsetAdded ts p
  | TabAdded => tabAdded p
  | ClassAdded i => classAdded i p
  | Fetched f => pageFetch f p
  end.

Definition cs_step `{JsonCodec} (p : Page) (ev : CsEvent) : Page := if can_occur ev p then cs_handler ev p else p.
(** The panel sends its messages in turn: UNFOLD from the bar that it shows folded, MAXIMIZE while the
    frame takes clicks, which it does not during a drag. *)
Definition in_turn (ev : CsEvent) (p : Page) : Prop :=
  match ev with UNFOLD => panelFolded p = true | MAXIMIZE => isDragging p = false | _ => True end.
Fixpoint all_in_turn `{JsonCodec} (evs : list CsEvent) (p : Page) : Prop :=
  match evs with [] => True | ev :: evs => in_turn ev p /\ all_in_turn evs (cs_step p ev) end.

Definition cs_run `{JsonCodec} (evs : list CsEvent) (p : Page) : Page := fold_left cs_step evs p.

End CS.
Import CS.

(** ** Lemmas on numbers *)

#[global] Arguments qle : simpl never.
#[global] Arguments qlt : simpl never.
#[global] Arguments qmin : simpl never.
#[global] Arguments qmax : simpl never.
#[global] Arguments math_round : simpl never.
#[global] Arguments inject_Z : simpl never.
#[global] Arguments Qdiv : simpl never.
#[global] Arguments Qmult : simpl never.
#[global] Arguments Qminus : simpl never.
#[global] Arguments Qplus : simpl never.

Open Scope Q_scope.

Lemma qle_true a b : qle a b = true -> a <= b.
Proof. apply Qle_bool_iff. Qed.
Lemma qle_false a b : qle a b = false -> b < a.
Proof. unfold qle. intros Hq. apply Qnot_le_lt. intros Hle%Qle_bool_iff. congruence. Qed.
Lemma qlt_true a b : qlt a b = true -> a < b.
Proof. unfold qlt. rewrite negb_true_iff. apply qle_false. Qed.
Lemma qlt_false a b : qlt a b = false -> b <= a.
Proof. unfold qlt. rewrite negb_false_iff. apply qle_true. Qed.

(** Splits every comparison of widths. *)
Ltac q_cases :=
  unfold qmin, qmax in *;
  repeat match goal with
  | H : qle _ _ = true |- _ => apply qle_true in H
  | H : qle _ _ = false |- _ => apply qle_false in H
  | H : qlt _ _ = true |- _ => apply qlt_true in H
  | H : qlt _ _ = false |- _ => apply qlt_false in H
  | |- context [qle ?a ?b] => destruct (qle a b) eqn:?
  | H : context [qle ?a ?b] |- _ => destruct (qle a b) eqn:?
  | |- context [qlt ?a ?b] => destruct (qlt a b) eqn:?
  end.

Lemma round_Z n : math_round (inject_Z n) = n.
Proof.
  unfold math_round. apply Z.le_antisymm.
  - apply Z.lt_succ_r. rewrite Zlt_Qlt. eapply Qle_lt_trans; [apply Qfloor_le|].
    unfold Z.succ. rewrite inject_Z_plus. change (inject_Z 1) with 1. lra.
  - rewrite <- (Qfloor_Z n) at 1. apply Qfloor_resp_le. lra.
Qed.

#[export] Instance math_round_proper : Proper (Qeq ==> eq) math_round.
Proof. intros x y Hxy. unfold math_round. by rewrite Hxy. Qed.

Lemma round_le x y : x <= y -> (math_round x <= math_round y)%Z.
Proof. intros Hxy. unfold math_round. apply Qfloor_resp_le. lra. Qed.

(** A share of the window is no wider than the window. *)
Lemma share_le f n : 0 <= inject_Z n -> f <= 1 -> inject_Z (math_round (f * inject_Z n)) <= inject_Z n.
Proof.
  intros Hn Hf. rewrite <- Zle_Qle. rewrite <- (round_Z n) at 2. apply round_le.
  apply (Qle_trans _ (1 * inject_Z n)); [by apply Qmult_le_compat_r|lra].
Qed.

Lemma share_one f n : f == 1 -> inject_Z (math_round (f * inject_Z n)) == inject_Z n.
Proof.
  intros ->. assert (H : math_round (1 * inject_Z n) = n); [|by rewrite H].
  rewrite <- (round_Z n) at 2. apply math_round_proper. ring.
Qed.

Lemma ratio_pos w n : 0 < n -> 0 < w -> 0 < w / n.
Proof. intros Hn Hw. apply Qlt_shift_div_l; lra. Qed.

(** A width of whole pixels is the rounded share of its own ratio. *)
Lemma ratio_share w n : (0 < n)%Z -> inject_Z (math_round (inject_Z w / inject_Z n * inject_Z n)) == inject_Z w.
Proof.
  intros Hn. assert (H : math_round (inject_Z w / inject_Z n * inject_Z n) = w); [|by rewrite H].
  rewrite <- (round_Z w) at 2. apply math_round_proper. field.
  intros Hz. rewrite <- Qeq_bool_iff in Hz. unfold Qeq_bool, inject_Z in Hz. cbn in Hz.
  apply Z.eqb_eq in Hz. lia.
Qed.

(** ** The invariant of the panel *)

(** Folded to the sidebar, or wide enough to be used and no wider than the window. *)
Definition width_ok (p : Page) : Prop :=
  let w := width (panel p) in
  if panelFolded p then w == MIN_PANEL_WIDTH
  else COLLAPSE_WIDTH < w /\ w <= window_width p /\ (panelMaximized p = true -> w == window_width p).

Definition fractions_ok (p : Page) : Prop :=
  0 < panelWidthFraction p /\ panelWidthFraction p <= 1 /\
  0 < preMaximizeFraction p /\ preMaximizeFraction p <= 1 /\
  (panelMaximized p = true -> panelWidthFraction p == 1) /\
  (panelFolded p = true -> positive_number (stored p !! "panelWidthFraction") = Some (panelWidthFraction p)).

(** The panel covers the page and has no handle exactly while it is maximized. *)
Definition layout_ok (p : Page) : Prop :=
  fixed (panel p) = panelMaximized p /\ shown (handle p) = negb (panelMaximized p) /\
  (isDragging p = true -> panelMaximized p = false).

Definition wide_enough (w : Window) : Prop := (160 <= innerWidth w)%Z.

Definition page_ok (p : Page) : Prop :=
  wide_enough (window p) /\ width_ok p /\ fractions_ok p /\ layout_ok p.

Lemma window_wide p : wide_enough (window p) -> 160 <= window_width p.
Proof. unfold wide_enough, window_width. intros Hw. change 160 with (inject_Z 160). by rewrite <- Zle_Qle. Qed.

Lemma clamp_bounds p px : wide_enough (window p) -> COLLAPSE_WIDTH < px ->
  COLLAPSE_WIDTH < clampWidth p px /\ clampWidth p px <= window_width p.
Proof.
  intros Hw%window_wide Hx. unfold clampWidth, MIN_PANEL_WIDTH, COLLAPSE_WIDTH in *. q_cases; lra.
Qed.

Lemma clamp_min p : wide_enough (window p) -> clampWidth p MIN_PANEL_WIDTH == MIN_PANEL_WIDTH.
Proof. intros Hw%window_wide. unfold clampWidth, MIN_PANEL_WIDTH in *. q_cases; lra. Qed.

(** What the fields become when the width is set. *)
Lemma persisted b w p : stored (persist_width b w p) !! "panelWidthFraction" = Some (SNum (panelWidthFraction p)).
Proof.
  unfold persist_width, store. cbn. rewrite !lookup_insert_ne by done. apply lookup_insert_eq.
Qed.

Lemma positive_stored f : 0 < f -> positive_number (Some (SNum f)) = Some f.
Proof. cbn. intros Hf. destruct (qlt 0 f) eqn:E; [done|]. apply qlt_false in E. lra. Qed.

Lemma fold_ok p : wide_enough (window p) -> fractions_ok p -> layout_ok p -> page_ok (setPanelWidth MIN_PANEL_WIDTH true p).
Proof.
  intros Hw (F1 & F2 & F3 & F4 & F5 & F6) Hl. split; [done|]. split; [by apply clamp_min|]. split; [|done].
  split; [done|]. split; [done|]. split; [done|]. split; [done|]. split; [done|]. intros _.
  unfold setPanelWidth. rewrite persisted. by apply positive_stored.
Qed.

(** Setting a usable width; a maximized panel must be given the window's. *)
Lemma widen_ok px p : wide_enough (window p) -> COLLAPSE_WIDTH < px ->
  0 < preMaximizeFraction p -> preMaximizeFraction p <= 1 -> layout_ok p ->
  (panelMaximized p = true -> window_width p <= px) ->
  page_ok (setPanelWidth px false p).
Proof.
  intros Hw Hx F3 F4 (L1 & L2 & L3) Hm. pose proof (window_wide _ Hw) as HW.
  destruct (clamp_bounds p px Hw Hx) as [B1 B2].
  assert (Hmax : panelMaximized p = true -> clampWidth p px == window_width p /\
            qlt (clampWidth p px) (window_width p - 1) = false).
  { intros Hp. specialize (Hm Hp).
    assert (Hc : clampWidth p px == window_width p) by (unfold clampWidth, MIN_PANEL_WIDTH in *; q_cases; lra).
    split; [done|]. unfold qlt. rewrite negb_false_iff. apply Qle_bool_iff. rewrite Hc. lra. }
  assert (Hr : 0 < clampWidth p px / window_width p) by (apply ratio_pos; unfold COLLAPSE_WIDTH in *; lra).
  unfold page_ok, setPanelWidth, width_ok, fractions_ok, layout_ok. cbn.
  change (window_width (set_panel p (set_width (clampWidth p px) (panel p)))) with (window_width p).
  destruct (panelMaximized p) eqn:Ep.
  - destruct Hmax as [M1 M2]; [done|]. rewrite M2. cbn. repeat split; try done; try (by q_cases; lra).
    + intros _. assert (E : clampWidth p px / window_width p == 1) by (rewrite M1; field; lra).
      q_cases; lra.
  - rewrite Tauto.if_same. repeat split; try done; by q_cases; lra.
Qed.

Lemma request_ok px p : wide_enough (window p) -> fractions_ok p -> layout_ok p ->
  (panelMaximized p = true -> window_width p <= px) -> page_ok (requestWidth px p).
Proof.
  intros Hw Hf Hl Hm. unfold requestWidth. destruct (qle px COLLAPSE_WIDTH) eqn:E; [by apply fold_ok|].
  apply qle_false in E. destruct Hf as (F1 & F2 & F3 & F4 & F5 & F6). by apply widen_ok.
Qed.

Lemma panel_sync_ok p : wide_enough (window p) -> fractions_ok p -> layout_ok p ->
  (panelFolded p = true -> width (panel p) == MIN_PANEL_WIDTH) -> page_ok (syncPanelWidth p).
Proof.
  intros Hw Hf Hl Hfold. pose proof (window_wide _ Hw) as HW. unfold syncPanelWidth.
  destruct (panelFolded p) eqn:Ef.
  { split; [done|]. split; [|done]. unfold width_ok. rewrite Ef. by apply Hfold. }
  destruct (panelMaximized p) eqn:Em; [|by apply request_ok; rewrite ?Em].
  split; [done|]. split; [|done].
  unfold width_ok, COLLAPSE_WIDTH. cbn. rewrite Ef.
  change (window_width _) with (window_width p). repeat split; try done; lra.
Qed.

Lemma unfold_ok p : page_ok p -> panelFolded p = true -> page_ok (unfold_panel p).
Proof.
  intros (Hw & _ & (F1 & F2 & F3 & F4 & F5 & F6) & Hl) Hf. unfold unfold_panel.
  replace (default _ _) with (panelWidthFraction p) by by rewrite (F6 Hf).
  set (f := panelWidthFraction p) in *. cbv zeta. set (p' := store _ _ _).
  pose proof (window_wide _ Hw) as HW. apply request_ok; [done| |done|].
  - by repeat split.
  - intros Hm. change (window_width p') with (window_width p). unfold expanded_width, MIN_EXPAND_WIDTH, COLLAPSE_WIDTH.
    change (window_width p') with (window_width p).
    pose proof (share_one f (innerWidth (window p)) (F5 Hm)) as Hs. fold (window_width p) in Hs. q_cases; lra.
Qed.

Lemma maximize_ok p : page_ok p -> isDragging p = false -> page_ok (maximize p).
Proof.
  intros (Hw & Hwd & (F1 & F2 & F3 & F4 & F5 & F6) & (L1 & L2 & L3)) Hd. pose proof (window_wide _ Hw) as HW.
  unfold maximize. destruct (panelMaximized p) eqn:Em; cbn [negb].
  - split; [done|]. split; [|split].
    + unfold width_ok. cbn. unfold expanded_width. change (window_width _) with (window_width p).
      assert (Hs : inject_Z (math_round (preMaximizeFraction p * window_width p)) <= window_width p).
      { apply share_le; [|done]. change (inject_Z (innerWidth (window p))) with (window_width p). lra. }
      unfold MIN_EXPAND_WIDTH, COLLAPSE_WIDTH in *. repeat split; try done; q_cases; lra.
    + by repeat split.
    + by repeat split.
  - split; [done|]. split; [|split].
    + unfold width_ok, COLLAPSE_WIDTH. cbn. change (window_width _) with (window_width p). repeat split; try done; lra.
    + repeat split; try done; cbn; lra.
    + repeat split; cbn; try done. by rewrite Hd.
Qed.

(** What the panel's width depends on. *)
Definition same_panel (p p' : Page) : Prop :=
  innerWidth (window p') = innerWidth (window p) /\ width (panel p') = width (panel p) /\ fixed (panel p') = fixed (panel p) /\
  panelFolded p' = panelFolded p /\ panelMaximized p' = panelMaximized p /\
  preMaximizeFraction p' = preMaximizeFraction p /\ panelWidthFraction p' = panelWidthFraction p /\
  stored p' !! "panelWidthFraction" = stored p !! "panelWidthFraction" /\
  shown (handle p') = shown (handle p) /\ (isDragging p' = true -> isDragging p = true).

#[export] Instance same_panel_preorder : PreOrder same_panel.
Proof.
  split; [by intros p|]. unfold same_panel. intros p1 p2 p3 (?&?&?&?&?&?&?&?&?&?) (?&?&?&?&?&?&?&?&?&?).
  repeat split; try congruence. auto.
Qed.

Lemma same_panel_ok p p' : same_panel p p' -> page_ok p -> page_ok p'.
Proof.
  intros (S1 & S2 & S3 & S4 & S5 & S6 & S7 & S8 & S9 & S10) (Hw & Hwd & Hf & (L1 & L2 & L3)).
  unfold page_ok, width_ok, fractions_ok, layout_ok, wide_enough, window_width in *.
  rewrite S1, S2, S3, S4, S5, S6, S7, S8, S9. by repeat split; auto; apply Hf.
Qed.

(** Closes [same_panel] for the operations that leave the panel's width alone. *)
Ltac same_panel_tac := unfold same_panel; cbn; repeat case_match; cbn; repeat split; try done.

Lemma handle_height_same p : same_panel p (syncHandleHeight p).
Proof. unfold syncHandleHeight. destruct (panelMaximized p) eqn:E; same_panel_tac. Qed.

Lemma theme_same b t p : same_panel p (sendThemeToIframe b t p).
Proof. unfold sendThemeToIframe. destruct b; same_panel_tac. Qed.

Lemma pageMessage_same v p : same_panel p (pageMessage v p).
Proof. unfold pageMessage. same_panel_tac. Qed.

Lemma pageFetch_same `{JsonCodec} f p : same_panel p (pageFetch f p).
Proof.
  unfold pageFetch. generalize (posted_by f). intros l. revert p.
  induction l as [|v l IH]; intros p; [reflexivity|]. cbn. etransitivity; [apply (pageMessage_same v)|apply IH].
Qed.

(** The handlers that do not touch the width. *)
Definition apart (ev : CsEvent) : bool :=
  match ev with
  | Resize _ | ContentResize _ _ | FOLD | UNFOLD | MAXIMIZE | DragStart _ | DragMove _ => false
  | _ => true
  end.

Lemma apart_same `{JsonCodec} ev p : apart ev = true -> same_panel p (cs_handler ev p).
Proof.
  intros Ha. destruct ev; cbn [cs_handler]; first [discriminate Ha|clear Ha].
  - unfold handleEditorInput, reportTouch. same_panel_tac.
  - unfold activate. same_panel_tac.
  - unfold syncTheme. destruct (preference p); apply theme_same.
  - unfold pageThemeChanged. repeat case_match; first [reflexivity|apply theme_same].
  - transitivity (store "themePreference" v p).
    + same_panel_tac. by rewrite lookup_insert_ne.
    + unfold syncTheme. destruct (preference _); apply theme_same.
  - unfold endDrag. same_panel_tac.
  - unfold pointerEnter. same_panel_tac.
  - unfold pointerLeave. same_panel_tac.
  - same_panel_tac.
  - unfold mousedown. same_panel_tac.
  - same_panel_tac.
  - same_panel_tac.
  - unfold classAdded. same_panel_tac.
  - apply pageFetch_same.
Qed.

Definition event_wide (ev : CsEvent) : Prop := match ev with Resize w => wide_enough w | _ => True end.

Lemma drag_ok x p : page_ok p -> panelMaximized p = false -> page_ok (dragTo x p).
Proof. intros (Hw & _ & Hf & Hl) Hm. apply request_ok; try done. by rewrite Hm. Qed.

Lemma cs_step_ok `{JsonCodec} p ev : event_wide ev -> in_turn ev p -> page_ok p -> page_ok (cs_step p ev).
Proof.
  intros He Ht Hp. pose proof Hp as (Hw & Hwd & Hf & Hl). unfold cs_step.
  destruct (can_occur ev p) eqn:Ec; [|done].
  assert (Hsame : apart ev = true -> page_ok (cs_handler ev p)).
  { intros Ha. eapply same_panel_ok; [by apply apart_same|done]. }
  destruct ev; try (by apply Hsame); cbn [cs_handler]; cbn in Ec; js_bool.
  - unfold windowResized. set (p1 := set_window p w).
    assert (Hfold : panelFolded p1 = true -> width (panel p1) == MIN_PANEL_WIDTH).
    { unfold width_ok in Hwd. change (panelFolded p1) with (panelFolded p). by intros E; rewrite E in Hwd. }
    unfold syncHandleHeight. destruct (panelMaximized p1); by apply panel_sync_ok.
  - unfold contentResized.
    set (p1 := set_window p _). assert (Hp2 : page_ok (syncHandleHeight p1)).
    { eapply same_panel_ok; [apply handle_height_same|]. by apply (same_panel_ok p). }
    destruct (isDragging _); cbn [negb]; [done|]. destruct Hp2 as (Hw2 & Hwd2 & Hf2 & Hl2).
    apply panel_sync_ok; try done. intros E. unfold width_ok in Hwd2. by rewrite E in Hwd2.
  - by apply fold_ok.
  - by apply unfold_ok.
  - by apply maximize_ok.
  - assert (Em : panelMaximized p = false).
    { destruct Hl as (_ & Hs & _). rewrite Ec in Hs. by apply negb_sym in Hs. }
    unfold beginDrag. apply drag_ok; [|done]. split; [done|]. split; [done|]. split; [done|].
    destruct Hl as (L1 & L2 & L3). by repeat split.
  - unfold pointerMove. destruct (isDragging p) eqn:Ed; cbn [negb]; [|done].
    apply drag_ok; [done|]. by apply Hl.
Qed.

Lemma cs_run_ok `{JsonCodec} evs p : Forall event_wide evs -> all_in_turn evs p -> page_ok p -> page_ok (cs_run evs p).
Proof.
  unfold cs_run. intros He. revert p. induction He as [|ev evs Hev He IH]; intros p Ht Hp; [done|].
  destruct Ht as [Ht1 Ht]. apply IH; [done|]. by apply cs_step_ok.
Qed.

(** What holds also when they come out of turn: the width. *)
Definition bounded (p : Page) : Prop :=
  wide_enough (window p) /\ panelWidthFraction p <= 1 /\ preMaximizeFraction p <= 1 /\
  if panelFolded p then width (panel p) == MIN_PANEL_WIDTH
  else COLLAPSE_WIDTH < width (panel p) /\ width (panel p) <= window_width p.

Lemma ok_bounded p : page_ok p -> bounded p.
Proof.
  intros (Hw & Hwd & (F1 & F2 & F3 & F4 & _) & _). unfold bounded, width_ok in *. split_and!; try done.
  destruct (panelFolded p); [done|]. by split; apply Hwd.
Qed.

Lemma request_bounded px p : wide_enough (window p) -> panelWidthFraction p <= 1 \/ COLLAPSE_WIDTH < px -> preMaximizeFraction p <= 1 ->
  bounded (requestWidth px p).
Proof.
  intros Hw Hf Hp. unfold requestWidth. destruct (qle px COLLAPSE_WIDTH) eqn:E.
  - apply qle_true in E. unfold bounded, setPanelWidth. cbn. split_and!; try done; [|by apply clamp_min].
    destruct Hf as [Hf|Hf]; [done|lra].
  - apply qle_false in E. destruct (clamp_bounds p px Hw E) as [B1 B2]. unfold bounded, setPanelWidth. cbn.
    split_and!; try done. unfold qmin. destruct (qle 1 _) eqn:E1; [lra|]. apply qle_false in E1. lra.
Qed.

Lemma sync_bounded p : wide_enough (window p) -> panelWidthFraction p <= 1 -> preMaximizeFraction p <= 1 ->
  (panelFolded p = true -> width (panel p) == MIN_PANEL_WIDTH) -> bounded (syncPanelWidth p).
Proof.
  intros Hw Hf Hp Hfold. pose proof (window_wide _ Hw) as HW. unfold syncPanelWidth.
  destruct (panelFolded p) eqn:Ef; [unfold bounded; rewrite Ef; by split_and!; auto|].
  destruct (panelMaximized p); [|apply request_bounded; auto].
  unfold bounded, COLLAPSE_WIDTH. cbn. rewrite Ef. change (window_width (set_panel _ _)) with (window_width p).
  split_and!; try done; lra.
Qed.

Lemma maximize_bounded p : bounded p -> bounded (maximize p).
Proof.
  intros (Hw & Hf & Hp & Hwd). pose proof (window_wide _ Hw) as HW. unfold maximize, bounded.
  destruct (panelMaximized p); cbn [negb]; cbn; change (window_width _) with (window_width p).
  - unfold expanded_width. change (window_width _) with (window_width p).
    assert (Hs : inject_Z (math_round (preMaximizeFraction p * window_width p)) <= window_width p).
    { apply share_le; [|done]. change (inject_Z (innerWidth (window p))) with (window_width p). lra. }
    unfold MIN_EXPAND_WIDTH, COLLAPSE_WIDTH in *. split_and!; try done; q_cases; lra.
  - unfold COLLAPSE_WIDTH. split_and!; try done; lra.
Qed.

Lemma same_bounded p p' : same_panel p p' -> bounded p -> bounded p'.
Proof.
  intros (S1 & S2 & _ & S4 & _ & S6 & S7 & _). unfold bounded, wide_enough, window_width. by rewrite S1, S2, S4, S6, S7.
Qed.

Lemma cs_step_bounded `{JsonCodec} p ev : event_wide ev -> bounded p -> bounded (cs_step p ev).
Proof.
  intros He Hb. pose proof Hb as (Hw & Hf & Hp & Hwd). unfold cs_step. destruct (can_occur ev p); [|done].
  assert (Hsame : apart ev = true -> bounded (cs_handler ev p)).
  { intros Ha. eapply same_bounded; [by apply apart_same|done]. }
  assert (Hfold : panelFolded p = true -> width (panel p) == MIN_PANEL_WIDTH) by (by intros E; rewrite E in Hwd).
  destruct ev; try (by apply Hsame); cbn [cs_handler].
  - unfold windowResized, syncHandleHeight. destruct (panelMaximized _); by apply sync_bounded.
  - unfold contentResized. set (p1 := set_window p _).
    assert (Hb2 : bounded (syncHandleHeight p1)).
    { eapply same_bounded; [apply handle_height_same|]. by apply (same_bounded p). }
    destruct (negb _); [|done]. destruct Hb2 as (Hw2 & Hf2 & Hp2 & Hwd2).
    apply sync_bounded; try done. intros E. by rewrite E in Hwd2.
  - unfold fold, bounded, setPanelWidth. cbn. split_and!; try done. by apply clamp_min.
  - unfold unfold_panel. apply request_bounded; [done| |done]. right. unfold MIN_EXPAND_WIDTH, COLLAPSE_WIDTH. q_cases; lra.
  - by apply maximize_bounded.
  - unfold beginDrag, dragTo. apply request_bounded; auto.
  - unfold pointerMove. destruct (negb _); [done|]. unfold dragTo. apply request_bounded; auto.
Qed.

Lemma cs_run_bounded `{JsonCodec} evs p : Forall event_wide evs -> bounded p -> bounded (cs_run evs p).
Proof.
  unfold cs_run. intros He. revert p. induction He as [|ev evs Hev He IH]; intros p Hp; [done|].
  apply IH. by apply cs_step_bounded.
Qed.

(** *** The start *)

(** What earlier pages left in the storage: fractions of a window, and a panel
    that was not maximized when its page was left. *)
Definition storage_ok (m : gmap string Stored) : Prop :=
  (forall f, positive_number (m !! "panelWidthFraction") = Some f -> f <= 1) /\
  (forall f, positive_number (m !! "preMaximizeFraction") = Some f -> f <= 1) /\
  stored_true (m !! "isPanelMaximized") = false.

Lemma positive_number_pos s f : positive_number s = Some f -> 0 < f.
Proof.
  destruct s as [[q|q|[| | |z| | |]]|]; try done; cbn.
  - destruct (qlt 0 q) eqn:E; [|done]. intros [= <-]. by apply qlt_true.
  - destruct (0 <? z)%Z eqn:E; [|done]. intros [= <-]. js_bool. change 0 with (inject_Z 0). by rewrite <- Zlt_Qlt.
Qed.

(** The page once the fraction of the window is known. *)
Lemma init_choose p f folded :
  wide_enough (window p) -> 0 < f -> f <= 1 -> panelWidthFraction p = f -> panelFolded p = folded ->
  0 < preMaximizeFraction p -> preMaximizeFraction p <= 1 -> panelMaximized p = false ->
  positive_number (stored p !! "panelWidthFraction") = Some f -> layout_ok p ->
  page_ok (if folded || qle (expanded_width f p) COLLAPSE_WIDTH
           then on_panel (set_width MIN_PANEL_WIDTH) (set_mode_of p true (panelMaximized p) f)
           else on_panel (set_width (expanded_width f p)) p).
Proof.
  intros Hw F1 F2 Ef Efo F3 F4 Em Hs Hl. pose proof (window_wide _ Hw) as HW.
  destruct (folded || _) eqn:E.
  - split; [done|]. split; [done|]. split; [|done].
    unfold fractions_ok. cbn. rewrite Em. by repeat split.
  - apply orb_false_elim in E as [E1 E2]. apply qle_false in E2.
    split; [done|]. split; [|split].
    + unfold width_ok. cbn. rewrite Efo, E1, Em. split; [done|]. split; [|done].
      apply share_le; [|done]. change (inject_Z (innerWidth (window p))) with (window_width p). lra.
    + unfold fractions_ok. cbn. rewrite Em, Efo, E1, Ef. by repeat split.
    + done.
Qed.

Lemma init_ok w m tabs browser : wide_enough w -> storage_ok m ->
  page_ok (initPanelWidth (store "browser" (SVal (VStr browser)) (pageInit w m tabs))) /\
  panelMaximized (initPanelWidth (store "browser" (SVal (VStr browser)) (pageInit w m tabs))) = false.
Proof.
  intros Hw (M1 & M2 & M3). set (p := store _ _ _).
  assert (Hlook : forall k, k <> "browser" -> stored p !! k = m !! k)
    by (intros k Hk; by apply lookup_insert_ne).
  unfold initPanelWidth. cbv zeta. rewrite !Hlook by done. rewrite M3.
  set (p1 := if decide _ then _ else _).
  assert (Hp1 : window p1 = w /\
            (forall folded pre f, layout_ok (set_mode p1 folded false pre f)) /\ stored p1 !! "panelWidthFraction" = m !! "panelWidthFraction" /\
            preMaximizeFraction p1 = 1 # 4).
  { unfold p1. destruct (decide _); cbn; rewrite ?lookup_insert_ne by done; by repeat split. }
  destruct Hp1 as (P1 & P2 & P3 & P4).
  set (pre := default _ _).
  assert (Hpre : 0 < pre /\ pre <= 1).
  { unfold pre. destruct (positive_number (m !! "preMaximizeFraction")) as [q|] eqn:E; cbn.
    - split; [by eapply positive_number_pos|by apply M2].
    - rewrite P4. split; lra. }
  set (p2 := set_mode p1 _ _ _ _).
  destruct (positive_number (m !! "panelWidthFraction")) as [f|] eqn:E.
  - split; [|by destruct (_ || _)].
    match goal with |- page_ok (if _ || qle (expanded_width _ ?X) _ then _ else _) => apply (init_choose X f) end; try done; try apply Hpre; cbn; try (by rewrite P1); try (by rewrite P3).
    + by eapply positive_number_pos.
    + by apply M1.
    + apply P2.
  - set (f := qmax _ _).
    assert (Hf : 0 < f /\ f <= 1) by (unfold f; split; q_cases; lra).
    split; [|by destruct (_ || _)].
    match goal with |- page_ok (if _ || qle (expanded_width _ ?X) _ then _ else _) => apply (init_choose X f) end; try done; try apply Hpre; try apply Hf; cbn; try (by rewrite P1).
    + rewrite lookup_insert_eq. by apply positive_stored, Hf.
    + apply P2.
Qed.

Lemma start_ok brands w m tabs p : wide_enough w -> storage_ok m ->
  startPanel brands (pageInit w m tabs) = Some p -> page_ok p.
Proof.
  intros Hw Hm. unfold startPanel. destruct (DetectBrowser brands) as [b|]; [|done].
  destruct (init_ok w m tabs b Hw Hm) as [H1 H2]. cbv zeta. rewrite H2. intros [= <-].
  by apply (same_panel_ok _ _ (handle_height_same _)).
Qed.

(** *** Sizes that are restored *)

(** The panel has the size [x], in whole pixels, and nothing is going on. *)
Definition sized (x : Z) (p : Page) : Prop :=
  panelFolded p = false /\ panelMaximized p = false /\ isDragging p = false /\ shown (handle p) = true /\
  width (panel p) == inject_Z x /\ math_round (panelWidthFraction p * window_width p) = x.

Lemma share_of_width p x f : wide_enough (window p) -> f == inject_Z x / window_width p ->
  math_round (f * window_width p) = x.
Proof.
  intros Hw%window_wide Hf. transitivity (math_round (inject_Z x)); [|apply round_Z].
  apply math_round_proper. rewrite Hf. field. lra.
Qed.

(** Setting a width of whole pixels that fits. *)
Lemma widen_sized x p : wide_enough (window p) -> (160 <= x <= innerWidth (window p))%Z ->
  panelMaximized p = false -> isDragging p = false -> shown (handle p) = true ->
  sized x (setPanelWidth (inject_Z x) false p).
Proof.
  intros Hw [X1 X2] Hm Hd Hs. pose proof (window_wide _ Hw) as HW.
  assert (X1' : 160 <= inject_Z x) by (change 160 with (inject_Z 160); by rewrite <- Zle_Qle).
  assert (X2' : inject_Z x <= window_width p) by (unfold window_width; by rewrite <- Zle_Qle).
  assert (Hc : clampWidth p (inject_Z x) == inject_Z x) by (unfold clampWidth, MIN_PANEL_WIDTH; q_cases; lra).
  unfold sized, setPanelWidth. cbn. rewrite Hm, Tauto.if_same. repeat split; try done.
  change (window_width _) with (window_width p). apply share_of_width; [done|].
  assert (E : clampWidth p (inject_Z x) / window_width p <= 1) by (rewrite Hc; apply Qle_shift_div_r; lra).
  unfold qmin. destruct (qle 1 _) eqn:Eq; [|by rewrite Hc].
  apply qle_true in Eq. rewrite <- Hc. lra.
Qed.

Lemma unfold_sized x p : wide_enough (window p) -> (160 <= x <= innerWidth (window p))%Z -> sized x p ->
  0 < panelWidthFraction p -> sized x (unfold_panel (fold p)).
Proof.
  intros Hw Hx (S1 & S2 & S3 & S4 & S5 & S6) Hf. unfold unfold_panel.
  assert (Hst : positive_number (stored (fold p) !! "panelWidthFraction") = Some (panelWidthFraction p)).
  { unfold fold, setPanelWidth. rewrite persisted. by apply positive_stored. }
  replace (default _ _) with (panelWidthFraction p) by by rewrite Hst.
  cbv zeta. set (p' := store _ _ _).
  assert (E : qmax MIN_EXPAND_WIDTH (expanded_width (panelWidthFraction p) (fold p)) = inject_Z x).
  { unfold expanded_width. change (window_width (fold p)) with (window_width p). rewrite S6.
    unfold qmax. destruct (qle _ _) eqn:Eq; [done|]. apply qle_false in Eq. exfalso. destruct Hx as [Hx _].
    apply (Qlt_not_le _ _ Eq). unfold MIN_EXPAND_WIDTH, COLLAPSE_WIDTH.
    change (120 + 40) with (inject_Z 160). by rewrite <- Zle_Qle. }
  change (expanded_width _ p') with (expanded_width (panelWidthFraction p) (fold p)).
  rewrite E. unfold requestWidth. destruct (qle (inject_Z x) COLLAPSE_WIDTH) eqn:Eq.
  - exfalso. apply qle_true in Eq. destruct Hx as [Hx _]. rewrite Zle_Qle in Hx. unfold COLLAPSE_WIDTH in Eq.
    change (inject_Z 160) with 160 in Hx. lra.
  - apply widen_sized; done.
Qed.

Lemma restore_sized x p : (160 <= x <= innerWidth (window p))%Z ->
  panelMaximized p = true -> isDragging p = false ->
  math_round (preMaximizeFraction p * window_width p) = x -> sized x (maximize p).
Proof.
  intros Hx Hm Hd Hr. unfold maximize. rewrite Hm. cbn [negb]. unfold sized. cbn.
  repeat split; try done. unfold expanded_width. change (window_width _) with (window_width p). rewrite Hr.
  destruct Hx as [Hx _]. rewrite Zle_Qle in Hx. change (inject_Z 160) with 160 in Hx.
  unfold MIN_EXPAND_WIDTH, COLLAPSE_WIDTH. q_cases; lra.
Qed.

(** A maximized panel keeps its state when it unfolds. *)
Lemma clamp_full p px : wide_enough (window p) -> window_width p <= px ->
  qlt (clampWidth p px) (window_width p - 1) = false.
Proof.
  intros Hw%window_wide Hp. destruct (qlt _ _) eqn:E; [|done]. apply qlt_true in E.
  unfold clampWidth, MIN_PANEL_WIDTH in E. q_cases; lra.
Qed.

Lemma unfold_maximized p : wide_enough (window p) -> panelMaximized p = true -> panelWidthFraction p == 1 ->
  let p' := unfold_panel (fold p) in
  panelMaximized p' = true /\ isDragging p' = isDragging p /\ window p' = window p /\
  preMaximizeFraction p' = preMaximizeFraction p.
Proof.
  intros Hw Hm Hf. pose proof (window_wide _ Hw) as HW. unfold unfold_panel.
  assert (Hst : positive_number (stored (fold p) !! "panelWidthFraction") = Some (panelWidthFraction p)).
  { unfold fold, setPanelWidth. rewrite persisted. apply positive_stored. cbn. lra. }
  replace (default _ _) with (panelWidthFraction p) by by rewrite Hst.
  cbv zeta. set (p' := store _ _ _). change (panelMaximized p') with (panelMaximized p).
  assert (Hpx : window_width p' <= qmax MIN_EXPAND_WIDTH (expanded_width (panelWidthFraction p) p')).
  { unfold expanded_width. pose proof (share_one _ (innerWidth (window p)) Hf) as Hs.
    change (inject_Z (innerWidth (window p))) with (window_width p') in Hs. q_cases; lra. }
  set (px := qmax _ _) in *. unfold requestWidth.
  destruct (qle px COLLAPSE_WIDTH) eqn:Eq.
  { apply qle_true in Eq. change (window_width p') with (window_width p) in Hpx. unfold COLLAPSE_WIDTH in Eq. lra. }
  unfold setPanelWidth. cbn.
  change (window_width (set_panel p' _)) with (window_width p').
  rewrite clamp_full by done. done.
Qed.

Lemma clamp_fits x p : (160 <= x <= innerWidth (window p))%Z -> clampWidth p (inject_Z x) = inject_Z x.
Proof.
  intros [X1 X2]. rewrite Zle_Qle in X1, X2. change (inject_Z 160) with 160 in X1.
  change (inject_Z (innerWidth (window p))) with (window_width p) in X2.
  unfold clampWidth, MIN_PANEL_WIDTH. unfold qmin, qmax.
  destruct (qle (window_width p) (inject_Z x)) eqn:E1.
  - apply qle_true in E1. assert (Ei : window_width p = inject_Z x); [|rewrite Ei].
    { unfold window_width in *. f_equal. apply Z.le_antisymm; rewrite Zle_Qle; done. }
    destruct (qle 36 _) eqn:E2; [done|]. apply qle_false in E2. lra.
  - destruct (qle 36 _) eqn:E2; [done|]. apply qle_false in E2. lra.
Qed.

Lemma drag_sized x l p : wide_enough (window p) -> (160 <= x <= innerWidth (window p))%Z -> panelMaximized p = false ->
  shown (handle p) = true -> sized x (endDrag l (beginDrag (inject_Z x) p)).
Proof.
  intros Hw Hx Hm Hs. unfold beginDrag, dragTo. set (p1 := set_handle _ _ _).
  rewrite (clamp_fits x p1 Hx). unfold requestWidth. destruct (qle (inject_Z x) COLLAPSE_WIDTH) eqn:E.
  { apply qle_true in E. unfold COLLAPSE_WIDTH in E. destruct Hx as [Hx _]. rewrite Zle_Qle in Hx.
    change (inject_Z 160) with 160 in Hx. lra. }
  set (p2 := setPanelWidth _ _ _).
  destruct (widen_sized x (set_handle p (handle p) false) Hw Hx Hm eq_refl Hs) as (S1 & S2 & _ & _ & S5 & S6).
  unfold endDrag. change (isDragging p2) with true. cbn [negb]. unfold sized. by repeat split.
Qed.

Lemma sized_page x p : page_ok p -> sized x p -> (160 <= x <= innerWidth (window p))%Z ->
  sized x (unfold_panel (fold p)) /\ sized x (maximize (maximize p)) /\
  sized x (maximize (unfold_panel (fold (maximize p)))).
Proof.
  intros (Hw & Hwd & (F1 & F2 & F3 & F4 & F5 & F6) & Hl) Hs Hx. pose proof Hs as (S1 & S2 & S3 & S4 & S5 & S6).
  assert (Hm : panelMaximized (maximize p) = true /\ isDragging (maximize p) = false /\ window (maximize p) = window p /\
            preMaximizeFraction (maximize p) = panelWidthFraction p /\ panelWidthFraction (maximize p) = 1).
  { unfold maximize. rewrite S2. cbn. by repeat split. }
  destruct Hm as (M1 & M2 & M3 & M4 & M5).
  assert (Hr : math_round (preMaximizeFraction (maximize p) * window_width (maximize p)) = x).
  { unfold window_width. by rewrite M3, M4. }
  split; [by apply unfold_sized|]. split; [apply restore_sized; by rewrite ?M3|].
  destruct (unfold_maximized (maximize p)) as (U1 & U2 & U3 & U4); [by rewrite M3|done|by rewrite M5|].
  apply restore_sized; rewrite ?U3, ?M3; try done; [by rewrite U2|].
  rewrite U4. unfold window_width. rewrite U3. exact Hr.
Qed.

Lemma request_window px p : window (requestWidth px p) = window p.
Proof. unfold requestWidth. by destruct (qle px COLLAPSE_WIDTH). Qed.

(** ** Theorems: the panel *)

(** C11: The width of the panel is always usable.  From every start of the script on a page whose storage was
    not left maximized, after any drags, messages of the panel and window changes, in any order (in
    windows of at least 160 pixels), the panel is either folded to exactly 36 pixels or wider than the
    120 pixels below which it is not usable and no wider than the window.  As long as the panel sends UNFOLD only while it is
    folded and MAXIMIZE not during a drag, which is when it offers them, it is maximized exactly as wide as the window; and
    it is laid over the page, with its resize handle hidden, exactly while it is maximized. *)
Theorem panel_bounds `{JsonCodec} (brands : option (list string)) (w : Window) (m : gmap string Stored)
    (tabs : list Tabset) (p0 : Page) (evs : list CsEvent) :
  wide_enough w -> storage_ok m -> startPanel brands (pageInit w m tabs) = Some p0 -> Forall event_wide evs ->
  let p := cs_run evs p0 in
  (if panelFolded p then width (panel p) == MIN_PANEL_WIDTH
   else COLLAPSE_WIDTH < width (panel p) /\ width (panel p) <= inject_Z (innerWidth (window p))) /\
  (all_in_turn evs p0 ->
   (panelFolded p = false -> panelMaximized p = true -> width (panel p) == inject_Z (innerWidth (window p))) /\
   fixed (panel p) = panelMaximized p /\ shown (handle p) = negb (panelMaximized p)).
Proof.
  intros Hw Hm Hs He p. apply (start_ok _ _ _ _ _ Hw Hm) in Hs.
  destruct (cs_run_bounded evs p0 He (ok_bounded _ Hs)) as (_ & _ & _ & Hb). split; [exact Hb|]. intros Ht.
  destruct (cs_run_ok evs p0 He Ht Hs) as (_ & Hwd & _ & (L1 & L2 & _)). split; [|done].
  fold p in Hwd. unfold width_ok in Hwd. intros Ef. rewrite Ef in Hwd. apply Hwd.
Qed.

(** C25: Folding and maximizing lose nothing.  Whatever happened before, as long as the panel sent its messages
    in turn, a panel that is not maximized and is dragged to a width of
    whole pixels, at least the 160 to which the script expands a panel and at most the window's, has that width, and has it again after it was folded and unfolded, after it was
    maximized and restored, and after it was maximized, folded, unfolded and restored. *)
Theorem panel_size_restored `{JsonCodec} (brands : option (list string)) (w : Window) (m : gmap string Stored)
    (tabs : list Tabset) (p0 : Page) (evs : list CsEvent) (x : Z) (l : Look) :
  wide_enough w -> storage_ok m -> startPanel brands (pageInit w m tabs) = Some p0 -> Forall event_wide evs ->
  all_in_turn evs p0 ->
  let p := cs_run evs p0 in
  panelMaximized p = false -> (160 <= x <= innerWidth (window p))%Z ->
  let q := cs_run [DragStart (inject_Z x); DragEnd l] p in
  Forall (fun q' => width (panel q') == inject_Z x /\ panelFolded q' = false /\ panelMaximized q' = false)
    [q; cs_run [FOLD; UNFOLD] q; cs_run [MAXIMIZE; MAXIMIZE] q; cs_run [MAXIMIZE; FOLD; UNFOLD; MAXIMIZE] q].
Proof.
  intros Hw Hm Hs He Ht p Hp Hx q. apply (start_ok _ _ _ _ _ Hw Hm) in Hs.
  pose proof (cs_run_ok evs p0 He Ht Hs) as Hok. fold p in Hok. pose proof Hok as (Hwp & _ & _ & (L1 & L2 & L3)).
  assert (Hshown : shown (handle p) = true) by (by rewrite L2, Hp).
  assert (Eq : q = endDrag l (beginDrag (inject_Z x) p)).
  { unfold q, cs_run, cs_step. cbn [fold_left can_occur cs_handler]. by rewrite Hshown. }
  pose proof (drag_sized x l p Hwp Hx Hp Hshown) as Hq. rewrite <- Eq in Hq.
  assert (Hokq : page_ok q).
  { unfold q. apply cs_run_ok; [by repeat constructor|by repeat split|done]. }
  assert (Hwin : window q = window p).
  { rewrite Eq. unfold endDrag. case_match; [|cbn]; (etransitivity; [apply request_window|done]). }
  rewrite <- Hwin in Hx. destruct (sized_page x q Hokq Hq Hx) as (Q1 & Q2 & Q3).
  pose proof Hq as (S1 & S2 & S3 & S4 & S5 & S6).
  repeat constructor; first [apply Hq|apply Q1|apply Q2|apply Q3].
Qed.

Definition demo_window : Window := mkWindow 1000 800 50 700.
Definition demo_brands : option (list string) := Some ["A"; "B"; "Google Chrome"].
Definition demo_page (m : gmap string Stored) : Page :=
  default (pageInit demo_window m []) (startPanel demo_brands (pageInit demo_window m [])).
Definition demo_look : Look := mkLook None true.

Definition demo_drag : list CsEvent :=
  [DragStart 600; DragMove 100; DragEnd demo_look; Resize (mkWindow 500 400 50 300); UNFOLD].

Lemma panel_bounds_witness :
  let p := cs_run demo_drag (demo_page ∅) in
  panelFolded p = false /\ width (panel p) == 300 /\ width (panel p) <= inject_Z (innerWidth (window p)).
Proof.
  intros p. assert (Hf : panelFolded p = false) by (vm_compute; reflexivity).
  pose proof (panel_bounds demo_brands demo_window ∅ [] (demo_page ∅) demo_drag
    ltac:(done) ltac:(by repeat split) ltac:(vm_compute; reflexivity) ltac:(by repeat constructor)) as Hp.
  cbv zeta in Hp. change (cs_run demo_drag (demo_page ∅)) with p in Hp. rewrite Hf in Hp.
  split; [exact Hf|]. split; [vm_compute; reflexivity|]. exact (proj2 (proj1 Hp)).
Defined.

Lemma panel_size_restored_witness :
  let q := cs_run [DragStart (inject_Z 600); DragEnd demo_look] (cs_run [FOLD] (demo_page ∅)) in
  width (panel (cs_run [MAXIMIZE; FOLD; UNFOLD; MAXIMIZE] q)) == inject_Z 600.
Proof.
  pose proof (panel_size_restored demo_brands demo_window ∅ [] (demo_page ∅) [FOLD] 600 demo_look
    ltac:(done) ltac:(by repeat split) ltac:(vm_compute; reflexivity) ltac:(by repeat constructor) ltac:(by repeat split)
    ltac:(vm_compute; reflexivity) ltac:(vm_compute; by split)) as Hq.
  cbv zeta in Hq. apply Forall_inv_tail, Forall_inv_tail, Forall_inv_tail, Forall_inv in Hq. exact (proj1 Hq).
Defined.

(** A page reloaded while the panel is maximized: folding and unfolding it leaves a panel a quarter of
    the window wide that is still laid over the page, has no handle, and counts as not maximized. *)
Lemma reloaded_maximized_stuck :
  let p1 := cs_run [MAXIMIZE] (demo_page ∅) in
  let p2 := cs_run [FOLD; UNFOLD] (demo_page (stored p1)) in
  panelMaximized p2 = false /\ fixed (panel p2) = true /\ shown (handle p2) = false /\ width (panel p2) == 384.
Proof. vm_compute. done. Qed.

(** The script does not ask whether the panel is folded: an UNFOLD that it hears after it maximized the panel, as
    when both buttons of the folded bar are clicked before the bar is gone, has the same effect. *)
Lemma unfold_maximized_stuck :
  let p := cs_run [FOLD; MAXIMIZE; UNFOLD] (demo_page ∅) in
  panelMaximized p = false /\ fixed (panel p) = true /\ shown (handle p) = false /\ width (panel p) == 384.
Proof. vm_compute. done. Qed.

(** With the preference auto and a light system the bar rests in the dark theme's colour, while
    without a stored preference it rests in the light one's. *)
Lemma auto_rests_dark :
  let l := mkLook None false in
  restColor l (store "themePreference" (SVal (VStr "auto")) (demo_page ∅)) = DARK_HANDLE /\
  restColor l (demo_page ∅) = LIGHT_HANDLE /\ getResolvedTheme l = "light".
Proof. vm_compute. done. Qed.

Close Scope Q_scope.

(** ** Theorems: touched problems *)

(** The problem an event shows to be worked on. *)
Definition touch_of (ev : CsEvent) : option string :=
  match ev with
  | Typed pathname e =>
      if in_editor e && (negb (String.eqb (ev_type e) "keydown") || isEditingKey e) then parseProblemSlug pathname else None
  | _ => None
  end.

(** The reports among the messages. *)
Definition touch_sent (v : Val) : option string :=
  if is_str (prop v "type") "PROBLEM_TOUCHED" then match prop v "slug" with VStr s => Some s | _ => None end else None.

Definition add_new (l : list string) (s : string) : list string := if includes l s then l else l ++ [s].

(** The messages that are no reports. *)
Definition same_touches (p p' : Page) : Prop :=
  reportedTouches p' = reportedTouches p /\ omap touch_sent (sent p') = omap touch_sent (sent p).

#[export] Instance same_touches_preorder : PreOrder same_touches.
Proof. split; [by intros p|]. intros p1 p2 p3 [A1 B1] [A2 B2]. split; congruence. Qed.

Ltac same_touches_tac := unfold same_touches; cbn; repeat case_match; cbn; rewrite ?omap_app, ?app_nil_r; done.

Lemma request_touches px p : same_touches p (requestWidth px p).
Proof. unfold requestWidth. by destruct (qle px COLLAPSE_WIDTH). Qed.

Lemma sync_touches p : same_touches p (syncPanelWidth p).
Proof. unfold syncPanelWidth. destruct (panelFolded p); [done|]. destruct (panelMaximized p); [done|apply request_touches]. Qed.

Lemma height_touches p : same_touches p (syncHandleHeight p).
Proof. unfold syncHandleHeight. by destruct (panelMaximized p). Qed.

Lemma pageMessage_touches v p : same_touches p (pageMessage v p).
Proof.
  unfold pageMessage, same_touches. destruct (negb _); [done|].
  destruct (is_str (prop v "type") "BSG_LEETCODE_SUBMISSION"), (is_str (prop v "type") "BSG_LEETCODE_RESULT"); cbn;
    by rewrite ?omap_app, ?app_nil_r.
Qed.

Lemma pageFetch_touches `{JsonCodec} f p : same_touches p (pageFetch f p).
Proof.
  unfold pageFetch. generalize (posted_by f). intros l. revert p.
  induction l as [|v l IH]; intros p; [reflexivity|]. cbn. etransitivity; [apply (pageMessage_touches v)|apply IH].
Qed.

Lemma handler_touches `{JsonCodec} ev p : touch_of ev = None -> same_touches p (cs_handler ev p).
Proof.
  intros Ht. destruct ev; cbn [cs_handler]; try done.
  - unfold handleEditorInput, reportTouch. cbn in Ht. destruct (in_editor e); [|done]. cbn in *.
    destruct (String.eqb (ev_type e) "keydown"), (isEditingKey e); cbn in *; rewrite ?Ht; done.
  - etransitivity; [|apply sync_touches]. etransitivity; [|apply height_touches]. done.
  - unfold contentResized. set (p1 := set_window p _).
    transitivity (syncHandleHeight p1); [apply (height_touches p1)|].
    destruct (negb _); [apply sync_touches|done].
  - unfold unfold_panel. by etransitivity; [|apply request_touches].
  - unfold maximize. by destruct (negb _).
  - unfold activate. same_touches_tac.
  - unfold syncTheme, sendThemeToIframe. same_touches_tac.
  - unfold pageThemeChanged, sendThemeToIframe. same_touches_tac.
  - unfold syncTheme, sendThemeToIframe. same_touches_tac.
  - by etransitivity; [|apply request_touches].
  - unfold pointerMove. destruct (negb _); [done|apply request_touches].
  - unfold endDrag. by destruct (negb _).
  - unfold pointerEnter. by destruct (negb _).
  - unfold pointerLeave. by destruct (negb _).
  - unfold mousedown. same_touches_tac.
  - unfold tabsetAdded. same_touches_tac.
  - same_touches_tac.
  - unfold classAdded. same_touches_tac.
  - apply pageFetch_touches.
Qed.

(** The reports sent so far are the slugs the page remembers. *)
Definition touches_ok (p : Page) : Prop := omap touch_sent (sent p) = reportedTouches p.

Lemma reported_touch slug pathname p : parseProblemSlug pathname = Some slug -> touches_ok p ->
  touches_ok (reportTouch pathname p) /\ reportedTouches (reportTouch pathname p) = add_new (reportedTouches p) slug.
Proof.
  intros Hs Hp. unfold reportTouch, add_new, touches_ok in *. rewrite Hs.
  destruct (includes (reportedTouches p) slug); [done|]. cbn. by rewrite omap_app, Hp.
Qed.

Lemma step_touches `{JsonCodec} ev p : touches_ok p -> touches_ok (cs_step p ev) /\
  reportedTouches (cs_step p ev) =
    match touch_of ev with Some s => add_new (reportedTouches p) s | None => reportedTouches p end.
Proof.
  intros Hp. destruct (touch_of ev) as [s|] eqn:Et.
  - destruct ev; try done. unfold cs_step. cbn [can_occur cs_handler]. cbn in Et.
    unfold handleEditorInput. destruct (in_editor e); [|done]. cbn [negb andb] in *.
    destruct (String.eqb (ev_type e) "keydown"), (isEditingKey e); cbn in *; try done; by apply reported_touch.
  - unfold cs_step. destruct (can_occur ev p); [|done].
    destruct (handler_touches ev p Et) as [H1 H2]. unfold touches_ok. by rewrite H2, H1.
Qed.

(** Each problem the user works on is reported exactly once per page.  From a page that has
    reported nothing, after any events, the slugs of the PROBLEM_TOUCHED messages are, in order and without
    repetition, the problems in whose editor something was typed or pasted; keys that
    edit nothing, other elements and other pages report nothing. *)
Theorem touches_reported `{JsonCodec} (evs : list CsEvent) (p : Page) :
  reportedTouches p = [] -> omap touch_sent (sent p) = [] ->
  omap touch_sent (sent (cs_run evs p)) = fold_left add_new (omap touch_of evs) [] /\
  NoDup (omap touch_sent (sent (cs_run evs p))).
Proof.
  intros Hr Hs. assert (Hok : touches_ok p) by (unfold touches_ok; by rewrite Hr).
  assert (Hall : touches_ok (cs_run evs p) /\
            reportedTouches (cs_run evs p) = fold_left add_new (omap touch_of evs) (reportedTouches p)).
  { clear Hr Hs. revert p Hok. induction evs as [|ev evs IH]; intros p Hok; [done|].
    destruct (step_touches ev p Hok) as [H1 H2]. destruct (IH _ H1) as [H3 H4].
    change (cs_run (ev :: evs) p) with (cs_run evs (cs_step p ev)). split; [done|].
    rewrite H4, H2. cbn. by destruct (touch_of ev). }
  destruct Hall as [H1 H2]. unfold touches_ok in H1. rewrite H1, H2, Hr. split; [done|].
  assert (Hn : NoDup (@nil string)) by constructor. clear H2. revert Hn. generalize (@nil string).
  induction (omap touch_of evs) as [|s l IH]; intros acc Hn; [done|]. cbn. apply IH.
  unfold add_new. destruct (includes acc s) eqn:E; [done|]. apply NoDup_app. split; [done|]. split; [|apply NoDup_singleton].
  intros y Hy ->%list_elem_of_singleton. apply includes_spec in Hy. congruence.
Qed.

Definition typed (slug key : string) : CsEvent :=
  Typed ("/problems/" +:+ slug +:+ "/") (mkEditorEvent "keydown" key false false true).

Definition demo_typed : list CsEvent :=
  [typed "two-sum" "a"; typed "lru-cache" "Shift"; typed "two-sum" "b"; typed "lru-cache" "x"].

Lemma touches_reported_witness :
  omap touch_sent (sent (cs_run demo_typed (demo_page ∅))) = ["two-sum"; "lru-cache"].
Proof.
  pose proof (touches_reported demo_typed (demo_page ∅)) as Ht.
  assert (H1 : reportedTouches (demo_page ∅) = []) by (vm_compute; reflexivity).
  assert (H2 : omap touch_sent (sent (demo_page ∅)) = []) by (vm_compute; reflexivity).
  etransitivity; [exact (proj1 (Ht H1 H2))|]. vm_compute. reflexivity.
Defined.
