(* ===== verification/Screen.v ===== *)
(** * From a click to the screen

    The panel of [PanelViews.v] and the page that holds it, of [ContentScript.v]: what
    a click on a bar does to the stores, which message it sends, how the content script changes
    the width of the panel, what the panel makes of its new width, and what is on the screen then. *)

From S2P Require Import PanelViews ContentScript.
From Stdlib Require Import QArith Lqa.
Open Scope nat_scope.

(** The handlers of the bars; [response] is the worker's answer to a logout. *)
Definition bar_act (response : Val) (a : BarAct) : IO unit :=
  match a with
  | HoverTab _ => mret tt
  | PickTab t => header_click t
  | PickTabAndUnfold t => selectTabAndUnfold t
  | Script type => messageScript type
  | LogOut => Session.logout response
  end.

(** The stores in the components that read them; the other state of the components is the one of [hooks]. *)
Definition screen (hooks : PanelScreen) (s : World * Chat * App) : PanelScreen :=
  let '(w, c, a) := s in
  let r := ps_room hooks in
  mkPanelScreen a (w_panel w) (ps_maximized hooks) (ps_headerHover hooks) (ps_sidebarHover hooks) (ps_scrolled hooks)
    (ps_toolbar hooks) (ps_timeRemaining hooks) (ps_progress hooks) (ps_copied hooks) (ps_github hooks)
    (mkRoomScreen (w_room w) (w_user w) (w_settings w) c (rs_displayEmojis r) (rs_board r) (rs_stats r) (rs_selectedIdx r)
       (rs_display r)).

(** A handler of a bar, the render and its effects. *)
Definition bar_step (response : Val) (b : BarAct) (s : World * Chat * App) : World * Chat * App :=
  let '(w, c, a) := s in
  let '(w, a) := app_effects ((bar_act response b w).2, a) in (w, c, a).

(** The messages to the page, as its content script hears them. *)
Definition heard (e : Effect) : list CS.CsEvent :=
  match e with
  | ETabMessage _ type =>
      if String.eqb type "FOLD" then [CS.FOLD]
      else if String.eqb type "UNFOLD" then [CS.UNFOLD]
      else if String.eqb type "MAXIMIZE" then [CS.MAXIMIZE]
      else if String.eqb type "ACTIVE" then [CS.ACTIVE]
      else []
  | _ => []
  end.
(** What the content script hears of what happened from [w] to [w']. *)
Definition heard_between (w w' : World) : list CS.CsEvent := flat_map heard (drop (length (w_log w)) (w_log w')).

(** The panel's document is as wide as the panel in the page, up to less than a pixel. *)
Definition reports (width : Z) (p : CS.Page) : Prop :=
  (CS.width (CS.panel p) - 1 < inject_Z width /\ inject_Z width < CS.width (CS.panel p) + 1)%Q.

(** ** What the message does *)

Section effects.
Context `{JsonCodec} (response : Val).
Implicit Types (w : World) (p : CS.Page).

Lemma no_news w : heard_between w w = [].
Proof. unfold heard_between. by rewrite drop_all. Qed.

Lemma news w w' es : w_log w' = w_log w ++ es -> heard_between w w' = flat_map heard es.
Proof. intros Hl. unfold heard_between. by rewrite Hl, drop_app_length. Qed.

(** A tab of the bar that is shown: the store has it, and a folded panel asks to be unfolded. *)
Lemma tab_act w t (fold : bool) tid u : has_tabs (w_platform w) = true -> w_tab w = Some (mkTab (Some tid) u) -> tid <> 0%Z ->
  let w' := (bar_act response (if fold then PickTabAndUnfold t else PickTab t) w).2 in
  w_room w' = setActiveTab (w_room w) t /\ w_panel w' = w_panel w /\
  heard_between w w' = if fold then [CS.UNFOLD] else [].
Proof.
  intros Hp Ht Hne. apply Z.eqb_neq in Hne. destruct fold; cbn zeta.
  - unfold bar_act, selectTabAndUnfold, messageScript. js_exec. rewrite Hp. cbn. rewrite Ht. cbn. rewrite Hne. cbn.
    split; [done|]. split; [done|]. by apply (news w _ [ETabMessage tid "UNFOLD"]).
  - unfold bar_act, header_click. js_exec. split; [done|]. split; [done|]. exact (no_news w).
Qed.

Lemma effects_log w a : w_log (app_effects (w, a)).1 = w_log w.
Proof. unfold app_effects. repeat case_match; done. Qed.

Lemma effects_keep w a : let s := app_effects (w, a) in
  activeTab (w_room s.1) = activeTab (w_room w) /\ roomNotice (w_room s.1) = roomNotice (w_room w) /\
  isInRoom (w_room s.1) = isInRoom (w_room w) /\
  folded s.2 = folded a /\ configLoaded s.2 = configLoaded a /\ appReady s.2 = appReady a.
Proof. unfold app_effects. repeat case_match; done. Qed.

(** The panel of the page after the message: wide enough to be used. *)
Lemma unfolds p (fold : bool) : page_ok p -> CS.panelFolded p = fold ->
  let p' := CS.cs_run (if fold then [CS.UNFOLD] else []) p in
  CS.panelFolded p' = false /\ (CS.COLLAPSE_WIDTH < CS.width (CS.panel p'))%Q.
Proof.
  intros Hp Hf. assert (Hw : forall q, page_ok q -> CS.panelFolded q = false -> (CS.COLLAPSE_WIDTH < CS.width (CS.panel q))%Q).
  { intros q (_ & Hq & _) Hu. unfold width_ok in Hq. rewrite Hu in Hq. apply Hq. }
  destruct fold; cbn zeta.
  - unfold CS.cs_run, CS.cs_step. cbn [fold_left CS.can_occur CS.cs_handler].
    assert (Hu : CS.panelFolded (CS.unfold_panel p) = false).
    { unfold CS.unfold_panel. cbv zeta. unfold CS.requestWidth.
      destruct (qle _ CS.COLLAPSE_WIDTH) eqn:E; [exfalso|done].
      apply qle_true in E. revert E. unfold CS.MIN_EXPAND_WIDTH. q_cases; unfold CS.COLLAPSE_WIDTH in *; lra. }
    split; [done|]. apply Hw; [|done]. by apply unfold_ok.
  - split; [done|]. by apply Hw.
Qed.

Lemma wide_unfolds p width : (CS.COLLAPSE_WIDTH < CS.width (CS.panel p))%Q -> reports width p -> folded_at width = false.
Proof.
  unfold reports, folded_at, CS.COLLAPSE_WIDTH. intros Hw [Hr _]. apply Z.leb_gt. rewrite Zlt_Qlt.
  change (inject_Z 36) with (36%Q). lra.
Qed.
End effects.

(** A tab that is picked is the event [TabClicked] of the app. *)
Lemma bar_tab `{JsonCodec} response w c a t :
  bar_step response (if folded a then PickTabAndUnfold t else PickTab t) (w, c, a) = app_step (TabClicked t) (w, c, a).
Proof. unfold bar_step, app_step, app_event. by destruct (folded a). Qed.

Lemma bar_log response b w c a : w_log (bar_step response b (w, c, a)).1.1 = w_log (bar_act response b w).2.
Proof. unfold bar_step. pose proof (effects_log (bar_act response b w).2 a) as Hl. by destruct (app_effects _). Qed.

Lemma tab_picked `{JsonCodec} response w c a t :
  let s := bar_step response (if folded a then PickTabAndUnfold t else PickTab t) (w, c, a) in
  activeTab (w_room s.1.1) = t /\ roomNotice (w_room s.1.1) = roomNotice (w_room w) /\
  configLoaded s.2 = configLoaded a /\ appReady s.2 = appReady a.
Proof.
  set (b := if folded a then _ else _).
  assert (Hb : w_room (bar_act response b w).2 = setActiveTab (w_room w) t).
  { unfold b. destruct (folded a); [|done]. unfold bar_act, selectTabAndUnfold.
    exact (proj1 (messageScript_stores "UNFOLD" (with_room w (setActiveTab (w_room w) t)))). }
  unfold bar_step. cbv zeta. pose proof (effects_keep (bar_act response b w).2 a) as K. cbv zeta in K.
  destruct (app_effects _) as [w' a']. cbn in *. rewrite Hb in K. cbn in K. tauto.
Qed.

Lemma resized `{JsonCodec} w c a width :
  let s := app_step (Resized width) (w, c, a) in
  activeTab (w_room s.1.1) = activeTab (w_room w) /\ roomNotice (w_room s.1.1) = roomNotice (w_room w) /\
  folded s.2 = folded_at width /\ configLoaded s.2 = configLoaded a /\ appReady s.2 = appReady a.
Proof.
  unfold app_step, app_event. set (a1 := mkApp _ _ _ _ _ _). pose proof (effects_keep w a1) as K. cbv zeta in K.
  destruct (app_effects _) as [w' a']. cbn in *. tauto.
Qed.

(** ** The panel around the page *)

(** What can be read above the page: the bar of tabs and the toolbar; and below it: the footer. *)
Definition above_page (s : PanelScreen) : list Val :=
  let r := rs_room (ps_room s) in let u := rs_user (ps_room s) in
  texts (HeaderBar (isInRoom r) (activeTab r) (ps_headerHover s) (ps_scrolled s).1
           (isPanelHovered (ps_panel s)) (isLoggedIn u) (ps_maximized s)) ++
  flat_map texts (only (toolbar_shown r)
    [ToolbarView r (ps_toolbar s) (ps_timeRemaining s)
       (ProblemProgress (roundDetails (rs_stats (ps_room s))) (problems r) (userId u) (ps_progress s).1 (ps_progress s).2)]).
Definition below_page (s : PanelScreen) : list Val :=
  let r := rs_room (ps_room s) in
  texts (Footer (isInRoom r) (ps_copied s) (isConnected r) (roomCode r) (isLoggedIn (rs_user (ps_room s))) (ps_github s)).

(** Unfolded, the panel shows its page. *)
Lemma panel_shows page (s : PanelScreen) : configLoaded (ps_app s) = true -> appReady (ps_app s) = true -> folded (ps_app s) = false ->
  texts (AppView page false s) = above_page s ++ texts page ++ below_page s.
Proof.
  intros H1 H2 H3. unfold AppView, app_body. rewrite H1, H2. cbn [negb]. unfold PanelBodyView, above_page, below_page. rewrite H3.
  set (bar := HeaderBar _ _ _ _ _ _ _). set (foot := Footer _ _ _ _ _ _). set (side := Sidebar _ _ _ _ _ _ _).
  set (tools := ToolbarView _ _ _ _). clearbody bar foot side tools.
  destruct (Panel.isActive (ps_app s)), (toolbar_shown (rs_room (ps_room s))); cbn [only];
    view_simpl; rewrite ?flat_map_app; cbn; by rewrite ?map_view_texts, ?app_nil_r, <- ?app_assoc.
Qed.

(** The displays of the other tabs are on the page, but nothing of them can be read or operated. *)
Definition nothing_shown {E} (v : View E) : Prop := texts v = [] /\ controls v = [].

Lemma others_hidden `{JsEnv} toLocaleString emojiMap (r : RoomScreen) t :
  Forall row_ok (entries (rs_board r)) -> emojis_complete emojiMap -> t <> activeTab (rs_room r) ->
  exists v, display toLocaleString emojiMap t (display_active t (rs_room r)) r = Ok v /\ nothing_shown v.
Proof.
  intros Hr He Ht. destruct (display_renders toLocaleString emojiMap r Hr He t (display_active t (rs_room r))) as [v Hv].
  exists v. split; [done|]. unfold display_active in Hv. rewrite bool_decide_eq_false_2 in Hv by congruence.
  apply display_hidden in Hv as [H1 H2]. split; [done|apply H2].
Qed.


(** A panel in a room, folded at its first tab *)
Definition demo_folded : World * Chat * App :=
  let w := with_room (fresh_world (Some (mkTab (Some 7%Z) None)) []) (initRoom roomStoreInit (Some "r1") (Some "c") None false) in
  (with_panel w (setIsFolded true (w_panel w)), chatInit None None None ∅, mkApp true false true true false (activeTab roomStoreInit, true)).
Definition demo_hooks : PanelScreen :=
  mkPanelScreen demo_folded.2 panelStoreInit false None None (false, false) (toolbar_init []) "" (None, ∅) false no_connection
    (demo_screen roomStoreInit []).

