(* ===== verification/Extension.v ===== *)
(** * The extension as a whole

    How the parts of the extension work together: the content script of
    [ContentScript.v] and the page it is injected into, the worker of [Worker.v], and the
    panel of [Toolbar.v] and [Session.v].  The messages one part sends are the
    messages the other receives. *)

From S2P Require Import Toolbar Session.
From S2P Require Export ContentScript WorkerConn.
From Stdlib Require Import Ascii.
Import BG CS.

(** ** From a solution on the page to the request of the worker *)

Section solution.
Context `{JsEnv}.

(** What LeetCode's page does when the user submits [code]: the call of fetch
    that submits it, answered with the id, and the one that asks for the verdict. *)
Definition code_body (lang question code : string) : Val :=
  VObj [("lang", VStr lang); ("question_id", VStr question); ("typed_code", VStr code)].
Definition submit_fetch (slug lang question code : string) (id : Val) : PageFetch :=
  mkPageFetch ("/problems/" +:+ slug +:+ "/submit/") (Some (json_stringify (code_body lang question code)))
    (Ok (VObj [("submission_id", id)])).
Definition check_fetch (id : string) (answer : list (string * Val)) : PageFetch :=
  mkPageFetch ("/submissions/detail/" +:+ id +:+ "/check/") None (Ok (VObj (("state", VStr "SUCCESS") :: answer))).

Definition pending_data (slug lang question code : string) (id : Val) : Val :=
  VObj [("problemSlug", VStr slug); ("submissionId", id); ("lang", VStr lang); ("question_id", VStr question);
        ("typed_code", VStr code)].
Definition verdict_data (id : string) (answer : list (string * Val)) : Val :=
  VObj (("submissionId", VStr id) ::
    ((fun k => (k, prop (VObj (("state", VStr "SUCCESS") :: answer)) k)) <$>
       ["status_msg"; "total_correct"; "total_testcases"; "runtime_percentile"; "memory_percentile";
        "code_output"; "std_output"; "elapsed_time"])).

(** *** Texts *)

Definition no_slash (s : string) : Prop := str_forall (fun a => negb (Ascii.eqb a "/"%char)) s = true.

(** A text that begins with a slash does not begin inside a text without one. *)
Lemma includes_skip t s r : no_slash s ->
  str_includes (String "/"%char t) (s +:+ r) = str_includes (String "/"%char t) r.
Proof.
  unfold no_slash. induction s as [|a s IH]; [done|]. cbn [str_forall]. rewrite andb_true_iff, negb_true_iff.
  intros [Ha Hs]. rewrite str_app_cons. cbn [str_includes starts_with].
  rewrite Ascii.eqb_sym, Ha. cbn. by apply IH.
Qed.

Lemma digits_no_slash s : str_forall is_digit s = true -> no_slash s.
Proof.
  unfold no_slash. induction s as [|a s IH]; [done|]. cbn. rewrite !andb_true_iff. intros [Ha Hs].
  split; [|by apply IH]. destruct (Ascii.eqb_spec a "/"%char); [by subst|done].
Qed.

Lemma submit_url_slug slug : slug <> "" -> no_slash slug -> submitSlug ("/problems/" +:+ slug +:+ "/submit/") = Some slug.
Proof.
  intros Hne Hs. change ("/problems/" +:+ slug +:+ "/submit/") with (String "/"%char ("problems/" +:+ slug +:+ "/submit/")).
  assert (Hh : submit_here ("problems/" +:+ slug +:+ "/submit/") = Some slug).
  { unfold submit_here. rewrite starts_with_app.
    change (str_drop 9 ("problems/" +:+ slug +:+ "/submit/")) with (slug +:+ "/submit/").
    rewrite str_span_stop by done. destruct slug; [done|]. done. }
  cbn [submitSlug]. change (submit_here (String "/"%char _)) with (@None string).
  destruct slug as [|a slug]; [done|].
  change ("problems/" +:+ String a slug +:+ "/submit/") with (String "p"%char ("roblems/" +:+ String a slug +:+ "/submit/")) in *.
  cbn [submitSlug]. by rewrite Hh.
Qed.

Lemma submit_url_includes slug : str_includes "/submit/" ("/problems/" +:+ slug +:+ "/submit/") = true.
Proof.
  rewrite <- str_app_assoc. apply str_includes_spec. exists ("/problems/" +:+ slug), "". by rewrite str_app_nil_r.
Qed.

Lemma check_url_no_submit id : str_forall is_digit id = true ->
  str_includes "/submit/" ("/submissions/detail/" +:+ id +:+ "/check/") = false.
Proof.
  intros Hd. change ("/submissions/detail/" +:+ id +:+ "/check/") with ("/" +:+ "submissions" +:+ "/" +:+ "detail" +:+ "/" +:+ (id +:+ "/check/")).
  assert (H1 : str_includes "/submit/" (id +:+ "/check/") = false) by by rewrite includes_skip by by apply digits_no_slash.
  assert (H2 : str_includes "/submit/" ("/" +:+ (id +:+ "/check/")) = false).
  { change ("/" +:+ ?x) with (String "/"%char x). cbn [str_includes]. rewrite H1, orb_false_r.
    destruct id as [|a id]; [done|]. rewrite str_app_cons. cbn in Hd. apply andb_prop in Hd as [Ha _].
    cbn [starts_with]. destruct (Ascii.eqb_spec "s"%char a); [by subst|]. by rewrite andb_false_l. }
  set (r := id +:+ "/check/") in *. set (r2 := "/" +:+ r) in *.
  change (str_includes "/submit/" (String "/"%char ("submissions" +:+ String "/"%char ("detail" +:+ r2))) = false).
  cbn [str_includes]. rewrite includes_skip by done. cbn [str_includes]. by rewrite includes_skip by done.
Qed.

Lemma check_url_id id : str_forall is_digit id = true ->
  split_on "/" ("/submissions/detail/" +:+ id +:+ "/check/") !! 3%nat = Some id.
Proof.
  intros Hd. change ("/submissions/detail/" +:+ id +:+ "/check/") with
    (join "/" [""; "submissions"; "detail"; id; "check"; ""]).
  rewrite split_join; [done|done|]. repeat constructor. by apply digits_no_slash.
Qed.

Lemma check_url_includes id : str_includes "/check/" ("/submissions/detail/" +:+ id +:+ "/check/") = true.
Proof.
  rewrite <- str_app_assoc. apply str_includes_spec. exists ("/submissions/detail/" +:+ id), "". by rewrite str_app_nil_r.
Qed.

(** *** What the content script sends *)

Definition message (ty : string) (data : Val) : Val := VObj [("type", VStr ty); ("data", data)].

Lemma code_body_text lang question code :
  String.eqb (json_stringify (code_body lang question code)) "" = false.
Proof. done. Qed.

(** A call that is no check of a verdict posts at most a submission. *)
Lemma no_state_no_result f fs : f_answer f = Ok (VObj fs) -> has_field "state" fs = false ->
  injectedCheck f = Ok None.
Proof.
  intros Hf Hs. unfold injectedCheck. destruct (negb _); [done|]. rewrite Hf. cbn.
  assert (Hn : field "state" fs = VUndef).
  { clear Hf. induction fs as [|[k v] fs IH]; [done|]. cbn [has_field existsb fst] in Hs. cbn [field].
    apply orb_false_elim in Hs as [Hk Hs]. rewrite Hk. by apply IH. }
  by rewrite Hn.
Qed.

Lemma submit_posts slug lang question code id : slug <> "" -> no_slash slug ->
  posted_by (submit_fetch slug lang question code id) =
    [VObj [("type", VStr "BSG_LEETCODE_SUBMISSION"); ("payload", pending_data slug lang question code id)]].
Proof.
  intros Hne Hs. unfold posted_by.
  rewrite (no_state_no_result (submit_fetch slug lang question code id) [("submission_id", id)]) by done.
  unfold injectedSubmit, submit_fetch. cbn [f_url f_body f_answer].
  rewrite submit_url_includes, submit_url_slug by done. cbn [negb]. rewrite code_body_text.
  unfold mbind at 1, res_bind at 1. unfold mbind at 1, res_bind at 1.
  rewrite json_parse_stringify by done. done.
Qed.

Lemma check_posts id answer : str_forall is_digit id = true ->
  posted_by (check_fetch id answer) =
    [VObj [("type", VStr "BSG_LEETCODE_RESULT"); ("payload", verdict_data id answer)]].
Proof.
  intros Hd. unfold posted_by, injectedSubmit, injectedCheck, check_fetch. cbn [f_url f_body f_answer].
  rewrite check_url_no_submit, check_url_includes by done. cbn [negb].
  unfold mbind at 1, res_bind at 1. cbn [get is_nullish prop field String.eqb]. unfold mbind, res_bind.
  by rewrite check_url_id.
Qed.

(** The messages that the content script sends for the two calls. *)
Lemma solution_messages slug lang question code id idv answer p :
  slug <> "" -> no_slash slug -> str_forall is_digit id = true ->
  sent (pageFetch (check_fetch id answer) (pageFetch (submit_fetch slug lang question code idv) p)) =
    sent p ++ [message "SUBMISSION_PENDING" (pending_data slug lang question code idv);
               message "SUBMISSION_RESULT" (verdict_data id answer)].
Proof.
  intros Hne Hs Hd. unfold pageFetch. rewrite check_posts, submit_posts by done.
  transitivity ((sent p ++ [message "SUBMISSION_PENDING" (pending_data slug lang question code idv)]) ++
    [message "SUBMISSION_RESULT" (verdict_data id answer)]); [done|by rewrite <- app_assoc].
Qed.

(** *** What the worker does with them *)

(** A message of the content script, and the storage read it causes, handled on its own. *)
Definition deliver (m : Val) : list BgEvent := [Message no_copy m; BG.ReadAnswered; RunCallback].

Lemma pending_run data w k : is_nullish data = false -> configReady k = true -> reads k = [] -> callbacks k = [] ->
  truthy (prop data "submissionId") = true -> truthy (prop data "problemSlug") = true ->
  bg_run (deliver (message "SUBMISSION_PENDING" data)) (w, k) = (submissionCallback (Pending data) (w_storage w) (w, k)).2.
Proof.
  intros Hd Hc Hr Hcb Hi Hs. destruct k; cbn [configReady reads callbacks] in *; subst.
  unfold bg_run, deliver. cbn [fold_left].
  match goal with |- bg_step (bg_step (bg_step ?s ?ev) _) _ = _ => assert (E : bg_step s ev =
    (s.1, set_jobs s.2 [Pending data] [])) end; [|by rewrite E].
  unfold bg_step. cbn [can_happen snd configReady orb handler]. rewrite bind_ret_state.
  match goal with |- (onMessage _ _ ?s).2 = _ => transitivity (((id ← lift (get data "submissionId");
    when (truthy id && truthy (prop data "problemSlug"))
      (on_bg (fun k => set_jobs k (reads k ++ [Pending data]) (callbacks k))) ;;
    mret (Some received)) : WK (option Val)) s).2; [reflexivity|] end.
  unfold get. rewrite Hd. unfold mbind at 1, m_bind at 1. cbn [lift]. by rewrite Hi, Hs.
Qed.

Lemma bg_run_app l l' s : bg_run (l ++ l') s = bg_run l' (bg_run l s).
Proof. apply fold_left_app. Qed.

(** The submissions already pending, if any. *)
Definition pending_fields_of (w : World) (fs : list (string * Val)) : Prop :=
  js_or (default VUndef (w_storage w !! "pendingSubmissions")) (VObj []) = VObj fs.

Lemma pending_stored data w k fs : pending_fields_of w fs ->
  (submissionCallback (Pending data) (w_storage w) (w, k)).2 =
    (with_storage w (<["pendingSubmissions" := VObj (set_field (to_str (prop data "submissionId")) data fs)]> (w_storage w)), k).
Proof. intros Hf. unfold submissionCallback. by rewrite Hf. Qed.

(** C12: From the editor to the server.  When LeetCode's page submits a solution and its check
    answers for the same id, the content script sends two messages; handled by the worker one after the other they lead to
    exactly one request, with the slug, the code and the language that the page submitted and the run time and memory
    of the verdict, if the verdict is Accepted and the round is not over, and to no request otherwise. *)
Theorem solution_scored (slug lang question code id : string) (idv : Val) (answer fs : list (string * Val))
    (p : Page) (w : World) (k : Worker) :
  slug <> "" -> no_slash slug -> str_forall is_digit id = true ->
  truthy idv = true -> to_str idv = id ->
  configReady k = true -> reads k = [] -> callbacks k = [] -> pending_fields_of w fs ->
  let p' := pageFetch (check_fetch id answer) (pageFetch (submit_fetch slug lang question code idv) p) in
  let s' := bg_run (mbind deliver (drop (length (sent p)) (sent p'))) (w, k) in
  requests (w_log s'.1) = requests (w_log w) ++
    (if is_str (field "status_msg" answer) "Accepted" &&
        negb (round_over_at (default VUndef (w_storage w !! "roundEndTime")) (w_now w))
     then [post_json (SERVER_URL k +:+ "/submission")
             (VObj [("slug", VStr slug); ("status", VStr "Accepted"); ("code", VStr code); ("language", VStr lang);
                    ("runtime", field "elapsed_time" answer); ("memory", field "memory_percentile" answer)])]
     else []).
Proof.
  intros Hne Hs Hd Ht Hid Hc Hr Hcb Hf p' s'. unfold s', p'. rewrite solution_messages by done.
  rewrite drop_app_length. cbn [mbind list_bind app]. rewrite app_nil_r, bg_run_app.
  set (data := pending_data slug lang question code idv).
  assert (Hslug : truthy (VStr slug) = true) by (by destruct slug).
  rewrite (pending_run data) by done.
  rewrite (pending_stored _ _ _ _ Hf).
  change (to_str (prop data "submissionId")) with (to_str idv). rewrite Hid.
  set (w1 := with_storage w _). change (deliver (message "SUBMISSION_RESULT" (verdict_data id answer)))
    with (verdict_events (verdict_data id answer)).
  rewrite verdict_run by done.
  destruct (verdict_known (verdict_data id answer) data (set_field id data fs) w1 k) as (Hv & _ & _).
  - apply lookup_insert_eq.
  - apply field_set_eq.
  - done.
  - rewrite Hv. cbn [fst snd]. change (w_now w1) with (w_now w). change (w_log w1) with (w_log w).
    change (w_storage w1 !! "roundEndTime") with
      (<["pendingSubmissions" := VObj (set_field id data fs)]> (w_storage w) !! "roundEndTime").
    by rewrite lookup_insert_ne.
Qed.
End solution.

Lemma solution_scored_witness :
  let w := fresh_world None [] in
  let k := set_config workerInit "https://s" "wss://s" true in
  let p := demo_page ∅ in
  let answer := [("status_msg", VStr "Accepted"); ("elapsed_time", VNum 3)] in
  let p' := pageFetch (check_fetch "7" answer) (pageFetch (submit_fetch "two-sum" "cpp" "1" "x" (VNum 7)) p) in
  length (requests (w_log (bg_run (H := demo_env) (mbind deliver (drop (length (sent p)) (sent p'))) (w, k)).1)) = 1.
Proof.
  intros w k p answer p'.
  pose proof (solution_scored (H := demo_env) "two-sum" "cpp" "1" "x" "7" (VNum 7) answer [] p w k
    ltac:(done) eq_refl eq_refl eq_refl eq_refl eq_refl eq_refl eq_refl eq_refl) as Hs.
  etransitivity; [exact (f_equal length Hs)|]. reflexivity.
Defined.

(** ** From the editor to the progress bar *)

(** The texts of a stored list, which the panel makes a set of. *)
Definition val_strings (l : list Val) : list string :=
  omap (fun v => match v with VStr s => Some s | _ => None end) l.

Lemma includes_string l slug : touched_includes l (VStr slug) = true -> slug ∈ val_strings l.
Proof.
  unfold touched_includes, val_strings. rewrite existsb_exists. intros (v & Hv & Hs).
  apply list_elem_of_omap. exists v. split; [by apply list_elem_of_In|].
  destruct v; try done. cbn in Hs. by apply String.eqb_eq in Hs as ->.
Qed.

Lemma slug_nonempty u slug : parseProblemSlug u = Some slug -> slug <> "".
Proof.
  assert (Hh : forall v m, slug_here v = Some m -> m <> "").
  { intros v m. unfold slug_here. destruct (starts_with _ _); [|done].
    destruct (str_span _ _) as [[|a s] r]; [done|]. by intros [= <-]. }
  induction u as [|a u IH]; cbn; [done|].
  match goal with |- context [slug_here ?v] => destruct (slug_here v) eqn:E end; [intros [= ->]; by eapply Hh|apply IH].
Qed.

Lemma fold_keeps l acc s : s ∈ acc -> s ∈ fold_left add_new l acc.
Proof.
  revert acc; induction l as [|x l IH]; intros acc Hs; [done|]. cbn. apply IH.
  unfold add_new. destruct (includes acc x); [done|]. set_solver.
Qed.

Lemma fold_adds l acc s : s ∈ l -> s ∈ fold_left add_new l acc.
Proof.
  revert acc; induction l as [|x l IH]; intros acc; [by intros ?%elem_of_nil|].
  intros [->|Hs]%elem_of_cons; cbn; [|by apply IH].
  apply fold_keeps. unfold add_new. destruct (includes acc x) eqn:E; [by apply includes_spec in E|set_solver].
Qed.

(** The reports a page has sent. *)
Lemma page_touches `{JsonCodec} evs p : touches_ok p ->
  touches_ok (cs_run evs p) /\ reportedTouches (cs_run evs p) = fold_left add_new (omap touch_of evs) (reportedTouches p).
Proof.
  revert p. induction evs as [|ev evs IH]; intros p Hok; [done|].
  destruct (step_touches ev p Hok) as [H1 H2]. destruct (IH _ H1) as [H3 H4].
  change (cs_run (ev :: evs) p) with (cs_run evs (cs_step p ev)). split; [done|].
  rewrite H4, H2. cbn. by destruct (touch_of ev).
Qed.

Lemma report_asks v slug : touch_sent v = Some slug -> slug <> "" -> jobs_of v = [Touch (VStr slug)].
Proof.
  unfold touch_sent. destruct (is_str (prop v "type") "PROBLEM_TOUCHED") eqn:E; [|done].
  destruct (prop v "slug") as [| | | |s| |] eqn:Es; try done. intros [= ->] Hne. apply is_str_true in E.
  unfold jobs_of. rewrite E, Es. change (is_str (VStr "PROBLEM_TOUCHED") "COPY_TO_CLIPBOARD") with false.
  rewrite andb_false_r. change (is_str (VStr "PROBLEM_TOUCHED") "PROBLEM_PROGRESS_RESET") with false.
  change (is_str (VStr "PROBLEM_TOUCHED") "PROBLEM_TOUCHED") with true. cbv iota. by destruct slug.
Qed.

Section progress_bar.
Context `{JsEnv} `{JsonCodec}.

(** C14: Working on a problem colours its segment.  Take a page on which nothing was reported and
    let its events happen; let its messages reach the worker, in any order and among any other
    messages and events, during a round that is not changed; and let the queue of the worker run. Then every problem in whose
    editor something was typed is touched in the progress bar of a panel that reads the storage: its segment is yellow
    unless the problem is solved or is the one on the screen. *)
Theorem worked_on_is_yellow (pevs : list CsEvent) (p : Page) (wevs : list BgEvent) (w : World) (k : Worker)
    (slug : string) (solved : gset string) (current : option string) :
  reportedTouches p = [] -> omap touch_sent (sent p) = [] ->
  has_session (w_platform w) = true -> session_ok (session k) -> touchedWrites k = [] ->
  Forall (fun j => match j with
                   | Reset key => strict_eq (round (progress_of (session k))) key = true
                   | Touch _ => True end) (concat (event_jobs <$> wevs)) ->
  (forall v, v ∈ sent (cs_run pevs p) -> exists e, Message e v ∈ wevs) ->
  slug ∈ omap touch_of pevs -> slug ∉ solved -> current <> Some slug ->
  let s := bg_run wevs (w, k) in
  let s' := bg_run (replicate (length (touchedWrites s.2)) TouchedStep) s in
  let bar := touched_step (Toolbar.ReadAnswered (Some (val_strings (slugs (progress_of (session s'.2)))))) touchedInit in
  segmentState solved (touched bar) current slug = touched_seg.
Proof.
  intros Hr Hsent Hp Hs Hq Hk Hdel Hin Hns Hnc s s' bar.
  assert (Hok : touches_ok p) by (unfold touches_ok; by rewrite Hr).
  destruct (page_touches pevs p Hok) as [T1 T2].
  assert (Hmsg : slug ∈ omap touch_sent (sent (cs_run pevs p))).
  { unfold touches_ok in T1. rewrite T1, T2. by apply fold_adds. }
  apply list_elem_of_omap in Hmsg as (v & Hv & Hvs). destruct (Hdel v Hv) as [e He].
  assert (Hne : slug <> "").
  { apply list_elem_of_omap in Hin as (ev & _ & Hev). destruct ev; try done. cbn in Hev.
    destruct (_ && _); [|done]. by eapply slug_nonempty. }
  pose proof (report_asks v slug Hvs Hne) as Hj.
  destruct (touched_run wevs w k Hp Hs Hq) as (_ & _ & Hg). fold s s' in Hg.
  destruct (progress_kept _ _ Hk) as (_ & _ & Hall). rewrite Forall_forall in Hall.
  assert (Hjob : Touch (VStr slug) ∈ concat (event_jobs <$> wevs)).
  { rewrite list_elem_of_In, in_concat. exists (event_jobs (Message e v)). rewrite <- !list_elem_of_In.
    split; [by apply list_elem_of_fmap_2|]. cbn [event_jobs]. rewrite Hj. left. }
  specialize (Hall _ Hjob). cbn in Hall. destruct Hall as [Hall|Hf]; [|by rewrite String.eqb_refl in Hf].
  unfold segmentState. rewrite !decide_False by done. rewrite decide_True; [done|].
  assert (Hbar : slug ∈ val_strings (slugs (progress_of (session s'.2)))) by (rewrite Hg; by apply includes_string).
  change (touched bar) with (list_to_set (C := gset string) (val_strings (slugs (progress_of (session s'.2))))).
  by apply elem_of_list_to_set.
Qed.
End progress_bar.

Lemma worked_on_is_yellow_witness :
  let wevs := (fun v => Message no_copy v) <$> sent (cs_run demo_typed (demo_page ∅)) in
  let s := bg_run (H := demo_env) wevs (fresh_world None [], workerInit) in
  let s' := bg_run (H := demo_env) (replicate (length (touchedWrites s.2)) TouchedStep) s in
  segmentState ∅ (touched (touched_step (Toolbar.ReadAnswered (Some (val_strings (slugs (progress_of (session s'.2)))))) touchedInit))
    None "lru-cache" = touched_seg.
Proof.
  intros wevs.
  apply (worked_on_is_yellow (H := demo_env) demo_typed (demo_page ∅) wevs (fresh_world None []) workerInit "lru-cache" ∅ None).
  - vm_compute. reflexivity.
  - vm_compute. reflexivity.
  - reflexivity.
  - exact I.
  - reflexivity.
  - vm_compute. repeat constructor.
  - intros v Hv. exists no_copy. by apply list_elem_of_fmap_2.
  - vm_compute. apply list_elem_of_In. vm_compute. tauto.
  - set_solver.
  - discriminate.
Defined.

(** A problem reported before a round starts and worked on again in it, on the same page: the page
    remembers the report, the worker forgets it with the old round, and the
    problem is not touched in the new round. *)
Lemma second_round_untouched :
  let p := cs_run [typed "two-sum" "a"; typed "two-sum" "b"] (demo_page ∅) in
  let reset key := bg_msg "PROBLEM_PROGRESS_RESET" [("roundKey", VStr key)] in
  let s := bg_run (H := demo_env)
    ([reset "r|1"] ++ ((fun v => Message no_copy v) <$> sent (cs_run [typed "two-sum" "a"] (demo_page ∅))) ++ [reset "r|2"] ++
     ((fun v => Message no_copy v) <$> drop 1 (sent p)) ++ replicate 3 TouchedStep)
    (fresh_world None [], workerInit) in
  progress_of (session s.2) = mkProgress (VStr "r|2") [].
Proof. vm_compute. reflexivity. Qed.
