(* ===== verification/EndToEnd.v ===== *)
(** * From the browser to the services

    The requests that the panel and the worker build, as the gateway receives them, and what it
    asks of the services for them. *)

From S2P Require Import RoomInit Extension GatewaySpec.
From Stdlib Require Import Ascii.

(** ** A request on its way *)

Section arrival.
Context `{JsonCodec}.

Definition not_query (a : ascii) : bool := negb (Ascii.eqb a "?").

(** A request of the extension without a query, as the gateway of [base] receives it in the session of [u]: its
    path, and its JSON with the header that the extension's requests with a body carry. *)
Definition arrive (base : string) (u : User) (ip : string) (r : Request) : option HttpReq :=
  if starts_with base (url r) then
    let path := str_drop (String.length base) (url r) in
    if negb (str_forall not_query path) then None else
    match reqBody r with
    | None => Some (mkHttpReq (method r) path [] VUndef None None ip (Some u) None None false false)
    | Some t =>
        match json_parse t with
        | Ok v => Some (mkHttpReq (method r) path [] v (Some "application/json") None ip (Some u) None None false false)
        | Throw _ => None
        end
    end
  else None.

Lemma arrive_plain base u ip m path : str_forall not_query path = true ->
  arrive base u ip (mkRequest m (base +:+ path) None) =
    Some (mkHttpReq m path [] VUndef None None ip (Some u) None None false false).
Proof. intros Hq. unfold arrive. cbn [url reqBody method]. by rewrite starts_with_app, str_drop_app, Hq. Qed.

Lemma arrive_json base u ip path v : str_forall not_query path = true -> json_data v = true ->
  arrive base u ip (post_json (base +:+ path) v) =
    Some (mkHttpReq "POST" path [] v (Some "application/json") None ip (Some u) None None false false).
Proof.
  intros Hq Hv. unfold arrive, post_json. cbn [url reqBody method].
  by rewrite starts_with_app, str_drop_app, Hq, json_parse_stringify.
Qed.

(** *** A new room *)

(** The calls of a creation, as the panel's calls of the gateway. *)
Definition creation_calls (code : string) (options d params : Val) : list PanelCall :=
  let rid := to_str (prop d "id") in
  [CreateRoom (VObj [("roomName", VStr code); ("ttl", VNum 360);
     ("profanityFilter", js_coalesce (prop options "profanityFilter") (VBool false))]);
   CreateRound rid params; Join rid; Participants rid].

Lemma creation_arrives code options d params u ip w :
  let base := w_serverUrl w in
  let rid := to_str (prop d "id") in
  str_forall not_query rid = true -> json_data params = true -> truthy params = true ->
  json_data (js_coalesce (prop options "profanityFilter") (VBool false)) = true ->
  arrive base u ip <$> create_requests code options d params w =
    (fun c => Some (received c u ip)) <$> creation_calls code options d params.
Proof.
  intros base rid Hq Hp Ht Ho. unfold create_requests, creation_calls. cbn [fmap list_fmap]. f_equal; [|f_equal; [|f_equal; [|f_equal]]].
  - unfold createRoomRequest. fold base. rewrite arrive_json; [done..|]. cbn -[js_coalesce]. rewrite Ho. done.
  - unfold createRoundRequest. fold base rid. rewrite arrive_json; [|by rewrite ?str_forall_app, Hq|done].
    unfold received. cbn [panel_body]. by rewrite Ht.
  - unfold joinRequest, post_req. fold base rid. rewrite arrive_plain; [done|]. by rewrite ?str_forall_app, Hq.
  - unfold participantsRequest, get_req. fold base rid. rewrite arrive_plain; [done|]. by rewrite ?str_forall_app, Hq.
Qed.
End arrival.

(** *** A solution *)

Section delivery.
Context {S : Type} `{RedisClient S} `{JsonCodec} `{ExpressLaws} (E : Env).

(** The body of the worker's request, and the calls it leads to at most. *)
Definition solution_body (slug code lang : string) (runtime memory : Val) : Val :=
  VObj [("slug", VStr slug); ("status", VStr "Accepted"); ("code", VStr code); ("language", VStr lang);
        ("runtime", runtime); ("memory", memory)].
Definition solution_calls (u : User) (slug code lang : string) (runtime memory room problem difficulty : Val) : list Upstream :=
  [active_call E u; lookup_call E u (VStr slug);
   mkUpstream "POST" (central E ("/api/rooms/" +:+ to_str room +:+ "/" +:+ to_str problem))
     (secret_headers E (user_id u) ++ [("Content-Type", "application/json")])
     (Some (VObj [("code", VStr code); ("language", VStr lang); ("runtime", runtime); ("memory", memory);
                  ("verdict", VStr "Accepted")]));
   mkUpstream "POST" (central E ("/api/statistics/" +:+ to_str room +:+ "/update")) (json_headers E (user_id u))
     (Some (VObj [("runtime", runtime); ("difficulty", difficulty)]))].

Lemma handled_solution u slug code lang runtime memory net calls tasks r :
  Handled E u (solution_body slug code lang runtime memory) net calls tasks r ->
  exists n room problem difficulty, calls = take n (solution_calls u slug code lang runtime memory room problem difficulty) /\
    n <= 4 /\ (2 < n -> room_known net room /\ problem_known net problem difficulty) /\
    (n = 4 <-> tasks = [PushToGithub (user_id u) (VStr slug) (VStr lang) (VStr code)]) /\ (n <> 4 -> tasks = []) /\
    (n = 4 <-> exists room problem difficulty, room_known net room /\ problem_known net problem difficulty /\ scored net).
Proof.
  intros [r' Hn _|room r' Hr Hn _|room problem difficulty r' Hr Hp Hn _|room problem difficulty Hr Hp Hs].
  - exists 1, VNull, VNull, VNull. repeat split; try done; try lia. by intros (? & ? & ? & ?%Hn & _).
  - exists 2, room, VNull, VNull. repeat split; try done; try lia. by intros (? & ? & ? & _ & ?%Hn & _).
  - exists 3, room, problem, difficulty. repeat split; try done; try lia. by intros (? & ? & ? & _ & _ & ?%Hn).
  - exists 4, room, problem, difficulty. repeat split; try done; try lia. by intros; exists room, problem, difficulty.
Qed.
End delivery.

(** C13: An accepted solution reaches the services once.  The request that the worker sends for an accepted solution
    is, as the gateway receives it, either refused with 429, or it leads to a beginning of these four calls: which
    room is the user in, which problem is it, score exactly the code, the language, the run time and the memory
    that were reported, and update the statistics; the room and the problem are the ones that were answered; the solution is published
    exactly if its scoring was confirmed. *)
Theorem solution_delivered {S} `{RedisClient S} `{JsonCodec} `{ExpressLaws} (E : Env) (base slug code lang : string) (runtime memory : Val)
    (u : User) (ip : string) (ready : bool) (g : Gw S) :
  json_data runtime = true -> json_data memory = true ->
  exists req, arrive base u ip (post_json (base +:+ "/submission") (solution_body slug code lang runtime memory)) = Some req /\
  exists r g', app E ready req g = (Ok r, g') /\
    ((r = RJson (too_many "Rate limit exceeded" (windowSeconds globalRateLimit)) /\ g_log g' = g_log g /\ g_tasks g' = g_tasks g) \/
     exists n room problem difficulty,
       g_log g' = g_log g ++ map Call (take n (solution_calls E u slug code lang runtime memory room problem difficulty)) /\
       n <= 4 /\ (2 < n -> room_known (g_net g) room /\ problem_known (g_net g) problem difficulty) /\
       g_tasks g' = g_tasks g ++ (if decide (n = 4) then [PushToGithub (user_id u) (VStr slug) (VStr lang) (VStr code)] else []) /\
       (n = 4 <-> exists room problem difficulty,
          room_known (g_net g) room /\ problem_known (g_net g) problem difficulty /\ scored (g_net g))).
Proof.
  intros Hrt Hm. eexists. split.
  { apply arrive_json; [done|]. cbn. by rewrite Hrt, Hm. }
  set (req := mkHttpReq _ _ _ _ _ _ _ _ _ _ _ _).
  unfold app. change (validate _ _ _ _) with (None (A := Answer)). cbv zeta.
  assert (path_segments (h_path req) = ["submission"]) as -> by (apply (segments_of_path ["submission"]); [done..|by repeat constructor]).
  rewrite mounted_at. change (String.eqb _ _) with false. cbv iota.
  destruct (limited_cases globalRateLimit req (routers E ready ["submission"] req) g) as (g1 & (L & T & N & _) & [->| ->]).
  { eexists _, g1. split; [done|]. by left. }
  rewrite submission_served by done. cbn [h_user req].
  destruct (submission_handled E u req g1 eq_refl) as (calls & tasks & r & Hr & Hh & Hlog & Htasks & _).
  destruct (submission E (Some u) req g1) as [r' g']. cbn in Hr, Hlog, Htasks. subst r'. exists r, g'. split; [done|]. right.
  destruct (handled_solution E _ _ _ _ _ _ _ _ _ _ Hh) as (n & room & problem & difficulty & -> & Hn & Hk & Ht & Ht' & Hsc).
  rewrite N in Hk, Hsc. exists n, room, problem, difficulty. rewrite Hlog, Htasks, L, T.
  split; [done|]. split; [done|]. split; [done|]. split; [|done]. destruct (decide (n = 4)) as [He|He]; [by rewrite (proj1 Ht He)|by rewrite Ht'].
Qed.

Lemma solution_delivered_witness :
  exists req, arrive "https://s" demo_user "" (post_json ("https://s" +:+ "/submission") (solution_body "two-sum" "x" "cpp" (VNum 3) (VNum 5))) = Some req /\
    exists r g', app demo_gw_env true req (demo_gw []) = (Ok r, g').
Proof.
  destruct (solution_delivered demo_gw_env "https://s" "two-sum" "x" "cpp" (VNum 3) (VNum 5) demo_user "" true (demo_gw [])
    eq_refl eq_refl) as (req & Hreq & r & g' & Hr & _).
  exists req. split; [exact Hreq|]. exists r, g'. exact Hr.
Defined.

(** C20: A new room reaches the services.  The four requests with which the panel creates a room and enters it
    are, in their order, the gateway's calls that create the room, create the round in it, join it and list its participants; each
    is either refused with 429 or makes exactly the one call of the central service that belongs to it, in
    the user's name, and the panel gets that service's answer. *)
Theorem creation_delivered {S} `{RedisClient S} `{JsonCodec} `{ExpressLaws} (E : Env) (code : string) (options d params : Val) (u : User)
    (ip : string) (ready : bool) (w : World) :
  plain_id (to_str (prop d "id")) -> str_forall not_query (to_str (prop d "id")) = true ->
  json_data params = true -> truthy params = true ->
  json_data (js_coalesce (prop options "profanityFilter") (VBool false)) = true ->
  Forall2 (fun r c => exists req, arrive (w_serverUrl w) u ip r = Some req /\
      forall g : Gw S, exists a g', app E ready req g = (Ok a, g') /\
        ((a = RJson (too_many "Rate limit exceeded" (windowSeconds globalRateLimit)) /\ g_log g' = g_log g) \/
         (a = relayed (g_net g) /\ g_log g' = g_log g ++ [Call (service_call E c u)])))
    (create_requests code options d params w) (creation_calls code options d params).
Proof.
  intros Hp Hq Hd Ht Ho. pose proof (creation_arrives code options d params u ip w Hq Hd Ht Ho) as Ha.
  assert (Hr : Forall (fun c => forall rid, panel_room c = Some rid -> plain_id rid) (creation_calls code options d params)).
  { unfold creation_calls. rewrite !Forall_cons, Forall_nil. split_and!; try exact I; intros rid; cbn; by intros [= <-]. }
  revert Ha Hr. generalize (create_requests code options d params w) (creation_calls code options d params).
  induction l as [|r l IH]; intros [|c cs]; try done.
  cbn. intros [= Ha Hl] [Hc Hr]%Forall_cons. constructor; [|by apply IH].
  exists (received c u ip). split; [done|]. intros g.
  destruct (forwarded E c u ip ready g Hc) as (a & g' & Happ & _ & Hres). by exists a, g'.
Qed.

Lemma creation_delivered_witness :
  let d := VObj [("id", VStr "r1")] in
  let params := VObj [("duration", VNum 30)] in
  Forall2 (fun r c => exists req, arrive "https://api.binarysearchgang.com" demo_user "" r = Some req /\
      forall g : Gw DemoRedis, exists a g', app demo_gw_env true req g = (Ok a, g') /\
        ((a = RJson (too_many "Rate limit exceeded" (windowSeconds globalRateLimit)) /\ g_log g' = g_log g) \/
         (a = relayed (g_net g) /\ g_log g' = g_log g ++ [Call (service_call demo_gw_env c demo_user)])))
    (create_requests "abc" (VObj []) d params (fresh_world None []))
    [CreateRoom (VObj [("roomName", VStr "abc"); ("ttl", VNum 360); ("profanityFilter", VBool false)]);
     CreateRound "r1" params; Join "r1"; Participants "r1"].
Proof.
  intros d params. apply (creation_delivered demo_gw_env "abc" (VObj []) d params demo_user "" true (fresh_world None [])); try reflexivity.
  split; [reflexivity|]. split; discriminate.
Defined.
