(* ===== verification/WebApp.v ===== *)
(** * The web application

    The pages of [apps/web] and the components of
    [packages/components/customComponents] that keep a state: the room form, the
    sign-in and sign-up forms, the list of problems with its pages, the dashboard that filters it, the
    live statistics and the navigation bar.  The rooms and topics shown there are
    sample data of the source. *)

From S2P Require Export JsVal Stores World.
From S2P Require Import Gateway.
From Stdlib Require Import Ascii.

Module Web.

(** ** createRoom/useCreateRoom.ts *)

Record RoomForm := mkRoomForm {
  numberOfEasyProblems : Z;
  numberOfMediumProblems : Z;
  numberOfHardProblems : Z;
  form_duration : Z;
  total : Z;
}.
Definition roomFormInit : RoomForm := mkRoomForm 1 0 0 30 1.

Definition minNumberOfProblems : Z := 0.
Definition maxNumberOfProblems : Z := 10.

Definition number_of (d : Difficulty) (f : RoomForm) : Z :=
  match d with Easy => numberOfEasyProblems f | Medium => numberOfMediumProblems f | Hard => numberOfHardProblems f end.
Definition set_number (d : Difficulty) (n : Z) (f : RoomForm) : RoomForm :=
  match d with
  | Easy => mkRoomForm n (numberOfMediumProblems f) (numberOfHardProblems f) (form_duration f) (total f)
  | Medium => mkRoomForm (numberOfEasyProblems f) n (numberOfHardProblems f) (form_duration f) (total f)
  | Hard => mkRoomForm (numberOfEasyProblems f) (numberOfMediumProblems f) n (form_duration f) (total f)
  end.
Definition setTotal (n : Z) (f : RoomForm) : RoomForm :=
  mkRoomForm (numberOfEasyProblems f) (numberOfMediumProblems f) (numberOfHardProblems f) (form_duration f) n.
Definition setDuration (n : Z) (f : RoomForm) : RoomForm :=
  mkRoomForm (numberOfEasyProblems f) (numberOfMediumProblems f) (numberOfHardProblems f) n (total f).

(** The handlers of a difficulty's buttons *)
Definition decrement (d : Difficulty) (f : RoomForm) : RoomForm :=
  if (total f <=? 1)%Z || (number_of d f <=? minNumberOfProblems)%Z then f
  else setTotal (total f - 1) (set_number d (number_of d f - 1) f).
Definition increment (d : Difficulty) (f : RoomForm) : RoomForm :=
  if (maxNumberOfProblems <=? total f)%Z then f
  else setTotal (total f + 1) (set_number d (number_of d f + 1) f).

Inductive FormEvent := Less (d : Difficulty) | More (d : Difficulty) | Slide (value : Z).
Definition form_step (f : RoomForm) (ev : FormEvent) : RoomForm :=
  match ev with Less d => decrement d f | More d => increment d f | Slide n => setDuration n f end.

(** A value of the slider: from 5 to 120 in steps of 5. *)
Definition slider_value (n : Z) : Prop := (5 <= n <= 120)%Z /\ (n mod 5 = 0)%Z.

(** ** Topic/useTopic.ts, TopicList.tsx *)

Definition handleTopicPress (isTopicSelected : bool) : bool := negb isTopicSelected.

Definition visibleTopics {A} (maxVisible : nat) (expanded : bool) (topics : list A) : list A :=
  if expanded then topics else take maxVisible topics.
(** The button that shows more or less *)
Definition has_toggle {A} (maxVisible : nat) (topics : list A) : bool := maxVisible <? length topics.

(** ** problemList/problemList.tsx *)

Definition problemsPerPage : nat := 10.
Definition page_of {A} (currentPage : nat) (problemList : list A) : list A :=
  let indexOfLastProblem := currentPage * problemsPerPage in
  let indexOfFirstProblem := indexOfLastProblem - problemsPerPage in
  take (indexOfLastProblem - indexOfFirstProblem) (drop indexOfFirstProblem problemList).
(** [Math.ceil(length / problemsPerPage)] *)
Definition totalPages {A} (problemList : list A) : nat := (length problemList + (problemsPerPage - 1)) / problemsPerPage.
Definition handlePrevPage (currentPage : nat) : nat := if 1 <? currentPage then currentPage - 1 else currentPage.
Definition handleNextPage {A} (problemList : list A) (currentPage : nat) : nat :=
  if currentPage <? totalPages problemList then currentPage + 1 else currentPage.

(** ** problemList/problemItem.tsx, roomList/roomItem.tsx *)

Record ProblemItem := mkProblemItem {
  pi_id : string;
  pi_name : string;
  acceptance : Z;
  pi_difficulty : Difficulty;
  pi_tags : option (list Val);
  topic : Val;
}.

Definition displayTags (p : ProblemItem) : list Val :=
  match pi_tags p with
  | Some (t :: ts) => t :: ts
  | _ => if truthy (topic p) then [topic p] else []
  end.
Definition problem_title (p : ProblemItem) : string := pi_id p +:+ ". " +:+ pi_name p.

Record RoomItem := mkRoomItem { ri_id : string; problemIDs : list string; userIDs : list string }.
Definition room_title (r : RoomItem) : string := ri_id r +:+ ". " +:+ default "undefined" (problemIDs r !! 0) .
Definition room_members (r : RoomItem) : string := join ", " (userIDs r).

(** ** apps/web/app/dashboard/page.tsx *)

Definition problemList : list ProblemItem :=
  (fun n => mkProblemItem (z_str (Z.of_nat n)) "Two Sum" 100
     (match n with 2 => Medium | 3 => Hard | _ => Easy end) None (VStr "hashmap")) <$> seq 1 17.

Definition selectedTags (tagsQuery : string) : list string :=
  List.filter (fun tag => 0 <? String.length tag) ((fun tag => to_lower (trim tag)) <$> split_on "," tagsQuery).

Definition problems_url (serverUrl : string) (tags : list string) : string :=
  serverUrl +:+ "/problems?count=100&offset=0" +:+
    match tags with [] => "" | _ => "&tags=" +:+ form_encode (join "," tags) end.

(** A problem of the answer *)
Definition remote_problem (problem : Val) : ProblemItem :=
  let d := get_opt problem "difficulty" in
  let tags := get_opt problem "tags" in
  mkProblemItem
    (to_str (js_coalesce (get_opt problem "id") (VStr ""))) (to_str (js_coalesce (get_opt problem "name") (VStr ""))) 0
    (if is_str d "Easy" then Easy else if is_str d "Medium" then Medium else if is_str d "Hard" then Hard else Medium)
    (Some (match tags with VArr l => l | _ => [] end))
    (match tags with VArr (t :: _) => t | _ => VStr "" end).

(** What an answer makes of [remoteProblemList]. *)
Definition remote_answer (r : NetReply) : option (list ProblemItem) :=
  match r with
  | NetFail _ => None
  | Reply _ st b =>
      if negb (res_ok (mkResponse st b)) then None else
      match b with
      | None => None
      | Some payload =>
          match js_coalesce (get_opt payload "data") (VArr []) with
          | VArr l => Some (remote_problem <$> l)
          | _ => None
          end
      end
  end.

Record Dashboard := mkDashboard {
  tagsQuery : string;
  remoteProblemList : option (list ProblemItem);
  fetching : bool;                (* the request of these tags is in flight *)
  fetched : list string;          (* the URLs asked for *)
  currentPage : nat;
}.

Inductive DashEvent := Typed (q : string) | Answered (r : NetReply) | PrevPage | NextPage.

(** [problem.tags] and the topic, in lower case *)
Definition lower_tag (v : Val) : Res string := match v with VStr s => Ok (to_lower s) | _ => Throw type_error end.
Definition problemTags (p : ProblemItem) : Res (list string) :=
  res_map lower_tag (default [] (pi_tags p) ++ (if truthy (topic p) then [topic p] else [])).

Fixpoint filter_tagged (tags : list string) (l : list ProblemItem) : Res (list ProblemItem) :=
  match l with
  | [] => Ok []
  | p :: l =>
      ts ← problemTags p; rest ← filter_tagged tags l;
      Ok (if forallb (includes ts) tags then p :: rest else rest)
  end.

(** An exception is thrown while the page renders. *)
Definition filteredProblemList (s : Dashboard) : Res (list ProblemItem) :=
  let list := default problemList (remoteProblemList s) in
  match selectedTags (tagsQuery s) with [] => Ok list | tags => filter_tagged tags list end.

(** The problems on show *)
Definition shown_problems (s : Dashboard) : Res (list ProblemItem) :=
  l ← filteredProblemList s; Ok (page_of (currentPage s) l).

Section dashboard.
Context (serverUrl : string).

Definition dashboardInit : Dashboard := mkDashboard "" None true [problems_url serverUrl []] 1.

(** Other tags abort the request of the old ones. *)
Definition dash_step (s : Dashboard) (ev : DashEvent) : Dashboard :=
  match ev with
  | Typed q =>
      if String.eqb q (tagsQuery s) then s
      else mkDashboard q (remoteProblemList s) true (fetched s ++ [problems_url serverUrl (selectedTags q)]) (currentPage s)
  | Answered r =>
      if fetching s then mkDashboard (tagsQuery s) (remote_answer r) false (fetched s) (currentPage s) else s
  | PrevPage => mkDashboard (tagsQuery s) (remoteProblemList s) (fetching s) (fetched s) (handlePrevPage (currentPage s))
  | NextPage =>
      match filteredProblemList s with
      | Ok l => mkDashboard (tagsQuery s) (remoteProblemList s) (fetching s) (fetched s) (handleNextPage l (currentPage s))
      | Throw _ => s
      end
  end.
Definition dash_run (evs : list DashEvent) : Dashboard := fold_left dash_step evs dashboardInit.
End dashboard.

(** ** signUpForm/useSignUpForm.ts, logInForm/useLogInForm.ts

    The check of an e-mail address is zod's. *)

Section forms.
Context (is_email : string -> bool).

Record SignUp := mkSignUp { su_email : string; su_username : string; password : string; confirmPassword : string }.

(** The messages of the schema by field; the passwords are compared when every field is fine. *)
Definition signUp_errors (f : SignUp) : list (string * string) :=
  let fields :=
    (if is_email (su_email f) then [] else [("email", "Invalid email!")]) ++
    (if String.length (su_username f) <? 2 then [("username", "Username must be at least 2 characters.")] else []) ++
    (if String.length (password f) <? 6 then [("password", "Password must be at least 6 characters.")] else []) ++
    (if String.length (confirmPassword f) <? 6 then [("confirmPassword", "Password must be at least 6 characters.")] else []) in
  match fields with
  | [] => if String.eqb (password f) (confirmPassword f) then [] else [("confirmPassword", "Password doesn't match")]
  | _ => fields
  end.

Record LogIn := mkLogIn { li_email : string; li_username : string; li_password : string }.
Definition logInInit : LogIn := mkLogIn "" "" "".
Definition logIn_errors (f : LogIn) : list (string * string) :=
  (if String.length (li_email f) <? 1 then [("email", "Name/Email is required")] else []) ++
  (if String.length (li_password f) <? 1 then [("password", "Password is required")] else []).

(** What [onSubmit] leaves in the form *)
Definition logIn_submit (f : LogIn) : LogIn :=
  if is_email (li_email f) then mkLogIn (li_email f) "" (li_password f) else mkLogIn "" (li_username f) (li_password f).
End forms.

(** ** liveStatistics *)

Definition solving (selectedProblem : Z) (ps : list Participant) : list Participant :=
  List.filter (fun p => match p_currentProblemIndex p with Some i => (i =? selectedProblem)%Z | None => false end) ps.
Definition submitted_by (selectedProblem : Z) (ps : list Participant) : list Participant :=
  List.filter (fun p => match p_currentProblemIndex p with Some i => (selectedProblem <? i)%Z | None => true end) ps.
Definition incrementProblem (completedProblem : Z) : Z := (completedProblem + 1)%Z.
Definition decrementProblem (completedProblem : Z) : Z := (completedProblem - 1)%Z.

(** [sort((a, b) => b.score - a.score)], which is stable *)
Fixpoint insert_entry (x : Participant) (l : list Participant) : list Participant :=
  match l with
  | [] => [x]
  | y :: l => if (p_score y <=? p_score x)%Z then x :: y :: l else y :: insert_entry x l
  end.
Definition sortedEntries (ps : list Participant) : list Participant := foldr insert_entry [] ps.

Definition rank (i : nat) : string :=
  match i with 0 => "gold" | 1 => "silver" | 2 => "bronze" | _ => z_str (Z.of_nat i + 1) +:+ "th" end.

(** ** navbar.tsx *)

Inductive NavEvent := Scrolled (scrollY : Z) | MouseMoved (scrollY clientY : Z) | MouseEntered | MouseLeft (scrollY : Z).
Definition nav_step (isLandingPage : bool) (isHidden : bool) (ev : NavEvent) : bool :=
  if negb isLandingPage then isHidden else
  match ev with
  | Scrolled y => negb (y =? 0)%Z
  | MouseMoved y c => if negb (y =? 0)%Z && (c <? 80)%Z then false else isHidden
  | MouseEntered => false
  | MouseLeft y => if negb (y =? 0)%Z then true else isHidden
  end.
End Web.
Import Web.

(** ** Lemmas *)

Definition room_form_ok (f : RoomForm) : Prop :=
  total f = (numberOfEasyProblems f + numberOfMediumProblems f + numberOfHardProblems f)%Z /\
  (1 <= total f <= 10)%Z /\ (forall d, 0 <= number_of d f)%Z /\ slider_value (form_duration f).

Lemma room_step_ok f ev : match ev with Slide n => slider_value n | _ => True end -> room_form_ok f -> room_form_ok (form_step f ev).
Proof.
  intros He (Ht & Hb & Hn & Hd). pose proof (Hn Easy). pose proof (Hn Medium). pose proof (Hn Hard). cbn in *.
  unfold room_form_ok. destruct ev as [d|d|n]; cbn [form_step]; [| |done].
  - unfold decrement, minNumberOfProblems. destruct (_ || _) eqn:E; [done|]. js_bool.
    destruct d; cbn in *; split_and!; try lia; try done; intros []; cbn; lia.
  - unfold increment, maxNumberOfProblems. destruct (_ <=? _)%Z eqn:E; [done|]. js_bool.
    destruct d; cbn in *; split_and!; try lia; try done; intros []; cbn; lia.
Qed.

Lemma room_run_ok evs f : Forall (fun ev => match ev with Slide n => slider_value n | _ => True end) evs ->
  room_form_ok f -> room_form_ok (fold_left form_step evs f).
Proof.
  intros He. revert f; induction He as [|ev evs He _ IH]; intros f Hf; [done|]. cbn. by apply IH, room_step_ok.
Qed.

(** *** Pages *)

Lemma page_take {A} k (l : list A) : page_of (S k) l = take problemsPerPage (drop (k * problemsPerPage) l).
Proof. unfold page_of, problemsPerPage. f_equal; [lia|f_equal; lia]. Qed.

Lemma pages_from {A} n k (l : list A) : mjoin ((fun p => page_of p l) <$> seq (S k) n) = take (n * problemsPerPage) (drop (k * problemsPerPage) l).
Proof.
  revert k; induction n as [|n IH]; intros k; [done|]. cbn [seq fmap list_fmap mjoin list_join].
  rewrite page_take, IH. replace (S k * problemsPerPage) with (k * problemsPerPage + problemsPerPage) by lia.
  rewrite <- drop_drop. replace (S n * problemsPerPage) with (problemsPerPage + n * problemsPerPage) by lia.
  by rewrite <- take_take_drop.
Qed.

Lemma pages_enough {A} (l : list A) : length l <= totalPages l * problemsPerPage.
Proof.
  unfold totalPages, problemsPerPage.
  pose proof (Nat.div_mod (length l + (10 - 1)) 10 ltac:(done)). pose proof (Nat.mod_upper_bound (length l + (10 - 1)) 10 ltac:(done)). lia.
Qed.

Lemma next_page {A} (l : list A) k : k < totalPages l -> Nat.iter k (handleNextPage l) 1 = S k.
Proof.
  induction k as [|k IH]; intros Hk; [done|].
  change (handleNextPage l (Nat.iter k (handleNextPage l) 1) = S (S k)). rewrite IH by lia. unfold handleNextPage.
  rewrite (proj2 (Nat.ltb_lt _ _)) by lia. lia.
Qed.

(** *** The dashboard *)

Definition tagged (tags : list string) (p : ProblemItem) : Prop :=
  exists ts, problemTags p = Ok ts /\ forall t, t ∈ tags -> t ∈ ts.

Lemma filter_tagged_spec tags l l' : filter_tagged tags l = Ok l' ->
  sublist l' l /\ forall p, p ∈ l' <-> p ∈ l /\ tagged tags p.
Proof.
  revert l'; induction l as [|p l IH]; intros l' Hl; cbn in Hl.
  { injection Hl as <-. split; [constructor|]. by split; [intros ?%elem_of_nil|intros [?%elem_of_nil _]]. }
  destruct (problemTags p) as [ts|] eqn:Ep; [|done]. cbn in Hl.
  destruct (filter_tagged tags l) as [rest|]; [|done]. cbn in Hl. injection Hl as <-.
  destruct (IH rest eq_refl) as [Hs Hin].
  assert (Hp : forallb (includes ts) tags = true <-> tagged tags p).
  { rewrite forallb_forall. split.
    - intros Hf. exists ts. split; [done|]. intros t Ht. apply includes_spec, Hf. by apply list_elem_of_In.
    - intros (ts' & Hts & Hf) t Ht. rewrite Ep in Hts. injection Hts as <-. apply includes_spec, Hf. by apply list_elem_of_In. }
  destruct (forallb (includes ts) tags) eqn:E.
  - split; [by constructor|]. intros q. rewrite !elem_of_cons, Hin.
    split; [intros [->|[? ?]]; auto; split; [by left|by apply Hp]|intros [[->|?] ?]; auto].
  - split; [by constructor|]. intros q. rewrite elem_of_cons, Hin.
    assert (Hn : ~ tagged tags p) by (intros ?%Hp; congruence).
    split; [intros [? ?]; auto|intros [[->|?] ?]; [by destruct Hn|auto]].
Qed.

(** The last answer that was heard: of the request of the tags on show at its time. *)
Fixpoint last_heard (evs : list DashEvent) (q : string) (live : bool) (heard : option (list ProblemItem)) : option (list ProblemItem) :=
  match evs with
  | [] => heard
  | Typed q' :: evs => last_heard evs q' (live || negb (String.eqb q' q)) heard
  | Answered r :: evs => last_heard evs q false (if live then remote_answer r else heard)
  | _ :: evs => last_heard evs q live heard
  end.

Lemma dash_heard url evs s :
  remoteProblemList (fold_left (dash_step url) evs s) = last_heard evs (tagsQuery s) (fetching s) (remoteProblemList s).
Proof.
  revert s; induction evs as [|[q|r| |] evs IH]; intros s; [done|..]; cbn [fold_left dash_step last_heard]; rewrite IH.
  - destruct (String.eqb_spec q (tagsQuery s)) as [->|Hq]; cbn; by rewrite ?orb_false_r, ?orb_true_r.
  - by destruct (fetching s) eqn:E; cbn; rewrite ?E.
  - done.
  - by destruct (filteredProblemList s).
Qed.

(** *** The live board *)

Lemma insert_entry_perm x l : insert_entry x l ≡ₚ x :: l.
Proof. induction l as [|y l IH]; cbn; [done|]. destruct (p_score y <=? p_score x)%Z; [done|]. rewrite IH. constructor. Qed.

Definition at_least (a b : Participant) : Prop := (p_score b <= p_score a)%Z.

Lemma insert_entry_sorted x l : StronglySorted at_least l -> StronglySorted at_least (insert_entry x l).
Proof.
  induction 1 as [|y l Hl IH Hy]; cbn; [by repeat constructor|].
  destruct (p_score y <=? p_score x)%Z eqn:E; js_bool.
  - constructor; [by constructor|]. constructor; [done|]. eapply Forall_impl; [exact Hy|]. unfold at_least. intros z Hz. lia.
  - constructor; [done|]. rewrite insert_entry_perm. constructor; [unfold at_least; lia|done].
Qed.

(** ** Theorems *)

(** The room form stays well-formed.  Whatever buttons are pressed and wherever the slider is moved, the form
    has between one and ten problems, which are the sum of the three difficulties, none of them negative, and a
    duration of the slider; a press changes the total by one unless that would leave the bounds, and a press that was
    heard is undone by its counterpart. *)
Theorem room_form_typed (evs : list FormEvent) (d : Difficulty) :
  Forall (fun ev => match ev with Slide n => slider_value n | _ => True end) evs ->
  let f := fold_left form_step evs roomFormInit in
  room_form_ok f /\
  (total f < 10 -> total (increment d f) = total f + 1 /\ decrement d (increment d f) = f)%Z /\
  (1 < total f -> 0 < number_of d f -> total (decrement d f) = total f - 1 /\ increment d (decrement d f) = f)%Z.
Proof.
  intros He f. assert (Hf : room_form_ok f).
  { apply room_run_ok; [done|]. unfold room_form_ok. cbn. split_and!; try done. by intros []. }
  split; [done|]. destruct Hf as (Ht & Hb & Hn & _). specialize (Hn d). destruct f as [e m h du t].
  unfold increment, decrement, maxNumberOfProblems, minNumberOfProblems. split; intros Hlt; [|intros Hpos].
  - cbn [total] in *. rewrite (proj2 (Z.leb_gt 10 t)) by lia. destruct d; cbn in *;
      rewrite (proj2 (Z.leb_gt _ 1)), (proj2 (Z.leb_gt _ 0)) by lia; unfold setTotal; cbn; (split; [done|f_equal; lia]).
  - cbn [total] in *. rewrite (proj2 (Z.leb_gt t 1)), (proj2 (Z.leb_gt _ 0)) by lia.
    destruct d; cbn in *; rewrite (proj2 (Z.leb_gt 10 _)) by lia; unfold setTotal; cbn; (split; [done|f_equal; lia]).
Qed.

Lemma room_form_typed_witness :
  let f := fold_left form_step [More Easy; Slide 45; More Hard; Less Easy] roomFormInit in
  room_form_ok f /\ total (increment Medium f) = 3%Z.
Proof.
  intros f. destruct (room_form_typed [More Easy; Slide 45; More Hard; Less Easy] Medium) as (Hf & Hi & _).
  - repeat constructor; cbn; lia.
  - split; [exact Hf|]. exact (proj1 (Hi eq_refl)).
Defined.

(** The pages of a list are the list, every page has at most ten problems, and going on
    from the first reaches each of them. *)
Theorem pages_cover {A} (l : list A) :
  mjoin ((fun p => page_of p l) <$> seq 1 (totalPages l)) = l /\
  (forall p, length (page_of p l) <= problemsPerPage) /\
  (forall k, k < totalPages l -> Nat.iter k (handleNextPage l) 1 = S k).
Proof.
  split; [|split].
  - rewrite (pages_from (totalPages l) 0 l). cbn [Nat.mul]. rewrite drop_0. apply take_ge, pages_enough.
  - intros p. unfold page_of. rewrite length_take. unfold problemsPerPage. lia.
  - intros k. apply next_page.
Qed.

(** The dashboard filters the problems it has.  Whatever is typed and answered in which order, the page asks once for
    every change of the tags; the problems it goes by are those of the last answer to the request of the tags on show
    at its time, or the sample when that one failed; and, unless a problem has a tag that is no text, it shows exactly those that have every
    tag typed, in their order, ten to a page. *)
Theorem dashboard_filtered (url : string) (evs : list DashEvent) :
  let s := dash_run url evs in
  let source := default problemList (last_heard evs "" true None) in
  match filteredProblemList s with
  | Ok l => sublist l source /\ (forall p, p ∈ l <-> p ∈ source /\ (selectedTags (tagsQuery s) = [] \/ tagged (selectedTags (tagsQuery s)) p)) /\
            shown_problems s = Ok (page_of (currentPage s) l)
  | Throw _ => exists p, p ∈ source /\ forall ts, problemTags p <> Ok ts
  end.
Proof.
  intros s source. pose proof (dash_heard url evs (dashboardInit url)) as Hs. fold (dash_run url evs) in Hs. fold s in Hs.
  unfold shown_problems, filteredProblemList. cbn [tagsQuery fetching remoteProblemList dashboardInit] in Hs. rewrite Hs. fold source.
  destruct (selectedTags (tagsQuery s)) as [|t ts] eqn:Et; [split; [done|split; [|done]]; intros p; split; [by auto|by intros [? _]]|].
  destruct (filter_tagged (t :: ts) source) as [l|e] eqn:El.
  - destruct (filter_tagged_spec _ _ _ El) as [H1 H2]. split; [done|]. split; [|done]. intros p. rewrite H2.
    split; [intros [? ?]; auto|intros [? [?|?]]; [discriminate|auto]].
  - clear -El. revert e El. induction source as [|p l IH]; intros e; cbn; [done|].
    destruct (problemTags p) as [x|] eqn:Ep; cbn; [|intros _; exists p; split; [left|by rewrite Ep]].
    destruct (filter_tagged (t :: ts) l) as [|e'] eqn:E; [done|]. intros _.
    destruct (IH e' eq_refl) as (q & Hq & Hn). exists q. split; [by right|done].
Qed.

(** The board shows every participant, the highest score first. *)
Theorem board_sorted (ps : list Participant) : sortedEntries ps ≡ₚ ps /\ StronglySorted at_least (sortedEntries ps).
Proof.
  induction ps as [|p ps [IH1 IH2]]; [by repeat constructor|]. cbn. split; [|by apply insert_entry_sorted].
  by rewrite insert_entry_perm, IH1.
Qed.

(** A form without errors has an address, a name, and twice the same password. *)
Theorem signUp_valid (is_email : string -> bool) (f : SignUp) :
  signUp_errors is_email f = [] <->
  is_email (su_email f) = true /\ 2 <= String.length (su_username f) /\ 6 <= String.length (password f) /\
  password f = confirmPassword f.
Proof.
  destruct f as [e u p c]. unfold signUp_errors. cbn [su_email su_username password confirmPassword]. split.
  - destruct (is_email e); cbn [app]; [|done].
    destruct (String.length u <? 2) eqn:E1; cbn [app]; [done|]. destruct (String.length p <? 6) eqn:E2; cbn [app]; [done|].
    destruct (String.length c <? 6) eqn:E3; cbn [app]; [done|]. destruct (String.eqb_spec p c) as [->|]; [|done].
    apply Nat.ltb_ge in E1, E2. intros _. by split_and!.
  - intros (-> & Hu & Hp & ->). rewrite (proj2 (Nat.ltb_ge _ 2)), (proj2 (Nat.ltb_ge _ 6)) by lia. cbn [app].
    by rewrite String.eqb_refl.
Qed.

(** Who signs in with a name: the name was typed into the field of the address, and nothing of it is left. *)
Lemma login_name_lost : logIn_submit (str_includes "@") (mkLogIn "alice" "" "secret") = mkLogIn "" "" "secret".
Proof. reflexivity. Qed.

(** On the second page a filter that finds one problem shows none. *)
Lemma filtered_page_empty :
  let problem n tag := VObj [("id", VNum n); ("name", VStr "p"); ("tags", VArr [VStr tag])] in
  let s := dash_run "u" [Answered (Reply 1 200 (Some (VObj [("data", VArr (problem 0%Z "array" :: ((fun n => problem (Z.of_nat n) "graph") <$> seq 1 11)))])));
                         NextPage; Typed "array"] in
  (length <$> match filteredProblemList s with Ok l => Some l | Throw _ => None end) = Some 1 /\ shown_problems s = Ok [].
Proof. vm_compute. done. Qed.

(** The gateway has no route for the dashboard's request. *)
Lemma dashboard_unanswered :
  find_route (rooms_routes (mkEnv "" "" "" "" (fun _ => ""))) "GET" [] = None (A := list string * Handler (S := unit)) /\
  find_route (problems_routes (S := unit) (mkEnv "" "" "" "" (fun _ => ""))) "GET" [] = None.
Proof. split; reflexivity. Qed.
