(* ===== verification/WebViews.v ===== *)
(** * The web application as it is rendered

    The dashboard of [apps/web] and the components it shows, the forms of sign-in and
    sign-up, the live statistics and the navigation bar, over the state and the handlers of
    [WebApp.v]; a menu or a dialog of the component library has its content while it is open. *)

From S2P Require Export View WebApp.
Import Web.

Section parts.
Context {E : Type}.

Definition FontAwesomeIcon (icon : string) : View E := El "FontAwesomeIcon" [At "icon" (VStr icon)] [].
Definition Link (href : string) (attrs : list (Attr E)) (children : list (View E)) : View E :=
  El "Link" (At "href" (VStr href) :: attrs) children.

Definition QuickStart : View E := TooltipWrapper "Pick random" [] (Button [] [FontAwesomeIcon "faShuffle"]).

Definition difficulty_item (d : Difficulty) : View E :=
  El "DropdownMenuRadioItem" [At "value" (VStr (difficulty_name d));
      Class (match d with Easy => "text-green-400" | Medium => "text-yellow-400" | Hard => "text-red-400" end)]
    [txt (difficulty_name d)].
Definition DifficultyDropdown (is_open : bool) (position : string) (setPosition : string -> E) : View E :=
  El "DropdownMenu" [] (
    El "DropdownMenuTrigger" [] [div [Button [] [p_ [txt "Difficulty"]; FontAwesomeIcon "faAngleDown"]]] ::
    only is_open [El "DropdownMenuContent" []
      [El "DropdownMenuRadioGroup" [At "value" (VStr position); On "onValueChange" (fun v => setPosition (to_str v))]
         (map difficulty_item [Easy; Medium; Hard])]]).

Definition SearchBar (isFocused : bool) (value placeholder : string) (focus : E) (setIsFocused : bool -> E) (onChange : string -> E) :
    View E :=
  El "div" [Class (if isFocused then "ring-2" else "")] [
    Button [onClick focus] [FontAwesomeIcon "faMagnifyingGlass"];
    El "input" [On "onFocus" (fun _ => setIsFocused true); On "onBlur" (fun _ => setIsFocused false);
                At "value" (VStr value); On "onChange" (fun v => onChange (to_str v)); At "placeholder" (VStr placeholder)] []].

(** *** Topics *)

Record TopicItem := mkTopic { t_name : string; numberOfProblems : Z; isSelected : bool }.

(** [isTopicSelected] and the handler of [useTopic] *)
Definition Topic (isTopicSelected : bool) (topic : TopicItem) (press : E) : View E :=
  Button [Class (if isTopicSelected then "bg-primary" else "bg-inputBackground"); onClick press]
    [span [txt (t_name topic)];
     El "span" [Class (if isTopicSelected then "bg-white" else "bg-gray-300")] [num_txt (numberOfProblems topic)]].

(** [selected i]: the state of the [i]-th topic; the button is there if there are more topics than [maxVisible]. *)
Definition TopicList (maxVisible : nat) (expanded : bool) (topics : list TopicItem) (selected : nat -> bool) (press : nat -> E) (toggle : E) :
    View E :=
  div [div (imap (fun i topic => Topic (selected i) topic (press i)) (visibleTopics maxVisible expanded topics) ++
            only (has_toggle maxVisible topics)
              [TooltipWrapper (if expanded then "Show less" else "Show more") []
                 (Button [onClick toggle] [FontAwesomeIcon (if expanded then "faAnglesUp" else "faAnglesDown")])])].

(** *** Problems *)

Definition difficultyColorClass (d : Difficulty) : string :=
  match d with Easy => "text-green-400" | Medium => "text-yellow-400" | Hard => "text-red-400" end.

Definition problem_item (p : ProblemItem) : View E :=
  Link ("/apps/web/app/problem/" +:+ pi_id p) [] [
    div [div [txt (problem_title p)]; div (map (fun tag => El "span" [] [Text tag]) (displayTags p));
         div [txt (z_str (acceptance p) +:+ "%")];
         El "div" [Class (difficultyColorClass (pi_difficulty p))] [txt (difficulty_name (pi_difficulty p))]]].

Definition problem_list_head (prev next : E) : list (View E) := [
  div [p_ [txt "Problems"];
       div [TooltipWrapper "Previous" [] (Button [onClick prev] [FontAwesomeIcon "faAngleLeft"]);
            TooltipWrapper "Next" [] (Button [onClick next] [FontAwesomeIcon "faAngleRight"])]];
  div [p_ [txt "Title"]; p_ [txt "Tags"]; p_ [txt "Acceptance"]; p_ [txt "Difficulty"]]].
(** The component keeps its own page, [currentPage]; the prop [page] is not used. *)
Definition ProblemList (problems : list ProblemItem) (currentPage : nat) (prev next : E) : View E :=
  div (problem_list_head prev next ++ [div (map problem_item (page_of currentPage problems))]).

(** *** Rooms *)

Definition room_item (r : RoomItem) : View E :=
  Link ("/apps/web/app/problem/" +:+ ri_id r) [] [div [txt (room_title r); p_ [txt (room_members r)]]].

Definition RoomList (rooms : list RoomItem) (createRoom : View E) : View E :=
  div [div [p_ [txt "Rooms"]; createRoom]; div (map room_item rooms)].
End parts.

(** ** createRoom/createRoom.tsx *)

(** What the dialog does; opening and closing it is the library's. *)
Inductive DialogAct := Forming (ev : FormEvent) | PressTopic (i : nat) | SubmitRoom.

Definition arrays : TopicItem := mkTopic "Arrays" 214 false.
Definition room_topics : list TopicItem := replicate 16 arrays.

Definition count_label {E} (d : Difficulty) (n : Z) : View E :=
  div [El "Label" [] [txt (difficulty_name d)]; El "Label" [] [txt "x"; num_txt n]].
(** The buttons of [IncDecButtons.tsx]: what they pass on is not looked at. *)
Definition step_buttons (d : Difficulty) : View DialogAct :=
  div [Button [onClick (Forming (Less d))] [FontAwesomeIcon "faChevronDown"];
       Button [onClick (Forming (More d))] [FontAwesomeIcon "faChevronUp"]].

Definition CreateRoom (is_open : bool) (f : RoomForm) (selected : nat -> bool) : View DialogAct :=
  El "Dialog" [] (
    El "DialogTrigger" [] [Button [] [span [txt "Create"]; FontAwesomeIcon "faPlus"]] ::
    only is_open [El "DialogContent" [] [
      El "DialogHeader" [] [El "DialogTitle" [] [txt "Create Room"];
                            El "DialogDescription" [] [txt "Customize your room settings (Max: 10)."]];
      div (map (fun d => div [count_label d (number_of d f); step_buttons d]) [Easy; Medium; Hard] ++ [
        div [El "Label" [] [txt "Select Topics"];
             El "ScrollArea" [] [div (imap (fun i topic => Topic (selected i) topic (PressTopic i)) room_topics)]];
        div [El "Label" [] [txt "Duration: "; num_txt (form_duration f); txt " mins"];
             El "Slider" [At "min" (VNum 5); At "max" (VNum 120); At "step" (VNum 5); At "value" (VArr [VNum (form_duration f)]);
                          On "onValueChange" (fun v => Forming (Slide (first_num v)))] []]]);
      El "DialogFooter" [] [Button [onClick SubmitRoom] [txt "Create"]]]]).

(** ** dashboard/page.tsx *)

Definition topics : list TopicItem := replicate 11 arrays.
Definition roomList : list RoomItem :=
  map (fun n => mkRoomItem (z_str (Z.of_nat n)) (replicate 3 "Two Sum") (replicate 4 "Jessica Choi")) (seq 1 10).

Inductive WebAct :=
| Filtering (ev : DashEvent)
| Focus
| SetFocused (b : bool)
| PickDifficulty (d : string)
| PressTopicOf (i : nat)
| ToggleTopics
| InDialog (a : DialogAct).

(** The states of the components on the page *)
Record DashUi := mkDashUi {
  du_focused : bool;
  du_difficulty : string;
  du_menu : bool;
  du_expanded : bool;
  du_selected : nat -> bool;
  du_dialog : bool;
  du_form : RoomForm;
  du_roomTopics : nat -> bool;
}.

(** What comes before and after the problems in the document *)
Definition dash_header (ui : DashUi) (tagsQuery : string) : list (View WebAct) := [
  div [SearchBar (du_focused ui) tagsQuery "Filter by tags (e.g. Array, Hash Table)" Focus SetFocused (fun q => Filtering (Typed q));
       DifficultyDropdown (du_menu ui) (du_difficulty ui) PickDifficulty;
       QuickStart];
  TopicList 5 (du_expanded ui) topics (du_selected ui) PressTopicOf ToggleTopics].
Definition dash_rooms (ui : DashUi) : View WebAct :=
  div [RoomList roomList (map_view InDialog (CreateRoom (du_dialog ui) (du_form ui) (du_roomTopics ui)))].

Definition DashboardView (ui : DashUi) (s : Dashboard) : Res (View WebAct) :=
  problems ← filteredProblemList s;
  Ok (div [div (dash_header ui (tagsQuery s) ++ [ProblemList problems (currentPage s) (Filtering PrevPage) (Filtering NextPage)]);
           dash_rooms ui]).

(** ** signUpForm.tsx, logInForm.tsx *)

(** A [Link] of next goes to its page when it is clicked, and takes the click from what is in it. *)
Inductive AuthAct :=
| Fill (field : string) (v : Val)
| SubmitForm
| FollowLink (href : string)
| PressProvider (icon : string).

Section auth_forms.
(** The messages on show, by field *)
Context (errors : list (string * string)).

Definition error_of (field : string) : list (View AuthAct) :=
  match list_find (fun kv => kv.1 = field) errors with
  | Some (_, (_, m)) => [El "FormMessage" [] [txt m]]
  | None => []
  end.
Definition form_field (name label type placeholder value : string) : View AuthAct :=
  El "FormItem" [] ([El "FormLabel" [] [txt label];
    El "FormControl" [] [El "input" [At "type" (VStr type); At "placeholder" (VStr placeholder); At "name" (VStr name);
                                     At "value" (VStr value); On "onChange" (fun v => Fill name v)] []]] ++ error_of name).

Definition provider_button (icon : string) : View AuthAct := Button [onClick (PressProvider icon)] [FontAwesomeIcon icon].
Definition follow (href : string) (children : list (View AuthAct)) : View AuthAct := Link href [onClick (FollowLink href)] children.
Definition or_line : View AuthAct := div [El "Separator" [] []; p_ [txt "or"]; El "Separator" [] []].
Definition submit_button : View AuthAct := Button [At "type" (VStr "submit"); onClick SubmitForm] [txt "Continue"].

Definition SignUpForm (f : SignUp) : View AuthAct :=
  El "form" [On "onSubmit" (fun _ => SubmitForm)] [div [
    div [p_ [txt "Sign Up"]];
    form_field "email" "Email" "text" "Enter email..." (su_email f);
    form_field "username" "Username" "text" "Enter username..." (su_username f);
    form_field "password" "Password" "text" "Enter password..." (password f);
    form_field "confirmPassword" "Confirm Password" "text" "Confirm password..." (confirmPassword f);
    follow "/dashboard" [Button [At "type" (VStr "submit")] [txt "Continue"]];
    div [p_ [txt "Already have an account?"]; follow "/auth/logIn" [p_ [txt "Log In"]]];
    or_line;
    div [provider_button "faGoogle"; provider_button "faGithub"]]].

(** The field of the name renders nothing. *)
Definition LogInForm (f : LogIn) : View AuthAct :=
  El "form" [On "onSubmit" (fun _ => SubmitForm)] [div [
    div [p_ [txt "Log In"]];
    form_field "email" "Email/Username" "text" "Enter email/username" (li_email f);
    form_field "password" "Password" "password" "Enter password..." (li_password f);
    submit_button;
    div [p_ [txt "Don't have an account?"]; follow "/auth/signUp" [p_ [txt "Sign Up"]]];
    or_line;
    div [provider_button "faGoogle"; provider_button "faGithub"; provider_button "faDiscord"]]].
End auth_forms.

(** ** liveStatistics *)

Record Problem := mkProblem { pr_id : Z; pr_title : string; pr_difficulty : Z; pr_tags : list string }.

Section live.
Context {E : Type}.

(** [name[0]?.toUpperCase()] *)
Definition first_letter (name : string) : list (View E) :=
  match name with String a _ => [txt (to_upper (String a ""))] | EmptyString => [] end.
Definition avatar_of (p : Participant) : View E :=
  El "Avatar" [] [El "AvatarImage" [At "src" (of_opt (p_avatarUrl p))] [];
                  El "AvatarFallback" [At "color" (VStr (p_defaultColor p))] (first_letter (p_username p))].

Definition medal (i : nat) : View E :=
  El "TableCell" [] [txt (match i with 0 => "🥇" | 1 => "🥈" | 2 => "🥉" | _ => z_str (Z.of_nat i + 1) +:+ "th" end)].
Definition LiveLeaderboard (participants : list Participant) : View E :=
  div [El "h2" [] [txt "Leaderboard"];
       El "ScrollArea" [] [El "Table" [] [El "TableBody" []
         (imap (fun i p => El "TableRow" [] [medal i; El "TableCell" [] [avatar_of p; txt (p_username p)];
                                             El "TableCell" [] [num_txt (p_score p)]]) (sortedEntries participants))]]].

Definition cell (s : string) : View E := El "TableCell" [] [txt s].
Definition stats_row (who : string) : View E := El "TableRow" [] [cell who; cell "--:--"; cell "N/A"; cell "N/A"; cell "N/A"].

Definition ProblemStatistics (problem : Problem) (solving submitted : list Participant) : View E :=
  div [
    div [div (El "h2" [] [num_txt (pr_id problem); txt ". "; txt (pr_title problem)] ::
              only (pr_difficulty problem =? 0)%Z [El "h2" [] [txt "Easy"]] ++
              only (pr_difficulty problem =? 1)%Z [El "h2" [] [txt "Medium"]] ++
              only (pr_difficulty problem =? 2)%Z [El "h2" [] [txt "Hard"]]);
         div (map (fun tag => div [txt tag]) (pr_tags problem))];
    div [div [El "h3" [] [txt "Solving ("; num_txt (Z.of_nat (length solving)); txt ")"];
              El "ScrollArea" [] [div (map avatar_of solving)]];
         div [El "h3" [] [txt "Submitted ("; num_txt (Z.of_nat (length submitted)); txt ")"];
              El "ScrollArea" [] [div (map avatar_of submitted)]]];
    El "ScrollArea" [] [El "Table" [] [
      El "TableHeader" [] [El "TableRow" [] [El "TableHead" [] []; El "TableHead" [] [txt "Solve Time"]; El "TableHead" [] [txt "Runtime (%)"];
        El "TableHead" [] [txt "Memory (%)"]; El "TableHead" [] [txt "Score"; FontAwesomeIcon "faCircleQuestion"]]];
      El "TableBody" [] (map stats_row ["You"; "Avg"; "Best"])]]].
End live.

Inductive LiveAct := SelectProblem (i : nat) | StepBack | StepOn.

(** The ring of a problem's button: bright when it is completed. *)
Definition ring (completed : bool) (difficulty : Z) : string :=
  let shade := if completed then "500" else "800" in
  (if (difficulty =? 0)%Z then "border-green-" else if (difficulty =? 1)%Z then "border-yellow-" else "border-red-") +:+ shade.
Definition problem_button (selectedProblem : nat) (completedProblem : Z) (i : nat) (problem : Problem) : View LiveAct :=
  Button [onClick (SelectProblem i); Class (ring (Z.of_nat i <=? completedProblem)%Z (pr_difficulty problem));
          Class (if i =? selectedProblem then "drop-shadow" else "")] [].

(** [problems[selectedProblem]] is read when the statistics render. *)
Definition LiveStatistics (participants : list Participant) (problems : list Problem) (selectedProblem : nat) (completedProblem : Z) :
    Res (View LiveAct) :=
  match problems !! selectedProblem with
  | None => Throw type_error
  | Some problem =>
      Ok (div [
        div [Button [onClick StepBack] [FontAwesomeIcon "faAngleLeft"]; Button [onClick StepOn] [FontAwesomeIcon "faAngleRight"]];
        div (imap (problem_button selectedProblem completedProblem) problems ++ [div []]);
        ProblemStatistics problem (solving (Z.of_nat selectedProblem) participants) (submitted_by (Z.of_nat selectedProblem) participants);
        LiveLeaderboard participants])
  end.

(** ** navbar.tsx, Logo.tsx *)

Inductive NavAct := Nav (ev : NavEvent) | ClickLogo | GoTo (href : string).

Definition Logo {E} : View E := p_ [txt "BSG_"].
Definition nav_link (href label : string) : View NavAct :=
  El "NavigationMenuLink" [At "href" (VStr href); onClick (GoTo href)] [txt label].
(** [scrollY] is where the page is scrolled to; a bar that is hidden is transparent. *)
Definition Navbar (isLandingPage isHidden : bool) (scrollY : Z) : View NavAct :=
  El "nav" [On "onMouseEnter" (fun _ => Nav MouseEntered); On "onMouseLeave" (fun _ => Nav (MouseLeft scrollY));
            Class (if isLandingPage && isHidden then "opacity-0" else "opacity-100")] [
    div [El "div" [onClick ClickLogo] [Logo];
         El "NavigationMenu" [] [nav_link "#three-columns" "About"; nav_link "#coming-soon" "Upcoming";
                                 nav_link "/contact" "Contact"; nav_link "/auth/signUp" "Sign Up"]]].

(** ** Lemmas *)

(** What the row of a problem reads. *)
Definition item_texts (p : ProblemItem) : list Val :=
  VStr (problem_title p) :: displayTags p ++ [VStr (z_str (acceptance p) +:+ "%"); VStr (difficulty_name (pi_difficulty p))].

Lemma problem_item_texts {E} p : texts (problem_item p : View E) = item_texts p.
Proof.
  unfold problem_item, item_texts. destruct (pi_difficulty p); view_simpl;
    (rewrite (flat_map_map _ texts (fun tag => [tag])); [|by apply Forall_true]);
    f_equal; rewrite ?app_nil_r; induction (displayTags p) as [|t ts IH]; cbn; by rewrite ?IH.
Qed.

Lemma problem_list_texts {E} l k (prev next : E) : texts (ProblemList l k prev next) =
  [VStr "Problems"; VStr "Title"; VStr "Tags"; VStr "Acceptance"; VStr "Difficulty"] ++ flat_map item_texts (page_of k l).
Proof.
  unfold ProblemList, problem_list_head. view_simpl. rewrite !app_nil_r. do 5 f_equal.
  apply flat_map_map, Forall_true. intros p. apply problem_item_texts.
Qed.

Section dash_lemmas.
Context (ui : DashUi) (q : string).

Lemma topic_unnamed {E} l b t (e : E) : String.eqb l (t_name t) = false -> unnamed l (Topic b t e).
Proof.
  intros Hl. unfold unnamed, Topic. destruct b; view_simpl; constructor; [|done| |done]; unfold named; cbn; by rewrite Hl.
Qed.

Lemma topic_list_unnamed l : l ∈ ["Previous"; "Next"] -> unnamed l (TopicList 5 (du_expanded ui) topics (du_selected ui) PressTopicOf ToggleTopics).
Proof.
  intros Hl. unfold TopicList. change (has_toggle 5 topics) with true. unfold only.
  apply unnamed_el; [done|by left|]. constructor; [|done]. apply unnamed_el; [done|by left|]. apply Forall_app_2.
  - apply Forall_lookup. intros i v (t & Ht & ->)%list_lookup_imap_Some. apply topic_unnamed.
    assert (Ha : t = arrays).
    { assert (He : t ∈ topics) by (unfold visibleTopics in Ht; destruct (du_expanded ui); [|rewrite lookup_take in Ht; case_decide; [|done]];
        eapply list_elem_of_lookup_2; exact Ht). unfold topics in He. by apply elem_of_replicate in He as [-> _]. }
    subst t. repeat (apply elem_of_cons in Hl as [->|Hl]; [done|]). by apply not_elem_of_nil in Hl.
  - constructor; [|done]. repeat (apply elem_of_cons in Hl as [->|Hl]; [by destruct (du_expanded ui); repeat constructor|]).
    by apply not_elem_of_nil in Hl.
Qed.

Lemma header_unnamed l : l ∈ ["Previous"; "Next"] -> Forall (unnamed l) (dash_header ui q).
Proof.
  intros Hl. unfold dash_header. constructor; [|constructor; [by apply topic_list_unnamed|done]].
  repeat (apply elem_of_cons in Hl as [->|Hl];
    [unfold SearchBar, DifficultyDropdown; destruct (du_focused ui), (du_menu ui); repeat constructor|]).
  by apply not_elem_of_nil in Hl.
Qed.
End dash_lemmas.

Lemma find_skip {E} l (hs : list (View E)) rest : Forall (unnamed l) hs ->
  List.find (named [l]) (flat_map controls hs ++ rest) = List.find (named [l]) rest.
Proof. apply unnamed_find. Qed.

(** The dashboard around its problems *)
Lemma dashboard_parts ui s l v : filteredProblemList s = Ok l -> DashboardView ui s = Ok v ->
  texts v = flat_map texts (dash_header ui (tagsQuery s)) ++
    texts (ProblemList l (currentPage s) (Filtering PrevPage) (Filtering NextPage)) ++ texts (dash_rooms ui) /\
  controls v = flat_map controls (dash_header ui (tagsQuery s)) ++
    controls (ProblemList l (currentPage s) (Filtering PrevPage) (Filtering NextPage)) ++ controls (dash_rooms ui).
Proof.
  intros Hl. unfold DashboardView, mbind, res_bind. rewrite Hl. intros Hv.
  assert (v = div [div (dash_header ui (tagsQuery s) ++
    [ProblemList l (currentPage s) (Filtering PrevPage) (Filtering NextPage)]); dash_rooms ui]) as -> by congruence. clear Hv.
  generalize (dash_header ui (tagsQuery s)), (ProblemList l (currentPage s) (Filtering PrevPage) (Filtering NextPage)), (dash_rooms ui).
  intros hs pl rooms. split.
  - transitivity ((flat_map texts (hs ++ [pl])) ++ texts rooms ++ []); [reflexivity|]. rewrite flat_map_app. cbn. by rewrite !app_nil_r, <- app_assoc.
  - transitivity ((flat_map controls (hs ++ [pl])) ++ controls rooms ++ []); [reflexivity|]. rewrite flat_map_app. cbn. by rewrite !app_nil_r, <- app_assoc.
Qed.

Lemma page_buttons {E} l k (prev next : E) post : 
  (exists c, List.find (named ["Previous"]) (controls (ProblemList l k prev next) ++ post) = Some c /\ operate c "onClick" VUndef = Some prev) /\
  (exists c, List.find (named ["Next"]) (controls (ProblemList l k prev next) ++ post) = Some c /\ operate c "onClick" VUndef = Some next).
Proof. split; eexists; split; reflexivity. Qed.

Lemma page_has {A} (l : list A) i x : l !! i = Some x -> x ∈ page_of (Nat.iter (i / 10) (handleNextPage l) 1) l.
Proof.
  intros Hi. pose proof (lookup_lt_Some _ _ _ Hi) as Hlt. pose proof (pages_enough l) as He. unfold problemsPerPage in He.
  pose proof (Nat.div_mod i 10 ltac:(done)) as Hd. pose proof (Nat.mod_upper_bound i 10 ltac:(done)) as Hm.
  rewrite next_page by lia. rewrite page_take. unfold problemsPerPage.
  apply list_elem_of_lookup. exists (i mod 10). rewrite lookup_take, decide_True by lia. rewrite lookup_drop.
  replace (i / 10 * 10 + i mod 10) with i by lia. done.
Qed.

(** *** The pages of the dashboard *)

(** The tags of the problems in an answer are texts: the service lists strings. *)
Definition is_text (v : Val) : Prop := exists t, v = VStr t.
Definition text_tags (ev : DashEvent) : Prop :=
  match ev with
  | Answered r => forall l, remote_answer r = Some l -> Forall (fun p => Forall is_text (default [] (pi_tags p))) l
  | _ => True
  end.

(** A problem that can be compared and rendered. *)
Definition readable (p : ProblemItem) : Prop := Forall is_text (displayTags p) /\ exists ts, problemTags p = Ok ts.

Lemma lower_texts l : Forall is_text l -> exists ts, res_map lower_tag l = Ok ts.
Proof.
  induction 1 as [|v l (t & ->) _ (ts & IH)]; [by exists []|]. exists (to_lower t :: ts). cbn. unfold mbind, res_bind. by rewrite IH.
Qed.

Lemma tags_readable p : Forall is_text (default [] (pi_tags p)) -> (truthy (topic p) = true -> is_text (topic p)) -> readable p.
Proof.
  intros Ht Hp. split.
  - unfold displayTags. destruct (pi_tags p) as [[|t ts]|]; cbn in Ht; [|done|]; destruct (truthy (topic p)); repeat constructor; auto.
  - apply lower_texts, Forall_app. split; [done|]. destruct (truthy (topic p)); repeat constructor; auto.
Qed.

Lemma answered_readable r l : remote_answer r = Some l -> text_tags (Answered r) -> Forall readable l.
Proof.
  intros Hl Ht. specialize (Ht l Hl). assert (Hr : Forall (fun p => exists v, p = remote_problem v) l).
  { destruct r as [d st [payload|]|]; cbn [remote_answer] in Hl; repeat case_match; simplify_eq. rewrite Forall_fmap. apply Forall_true. by eexists. }
  revert Hr. clear Hl. induction Ht as [|p l Hp _ IH]; intros Hr; [done|]. apply Forall_cons in Hr as [[v ->] Hr].
  constructor; [|by apply IH]. apply tags_readable; [done|]. unfold remote_problem in *. cbn in *.
  destruct (get_opt v "tags") as [| | | | |[|t ts]|]; cbn in *; try done. intros _. by apply Forall_cons in Hp as [? _].
Qed.

Lemma heard_readable evs q live heard : Forall text_tags evs -> Forall readable (default [] heard) ->
  Forall readable (default [] (last_heard evs q live heard)).
Proof.
  intros He. revert q live heard; induction He as [|ev evs Hev _ IH]; intros q live heard Hh; [done|].
  destruct ev as [q'|r| |]; cbn [last_heard]; apply IH; try done.
  destruct live; [|done]. destruct (remote_answer r) as [l|] eqn:El; [|constructor]. by apply (answered_readable r).
Qed.

Lemma source_readable evs : Forall text_tags evs -> Forall readable (default problemList (last_heard evs "" true None)).
Proof.
  intros He. pose proof (heard_readable evs "" true None He (Forall_nil_2 _)) as Hr.
  destruct (last_heard evs "" true None) as [l|]; [done|]. cbn [default].
  unfold problemList. rewrite Forall_fmap. apply Forall_true. intros n. apply tags_readable; cbn; [constructor|]. by exists "hashmap".
Qed.

(** A press of a page's button leaves the problems. *)
Lemma filtered_ext s s' : tagsQuery s' = tagsQuery s -> remoteProblemList s' = remoteProblemList s ->
  filteredProblemList s' = filteredProblemList s.
Proof. intros Hq Hr. unfold filteredProblemList. by rewrite Hq, Hr. Qed.

Lemma prev_page url s : currentPage (dash_step url s PrevPage) = handlePrevPage (currentPage s).
Proof. done. Qed.

Lemma prev_steps url n s : 1 <= currentPage s ->
  let s' := fold_left (dash_step url) (replicate n PrevPage) s in
  currentPage s' = Nat.max 1 (currentPage s - n) /\ filteredProblemList s' = filteredProblemList s.
Proof.
  revert s; induction n as [|n IH]; intros s Hs; cbn [replicate fold_left]; [by split; [lia|]|].
  set (s1 := dash_step url s PrevPage). assert (H1 : currentPage s1 = Nat.max 1 (currentPage s - 1)).
  { cbn. unfold handlePrevPage. destruct (Nat.ltb_spec 1 (currentPage s)); lia. }
  destruct (IH s1) as [H2 H3]; [lia|]. cbv zeta. rewrite H2, H3. split; [lia|by apply filtered_ext].
Qed.

Lemma more_pages {A} (l : list A) k : (k <? totalPages l) = (k * 10 <? length l).
Proof.
  unfold totalPages, problemsPerPage. apply eq_true_iff_eq. rewrite !Nat.ltb_lt.
  pose proof (Nat.div_mod (length l + (10 - 1)) 10 ltac:(done)). pose proof (Nat.mod_upper_bound (length l + (10 - 1)) 10 ltac:(done)). lia.
Qed.

Lemma next_steps url n l s : filteredProblemList s = Ok l ->
  let s' := fold_left (dash_step url) (replicate n NextPage) s in
  currentPage s' = Nat.iter n (handleNextPage l) (currentPage s) /\ filteredProblemList s' = Ok l.
Proof.
  revert s; induction n as [|n IH]; intros s Hl; cbn [replicate fold_left]; [done|]. cbn [dash_step]. rewrite Hl.
  rewrite Nat.iter_succ_r. by apply IH; rewrite <- Hl; apply filtered_ext.
Qed.

(** The page is at least the first. *)
Lemma page_positive url evs : 1 <= currentPage (dash_run url evs).
Proof.
  unfold dash_run. assert (H1 : 1 <= currentPage (dashboardInit url)) by (cbn; lia). revert H1.
  generalize (dashboardInit url). induction evs as [|ev evs IH]; intros s Hs; [done|]. cbn [fold_left]. apply IH.
  destruct ev as [q|r| |]; cbn [dash_step].
  - by destruct (String.eqb _ _).
  - by destruct (fetching s).
  - cbn. unfold handlePrevPage. destruct (Nat.ltb_spec 1 (currentPage s)); lia.
  - destruct (filteredProblemList s); [|done]. cbn. unfold handleNextPage. destruct (_ <? _); lia.
Qed.

(** Back to the first page, then on: every problem gets its turn. *)
Lemma problem_reached url s l i p : 1 <= currentPage s -> filteredProblemList s = Ok l -> l !! i = Some p ->
  exists ps, shown_problems (fold_left (dash_step url) (replicate (currentPage s) PrevPage ++ replicate (i / 10) NextPage) s) = Ok ps /\ p ∈ ps.
Proof.
  intros Hs Hl Hi. rewrite fold_left_app. destruct (prev_steps url (currentPage s) s Hs) as [H1 H2]. rewrite Nat.sub_diag in H1.
  rewrite Hl in H2. destruct (next_steps url (i / 10) l _ H2) as [H3 H4]. rewrite H1 in H3.
  unfold shown_problems, mbind, res_bind. rewrite H4, H3. eexists. split; [done|]. by apply page_has.
Qed.

(** ** Theorems *)

(** C38: The dashboard shows the problems it filters.  Whatever is typed, answered and pressed in which order, and whatever else on the
    page is open, while the tags that the service answers are texts (what React refuses to render, and has no lower case, is not among
    them) the page renders; what can be read on it is its
    header, then the title, the tags, the acceptance and the difficulty of at most ten problems, in order, and the rooms;
    the problems are those of the last answer to the request of the tags on show at its time (the sample when that one failed) that have
    every tag typed; and the buttons with the tips Previous and Next turn the pages of these problems: Next goes one page on while
    there are problems behind the page, Previous one page back until the first, and by pressing first the one and then the other
    every problem comes on the page. *)
Theorem dashboard_on_screen (url : string) (evs : list DashEvent) (ui : DashUi) :
  Forall text_tags evs ->
  let s := dash_run url evs in
  let source := default problemList (last_heard evs "" true None) in
  exists v l, DashboardView ui s = Ok v /\ sublist l source /\
    (forall p, p ∈ l <-> p ∈ source /\ (selectedTags (tagsQuery s) = [] \/ tagged (selectedTags (tagsQuery s)) p)) /\
    texts v = flat_map texts (dash_header ui (tagsQuery s)) ++
      [VStr "Problems"; VStr "Title"; VStr "Tags"; VStr "Acceptance"; VStr "Difficulty"] ++
      flat_map item_texts (page_of (currentPage s) l) ++ texts (dash_rooms ui) /\
    length (page_of (currentPage s) l) <= 10 /\
    (forall p, p ∈ l -> Forall is_text (item_texts p)) /\
    click ["Previous"] v = Some (Filtering PrevPage) /\ click ["Next"] v = Some (Filtering NextPage) /\
    currentPage (dash_step url s NextPage) = (if currentPage s * 10 <? length l then currentPage s + 1 else currentPage s) /\
    currentPage (dash_step url s PrevPage) = (if 1 <? currentPage s then currentPage s - 1 else 1) /\
    (forall i p, l !! i = Some p -> exists ps, p ∈ ps /\
       shown_problems (fold_left (dash_step url) (replicate (currentPage s) PrevPage ++ replicate (i / 10) NextPage) s) = Ok ps).
Proof.
  intros He s source. pose proof (dashboard_filtered url evs) as Hf. cbv zeta in Hf. fold s source in Hf.
  pose proof (source_readable evs He) as Hr. fold source in Hr. rewrite Forall_forall in Hr.
  destruct (filteredProblemList s) as [l|e] eqn:Hl; [|destruct Hf as (p & Hp & Hn); destruct (Hr p Hp) as (_ & ts & Hts); by destruct (Hn ts)].
  destruct Hf as (H1 & H2 & _). destruct (DashboardView ui s) as [v|e] eqn:Hv.
  2:{ unfold DashboardView, mbind, res_bind in Hv. by rewrite Hl in Hv. }
  destruct (dashboard_parts ui s l v Hl Hv) as [Ht Hc]. destruct (pages_cover l) as (_ & Hlen & _).
  pose proof (page_positive url evs) as Hpos. fold s in Hpos.
  exists v, l. split; [done|]. split; [done|]. split; [done|]. split; [by rewrite Ht, problem_list_texts, <- !app_assoc|].
  split; [apply Hlen|]. split.
  { intros p [Hp _]%H2. destruct (Hr p Hp) as [Hd _]. unfold item_texts. constructor; [by eexists|]. apply Forall_app. split; [done|].
    repeat constructor; by eexists. }
  unfold click. rewrite Hc, !find_skip by (apply header_unnamed; set_solver).
  destruct (page_buttons l (currentPage s) (Filtering PrevPage) (Filtering NextPage) (controls (dash_rooms ui)))
    as [(c1 & E1 & O1) (c2 & E2 & O2)].
  rewrite E1, E2. cbn [mbind option_bind]. rewrite O1, O2. split; [done|]. split; [done|].
  split; [cbn [dash_step]; rewrite Hl; cbn [currentPage]; unfold handleNextPage; by rewrite more_pages|].
  split; [rewrite prev_page; unfold handlePrevPage; clear -Hpos; clearbody s; destruct (Nat.ltb_spec 1 (currentPage s)); lia|].
  intros i p Hi. destruct (problem_reached url s l i p Hpos Hl Hi) as (ps & Hps & Hin). by exists ps.
Qed.

(** Twelve problems are answered: the last is on the second page, and Previous leads back. *)
Lemma dashboard_on_screen_witness :
  let problem n := VObj [("id", VNum n); ("name", VStr "p"); ("tags", VArr [VStr "graph"])] in
  let evs := [Answered (Reply 1 200 (Some (VObj [("data", VArr ((fun n => problem (Z.of_nat n)) <$> seq 1 12))]))); NextPage] in
  let ui := mkDashUi false "Easy" false false (fun _ => false) false roomFormInit (fun _ => false) in
  let s := dash_run "u" evs in
  exists v, DashboardView ui s = Ok v /\ currentPage s = 2 /\ click ["Previous"] v = Some (Filtering PrevPage) /\
    currentPage (dash_step "u" s PrevPage) = 1.
Proof.
  intros problem evs ui s. destruct (dashboard_on_screen "u" evs ui) as (v & l & Hv & _ & _ & _ & _ & _ & Hc & _ & _ & Hp & _).
  - repeat constructor. intros l [= <-]. repeat constructor; by eexists.
  - exists v. split; [exact Hv|]. split; [reflexivity|]. split; [exact Hc|]. exact Hp.
Defined.

(** *** The dialog of a new room *)

Section dialog.
Context `{WidgetLaws}.

(** The user operates something in the open dialog. *)
Inductive dialog_happens : RoomForm -> RoomForm -> Prop :=
| in_dialog f selected ev : offers (CreateRoom true f selected) (Forming ev) -> dialog_happens f (form_step f ev).

Definition slides (tag : string) (attrs : list (Attr DialogAct)) (h : Val -> DialogAct) : Prop :=
  forall x, emits tag attrs x -> match h x with Forming (Slide n) => slider_value n | _ => True end.

Lemma dialog_handlers f selected : all_handlers slides (CreateRoom true f selected).
Proof.
  unfold CreateRoom, step_buttons, count_label, FontAwesomeIcon. cbn [only map app]. all_handlers_tac; try (intros x _; exact I).
  - apply Forall_lookup. intros i v (t & _ & ->)%list_lookup_imap_Some. unfold Topic. all_handlers_tac; intros x _; exact I.
  - intros x Hx. destruct (slider_emits _ _ _ Hx) as (v & lo & hi & st & Hlo & Hhi & Hst & -> & Hr & Hm).
    cbv in Hlo, Hhi, Hst. injection Hlo as <-. injection Hhi as <-. injection Hst as <-. split; [cbn; lia|].
    cbn [first_num]. rewrite <- (Z.sub_add 5 v), <- Z.add_mod_idemp_l, Hm; [done|lia].
Qed.

(** What is done in the dialog is a run of the form. *)
Lemma dialog_run f : rtc dialog_happens roomFormInit f ->
  exists evs, Forall (fun ev => match ev with Slide n => slider_value n | _ => True end) evs /\ f = fold_left form_step evs roomFormInit.
Proof.
  revert f. apply (rtc_ind_r (fun f => exists evs, Forall (fun ev => match ev with Slide n => slider_value n | _ => True end) evs /\
    f = fold_left form_step evs roomFormInit)); [by exists []|].
  intros f1 f2 _ [f selected ev Ho] (evs & Hevs & ->).
  destruct (offers_handler _ _ _ (dialog_handlers _ selected) Ho) as (tag & attrs & h & x & Hq & Hx & He).
  pose proof (Hq x Hx) as Hs. rewrite <- He in Hs. exists (evs ++ [ev]). split; [|by rewrite fold_left_app].
  apply Forall_app. split; [done|]. by constructor.
Qed.
End dialog.

(** The line of a difficulty in the dialog, and its two buttons among what can be operated there *)
Definition line_of (d : Difficulty) : nat := match d with Easy => 0 | Medium => 1 | Hard => 2 end.
Definition lower_button (d : Difficulty) : nat := 2 * line_of d.
Definition upper_button (d : Difficulty) : nat := 2 * line_of d + 1.

(** The form after a click on the [k]th control of the open dialog *)
Definition pressed (selected : nat -> bool) (k : nat) (f : RoomForm) : option RoomForm :=
  c ← controls (CreateRoom true f selected) !! k;
  match operate c "onClick" VUndef with Some (Forming ev) => Some (form_step f ev) | _ => None end.

Lemma dialog_buttons selected d f :
  pressed selected (lower_button d) f = Some (decrement d f) /\ pressed selected (upper_button d) f = Some (increment d f).
Proof. by destruct d. Qed.

(** C40: What the dialog of a new room can be made to hold is well-formed.  Whatever a user operates in it, in which order, the form
    has between one and ten problems, which are the sum of the three difficulties, none of them negative, and a
    duration from five minutes to two hours in steps of five; the dialog shows these numbers; the upper button in the line of a difficulty
    adds one problem of it while there are less than ten, and is not heard then; the lower one takes one away while the difficulty
    has one and it is not the last of all, and is not heard then; and what a click on one of the two has changed, a click on the other in the
    dialog that is then on show undoes. *)
Theorem room_dialog_typed `{WidgetLaws} (f : RoomForm) (d : Difficulty) (selected : nat -> bool) :
  rtc dialog_happens roomFormInit f ->
  room_form_ok f /\
  (exists f1, pressed selected (upper_button d) f = Some f1 /\
     if (total f <? 10)%Z then number_of d f1 = (number_of d f + 1)%Z /\ total f1 = (total f + 1)%Z /\ pressed selected (lower_button d) f1 = Some f
     else f1 = f) /\
  (exists f1, pressed selected (lower_button d) f = Some f1 /\
     if (1 <? total f)%Z && (0 <? number_of d f)%Z
     then number_of d f1 = (number_of d f - 1)%Z /\ total f1 = (total f - 1)%Z /\ pressed selected (upper_button d) f1 = Some f
     else f1 = f) /\
  exists middle, texts (CreateRoom true f selected) =
    [VStr "Create"; VStr "Create Room"; VStr "Customize your room settings (Max: 10).";
     VStr "Easy"; VStr "x"; VNum (numberOfEasyProblems f); VStr "Medium"; VStr "x"; VNum (numberOfMediumProblems f);
     VStr "Hard"; VStr "x"; VNum (numberOfHardProblems f); VStr "Select Topics"] ++ middle ++
    [VStr "Duration: "; VNum (form_duration f); VStr " mins"; VStr "Create"].
Proof.
  intros (evs & Hevs & ->)%dialog_run. destruct (room_form_typed evs d Hevs) as (H1 & H2 & H3).
  set (f := fold_left form_step evs roomFormInit) in *. destruct (dialog_buttons selected d f) as [-> ->].
  split; [done|]. split; [|split].
  - eexists. split; [done|]. destruct (Z.ltb_spec (total f) 10) as [Hlt|Hge].
    + destruct (H2 Hlt) as [Ht Hu]. rewrite (proj1 (dialog_buttons selected d _)), Hu. split; [|done].
      unfold increment. rewrite (proj2 (Z.leb_gt maxNumberOfProblems (total f))) by (unfold maxNumberOfProblems; lia). by destruct d.
    + unfold increment. by rewrite (proj2 (Z.leb_le maxNumberOfProblems (total f))) by (unfold maxNumberOfProblems; lia).
  - eexists. split; [done|]. destruct (Z.ltb_spec 1 (total f)) as [Hlt|Hge]; cbn [andb].
    1: destruct (Z.ltb_spec 0 (number_of d f)) as [Hp|Hp].
    + destruct (H3 Hlt Hp) as [Ht Hu]. rewrite (proj2 (dialog_buttons selected d _)), Hu. split; [|done].
      unfold decrement, minNumberOfProblems. rewrite (proj2 (Z.leb_gt (total f) 1)), (proj2 (Z.leb_gt (number_of d f) 0)) by lia. by destruct d.
    + unfold decrement, minNumberOfProblems. by rewrite (proj2 (Z.leb_le (number_of d f) 0)), orb_true_r by lia.
    + unfold decrement. by rewrite (proj2 (Z.leb_le (total f) 1)) by lia.
  - exists (flat_map texts (imap (fun i topic => Topic (selected i) topic (PressTopic i)) room_topics)).
    unfold CreateRoom. generalize (imap (fun i topic => Topic (selected i) topic (PressTopic i)) room_topics). intros ts.
    view_simpl. by rewrite ?app_nil_r, <- ?app_assoc.
Qed.

(** Two steps in the dialog: one more hard problem, then fifty minutes. *)
Lemma room_dialog_typed_witness :
  let f := form_step (form_step roomFormInit (More Hard)) (Slide 50) in
  room_form_ok f /\ total f = 2%Z /\ exists middle, texts (CreateRoom true f (fun _ => false)) =
    [VStr "Create"; VStr "Create Room"; VStr "Customize your room settings (Max: 10).";
     VStr "Easy"; VStr "x"; VNum 1; VStr "Medium"; VStr "x"; VNum 0; VStr "Hard"; VStr "x"; VNum 1; VStr "Select Topics"] ++ middle ++
    [VStr "Duration: "; VNum 50; VStr " mins"; VStr "Create"].
Proof.
  intros f. destruct (room_dialog_typed f Easy (fun _ => false)) as (H1 & _ & _ & H4).
  - eapply rtc_l with (form_step roomFormInit (More Hard)); [|eapply rtc_l with f; [|apply rtc_refl]].
    + apply (in_dialog _ (fun _ => false)).
      refine (operated _ (mkControl "button" [onClick (Forming (More Hard))] [] []) "onClick" (fun _ => Forming (More Hard)) VUndef _ _ _ _);
        [|reflexivity|apply list_elem_of_here|intros [=]].
      do 5 apply list_elem_of_further. apply list_elem_of_here.
    + apply (in_dialog _ (fun _ => false)).
      refine (operated _ (mkControl "Slider" [At "min" (VNum 5); At "max" (VNum 120); At "step" (VNum 5); At "value" (VArr [VNum 30]);
                          On "onValueChange" (fun v => Forming (Slide (first_num v)))] [] []) "onValueChange"
                (fun v => Forming (Slide (first_num v))) (VArr [VNum 50]) _ _ _ _);
        [|reflexivity|do 4 apply list_elem_of_further; apply list_elem_of_here|].
      * do 22 apply list_elem_of_further. apply list_elem_of_here.
      * intros _. exists 50%Z, 5%Z, 120%Z, 5%Z. repeat split; discriminate.
  - split; [exact H1|]. split; [reflexivity|exact H4].
Defined.

(** *** The forms *)

(** The button of the sign-up form follows the link around it, whatever is in the form and whatever its errors are. *)
Lemma sign_up_skips_form errors f : click ["Continue"] (SignUpForm errors f) = Some (FollowLink "/dashboard").
Proof.
  unfold SignUpForm, form_field, error_of.
  destruct (list_find _ errors) as [[? [? m1]]|], (list_find _ errors) as [[? [? m2]]|],
    (list_find _ errors) as [[? [? m3]]|], (list_find _ errors) as [[? [? m4]]|]; reflexivity.
Qed.

(** The one of the other form submits it. *)
Lemma log_in_submits errors f : click ["Continue"] (LogInForm errors f) = Some SubmitForm.
Proof.
  unfold LogInForm, form_field, error_of.
  destruct (list_find _ errors) as [[? [? m1]]|], (list_find _ errors) as [[? [? m2]]|]; reflexivity.
Qed.

(** Without problems the live statistics do not render. *)
Lemma no_problems_no_statistics ps i c : LiveStatistics ps [] i c = Throw type_error.
Proof. done. Qed.
