(* ===== verification/WebPages.v ===== *)
(** * The pages of the web application

    What [apps/web/app] puts together: the landing page of
    [packages/components/landingPage], the pages around the forms of [WebViews.v], the
    editor with the table of submissions, and the layout with the bar on each of them; then
    the links on these pages, and where they lead.

    The file names below [app] are the routes; [output: 'export'] of next.config.js leaves no others.
    The table of the submissions is a package's: the rows of its page, and whether there is a page before and after, are
    arguments.  The text of the privacy policy is left out, its links are not. *)

From S2P Require Export WebViews.
Import Web.

(** ** LandingPage.tsx *)

Section landing.
Context {E : Type}.

Definition Feature (title desc icon : string) : View E :=
  div [El "div" [At "backgroundImage" (VStr ("url(" +:+ icon +:+ ")"))] []; El "h3" [] [txt title]; p_ [txt desc]].

Definition window_dots : View E := div [span []; span []; span []].
Definition GreySection (title subtitle text : string) : View E :=
  El "section" [] [div [
    div [El "h3" [] [txt title; El "br" [] []; txt subtitle]; p_ [txt text]];
    div [div [div [div [window_dots; div [txt "https://www.leetcode.com/"]; div []]; div []]]]]].

Definition landing_hero : View E :=
  El "main" [] [
    El "div" [At "backgroundImage" (VStr "url('/long-background.png')")] [];
    div [El "h1" [] [txt "Conquer LeetCode Together."];
         p_ [txt "Solve LeetCode problems with friends in private rooms. Chat live, collaborate, and level up your coding skills together."];
         div [Link "https://chromewebstore.google.com/detail/your-extension-id-here"
                [At "target" (VStr "_blank"); At "rel" (VStr "noopener noreferrer")] [txt "Join Now"]]]].

Definition landing_columns : View E :=
  El "section" [At "id" (VStr "three-columns")] [div [
    div [El "h2" [] [txt "Meet your collaborative "; El "br" [] []; txt "coding extension"];
         p_ [txt "An extension to solve LeetCode problems with friends in private rooms with real-time chat and topic filters built in."]];
    div [Feature "Create Rooms" "Set topics, difficulty, and room name built for your team." "/create-rooms.svg";
         Feature "Collaborative Chat" "Chat with your group as you code instantly." "/chat.svg"]]].

Definition coming_soon : View E :=
  El "section" [At "id" (VStr "coming-soon")] [
    div [El "h2" [] [txt "Coming Soon"];
         p_ [txt "One web application platform. Every feature you need to level up. Something powerful is on the way."]];
    div [div [window_dots; div []]; div []]].

Definition landing_footer : View E :=
  El "footer" [] [div []; div [p_ [txt "BSG"]; Link "/privacy" [] [txt "Privacy Policy"]]].

Definition LandingPage : View E :=
  div [
    landing_hero;
    landing_columns;
    GreySection "Challenge friends." "Master the problem."
      "Spin up a custom room in seconds — pick a difficulty, choose your topics, and invite others to join. It's a shared space to think out loud, solve smarter, and turn practice into progress.";
    GreySection "Stay in Sync." "Solve together."
      "Stay in sync with your teammates through built-in chat. Share quick ideas, swap hints, or celebrate breakthroughs — all without breaking focus or leaving your session.";
    coming_soon;
    landing_footer].

(** ** privacy/page.tsx: its last section and its footer *)

Definition privacy_contact : View E :=
  El "section" [] [
    El "h2" [] [txt "Contact Us"];
    p_ [txt "BSG is an open-source project by ACM at UT Dallas. For questions or data deletion requests, reach out through our"; txt " ";
        El "a" [At "href" (VStr "https://github.com/acmutd/bsg"); At "target" (VStr "_blank"); At "rel" (VStr "noopener noreferrer")]
          [txt "GitHub repository"];
        txt " "; txt "or the"; txt " ";
        El "a" [At "href" (VStr "https://acmutd.co"); At "target" (VStr "_blank"); At "rel" (VStr "noopener noreferrer")]
          [txt "ACM UTD website"]; txt "."]].
Definition privacy_footer : View E :=
  El "footer" [] [div []; div [p_ [txt "BSG"]; Link "/" [] [txt "Back to home"]]].
End landing.

(** ** problem/submissions *)

Inductive SubmissionStatus := Accepted | Runtime_Error | Time_Limit_Exceeded | Wrong_Answer.
Definition status_text (s : SubmissionStatus) : string :=
  match s with
  | Accepted => "Accepted" | Runtime_Error => "Runtime Error" | Time_Limit_Exceeded => "Time Limit Exceeded" | Wrong_Answer => "Wrong Answer"
  end.
(** The memory is kept as the text of the number. *)
Record Submission := mkSubmission {
  sub_id : string;
  time_submitted : string;
  status : SubmissionStatus;
  runtime : Z;
  memory : string;
  language : string;
}.

(** [new Date().toLocaleString().slice(0, -3)] *)
Definition time_text_of (localeNow : string) : string := str_take (String.length localeNow - 3) localeNow.
Definition getData (localeNow : string) : list Submission :=
  map (fun s => mkSubmission "728ed52f" (time_text_of localeNow) s 100 "16.6" "Python3")
    ([Accepted; Time_Limit_Exceeded; Runtime_Error] ++ replicate 9 Accepted).

Inductive TableAct := PreviousPage | NextPageOfTable.
Inductive EditorAct := InTable (a : TableAct) | FocusEditor.

(** A column: its header and its cell *)
Definition columns {E} : list (string * (Submission -> View E)) := [
  ("Time Submitted", fun s => txt (time_submitted s));
  ("Status", fun s => El "div" [Class (if decide (status_text (status s) = "Accepted") then "text-green-500" else "text-red-500")]
                        [txt (status_text (status s))]);
  ("Runtime", fun s => div [txt (z_str (runtime s) +:+ " ms")]);
  ("Memory", fun s => div [txt (memory s +:+ " MB")]);
  ("Language", fun s => txt (language s))].

Definition table_rows {A E} (cols : list (string * (A -> View E))) (rows : list A) : list (View E) :=
  match rows with
  | [] => [El "TableRow" [] [El "TableCell" [At "colSpan" (VNum (Z.of_nat (length cols)))] [txt "No results."]]]
  | _ => map (fun row => El "TableRow" [] (map (fun c => El "TableCell" [] [c.2 row]) cols)) rows
  end.
Definition DataTable {A} (cols : list (string * (A -> View TableAct))) (rows : list A) (canPrevious canNext : bool) : View TableAct :=
  div [div [El "Table" [] [
         El "TableHeader" [] [El "TableRow" [] (map (fun c => El "TableHead" [] [txt c.1]) cols)];
         El "TableBody" [] (table_rows cols rows)]];
       div [Button [onClick PreviousPage; At "disabled" (VBool (negb canPrevious))] [txt "Previous"];
            Button [onClick NextPageOfTable; At "disabled" (VBool (negb canNext))] [txt "Next"]]].

(** [rows]: those of [getData] that are on the page of the table. *)
Definition SubmissionPage (rows : list Submission) (canPrevious canNext : bool) : View TableAct :=
  div [DataTable columns rows canPrevious canNext].

(** ** problem/page.tsx *)

(** The tabs of the library: the content of the selected one is there. *)
Definition tabs {E} (selected : string) (items : list (string * string * list (View E))) : View E :=
  El "Tabs" [] (
    El "TabsList" [] (map (fun i => El "TabsTrigger" [At "value" (VStr i.1.1)] [txt i.1.2]) items) ::
    flat_map (fun i => only (String.eqb i.1.1 selected) [El "TabsContent" [At "value" (VStr i.1.1)] i.2]) items).

(** A quotation mark, and a text in two of them *)
Definition quotation_mark : string := String (Ascii.ascii_of_nat 34) "".
Definition quoted (s : string) : string := quotation_mark +:+ s +:+ quotation_mark.
Definition text_row (l : list string) : string := "[" +:+ join "," (map quoted l) +:+ "]".
Definition test_case {E} : list (View E) := [
  div [p_ [txt "Input="];
       div [p_ [txt ("[" +:+ join "," (map text_row [["A"; "B"; "C"; "E"]; ["S"; "F"; "C"; "S"]; ["A"; "D"; "E"; "E"]]) +:+ "]")]];
       p_ [txt "Output="]; div [p_ [txt (quoted "ABCCED")]]]].

(** [value]: the text in the editor; the buttons Run and Submit have no handler. *)
Definition ProblemPage (tab case value : string) (submissions : View TableAct) : View EditorAct :=
  div [El "ResizablePanelGroup" [] [
    El "ResizablePanel" [] [tabs tab [
      ("problem", "Problem", [txt "Problem Statement"]);
      ("submissions", "Submissions", [map_view InTable submissions]);
      ("solutions", "Solutions", [txt "Solutions"])]];
    El "ResizableHandle" [] [];
    El "ResizablePanel" [] [El "ResizablePanelGroup" [] [
      El "ResizablePanel" [] [El "div" [onClick FocusEditor] [El "CodeMirror" [At "value" (VStr value)] []]];
      El "ResizableHandle" [] [];
      El "ResizablePanel" [] [
        div [p_ [txt "Test Cases"]; FontAwesomeIcon "faCheckCircle"];
        div [tabs case [("case1", "Case 1", test_case); ("case2", "Case 2", test_case); ("case3", "Case 3", test_case)];
             div [Button [] [txt "Run"]]; div [Button [] [txt "Submit"]]];
        div []]]]]].

(** ** apps/extension/pages/signUp.tsx: the form of the web application in the panel *)

Definition signUp (errors : list (string * string)) (f : SignUp) : View AuthAct := div [div [div []; div []]; div [SignUpForm errors f]].

(** ** The site *)

Inductive WebPage := HomePage | DashboardPage | EditorPage | SubmissionsPage | PrivacyPage | LogInPage | SignUpPage.
#[export] Instance web_page_eq : EqDecision WebPage.
Proof. solve_decision. Defined.

(** The route of a page: the folder of its [page.tsx] below [app] *)
Definition path (p : WebPage) : string :=
  match p with
  | HomePage => "/" | DashboardPage => "/dashboard" | EditorPage => "/problem" | SubmissionsPage => "/problem/submissions"
  | PrivacyPage => "/privacy" | LogInPage => "/auth/logIn" | SignUpPage => "/auth/signUp"
  end.
Definition pages : list WebPage := [HomePage; DashboardPage; EditorPage; SubmissionsPage; PrivacyPage; LogInPage; SignUpPage].

(** The links on the screen, and the anchors *)
Fixpoint hrefs {E} (v : View E) : list string :=
  match v with
  | Text _ => []
  | El tag attrs cs => if off_screen tag attrs then [] else
      match attr "href" attrs with VStr h => [h] | _ => [] end ++ flat_map hrefs cs
  end.
Fixpoint ids {E} (v : View E) : list string :=
  match v with
  | Text _ => []
  | El tag attrs cs => match attr "id" attrs with VStr i => [i] | _ => [] end ++ flat_map ids cs
  end.

(** What the page of a route puts into the layout, in any of its states: its links and its anchors *)
Inductive content : WebPage -> list string -> list string -> Prop :=
| home_content : content HomePage (hrefs (@LandingPage WebAct)) (ids (@LandingPage WebAct))
| dashboard_content ui s v : DashboardView ui s = Ok v -> content DashboardPage (hrefs v) (ids v)
| editor_content tab case value rows a b :
    let v := ProblemPage tab case value (SubmissionPage rows a b) in content EditorPage (hrefs v) (ids v)
| submissions_content rows a b : let v := SubmissionPage rows a b in content SubmissionsPage (hrefs v) (ids v)
| privacy_content : let v : View WebAct := div [privacy_contact; privacy_footer] in content PrivacyPage (hrefs v) (ids v)
| log_in_content errors f : let v := div [LogInForm errors f] in content LogInPage (hrefs v) (ids v)
| sign_up_content errors f : let v := div [SignUpForm errors f] in content SignUpPage (hrefs v) (ids v).

(** [RootLayout]: the bar above every page *)
Inductive on_page (p : WebPage) (href : string) : Prop :=
| in_bar isHidden scrollY : href ∈ hrefs (Navbar (bool_decide (p = HomePage)) isHidden scrollY) -> on_page p href
| in_main links anchors : content p links anchors -> href ∈ links -> on_page p href.

(** Where a link leads: to an anchor of the same page, to another site, to a route, or nowhere *)
Inductive LinkTarget := Anchor (id : string) | OtherSite | Route (p : WebPage) | NotFound.
Definition target (href : string) : LinkTarget :=
  if starts_with "#" href then Anchor (str_drop 1 href)
  else if starts_with "https://" href then OtherSite
  else match List.find (fun p => String.eqb (path p) href) pages with Some p => Route p | None => NotFound end.

(** A click on a link or on the logo *)
Inductive goes (p : WebPage) : WebPage -> Prop :=
| by_link href q : on_page p href -> target href = Route q -> goes p q
| by_logo : goes p HomePage.

(** ** Lemmas *)

Lemma route_path href p : target href = Route p -> href = path p.
Proof.
  unfold target. intros Ht. destruct (starts_with "#" href); [done|]. destruct (starts_with "https://" href); [done|].
  destruct (List.find _ pages) as [q|] eqn:Hf; [|done]. injection Ht as ->.
  apply find_some in Hf as [_ Hf]. symmetry. by apply String.eqb_eq.
Qed.
Lemma path_route p : target (path p) = Route p.
Proof. by destruct p. Qed.

Lemma bar_links b h y : hrefs (Navbar b h y) = ["#three-columns"; "#coming-soon"; "/contact"; "/auth/signUp"].
Proof. unfold Navbar, Logo, nav_link. by destruct b, h. Qed.

(** Of the links of a view *)
Definition links {E} (P : string -> Prop) (v : View E) : Prop := Forall P (hrefs v).

Section links.
Context {E : Type} (P : string -> Prop).
Implicit Types (v : View E) (cs : list (View E)) (attrs : list (Attr E)).

Lemma links_el tag attrs cs :
  match attr "href" attrs with VStr h => P h | _ => True end -> Forall (links P) cs -> links P (El tag attrs cs).
Proof.
  intros Ha Hc. unfold links. cbn. destruct (off_screen tag attrs); [done|]. apply Forall_app_2.
  - destruct (attr "href" attrs); by repeat constructor.
  - induction Hc as [|v cs Hv Hcs IH]; [constructor|]. by apply Forall_app_2.
Qed.
Lemma links_map {A} (f : A -> View E) l : (forall x, links P (f x)) -> Forall (links P) (map f l).
Proof. intros Hf. induction l as [|x l IH]; cbn; by constructor. Qed.
Lemma links_imap {A} (f : nat -> A -> View E) l : (forall i x, links P (f i x)) -> Forall (links P) (imap f l).
Proof. intros Hf. apply Forall_lookup. intros i v (x & _ & ->)%list_lookup_imap_Some. apply Hf. Qed.
Lemma links_only b cs : Forall (links P) cs -> Forall (links P) (only b cs).
Proof. by destruct b. Qed.
End links.

(** Descends as far as the view is written out. *)
Ltac links_tac :=
  repeat match goal with
  | H : links _ ?v |- links _ ?v => exact H
  | H : Forall (links _) ?l |- Forall (links _) ?l => exact H
  | |- links _ (El _ _ _) => apply links_el; [try exact I|]
  | |- links _ (Text _) => apply Forall_nil_2
  | |- links _ ?v => let v' := eval hnf in v in progress change v with v'
  | |- Forall (links _) [] => apply Forall_nil_2
  | |- Forall (links _) (_ :: _) => apply Forall_cons_2
  | |- Forall (links _) (_ ++ _) => apply Forall_app_2
  | |- Forall (links _) (only _ _) => apply links_only
  | |- Forall (links _) (map _ _) => apply links_map; intros ?
  | |- Forall (links _) (imap _ _) => apply links_imap; intros ? ?
  | |- Forall (links _) (_.2) => progress cbn [snd]
  end.

Lemma links_view {E F} (f : E -> F) v : hrefs (map_view f v) = hrefs v.
Proof.
  induction v as [t|tag attrs cs IH] using View_ind'; [done|]. cbn [map_view hrefs]. rewrite map_off_screen.
  destruct (off_screen tag attrs); [done|]. f_equal.
  - assert (attr "href" (map (map_attr f) attrs) = attr "href" attrs) as ->; [|done].
    unfold attr. induction attrs as [|[] attrs IHa]; cbn; try done. by destruct (String.eqb _ _).
  - by apply flat_map_map.
Qed.

Section page_links.
Context (P : string -> Prop).

Lemma table_links rows a b : links P (SubmissionPage rows a b).
Proof.
  assert (Forall (links P) (table_rows (@columns TableAct) rows)) as Hr.
  { destruct rows as [|r rows]; [unfold table_rows; links_tac|]. apply links_map. intros s. apply links_el; [exact I|].
    unfold columns. cbn [map snd]. links_tac. }
  unfold SubmissionPage, DataTable. links_tac.
Qed.

Lemma tabs_links {E} selected (items : list (string * string * list (View E))) :
  Forall (fun i => Forall (links P) i.2) items -> links P (tabs selected items).
Proof.
  intros Hi. unfold tabs. links_tac.
  induction Hi as [|i items Hi His IH]; [constructor|]. cbn [flat_map]. links_tac.
Qed.

Lemma editor_links tab case value rows a b : links P (ProblemPage tab case value (SubmissionPage rows a b)).
Proof.
  assert (links P (map_view InTable (SubmissionPage rows a b))) as Ht by (unfold links; rewrite links_view; apply table_links).
  unfold ProblemPage. generalize dependent (map_view InTable (SubmissionPage rows a b)). intros t Ht.
  assert (links P (tabs tab [("problem", "Problem", [txt "Problem Statement"]); ("submissions", "Submissions", [t]);
    ("solutions", "Solutions", [txt "Solutions"])] : View EditorAct)) by (apply tabs_links; repeat (constructor; [cbn [snd]; links_tac|]); constructor).
  assert (links P (tabs case [("case1", "Case 1", @test_case EditorAct); ("case2", "Case 2", test_case); ("case3", "Case 3", test_case)]))
    by (apply tabs_links; unfold test_case; repeat (constructor; [cbn [snd]; links_tac|]); constructor).
  links_tac.
Qed.
End page_links.

(** The links to a problem or a room *)
Definition problem_link (href : string) : Prop := exists id, href = "/apps/web/app/problem/" +:+ id.

Lemma dashboard_links ui s v : DashboardView ui s = Ok v -> links problem_link v.
Proof.
  unfold DashboardView, mbind, res_bind. destruct (filteredProblemList s) as [l|]; [|done]. intros [= <-].
  assert (links problem_link (CreateRoom (du_dialog ui) (du_form ui) (du_roomTopics ui))) as Hc.
  { unfold CreateRoom. links_tac. }
  assert (links problem_link (map_view InDialog (CreateRoom (du_dialog ui) (du_form ui) (du_roomTopics ui)))) by (unfold links; by rewrite links_view).
  unfold ProblemList, problem_list_head. links_tac; cbn; by eexists.
Qed.

(** The links of the page of a route *)
Definition page_links (p : WebPage) (href : string) : Prop :=
  match p with
  | HomePage => href = "https://chromewebstore.google.com/detail/your-extension-id-here" \/ href = path PrivacyPage
  | DashboardPage => problem_link href
  | EditorPage | SubmissionsPage => False
  | PrivacyPage => href = "https://github.com/acmutd/bsg" \/ href = "https://acmutd.co" \/ href = path HomePage
  | LogInPage => href = path SignUpPage
  | SignUpPage => href = path DashboardPage \/ href = path LogInPage
  end.

Lemma error_links {P} errors field : Forall (links P) (error_of errors field).
Proof. unfold error_of. destruct (list_find _ errors) as [[? [? m]]|]; links_tac. Qed.
Lemma field_links {P} errors name label type placeholder value : links P (form_field errors name label type placeholder value).
Proof. pose proof (@error_links P errors name). unfold form_field. links_tac. Qed.

Lemma content_links p hs anchors : content p hs anchors -> Forall (page_links p) hs.
Proof.
  intros [|ui s v Hv|tab case value rows a b v|rows a b v|v|errors f v|errors f v].
  - fold (links (page_links HomePage) (@LandingPage WebAct)). unfold LandingPage. links_tac; hnf; tauto.
  - by eapply dashboard_links.
  - apply editor_links.
  - apply table_links.
  - fold (links (page_links PrivacyPage) v). unfold v. links_tac; hnf; tauto.
  - fold (links (page_links LogInPage) v). unfold v. pose proof (@field_links (page_links LogInPage) errors) as Hf.
    unfold LogInForm. generalize dependent (form_field errors). intros g Hf. links_tac; first [apply Hf | done].
  - fold (links (page_links SignUpPage) v). unfold v. pose proof (@field_links (page_links SignUpPage) errors) as Hf.
    unfold SignUpForm. generalize dependent (form_field errors). intros g Hf. links_tac; first [apply Hf | hnf; tauto].
Qed.

Lemma page_targets p href : page_links p href ->
  match p with
  | DashboardPage => target href = NotFound
  | _ => target href <> NotFound /\ forall q, target href = Route q -> q ∈ [HomePage; PrivacyPage; LogInPage; SignUpPage; DashboardPage]
  end.
Proof.
  destruct p; cbn; try done.
  - intros [->| ->]; (split; [done|]); intros q [= <-]. set_solver.
  - by intros [i ->].
  - intros [->|[->| ->]]; (split; [done|]); intros q [= <-]. set_solver.
  - intros ->. split; [done|]. intros q [= <-]. set_solver.
  - intros [->| ->]; (split; [done|]); intros q [= <-]; set_solver.
Qed.

Lemma bar_targets b h y href : href ∈ hrefs (Navbar b h y) ->
  target href = Anchor "three-columns" \/ target href = Anchor "coming-soon" \/ href = "/contact" \/ target href = Route SignUpPage.
Proof. rewrite bar_links, !elem_of_cons, elem_of_nil. intros [->|[->|[->|[->|[]]]]]; auto. Qed.

Lemma sign_up_page errors f : texts (signUp errors f) = texts (SignUpForm errors f) /\ controls (signUp errors f) = controls (SignUpForm errors f).
Proof. unfold signUp, controls, div. split; cbn [texts controls_in flat_map]; unfold off_screen; repeat eqb_simpl; cbn; by rewrite !app_nil_r. Qed.

(** ** Theorems *)

(** Which links lead nowhere.  On every page in every state: a link that is not answered by a page is the one to a contact page in the bar, or
    one of the dashboard's to a problem or a room, and none of these is answered; an anchor is one that the landing page has. *)
Theorem links_answered p href : on_page p href ->
  (target href = NotFound <-> href = "/contact" \/ p = DashboardPage /\ problem_link href) /\
  forall i, target href = Anchor i -> i ∈ ids (@LandingPage WebAct).
Proof.
  intros [h y Hb|hs anchors Hc Hh].
  - destruct (bar_targets _ _ _ _ Hb) as [Ht|[Ht|[->|Ht]]].
    1,2,4: rewrite Ht; split; [split; [done|]; intros [->|[_ [i ->]]]; discriminate Ht|]; intros i [= <-]; vm_compute; set_solver.
    split; [|done]. split; [auto|done].
  - pose proof (content_links _ _ _ Hc) as Hf. rewrite Forall_forall in Hf. pose proof (Hf _ Hh) as Hp.
    pose proof (page_targets _ _ Hp) as Ht. split.
    + destruct p; cbn in Ht, Hp; try done; (split; [tauto|intros [->|[Hd Hl]]; [by destruct Ht|done]]).
    + intros i Hi. exfalso. destruct p; cbn in Hp; try done.
      * destruct Hp as [->| ->]; discriminate Hi.
      * by rewrite Ht in Hi.
      * destruct Hp as [->|[->| ->]]; discriminate Hi.
      * subst. discriminate Hi.
      * destruct Hp as [->| ->]; discriminate Hi.
Qed.

(** Which pages can be reached.  From the landing page, by links and the logo, in any states of the pages on the way: all but the
    editor and its table of submissions, to which no link leads. *)
Theorem site_reachable p : rtc goes HomePage p <-> p <> EditorPage /\ p <> SubmissionsPage.
Proof.
  split.
  - revert p. apply rtc_ind_r; [done|]. intros q r _ [href r' Hon Ht|] _; [|done].
    destruct Hon as [h y Hb|hs anchors Hc Hh].
    + destruct (bar_targets _ _ _ _ Hb) as [E|[E|[->|E]]]; try (rewrite E in Ht; by inversion Ht). discriminate Ht.
    + pose proof (content_links _ _ _ Hc) as Hf. rewrite Forall_forall in Hf. pose proof (page_targets _ _ (Hf _ Hh)) as Hq.
      destruct q; try (destruct Hq as [_ Hq]; apply Hq in Ht; set_solver). by rewrite Hq in Ht.
  - assert (forall q, goes HomePage q -> rtc goes HomePage q) as H1 by (intros; by apply rtc_once).
    assert (goes HomePage SignUpPage) as Hs.
    { apply (by_link _ "/auth/signUp"); [|done]. apply (in_bar _ _ false 0). rewrite bar_links. set_solver. }
    assert (forall q, q ∈ [DashboardPage; LogInPage] -> goes SignUpPage q) as Hq.
    { intros q Hq. apply (by_link _ (path q)); [|apply path_route].
      eapply in_main; [exact (sign_up_content [] (mkSignUp "" "" "" ""))|]. vm_compute. set_solver. }
    intros [He Hn]. destruct p; try done; [| | |by apply H1].
    + eapply rtc_l; [exact Hs|]. apply rtc_once, Hq. set_solver.
    + apply H1. apply (by_link _ (path PrivacyPage)); [|done]. eapply in_main; [exact home_content|]. vm_compute. set_solver.
    + eapply rtc_l; [exact Hs|]. apply rtc_once, Hq. set_solver.
Qed.
