(* ===== verification/BuildScript.v ===== *)
(** * The build script of the extension

    [scripts/extract-inline.ts]: after [next build], the inline scripts of every page in [out/]
    go to files of their own, because the policy of an extension forbids inline scripts.

    The regular expression [/<script>([\s\S]*?)<\/script>/g] is a scanner: the first opening tag, the first closing tag after it,
    and on from there.  The disk is a map from the names of the files in [out/] to their texts; the pages are the list
    that [globSync] returns.  Texts are lists of characters, as everywhere. *)

From S2P Require Export JsVal.
From Stdlib Require Import Ascii DecimalString.

(** ** The scanner *)

(** The text before the first [sub], and the text after it *)
Fixpoint cut (sub s : string) : option (string * string) :=
  if starts_with sub s then Some ("", str_drop (String.length sub) s)
  else match s with
       | EmptyString => None
       | String a s => (fun '(b, r) => (String a b, r)) <$> cut sub s
       end.

(** The matches of [op ([\s\S]*?) cl]: the text before each, with its group; then the text after the last *)
Fixpoint segments_upto (fuel : nat) (op cl s : string) : list (string * string) * string :=
  match fuel with
  | 0 => ([], s)
  | S n =>
      match cut op s with
      | None => ([], s)
      | Some (before, r) =>
          match cut cl r with
          | None => ([], s)
          | Some (body, rest) => let '(ps, t) := segments_upto n op cl rest in ((before, body) :: ps, t)
          end
      end
  end.
Definition segments (op cl s : string) : list (string * string) * string := segments_upto (S (String.length s)) op cl s.

(** ** extract-inline.ts *)

Definition OPEN : string := "<script>".
Definition CLOSE : string := "</script>".
Definition dq : string := String (ascii_of_nat 34) "".

Definition fileName (counter : nat) : string := "extracted-" +:+ z_str (Z.of_nat counter) +:+ ".js".
Definition SRC_OPEN : string := "<script src=" +:+ dq +:+ "./".
Definition SRC_CLOSE : string := dq +:+ "></script>".
Definition external (file : string) : string := SRC_OPEN +:+ file +:+ SRC_CLOSE.

(** What the callback closes over: the counter, and the files it has written *)
Definition Written : Type := nat * list (string * string).

Definition callback (scriptContent : string) (w : Written) : string * Written :=
  let trimmed := trim scriptContent in
  if String.eqb trimmed "" then ("", w)
  else (external (fileName w.1), (S w.1, w.2 ++ [(fileName w.1, trimmed)])).

(** [html.replace(regex, callback)] *)
Fixpoint replaced (ps : list (string * string)) (tail : string) (w : Written) : string * Written :=
  match ps with
  | [] => (tail, w)
  | (before, body) :: ps =>
      let '(new, w) := callback body w in
      let '(html, w) := replaced ps tail w in
      (before +:+ new +:+ html, w)
  end.
Definition extract_page (html : string) : string * list (string * string) :=
  let '(ps, tail) := segments OPEN CLOSE html in
  let '(html, w) := replaced ps tail (0, []) in (html, w.2).

Abbreviation Disk := (gmap string string).
Definition enoent : Val := VObj [("code", VStr "ENOENT")].
Definition write_all (ws : list (string * string)) (d : Disk) : Disk := fold_left (fun d w => <[w.1 := w.2]> d) ws d.

(** One turn of the loop over [htmlFiles] *)
Definition extract_file (htmlPath : string) (d : Disk) : Res Disk :=
  match d !! htmlPath with
  | None => Throw enoent
  | Some html => let '(html, ws) := extract_page html in Ok (<[htmlPath := html]> (write_all ws d))
  end.
Fixpoint extract_inline (htmlFiles : list string) (d : Disk) : Res Disk :=
  match htmlFiles with
  | [] => Ok d
  | f :: fs => d ← extract_file f d; extract_inline fs d
  end.

(** ** What a browser makes of a page *)

Definition inline_scripts (html : string) : list string := (segments OPEN CLOSE html).1.*2.
(** The files named by elements of the form that the script writes *)
Definition sources (html : string) : list string := (segments SRC_OPEN SRC_CLOSE html).1.*2.
Definition loaded (d : Disk) (html : string) : list (option string) := map (fun f => d !! f) (sources html).

(** The scripts that are not blank, without the white space around them *)
Definition own_scripts (html : string) : list string := List.filter (fun s => negb (String.eqb s "")) (map trim (inline_scripts html)).

(** The texts around those scripts *)
Fixpoint outside_of (acc : string) (ps : list (string * string)) (tail : string) : list string :=
  match ps with
  | [] => [acc +:+ tail]
  | (before, body) :: ps =>
      if String.eqb (trim body) "" then outside_of (acc +:+ before) ps tail else (acc +:+ before) :: outside_of "" ps tail
  end.
Definition outside (html : string) : list string := let '(ps, tail) := segments OPEN CLOSE html in outside_of "" ps tail.

(** A page as [next build] leaves it: outside of its scripts there is no further inline script, and none that is in a file of this form. *)
Definition page_text (t : string) : bool := negb (str_includes OPEN t) && negb (str_includes SRC_OPEN t).
Definition built (html : string) : bool := forallb page_text (outside html).

Example extract_example : extract_page "<p>a</p><script> f(1) </script><b/><script>
</script><script>g()</script>." =
  ("<p>a</p>" +:+ external "extracted-0.js" +:+ "<b/>" +:+ external "extracted-1.js" +:+ ".",
   [("extracted-0.js", "f(1)"); ("extracted-1.js", "g()")]).
Proof. reflexivity. Qed.

(** ** Lemmas: the scanner *)

Lemma cut_cons sub a s : cut sub (String a s) =
  if starts_with sub (String a s) then Some ("", str_drop (String.length sub) (String a s)) else (fun '(b, r) => (String a b, r)) <$> cut sub s.
Proof. done. Qed.

Lemma cut_some sub s b r : cut sub s = Some (b, r) -> s = b +:+ sub +:+ r.
Proof.
  assert (forall s, starts_with sub s = true -> s = sub +:+ str_drop (String.length sub) s) as Hd.
  { intros x [y ->]%starts_with_spec. by rewrite str_drop_app. }
  revert b. induction s as [|a s IH]; intros b; cbn [cut]; destruct (starts_with sub _) eqn:Hs; try done; try (intros [= <- <-]; by apply Hd).
  destruct (cut sub s) as [[b' r']|]; [|done]. intros [= <- <-]. by rewrite (IH b' eq_refl) at 1.
Qed.

Lemma cut_none sub s : cut sub s = None <-> str_includes sub s = false.
Proof.
  induction s as [|a s IH]; cbn [cut str_includes]; destruct (starts_with sub _); cbn; try done.
  rewrite <- IH. by destruct (cut sub s) as [[? ?]|].
Qed.

Lemma cut_shorter sub s b r : sub <> "" -> cut sub s = Some (b, r) -> String.length r < String.length s.
Proof. intros Hs ->%cut_some. rewrite !str_app_length. destruct sub; [done|cbn; lia]. Qed.

Lemma segments_fuel op cl n m s : op <> "" -> cl <> "" -> String.length s < n -> String.length s < m ->
  segments_upto n op cl s = segments_upto m op cl s.
Proof.
  intros Ho Hc. revert m s. induction n as [|n IH]; intros [|m] s Hn Hm; try lia. cbn [segments_upto].
  destruct (cut op s) as [[b r]|] eqn:H1; [|done]. destruct (cut cl r) as [[body rest]|] eqn:H2; [|done].
  apply cut_shorter in H1, H2; [|done..]. by rewrite (IH m) by lia.
Qed.

(** The fuel is enough: the scanner as an equation. *)
Lemma segments_eq op cl s : op <> "" -> cl <> "" ->
  segments op cl s =
    match cut op s with
    | None => ([], s)
    | Some (before, r) =>
        match cut cl r with
        | None => ([], s)
        | Some (body, rest) => let '(ps, t) := segments op cl rest in ((before, body) :: ps, t)
        end
    end.
Proof.
  intros Ho Hc. unfold segments at 1. cbn [segments_upto]. destruct (cut op s) as [[b r]|] eqn:H1; [|done].
  destruct (cut cl r) as [[body rest]|] eqn:H2; [|done]. unfold segments.
  apply cut_shorter in H1, H2; [|done..]. by rewrite (segments_fuel op cl _ (S (String.length rest)) rest) by (done || lia).
Qed.

(** *** Where a tag can begin *)

Section tag.
(** A pattern [String c q] with no further [c]: an occurrence cannot straddle the begin of a text that begins with [c]. *)
Context (c : ascii) (q : string) (Hq : str_forall (fun x => negb (Ascii.eqb x c)) q = true).

Lemma starts_straddle p b r : str_forall (fun x => negb (Ascii.eqb x c)) p = true ->
  starts_with p (b +:+ String c r) = starts_with p b.
Proof.
  revert p. induction b as [|a b IH]; intros [|x p] Hp; try done; cbn [str_forall] in Hp; apply andb_prop in Hp as [Hx Hp].
  - apply negb_true_iff in Hx. rewrite str_app_nil_l. cbn [starts_with]. by rewrite Hx.
  - rewrite str_app_cons. cbn [starts_with]. f_equal. by apply IH.
Qed.

Lemma cut_skip b r : str_includes (String c q) b = false ->
  cut (String c q) (b +:+ String c r) = (fun '(x, y) => (b +:+ x, y)) <$> cut (String c q) (String c r).
Proof.
  induction b as [|a b IH]; intros Hb; [by destruct (cut _ _) as [[? ?]|]|].
  cbn [str_includes] in Hb. apply orb_false_elim in Hb as [Hs Hb]. rewrite str_app_cons.
  rewrite (cut_cons _ a (b +:+ String c r)). assert (starts_with (String c q) (String a (b +:+ String c r)) = false) as ->.
  { cbn [starts_with] in Hs |- *. rewrite starts_straddle by exact Hq. exact Hs. }
  rewrite (IH Hb). destruct (cut (String c q) (String c r)) as [[x y]|]; [|reflexivity]. cbn. by rewrite str_app_cons.
Qed.

Lemma cut_at b r : str_includes (String c q) b = false -> cut (String c q) (b +:+ String c q +:+ r) = Some (b, r).
Proof.
  intros Hb. change (String c q +:+ r) with (String c (q +:+ r)). rewrite (cut_skip b (q +:+ r) Hb).
  change (String c (q +:+ r)) with (String c q +:+ r).
  assert (forall s, starts_with (String c q) s = true -> cut (String c q) s = Some ("", str_drop (String.length (String c q)) s)) as Hc.
  { intros [|a s] Hs; [done|]. cbn [cut]. by rewrite Hs. }
  rewrite Hc by apply starts_with_app. rewrite str_drop_app. cbn. by rewrite str_app_nil_r.
Qed.

Lemma includes_at b r : str_includes (String c q) b = false ->
  str_includes (String c q) (b +:+ String c r) = str_includes (String c q) (String c r).
Proof.
  intros Hb. pose proof (cut_skip b r Hb) as Hc. destruct (cut (String c q) (String c r)) as [[x y]|] eqn:E; cbn in Hc.
  - destruct (str_includes _ (b +:+ _)) eqn:H1; [|by apply cut_none in H1; congruence].
    destruct (str_includes _ (String c r)) eqn:H2; [done|by apply cut_none in H2; congruence].
  - apply cut_none in Hc, E. by rewrite Hc, E.
Qed.

(** A text without [c] before it changes nothing. *)
Lemma includes_free b r : str_forall (fun x => negb (Ascii.eqb x c)) b = true ->
  str_includes (String c q) (b +:+ r) = str_includes (String c q) r.
Proof.
  induction b as [|a b IH]; intros Hb; [done|]. cbn in Hb. apply andb_prop in Hb as [Ha Hb]. rewrite str_app_cons.
  cbn [str_includes starts_with]. apply negb_true_iff in Ha. rewrite Ascii.eqb_sym, Ha. by apply IH.
Qed.

Lemma includes_free_end b : str_forall (fun x => negb (Ascii.eqb x c)) b = true -> str_includes (String c q) b = false.
Proof. intros Hb. pose proof (includes_free b "" Hb) as H. rewrite str_app_nil_r in H. by rewrite H. Qed.
End tag.

(** *** The page that is written *)

(** Texts with external scripts between them *)
Fixpoint weave (ts fs : list string) : string :=
  match ts, fs with
  | t :: ts, f :: fs => t +:+ external f +:+ weave ts fs
  | t :: _, [] => t
  | [], _ => ""
  end.

Definition not_blank (s : string) : bool := negb (String.eqb s "").
Definition bodies (ps : list (string * string)) : list string := List.filter not_blank (map trim ps.*2).

Lemma bodies_cons b body ps :
  bodies ((b, body) :: ps) = if String.eqb (trim body) "" then bodies ps else trim body :: bodies ps.
Proof.
  unfold bodies. change (map trim ((b, body) :: ps).*2) with (trim body :: map trim ps.*2). cbn [List.filter].
  unfold not_blank at 1. by destruct (String.eqb (trim body) "").
Qed.

Lemma own_bodies html : own_scripts html = bodies (segments OPEN CLOSE html).1.
Proof. done. Qed.

Lemma outside_length acc ps tail : length (outside_of acc ps tail) = S (length (bodies ps)).
Proof.
  revert acc. induction ps as [|[b body] ps IH]; intros acc; [done|]. cbn [outside_of]. rewrite bodies_cons.
  destruct (String.eqb (trim body) ""); [apply IH|]. cbn [length]. f_equal. apply IH.
Qed.

Lemma outside_app acc ps tail : exists ts, outside_of acc ps tail =
  (acc +:+ default "" (head (outside_of "" ps tail))) :: ts /\ tl (outside_of "" ps tail) = ts.
Proof.
  revert acc. induction ps as [|[b body] ps IH]; intros acc; cbn [outside_of]; [by eexists|].
  destruct (String.eqb (trim body) ""); [|by eexists]. destruct (IH (acc +:+ b)) as (ts & H1 & H2).
  destruct (IH ("" +:+ b)) as (ts' & H1' & H2'). rewrite H1, H1'. cbn. exists ts. split; [|congruence]. by rewrite str_app_assoc.
Qed.

Lemma weave_app a t ts fs : weave ((a +:+ t) :: ts) fs = a +:+ weave (t :: ts) fs.
Proof. destruct fs; cbn [weave]; by rewrite ?str_app_assoc. Qed.

(** The page is the texts outside of its scripts, with one file after the other between them; the files are its scripts. *)
Lemma replaced_weave ps tail n ws :
  replaced ps tail (n, ws) =
    (weave (outside_of "" ps tail) (map fileName (seq n (length (bodies ps)))),
     (n + length (bodies ps), ws ++ imap (fun i s => (fileName (n + i), s)) (bodies ps))).
Proof.
  revert n ws. induction ps as [|[b body] ps IH]; intros n ws.
  - cbn. by rewrite Nat.add_0_r, app_nil_r.
  - cbn [replaced outside_of]. unfold callback. rewrite bodies_cons. destruct (String.eqb (trim body) "") eqn:E.
    + rewrite IH. f_equal. change ("" +:+ b) with b. destruct (outside_app b ps tail) as (ts & H1 & H2). rewrite H1.
      pose proof (outside_length "" ps tail) as Hl. destruct (outside_of "" ps tail) as [|t0 ts0]; [done|]. cbn in H2. subst.
      cbn [default head]. by rewrite weave_app.
    + cbn [fst snd]. rewrite IH. cbn [length seq map weave imap]. f_equal. rewrite <- app_assoc. f_equal; [lia|].
      f_equal. cbn [app]. rewrite Nat.add_0_r. f_equal. apply imap_ext. intros i x _. cbn. f_equal. f_equal. lia.
Qed.

Lemma extract_weave html : extract_page html =
  (weave (outside html) (map fileName (seq 0 (length (own_scripts html)))), imap (fun i s => (fileName i, s)) (own_scripts html)).
Proof.
  unfold extract_page, outside. rewrite own_bodies. destruct (segments OPEN CLOSE html) as [ps tail]. rewrite replaced_weave. done.
Qed.

(** *** Reading the page that is written *)

Definition no_char (n : nat) (s : string) : bool := str_forall (fun x => negb (Ascii.eqb x (ascii_of_nat n))) s.

Lemma digits_free n d : n < 45 \/ 57 < n -> n < 256 -> no_char n (NilZero.string_of_int d) = true.
Proof.
  intros Hn Hb.
  assert (forall c, 45 <= nat_of_ascii c <= 57 -> Ascii.eqb c (ascii_of_nat n) = false) as Hc.
  { intros c Hr. apply Ascii.eqb_neq. intros ->. rewrite nat_ascii_embedding in Hr by done. lia. }
  assert (forall u, no_char n (NilEmpty.string_of_uint u) = true) as Hu.
  { intros u. unfold no_char. induction u; cbn [NilEmpty.string_of_uint str_forall]; try done; rewrite Hc by (vm_compute; lia); exact IHu. }
  assert (forall u, no_char n (NilZero.string_of_uint u) = true) as Hz.
  { intros u. unfold NilZero.string_of_uint. destruct u; try apply Hu. unfold no_char. cbn [str_forall]. by rewrite Hc by (vm_compute; lia). }
  destruct d as [u|u]; cbn [NilZero.string_of_int]; [apply Hz|]. unfold no_char. cbn [str_forall].
  rewrite Hc by (vm_compute; lia). apply Hz.
Qed.

Lemma name_free n k : n < 45 \/ 57 < n -> n < 256 -> no_char n ("extracted-" +:+ ".js") = true -> no_char n (fileName k) = true.
Proof.
  intros Hn Hb. unfold no_char, fileName. rewrite !str_forall_app, !andb_true_iff. intros [H1 H2]. split; [done|]. split; [|done].
  by apply digits_free.
Qed.

(** *** Its tags *)

Definition lt : ascii := ascii_of_nat 60.
Lemma external_shape f r : external f +:+ r =
  String lt (("script src=" +:+ dq +:+ "./" +:+ f +:+ dq +:+ ">") +:+ String lt ("/script>" +:+ r)).
Proof. unfold external, SRC_OPEN, SRC_CLOSE. by rewrite !str_app_assoc. Qed.

Lemma includes_cons sub a s : str_includes sub (String a s) = starts_with sub (String a s) || str_includes sub s.
Proof. done. Qed.

Lemma open_external f r : no_char 60 f = true -> str_includes OPEN (external f +:+ r) = str_includes OPEN r.
Proof.
  intros Hf. rewrite external_shape, includes_cons. pose proof (includes_free lt "script>") as Hr.
  change (String lt "script>") with OPEN in Hr. rewrite Hr.
  2:{ unfold no_char in Hf. fold lt in Hf. rewrite !str_forall_app, Hf. done. }
  rewrite includes_cons, Hr by done. done.
Qed.

Lemma weave_no_open ts fs : Forall (fun t => str_includes OPEN t = false) ts -> Forall (fun f => no_char 60 f = true) fs ->
  str_includes OPEN (weave ts fs) = false.
Proof.
  intros Ht. revert fs. induction Ht as [|t ts Ht Hts IH]; intros fs Hf; [by destruct fs|].
  destruct Hf as [|f fs Hf Hfs]; cbn [weave]; [done|].
  pose proof (includes_at lt "script>" eq_refl t) as Hs. change (String lt "script>") with OPEN in Hs.
  rewrite external_shape, (Hs _ Ht), <- external_shape, open_external by done. by apply IH.
Qed.

Lemma weave_sources ts fs : length ts = S (length fs) -> Forall (fun t => str_includes SRC_OPEN t = false) ts ->
  Forall (fun f => no_char 34 f = true) fs -> sources (weave ts fs) = fs.
Proof.
  revert ts. induction fs as [|f fs IH]; intros [|t ts] Hl Ht Hf; cbn in Hl; try done;
    apply Forall_cons in Ht as [Ht Hts]; unfold sources.
  - destruct ts; [|done]. cbn [weave]. rewrite segments_eq by done. by rewrite (proj2 (cut_none SRC_OPEN t) Ht).
  - apply Forall_cons in Hf as [Hf Hfs]. cbn [weave]. rewrite segments_eq by done. unfold external. rewrite !str_app_assoc.
    pose proof (cut_at lt ("script src=" +:+ dq +:+ "./") eq_refl t) as Hc.
    change (String lt ("script src=" +:+ dq +:+ "./")) with SRC_OPEN in Hc. rewrite Hc by done.
    pose proof (cut_at (ascii_of_nat 34) "></script>" eq_refl f) as Hd.
    change (String (ascii_of_nat 34) "></script>") with SRC_CLOSE in Hd. rewrite Hd by (by apply includes_free_end).
    specialize (IH ts). unfold sources in IH. destruct (segments SRC_OPEN SRC_CLOSE (weave ts fs)) as [ps tail]. cbn in *.
    f_equal. apply IH; [lia|done..].
Qed.

(** What is read of a page that was written *)
Lemma written_page html : built html = true ->
  inline_scripts (extract_page html).1 = [] /\
  sources (extract_page html).1 = map fileName (seq 0 (length (own_scripts html))) /\
  (extract_page html).2 = imap (fun i s => (fileName i, s)) (own_scripts html).
Proof.
  intros Hb. rewrite extract_weave. cbn [fst snd]. unfold built in Hb. rewrite forallb_forall in Hb.
  assert (forall t, t ∈ outside html -> str_includes OPEN t = false /\ str_includes SRC_OPEN t = false) as Ht.
  { intros t Hi%list_elem_of_In%Hb. unfold page_text in Hi. apply andb_prop in Hi as [H1 H2].
    by apply negb_true_iff in H1, H2. }
  assert (forall n, n = 60 \/ n = 34 -> Forall (fun f => no_char n f = true) (map fileName (seq 0 (length (own_scripts html))))) as Hn.
  { intros n Hn. apply Forall_forall. intros f (i & -> & _)%list_elem_of_fmap. destruct Hn as [-> | ->]; apply name_free; try lia; done. }
  split; [|split; [|done]].
  - unfold inline_scripts. rewrite segments_eq by done. rewrite (proj2 (cut_none OPEN _)); [done|].
    apply weave_no_open; [|apply Hn; auto]. apply Forall_forall. intros t Hi. by apply Ht.
  - apply weave_sources; [|apply Forall_forall; intros t Hi; by apply Ht|apply Hn; auto].
    rewrite length_map, length_seq. unfold outside. rewrite own_bodies. destruct (segments OPEN CLOSE html). apply outside_length.
Qed.

(** *** The disk *)

Definition own (d : Disk) (p : string) : list string := match d !! p with Some html => own_scripts html | None => [] end.
Definition is_page (p : string) : Prop := exists b, p = b +:+ ".html".

#[export] Instance fileName_inj : Inj (=) (=) fileName.
Proof.
  intros i j H. unfold fileName in H. apply (f_equal (str_drop 10)) in H. rewrite !(str_drop_app "extracted-") in H.
  apply last_sep_inj in H; [|done..]. destruct H as [H _]. apply (inj z_str) in H. lia.
Qed.

Fixpoint last_char (s : string) : option ascii :=
  match s with EmptyString => None | String a s => match last_char s with Some c => Some c | None => Some a end end.
Lemma last_char_app s t c : last_char t = Some c -> last_char (s +:+ t) = Some c.
Proof. intros Ht. induction s as [|a s IH]; [done|]. rewrite str_app_cons. cbn. by rewrite IH. Qed.
Lemma page_no_file p k : is_page p -> p <> fileName k.
Proof.
  intros [b ->] H. apply (f_equal last_char) in H. unfold fileName in H. rewrite <- str_app_assoc in H.
  by rewrite (last_char_app _ ".html" _ eq_refl), (last_char_app _ ".js" _ eq_refl) in H.
Qed.

Lemma write_all_app ws ws' d : write_all (ws ++ ws') d = write_all ws' (write_all ws d).
Proof. apply fold_left_app. Qed.

Lemma write_one k s d : write_all [(k, s)] d = <[k := s]> d.
Proof. done. Qed.

Lemma written_file l d k : write_all (imap (fun i s => (fileName i, s)) l) d !! fileName k =
  match l !! k with Some s => Some s | None => d !! fileName k end.
Proof.
  induction l as [|s l IH] using rev_ind; [done|]. rewrite imap_app, write_all_app. cbn [imap]. rewrite write_one. destruct (decide (k = length l)) as [->|Hk].
  - rewrite Nat.add_0_r, lookup_insert_eq, lookup_app_r, Nat.sub_diag by lia. done.
  - rewrite Nat.add_0_r, lookup_insert_ne by (intros ?%(inj fileName); lia). rewrite IH.
    destruct (decide (k < length l)) as [Hl|Hl]; [by rewrite lookup_app_l by lia|].
    rewrite (lookup_ge_None_2 l) by lia. rewrite lookup_ge_None_2; [done|]. rewrite length_app. cbn. lia.
Qed.

Lemma written_other l d x : (forall k, x <> fileName k) -> write_all (imap (fun i s => (fileName i, s)) l) d !! x = d !! x.
Proof.
  intros Hx. induction l as [|s l IH] using rev_ind; [done|]. rewrite imap_app, write_all_app. cbn [imap]. rewrite write_one.
  by rewrite lookup_insert_ne by (intros H; by apply (Hx (length l + 0))).
Qed.

Lemma omap_ext_in {A B} (f g : A -> option B) (l : list A) : (forall x, x ∈ l -> f x = g x) -> omap f l = omap g l.
Proof.
  induction l as [|x l IH]; intros H; [done|]. assert (omap f l = omap g l) as Hl by (apply IH; intros y Hy; apply H; by right).
  change (match f x with Some y => y :: omap f l | None => omap f l end = match g x with Some y => y :: omap g l | None => omap g l end).
  by rewrite (H x), Hl by (by left).
Qed.

(** The loop: the last page that has a [k]-th script leaves it in the [k]-th file. *)
Lemma extract_loop paths d : NoDup paths -> Forall is_page paths ->
  (forall p, p ∈ paths -> exists html, d !! p = Some html /\ built html = true) ->
  exists d', extract_inline paths d = Ok d' /\
    (forall k, d' !! fileName k = match last (omap (fun q => own d q !! k) paths) with Some s => Some s | None => d !! fileName k end) /\
    (forall p, p ∈ paths -> d' !! p = (fun html => (extract_page html).1) <$> d !! p) /\
    (forall p, is_page p -> p ∉ paths -> d' !! p = d !! p).
Proof.
  intros Hnd Hp. revert d. induction Hp as [|f paths Hf Hps IH]; intros d Hd; [by exists d; split_and!; [..|intros ? ?%not_elem_of_nil|]|].
  apply NoDup_cons in Hnd as [Hni Hnd]. destruct (Hd f) as (html & Hh & Hb); [by left|].
  destruct (written_page html Hb) as (_ & _ & Hw).
  set (d1 := <[f := (extract_page html).1]> (write_all (extract_page html).2 d)).
  assert (forall q, is_page q -> q <> f -> d1 !! q = d !! q) as Hq.
  { intros q Hq Hne. unfold d1. rewrite lookup_insert_ne by done. rewrite Hw. apply written_other. intros k. by apply page_no_file. }
  assert (forall q, q ∈ paths -> d1 !! q = d !! q) as Hqs.
  { intros q Hi. rewrite Forall_forall in Hps. apply Hq; [by apply Hps|]. by intros ->. }
  destruct (IH Hnd d1) as (d' & H1 & H2 & H3 & H4).
  { intros q Hi. rewrite (Hqs q Hi). apply Hd. by right. }
  exists d'. split; [|split; [|split]].
  - cbn. unfold extract_file. rewrite Hh. destruct (extract_page html) as [h ws] eqn:E. exact H1.
  - intros k. rewrite H2. cbn [omap list_omap].
    assert (omap (fun q => own d1 q !! k) paths = omap (fun q => own d q !! k) paths) as ->.
    { apply omap_ext_in. intros q Hi. unfold own. by rewrite (Hqs q Hi). }
    assert (own d f = own_scripts html) as -> by (unfold own; by rewrite Hh).
    assert (d1 !! fileName k = match own_scripts html !! k with Some s => Some s | None => d !! fileName k end) as ->.
    { unfold d1. rewrite lookup_insert_ne by (by apply page_no_file). rewrite Hw. apply written_file. }
    destruct (own_scripts html !! k) as [s|]; cbn; [|done]. rewrite last_cons. by destruct (last _).
  - intros p [->|Hi]%elem_of_cons; [|rewrite H3, Hqs by done; done]. rewrite H4 by done. unfold d1.
    by rewrite lookup_insert_eq, Hh.
  - intros p Hpg [Hne Hni']%not_elem_of_cons. by rewrite H4, Hq.
Qed.

(** ** Theorems *)

(** C39: The build leaves no inline script, and loses none of the last page.  On any pages, with distinct names, whose text outside
    of their scripts has no further script: the run succeeds; no page that is left has an inline script; and the [k]-th script that a page
    loads is the [k]-th of the last page, in the order of the run, that has so many scripts (those that are blank do not count), so
    that a page which is alone loads its own scripts, in their order, without the white space around them. *)
Theorem extracted_scripts (htmlFiles : list string) (d : Disk) :
  NoDup htmlFiles -> Forall is_page htmlFiles -> (forall p, p ∈ htmlFiles -> exists html, d !! p = Some html /\ built html = true) ->
  exists d', extract_inline htmlFiles d = Ok d' /\
    forall p html, p ∈ htmlFiles -> d !! p = Some html ->
    exists html', d' !! p = Some html' /\ inline_scripts html' = [] /\
      loaded d' html' = imap (fun k _ => last (omap (fun q => own d q !! k) htmlFiles)) (own_scripts html) /\
      (htmlFiles = [p] -> loaded d' html' = map Some (own_scripts html)).
Proof.
  intros Hn Hp Hd. destruct (extract_loop htmlFiles d Hn Hp Hd) as (d' & H1 & H2 & H3 & _). exists d'. split; [done|].
  intros p html Hi Hh. exists (extract_page html).1. rewrite (H3 p Hi), Hh. split; [done|].
  destruct (Hd p Hi) as (? & Hh' & Hb). assert (x = html) as -> by congruence. destruct (written_page html Hb) as (W1 & W2 & _).
  assert (loaded d' (extract_page html).1 = imap (fun k _ => last (omap (fun q => own d q !! k) htmlFiles)) (own_scripts html)) as Hl.
  { unfold loaded. rewrite W2, map_map. apply list_eq. intros k. rewrite list_lookup_imap, list_lookup_fmap.
    destruct (own_scripts html !! k) as [s|] eqn:Hs; cbn.
    - rewrite lookup_seq_lt by (by eapply lookup_lt_Some). cbn. rewrite H2. f_equal.
      destruct (last _) eqn:E; [done|]. exfalso. apply last_None in E.
      assert (s ∈ omap (fun q => own d q !! k) htmlFiles) as Hin by (apply list_elem_of_omap; exists p; split; [done|unfold own; by rewrite Hh]).
      rewrite E in Hin. by apply not_elem_of_nil in Hin.
    - by rewrite lookup_seq_ge by (by apply lookup_ge_None). }
  split; [done|]. split; [done|]. intros ->. rewrite Hl. apply list_eq. intros k. rewrite list_lookup_imap, list_lookup_fmap. cbn.
  unfold own. rewrite Hh. by destruct (own_scripts html !! k).
Qed.

(** Two pages: the first loads the script of the second. *)
Definition demo_out : Disk := {[ "a.html" := "<script>a()</script>"; "b.html" := "<b/><script>b()</script>" ]}.
Lemma pages_share_files :
  match extract_inline ["a.html"; "b.html"] demo_out with
  | Ok d => from_option (loaded d) [] (d !! "a.html") = [Some "b()"]
  | Throw _ => False
  end.
Proof. vm_compute. reflexivity. Qed.

Lemma extracted_scripts_witness :
  exists d', extract_inline ["a.html"; "b.html"] demo_out = Ok d' /\ exists html', d' !! "a.html" = Some html' /\ inline_scripts html' = [] /\
    loaded d' html' = [Some "b()"].
Proof.
  destruct (extracted_scripts ["a.html"; "b.html"] demo_out) as (d' & H1 & H2).
  - repeat constructor; set_solver.
  - constructor; [by exists "a"|constructor; [by exists "b"|constructor]].
  - intros p [->|[->|[]%not_elem_of_nil]%elem_of_cons]%elem_of_cons; eexists; vm_compute; split; reflexivity.
  - exists d'. split; [exact H1|]. destruct (H2 "a.html" "<script>a()</script>") as (html' & K1 & K2 & K3 & _).
    + left.
    + vm_compute. reflexivity.
    + exists html'. split; [exact K1|]. split; [exact K2|]. rewrite K3. vm_compute. reflexivity.
Defined.
